(* ===== verification/_CoqProject ===== *)
-Q . S2P
Prelude.v
Config.v
Memory.v
LinkedList.v
ListTester.v
Pool.v
PoolSearch.v
Sync.v
Kernel.v
Clock.v
Sysclock.v
ClockTypes.v
Sleep.v
Serial.v
Udp.v
UdpSend.v
Ipc.v
Network.v
UdpStack.v
UdpOpen.v
Untyped.v
Thread.v
Process.v
Spawn.v
Args.v
System.v
Processes.v
UserBoot.v
RootBoot.v
RootUdp.v
RootSpawn.v
RootSystem.v
Log.v
