(* ===== verification/Prelude.v ===== *)
(** * libsel4osapi: a verified model of an OS abstraction for seL4

    libsel4osapi gives the processes of an seL4 system threads, mutexes,
    semaphores, a clock, serial ports, UDP sockets and a log.  One process, the
    root task, owns the machine: it runs the servers and creates the other
    processes.  This development translates the C code under src/ into Gallina
    definitions that run, and proves what its parts promise.

    ** The parts of the program

    - Data structures: a doubly linked list (src/list.c) over the C heap
      (src/memory.c), and a pool of fixed-size entries with a free list and a
      busy list (src/pool.c).  Every other part keeps its objects in pools and
      looks them up with a loop over the busy entries.
    - Servers of the root task: the clock (src/clock.c), the serial server
      (src/io.c), the IPC server (src/ipc.c), the network stack (src/network.c) and the UDP
      socket server with the threads of each socket (src/udp.c).
    - Processes: memory for them (src/util.c, src/process.c, src/system.c), their
      threads (src/thread.c), their creation and start (src/process.c) and
      what they do when they start (src/system.c, src/log.c).

    ** Files

    - [Config]: the Kconfig options (config.h), as a class the model is generic
      in.  [Memory], [LinkedList], [Pool], [PoolSearch]: heap, list, pool, and the
      loop over busy entries; [ListTester]: the thread that tests the list.
    - [Sync]: mutex.h and semaphore.h, with the class [SyncObjects] that the other
      parts are proved against and the instance that discharges it.  [Kernel]: the
      kernel objects and messages the servers use.
    - [Clock]: the operations of clock.c, each refining an abstract list of
      deadlines; [Sysclock]: the server thread and the timer thread as a
      transition system, its invariant and the life of one timeout;
      [ClockTypes]: the widths of its numbers; [Sleep]: a thread that sleeps on a
      timeout.
    - [Serial]: the serial server and its clients over shared pages.
    - [Udp]: the reception path of a bound socket (lwIP callback, rx thread,
      client) as a transition system; [UdpSend]: the tx path; [UdpStack]: the server
      that creates and binds sockets; [UdpOpen]: the client's side of it.
    - [Ipc], [Network]: the IPC server; interfaces and the interrupt thread.
    - [Untyped]: blocks of untyped memory, reserved at boot, claimed at creation
      of a process and returned at its deletion.
    - [Thread]: threads of a process, the wrapper they run in, and join.
    - [Process]: the environment page of a new process; [Spawn]: creating, starting and
      deleting processes; [Args]: the numbers passed in argv; [System]: what
      all tasks initialise alike; [Processes]: one process created after the other, and
      what keeps them apart; [UserBoot]: the start of a process, composed with
      [Process] and [Processes], so that what the root task writes is what the process finds;
      [RootBoot]: the start of the root task and of its servers, up to the state in
      which [Sysclock] begins; [RootUdp]: the start of the network, in which the root
      task implements the interface that [Network] is proved against, up to the
      state in which [UdpStack] begins; [RootSpawn]: several processes after the
      start; [RootSystem]: all of it on one state, boot, network and processes.
    - [Log]: the syslog, on the serial client and the mutexes.

    Definitions carry the names of the C functions; records carry the fields of the
    C structs that the code uses.  A loop body is a definition of its own
    (..._body, ..._loop).

    ** How the code is represented

    Machine words are [Z] with the wrap-around written out ([u32], [s32], in this
    file); the platform is 32-bit.  Effects are a state monad [M] whose outcomes
    ([outcome], also in this file) are a result, a failed assertion, an access through
    NULL or out of bounds, and fuel that ran out.  [wp m Q s] says that from [s] the
    code [m] ends and [Q] holds then, so that every specification stated with it
    also says that no assertion fails and that loops end.  Loops without a
    structural bound take fuel.  A walk over a list gets one unit per location
    the heap has handed out, plus one, which a well-formed list never exhausts
    ([dlist] gives the length of the walk); the loop that allocates untypeds has
    the number of free blocks as measure; the rest recurse over a count the C code
    has as well.  Two loops of the code need not end at all, and take the fuel as a
    parameter: the serial server waiting for a character (its timeout ends the wait
    when there is one), and the client of a rendezvous with such a server.

    The seL4 kernel, libsel4vka, libsel4sync, libsel4utils, libsel4platsupport and
    lwIP are not in the repository.  Each file has a class with the calls it
    makes of them (e.g. [Kernel], [SyncLib], [ThreadEnv], [ProcessLib]) and a second
    class (..Ok) with the documented behaviour the proofs use: allocation
    succeeds while there is room and returns fresh objects, and the like.
    Every Ok class has an instance, a small concrete model at the end of the file,
    under which the witnesses evaluate.

    The build modelled: every CONFIG_LIB_OSAPI option on, CLEAR_BUFFERS
    undefined, and assertions enabled except where [Sync] says otherwise (its
    theorems hold for both settings or show where they differ).

    Threads of one task share memory.  Where they interleave (clock, UDP reception,
    network interrupt, join) the model is a step relation or a list of
    labels with one step per critical section or message; the theorems
    quantify over every run.  Elsewhere an operation runs under the lock the code takes.

    ** What the theorems show

    - Lists and pools: insert appends and terminates, unlink removes exactly one
      node, and a pool behaves as two queues ([list_insert_node_appends],
      [list_unlink_removes], [pool_refines_queues]); the list tester ends
      ([list_tester_ends]).
    - Clock: in every reachable state the pool of timeouts is well formed and no
      step fails; every operation refines the abstract schedule; a scan fires just the
      due timeouts, a one-shot fires once and is released, cancelling removes the
      timeout and answers 1 in every case; a deadline that wraps around fires
      at once; a sleeping thread wakes at its deadline, with a time to return that
      no message brought ([thread_sleep_wakes_at_deadline]).
    - UDP: packets reach the client in order, none lost but those dropped for lack
      of a queue entry, no wakeup lost, and delivery makes progress; sockets are
      well formed under every request; open and bind compose client and server,
      whatever requests came before.
    - Serial: what a client writes is what the UART receives; what a read does.
    - Processes: blocks of memory belong to at most one process and are all
      returned, except when a process without blocks is deleted; creation fills the environment correctly, with buffers that
      overlap nothing; a process that starts finds each object the root task
      meant ([process_boots]); its argv round-trips ([spawn_argv_roundtrip]).
      Processes created one after the other stay true to their environments and
      share no buffer, no frame and no block ([processes_isolated]), and each of them
      comes up ([isolated_process_boots]).
    - The root task comes up: with more blocks of memory than it holds back for
      itself, none of the assertions in its initialisation fails, and everything the
      servers need is there ([root_task_boots]); after that it can create any number
      of processes up to the maximum ([root_creates_process], [root_creates_processes]);
      so it can once the network is up as well, and then the UDP server that was started is
      the one in their environments ([root_task_serves]).
    - Network: one interface comes up with its interrupt, its thread and its address
      ([network_comes_up], [network_starts]), and no interrupt is lost: the handler runs within a bounded number of steps
      ([irq_never_lost]).
    - Types: the numbers of the clock stay 32-bit words and each request gets the
      words its client reads ([clock_values_typed]).
    - Threads are numbered without gaps, join waits for the end of its thread.
    - Log: which bytes reach the console, and that too long a message asserts.

    Several theorems state behaviour that looks unintended, as the code has it:
    [serial_read_replicates], [wrapped_deadline_fires_at_once],
    [udp_unknown_socket_binds_last], [udp_spurious_wakeup],
    [empty_process_delete_frees_block_0], [process_tx_pages_overread],
    [process_without_blocks_adds_null], [log_long_message_asserts].

    ** Not modelled

    - The getters of the singleton (sel4osapi_system_get_vka and the like), and the
      code under #if 0 (sel4osapi_process_fork, doMallocTestNoFree): an object that
      has one instance is the state of the model.
    - The drivers of the UARTs, lwIP, the Ethernet driver and the allocators:
      libraries outside the repository, parameters of the model.
    - The lines the log macros write in the other files (the list tester's are
      modelled): what such a line does to the console and to the mutex of the log
      is [Log].
    - The copies of messages that the kernel makes between address spaces: a
      rendezvous is one step, with the registers of the message ([message]). *)

From Stdlib Require Export ZArith Lia.
From stdpp Require Export base tactics option list numbers fin_maps gmap.

#[global] Open Scope Z_scope.

(** ** Automation shared by the whole development *)

Create HintDb osapi.
Create Rewrite HintDb osapi.

(** Split conjunctions and existentials of the context. *)
Ltac split_hyps :=
  repeat match goal with
  | H : _ /\ _ |- _ => destruct H
  | H : exists _, _ |- _ => destruct H
  end.

(** The usual end of an arithmetic or first-order side goal. *)
Ltac crush := simplify_eq/=; split_hyps; eauto with osapi; try lia; try congruence; try done.

(** [Forall] over a concrete list. *)
Ltac solve_Forall := repeat (apply Forall_cons_2; [done|]); apply Forall_nil_2.

(** ** Machine integers

    The library targets a 32-bit seL4 platform: [seL4_Word], [seL4_CPtr],
    [size_t], [uint32_t] and pointers are 32 bits wide.  A C object of an
    unsigned type of width w is a [Z] in [0, 2^w); arithmetic wraps through
    the functions below.  A signed [int] is a [Z] in [-2^31, 2^31). *)

Definition u8 (z : Z) : Z := z mod 2 ^ 8.
Definition u16 (z : Z) : Z := z mod 2 ^ 16.
Definition u32 (z : Z) : Z := z mod 2 ^ 32.

(** Conversion of a 32-bit word to [int] (two's complement). *)
Definition s32 (z : Z) : Z :=
  let u := u32 z in if u <? 2 ^ 31 then u else u - 2 ^ 32.

Definition is_u8 (z : Z) : Prop := 0 <= z < 2 ^ 8.
Definition is_u32 (z : Z) : Prop := 0 <= z < 2 ^ 32.
Definition is_s32 (z : Z) : Prop := - 2 ^ 31 <= z < 2 ^ 31.

Lemma u8_range z : is_u8 (u8 z).
Proof. apply Z.mod_pos_bound. lia. Qed.

Lemma u32_range z : is_u32 (u32 z).
Proof. apply Z.mod_pos_bound. lia. Qed.

Lemma u8_small z : is_u8 z -> u8 z = z.
Proof. apply Z.mod_small. Qed.

Lemma u16_small z : 0 <= z < 2 ^ 16 -> u16 z = z.
Proof. apply Z.mod_small. Qed.

Lemma u32_small z : is_u32 z -> u32 z = z.
Proof. apply Z.mod_small. Qed.

Lemma u32_idem z : u32 (u32 z) = u32 z.
Proof. apply u32_small, u32_range. Qed.

Lemma s32_small z : 0 <= z < 2 ^ 31 -> s32 z = z.
Proof.
  intros Hz. unfold s32. rewrite u32_small by (unfold is_u32; lia).
  destruct (Z.ltb_spec z (2 ^ 31)); lia.
Qed.

Lemma s32_range z : is_s32 (s32 z).
Proof.
  unfold s32, is_s32. pose proof (u32_range z) as Hu. unfold is_u32 in Hu.
  destruct (Z.ltb_spec (u32 z) (2 ^ 31)); lia.
Qed.

Lemma s32_u32 z : is_s32 z -> s32 (u32 z) = z.
Proof.
  unfold is_s32, s32. rewrite u32_idem. unfold u32. intros Hz.
  change (2 ^ 32) with 4294967296. change (2 ^ 31) with 2147483648 in *.
  destruct (Z.ltb_spec (z mod 4294967296) 2147483648); Z.to_euclidean_division_equations; lia.
Qed.

#[export] Hint Resolve u8_range u32_range s32_range : osapi.
#[export] Hint Rewrite u32_idem : osapi.

(** ** Outcomes

    Running a piece of C either reaches its end, stops in an [assert] whose
    condition is false, touches memory that is not there (a NULL or dangling
    pointer, an index outside an array), or is still inside a loop when the
    fuel given to that loop is spent. *)

Inductive outcome (A : Type) : Type :=
| Done (a : A)
| Assert_failed
| Wild_access
| Out_of_fuel.
Arguments Done {A} a.
Arguments Assert_failed {A}.
Arguments Wild_access {A}.
Arguments Out_of_fuel {A}.

(** Stateful code over a state type [S]. *)
Definition M (S A : Type) : Type := S -> outcome (A * S).

Section monad.
Context {S : Type}.

Definition ret {A} (a : A) : M S A := fun s => Done (a, s).
Definition bind {A B} (m : M S A) (k : A -> M S B) : M S B := fun s =>
  match m s with
  | Done (a, s') => k a s'
  | Assert_failed => Assert_failed
  | Wild_access => Wild_access
  | Out_of_fuel => Out_of_fuel
  end.

Definition get : M S S := fun s => Done (s, s).
Definition put (s : S) : M S unit := fun _ => Done (tt, s).
Definition gets {A} (f : S -> A) : M S A := fun s => Done (f s, s).
Definition modify (f : S -> S) : M S unit := fun s => Done (tt, f s).
Definition assert_ (b : bool) : M S unit := fun s =>
  if b then Done (tt, s) else Assert_failed.
Definition wild {A} : M S A := fun _ => Wild_access.

(** Dereference: the object behind an optional lookup. *)
Definition deref {A} (o : option A) : M S A := fun s =>
  match o with Some a => Done (a, s) | None => Wild_access end.

(** [while (cond (x)) x = body (x);] over the loop's local variables [x]. *)
Fixpoint while {X} (fuel : nat) (cond : X -> bool) (body : X -> M S X) (x : X) : M S X :=
  if cond x then
    match fuel with
    | O => fun _ => Out_of_fuel
    | Datatypes.S fuel' => bind (body x) (while fuel' cond body)
    end
  else ret x.
End monad.

Declare Scope osapi_scope.
Delimit Scope osapi_scope with osapi.
Notation "'let!' x ':=' m 'in' k" := (bind m (fun x => k))
  (at level 10, x pattern, m at level 99, k at level 200) : osapi_scope.
Notation "m ;; k" := (bind m (fun _ => k))
  (at level 100, k at level 200, right associativity) : osapi_scope.
#[global] Open Scope osapi_scope.

(** Run code on a component of a larger state. *)
Definition zoom {S T A} (view : S -> T) (upd : T -> S -> S) (m : M T A) : M S A := fun s =>
  match m (view s) with
  | Done (a, t) => Done (a, upd t s)
  | Assert_failed => Assert_failed
  | Wild_access => Wild_access
  | Out_of_fuel => Out_of_fuel
  end.

(** ** Total correctness

    [wp m Q s]: from [s] the code [m] reaches its end, in a state and with a
    result that satisfy [Q].  No assertion fails, no access is wild, and the
    fuel is enough. *)
Definition wp {S A} (m : M S A) (Q : A -> S -> Prop) (s : S) : Prop :=
  exists a s', m s = Done (a, s') /\ Q a s'.

Section wp_rules.
Context {S : Type}.

Lemma wp_ret {A} (a : A) (Q : A -> S -> Prop) s : Q a s -> wp (ret a) Q s.
Proof. intros H. exists a, s. done. Qed.

Lemma wp_bind {A B} (m : M S A) (k : A -> M S B) Q s :
  wp m (fun a s' => wp (k a) Q s') s -> wp (bind m k) Q s.
Proof.
  intros (a & s' & Hm & b & s'' & Hk & HQ). exists b, s''.
  unfold bind. rewrite Hm. done.
Qed.

Lemma wp_mono {A} (m : M S A) (P Q : A -> S -> Prop) s :
  wp m P s -> (forall a s', P a s' -> Q a s') -> wp m Q s.
Proof. intros (a & s' & Hm & HP) H. exists a, s'. auto. Qed.

Lemma wp_get (Q : S -> S -> Prop) s : Q s s -> wp get Q s.
Proof. intros H. exists s, s. done. Qed.

Lemma wp_put s0 (Q : unit -> S -> Prop) s : Q tt s0 -> wp (put s0) Q s.
Proof. intros H. exists tt, s0. done. Qed.

Lemma wp_gets {A} (f : S -> A) (Q : A -> S -> Prop) s : Q (f s) s -> wp (gets f) Q s.
Proof. intros H. exists (f s), s. done. Qed.

Lemma wp_modify (f : S -> S) (Q : unit -> S -> Prop) s : Q tt (f s) -> wp (modify f) Q s.
Proof. intros H. exists tt, (f s). done. Qed.

Lemma wp_assert b (Q : unit -> S -> Prop) s : b = true -> Q tt s -> wp (assert_ b) Q s.
Proof. intros -> H. exists tt, s. done. Qed.

Lemma wp_deref {A} (o : option A) a (Q : A -> S -> Prop) s :
  o = Some a -> Q a s -> wp (deref o) Q s.
Proof. intros -> H. exists a, s. done. Qed.

Lemma wp_zoom {T A} (view : S -> T) upd (m : M T A) (Q : A -> S -> Prop) s :
  wp m (fun a t => Q a (upd t s)) (view s) -> wp (zoom view upd m) Q s.
Proof.
  intros (a & t & Hm & HQ). exists a, (upd t s). unfold zoom. rewrite Hm. done.
Qed.

(** The loop rule: an invariant indexed by a bound on the iterations left. *)
Lemma wp_while {X} (I : nat -> X -> S -> Prop) fuel cond (body : X -> M S X) (Q : X -> S -> Prop) :
  (forall n x s, I n x s -> cond x = true ->
     exists n', n = Datatypes.S n' /\ wp (body x) (I n') s) ->
  (forall n x s, I n x s -> cond x = false -> Q x s) ->
  forall n x s, I n x s -> (n <= fuel)%nat -> wp (while fuel cond body x) Q s.
Proof.
  intros Hbody Hexit. induction fuel as [|fuel IH]; intros n x s HI Hn.
  - simpl. destruct (cond x) eqn:Hc; [|by eapply wp_ret, Hexit].
    destruct (Hbody _ _ _ HI Hc) as (n' & -> & _). lia.
  - simpl. destruct (cond x) eqn:Hc; [|by eapply wp_ret, Hexit].
    destruct (Hbody _ _ _ HI Hc) as (n' & -> & Hwp).
    apply wp_bind. eapply wp_mono; [exact Hwp|]. intros x' s' HI'.
    eapply IH; [exact HI'|lia].
Qed.

(** Counted loops: for (i = 0; i < n; i++). *)
Lemma wp_for (n : Z) (body : Z -> M S Z) (I : nat -> S -> Prop) (Q : Z -> S -> Prop) s :
  0 <= n ->
  (forall k s, (k < Z.to_nat n)%nat -> I k s ->
     wp (body (Z.of_nat k)) (fun i s' => i = Z.of_nat k + 1 /\ I (Datatypes.S k) s') s) ->
  (forall s, I (Z.to_nat n) s -> Q n s) ->
  I 0%nat s -> wp (while (Z.to_nat n) (fun i => i <? n) body 0) Q s.
Proof.
  intros Hn Hbody Hexit HI.
  apply (wp_while (fun left i s => exists k : nat,
    i = Z.of_nat k /\ (left + k)%nat = Z.to_nat n /\ I k s)) with (n := Z.to_nat n).
  - intros left i s1 (k & -> & Hk & HIk) Hlt%Z.ltb_lt. exists (pred left). split; [lia|].
    eapply wp_mono; [apply Hbody; [lia|done]|]. intros i' s' [-> HI'].
    exists (Datatypes.S k). split; [lia|]. split; [lia|done].
  - intros left i s1 (k & -> & Hk & HIk) Hge%Z.ltb_ge.
    replace k with (Z.to_nat n) in * by lia. rewrite Z2Nat.id by lia. by apply Hexit.
  - exists 0%nat. split; [done|]. split; [lia|done].
  - done.
Qed.

(** More fuel never changes the result of a loop that has ended. *)
Lemma while_more_fuel {X} fuel fuel' cond (body : X -> M S X) x s r :
  (fuel <= fuel')%nat -> while fuel cond body x s = Done r -> while fuel' cond body x s = Done r.
Proof.
  revert fuel' x s. induction fuel as [|fuel IH]; intros fuel' x s Hle Hw;
    destruct fuel' as [|fuel']; try lia; simpl in *; destruct (cond x) eqn:Hc; try done.
  unfold bind in *. destruct (body x s) as [[x' s']| | |]; try done.
  apply IH; [lia|done].
Qed.

Lemma wp_done {A} (m : M S A) (Q : A -> S -> Prop) s a s' :
  wp m Q s -> m s = Done (a, s') -> Q a s'.
Proof. intros (? & ? & Hm & HQ) Hm'. rewrite Hm in Hm'. by simplify_eq. Qed.

Lemma wp_eq {A} (m : M S A) (Q : A -> S -> Prop) s a s' :
  m s = Done (a, s') -> Q a s' -> wp m Q s.
Proof. intros. by exists a, s'. Qed.

Lemma bind_done {A B} (m : M S A) (k : A -> M S B) s a s' :
  m s = Done (a, s') -> bind m k s = k a s'.
Proof. unfold bind. by intros ->. Qed.

(** Failures propagate. *)
Lemma bind_wild {A B} (m : M S A) (k : A -> M S B) s :
  m s = Wild_access -> bind m k s = Wild_access.
Proof. unfold bind. by intros ->. Qed.

Lemma bind_assert_failed {A B} (m : M S A) (k : A -> M S B) s :
  m s = Assert_failed -> bind m k s = Assert_failed.
Proof. unfold bind. by intros ->. Qed.
End wp_rules.

(** One symbolic step of the code in front of the goal. *)
Ltac wp_step :=
  match goal with
  | |- wp (bind _ _) _ _ => apply wp_bind
  | |- wp (ret _) _ _ => apply wp_ret
  | |- wp get _ _ => apply wp_get
  | |- wp (put _) _ _ => apply wp_put
  | |- wp (gets _) _ _ => apply wp_gets
  | |- wp (modify _) _ _ => apply wp_modify
  | |- wp (assert_ _) _ _ => apply wp_assert; [try done | ]
  | |- wp (deref _) _ _ => eapply wp_deref; [ solve [eassumption | reflexivity | simplify_map_eq; done] | ]
  | |- wp (zoom _ _ _) _ _ => apply wp_zoom
  end.
Ltac wp_steps := repeat (wp_step; cbn beta iota).

(** ** Partial correctness

    [wlp m Q s]: if the code reaches its end from [s], what it leaves satisfies
    [Q].  For properties that hold whatever the environment answers. *)
Definition wlp {S A} (m : M S A) (Q : A -> S -> Prop) (s : S) : Prop :=
  forall a s', m s = Done (a, s') -> Q a s'.

Section wlp_rules.
Context {S : Type}.

Lemma wlp_of_wp {A} (m : M S A) (Q : A -> S -> Prop) s : wp m Q s -> wlp m Q s.
Proof. intros H a s' Hm. by eapply wp_done. Qed.

Lemma wlp_mono {A} (m : M S A) (P Q : A -> S -> Prop) s :
  wlp m P s -> (forall a s', P a s' -> Q a s') -> wlp m Q s.
Proof. intros Hm H a s' Hr. by apply H, Hm. Qed.

Lemma wlp_ret {A} (a : A) (Q : A -> S -> Prop) s : Q a s -> wlp (ret a) Q s.
Proof. intros H a' s' [= <- <-]. done. Qed.

Lemma wlp_bind {A B} (m : M S A) (k : A -> M S B) Q s :
  wlp m (fun a s' => wlp (k a) Q s') s -> wlp (bind m k) Q s.
Proof.
  intros Hm b s'. unfold bind. destruct (m s) as [[a s1]| | |] eqn:Hms; try done. by apply Hm.
Qed.

Lemma wlp_get (Q : S -> S -> Prop) s : Q s s -> wlp get Q s.
Proof. intros H a s' [= <- <-]. done. Qed.

Lemma wlp_modify (f : S -> S) (Q : unit -> S -> Prop) s : Q tt (f s) -> wlp (modify f) Q s.
Proof. intros H a s' [= <- <-]. done. Qed.

Lemma wlp_assert b (Q : unit -> S -> Prop) s : (b = true -> Q tt s) -> wlp (assert_ b) Q s.
Proof. intros H a s'. unfold assert_. destruct b; [|done]. intros [= <- <-]. by apply H. Qed.

Lemma wlp_zoom {T A} (view : S -> T) upd (m : M T A) (Q : A -> S -> Prop) s :
  wlp m (fun a t => Q a (upd t s)) (view s) -> wlp (zoom view upd m) Q s.
Proof.
  intros Hm a s'. unfold zoom. destruct (m (view s)) as [[b t]| | |] eqn:Hv; try done.
  intros [= <- <-]. by apply Hm.
Qed.

Lemma wlp_deref {A} (o : option A) (Q : A -> S -> Prop) s : (forall a, o = Some a -> Q a s) -> wlp (deref o) Q s.
Proof. intros H a s'. unfold deref. destruct o; [|done]. intros [= <- <-]. by apply H. Qed.

Lemma wlp_while {X} (I : S -> Prop) fuel cond (body : X -> M S X) x s :
  (forall x s, I s -> wlp (body x) (fun _ => I) s) -> I s -> wlp (while fuel cond body x) (fun _ => I) s.
Proof.
  intros Hbody. revert x s. induction fuel as [|fuel IH]; intros x s Hs; cbn; destruct (cond x); try done.
  - by apply wlp_ret.
  - apply wlp_bind. eapply wlp_mono; [by apply Hbody|]. intros y s' Hs'. by apply IH.
  - by apply wlp_ret.
Qed.

(** Total correctness together with what holds in any case. *)
Lemma wp_wlp {A} (m : M S A) (Q R : A -> S -> Prop) s : wp m Q s -> wlp m R s -> wp m (fun a s' => Q a s' /\ R a s') s.
Proof. intros (a & s' & Hm & HQ) HR. exists a, s'. split; [done|]. split; [done|]. by apply HR. Qed.
End wlp_rules.

(** One symbolic step; an assertion that holds is a new hypothesis. *)
Ltac wlp_step :=
  match goal with
  | |- wlp (bind _ _) _ _ => apply wlp_bind
  | |- wlp (ret _) _ _ => apply wlp_ret
  | |- wlp get _ _ => apply wlp_get
  | |- wlp (modify _) _ _ => apply wlp_modify
  | |- wlp (assert_ _) _ _ => apply wlp_assert; let H := fresh "Hassert" in intros H
  end.
Ltac wlp_steps := repeat (wlp_step; cbn beta iota).

(** ** How many calls a piece of code makes

    [moves view R n m]: running [m] takes the kernel from one state to another
    along [R n], where [R] adds up. *)
Class Graded {K : Type} (R : nat -> K -> K -> Prop) := {
  graded_refl k : R 0%nat k k;
  graded_trans n1 n2 k1 k2 k3 : R n1 k1 k2 -> R n2 k2 k3 -> R (n1 + n2)%nat k1 k3
}.

#[export] Instance bsteps_graded {K} (op : K -> K -> Prop) : Graded (bsteps op).
Proof. split; [intros k; apply bsteps_refl|intros n1 n2 k1 k2 k3; apply bsteps_trans]. Qed.

#[export] Instance rtc_graded {K} (op : K -> K -> Prop) : Graded (fun _ => rtc op).
Proof. split; [done|]. intros _ _ k1 k2 k3 H1 H2. by etrans. Qed.

Section moves.
Context {S K : Type} (view : S -> K) (R : nat -> K -> K -> Prop) {G : Graded R}.

Definition moves {A} (n : nat) (m : M S A) : Prop := forall s, wlp m (fun _ s' => R n (view s) (view s')) s.

Lemma moves_bind {A B} n1 n2 (m : M S A) (f : A -> M S B) : moves n1 m -> (forall a, moves n2 (f a)) -> moves (n1 + n2) (bind m f).
Proof.
  intros H1 H2 s. apply wlp_bind. eapply wlp_mono; [apply H1|]. intros a s1 HR1.
  eapply wlp_mono; [apply H2|]. intros b s2 HR2. exact (graded_trans _ _ _ _ _ HR1 HR2).
Qed.

Lemma moves_ret {A} (a : A) : moves 0 (ret a).
Proof. intros s. apply wlp_ret, graded_refl. Qed.

Lemma moves_get : moves 0 get.
Proof. intros s. apply wlp_get, graded_refl. Qed.

Lemma moves_assert b : moves 0 (assert_ b).
Proof. intros s. apply wlp_assert. intros _. apply graded_refl. Qed.

Lemma moves_deref {A} (o : option A) : moves 0 (deref o).
Proof. intros s. apply wlp_deref. intros a _. apply graded_refl. Qed.

Lemma moves_modify n (f : S -> S) : (forall s, R n (view s) (view (f s))) -> moves n (modify f).
Proof. intros H s. by apply wlp_modify. Qed.

Lemma moves_zoom {T A} (get_ : S -> T) (upd : T -> S -> S) (m : M T A) : (forall t s, view (upd t s) = view s) -> moves 0 (zoom get_ upd m).
Proof. intros H s. apply wlp_zoom. intros a t _. rewrite H. apply graded_refl. Qed.

Lemma moves_while {X} fuel cond (body : X -> M S X) x : (forall x, moves 0 (body x)) -> moves 0 (while fuel cond body x).
Proof.
  intros Hb s. apply (wlp_while (fun s' => R 0%nat (view s) (view s'))); [|apply graded_refl].
  intros y s1 H1. eapply wlp_mono; [apply Hb|]. intros z s2 H2. exact (graded_trans _ _ _ _ _ H1 H2).
Qed.
End moves.

(** ** Lists *)

Section lists.
Context {A : Type}.
Implicit Types (l k : list A) (x : A).

Lemma NoDup_app_not_mid l1 x l2 : NoDup (l1 ++ x :: l2) -> x ∉ l1 ++ l2 /\ NoDup (l1 ++ l2).
Proof.
  intros H. rewrite <- Permutation_middle in H. by apply NoDup_cons in H.
Qed.

Lemma filter_app_mid (P : A -> Prop) `{!forall x, Decision (P x)} l1 x l2 :
  ~ P x -> filter P (l1 ++ x :: l2) = filter P (l1 ++ l2).
Proof. intros Hx. rewrite !filter_app, (filter_cons_False P x l2 Hx). done. Qed.

Lemma filter_all (P : A -> Prop) `{!forall x, Decision (P x)} l :
  Forall P l -> filter P l = l.
Proof.
  induction 1 as [|x l Hx _ IH]; [done|]. by rewrite filter_cons_True, IH.
Qed.

Lemma filter_none (P : A -> Prop) `{!forall x, Decision (P x)} l :
  Forall (fun x => ~ P x) l -> filter P l = [].
Proof. induction 1 as [|x l Hx _ IH]; [done|]. by rewrite filter_cons_False. Qed.
End lists.

(** [src] written over [b] from position [i] on, as memcpy does. *)
Definition splice {A} (b : list A) (i : nat) (src : list A) : list A :=
  take i b ++ src ++ drop (i + length src) b.

Section splice.
Context {A : Type}.
Implicit Types (b src : list A).

Lemma splice_length b i src : (i + length src <= length b)%nat -> length (splice b i src) = length b.
Proof. intros H. unfold splice. rewrite !length_app, length_take, length_drop. lia. Qed.

Lemma splice_nil b i : splice b i [] = b.
Proof. unfold splice. cbn. by rewrite Nat.add_0_r, take_drop. Qed.

Lemma splice_app b i s1 s2 :
  (i + length s1 + length s2 <= length b)%nat ->
  splice (splice b i s1) (i + length s1) s2 = splice b i (s1 ++ s2).
Proof.
  intros H. unfold splice. assert (Hi : length (take i b ++ s1) = (i + length s1)%nat)
    by (rewrite length_app, length_take; lia).
  rewrite !(app_assoc (take i b) s1), take_app_length' by done.
  rewrite drop_app_ge, drop_drop, length_app by lia. rewrite <- !app_assoc. do 3 f_equal.
  f_equal. rewrite length_app, length_take. lia.
Qed.

Lemma splice_0_take b src : take (length src) (splice b 0 src) = src.
Proof. unfold splice. rewrite take_0. cbn [app]. apply take_app_length. Qed.
End splice.

Section lists_eq.
Context {A : Type} `{!EqDecision A}.

Lemma filter_ne_mid (l1 l2 : list A) x :
  NoDup (l1 ++ x :: l2) -> filter (fun y => y <> x) (l1 ++ x :: l2) = l1 ++ l2.
Proof.
  intros Hnd. destruct (NoDup_app_not_mid _ _ _ Hnd) as [Hx _].
  rewrite filter_app_mid by tauto. apply filter_all, Forall_forall.
  intros y Hy ->. done.
Qed.
End lists_eq.

Lemma alter_insert_Some {A} (f : A -> A) (m : gmap positive A) i v :
  m !! i = Some v -> alter f i m = <[i := f v]> m.
Proof.
  intros Hi. apply map_eq. intros j. destruct (decide (i = j)) as [->|].
  - by rewrite lookup_alter_eq, lookup_insert_eq, Hi.
  - by rewrite lookup_alter_ne, lookup_insert_ne.
Qed.
