(* ===== verification/Config.v ===== *)
(** * Config: the build configuration (include/sel4osapi/config.h, network.h, Kconfig)

    Every [SEL4OSAPI_...] constant of config.h is a Kconfig option, and so are
    the pool sizes and addresses of network.h.  The development is generic in them;
    [default_config] holds Kconfig's defaults, and witnesses run under it. *)

From Stdlib Require Import String.
From S2P Require Import Prelude.

Class Config := {
  SEL4OSAPI_BOOTSTRAP_MEM_POOL_SIZE : Z;
  SEL4OSAPI_SYSTEM_VMEM_SIZE : Z;
  SEL4OSAPI_VKA_VMEM_SIZE : Z;
  SEL4OSAPI_ROOT_TASK_UNTYPED_MEM_SIZE : Z;
  SEL4OSAPI_USER_PROCESS_UNTYPED_MEM_SIZE : Z;
  SEL4OSAPI_USER_PROCESS_MAX : Z;
  SEL4OSAPI_PROCESS_RX_BUF_SIZE : Z;
  SEL4OSAPI_PROCESS_TX_BUF_SIZE : Z;
  SEL4OSAPI_USER_PROCESS_PRIORITY_DEFAULT : Z;
  SEL4OSAPI_MAX_THREADS_PER_PROCESS : Z;
  SEL4OSAPI_THREAD_NAME_MAX_LEN : Z;
  SEL4OSAPI_SYSCLOCK_PERIOD_MS : Z;
  SEL4OSAPI_NET_VFACES_MAX : Z;
  SEL4OSAPI_NET_PHYS_IFACES : Z;
  SEL4OSAPI_IP_ADDR_DEFAULT : string;
  SEL4OSAPI_IP_GW_DEFAULT : string;
  SEL4OSAPI_IP_MASK_DEFAULT : string
}.

Definition default_config : Config := {|
  SEL4OSAPI_BOOTSTRAP_MEM_POOL_SIZE := 40960;
  SEL4OSAPI_SYSTEM_VMEM_SIZE := 67108864;
  SEL4OSAPI_VKA_VMEM_SIZE := 67108864;
  SEL4OSAPI_ROOT_TASK_UNTYPED_MEM_SIZE := 67108864;
  SEL4OSAPI_USER_PROCESS_UNTYPED_MEM_SIZE := 67108864;
  SEL4OSAPI_USER_PROCESS_MAX := 5;
  SEL4OSAPI_PROCESS_RX_BUF_SIZE := 16384;
  SEL4OSAPI_PROCESS_TX_BUF_SIZE := 16384;
  SEL4OSAPI_USER_PROCESS_PRIORITY_DEFAULT := 100;
  SEL4OSAPI_MAX_THREADS_PER_PROCESS := 50;
  SEL4OSAPI_THREAD_NAME_MAX_LEN := 50;
  SEL4OSAPI_SYSCLOCK_PERIOD_MS := 5;
  SEL4OSAPI_NET_VFACES_MAX := 2;
  SEL4OSAPI_NET_PHYS_IFACES := 1;
  SEL4OSAPI_IP_ADDR_DEFAULT := "10.10.50.36";
  SEL4OSAPI_IP_GW_DEFAULT := "10.10.0.1";
  SEL4OSAPI_IP_MASK_DEFAULT := "255.255.0.0"
|}.
