(* ===== verification/Memory.v ===== *)
(** * Memory: the C heap (src/memory.c)

    The heap holds the objects the library obtains from [malloc]: list nodes
    and pool elements of a type [E].  A pointer is an optional location; NULL
    is [None].  [malloc] hands out fresh locations while the arena given to
    the C library ([morecore]) has bytes left and returns NULL afterwards. *)

From S2P Require Import Prelude.

Abbreviation loc := positive (only parsing).
Abbreviation ptr := (option positive) (only parsing).
Abbreviation NULL := (@None positive) (only parsing).

(** [ptr] comparison as the code writes it: [p == q], [p != NULL]. *)
Definition ptr_eqb (p q : ptr) : bool := bool_decide (p = q).
Definition non_null (p : ptr) : bool := bool_decide (is_Some p).

(** [struct sel4osapi_list_node] (include/sel4osapi/list.h). *)
Record sel4osapi_list_t := Node { el : ptr; next : ptr; prev : ptr }.

Definition set_next (q : ptr) (n : sel4osapi_list_t) : sel4osapi_list_t := Node (el n) q (prev n).
Definition set_prev (q : ptr) (n : sel4osapi_list_t) : sel4osapi_list_t := Node (el n) (next n) q.

(** Sizes of the structures on the 32-bit target. *)
Definition sizeof_list_t : Z := 12.

#[export] Instance sel4osapi_list_t_eq_dec : EqDecision sel4osapi_list_t.
Proof. solve_decision. Defined.

Section heap.
Context {E : Type}.

Record heap := Heap {
  brk : loc;                       (* next location malloc hands out *)
  avail : Z;                       (* bytes left in the arena *)
  blocks : gmap loc Z;             (* live malloc'd blocks and their sizes *)
  nodes : gmap loc sel4osapi_list_t;
  cells : gmap loc E
}.

Definition with_nodes (m : gmap loc sel4osapi_list_t) (h : heap) : heap :=
  Heap (brk h) (avail h) (blocks h) m (cells h).
Definition with_cells (m : gmap loc E) (h : heap) : heap :=
  Heap (brk h) (avail h) (blocks h) (nodes h) m.

Definition malloc (size : Z) : M heap ptr := fun h =>
  if u32 size <=? avail h then
    Done (Some (brk h),
          Heap (Pos.succ (brk h)) (avail h - u32 size) (<[brk h := u32 size]> (blocks h))
               (nodes h) (cells h))
  else Done (NULL, h).

(** free(NULL) does nothing; freeing anything but a live block is undefined. *)
Definition free (p : ptr) : M heap unit := fun h =>
  match p with
  | None => Done (tt, h)
  | Some l =>
      match blocks h !! l with
      | None => Wild_access
      | Some sz => Done (tt, Heap (brk h) (avail h + sz) (delete l (blocks h))
                                  (delete l (nodes h)) (delete l (cells h)))
      end
  end.

Definition sel4osapi_heap_allocate (size : Z) : M heap ptr := malloc (size + 64).
Definition sel4osapi_heap_free (p : ptr) : M heap unit := free p.

(** Reads and writes of the two kinds of objects. *)
Definition read_node (p : ptr) : M heap sel4osapi_list_t :=
  let! h := get in deref (p ≫= fun l => nodes h !! l).
Definition upd_node (p : ptr) (f : sel4osapi_list_t -> sel4osapi_list_t) : M heap unit :=
  let! _ := read_node p in
  modify (fun h => match p with Some l => with_nodes (alter f l (nodes h)) h | None => h end).
Definition read_cell (p : ptr) : M heap E :=
  let! h := get in deref (p ≫= fun l => cells h !! l).
Definition write_cell (p : ptr) (v : E) : M heap unit :=
  let! _ := read_cell p in
  modify (fun h => match p with Some l => with_cells (<[l := v]> (cells h)) h | None => h end).

(** Iterations that suffice to walk any NULL-terminated list of the heap. *)
Definition heap_fuel (h : heap) : nat := S (size (nodes h)).

(** Every object lies below the next location and in a live block. *)
Record heap_wf (h : heap) : Prop := {
  wf_nodes : forall l, is_Some (nodes h !! l) -> is_Some (blocks h !! l);
  wf_cells : forall l, is_Some (cells h !! l) -> is_Some (blocks h !! l);
  wf_blocks : forall l, is_Some (blocks h !! l) -> (l < brk h)%positive;
  wf_avail : 0 <= avail h
}.

Lemma wf_fresh_node h : heap_wf h -> nodes h !! brk h = None.
Proof.
  intros [Hn _ Hb _]. apply eq_None_not_Some. intros Hs.
  apply Hn, Hb in Hs. lia.
Qed.

Lemma wf_fresh_cell h : heap_wf h -> cells h !! brk h = None.
Proof.
  intros [_ Hc Hb _]. apply eq_None_not_Some. intros Hs.
  apply Hc, Hb in Hs. lia.
Qed.

Lemma malloc_ok size h :
  heap_wf h -> u32 size <= avail h ->
  exists h', malloc size h = Done (Some (brk h), h') /\ heap_wf h' /\
    brk h' = Pos.succ (brk h) /\ avail h' = avail h - u32 size /\
    blocks h' = <[brk h := u32 size]> (blocks h) /\
    nodes h' = nodes h /\ cells h' = cells h.
Proof.
  intros [Hn Hc Hb Ha] Hsz. unfold malloc.
  destruct (Z.leb_spec (u32 size) (avail h)); [|lia].
  eexists. split; [reflexivity|]. split; [|done].
  split; simpl; [| | |lia].
  - intros l Hl. destruct (decide (l = brk h)); simplify_map_eq; eauto.
  - intros l Hl. destruct (decide (l = brk h)); simplify_map_eq; eauto.
  - intros l Hl. destruct (decide (l = brk h)) as [->|]; [lia|].
    simplify_map_eq. apply Hb in Hl. lia.
Qed.

Lemma malloc_null size h : avail h < u32 size -> malloc size h = Done (NULL, h).
Proof. intros H. unfold malloc. by destruct (Z.leb_spec (u32 size) (avail h)); [lia|]. Qed.

Lemma wp_read_node p l nd (Q : sel4osapi_list_t -> heap -> Prop) h :
  p = Some l -> nodes h !! l = Some nd -> Q nd h -> wp (read_node p) Q h.
Proof. intros -> Hl HQ. unfold read_node. wp_steps. done. Qed.

Lemma wp_upd_node p f l nd (Q : unit -> heap -> Prop) h :
  p = Some l -> nodes h !! l = Some nd -> Q tt (with_nodes (alter f l (nodes h)) h) ->
  wp (upd_node p f) Q h.
Proof.
  intros -> Hl HQ. unfold upd_node. wp_step. eapply wp_read_node; [done..|].
  wp_step. done.
Qed.

Lemma wp_read_cell p l v (Q : E -> heap -> Prop) h :
  p = Some l -> cells h !! l = Some v -> Q v h -> wp (read_cell p) Q h.
Proof. intros -> Hl HQ. unfold read_cell. wp_steps. done. Qed.

Lemma wp_write_cell p v l v0 (Q : unit -> heap -> Prop) h :
  p = Some l -> cells h !! l = Some v0 -> Q tt (with_cells (<[l := v]> (cells h)) h) ->
  wp (write_cell p v) Q h.
Proof.
  intros -> Hl HQ. unfold write_cell. wp_step. eapply wp_read_cell; [done..|].
  wp_step. done.
Qed.
End heap.
Arguments heap E : clear implicits.
