(* ===== verification/LinkedList.v ===== *)
(** * LinkedList: the doubly linked list (src/list.c, include/sel4osapi/list.h)

    The operations work on the shared node store of [Memory]; a list is known
    to its callers only by the pointer to its first node.  [dlist m p ls] says
    that the nodes [ls], in this order, form a well-linked NULL-terminated list
    that starts at [p]; its specifications say which nodes an operation may
    touch, so that other lists of the same store are left alone. *)

From S2P Require Import Prelude Memory.

(** [// #define SIMPLE_LIST_LIFO]: the default configuration is FIFO. *)
Definition SIMPLE_LIST_LIFO : bool := false.

Section list_c.
Context {E : Type}.

(** [cursor = head; while (cursor != NULL) { prev = cursor; cursor = cursor->next; }] *)
Definition list_last (head : ptr) : M (heap E) ptr :=
  let! h := get in
  let! r := while (heap_fuel h) (fun x => non_null x.1)
              (fun '(cursor, _) => let! n := read_node cursor in ret (next n, cursor))
              (head, NULL) in
  ret r.2.

Definition sel4osapi_list_insert_node (head node : ptr) : M (heap E) ptr :=
  if SIMPLE_LIST_LIFO then
    assert_ (non_null node) ;;
    upd_node node (set_next head) ;;
    upd_node node (set_prev NULL) ;;
    (if non_null head then upd_node head (set_prev node) else ret tt) ;;
    ret node
  else
    assert_ (non_null node) ;;
    let! prev := list_last head in
    upd_node node (set_next NULL) ;;
    if non_null prev then
      upd_node prev (set_next node) ;;
      upd_node node (set_prev prev) ;;
      ret head
    else
      upd_node node (set_prev NULL) ;;
      ret node.

(** [new_node->el = el] on a fresh block.  The two link fields of the block
    are indeterminate; [sel4osapi_list_insert_node] writes both before any
    code reads them, so their value here (NULL) is never observed. *)
Definition init_node (p : ptr) (e : ptr) : M (heap E) unit :=
  modify (fun h => match p with
                   | Some l => with_nodes (<[l := Node e NULL NULL]> (nodes h)) h
                   | None => h end).

Definition sel4osapi_list_insert (head el : ptr) : M (heap E) ptr :=
  let! new_node := malloc (sizeof_list_t + 64) in
  assert_ (non_null new_node) ;;
  init_node new_node el ;;
  sel4osapi_list_insert_node head new_node.

Definition sel4osapi_list_unlink (head node : ptr) : M (heap E) ptr :=
  assert_ (non_null node) ;;
  assert_ (non_null head) ;;
  let! n := read_node node in
  let prev := prev n in
  let next := next n in
  (if non_null prev then upd_node prev (set_next next) else ret tt) ;;
  (if non_null next then upd_node next (set_prev prev) else ret tt) ;;
  let! head :=
    (if ptr_eqb head node then assert_ (negb (non_null prev)) ;; ret next else ret head) in
  upd_node node (set_prev NULL) ;;
  upd_node node (set_next NULL) ;;
  ret head.

(** The caller's array is a list of slots; writing outside it is undefined. *)
Definition array_store (array : list ptr) (i : nat) (v : ptr) : M (heap E) (list ptr) :=
  if bool_decide (i < length array)%nat then ret (<[i := v]> array) else wild.

Definition sel4osapi_list_to_array (head : ptr) (array : list ptr) (array_len_max : Z)
    : M (heap E) (Z * (list ptr * Z)) :=
  assert_ (non_null head) ;;
  let! r := while (Z.to_nat array_len_max)
              (fun '(i, cursor, _) => (Z.of_nat i <? array_len_max) && non_null cursor)
              (fun '(i, cursor, array) =>
                 let! n := read_node cursor in
                 let! array := array_store array i (el n) in
                 ret (S i, next n, array))
              (0%nat, head, array) in
  ret (0, (r.2, Z.of_nat r.1.1)).

(** [sel4osapi_list_print]: the rows handed to printf, in order. *)
Record list_row := Row { row_i : Z; row_cursor : ptr; row_node : sel4osapi_list_t }.

Definition sel4osapi_list_print (head : ptr) : M (heap E) (list list_row) :=
  let! h := get in
  let! r := while (heap_fuel h) (fun x => non_null x.1.1)
              (fun '(cursor, i, rows) =>
                 let! n := read_node cursor in
                 assert_ (non_null (el n)) ;;
                 ret (next n, i + 1, rows ++ [Row i cursor n]))
              (head, 0, []) in
  ret r.2.
End list_c.

(** ** Well-linked lists *)

(** The pointer to the first node of [ls], or [nx] when there is none. *)
Definition first (nx : ptr) (ls : list loc) : ptr :=
  match ls with [] => nx | l :: _ => Some l end.

(** The pointer to the last node of [ls], or [pv] when there is none. *)
Definition final (pv : ptr) (ls : list loc) : ptr :=
  match last ls with Some l => Some l | None => pv end.

(** A segment: predecessor [pv] of its first node, successor [nx] of its last. *)
Fixpoint dlseg (m : gmap loc sel4osapi_list_t) (pv : ptr) (ls : list loc) (nx : ptr) : Prop :=
  match ls with
  | [] => True
  | l :: ls' => (exists e, m !! l = Some (Node e (first nx ls') pv)) /\ dlseg m (Some l) ls' nx
  end.

Definition dlist (m : gmap loc sel4osapi_list_t) (p : ptr) (ls : list loc) : Prop :=
  p = first NULL ls /\ dlseg m NULL ls NULL.

(** What an operation on the nodes [ls] leaves alone: the other nodes, and the
    element pointer of every node. *)
Definition nodes_frame (ls : list loc) (m m' : gmap loc sel4osapi_list_t) : Prop :=
  (forall l, l ∉ ls -> m' !! l = m !! l) /\ (forall l, el <$> m' !! l = el <$> m !! l).

Lemma final_app pv l1 l2 : final pv (l1 ++ l2) = final (final pv l1) l2.
Proof. unfold final. rewrite last_app. by destruct (last l2), (last l1). Qed.

Lemma final_snoc pv l1 l : final pv (l1 ++ [l]) = Some l.
Proof. by rewrite final_app. Qed.

Lemma first_app nx l1 l2 : first nx (l1 ++ l2) = first (first nx l2) l1.
Proof. by destruct l1. Qed.

Lemma final_cons pv l ls : final pv (l :: ls) = final (Some l) ls.
Proof. apply (final_app pv [l] ls). Qed.

Section dlseg.
Implicit Types (m : gmap loc sel4osapi_list_t) (ls : list loc).

Lemma dlseg_app m pv l1 l2 nx :
  dlseg m pv (l1 ++ l2) nx <->
  dlseg m pv l1 (first nx l2) /\ dlseg m (final pv l1) l2 nx.
Proof.
  revert pv. induction l1 as [|l l1 IH]; intros pv; simpl; [tauto|].
  rewrite IH, first_app, final_cons. tauto.
Qed.

Lemma dlseg_agree m m' pv ls nx :
  (forall l, l ∈ ls -> m' !! l = m !! l) -> dlseg m pv ls nx -> dlseg m' pv ls nx.
Proof.
  revert pv. induction ls as [|l ls IH]; intros pv Hag; simpl; [done|].
  intros [[e He] Hs]. split.
  - exists e. rewrite Hag; [done|set_solver].
  - apply IH; [set_solver|done].
Qed.

Lemma dlseg_lookup m pv ls nx l : dlseg m pv ls nx -> l ∈ ls -> is_Some (m !! l).
Proof.
  revert pv. induction ls as [|l' ls IH]; intros pv; simpl; [set_solver|].
  intros [[e He] Hs] [->|Hin]%elem_of_cons; [by rewrite He|eauto].
Qed.

(** A well-linked NULL-terminated segment is determined by its first node, *)
Lemma dlseg_functional m pv pv' l a b :
  dlseg m pv (l :: a) NULL -> dlseg m pv' (l :: b) NULL -> a = b.
Proof.
  revert pv pv' l b. induction a as [|x a IH]; intros pv pv' l b [[e He] Ha] [[e' He'] Hb];
    rewrite He in He'; destruct b as [|y b]; simplify_eq/=; [done|].
  f_equal. eapply IH; [exact Ha|exact Hb].
Qed.

(** and so has no repeated node: such a list is never cyclic. *)
Lemma dlseg_NoDup m pv ls : dlseg m pv ls NULL -> NoDup ls.
Proof.
  revert pv. induction ls as [|l ls IH]; intros pv Hs; [constructor|].
  constructor; [|destruct Hs; eauto].
  intros Hin. apply list_elem_of_split in Hin as (l1 & l2 & ->).
  pose proof Hs as [_ Hs2]. apply dlseg_app in Hs2 as [_ Hs2].
  pose proof (dlseg_functional _ _ _ _ _ _ Hs Hs2) as Heq.
  apply (f_equal length) in Heq. rewrite length_app in Heq. simpl in Heq. lia.
Qed.

(** Rewriting the last successor, or the first predecessor, of a segment. *)
Lemma dlseg_set_nx m pv ls x nx nx' :
  x ∉ ls -> dlseg m pv (ls ++ [x]) nx -> dlseg (alter (set_next nx') x m) pv (ls ++ [x]) nx'.
Proof.
  rewrite !dlseg_app. simpl. intros Hx [Hls [[e He] _]]. split.
  - eapply dlseg_agree; [|exact Hls]. intros l Hl. apply lookup_alter_ne. set_solver.
  - split; [|done]. exists e. by rewrite lookup_alter_eq, He.
Qed.

Lemma dlseg_set_pv m pv pv' x ls nx :
  x ∉ ls -> dlseg m pv (x :: ls) nx -> dlseg (alter (set_prev pv') x m) pv' (x :: ls) nx.
Proof.
  simpl. intros Hx [[e He] Hls]. split.
  - exists e. by rewrite lookup_alter_eq, He.
  - eapply dlseg_agree; [|exact Hls]. intros l Hl. apply lookup_alter_ne. set_solver.
Qed.

Lemma dlist_NoDup m p ls : dlist m p ls -> NoDup ls.
Proof. intros [_ Hs]. by eapply dlseg_NoDup. Qed.

Lemma dlist_lookup m p ls l : dlist m p ls -> l ∈ ls -> is_Some (m !! l).
Proof. intros [_ Hs]. by eapply dlseg_lookup. Qed.

Lemma dlist_first m p ls : dlist m p ls -> p = first NULL ls.
Proof. by intros []. Qed.

Lemma dlist_nil m : dlist m NULL [].
Proof. done. Qed.

Lemma dlist_split m p l1 x l2 :
  dlist m p (l1 ++ x :: l2) -> exists e, m !! x = Some (Node e (first NULL l2) (final NULL l1)).
Proof. intros [_ Hs]. apply dlseg_app in Hs as [_ [He _]]. exact He. Qed.

(** A list is untouched by what happens to other nodes. *)
Lemma dlist_frame m m' ls p ls' :
  nodes_frame ls m m' -> ls ## ls' -> dlist m p ls' -> dlist m' p ls'.
Proof.
  intros [Hag _] Hd [-> Hs]. split; [done|]. eapply dlseg_agree; [|exact Hs].
  intros l Hl. apply Hag. set_solver.
Qed.

(** A NULL-terminated list is never longer than the heap has nodes. *)
Lemma dlist_size m p ls : dlist m p ls -> (length ls <= size m)%nat.
Proof.
  intros Hd. pose proof (dlist_NoDup _ _ _ Hd) as Hnd.
  rewrite <- size_dom. rewrite <- (size_list_to_set (C:=gset loc) ls) by done.
  apply subseteq_size. intros l Hl%elem_of_list_to_set.
  apply elem_of_dom. by eapply dlist_lookup.
Qed.

Lemma dlist_fuel {E} (h : heap E) p ls : dlist (nodes h) p ls -> (length ls <= heap_fuel h)%nat.
Proof. intros Hd%dlist_size. unfold heap_fuel. lia. Qed.
End dlseg.

#[export] Hint Resolve dlist_NoDup dlist_nil : osapi.

(** ** Frames compose *)

Lemma nodes_frame_refl ls m : nodes_frame ls m m.
Proof. done. Qed.

Lemma nodes_frame_trans ls m1 m2 m3 :
  nodes_frame ls m1 m2 -> nodes_frame ls m2 m3 -> nodes_frame ls m1 m3.
Proof.
  intros [A1 E1] [A2 E2]. split; intros l; [intros Hl|]; [rewrite A2, A1|rewrite E2, E1]; done.
Qed.

Lemma nodes_frame_mono ls ls' m m' : ls ⊆ ls' -> nodes_frame ls m m' -> nodes_frame ls' m m'.
Proof. intros Hs [A E]. split; [|done]. intros l Hl. apply A. set_solver. Qed.

#[export] Instance nodes_frame_preorder ls : PreOrder (nodes_frame ls).
Proof. split; [intros m; apply nodes_frame_refl|intros ???; apply nodes_frame_trans]. Qed.

Lemma nodes_frame_alter_next ls q l m : l ∈ ls -> nodes_frame ls m (alter (set_next q) l m).
Proof.
  intros Hl. split; intros l'; [intros Hl'; apply lookup_alter_ne; set_solver|].
  destruct (decide (l = l')) as [->|]; [|by rewrite lookup_alter_ne].
  rewrite lookup_alter_eq. by destruct (m !! l').
Qed.

Lemma nodes_frame_alter_prev ls q l m : l ∈ ls -> nodes_frame ls m (alter (set_prev q) l m).
Proof.
  intros Hl. split; intros l'; [intros Hl'; apply lookup_alter_ne; set_solver|].
  destruct (decide (l = l')) as [->|]; [|by rewrite lookup_alter_ne].
  rewrite lookup_alter_eq. by destruct (m !! l').
Qed.

#[export] Hint Resolve nodes_frame_refl nodes_frame_alter_next nodes_frame_alter_prev : osapi.

Lemma nodes_frame_lookup ls m m' l : nodes_frame ls m m' -> is_Some (m !! l) -> is_Some (m' !! l).
Proof.
  intros [_ He] Hs. specialize (He l). destruct Hs as [n Hn]. rewrite Hn in He.
  destruct (m' !! l); [by eexists|done].
Qed.

(** ** Specifications *)

Section specs.
Context {E : Type}.
Implicit Types (h : heap E) (ls : list loc).

(** The heap after an operation on the nodes [ls]: only the node map moved. *)
Definition list_post (ls : list loc) h (Q : ptr -> gmap loc sel4osapi_list_t -> Prop)
    : ptr -> heap E -> Prop := fun p h' =>
  exists m, h' = with_nodes m h /\ nodes_frame ls (nodes h) m /\ Q p m.

Lemma wp_list_last p ls h (Q : ptr -> heap E -> Prop) :
  dlist (nodes h) p ls -> Q (final NULL ls) h -> wp (list_last p) Q h.
Proof.
  intros Hd HQ. unfold list_last. wp_steps.
  eapply (wp_while (fun n x s => s = h /\
    exists l1 l2, ls = l1 ++ l2 /\ x = (first NULL l2, final NULL l1) /\ n = length l2)).
  - intros n x s (-> & l1 & l2 & -> & -> & ->) Hc. destruct l2 as [|l l2]; [done|].
    destruct (dlist_split _ _ _ _ _ Hd) as [e He].
    eexists. split; [reflexivity|]. wp_step. eapply wp_read_node; [done..|]. wp_step.
    split; [done|]. exists (l1 ++ [l]), l2. by rewrite <- app_assoc, final_snoc.
  - intros n x s (-> & l1 & l2 & -> & -> & ->) Hc. destruct l2; [|done].
    wp_step. by rewrite app_nil_r in HQ.
  - split; [done|]. exists [], ls. split_and!; [done| |done].
    by rewrite (dlist_first _ _ _ Hd).
  - by eapply dlist_fuel.
Qed.

Lemma wp_insert_node p ls n h :
  dlist (nodes h) p ls -> n ∉ ls -> is_Some (nodes h !! n) ->
  wp (sel4osapi_list_insert_node p (Some n))
     (list_post (ls ++ [n]) h (fun p' m => dlist m p' (ls ++ [n]))) h.
Proof.
  intros Hd Hn [nd Hnd]. unfold sel4osapi_list_insert_node, SIMPLE_LIST_LIFO. cbn iota.
  wp_steps. eapply wp_list_last; [done|]. wp_step.
  eapply wp_upd_node; [done..|].
  destruct ls as [|l ls _] using rev_ind.
  - cbn. wp_step. eapply wp_upd_node; [done|simpl; by rewrite lookup_alter_eq, Hnd|].
    wp_step. eexists. split; [reflexivity|]. split.
    + cbn. etrans; [eapply (nodes_frame_alter_next _ NULL n)|apply nodes_frame_alter_prev]; set_solver.
    + split; [done|]. split; [|done]. exists (el nd). cbn. by rewrite !lookup_alter_eq, Hnd.
  - rewrite final_snoc. cbn.
    destruct (dlist_lookup _ _ _ l Hd) as [ndl Hl]; [set_solver|].
    assert (l ≠ n) by set_solver.
    wp_step. eapply wp_upd_node; [done|simpl; by rewrite lookup_alter_ne, Hl|].
    wp_step. eapply wp_upd_node; [done|simpl; by rewrite lookup_alter_ne, lookup_alter_eq, Hnd|].
    wp_step. eexists. split; [reflexivity|]. cbn. split.
    + etrans; [eapply (nodes_frame_alter_next _ NULL n)|]; [set_solver|].
      etrans; [eapply (nodes_frame_alter_next _ (Some n) l)|]; [set_solver|].
      apply nodes_frame_alter_prev. set_solver.
    + destruct Hd as [-> Hs]. split; [by rewrite !first_app|].
      apply dlseg_app. rewrite final_snoc. split.
      * eapply dlseg_agree.
        { intros x Hx. apply lookup_alter_ne. set_solver. }
        apply (dlseg_set_nx _ _ _ _ NULL).
        { apply dlseg_NoDup, NoDup_app in Hs. set_solver. }
        eapply dlseg_agree; [|exact Hs]. intros x Hx. apply lookup_alter_ne. set_solver.
      * split; [|done]. exists (el nd). cbn.
        by rewrite lookup_alter_eq, lookup_alter_ne, lookup_alter_eq, Hnd.
Qed.

(** [if (p != NULL) p->field = ...] *)
Definition alter_opt (f : sel4osapi_list_t -> sel4osapi_list_t) (p : ptr)
    (m : gmap loc sel4osapi_list_t) : gmap loc sel4osapi_list_t :=
  match p with Some l => alter f l m | None => m end.

Lemma wp_upd_if p f h (Q : unit -> heap E -> Prop) :
  (forall l, p = Some l -> is_Some (nodes h !! l)) ->
  Q tt (with_nodes (alter_opt f p (nodes h)) h) ->
  wp (if non_null p then upd_node p f else ret tt) Q h.
Proof.
  intros Hp HQ. destruct p as [l|]; cbn.
  - destruct (Hp l eq_refl) as [nd Hl]. by eapply wp_upd_node.
  - apply wp_ret. destruct h. exact HQ.
Qed.

Lemma alter_opt_lookup f p m l : p <> Some l -> alter_opt f p m !! l = m !! l.
Proof. destruct p; simpl; [|done]. intros. apply lookup_alter_ne. congruence. Qed.

Lemma nodes_frame_alter_opt ls f p m :
  (forall l, p = Some l -> l ∈ ls) -> (forall n, el (f n) = el n) ->
  nodes_frame ls m (alter_opt f p m).
Proof.
  intros Hp Hf. destruct p as [l|]; simpl; [|done]. specialize (Hp l eq_refl).
  split; intros l'; [intros Hl'; apply lookup_alter_ne; set_solver|].
  destruct (decide (l = l')) as [->|]; [|by rewrite lookup_alter_ne].
  rewrite lookup_alter_eq. destruct (m !! l'); simpl; [by rewrite Hf|done].
Qed.

Lemma final_in ls l : final NULL ls = Some l -> l ∈ ls.
Proof.
  unfold final. destruct (last ls) eqn:Hl; [|done]. intros. simplify_eq.
  apply last_Some in Hl as [l' ->]. set_solver.
Qed.

Lemma first_in ls l : first NULL ls = Some l -> l ∈ ls.
Proof. destruct ls; simpl; [done|]. intros. simplify_eq. set_solver. Qed.

Lemma dlseg_relink_nx m ls nx nx' :
  NoDup ls -> dlseg m NULL ls nx -> dlseg (alter_opt (set_next nx') (final NULL ls) m) NULL ls nx'.
Proof.
  destruct ls as [|l ls _] using rev_ind; [done|]. rewrite final_snoc. intros Hnd.
  apply dlseg_set_nx. apply NoDup_app in Hnd. set_solver.
Qed.

Lemma dlseg_relink_pv m pv pv' ls :
  NoDup ls -> dlseg m pv ls NULL -> dlseg (alter_opt (set_prev pv') (first NULL ls) m) pv' ls NULL.
Proof.
  destruct ls as [|l ls]; [done|]. intros [Hl _]%NoDup_cons. cbn [first alter_opt].
  by apply dlseg_set_pv.
Qed.

Lemma alter_opt_agree f p m ls : (forall l, p = Some l -> l ∉ ls) ->
  forall l, l ∈ ls -> alter_opt f p m !! l = m !! l.
Proof. intros Hp l Hl. apply alter_opt_lookup. intros ->. by eapply Hp. Qed.

(** Taking the node [n] out of the chain [l1 ++ n :: l2]. *)
Lemma dlist_bypass m p l1 n l2 :
  dlist m p (l1 ++ n :: l2) ->
  dlseg (alter_opt (set_prev (final NULL l1)) (first NULL l2)
          (alter_opt (set_next (first NULL l2)) (final NULL l1) m)) NULL (l1 ++ l2) NULL.
Proof.
  intros [-> Hs]. pose proof (dlseg_NoDup _ _ _ Hs) as Hnd.
  apply dlseg_app in Hs as [H1 [_ H2]].
  apply NoDup_app in Hnd as (Hnd1 & Hd12 & Hnd2). apply NoDup_cons in Hnd2 as [Hn2 Hnd2].
  apply dlseg_app. split.
  - eapply dlseg_agree; [|by eapply (dlseg_relink_nx m l1 (Some n) (first NULL l2))].
    apply alter_opt_agree. intros l Hl%first_in. set_solver.
  - apply (dlseg_relink_pv _ (Some n)); [done|].
    eapply dlseg_agree; [|exact H2].
    apply alter_opt_agree. intros l Hl%final_in. set_solver.
Qed.

Lemma wp_unlink p l1 n l2 h :
  dlist (nodes h) p (l1 ++ n :: l2) ->
  wp (sel4osapi_list_unlink p (Some n))
     (list_post (l1 ++ n :: l2) h (fun p' m =>
        dlist m p' (l1 ++ l2) /\ exists e, m !! n = Some (Node e NULL NULL))) h.
Proof.
  intros Hd. pose proof (dlist_NoDup _ _ _ Hd) as Hnd.
  destruct (NoDup_app_not_mid _ _ _ Hnd) as [Hn Hnd'].
  destruct (dlist_split _ _ _ _ _ Hd) as [e He].
  pose proof (dlist_bypass _ _ _ _ _ Hd) as Hby.
  set (m1 := alter_opt (set_next (first NULL l2)) (final NULL l1) (nodes h)) in *.
  set (m2 := alter_opt (set_prev (final NULL l1)) (first NULL l2) m1) in *.
  assert (Hm1 : nodes_frame (l1 ++ n :: l2) (nodes h) m1).
  { apply nodes_frame_alter_opt; [|done]. intros l Hl%final_in. set_solver. }
  assert (Hm2 : nodes_frame (l1 ++ n :: l2) (nodes h) m2).
  { etrans; [exact Hm1|]. apply nodes_frame_alter_opt; [|done]. intros l Hl%first_in. set_solver. }
  assert (Hn2 : m2 !! n = Some (Node e (first NULL l2) (final NULL l1))).
  { unfold m2, m1. rewrite !alter_opt_lookup; [done| |].
    - intros Hl%final_in. set_solver. - intros Hl%first_in. set_solver. }
  unfold sel4osapi_list_unlink. wp_steps.
  { rewrite (dlist_first _ _ _ Hd). by destruct l1. }
  eapply wp_read_node; [done..|]. cbn. wp_step. apply wp_upd_if.
  { intros l Hl%final_in. eapply dlist_lookup; [exact Hd|set_solver]. }
  wp_step. apply wp_upd_if.
  { intros l Hl%first_in. cbn. eapply nodes_frame_lookup; [exact Hm1|].
    eapply dlist_lookup; [exact Hd|set_solver]. }
  cbn. fold m1 m2. wp_step.
  apply (wp_eq _ _ _ (first NULL (l1 ++ l2)) (with_nodes m2 h)).
  { rewrite (dlist_first _ _ _ Hd). destruct l1 as [|x l1]; unfold ptr_eqb; cbn.
    - by rewrite bool_decide_true.
    - rewrite bool_decide_false by set_solver. done. }
  wp_step. eapply wp_upd_node; [done..|].
  wp_step. eapply wp_upd_node; [done|cbn; by rewrite lookup_alter_eq, Hn2|].
  wp_step. eexists. split; [reflexivity|]. cbn. split; [|split; [split; [done|]|]].
  - etrans; [exact Hm2|]. etrans; [eapply (nodes_frame_alter_prev _ NULL n)|apply nodes_frame_alter_next];
      set_solver.
  - eapply dlseg_agree; [|exact Hby]. intros l Hl. rewrite !lookup_alter_ne; [done|set_solver..].
  - exists e. by rewrite !lookup_alter_eq, Hn2.
Qed.

(** [sel4osapi_list_insert]: a fresh node that carries [e] joins the list. *)
Lemma wp_list_insert p ls e h :
  heap_wf h -> dlist (nodes h) p ls -> u32 (sizeof_list_t + 64) <= avail h ->
  wp (sel4osapi_list_insert p e)
     (fun p' h' =>
        heap_wf h' /\ nodes h !! brk h = None /\
        dlist (nodes h') p' (ls ++ [brk h]) /\
        (exists nx pv, nodes h' !! brk h = Some (Node e nx pv)) /\
        (forall l, l ∉ ls ++ [brk h] -> nodes h' !! l = nodes h !! l) /\
        (forall l, l <> brk h -> el <$> nodes h' !! l = el <$> nodes h !! l) /\
        cells h' = cells h /\ brk h' = Pos.succ (brk h) /\
        avail h' = avail h - u32 (sizeof_list_t + 64)) h.
Proof.
  intros Hwf Hd Hmem. pose proof (wf_fresh_node _ Hwf) as Hfresh.
  assert (Hnew : brk h ∉ ls).
  { intros Hin. destruct (dlist_lookup _ _ _ _ Hd Hin). congruence. }
  destruct (malloc_ok _ _ Hwf Hmem) as (h1 & Hm & Hwf1 & Hbrk & Hav & Hbl & Hno & Hce).
  unfold sel4osapi_list_insert. wp_step. eapply wp_eq; [exact Hm|]. wp_steps.
  unfold init_node. wp_steps.
  set (h2 := with_nodes (<[brk h:=Node e None None]> (nodes h1)) h1).
  assert (Hd2 : dlist (nodes h2) p ls).
  { destruct Hd as [-> Hs]. split; [done|]. eapply dlseg_agree; [|exact Hs].
    intros l Hl. cbn. rewrite Hno. apply lookup_insert_ne. set_solver. }
  assert (Hl2 : nodes h2 !! brk h = Some (Node e NULL NULL)) by (cbn; by simplify_map_eq).
  eapply wp_mono; [by eapply (wp_insert_node p ls (brk h) h2)|].
  intros p' h' (m & -> & [Hf He] & Hd'). cbn.
  split_and!; try done.
  - destruct Hwf1 as [W1 W2 W3 W4]. split; cbn; [|done..].
    intros l Hl. destruct (decide (l = brk h)) as [->|Hne]; [rewrite Hbl; by simplify_map_eq|].
    apply W1. specialize (He l). cbn in He. rewrite lookup_insert_ne in He by done.
    destruct Hl as [x Hx]. rewrite Hx in He. destruct (nodes h1 !! l); [by eexists|done].
  - specialize (He (brk h)). rewrite Hl2 in He. destruct (m !! brk h) as [[e' nx pv]|]; [|done].
    cbn in He. simplify_eq. eauto.
  - intros l Hl. rewrite Hf by done. cbn. rewrite Hno. apply lookup_insert_ne. set_solver.
  - intros l Hl. rewrite He. cbn. rewrite Hno. by rewrite lookup_insert_ne.
Qed.

(** The element pointers along a list, in order. *)
Definition list_els (m : gmap loc sel4osapi_list_t) (ls : list loc) : list ptr :=
  (fun l => m !! l ≫= el) <$> ls.

Lemma wp_list_to_array p ls array max h :
  dlist (nodes h) p ls -> ls <> [] -> (Z.to_nat max <= length array)%nat ->
  let n := Nat.min (Z.to_nat max) (length ls) in
  wp (sel4osapi_list_to_array p array max)
     (fun r h' => h' = h /\
        r = (0, (take n (list_els (nodes h) ls) ++ drop n array, Z.of_nat n))) h.
Proof.
  intros Hd Hne Hlen n. unfold sel4osapi_list_to_array. wp_steps.
  { rewrite (dlist_first _ _ _ Hd). by destruct ls. }
  eapply (wp_while (fun k x s => s = h /\ exists l1 l2, ls = l1 ++ l2 /\
    x = (length l1, first NULL l2, list_els (nodes h) l1 ++ drop (length l1) array) /\
    (length l1 <= Z.to_nat max)%nat /\ k = (Z.to_nat max - length l1)%nat)).
  - intros k x s (-> & l1 & l2 & -> & -> & Hle & ->) Hc.
    apply andb_prop in Hc as [Hi Hc]. apply Z.ltb_lt in Hi.
    destruct l2 as [|l l2]; [done|]. destruct (dlist_split _ _ _ _ _ Hd) as [e He].
    exists (Z.to_nat max - S (length l1))%nat. split; [lia|].
    wp_step. eapply wp_read_node; [done..|]. cbn. unfold array_store.
    assert (Hlen' : length (list_els (nodes h) l1) = length l1) by apply length_fmap.
    rewrite bool_decide_true by (rewrite length_app, length_drop; lia).
    wp_steps. split; [done|]. exists (l1 ++ [l]), l2.
    split_and!; [by rewrite <- app_assoc| |rewrite length_app; cbn [length]; lia|rewrite length_app; cbn [length]; lia].
    rewrite length_app, Nat.add_1_r. f_equal.
    unfold list_els. rewrite fmap_app. cbn. rewrite He. cbn.
    rewrite insert_app_r_alt by (rewrite length_fmap; lia).
    rewrite length_fmap, Nat.sub_diag.
    destruct (drop (length l1) array) as [|x xs] eqn:Hdr.
    { apply (f_equal length) in Hdr. rewrite length_drop in Hdr. cbn in Hdr. lia. }
    cbn. rewrite <- app_assoc. cbn. do 3 f_equal.
    rewrite <- Nat.add_1_r, <- drop_drop, Hdr. done.
  - intros k x s (-> & l1 & l2 & -> & -> & Hle & ->) Hc. wp_step. split; [done|]. cbn.
    assert (Hn : n = length l1).
    { unfold n. rewrite length_app. apply andb_false_iff in Hc as [Hc|Hc].
      - apply Z.ltb_ge in Hc. lia.
      - destruct l2; [cbn; lia|done]. }
    rewrite Hn. unfold list_els at 2. rewrite fmap_app, take_app_length'; [done|].
    by rewrite length_fmap.
  - split; [done|]. exists [], ls. split_and!; [done| |cbn [length]; lia|reflexivity].
    cbn. by rewrite (dlist_first _ _ _ Hd).
  - cbn [length]. lia.
Qed.
End specs.

(** ** Properties *)

Section properties.
Context {E : Type}.
Implicit Types (h : heap E) (ls : list loc).

(** Inserting a node that is in no list walks to the end of the list and
    links the node there, in a finite number of iterations and without a wild
    access: the list is the old one followed by the node, every element
    pointer is kept, and any other list of the store is left as it was. *)
Theorem list_insert_node_appends p ls n h :
  dlist (nodes h) p ls -> n ∉ ls -> is_Some (nodes h !! n) ->
  exists p' m, sel4osapi_list_insert_node p (Some n) h = Done (p', with_nodes m h) /\
    dlist m p' (ls ++ [n]) /\
    (forall l, el <$> m !! l = el <$> nodes h !! l) /\
    (forall q ls', ls ++ [n] ## ls' -> dlist (nodes h) q ls' -> dlist m q ls').
Proof.
  intros Hd Hn Hs. destruct (wp_insert_node p ls n h Hd Hn Hs) as (p' & h' & Hr & m & -> & Hf & Hd').
  exists p', m. split_and!; [done|done|apply Hf|]. intros q ls'. by apply dlist_frame.
Qed.

(** C39: Unlinking a node of a list, wherever it stands, leaves the other nodes
    linked in their order, clears the node's own links, keeps every element
    pointer and touches no other list. *)
Theorem list_unlink_removes p l1 n l2 h :
  dlist (nodes h) p (l1 ++ n :: l2) ->
  exists p' m, sel4osapi_list_unlink p (Some n) h = Done (p', with_nodes m h) /\
    dlist m p' (l1 ++ l2) /\
    (exists e, m !! n = Some (Node e NULL NULL)) /\
    (forall l, el <$> m !! l = el <$> nodes h !! l) /\
    (forall q ls', l1 ++ n :: l2 ## ls' -> dlist (nodes h) q ls' -> dlist m q ls').
Proof.
  intros Hd. destruct (wp_unlink p l1 n l2 h Hd) as (p' & h' & Hr & m & -> & Hf & Hd' & He).
  exists p', m. split_and!; [done|done|done|apply Hf|]. intros q ls'. by apply dlist_frame.
Qed.

(** Inserting an element and unlinking the node just made gives back the
    list there was: same head, same nodes, same order. *)
Theorem list_insert_unlink_roundtrip p ls e h :
  heap_wf h -> dlist (nodes h) p ls -> u32 (sizeof_list_t + 64) <= avail h ->
  wp (let! q := sel4osapi_list_insert p e in sel4osapi_list_unlink q (Some (brk h)))
     (fun q h' => q = p /\ dlist (nodes h') p ls /\
        forall l, l <> brk h -> el <$> nodes h' !! l = el <$> nodes h !! l) h.
Proof.
  intros Hwf Hd Hmem. wp_step. eapply wp_mono; [by apply (wp_list_insert p ls)|].
  intros q h1 (_ & _ & Hd1 & _ & _ & He1 & _).
  eapply wp_mono; [by apply wp_unlink|]. intros q' h2 (m & -> & [_ He2] & Hd2 & _).
  rewrite app_nil_r in Hd2. rewrite (dlist_first _ _ _ Hd), (dlist_first _ _ _ Hd2). cbn.
  split_and!; [done|split; [done|by destruct Hd2]|].
  intros l Hl. by rewrite He2, He1.
Qed.

(** C0: [sel4osapi_list_to_array] writes the element pointers of the first
    [array_len_max] nodes (all of them when the list is shorter), in list
    order, from index 0 on, reports their number and touches nothing else. *)
Theorem list_to_array_prefix p ls array max h :
  dlist (nodes h) p ls -> ls <> [] -> (Z.to_nat max <= length array)%nat ->
  let n := Nat.min (Z.to_nat max) (length ls) in
  sel4osapi_list_to_array p array max h =
    Done ((0, (take n (list_els (nodes h) ls) ++ drop n array, Z.of_nat n)), h).
Proof.
  intros Hd Hne Hlen n. destruct (wp_list_to_array p ls array max h Hd Hne Hlen)
    as (r & h' & -> & -> & ->). done.
Qed.
End properties.

(** *** A concrete store: the list 1, 2 and the loose node 3 *)

Definition sample_heap : heap nat :=
  Heap 4 1000 {[1%positive := 12; 2%positive := 12; 3%positive := 12]}
    {[1%positive := Node (Some 1%positive) (Some 2%positive) NULL;
      2%positive := Node (Some 2%positive) NULL (Some 1%positive);
      3%positive := Node (Some 3%positive) NULL NULL]} ∅.

Lemma sample_dlist : dlist (nodes sample_heap) (Some 1%positive) [1%positive; 2%positive].
Proof. split; [done|]. split; [by eexists|]. split; [by eexists|done]. Qed.

Lemma sample_wf : heap_wf sample_heap.
Proof.
  split; cbn; [|by intros l [? Hl]| |lia].
  - intros l Hl. destruct (decide (l = 1%positive)) as [->|]; [by eexists|].
    destruct (decide (l = 2%positive)) as [->|]; [by eexists|].
    destruct (decide (l = 3%positive)) as [->|]; [by eexists|].
    destruct Hl as [? Hl]. by simplify_map_eq.
  - intros l Hl. destruct (decide (l = 1%positive)) as [->|]; [lia|].
    destruct (decide (l = 2%positive)) as [->|]; [lia|].
    destruct (decide (l = 3%positive)) as [->|]; [lia|].
    destruct Hl as [? Hl]. by simplify_map_eq.
Qed.

Lemma list_insert_node_appends_witness :
  exists p' m, sel4osapi_list_insert_node (Some 1%positive) (Some 3%positive) sample_heap
               = Done (p', with_nodes m sample_heap) /\
    dlist m p' [1%positive; 2%positive; 3%positive].
Proof.
  destruct (list_insert_node_appends (Some 1%positive) [1%positive; 2%positive] 3%positive sample_heap)
    as (p' & m & H1 & H2 & _); [apply sample_dlist|set_solver|by eexists|].
  exists p', m. split; [exact H1|exact H2].
Defined.

Lemma list_unlink_removes_witness :
  exists p' m, sel4osapi_list_unlink (Some 1%positive) (Some 1%positive) sample_heap
               = Done (p', with_nodes m sample_heap) /\ dlist m p' [2%positive].
Proof.
  destruct (list_unlink_removes (Some 1%positive) [] 1%positive [2%positive] sample_heap)
    as (p' & m & H1 & H2 & _); [apply sample_dlist|].
  exists p', m. split; [exact H1|exact H2].
Defined.

Lemma list_insert_unlink_roundtrip_witness :
  wp (let! q := sel4osapi_list_insert (Some 1%positive) (Some 9%positive) in
      sel4osapi_list_unlink q (Some 4%positive))
     (fun q h' => q = Some 1%positive /\ dlist (nodes h') (Some 1%positive) [1%positive; 2%positive] /\
        forall l, l <> 4%positive -> el <$> nodes h' !! l = el <$> nodes sample_heap !! l) sample_heap.
Proof.
  apply (list_insert_unlink_roundtrip (Some 1%positive) [1%positive; 2%positive]
           (Some 9%positive) sample_heap); [apply sample_wf|apply sample_dlist|].
  vm_compute. discriminate.
Defined.

Lemma list_to_array_prefix_witness :
  sel4osapi_list_to_array (Some 1%positive) [NULL; NULL; NULL] 3 sample_heap
  = Done ((0, ([Some 1%positive; Some 2%positive; NULL], 2)), sample_heap).
Proof.
  apply (list_to_array_prefix (Some 1%positive) [1%positive; 2%positive] [NULL; NULL; NULL] 3
           sample_heap); [apply sample_dlist|done|cbn; lia].
Defined.
