(* ===== verification/ListTester.v ===== *)
(** * ListTester: the list under a random workload (src/list.c, sel4osapi_list_tester)

    The tester moves five nodes between a list of free entries and a list of
    entries in use, as a pool does, picking each operation with [rand].  A free
    entry holds 0, one in use a number from 1 to 5.

    [rand] and the flag [thread->active], which other threads may clear, are
    parameters; each is a function of the number of random numbers drawn so far.
    What the tester prints is recorded in [ts_log]. *)

From S2P Require Import Prelude Memory LinkedList.

Inductive tester_line :=
| Allocated (free_entries : ptr)
| Current_entries
| Entry_row (cursor : ptr) (val : Z) (prev next : ptr)
| Free_entries
| End_entries
| Performing (op : Z)
| No_more_free_entries
| Added (entry : ptr) (n : Z)
| Looking_for (val : Z)
| Freed (entry : ptr) (n : Z).

Record tester_state := TesterState {
  ts_heap : heap Z;
  ts_drawn : nat;           (* calls of rand so far *)
  ts_log : list tester_line
}.

Definition ts_set_heap (h : heap Z) (s : tester_state) : tester_state := TesterState h (ts_drawn s) (ts_log s).
Definition ts_add_line (x : tester_line) (s : tester_state) : tester_state :=
  TesterState (ts_heap s) (ts_drawn s) (ts_log s ++ [x]).
Definition on_heap {A} : M (heap Z) A -> M tester_state A := zoom ts_heap ts_set_heap.

Definition syslog_info (x : tester_line) : M tester_state unit := modify (ts_add_line x).

Definition pool_size : Z := 5.

(** The first write [*n = v] to a block just allocated. *)
Definition init_int (p : ptr) (v : Z) : M (heap Z) unit :=
  match p with
  | None => wild
  | Some l => modify (fun h => with_cells (<[l := v]> (cells h)) h)
  end.

Section tester_c.
Context (rand : nat -> Z) (active : nat -> bool).

Definition rand_ : M tester_state Z := fun s =>
  Done (rand (ts_drawn s), TesterState (ts_heap s) (S (ts_drawn s)) (ts_log s)).

Definition print_entries_body (cursor : ptr) : M tester_state ptr :=
  let! c := on_heap (read_node cursor) in
  assert_ (non_null (el c)) ;;
  let! n := on_heap (read_cell (el c)) in
  syslog_info (Entry_row cursor n (prev c) (next c)) ;;
  ret (next c).

Definition sel4osapi_list_tester_print (entries free_entries : ptr) : M tester_state unit :=
  let! fuel := gets (fun s => heap_fuel (ts_heap s)) in
  syslog_info Current_entries ;;
  let! _ := while fuel non_null print_entries_body entries in
  syslog_info Free_entries ;;
  let! _ := while fuel non_null print_entries_body free_entries in
  syslog_info End_entries.

(** for (i = 0; i < pool_size; ++i) *)
Definition tester_alloc_body (x : Z * ptr) : M tester_state (Z * ptr) :=
  let! n := on_heap (sel4osapi_heap_allocate 4) in
  on_heap (init_int n 0) ;;
  let! free_entries := on_heap (sel4osapi_list_insert x.2 n) in
  syslog_info (Allocated free_entries) ;;
  ret (x.1 + 1, free_entries).

(** [case 0]: schedule an entry; [None] is [continue]. *)
Definition tester_schedule (i : Z) (entries free_entries : ptr) : M tester_state (option (ptr * ptr)) :=
  let entry := free_entries in
  if negb (non_null entry) then syslog_info No_more_free_entries ;; ret None
  else
    let! nd := on_heap (read_node entry) in
    let n := el nd in
    let! v := on_heap (read_cell n) in
    assert_ (v =? 0) ;;
    let! free_entries := on_heap (sel4osapi_list_unlink free_entries entry) in
    on_heap (write_cell n (Z.rem i pool_size + 1)) ;;
    let! entries := on_heap (sel4osapi_list_insert_node entries entry) in
    let! v := on_heap (read_cell n) in
    syslog_info (Added entry v) ;;
    ret (Some (entries, free_entries)).

(** while (cursor != NULL): the last entry that holds [val] *)
Definition tester_scan_body (val : Z) (x : ptr * ptr) : M tester_state (ptr * ptr) :=
  let! c := on_heap (read_node x.1) in
  assert_ (non_null (el c)) ;;
  let! n := on_heap (read_cell (el c)) in
  ret (next c, if n =? val then x.1 else x.2).

(** while (entry == NULL) *)
Definition tester_pick_body (entries entry : ptr) : M tester_state ptr :=
  let! r := rand_ in
  let val := Z.rem r pool_size + 1 in
  syslog_info (Looking_for val) ;;
  let! fuel := gets (fun s => heap_fuel (ts_heap s)) in
  let! x := while fuel (fun x => non_null x.1) (tester_scan_body val) (entries, entry) in
  ret x.2.

(** [case 1]: return an entry *)
Definition tester_return (fuel : nat) (entries free_entries : ptr) : M tester_state (option (ptr * ptr)) :=
  if negb (non_null entries) then ret None
  else
    let! entry := while fuel (fun entry => negb (non_null entry)) (tester_pick_body entries) NULL in
    assert_ (non_null entry) ;;
    let! nd := on_heap (read_node entry) in
    let! el_n := on_heap (read_cell (el nd)) in
    let! entries := on_heap (sel4osapi_list_unlink entries entry) in
    let! nd := on_heap (read_node entry) in
    on_heap (write_cell (el nd) 0) ;;
    let! free_entries := on_heap (sel4osapi_list_insert_node free_entries entry) in
    syslog_info (Freed entry el_n) ;;
    ret (Some (entries, free_entries)).

(** The locals of the main loop; [l_active] is [thread->active] as the
    condition of the loop reads it. *)
Record tester_locals := Locals { l_i : Z; l_active : bool; l_entries : ptr; l_free : ptr }.

Definition tester_body (fuel : nat) (x : tester_locals) : M tester_state tester_locals :=
  let! r := rand_ in
  let op := Z.rem r 2 in
  syslog_info (Performing op) ;;
  let! step := if op =? 0 then tester_schedule (l_i x) (l_entries x) (l_free x)
               else if op =? 1 then tester_return fuel (l_entries x) (l_free x)
               else ret (Some (l_entries x, l_free x)) in
  let! x' := match step with
             | None => ret x
             | Some (entries, free_entries) =>
                 sel4osapi_list_tester_print entries free_entries ;;
                 ret (Locals (l_i x + 1) (l_active x) entries free_entries)
             end in
  gets (fun s => Locals (l_i x') (active (ts_drawn s)) (l_entries x') (l_free x')).

Definition sel4osapi_list_tester (fuel : nat) : M tester_state tester_locals :=
  let! r := while (Z.to_nat pool_size) (fun x => x.1 <? pool_size) tester_alloc_body (0, NULL) in
  sel4osapi_list_tester_print NULL r.2 ;;
  let! a := gets (fun s => active (ts_drawn s)) in
  while fuel (fun x => l_active x && (l_i x <? 100)) (tester_body fuel) (Locals 0 a NULL r.2).
End tester_c.

(** ** The two lists of the tester *)

(** Entries are pairs of a node and the block of its number. *)
Record tester_inv (free_entries entries : ptr) (fs bs : list (loc * loc)) (h : heap Z) : Prop := {
  ti_free : dlist (nodes h) free_entries fs.*1;
  ti_busy : dlist (nodes h) entries bs.*1;
  ti_nodes : NoDup (fs ++ bs).*1;
  ti_cells : NoDup (fs ++ bs).*2;
  ti_els : forall x, x ∈ fs ++ bs -> el <$> nodes h !! x.1 = Some (Some x.2);
  ti_zero : forall x, x ∈ fs -> cells h !! x.2 = Some 0;
  ti_used : forall x, x ∈ bs -> exists v, cells h !! x.2 = Some v /\ 1 <= v <= 5
}.

(** Only the log grew. *)
Definition quiet (s s' : tester_state) : Prop := ts_heap s' = ts_heap s /\ ts_drawn s' = ts_drawn s.

Section tester_spec.
Implicit Types (h : heap Z) (s : tester_state) (fs bs xs : list (loc * loc)) (x : loc * loc).

Lemma ti_entry f e fs bs h x : tester_inv f e fs bs h -> x ∈ fs ++ bs ->
  exists nd v, nodes h !! x.1 = Some nd /\ el nd = Some x.2 /\ cells h !! x.2 = Some v.
Proof.
  intros I Hx. pose proof (ti_els _ _ _ _ _ I _ Hx) as He. destruct (nodes h !! x.1) as [nd|]; [|done].
  injection He as He. apply elem_of_app in Hx as [Hx|Hx].
  - exists nd, 0. split_and!; [done..|]. by eapply ti_zero.
  - destruct (ti_used _ _ _ _ _ I _ Hx) as (v & Hv & _). by exists nd, v.
Qed.

(** The successor of a node on its list. *)
Lemma dlist_next h p l1 (l : loc) l2 nd : dlist (nodes h) p (l1 ++ l :: l2) ->
  nodes h !! l = Some nd -> next nd = first NULL l2.
Proof. intros Hd Hnd. destruct (dlist_split _ _ _ _ _ Hd) as [e He]. rewrite Hnd in He. by simplify_eq. Qed.

(** A loop that walks a list to its end. *)
Lemma wp_walk {X} (cur : X -> ptr) (body : X -> M tester_state X) fuel p ls
    (J : list loc -> X -> tester_state -> Prop) (Q : X -> tester_state -> Prop) y s :
  p = first NULL ls -> (length ls <= fuel)%nat ->
  (forall l1 l l2 y s, ls = l1 ++ l :: l2 -> cur y = Some l -> J l1 y s ->
     wp (body y) (fun y' s' => cur y' = first NULL l2 /\ J (l1 ++ [l]) y' s') s) ->
  (forall y s, J ls y s -> Q y s) -> cur y = p -> J [] y s ->
  wp (while fuel (fun y => non_null (cur y)) body y) Q s.
Proof.
  intros Hp Hf Hbody HQ Hy HJ.
  eapply (wp_while (fun n y s => exists l1 l2, ls = l1 ++ l2 /\ cur y = first NULL l2 /\
    n = length l2 /\ J l1 y s)); [..|exact Hf].
  - intros n y' s' (l1 & l2 & -> & Hc & -> & HJ') Hn. rewrite Hc in Hn.
    destruct l2 as [|l l2]; [done|]. eexists. split; [reflexivity|].
    eapply wp_mono; [by eapply Hbody|]. cbn. intros y2 s2 [Hc2 HJ2].
    exists (l1 ++ [l]), l2. by rewrite <- app_assoc.
  - intros n y' s' (l1 & l2 & -> & Hc & -> & HJ') Hn. rewrite Hc in Hn.
    destruct l2; [|done]. apply HQ. by rewrite app_nil_r.
  - exists [], ls. by rewrite Hy, Hp.
Qed.

Lemma fmap_split xs (l1 : list loc) l l2 : xs.*1 = l1 ++ l :: l2 ->
  exists k1 x k2, xs = k1 ++ x :: k2 /\ l1 = k1.*1 /\ l = x.1 /\ l2 = k2.*1.
Proof.
  intros (k1 & k & H1 & H2 & ->)%fmap_app_inv.
  destruct k as [|x k2]; [done|]. injection H2 as -> ->. by exists k1, x, k2.
Qed.

(** Printing one list. *)
Lemma wp_print_entries f e fs bs xs p fuel s :
  tester_inv f e fs bs (ts_heap s) -> dlist (nodes (ts_heap s)) p xs.*1 -> xs ⊆ fs ++ bs ->
  (length xs <= fuel)%nat ->
  wp (while fuel non_null print_entries_body p) (fun _ => quiet s) s.
Proof.
  intros I Hd Hxs Hf.
  apply (wp_walk (fun p => p) _ _ p xs.*1 (fun _ _ => quiet s)); [by eapply dlist_first|by rewrite length_fmap| |done..].
  intros l1 l l2 y s' Hl -> [Hh Hn]. destruct (fmap_split _ _ _ _ Hl) as (k1 & x & k2 & -> & -> & -> & ->).
  destruct (ti_entry _ _ _ _ _ x I) as (nd & v & Hnd & He & Hv); [apply Hxs; set_solver|].
  unfold print_entries_body, on_heap. rewrite <- Hh in Hnd, Hv. do 2 wp_step. eapply wp_read_node; [done..|].
  do 2 wp_step; [by rewrite He|]. do 2 wp_step. eapply wp_read_cell; [exact He|exact Hv|].
  unfold syslog_info. wp_steps. split; [|done]. rewrite Hh in Hnd.
  rewrite fmap_app in Hd. by eapply dlist_next.
Qed.

Lemma wp_tester_print f e fs bs s :
  tester_inv f e fs bs (ts_heap s) ->
  wp (sel4osapi_list_tester_print e f) (fun _ => quiet s) s.
Proof.
  intros I. assert (Hf : forall p xs, dlist (nodes (ts_heap s)) p xs.*1 -> (length xs <= heap_fuel (ts_heap s))%nat).
  { intros p xs Hd. rewrite <- (length_fmap fst). by eapply dlist_fuel. }
  unfold sel4osapi_list_tester_print, syslog_info. do 2 wp_step. generalize dependent (heap_fuel (ts_heap s)).
  intros fuel Hf. wp_steps.
  eapply wp_mono; [eapply (wp_print_entries f e fs bs bs); [exact I|apply I|set_solver|eapply Hf, I]|].
  intros _ s1 [Hh Hn]. wp_steps. eapply wp_mono.
  - eapply (wp_print_entries f e fs bs fs); cbn; rewrite ?Hh; [exact I|apply I|set_solver|eapply Hf, I].
  - intros _ s2 [Hh2 Hn2]. wp_steps. split; cbn in *; congruence.
Qed.

(** *** Moving an entry from one list to the other *)

Lemma cell_fresh x xs y : NoDup (x :: xs).*2 -> y ∈ xs -> y.2 <> x.2.
Proof. intros [Hx _]%NoDup_cons Hy He. apply Hx. rewrite <- He. by apply list_elem_of_fmap_2. Qed.

Lemma inv_perm (xs ys : list (loc * loc)) : xs ≡ₚ ys -> NoDup xs.*1 /\ NoDup xs.*2 -> NoDup ys.*1 /\ NoDup ys.*2.
Proof. intros Hp [H1 H2]. by rewrite <- Hp. Qed.

Lemma inv_scheduled f e l1 x l2 bs h f' e' h' v :
  tester_inv f e (l1 ++ x :: l2) bs h ->
  dlist (nodes h') f' (l1 ++ l2).*1 -> dlist (nodes h') e' (bs ++ [x]).*1 ->
  (forall l, el <$> nodes h' !! l = el <$> nodes h !! l) -> cells h' = <[x.2 := v]> (cells h) -> 1 <= v <= 5 ->
  tester_inv f' e' (l1 ++ l2) (bs ++ [x]) h'.
Proof.
  intros [_ _ N1 N2 He Hz Hu] Hf' He' Hel Hc Hv.
  assert (Hp : (l1 ++ x :: l2) ++ bs ≡ₚ (l1 ++ l2) ++ bs ++ [x]) by solve_Permutation.
  destruct (inv_perm _ _ Hp (conj N1 N2)) as [N1' N2'].
  assert (Hother : forall y, y ∈ (l1 ++ l2) ++ bs -> cells h' !! y.2 = cells h !! y.2).
  { intros y Hy. rewrite Hc. apply lookup_insert_ne. apply not_eq_sym.
    eapply (cell_fresh x); [|exact Hy]. by rewrite app_assoc, (Permutation_app_comm _ [x]) in N2'. }
  split; try done.
  - intros y Hy. rewrite Hel. apply He. by rewrite Hp.
  - intros y Hy. rewrite Hother by set_solver. apply Hz. set_solver.
  - intros y [Hy| ->%list_elem_of_singleton]%elem_of_app.
    + rewrite Hother by set_solver. by apply Hu.
    + exists v. rewrite Hc, lookup_insert_eq. done.
Qed.

Lemma inv_returned f e fs l1 x l2 h f' e' h' :
  tester_inv f e fs (l1 ++ x :: l2) h ->
  dlist (nodes h') f' (fs ++ [x]).*1 -> dlist (nodes h') e' (l1 ++ l2).*1 ->
  (forall l, el <$> nodes h' !! l = el <$> nodes h !! l) -> cells h' = <[x.2 := 0]> (cells h) ->
  tester_inv f' e' (fs ++ [x]) (l1 ++ l2) h'.
Proof.
  intros [_ _ N1 N2 He Hz Hu] Hf' He' Hel Hc.
  assert (Hp : fs ++ (l1 ++ x :: l2) ≡ₚ (fs ++ [x]) ++ l1 ++ l2) by solve_Permutation.
  destruct (inv_perm _ _ Hp (conj N1 N2)) as [N1' N2'].
  assert (Hother : forall y, y ∈ fs ++ l1 ++ l2 -> cells h' !! y.2 = cells h !! y.2).
  { intros y Hy. rewrite Hc. apply lookup_insert_ne. apply not_eq_sym.
    eapply (cell_fresh x); [|exact Hy]. by rewrite (Permutation_app_comm fs) in N2'. }
  split; try done.
  - intros y Hy. rewrite Hel. apply He. by rewrite Hp.
  - intros y [Hy| ->%list_elem_of_singleton]%elem_of_app.
    + rewrite Hother by set_solver. by apply Hz.
    + by rewrite Hc, lookup_insert_eq.
  - intros y Hy. rewrite Hother by set_solver. apply Hu. set_solver.
Qed.

(** The nodes of one list are none of the other's. *)
Lemma inv_disjoint xs ys : NoDup (xs ++ ys).*1 -> xs.*1 ## ys.*1.
Proof. rewrite fmap_app. intros (_ & H & _)%NoDup_app. set_solver. Qed.

Lemma frame_els ls m m' : nodes_frame ls m m' -> forall l, el <$> m' !! l = el <$> m !! l.
Proof. by intros []. Qed.

(** Taking a node from one list, and putting one at the end of the other. *)
Lemma wp_take p q l1 x l2 (ls : list (loc * loc)) h (Q : ptr -> heap Z -> Prop) :
  dlist (nodes h) p (l1 ++ x :: l2).*1 -> dlist (nodes h) q ls.*1 -> (l1 ++ x :: l2).*1 ## ls.*1 ->
  (forall p1 h1, dlist (nodes h1) p1 (l1 ++ l2).*1 -> dlist (nodes h1) q ls.*1 ->
     (forall l, el <$> nodes h1 !! l = el <$> nodes h !! l) -> cells h1 = cells h -> Q p1 h1) ->
  wp (sel4osapi_list_unlink p (Some x.1)) Q h.
Proof.
  intros Hp Hq Hd HQ. rewrite fmap_app, fmap_cons in Hp, Hd.
  eapply wp_mono; [by apply (wp_unlink p)|]. intros p1 h1 (m & -> & F & D & _). rewrite <- fmap_app in D.
  apply HQ; [done| |by eapply frame_els|done]. by eapply dlist_frame.
Qed.

Lemma wp_give p q x (ps ls : list (loc * loc)) h (Q : ptr -> heap Z -> Prop) :
  dlist (nodes h) p ps.*1 -> dlist (nodes h) q ls.*1 -> ps.*1 ## ls.*1 -> x.1 ∉ ps.*1 -> x.1 ∉ ls.*1 ->
  is_Some (nodes h !! x.1) ->
  (forall q2 h2, dlist (nodes h2) p ps.*1 -> dlist (nodes h2) q2 (ls ++ [x]).*1 ->
     (forall l, el <$> nodes h2 !! l = el <$> nodes h !! l) -> cells h2 = cells h -> Q q2 h2) ->
  wp (sel4osapi_list_insert_node q (Some x.1)) Q h.
Proof.
  intros Hp Hq Hd Hx Hx' Hs HQ. eapply wp_mono; [by apply (wp_insert_node q)|].
  intros q2 h2 (m & -> & F & D). apply HQ; [|by rewrite fmap_app|by eapply frame_els|done].
  eapply dlist_frame; [exact F| |exact Hp]. set_solver.
Qed.

Lemma same_el_node (m m' : gmap loc sel4osapi_list_t) l e : (forall l, el <$> m' !! l = el <$> m !! l) ->
  el <$> m !! l = Some e -> exists nd, m' !! l = Some nd /\ el nd = e.
Proof. intros H He. rewrite <- H in He. destruct (m' !! l) as [nd|]; [|done]. exists nd. by injection He. Qed.

(** What one operation of the tester does: the locals stay well formed and the
    number of entries of each list changes by one. *)
Definition operated (f e : ptr) (nf nb : nat) (r : option (ptr * ptr)) (s : tester_state) : Prop :=
  exists e' f' fs bs, r = Some (e', f') /\ tester_inv f' e' fs bs (ts_heap s) /\ length fs = nf /\ length bs = nb.

Lemma wp_schedule f e x fs bs i s :
  tester_inv f e (x :: fs) bs (ts_heap s) -> 0 <= i ->
  wp (tester_schedule i e f) (fun r s' => ts_drawn s' = ts_drawn s /\ operated f e (length fs) (S (length bs)) r s') s.
Proof.
  intros I Hi. destruct (ti_entry _ _ _ _ _ x I) as (nd & v & Hnd & He & Hv); [set_solver|].
  pose proof (dlist_first _ _ _ (ti_free _ _ _ _ _ I)) as Hf. cbn in Hf.
  pose proof (ti_zero _ _ _ _ _ I x) as Hz. pose proof (ti_nodes _ _ _ _ _ I) as Hnn.
  pose proof (inv_disjoint _ _ Hnn) as Hdis.
  unfold tester_schedule. rewrite Hf. cbn [non_null]. cbn. unfold on_heap, syslog_info.
  do 2 wp_step. eapply wp_read_node; [done..|]. do 2 wp_step. eapply wp_read_cell; [done..|].
  do 2 wp_step. { apply Z.eqb_eq. rewrite Hz in Hv by set_solver. by injection Hv. }
  do 2 wp_step. eapply (wp_take (Some x.1) e [] x fs bs).
  { rewrite <- Hf. apply I. } { apply I. } { exact Hdis. }
  cbn. intros f1 h1 D1 E1 L1 C1. do 2 wp_step. cbn. rewrite <- C1 in Hv.
  eapply wp_write_cell; [done..|]. do 2 wp_step. cbn.
  rewrite fmap_cons in Hdis. apply NoDup_cons in Hnn as [Hn _]. change (x.1 ∉ (fs ++ bs).*1) in Hn.
  rewrite fmap_app in Hn.
  eapply (wp_give f1 e x fs bs); [exact D1|exact E1|set_solver|set_solver..| |].
  { destruct (same_el_node (nodes (ts_heap s)) (nodes h1) x.1 (Some x.2) L1) as (? & H & _); [by rewrite Hnd, <- He|by eexists]. }
  cbn. intros e2 h2 D2 E2 L2 C2. do 2 wp_step. cbn.
  eapply wp_read_cell; [exact He|rewrite C2; by rewrite lookup_insert_eq|]. wp_steps. split; [done|].
  exists e2, f1, fs, (bs ++ [x]). split_and!; [done| |done|rewrite length_app; cbn; lia].
  eapply (inv_scheduled f e [] x fs bs _ _ _ _ _ I); [done..| |cbn; by rewrite C2, C1|].
  - intros l. cbn. by rewrite L2, L1.
  - unfold pool_size. rewrite Z.rem_mod_nonneg by lia. pose proof (Z.mod_pos_bound i 5). lia.
Qed.

Lemma wp_tester_scan f e fs bs val fuel s :
  tester_inv f e fs bs (ts_heap s) -> (length bs <= fuel)%nat ->
  wp (while fuel (fun y => non_null y.1) (tester_scan_body val) (e, NULL))
    (fun y s' => quiet s s' /\
       (y.2 = NULL /\ (forall x, x ∈ bs -> cells (ts_heap s) !! x.2 <> Some val) \/ exists x, x ∈ bs /\ y.2 = Some x.1)) s.
Proof.
  intros I Hf. apply (wp_walk fst _ _ e bs.*1 (fun l1 y s' => quiet s s' /\
    (y.2 = NULL /\ (forall x, x ∈ bs -> x.1 ∈ l1 -> cells (ts_heap s) !! x.2 <> Some val) \/ exists x, x ∈ bs /\ y.2 = Some x.1))).
  - eapply dlist_first, I. - by rewrite length_fmap.
  - intros l1 l l2 [c y] s' Hl Hc [[Hh Hn] Hy]. cbn in Hc, Hy. subst c.
    destruct (fmap_split _ _ _ _ Hl) as (k1 & x & k2 & -> & -> & -> & ->).
    destruct (ti_entry _ _ _ _ _ x I) as (nd & v & Hnd & He & Hv); [set_solver|].
    pose proof (dlist_next _ _ _ _ _ nd (eq_ind _ (dlist _ _) (ti_busy _ _ _ _ _ I) _ Hl) Hnd) as Hnx.
    unfold tester_scan_body, on_heap. cbn [fst]. rewrite <- Hh in Hnd, Hv.
    do 2 wp_step. eapply wp_read_node; [done..|].
    do 2 wp_step; [by rewrite He|]. do 2 wp_step. eapply wp_read_cell; [exact He|exact Hv|].
    wp_steps. split; [exact Hnx|]. split; [done|]. cbn [snd].
    destruct (Z.eqb_spec v val) as [->|Hne]; [right; exists x; split; [set_solver|done]|].
    destruct Hy as [[-> Hno]|Hy]; [left|by right]. split; [done|]. intros z Hz Hin.
    apply elem_of_app in Hin as [Hin|Hzx%list_elem_of_singleton]; [by apply Hno|].
    pose proof (ti_els _ _ _ _ _ I z ltac:(set_solver)) as Hez. rewrite Hzx, <- Hh, Hnd in Hez. cbn in Hez.
    rewrite He in Hez. injection Hez as <-. rewrite <- Hh. congruence.
  - intros y s' [Hq [[Hy Hno]|Hy]]; split; [done| |done|by right]. left. split; [done|].
    intros x Hx. apply Hno; [done|]. by apply list_elem_of_fmap_2.
  - done.
  - split; [done|]. left. split; [done|]. set_solver.
Qed.
(** *** The five entries *)

Lemma wf_init_int h l v : heap_wf h -> is_Some (blocks h !! l) -> heap_wf (with_cells (<[l := v]> (cells h)) h).
Proof.
  intros [Wn Wc Wb Wa] Hl. split; try done. cbn. intros k Hk.
  destruct (decide (k = l)) as [->|]; [done|]. apply Wc. by rewrite lookup_insert_ne in Hk.
Qed.

(** What one entry takes: an int and a node, each with 64 bytes to spare. *)
Definition entry_cost : Z := (4 + 64) + (sizeof_list_t + 64).

Lemma wp_new_entry f fs i s :
  tester_inv f NULL fs [] (ts_heap s) -> heap_wf (ts_heap s) -> entry_cost <= avail (ts_heap s) ->
  wp (tester_alloc_body (i, f)) (fun y s' => exists x, y.1 = i + 1 /\ tester_inv y.2 NULL (fs ++ [x]) [] (ts_heap s') /\
    heap_wf (ts_heap s') /\ avail (ts_heap s') = avail (ts_heap s) - entry_cost) s.
Proof.
  intros I W Hm. destruct (malloc_ok (4 + 64) (ts_heap s) W) as (h1 & Hr & W1 & Hb1 & Ha1 & Hbl & Hno & Hce).
  { unfold entry_cost, sizeof_list_t in Hm. change (u32 (4 + 64)) with 68. lia. }
  pose proof (wf_fresh_cell _ W) as Hfresh. set (c := brk (ts_heap s)) in *.
  unfold tester_alloc_body, on_heap, syslog_info, sel4osapi_heap_allocate. do 2 wp_step. eapply wp_eq; [exact Hr|].
  do 2 wp_step. cbn. do 3 wp_step.
  assert (W2 : heap_wf (with_cells (<[c := 0]> (cells h1)) h1)).
  { apply wf_init_int; [done|]. rewrite Hbl, lookup_insert_eq. by eexists. }
  eapply wp_mono; [apply (wp_list_insert f fs.*1 (Some c) _ W2)|].
  { cbn. rewrite Hno. apply I. } { change (avail (with_cells (<[c := 0]> (cells h1)) h1)) with (avail h1). rewrite Ha1. unfold entry_cost, sizeof_list_t in *. change (u32 (4 + 64)) with 68. change (u32 (12 + 64)) with 76. lia. }
  cbn. intros f' h' (W' & Hn & D & (nx & pv & Hnew) & _ & L & C & _ & A).
  wp_steps. exists (brk h1, c). cbn. split_and!; [done| |exact W'|].
  2: { rewrite A, Ha1. unfold entry_cost, sizeof_list_t. change (u32 (4 + 64)) with 68. change (u32 (12 + 64)) with 76. lia. }
  rewrite Hno in Hn, L. assert (Hel : forall x, x ∈ fs -> x.1 <> brk h1 /\ x.2 <> c).
  { intros x Hx. destruct (ti_entry _ _ _ _ _ x I) as (nd & v & Hnd & _ & Hv); [set_solver|]. split; congruence. }
  split; cbn; rewrite ?app_nil_r.
  - by rewrite fmap_app.
  - done.
  - rewrite fmap_app. apply NoDup_app. split_and!; [|intros l (x & -> & Hx)%list_elem_of_fmap Hin|apply NoDup_singleton].
    + pose proof (ti_nodes _ _ _ _ _ I) as N. by rewrite app_nil_r in N.
    + apply list_elem_of_singleton in Hin. by destruct (Hel x Hx).
  - rewrite fmap_app. apply NoDup_app. split_and!; [|intros l (x & -> & Hx)%list_elem_of_fmap Hin|apply NoDup_singleton].
    + pose proof (ti_cells _ _ _ _ _ I) as N. by rewrite app_nil_r in N.
    + apply list_elem_of_singleton in Hin. by destruct (Hel x Hx).
  - intros x [Hx| ->%list_elem_of_singleton]%elem_of_app; cbn; [|by rewrite Hnew].
    rewrite L by by apply Hel. eapply ti_els; [exact I|set_solver].
  - intros x [Hx| ->%list_elem_of_singleton]%elem_of_app; cbn; rewrite C; [|by rewrite lookup_insert_eq].
    rewrite lookup_insert_ne by (apply not_eq_sym; by apply Hel). rewrite Hce. by eapply ti_zero.
  - intros x Hx. by apply elem_of_nil in Hx.
Qed.

Lemma wp_new_entries s :
  heap_wf (ts_heap s) -> pool_size * entry_cost <= avail (ts_heap s) ->
  wp (while (Z.to_nat pool_size) (fun y => y.1 <? pool_size) tester_alloc_body (0, NULL))
    (fun y s' => exists fs, tester_inv y.2 NULL fs [] (ts_heap s') /\ length fs = 5%nat) s.
Proof.
  intros W Hm. apply (wp_while (fun n y s' => exists fs, y.1 = Z.of_nat (length fs) /\ (length fs + n)%nat = 5%nat /\
    tester_inv y.2 NULL fs [] (ts_heap s') /\ heap_wf (ts_heap s') /\ Z.of_nat n * entry_cost <= avail (ts_heap s'))) with (n := 5%nat).
  - intros n [i f] s' (fs & Hi & Hn & I & W' & Hm') Hc. cbn in Hi. apply Z.ltb_lt in Hc. unfold pool_size in Hc. cbn in Hc.
    destruct n as [|n]; [lia|]. exists n. split; [done|]. rewrite Nat2Z.inj_succ in Hm'. unfold entry_cost, sizeof_list_t in Hm'.
    eapply wp_mono; [apply (wp_new_entry f fs i s' I W'); unfold entry_cost, sizeof_list_t; lia|].
    intros y s2 (x & Hy & I2 & W2 & A2). exists (fs ++ [x]). rewrite length_app. cbn.
    split_and!; [lia|lia|done|done|rewrite A2; unfold entry_cost, sizeof_list_t; lia].
  - intros n [i f] s' (fs & Hi & Hn & I & _) Hc. apply Z.ltb_ge in Hc. exists fs. split; [done|].
    unfold pool_size in Hc. cbn in *. lia.
  - exists []. cbn. split_and!; try done. split; cbn; try done; try (by constructor);
      intros x Hx; by apply elem_of_nil in Hx.
  - done.
Qed.

End tester_spec.

(** ** Runs of the tester *)

(** A generator that never goes more than [B] numbers without each remainder by
    2 and by [pool_size], as every generator does that repeats a cycle in which
    they all occur. *)
Definition rand_fair (B : nat) (rand : nat -> Z) : Prop :=
  (forall k, 0 <= rand k) /\
  (forall k m r, m = 2 \/ m = pool_size -> 0 <= r < m -> exists j, (k <= j < k + B)%nat /\ Z.rem (rand j) m = r).

Section run_spec.
Context (rand : nat -> Z) (active : nat -> bool) (B : nat) (FAIR : rand_fair B rand).
Implicit Types (h : heap Z) (s : tester_state) (fs bs xs : list (loc * loc)) (x : loc * loc).

(** One try: an entry with the number drawn, or none has it. *)
Lemma wp_pick f e fs bs s :
  tester_inv f e fs bs (ts_heap s) ->
  wp (tester_pick_body rand e NULL)
    (fun y s' => ts_heap s' = ts_heap s /\ ts_drawn s' = S (ts_drawn s) /\
       (y = NULL /\ (forall x, x ∈ bs -> cells (ts_heap s) !! x.2 <> Some (Z.rem (rand (ts_drawn s)) pool_size + 1)) \/
        exists x, x ∈ bs /\ y = Some x.1)) s.
Proof.
  intros I. unfold tester_pick_body, syslog_info. wp_step. eapply wp_eq; [reflexivity|]. do 5 wp_step.
  eapply wp_mono; [eapply (wp_tester_scan f e fs bs); [exact I|]|].
  { rewrite <- (length_fmap fst). eapply dlist_fuel, I. }
  cbn. intros y s' [[Hh Hn] Hy]. wp_step. cbn in *. by rewrite Hn.
Qed.

Lemma wp_pick_loop f e fs x bs fuel s :
  tester_inv f e fs (x :: bs) (ts_heap s) -> (B <= fuel)%nat ->
  wp (while fuel (fun entry => negb (non_null entry)) (tester_pick_body rand e) NULL)
    (fun y s' => ts_heap s' = ts_heap s /\ (ts_drawn s <= ts_drawn s')%nat /\ exists x', x' ∈ x :: bs /\ y = Some x'.1) s.
Proof.
  intros I Hf. destruct (ti_used _ _ _ _ _ I x) as (v & Hv & Hr); [set_solver|].
  destruct FAIR as [_ Hw]. destruct (Hw (ts_drawn s) pool_size (v - 1)) as (j & Hj & Hjv); [by right|unfold pool_size; lia|].
  apply (wp_while (fun n y s' => ts_heap s' = ts_heap s /\ (ts_drawn s <= ts_drawn s')%nat /\
    (y = NULL /\ (ts_drawn s' <= j)%nat /\ (j - ts_drawn s' < n)%nat \/ exists x', x' ∈ x :: bs /\ y = Some x'.1))) with (n := fuel).
  - intros n y s' (Hh & Hd & [(-> & Hjd & Hn)|(x' & _ & ->)]) Hc; [|done].
    destruct n as [|n]; [lia|]. exists n. split; [done|]. rewrite <- Hh in I.
    eapply wp_mono; [by eapply wp_pick|]. intros y s2 (Hh2 & Hd2 & Hy).
    split; [congruence|]. split; [lia|]. destruct Hy as [[-> Hno]|Hy]; [left|by right]. split; [done|].
    assert (ts_drawn s' <> j) by (intros He; apply (Hno x); [set_solver|]; rewrite He, Hjv, Hh, Hv; f_equal; lia). lia.
  - intros n y s' (Hh & Hd & [(-> & _)|Hy]) Hc; done.
  - split; [done|]. split; [lia|]. left. split; [done|]. lia.
  - lia.
Qed.

Lemma wp_return f e fs x0 bs0 fuel s :
  tester_inv f e fs (x0 :: bs0) (ts_heap s) -> (B <= fuel)%nat ->
  wp (tester_return rand fuel e f) (fun r s' => (ts_drawn s <= ts_drawn s')%nat /\ operated f e (S (length fs)) (length bs0) r s') s.
Proof.
  intros I Hf. pose proof (dlist_first _ _ _ (ti_busy _ _ _ _ _ I)) as He0. cbn in He0.
  unfold tester_return. replace (negb (non_null e)) with false by by rewrite He0.
  wp_step. eapply wp_mono; [by eapply wp_pick_loop|]. intros y s1 (Hh & Hd & x & Hx & ->).
  rewrite <- Hh in I. destruct (ti_entry _ _ _ _ _ x I) as (nd & v & Hnd & He & Hv); [set_solver|].
  apply list_elem_of_split in Hx as (l1 & l2 & Hl). assert (length bs0 = length (l1 ++ l2)) as ->.
  { apply (f_equal length) in Hl. rewrite length_app in *. cbn in Hl. lia. }
  rewrite Hl in I. pose proof (ti_nodes _ _ _ _ _ I) as Hnn. pose proof (inv_disjoint _ _ Hnn) as Hdis.
  assert (Hx : x.1 ∉ fs.*1 /\ x.1 ∉ (l1 ++ l2).*1).
  { replace (fs ++ l1 ++ x :: l2) with ((fs ++ l1) ++ x :: l2) in Hnn by by rewrite <- app_assoc.
    rewrite fmap_app, fmap_cons in Hnn. apply NoDup_app_not_mid in Hnn as [Hn _]. rewrite !fmap_app in *. set_solver. }
  destruct Hx as [Hxf Hxb]. unfold on_heap, syslog_info. do 2 wp_step.
  do 2 wp_step. eapply wp_read_node; [done..|]. do 2 wp_step. eapply wp_read_cell; [done..|].
  do 2 wp_step. eapply (wp_take e f l1 x l2 fs); [apply I|apply I|set_solver|].
  cbn. intros e1 h1 D1 F1 L1 C1.
  destruct (same_el_node (nodes (ts_heap s1)) (nodes h1) x.1 (Some x.2) L1) as (nd1 & Hnd1 & He1); [by rewrite Hnd, <- He|].
  do 2 wp_step. cbn. eapply wp_read_node; [done..|]. do 2 wp_step. cbn. rewrite <- C1 in Hv.
  eapply wp_write_cell; [done..|]. do 2 wp_step. cbn.
  eapply (wp_give e1 f x (l1 ++ l2) fs); [exact D1|exact F1|rewrite !fmap_app in *; set_solver|exact Hxb|exact Hxf|by eexists|].
  cbn. intros f2 h2 D2 F2 L2 C2. wp_steps. split; [done|].
  exists e1, f2, (fs ++ [x]), (l1 ++ l2). split_and!; [done| |rewrite length_app; cbn; lia|done].
  eapply (inv_returned f e fs l1 x l2 _ _ _ _ I); [done..| |cbn; by rewrite C2, C1].
  intros l. cbn. by rewrite L2, L1.
Qed.

(** *** The main loop *)

(** The operation that the free list does not rule out. *)
Definition wanted fs : Z := match fs with [] => 1 | _ => 0 end.

Record locals_ok fs bs (y : tester_locals) s : Prop := {
  lo_inv : tester_inv (l_free y) (l_entries y) fs bs (ts_heap s);
  lo_five : (length fs + length bs)%nat = 5%nat;
  lo_i : 0 <= l_i y <= 100
}.

(** An iteration performs an operation, or draws one that cannot be performed. *)
Lemma wp_tester_body fs bs y fuel s :
  locals_ok fs bs y s -> l_i y < 100 -> (B <= fuel)%nat ->
  wp (tester_body rand active fuel y)
    (fun y' s' => (ts_drawn s < ts_drawn s')%nat /\
       (l_i y' = l_i y + 1 /\ (exists fs' bs', locals_ok fs' bs' y' s') \/
        l_i y' = l_i y /\ locals_ok fs bs y' s' /\ ts_drawn s' = S (ts_drawn s) /\ Z.rem (rand (ts_drawn s)) 2 <> wanted fs)) s.
Proof.
  intros [I H5 Hi] Hlt Hf. unfold tester_body. wp_step. eapply wp_eq; [reflexivity|]. unfold syslog_info at 1. do 2 wp_step.
  set (op := Z.rem (rand (ts_drawn s)) 2). set (s1 := ts_add_line _ _).
  assert (Hop : op = 0 \/ op = 1).
  { unfold op. destruct FAIR as [Hpos _]. specialize (Hpos (ts_drawn s)). rewrite Z.rem_mod_nonneg by lia.
    pose proof (Z.mod_pos_bound (rand (ts_drawn s)) 2). lia. }
  assert (Hgo : forall nf nb r s2, (nf + nb)%nat = 5%nat -> (ts_drawn s1 <= ts_drawn s2)%nat -> operated (l_free y) (l_entries y) nf nb r s2 ->
    wp (let! z := match r with
             | None => ret y
             | Some (entries, free_entries) =>
                 sel4osapi_list_tester_print entries free_entries ;;
                 ret (Locals (l_i y + 1) (l_active y) entries free_entries)
             end in
        gets (fun s => Locals (l_i z) (active (ts_drawn s)) (l_entries z) (l_free z)))
      (fun y' s' => (ts_drawn s < ts_drawn s')%nat /\
       (l_i y' = l_i y + 1 /\ (exists fs' bs', locals_ok fs' bs' y' s') \/
        l_i y' = l_i y /\ locals_ok fs bs y' s' /\ ts_drawn s' = S (ts_drawn s) /\ op <> wanted fs)) s2).
  { intros nf nb r s2 Hn Hd (e' & f' & fs' & bs' & -> & I' & <- & <-). do 2 wp_step.
    eapply wp_mono; [by eapply wp_tester_print|]. intros _ s3 [Hh3 Hd3]. wp_steps.
    cbn in Hd. split; [lia|]. left. cbn. split; [done|]. exists fs', bs'. split; cbn; [by rewrite Hh3|done|lia]. }
  assert (I1 : tester_inv (l_free y) (l_entries y) fs bs (ts_heap s1)) by exact I.
  wp_step. clearbody op. destruct Hop as [-> | ->]; cbn [Z.eqb Pos.eqb].
  - destruct fs as [|x fs].
    + pose proof (dlist_first _ _ _ (ti_free _ _ _ _ _ I)) as H0. unfold tester_schedule. rewrite H0. cbn. unfold syslog_info.
      wp_steps. split; [cbn; lia|]. right. cbn. split_and!; [done| |done|done].
      split; cbn; [exact I|done|done].
    + eapply wp_mono; [apply (wp_schedule _ _ _ _ _ _ _ I1); lia|]. intros r s2 [Hd Ho].
      eapply Hgo; [|by rewrite Hd|exact Ho]. cbn in H5. lia.
  - destruct bs as [|x bs].
    + pose proof (dlist_first _ _ _ (ti_busy _ _ _ _ _ I)) as H0. unfold tester_return. rewrite H0. cbn.
      wp_steps. split; [cbn; lia|]. right. cbn. split_and!; [done| |done|by destruct fs].
      split; cbn; [exact I|done|done].
    + eapply wp_mono; [by eapply wp_return|]. intros r s2 [Hd Ho].
      eapply Hgo; [|exact Hd|exact Ho]. cbn in H5. lia.
Qed.

Lemma wp_tester_loop fs bs y fuel s :
  locals_ok fs bs y s -> (101 * S B <= fuel)%nat ->
  wp (while fuel (fun z => l_active z && (l_i z <? 100)) (tester_body rand active fuel) y)
    (fun y' s' => (exists fs' bs', locals_ok fs' bs' y' s') /\ (l_active y' = false \/ l_i y' = 100)) s.
Proof.
  intros L Hf.
  assert (Hnext : forall fs' k, exists j, (k <= j < k + B)%nat /\ Z.rem (rand j) 2 = wanted fs').
  { intros fs' k. destruct FAIR as [_ Hw]. apply (Hw k 2); [by left|]. destruct fs'; cbn; lia. }
  apply (wp_while (fun n y s => exists fs bs j, locals_ok fs bs y s /\ Z.rem (rand j) 2 = wanted fs /\
    (ts_drawn s <= j < ts_drawn s + B)%nat /\ (Z.to_nat (100 - l_i y) * S B + (j - ts_drawn s) < n)%nat)) with (n := fuel); [..|lia].
  - intros n y1 s1 (fs1 & bs1 & j & L1 & Hj & Hr & Hn) [_ Hlt%Z.ltb_lt]%andb_prop.
    destruct n as [|n]; [lia|]. exists n. split; [done|].
    eapply wp_mono; [eapply (wp_tester_body fs1 bs1 y1 fuel s1 L1 Hlt); lia|].
    intros y2 s2 (Hd & [(Hi & fs2 & bs2 & L2)|(Hi & L2 & Hd2 & Hno)]).
    + destruct (Hnext fs2 (ts_drawn s2)) as (j2 & Hr2 & Hj2). exists fs2, bs2, j2. split_and!; [done|done|lia|lia|].
      rewrite Hi. pose proof (lo_i _ _ _ _ L1). replace (Z.to_nat (100 - l_i y1)) with (S (Z.to_nat (100 - (l_i y1 + 1)))) in Hn by lia. lia.
    + assert (j <> ts_drawn s1) by congruence. exists fs1, bs1, j. rewrite Hi. split_and!; [done|done|lia|lia|lia].
  - intros n y1 s1 (fs1 & bs1 & j & L1 & _) Hc. split; [by exists fs1, bs1|]. pose proof (lo_i _ _ _ _ L1).
    apply andb_false_iff in Hc as [Hc|Hc%Z.ltb_ge]; [by left|right; lia].
  - destruct (Hnext fs (ts_drawn s)) as (j & Hr & Hj). exists fs, bs, j. split_and!; [done|done|lia|lia|].
    pose proof (lo_i _ _ _ _ L). assert (Z.to_nat (100 - l_i y) <= 100)%nat by lia. nia.
Qed.
End run_spec.

(** C40: The tester ends, whatever the numbers it draws and whenever another
    thread clears its flag, provided [rand] does not for ever keep one of
    the remainders away: no assertion in it fails, no pointer it follows is wild, the search
    for an entry to return is never in vain, and when it stops the five entries
    it allocated are on its two well-linked lists, each on one, the free ones
    holding 0 and the others numbers from 1 to 5. *)
Theorem list_tester_ends (rand : nat -> Z) (active : nat -> bool) B fuel s :
  rand_fair B rand -> (101 * S B <= fuel)%nat -> heap_wf (ts_heap s) -> pool_size * entry_cost <= avail (ts_heap s) ->
  exists y s' fs bs, sel4osapi_list_tester rand active fuel s = Done (y, s') /\
    tester_inv (l_free y) (l_entries y) fs bs (ts_heap s') /\ (length fs + length bs)%nat = 5%nat /\
    (l_active y = false \/ l_i y = 100).
Proof.
  intros F Hf W Hm.
  assert (Hw : wp (sel4osapi_list_tester rand active fuel)
    (fun y s' => (exists fs bs, locals_ok fs bs y s') /\ (l_active y = false \/ l_i y = 100)) s).
  { unfold sel4osapi_list_tester. wp_step. eapply wp_mono; [by eapply wp_new_entries|].
    intros [i f] s1 (fs & I & H5). wp_step. eapply wp_mono; [by eapply wp_tester_print|]. intros _ s2 [Hh Hd].
    do 2 wp_step. eapply wp_tester_loop; [exact F| |exact Hf].
    split; cbn; [rewrite Hh; exact I|by rewrite H5|lia]. }
  destruct Hw as (y & s' & Hr & (fs & bs & [I H5 _]) & He). by exists y, s', fs, bs.
Qed.

(** The digits 0 to 9 over and over, and a flag nobody clears. *)
Definition sample_rand (k : nat) : Z := Z.of_nat (k mod 10).

Lemma sample_rand_fair : rand_fair 10 sample_rand.
Proof.
  split; [intros k; unfold sample_rand; lia|]. intros k m r Hm Hr.
  pose proof (Nat.mod_upper_bound k 10 ltac:(done)) as Hk.
  assert (Hs : (Z.to_nat r < 10)%nat) by (unfold pool_size in Hm; lia).
  exists (k + (Z.to_nat r + 10 - k mod 10) mod 10)%nat.
  split; [split; [lia|]; pose proof (Nat.mod_upper_bound (Z.to_nat r + 10 - k mod 10) 10 ltac:(done)); lia|].
  unfold sample_rand. replace ((k + (Z.to_nat r + 10 - k mod 10) mod 10) mod 10)%nat with (Z.to_nat r).
  - rewrite Z2Nat.id by lia. apply Z.rem_small. lia.
  - rewrite Nat.Div0.add_mod_idemp_r. rewrite (Nat.div_mod_eq k 10) at 1.
    replace (10 * (k / 10) + k mod 10 + (Z.to_nat r + 10 - k mod 10))%nat with (Z.to_nat r + (1 + k / 10) * 10)%nat by lia.
    rewrite Nat.Div0.mod_add. symmetry. by apply Nat.mod_small.
Qed.

Definition sample_tester : tester_state := TesterState (Heap 1 1000 ∅ ∅ ∅) 0 [].

Lemma list_tester_ends_witness :
  exists y s' fs bs, sel4osapi_list_tester sample_rand (fun _ => true) 1111 sample_tester = Done (y, s') /\
    tester_inv (l_free y) (l_entries y) fs bs (ts_heap s') /\ (length fs + length bs)%nat = 5%nat /\
    (l_active y = false \/ l_i y = 100).
Proof.
  apply (list_tester_ends sample_rand (fun _ => true) 10 1111 sample_tester).
  - apply sample_rand_fair.
  - apply Nat.leb_le. reflexivity.
  - split; cbn; [..|lia]; intros l [v Hv]; by rewrite lookup_empty in Hv.
  - apply Z.leb_le; reflexivity.
Defined.
