(* ===== verification/Pool.v ===== *)
(** * Pool: the fixed-size object pool (src/pool.c, include/sel4osapi/pool.h)

    A pool keeps two lists over one node store: the free nodes and the busy
    ones.  Allocation moves the first free node to the end of the busy list and
    freeing moves it back to the end of the free list; the elements themselves
    never move.  The first part is the code; the second an abstract pool (two
    queues of entries and the element values) and the relation [pool_rep] under
    which every operation of the code computes what the abstract pool does. *)

From S2P Require Import Prelude Memory LinkedList.

Definition sizeof_pool_t : Z := 32.

Section pool_c.
Context {E : Type}.

(** The types of the two function pointers: a void function of (el, arg) and
    an int function of (el1, el2). *)
Definition simple_pool_init_el_fn : Type := ptr -> ptr -> M (heap E) unit.
Definition simple_pool_compare_el_fn : Type := ptr -> ptr -> M (heap E) Z.

Record simple_pool_t := Pool {
  free_entries : ptr;
  entries : ptr;
  el_size : Z;
  pool_size : Z;
  current_size : Z;
  init_fn : option simple_pool_init_el_fn;
  init_arg : ptr;
  compare_fn : option simple_pool_compare_el_fn
}.

Definition set_free_entries (q : ptr) (p : simple_pool_t) : simple_pool_t :=
  Pool q (entries p) (el_size p) (pool_size p) (current_size p) (init_fn p) (init_arg p) (compare_fn p).
Definition set_entries (q : ptr) (p : simple_pool_t) : simple_pool_t :=
  Pool (free_entries p) q (el_size p) (pool_size p) (current_size p) (init_fn p) (init_arg p) (compare_fn p).
Definition set_current_size (n : Z) (p : simple_pool_t) : simple_pool_t :=
  Pool (free_entries p) (entries p) (el_size p) (pool_size p) n (init_fn p) (init_arg p) (compare_fn p).

(** One pool and the heap its nodes and elements live in. *)
Record pool_state := PoolState { pool : simple_pool_t; mem : heap E }.

Definition set_mem (h : heap E) (s : pool_state) : pool_state := PoolState (pool s) h.
Definition on_mem {A} (m : M (heap E) A) : M pool_state A := zoom mem set_mem m.
Definition upd_pool (f : simple_pool_t -> simple_pool_t) : M pool_state unit :=
  modify (fun s => PoolState (f (pool s)) (mem s)).

(** The content of a block fresh from malloc is indeterminate: [uninit]. *)
Definition init_block (p : ptr) (uninit : E) : M (heap E) unit :=
  modify (fun h => match p with
                   | Some l => with_cells (<[l := uninit]> (cells h)) h
                   | None => h end).

(** One iteration of the loop that fills a new pool. *)
Definition simple_pool_new_el (uninit : E) (p : simple_pool_t) : M (heap E) simple_pool_t :=
  let! el := malloc (el_size p + 64) in
  assert_ (non_null el) ;;
  init_block el uninit ;;
  (match init_fn p with Some f => f el (init_arg p) | None => ret tt end) ;;
  let! fr := sel4osapi_list_insert (free_entries p) el in
  ret (set_free_entries fr p).

Definition simple_pool_new (size el_size : Z) (init_fn : option simple_pool_init_el_fn)
    (init_arg : ptr) (compare_fn : option simple_pool_compare_el_fn) (uninit : E)
    : M (heap E) simple_pool_t :=
  assert_ (0 <? size) ;;
  assert_ (0 <? el_size) ;;
  let! pool := malloc (sizeof_pool_t + 64) in
  assert_ (non_null pool) ;;
  let! r := while (Z.to_nat size)
              (fun '(i, p) => i <? pool_size p)
              (fun '(i, p) => let! p := simple_pool_new_el uninit p in ret (i + 1, p))
              (0, Pool NULL NULL el_size size 0 init_fn init_arg compare_fn) in
  ret r.2.

(** [if (pool->init_fn) pool->init_fn(entry->el, pool->init_arg);] *)
Definition pool_init_entry (entry : ptr) : M pool_state unit :=
  let! p := gets pool in
  match init_fn p with
  | Some f => let! n := on_mem (read_node entry) in on_mem (f (el n) (init_arg p))
  | None => ret tt
  end.

Definition simple_pool_alloc_entry : M pool_state ptr :=
  let! p := gets pool in
  let entry := free_entries p in
  if non_null entry then
    let! n := on_mem (read_node entry) in
    assert_ (non_null (el n)) ;;
    let! fr := on_mem (sel4osapi_list_unlink (free_entries p) entry) in
    upd_pool (set_free_entries fr) ;;
    pool_init_entry entry ;;
    let! en := on_mem (sel4osapi_list_insert_node (entries p) entry) in
    upd_pool (set_entries en) ;;
    upd_pool (fun p => set_current_size (current_size p + 1) p) ;;
    let! p := gets pool in
    assert_ (current_size p <=? pool_size p) ;;
    ret entry
  else ret NULL.

Definition simple_pool_alloc : M pool_state ptr :=
  let! entry := simple_pool_alloc_entry in
  if non_null entry then let! n := on_mem (read_node entry) in ret (el n)
  else ret NULL.

Definition simple_pool_free_entry (entry : ptr) : M pool_state Z :=
  assert_ (non_null entry) ;;
  let! p := gets pool in
  let! en := on_mem (sel4osapi_list_unlink (entries p) entry) in
  upd_pool (set_entries en) ;;
  upd_pool (fun p => set_current_size (current_size p - 1) p) ;;
  let! p := gets pool in
  assert_ (0 <=? current_size p) ;;
  pool_init_entry entry ;;
  let! fr := on_mem (sel4osapi_list_insert_node (free_entries p) entry) in
  upd_pool (set_free_entries fr) ;;
  ret 0.

(** One iteration of [simple_pool_find_node]: the next (cursor, entry). *)
Definition find_node_body (p : simple_pool_t) (e : ptr) (x : ptr * ptr) : M (heap E) (ptr * ptr) :=
  let cursor := x.1 in
  let! n := read_node cursor in
  let! hit := match compare_fn p with
              | Some cmp => let! c := cmp (el n) e in ret (c =? 0)
              | None => ret (ptr_eqb (el n) e)
              end in
  ret (next n, if (hit : bool) then cursor else x.2).

Definition simple_pool_find_node (e : ptr) : M pool_state ptr :=
  let! p := gets pool in
  on_mem (
    let! h := get in
    let! r := while (heap_fuel h) (fun x => non_null x.1 && negb (non_null x.2))
                (find_node_body p e) (entries p, NULL) in
    ret r.2).

Definition simple_pool_free (e : ptr) : M pool_state Z :=
  assert_ (non_null e) ;;
  let! entry := simple_pool_find_node e in
  if non_null entry then simple_pool_free_entry entry else ret (-1).

Definition simple_pool_get_current_size : M pool_state Z :=
  let! p := gets pool in ret (current_size p).
End pool_c.
Arguments simple_pool_t E : clear implicits.
Arguments pool_state E : clear implicits.
Arguments simple_pool_init_el_fn E : clear implicits.
Arguments simple_pool_compare_el_fn E : clear implicits.

(** ** The contract between a pool and its callbacks

    What a pool needs to know of the two function pointers it was created
    with: [init_fn] rewrites the element it is given and nothing else, and
    [compare_fn] reads its two arguments and returns 0 on the pairs [same]. *)
Class PoolCallbacks {E : Type} (init : option (simple_pool_init_el_fn E))
    (cmp : option (simple_pool_compare_el_fn E)) := {
  init_val : E -> E;
  same : option (E -> E -> bool);
  init_none : init = None -> forall v, init_val v = v;
  init_some f : init = Some f -> forall arg h e v, cells h !! e = Some v ->
    f (Some e) arg h = Done (tt, with_cells (<[e := init_val v]> (cells h)) h);
  cmp_none : cmp = None -> same = None;
  cmp_some f : cmp = Some f -> exists eqv, same = Some eqv /\
    forall h a b va vb, cells h !! a = Some va -> cells h !! b = Some vb ->
    exists c, f (Some a) (Some b) h = Done (c, h) /\ (c =? 0) = eqv va vb
}.

(** Both function pointers NULL. *)
#[export] Instance null_callbacks {E} : PoolCallbacks (E:=E) None None | 100.
Proof. by refine {| init_val := fun v => v; same := None |}. Defined.

(** The values [vs] held by the elements of the entries [l], in order. *)
Definition vals_along {E} (vals : gmap loc E) (l : list (loc * loc)) (vs : list E) : Prop :=
  Forall2 (fun x v => vals !! x.2 = Some v) l vs.

Lemma vals_along_ne {E} (vals : gmap loc E) l vs e o :
  e ∉ l.*2 -> vals_along vals l vs -> vals_along (partial_alter o e vals) l vs.
Proof.
  intros He Hv. induction Hv as [|x v l vs Hx Hl IH]; [constructor|]. cbn in He.
  constructor; [|apply IH; set_solver].
  by rewrite lookup_partial_alter_ne by set_solver.
Qed.

Lemma vals_along_insert_ne {E} (vals : gmap loc E) l vs e v :
  e ∉ l.*2 -> vals_along vals l vs -> vals_along (<[e := v]> vals) l vs.
Proof. apply vals_along_ne. Qed.

Lemma vals_along_alter_ne {E} (vals : gmap loc E) l vs e f :
  e ∉ l.*2 -> vals_along vals l vs -> vals_along (alter f e vals) l vs.
Proof. apply vals_along_ne. Qed.

Lemma vals_along_insert {E} (vals : gmap loc E) l vs i x v :
  NoDup l.*2 -> vals_along vals l vs -> l !! i = Some x ->
  vals_along (<[x.2 := v]> vals) l (<[i := v]> vs).
Proof.
  intros Hnd Hv Hi. pose proof (Forall2_length _ _ _ Hv) as Hlen.
  apply Forall2_same_length_lookup. split; [by rewrite length_insert|].
  intros j y w Hy Hw. destruct (decide (i = j)) as [->|Hij].
  - rewrite Hi in Hy. simplify_eq.
    rewrite list_lookup_insert_eq in Hw by (apply lookup_lt_Some in Hi; lia).
    simplify_eq. by rewrite lookup_insert_eq.
  - rewrite list_lookup_insert_ne in Hw by done. rewrite lookup_insert_ne.
    + eapply (Forall2_lookup_lr (fun (x : loc * loc) v => vals !! x.2 = Some v)); done.
    + intros Heq. apply Hij. eapply (NoDup_lookup _ _ _ _ Hnd); rewrite list_lookup_fmap.
      * by rewrite Hi.
      * rewrite Hy. cbn. by rewrite Heq.
Qed.

(** ** The abstract pool *)

Section spec.
Context {E : Type} {init : option (simple_pool_init_el_fn E)}
        {cmp : option (simple_pool_compare_el_fn E)} `{CB : !PoolCallbacks init cmp}.

(** An entry is a list node and the element it carries, for good. *)
Record apool := APool {
  a_free : list (loc * loc);
  a_busy : list (loc * loc);
  a_vals : gmap loc E
}.

Definition a_alloc (a : apool) : option (loc * loc) * apool :=
  match a_free a with
  | [] => (None, a)
  | x :: fr => (Some x, APool fr (a_busy a ++ [x]) (alter init_val x.2 (a_vals a)))
  end.

Definition a_matches (a : apool) (e : loc) (x : loc * loc) : bool :=
  match same with
  | None => bool_decide (x.2 = e)
  | Some eqv => match a_vals a !! x.2, a_vals a !! e with
                | Some v, Some v' => eqv v v'
                | _, _ => false end
  end.

Fixpoint a_first (a : apool) (e : loc) (l : list (loc * loc)) : option (loc * loc) :=
  match l with
  | [] => None
  | x :: l => if a_matches a e x then Some x else a_first a e l
  end.

Definition a_find (a : apool) (e : loc) : option (loc * loc) := a_first a e (a_busy a).

Definition a_release (a : apool) (x : loc * loc) : apool :=
  APool (a_free a ++ [x]) (filter (fun y => y <> x) (a_busy a)) (alter init_val x.2 (a_vals a)).

Definition a_pool_free (a : apool) (e : loc) : Z * apool :=
  match a_find a e with
  | Some x => (0, a_release a x)
  | None => (-1, a)
  end.

(** The representation of an abstract pool by the two linked lists. *)
Record pool_rep (s : pool_state E) (a : apool) : Prop := {
  rep_free : dlist (nodes (mem s)) (free_entries (pool s)) (a_free a).*1;
  rep_busy : dlist (nodes (mem s)) (entries (pool s)) (a_busy a).*1;
  rep_nodes : NoDup ((a_free a).*1 ++ (a_busy a).*1);
  rep_els : NoDup ((a_free a).*2 ++ (a_busy a).*2);
  rep_entry : forall x, x ∈ a_free a ++ a_busy a ->
    el <$> nodes (mem s) !! x.1 = Some (Some x.2) /\ is_Some (a_vals a !! x.2);
  rep_vals : cells (mem s) = a_vals a;
  rep_current : current_size (pool s) = Z.of_nat (length (a_busy a));
  rep_size : pool_size (pool s) = Z.of_nat (length (a_free a) + length (a_busy a));
  rep_init : init_fn (pool s) = init;
  rep_cmp : compare_fn (pool s) = cmp
}.

Implicit Types (s : pool_state E) (a : apool).

Lemma wp_on_mem {A} (m : M (heap E) A) (Q : A -> pool_state E -> Prop) s :
  wp m (fun r h => Q r (set_mem h s)) (mem s) -> wp (on_mem m) Q s.
Proof. apply wp_zoom. Qed.

Lemma set_mem_id s : set_mem (mem s) s = s.
Proof. by destruct s. Qed.

(** Reads leave the pool state as it is. *)
Lemma wp_mem_read_node p l nd (Q : sel4osapi_list_t -> pool_state E -> Prop) s :
  p = Some l -> nodes (mem s) !! l = Some nd -> Q nd s -> wp (on_mem (read_node p)) Q s.
Proof. intros -> Hl HQ. apply wp_on_mem. eapply wp_read_node; [done..|]. by rewrite set_mem_id. Qed.

Lemma wp_mem_read_cell p l v (Q : E -> pool_state E -> Prop) s :
  p = Some l -> cells (mem s) !! l = Some v -> Q v s -> wp (on_mem (read_cell p)) Q s.
Proof. intros -> Hl HQ. apply wp_on_mem. eapply wp_read_cell; [done..|]. by rewrite set_mem_id. Qed.

(** What [pool_init_entry] does to the element of the node [n]. *)
Lemma wp_pool_init_entry s n e v (Q : unit -> pool_state E -> Prop) :
  init_fn (pool s) = init ->
  el <$> nodes (mem s) !! n = Some (Some e) -> cells (mem s) !! e = Some v ->
  Q tt (set_mem (with_cells (alter init_val e (cells (mem s))) (mem s)) s) ->
  wp (pool_init_entry (Some n)) Q s.
Proof.
  intros Hi Hn Hv HQ. rewrite (alter_insert_Some _ _ _ _ Hv) in HQ.
  unfold pool_init_entry. wp_steps. destruct (init_fn (pool s)) as [f|].
  - destruct (nodes (mem s) !! n) as [nd|] eqn:Hnd; [|done]. injection Hn as Hn.
    wp_step. apply wp_on_mem. eapply wp_read_node; [done..|].
    apply wp_on_mem. cbn. rewrite Hn. eapply wp_eq; [by eapply (init_some f (eq_sym Hi))|done].
  - wp_step. rewrite init_none, insert_id in HQ by done. by destruct s as [p []].
Qed.

(** An entry of the pool has its node and its value in the heap. *)
Lemma rep_entry_get s a x :
  pool_rep s a -> x ∈ a_free a ++ a_busy a ->
  exists nd v, nodes (mem s) !! x.1 = Some nd /\ el nd = Some x.2 /\
               cells (mem s) !! x.2 = Some v.
Proof.
  intros R Hx. destruct (rep_entry _ _ R x Hx) as [Hn [v Hv]].
  destruct (nodes (mem s) !! x.1) as [nd|]; [|done]. injection Hn as Hn.
  exists nd, v. by rewrite (rep_vals _ _ R).
Qed.

Lemma frame_el ls m m' l e :
  nodes_frame ls m m' -> el <$> m !! l = Some e -> el <$> m' !! l = Some e.
Proof. intros [_ Hel] Hl. by rewrite Hel. Qed.

Lemma is_Some_alter (f : E -> E) i j (m : gmap loc E) :
  is_Some (m !! j) -> is_Some (alter f i m !! j).
Proof. intros [v Hv]. rewrite lookup_alter. case_decide; subst; rewrite ?Hv; eauto. Qed.

(** The representation when the entry [x] has moved from one list to the end
    of the other: [s'] is the state the code builds. *)
Lemma rep_moved s a s' fr bu x :
  pool_rep s a -> x ∈ a_free a ++ a_busy a -> fr ++ bu ≡ₚ a_free a ++ a_busy a ->
  dlist (nodes (mem s')) (free_entries (pool s')) fr.*1 ->
  dlist (nodes (mem s')) (entries (pool s')) bu.*1 ->
  (forall l, el <$> nodes (mem s') !! l = el <$> nodes (mem s) !! l) ->
  cells (mem s') = alter init_val x.2 (cells (mem s)) ->
  current_size (pool s') = Z.of_nat (length bu) ->
  pool_size (pool s') = pool_size (pool s) ->
  init_fn (pool s') = init_fn (pool s) -> compare_fn (pool s') = compare_fn (pool s) ->
  pool_rep s' (APool fr bu (alter init_val x.2 (a_vals a))).
Proof.
  intros R Hx Hp Hf Hb Hel Hc Hcur Hsz Hi Hcm.
  split; cbn; try done.
  - rewrite <- fmap_app, Hp, fmap_app. apply R.
  - rewrite <- fmap_app, Hp, fmap_app. apply R.
  - intros y Hy. rewrite Hp in Hy. destruct (rep_entry _ _ R y Hy) as [H1 H2].
    rewrite Hel. split; [done|by apply is_Some_alter].
  - by rewrite Hc, (rep_vals _ _ R).
  - rewrite Hsz, (rep_size _ _ R), <- !length_app. by rewrite Hp.
  - by rewrite Hi, (rep_init _ _ R).
  - by rewrite Hcm, (rep_cmp _ _ R).
Qed.

Lemma wp_alloc_entry s a :
  pool_rep s a ->
  wp simple_pool_alloc_entry
     (fun r s' => r = fst <$> (a_alloc a).1 /\ pool_rep s' (a_alloc a).2) s.
Proof.
  intros R. unfold simple_pool_alloc_entry, a_alloc. wp_steps.
  pose proof (dlist_first _ _ _ (rep_free _ _ R)) as Hfirst.
  destruct (a_free a) as [|x fr] eqn:Hfr; rewrite Hfirst; cbn; [by wp_step|].
  assert (Hx : x ∈ a_free a ++ a_busy a) by (rewrite Hfr; set_solver).
  destruct (rep_entry_get _ _ _ R Hx) as (nd & v & Hn & He & Hv).
  pose proof (rep_nodes _ _ R) as Hnd. pose proof (rep_free _ _ R) as Hdf.
  pose proof (rep_busy _ _ R) as Hdb. rewrite Hfr in Hnd, Hdf. cbn in Hnd, Hdf.
  wp_step. apply wp_on_mem. eapply wp_read_node; [done..|].
  wp_step. apply wp_assert; [by rewrite He|].
  wp_step. apply wp_on_mem. rewrite Hfirst in Hdf.
  eapply wp_mono; [by apply (wp_unlink (Some x.1) [])|].
  intros p1 h1 (m1 & -> & Hfm1 & Hd1 & _). unfold upd_pool. wp_steps.
  apply (NoDup_app (x.1 :: fr.*1)) in Hnd as (Hndf & Hdis & Hndb).
  assert (Hdb1 : dlist m1 (entries (pool s)) (a_busy a).*1).
  { eapply dlist_frame; [exact Hfm1| |done]. set_solver. }
  eapply (wp_pool_init_entry _ x.1 x.2 v).
  { cbn. apply R. } { cbn. eapply frame_el; [exact Hfm1|]. cbn. by rewrite Hn, <- He. } { done. }
  wp_step. apply wp_on_mem. eapply wp_mono.
  { apply (wp_insert_node _ (a_busy a).*1); [exact Hdb1|set_solver|].
    cbn. eapply nodes_frame_lookup; [exact Hfm1|cbn; by rewrite Hn]. }
  intros p2 h2 (m2 & -> & Hfm2 & Hd2). unfold upd_pool. cbn. wp_steps.
  { apply Z.leb_le. cbn. rewrite (rep_current _ _ R), (rep_size _ _ R), Hfr. cbn. lia. }
  split; [done|]. eapply (rep_moved s a).
  - done.
  - done.
  - rewrite Hfr. cbn. solve_Permutation.
  - cbn. eapply dlist_frame; [exact Hfm2| |exact Hd1]. apply NoDup_cons in Hndf. set_solver.
  - cbn. by rewrite fmap_app.
  - intros l. cbn. destruct Hfm2 as [_ ->]. cbn. by destruct Hfm1 as [_ ->].
  - done.
  - cbn. rewrite (rep_current _ _ R), length_app. cbn. lia.
  - done.
  - done.
  - done.
Qed.

Lemma wp_free_entry s a x :
  pool_rep s a -> x ∈ a_busy a ->
  wp (simple_pool_free_entry (Some x.1))
     (fun r s' => r = 0 /\ pool_rep s' (a_release a x)) s.
Proof.
  intros R Hxb. assert (Hx : x ∈ a_free a ++ a_busy a) by set_solver.
  destruct (rep_entry_get _ _ _ R Hx) as (nd & v & Hn & He & Hv).
  pose proof (rep_nodes _ _ R) as Hnd. pose proof (rep_free _ _ R) as Hdf.
  pose proof (rep_busy _ _ R) as Hdb.
  apply list_elem_of_split in Hxb as (b1 & b2 & Hb). rewrite Hb, fmap_app in Hnd, Hdb.
  cbn in Hnd, Hdb. apply NoDup_app in Hnd as (Hndf & Hdis & Hndb).
  assert (Hrel : filter (fun y => y <> x) (a_busy a) = b1 ++ b2).
  { rewrite Hb. apply filter_ne_mid, (NoDup_fmap_1 fst). by rewrite fmap_app. }
  unfold simple_pool_free_entry, a_release. rewrite Hrel. wp_steps.
  apply wp_on_mem. eapply wp_mono; [by apply (wp_unlink _ b1.*1)|].
  intros p1 h1 (m1 & -> & Hfm1 & Hd1 & _). unfold upd_pool. wp_steps.
  { apply Z.leb_le. cbn. rewrite (rep_current _ _ R), Hb, length_app. cbn. lia. }
  assert (Hdf1 : dlist m1 (free_entries (pool s)) (a_free a).*1).
  { eapply dlist_frame; [exact Hfm1| |done]. set_solver. }
  eapply (wp_pool_init_entry _ x.1 x.2 v).
  { cbn. apply R. } { cbn. eapply frame_el; [exact Hfm1|]. cbn. by rewrite Hn, <- He. } { done. }
  wp_step. apply wp_on_mem. eapply wp_mono.
  { apply (wp_insert_node _ (a_free a).*1); [exact Hdf1|set_solver|].
    cbn. eapply nodes_frame_lookup; [exact Hfm1|cbn; by rewrite Hn]. }
  intros p2 h2 (m2 & -> & Hfm2 & Hd2). unfold upd_pool. cbn. wp_steps.
  split; [done|]. eapply (rep_moved s a).
  - done.
  - done.
  - rewrite Hb. solve_Permutation.
  - cbn. by rewrite fmap_app.
  - cbn. rewrite fmap_app. eapply dlist_frame; [exact Hfm2| |exact Hd1].
    apply NoDup_app_not_mid in Hndb. set_solver.
  - intros l. cbn. destruct Hfm2 as [_ ->]. cbn. by destruct Hfm1 as [_ ->].
  - done.
  - cbn. rewrite (rep_current _ _ R), Hb, !length_app. cbn. lia.
  - done.
  - done.
  - done.
Qed.

Lemma wp_alloc s a :
  pool_rep s a ->
  wp simple_pool_alloc
     (fun r s' => r = snd <$> (a_alloc a).1 /\ pool_rep s' (a_alloc a).2) s.
Proof.
  intros R. unfold simple_pool_alloc. wp_step. eapply wp_mono; [by apply wp_alloc_entry|].
  intros r s' [-> R']. unfold a_alloc in *. destruct (a_free a) as [|x fr]; cbn in *.
  - by wp_step.
  - destruct (rep_entry_get _ _ x R') as (nd & v & Hn & He & _); [cbn; set_solver|].
    wp_step. apply wp_on_mem. eapply wp_read_node; [done..|]. wp_step.
    rewrite He. split; [done|]. destruct s' as [p h]. exact R'.
Qed.

(** One iteration of the search decides [a_matches] on the entry at hand. *)
Lemma wp_find_node_body s a e x nd found (Q : ptr * ptr -> heap E -> Prop) :
  pool_rep s a -> x ∈ a_busy a -> (same <> None -> is_Some (a_vals a !! e)) ->
  nodes (mem s) !! x.1 = Some nd ->
  Q (next nd, if a_matches a e x then Some x.1 else found) (mem s) ->
  wp (find_node_body (pool s) (Some e) (Some x.1, found)) Q (mem s).
Proof.
  intros R Hx He Hnd HQ. unfold find_node_body. cbn.
  destruct (rep_entry_get _ _ x R) as (nd' & v & Hn & Hel & Hv); [set_solver|].
  simplify_eq/=. wp_step. eapply wp_read_node; [done..|].
  wp_step. eapply (wp_eq _ _ _ (a_matches a e x) (mem s)); [|by wp_step].
  pose proof (rep_cmp _ _ R) as Hcmp. rewrite Hel. unfold a_matches.
  destruct (compare_fn (pool s)) as [f|].
  - destruct (cmp_some f (eq_sym Hcmp)) as (eqv & Hs & Hc). rewrite Hs in *.
    destruct (He ltac:(done)) as [v' Hv']. rewrite <- (rep_vals _ _ R), Hv in *.
    destruct (Hc (mem s) x.2 e v v') as (c & Hrun & Hz); [done..|].
    rewrite Hv'. unfold bind. rewrite Hrun. unfold ret. by rewrite Hz.
  - rewrite (cmp_none (eq_sym Hcmp)). unfold ret, ptr_eqb. do 2 f_equal.
    apply bool_decide_ext. split; congruence.
Qed.

Lemma a_first_app a e l1 l2 :
  a_first a e (l1 ++ l2) = match a_first a e l1 with Some x => Some x | None => a_first a e l2 end.
Proof. induction l1 as [|x l1 IH]; cbn; [done|]. by destruct (a_matches a e x). Qed.

Lemma wp_find_node s a e :
  pool_rep s a -> (same <> None -> is_Some (a_vals a !! e)) ->
  wp (simple_pool_find_node (Some e)) (fun r s' => r = fst <$> a_find a e /\ s' = s) s.
Proof.
  intros R He. unfold simple_pool_find_node. wp_steps. apply wp_on_mem. wp_steps.
  pose proof (rep_busy _ _ R) as Hd.
  eapply (wp_while (fun n x h => h = mem s /\ exists l1 l2, a_busy a = l1 ++ l2 /\
     x = (first NULL l2.*1, fst <$> a_first a e l1) /\
     (n = length l2 \/ a_first a e l1 <> None))).
  - intros n x h (-> & l1 & l2 & Hb & -> & Hn) [Hc Hc']%andb_prop.
    destruct l2 as [|y l2]; [done|]. cbn in Hc, Hc'.
    destruct (a_first a e l1) as [z|] eqn:Hl1; [done|]. destruct Hn as [->|]; [|done].
    eexists. split; [reflexivity|].
    rewrite Hb, fmap_app in Hd. cbn in Hd. destruct (dlist_split _ _ _ _ _ Hd) as [ele Hele].
    eapply wp_find_node_body; [done|rewrite Hb; set_solver|done|done|].
    split; [done|]. exists (l1 ++ [y]), l2. cbn. rewrite a_first_app, Hl1, Hb. cbn.
    split_and!; [by rewrite <- app_assoc| |by left]. by destruct (a_matches a e y).
  - intros n x h (-> & l1 & l2 & Hb & -> & Hn) Hc. wp_step. cbn in Hc |- *.
    split; [|by destruct s]. unfold a_find. rewrite Hb, a_first_app.
    destruct (a_first a e l1) as [z|]; [done|]. by destruct l2; [|].
  - split; [done|]. exists [], (a_busy a). cbn. split_and!; [done| |by left].
    by rewrite (dlist_first _ _ _ Hd).
  - pose proof (dlist_fuel _ _ _ Hd) as Hf. by rewrite length_fmap in Hf.
Qed.

Lemma a_first_in a e l x : a_first a e l = Some x -> x ∈ l /\ a_matches a e x = true.
Proof.
  induction l as [|y l IH]; cbn; [done|]. destruct (a_matches a e y) eqn:Hm.
  - intros. simplify_eq. set_solver.
  - intros [? ?]%IH. set_solver.
Qed.

Lemma wp_pool_free s a e :
  pool_rep s a -> (same <> None -> is_Some (a_vals a !! e)) ->
  wp (simple_pool_free (Some e))
     (fun r s' => r = (a_pool_free a e).1 /\ pool_rep s' (a_pool_free a e).2) s.
Proof.
  intros R He. unfold simple_pool_free, a_pool_free. wp_steps.
  eapply wp_mono; [by apply (wp_find_node s a e)|]. intros r s' [-> ->].
  destruct (a_find a e) as [x|] eqn:Hf; cbn; [|by wp_step].
  apply a_first_in in Hf as [Hx _]. by apply wp_free_entry.
Qed.

(** *** What clients of a pool use: walking the busy list, reading and writing
    the elements *)

Lemma rep_busy_entry s a b1 x b2 :
  pool_rep s a -> a_busy a = b1 ++ x :: b2 ->
  exists nd v, nodes (mem s) !! x.1 = Some nd /\ el nd = Some x.2 /\
    next nd = first NULL b2.*1 /\ a_vals a !! x.2 = Some v /\ cells (mem s) !! x.2 = Some v.
Proof.
  intros R Hb. destruct (rep_entry_get _ _ x R) as (nd & v & Hn & He & Hv); [rewrite Hb; set_solver|].
  pose proof (rep_busy _ _ R) as Hd. rewrite Hb, fmap_app in Hd. cbn in Hd.
  destruct (dlist_split _ _ _ _ _ Hd) as [e Hx]. simplify_eq.
  eexists _, v. split_and!; [done|done|done| |done]. by rewrite <- (rep_vals _ _ R).
Qed.

Lemma rep_write s a x v :
  pool_rep s a -> x ∈ a_free a ++ a_busy a ->
  pool_rep (set_mem (with_cells (<[x.2 := v]> (cells (mem s))) (mem s)) s)
           (APool (a_free a) (a_busy a) (<[x.2 := v]> (a_vals a))).
Proof.
  intros R Hx. destruct R. split; cbn; try done.
  - intros y Hy. destruct (rep_entry0 y Hy) as [H1 H2]. split; [done|].
    destruct (decide (x.2 = y.2)) as [->|]; [rewrite lookup_insert_eq|rewrite lookup_insert_ne]; eauto.
  - by rewrite rep_vals0.
Qed.

Lemma rep_busy_els s a : pool_rep s a -> NoDup (a_busy a).*2.
Proof. intros R. pose proof (rep_els _ _ R) as H. by apply NoDup_app in H as (_ & _ & H). Qed.

Lemma rep_busy_nodup s a : pool_rep s a -> NoDup (a_busy a).
Proof. intros R. by eapply (NoDup_fmap_1 snd), rep_busy_els. Qed.

(** *** Creation *)

Lemma heap_wf_insert_cell (h : heap E) l v :
  heap_wf h -> is_Some (blocks h !! l) -> heap_wf (with_cells (<[l := v]> (cells h)) h).
Proof.
  intros [W1 W2 W3 W4] Hl. split; cbn; try done.
  intros l' Hl'. destruct (decide (l' = l)) as [->|]; [done|].
  rewrite lookup_insert_ne in Hl' by done. eauto.
Qed.

(** Bytes taken from the arena for one element, and for a whole pool. *)
Definition entry_bytes (sz : Z) : Z := u32 (sz + 64) + u32 (sizeof_list_t + 64).
Definition pool_bytes (n sz : Z) : Z := u32 (sizeof_pool_t + 64) + n * entry_bytes sz.

Lemma entry_bytes_pos sz : 0 <= entry_bytes sz.
Proof.
  unfold entry_bytes. pose proof (u32_range (sz + 64)) as H1.
  pose proof (u32_range (sizeof_list_t + 64)) as H2. unfold is_u32 in *. lia.
Qed.

Lemma wp_pool_new_el (p : simple_pool_t E) ls uninit h :
  heap_wf h -> dlist (nodes h) (free_entries p) ls -> init_fn p = init ->
  entry_bytes (el_size p) <= avail h ->
  wp (simple_pool_new_el uninit p)
     (fun p' h' =>
        heap_wf h' /\ brk h' = Pos.succ (Pos.succ (brk h)) /\
        avail h' = avail h - entry_bytes (el_size p) /\
        p' = set_free_entries (free_entries p') p /\
        dlist (nodes h') (free_entries p') (ls ++ [Pos.succ (brk h)]) /\
        el <$> nodes h' !! Pos.succ (brk h) = Some (Some (brk h)) /\
        (forall l, l <> Pos.succ (brk h) -> el <$> nodes h' !! l = el <$> nodes h !! l) /\
        cells h' = <[brk h := init_val uninit]> (cells h)) h.
Proof.
  intros Hwf Hd Hi Hmem. unfold simple_pool_new_el. pose proof (entry_bytes_pos (el_size p)).
  unfold entry_bytes in Hmem.
  pose proof (u32_range (el_size p + 64)) as H1. pose proof (u32_range (sizeof_list_t + 64)) as H2.
  unfold is_u32 in H1, H2.
  destruct (malloc_ok (el_size p + 64) _ Hwf) as (h1 & Hm & Hwf1 & Hbrk & Hav & Hbl & Hno & Hce); [lia|].
  wp_step. eapply wp_eq; [exact Hm|]. wp_steps. unfold init_block. wp_steps.
  set (h2 := with_cells (<[brk h := init_val uninit]> (cells h1)) h1).
  apply (wp_eq _ _ _ tt h2).
  { destruct (init_fn p) as [f|].
    - rewrite (init_some f (eq_sym Hi) _ _ _ uninit) by apply lookup_insert_eq.
      cbn. by rewrite insert_insert_eq.
    - unfold h2. by rewrite (init_none (eq_sym Hi)). }
  assert (Hwf2 : heap_wf h2).
  { apply heap_wf_insert_cell; [done|]. rewrite Hbl. by simplify_map_eq. }
  assert (Hd2 : dlist (nodes h2) (free_entries p) ls) by (cbn; by rewrite Hno).
  wp_step. eapply wp_mono.
  { apply (wp_list_insert _ ls); [done|done|]. cbn. lia. }
  cbn. intros fr h' (W & Hn & Hd' & (nx & pv & Hnx) & _ & Hel & Hc & Hb & Ha).
  wp_step. rewrite Hbrk in *. split_and!; cbn; try done.
  - unfold entry_bytes. lia.
  - by rewrite Hnx.
  - intros l Hl. rewrite Hel by done. by rewrite Hno.
  - by rewrite Hc, Hce.
Qed.

(** The state of the creation loop once the entries [fr] are in place. *)
Record new_inv (h0 : heap E) (sz n : Z) arg uninit (fr : list (loc * loc))
    (i : Z) (p : simple_pool_t E) (h : heap E) : Prop := {
  ni_i : i = Z.of_nat (length fr);
  ni_pool : p = Pool (free_entries p) NULL sz n 0 init arg cmp;
  ni_wf : heap_wf h;
  ni_list : dlist (nodes h) (free_entries p) fr.*1;
  ni_els : NoDup fr.*2;
  ni_brk : (brk h0 <= brk h)%positive;
  ni_entry x : x ∈ fr -> (x.1 < brk h)%positive /\ (brk h0 <= x.2 < brk h)%positive /\
    el <$> nodes h !! x.1 = Some (Some x.2) /\ cells h !! x.2 = Some (init_val uninit);
  ni_old l : (l < brk h0)%positive -> cells h !! l = cells h0 !! l;
  ni_avail : (n - i) * entry_bytes sz <= avail h
}.

Lemma new_inv_step h0 sz n arg uninit fr i p h :
  new_inv h0 sz n arg uninit fr i p h -> i < n ->
  wp (simple_pool_new_el uninit p)
     (fun p' h' => new_inv h0 sz n arg uninit
        (fr ++ [(Pos.succ (brk h), brk h)]) (i + 1) p' h') h.
Proof.
  intros I Hi. pose proof (entry_bytes_pos sz) as Hpos. pose proof (ni_avail _ _ _ _ _ _ _ _ _ I).
  assert (Hsz : el_size p = sz) by (by rewrite (ni_pool _ _ _ _ _ _ _ _ _ I)).
  assert (Hin : init_fn p = init) by (by rewrite (ni_pool _ _ _ _ _ _ _ _ _ I)).
  eapply wp_mono; [apply (wp_pool_new_el p fr.*1); [apply I|apply I|done|rewrite Hsz; nia]|].
  intros p' h' (W & Hb & Ha & Hp & Hd & He & Hel & Hc).
  destruct I. split.
  - rewrite length_app. cbn. lia.
  - rewrite Hp, ni_pool0. done.
  - done.
  - by rewrite fmap_app.
  - rewrite fmap_app. apply NoDup_app. split_and!; [done| |by apply NoDup_singleton].
    intros l Hl%list_elem_of_fmap. destruct Hl as (x & -> & Hx).
    destruct (ni_entry0 x Hx) as (_ & ? & _). cbn. intros Heq%list_elem_of_singleton. lia.
  - lia.
  - intros x [Hx| ->%list_elem_of_singleton]%elem_of_app.
    + destruct (ni_entry0 x Hx) as (H1 & H2 & H3 & H4). rewrite Hel, Hc, lookup_insert_ne by lia.
      split_and!; [lia..|done|done].
    + cbn. rewrite Hc, lookup_insert_eq. split_and!; [lia..|done|done].
  - intros l Hl. rewrite Hc, lookup_insert_ne by lia. by apply ni_old0.
  - rewrite Ha, Hsz. nia.
Qed.

Lemma new_inv_rep h0 sz n arg uninit fr i p h :
  new_inv h0 sz n arg uninit fr i p h -> i = n ->
  pool_rep (PoolState p h) (APool fr [] (cells h)).
Proof.
  intros [] Hn. rewrite ni_pool0. split; cbn; rewrite ?app_nil_r; try done.
  - by eapply dlist_NoDup.
  - intros x Hx. destruct (ni_entry0 x Hx) as (_ & _ & H3 & H4). split; [done|]. by rewrite H4.
  - lia.
Qed.

Lemma wp_pool_new n sz arg uninit h :
  heap_wf h -> 0 < n -> 0 < sz -> pool_bytes n sz <= avail h ->
  wp (simple_pool_new n sz init arg cmp uninit)
     (fun p h' => exists fr, length fr = Z.to_nat n /\ heap_wf h' /\
        pool_rep (PoolState p h') (APool fr [] (cells h')) /\
        (forall x, x ∈ fr -> (brk h <= x.2)%positive /\ cells h' !! x.2 = Some (init_val uninit)) /\
        (forall l, (l < brk h)%positive -> cells h' !! l = cells h !! l)) h.
Proof.
  intros Hwf Hn Hsz Hmem. unfold simple_pool_new, pool_bytes in *. pose proof (entry_bytes_pos sz).
  pose proof (u32_range (sizeof_pool_t + 64)) as H1. unfold is_u32 in H1.
  wp_step. apply wp_assert; [lia|]. wp_step. apply wp_assert; [lia|].
  destruct (malloc_ok (sizeof_pool_t + 64) _ Hwf) as (h1 & Hm & Hwf1 & Hbrk & Hav & Hbl & Hno & Hce); [nia|].
  wp_step. eapply wp_eq; [exact Hm|]. wp_steps.
  eapply (wp_while (fun k x h' => exists fr, new_inv h sz n arg uninit fr x.1 x.2 h' /\
            x.1 <= n /\ k = Z.to_nat (n - x.1))).
  - intros k [i p] h' (fr & I & Hle & ->) Hc. cbn in I, Hle |- *.
    rewrite (ni_pool _ _ _ _ _ _ _ _ _ I) in Hc. cbn in Hc.
    exists (Z.to_nat (n - (i + 1))). split; [lia|].
    wp_step. eapply wp_mono; [apply (new_inv_step _ _ _ _ _ _ _ _ _ I); lia|].
    intros p' h2 I2. wp_step. eexists. split_and!; [exact I2|cbn; lia|done].
  - intros k [i p] h' (fr & I & Hle & ->) Hc. cbn in I, Hle. wp_step.
    rewrite (ni_pool _ _ _ _ _ _ _ _ _ I) in Hc. cbn in Hc.
    assert (i = n) as -> by lia.
    exists fr. split_and!; [pose proof (ni_i _ _ _ _ _ _ _ _ _ I); lia|apply I| | |apply I].
    + by eapply new_inv_rep.
    + intros x Hx. destruct (ni_entry _ _ _ _ _ _ _ _ _ I x Hx) as (_ & ? & _ & ?). split; [lia|done].
  - cbn. exists []. split; [|split; [lia|reflexivity]]. split; try done.
    + constructor.
    + lia.
    + intros x Hx. by apply not_elem_of_nil in Hx.
    + intros l _. by rewrite Hce.
    + lia.
  - cbn. lia.
Qed.

(** *** Sequences of client calls *)

Inductive pool_op := op_alloc | op_free (e : loc) | op_size.
Inductive pool_res := res_ptr (p : ptr) | res_int (z : Z).

Definition run_op (o : pool_op) : M (pool_state E) pool_res :=
  match o with
  | op_alloc => let! p := simple_pool_alloc in ret (res_ptr p)
  | op_free e => let! z := simple_pool_free (Some e) in ret (res_int z)
  | op_size => let! z := simple_pool_get_current_size in ret (res_int z)
  end.

Fixpoint run_ops (os : list pool_op) : M (pool_state E) (list pool_res) :=
  match os with
  | [] => ret []
  | o :: os => let! r := run_op o in let! rs := run_ops os in ret (r :: rs)
  end.

Definition a_run_op (o : pool_op) (a : apool) : pool_res * apool :=
  match o with
  | op_alloc => (res_ptr (snd <$> (a_alloc a).1), (a_alloc a).2)
  | op_free e => (res_int (a_pool_free a e).1, (a_pool_free a e).2)
  | op_size => (res_int (Z.of_nat (length (a_busy a))), a)
  end.

Fixpoint a_run_ops (os : list pool_op) (a : apool) : list pool_res * apool :=
  match os with
  | [] => ([], a)
  | o :: os => let r := a_run_op o a in
               let rs := a_run_ops os r.2 in (r.1 :: rs.1, rs.2)
  end.

(** A freed pointer must point to a live element when a comparison function
    will look through it. *)
Definition op_ok (a : apool) (o : pool_op) : Prop :=
  match o with op_free e => same <> None -> is_Some (a_vals a !! e) | _ => True end.

Lemma a_run_op_ok o o' a : op_ok a o' -> op_ok (a_run_op o a).2 o'.
Proof.
  destruct o' as [|e'|]; try done. intros Hok Hs. specialize (Hok Hs).
  destruct o as [|e|]; cbn; [|unfold a_pool_free; destruct (a_find a e)|]; cbn; try done;
    [|by apply is_Some_alter].
  unfold a_alloc. destruct (a_free a); cbn; [done|by apply is_Some_alter].
Qed.

Lemma wp_run_op o s a :
  pool_rep s a -> op_ok a o ->
  wp (run_op o) (fun r s' => r = (a_run_op o a).1 /\ pool_rep s' (a_run_op o a).2) s.
Proof.
  intros R Hok. destruct o as [|e|]; cbn.
  - wp_step. eapply wp_mono; [by apply wp_alloc|]. intros r s' [-> R']. by wp_step.
  - wp_step. eapply wp_mono; [by apply wp_pool_free|]. intros r s' [-> R']. by wp_step.
  - unfold simple_pool_get_current_size. wp_steps. by rewrite (rep_current _ _ R).
Qed.

Lemma wp_run_ops os s a :
  pool_rep s a -> Forall (op_ok a) os ->
  wp (run_ops os) (fun r s' => r = (a_run_ops os a).1 /\ pool_rep s' (a_run_ops os a).2) s.
Proof.
  revert s a. induction os as [|o os IH]; intros s a R Hok; cbn; [by wp_step|].
  apply Forall_cons in Hok as [Ho Hos].
  wp_step. eapply wp_mono; [by apply wp_run_op|]. intros r s' [-> R'].
  wp_step. eapply wp_mono; [eapply IH; [exact R'|]|].
  { eapply Forall_impl; [exact Hos|]. intros o'. apply a_run_op_ok. }
  intros rs s'' [-> R'']. by wp_step.
Qed.

(** The capacity is constant: entries are neither lost nor made. *)
Lemma a_run_op_entries o a :
  (a_run_op o a).2.(a_free) ++ (a_run_op o a).2.(a_busy) ≡ₚ a_free a ++ a_busy a \/
  ~ NoDup (a_busy a).
Proof.
  destruct o as [|e|]; cbn; [| |by left].
  - left. unfold a_alloc. destruct (a_free a) as [|x fr] eqn:Hf; cbn; [by rewrite Hf|].
    solve_Permutation.
  - unfold a_pool_free. destruct (a_find a e) as [x|] eqn:Hf; cbn; [|by left].
    apply a_first_in in Hf as [Hx _]. apply list_elem_of_split in Hx as (b1 & b2 & Hb).
    destruct (decide (NoDup (a_busy a))) as [Hnd|]; [left|by right].
    rewrite Hb, filter_ne_mid by by rewrite <- Hb. solve_Permutation.
Qed.
End spec.
Arguments apool E : clear implicits.
Arguments pool_rep {E} init cmp s a.
Arguments init_val {E} init cmp {_} _.
Arguments same {E} init cmp {_}.
Arguments a_alloc {E} init cmp {CB} a.
Arguments a_matches {E} init cmp {CB} a e x.
Arguments a_first {E} init cmp {CB} a e l.
Arguments a_find {E} init cmp {CB} a e.
Arguments a_release {E} init cmp {CB} a x.
Arguments a_pool_free {E} init cmp {CB} a e.
Arguments a_run_op {E} init cmp {CB} o a.
Arguments a_run_ops {E} init cmp {CB} os a.
Arguments op_ok {E} init cmp {CB} a o.

(** ** Properties *)

Section properties.
Context {E : Type} {init : option (simple_pool_init_el_fn E)}
        {cmp : option (simple_pool_compare_el_fn E)} `{CB : !PoolCallbacks init cmp}.
Implicit Types (s : pool_state E) (a : apool E).

(** A pool created in an arena that has room for it ends with every one of
    its [size] elements allocated, initialised and free, on well-linked lists;
    no object that was in the heap is touched. *)
Theorem pool_new_ready n sz arg uninit h :
  heap_wf h -> 0 < n -> 0 < sz -> pool_bytes n sz <= avail h ->
  exists p h' fr, simple_pool_new n sz init arg cmp uninit h = Done (p, h') /\
    length fr = Z.to_nat n /\ pool_rep init cmp (PoolState p h') (APool fr [] (cells h')) /\
    (forall x, x ∈ fr -> (brk h <= x.2)%positive /\ cells h' !! x.2 = Some (init_val init cmp uninit)) /\
    (forall l, (l < brk h)%positive -> cells h' !! l = cells h !! l) /\ heap_wf h'.
Proof.
  intros Hwf Hn Hsz Hmem.
  destruct (wp_pool_new n sz arg uninit h Hwf Hn Hsz Hmem) as (p & h' & Hr & fr & H1 & H2 & H3 & H4 & H5).
  by exists p, h', fr.
Qed.

(** C21: Refinement.  Any sequence of allocations, frees and size queries on a
    fresh pool runs to its end and returns, call by call, what the abstract
    pool of two queues returns: allocation takes the oldest free element,
    freeing looks the pointer up among the busy elements (-1 when it is not
    there) and queues the element behind the other free ones. *)
Theorem pool_refines_queues n sz arg uninit h os :
  heap_wf h -> 0 < n -> 0 < sz -> pool_bytes n sz <= avail h ->
  exists p h1 fr, simple_pool_new n sz init arg cmp uninit h = Done (p, h1) /\
    length fr = Z.to_nat n /\
    let a0 := APool fr [] (cells h1) in
    (Forall (op_ok init cmp a0) os ->
     exists s', run_ops os (PoolState p h1) = Done ((a_run_ops init cmp os a0).1, s') /\
                pool_rep init cmp s' (a_run_ops init cmp os a0).2).
Proof.
  intros Hwf Hn Hsz Hmem.
  destruct (wp_pool_new n sz arg uninit h Hwf Hn Hsz Hmem) as (p & h' & Hr & fr & H1 & H2 & H3 & H4 & H5).
  exists p, h', fr. split_and!; [done..|]. intros a0 Hok.
  destruct (wp_run_ops os _ _ H3 Hok) as (r & s' & Hrun & -> & R). by exists s'.
Qed.

(** Allocation never shares.  It returns NULL exactly when [current_size]
    has reached [size]; otherwise it returns an element no caller holds, in its
    initialised state, and counts it. *)
Theorem pool_alloc_exclusive s a :
  pool_rep init cmp s a ->
  exists r s', simple_pool_alloc s = Done (r, s') /\
    match r with
    | None => current_size (pool s) = pool_size (pool s) /\ pool_rep init cmp s' a
    | Some e =>
        current_size (pool s) < pool_size (pool s) /\
        e ∈ (a_free a).*2 /\ e ∉ (a_busy a).*2 /\
        (exists v, a_vals a !! e = Some v /\ cells (mem s') !! e = Some (init_val init cmp v)) /\
        current_size (pool s') = current_size (pool s) + 1 /\
        pool_size (pool s') = pool_size (pool s)
    end.
Proof.
  intros R. destruct (wp_alloc s a R) as (r & s' & Hr & -> & R').
  eexists _, s'. split; [exact Hr|]. unfold a_alloc in *.
  pose proof (rep_current _ _ R) as Hc. pose proof (rep_size _ _ R) as Hs.
  pose proof (rep_els _ _ R) as Hnd. pose proof (rep_entry _ _ R) as He.
  destruct (a_free a) as [|x fr] eqn:Hf; cbn in *; [split; [lia|done]|].
  apply NoDup_cons in Hnd as [Hnd _].
  destruct (He x ltac:(set_solver)) as [_ [v Hv]].
  split_and!; [lia|set_solver|set_solver| | |].
  - exists v. split; [done|]. rewrite (rep_vals _ _ R'). cbn. by rewrite lookup_alter_eq, Hv.
  - rewrite (rep_current _ _ R'). cbn. rewrite length_app. cbn. lia.
  - rewrite (rep_size _ _ R'). cbn. rewrite length_app. cbn. lia.
Qed.
End properties.

(** Pools without callbacks compare elements by address. *)
Section null_pool.
Context {E : Type}.
Implicit Types (s : pool_state E) (a : apool E).

Lemma a_first_addr a e l :
  a_first None None a e l = None <-> e ∉ l.*2.
Proof.
  induction l as [|x l IH]; cbn; [split; [intros _; set_solver|done]|].
  unfold a_matches. cbn. case_bool_decide; [split; [done|set_solver]|].
  rewrite IH. set_solver.
Qed.

Lemma a_find_addr a x :
  NoDup (a_busy a).*2 -> x ∈ a_busy a -> a_find None None a x.2 = Some x.
Proof.
  unfold a_find. induction (a_busy a) as [|y l IH]; [set_solver|].
  intros [Hy Hnd]%NoDup_cons. cbn. unfold a_matches. cbn.
  case_bool_decide as Heq; intros [->|Hx]%elem_of_cons; try done; [|by apply IH].
  exfalso. apply Hy. rewrite Heq. by apply list_elem_of_fmap_2.
Qed.


(** A double free is caught: the first free of a busy element returns 0,
    the second returns -1 and changes nothing. *)
Theorem pool_double_free_rejected s a e :
  pool_rep None None s a -> e ∈ (a_busy a).*2 ->
  exists s1, simple_pool_free (Some e) s = Done (0, s1) /\
    current_size (pool s1) = current_size (pool s) - 1 /\
    simple_pool_free (Some e) s1 = Done (-1, s1).
Proof.
  intros R He. apply list_elem_of_fmap in He as (x & -> & Hx).
  pose proof (rep_busy_els _ _ R) as Hnd.
  destruct (wp_pool_free s a x.2 R) as (r & s1 & Hr & Hz & R1); [done|].
  unfold a_pool_free in Hz, R1. rewrite (a_find_addr a x Hnd Hx) in Hz, R1. cbn in Hz, R1. subst r.
  apply list_elem_of_split in Hx as (b1 & b2 & Hb).
  assert (Hbusy : a_busy (a_release None None a x) = b1 ++ b2).
  { cbn. rewrite Hb. apply filter_ne_mid, (NoDup_fmap_1 snd). by rewrite <- Hb. }
  exists s1. split_and!; [done| |].
  - rewrite (rep_current _ _ R), (rep_current _ _ R1), Hbusy, Hb, !length_app. cbn. lia.
  - assert (Hnone : a_find None None (a_release None None a x) x.2 = None).
    { apply a_first_addr. rewrite Hbusy. rewrite Hb, fmap_app in Hnd. cbn in Hnd.
      rewrite fmap_app. by apply NoDup_app_not_mid in Hnd as [? _]. }
    unfold simple_pool_free.
    destruct (wp_find_node s1 _ x.2 R1) as (r & s2 & Hf & -> & ->); [done|].
    rewrite Hnone in Hf. rewrite (bind_done _ _ _ tt s1 eq_refl), (bind_done _ _ _ _ _ Hf). done.
Qed.

Lemma alter_id_vals (vals : gmap loc E) e : alter (fun v : E => v) e vals = vals.
Proof.
  apply map_eq. intros j. destruct (decide (e = j)) as [->|].
  - rewrite lookup_alter_eq. by destruct (vals !! j).
  - by rewrite lookup_alter_ne.
Qed.

Lemma wp_alloc_null s a :
  pool_rep None None s a ->
  wp simple_pool_alloc
     (fun r s' => pool_size (pool s') = pool_size (pool s) /\
        match a_free a with
        | [] => r = NULL /\ pool_rep None None s' a
        | x :: fr => r = Some x.2 /\ x.2 ∉ (a_busy a).*2 /\
                     pool_rep None None s' (APool fr (a_busy a ++ [x]) (a_vals a))
        end) s.
Proof.
  intros R. eapply wp_mono; [by apply (wp_alloc s a)|]. intros r s' [-> R'].
  rewrite (rep_size _ _ R), (rep_size _ _ R'). pose proof (rep_els _ _ R) as Hels.
  unfold a_alloc in *. destruct (a_free a) as [|x fr] eqn:Hf; cbn in R', Hels |- *; [by rewrite Hf|].
  rewrite alter_id_vals in R'. apply NoDup_cons in Hels as [Hels _].
  split_and!; [rewrite length_app; cbn; lia|done|set_solver|done].
Qed.

Lemma wp_free_null s a b1 x b2 :
  pool_rep None None s a -> a_busy a = b1 ++ x :: b2 ->
  wp (simple_pool_free (Some x.2))
     (fun r s' => r = 0 /\ pool_size (pool s') = pool_size (pool s) /\
        pool_rep None None s' (APool (a_free a ++ [x]) (b1 ++ b2) (a_vals a))) s.
Proof.
  intros R Hb. pose proof (rep_busy_els _ _ R) as Hnd.
  eapply wp_mono; [by apply (wp_pool_free s a x.2 R)|]. intros r s'.
  unfold a_pool_free. rewrite (a_find_addr a x Hnd) by (rewrite Hb; set_solver). intros [-> R']. unfold a_release in R'. cbn in R'.
  rewrite alter_id_vals, Hb, filter_ne_mid in R' by (rewrite <- Hb; by eapply NoDup_fmap_1).
  rewrite (rep_size _ _ R), (rep_size _ _ R'), Hb. cbn. rewrite !length_app. cbn.
  split_and!; [done|lia|done].
Qed.

Lemma a_run_allocs (a : apool E) fr fr' bu vals :
  a = APool (fr ++ fr') bu vals ->
  (a_run_ops None None (replicate (length fr) op_alloc) a).1
  = (fun x => res_ptr (Some x.2)) <$> fr.
Proof.
  revert a bu vals. induction fr as [|x fr IH]; intros a bu vals ->; cbn; [done|].
  f_equal. by eapply IH.
Qed.

(** Elements are recycled in FIFO order: an element that is freed is handed
    out again only after all the elements that were free before it. *)
Theorem pool_reuse_is_fifo s a e :
  pool_rep None None s a -> e ∈ (a_busy a).*2 ->
  exists s', run_ops (op_free e :: replicate (S (length (a_free a))) op_alloc) s
    = Done (res_int 0 :: ((fun x => res_ptr (Some x.2)) <$> a_free a) ++ [res_ptr (Some e)], s').
Proof.
  intros R He. apply list_elem_of_fmap in He as (x & -> & Hx).
  destruct (wp_run_ops (op_free x.2 :: replicate (S (length (a_free a))) op_alloc) s a R)
    as (r & s' & Hr & -> & R').
  { repeat constructor; cbn; try done. by apply Forall_replicate. }
  exists s'. rewrite Hr. cbn [a_run_ops fst].
  unfold a_run_op, a_pool_free. rewrite (a_find_addr a x (rep_busy_els _ _ R) Hx). cbn [fst snd].
  unfold a_release. do 2 f_equal. f_equal.
  replace (S (length (a_free a))) with (length (a_free a ++ [x])) by (rewrite length_app; cbn; lia).
  erewrite (a_run_allocs _ (a_free a ++ [x]) []) by by rewrite app_nil_r. by rewrite fmap_app.
Qed.
End null_pool.

(** *** Concrete pools: a fresh arena, and a pool of three with one busy entry *)

Definition sample_arena : heap Z := Heap 1 4096 ∅ ∅ ∅.

Lemma sample_arena_wf : heap_wf sample_arena.
Proof. by split; cbn; try (intros l [? Hl]). Qed.

Definition sample_pool : pool_state Z :=
  PoolState (Pool (Some 2%positive) (Some 1%positive) 4 3 1 None NULL None)
    (Heap 20 1000 ∅
       {[1%positive := Node (Some 11%positive) NULL NULL;
         2%positive := Node (Some 12%positive) (Some 3%positive) NULL;
         3%positive := Node (Some 13%positive) NULL (Some 2%positive)]}
       {[11%positive := 5; 12%positive := 6; 13%positive := 7]}).

Definition sample_apool : apool Z :=
  APool [(2, 12); (3, 13)]%positive [(1, 11)]%positive {[11%positive := 5; 12%positive := 6; 13%positive := 7]}.

Lemma sample_pool_rep : pool_rep None None sample_pool sample_apool.
Proof.
  split; try done.
  - split; [done|]. cbn. split_and!; [by eexists..|done].
  - split; [done|]. cbn. split_and!; [by eexists|done].
  - cbn. repeat constructor; set_solver.
  - cbn. repeat constructor; set_solver.
  - intros x Hx. cbn in Hx. repeat (apply elem_of_cons in Hx as [->|Hx]; [split; [done|by eexists]|]).
    by apply not_elem_of_nil in Hx.
Qed.

Lemma pool_new_ready_witness :
  exists p h' fr, simple_pool_new 2 4 None NULL None 0 sample_arena = Done (p, h') /\
    length fr = 2%nat /\ pool_rep None None (PoolState p h') (APool fr [] (cells h')).
Proof.
  destruct (pool_new_ready (init:=None) (cmp:=None) 2 4 NULL 0 sample_arena)
    as (p & h' & fr & H1 & H2 & H3 & _);
    [apply sample_arena_wf|done|done|by vm_compute|].
  exists p, h', fr. split_and!; [exact H1|exact H2|exact H3].
Defined.

Lemma pool_refines_queues_witness :
  exists p h1 fr, simple_pool_new 1 4 None NULL None 0 sample_arena = Done (p, h1) /\
    exists s', run_ops [op_alloc; op_alloc; op_size; op_free 7; op_alloc] (PoolState p h1) =
      Done ((a_run_ops None None [op_alloc; op_alloc; op_size; op_free 7; op_alloc]
               (APool fr [] (cells h1))).1, s').
Proof.
  destruct (pool_refines_queues (init:=None) (cmp:=None) 1 4 NULL 0 sample_arena
              [op_alloc; op_alloc; op_size; op_free 7; op_alloc])
    as (p & h1 & fr & H1 & _ & H3);
    [apply sample_arena_wf|done|done|by vm_compute|].
  exists p, h1, fr. split; [exact H1|].
  destruct H3 as (s' & H3 & _); [apply Forall_forall; intros [] _; by cbn|]. by exists s'.
Defined.

Lemma pool_alloc_exclusive_witness :
  exists r s', simple_pool_alloc sample_pool = Done (Some r, s') /\
    r ∉ (a_busy sample_apool).*2 /\ current_size (pool s') = 2.
Proof.
  destruct (pool_alloc_exclusive sample_pool sample_apool sample_pool_rep) as (r & s' & H1 & H2).
  destruct r as [e|]; [|by destruct H2 as [H2 _]].
  exists e, s'. destruct H2 as (_ & _ & H2 & _ & H3 & _). split_and!; [exact H1|exact H2|exact H3].
Defined.

Lemma pool_double_free_rejected_witness :
  exists s1, simple_pool_free (Some 11%positive) sample_pool = Done (0, s1) /\
    simple_pool_free (Some 11%positive) s1 = Done (-1, s1).
Proof.
  destruct (pool_double_free_rejected sample_pool sample_apool 11%positive sample_pool_rep)
    as (s1 & H1 & _ & H2); [set_solver|].
  exists s1. split; [exact H1|exact H2].
Defined.

Lemma pool_reuse_is_fifo_witness :
  exists s', run_ops [op_free 11; op_alloc; op_alloc; op_alloc] sample_pool =
    Done ([res_int 0; res_ptr (Some 12%positive); res_ptr (Some 13%positive);
           res_ptr (Some 11%positive)], s').
Proof.
  destruct (pool_reuse_is_fifo sample_pool sample_apool 11%positive sample_pool_rep)
    as (s' & H); [set_solver|].
  exists s'. exact H.
Defined.
