(* ===== verification/PoolSearch.v ===== *)
(** * PoolSearch: the loops over the busy entries of a pool

    Several parts of the library look for an element of a pool by walking its
    [entries] with a cursor of their own:
<<
    cursor = pool->entries;
    while (cursor != NULL) { el = cursor->el; if (pred(el)) { ...; break; } cursor = cursor->next; }
>>
    [pool_search] is that loop; what the loop does to the variable it computes
    is a parameter, on a hit and on a miss. *)

From S2P Require Import Prelude Memory LinkedList Pool.

Section search_c.
Context {E X : Type} (pred : E -> bool) (hit : ptr -> X) (miss : X -> X).

Definition search_body (x : ptr * X * bool) : M (pool_state E) (ptr * X * bool) :=
  let '(cursor, v, _) := x in
  let! n := on_mem (read_node cursor) in
  let! c := on_mem (read_cell (el n)) in
  if pred c then ret (cursor, hit (el n), true) else ret (next n, miss v, false).

Definition pool_search (v : X) : M (pool_state E) X :=
  let! s := get in
  let! r := while (heap_fuel (mem s)) (fun x => non_null x.1.1 && negb x.2)
              search_body (entries (pool s), v, false) in
  ret r.1.2.

(** What it computes: the first element that satisfies [pred]. *)
Fixpoint a_search (busy : list (loc * loc)) (vs : list E) (v : X) : X :=
  match busy, vs with
  | x :: busy, c :: vs => if pred c then hit (Some x.2) else a_search busy vs (miss v)
  | _, _ => v
  end.

Definition searching s (a : apool E) vs v0 (n : nat) (x : ptr * X * bool) (s' : pool_state E) : Prop :=
  s' = s /\
  if x.2 then a_search (a_busy a) vs v0 = x.1.2
  else exists b1 b2 c2, a_busy a = b1 ++ b2 /\ vals_along (a_vals a) b2 c2 /\
    x.1.1 = first NULL b2.*1 /\ n = length b2 /\ a_search (a_busy a) vs v0 = a_search b2 c2 x.1.2.

Lemma wp_search_body s a vs v0 n x :
  pool_rep None None s a -> searching s a vs v0 n x s -> non_null x.1.1 && negb x.2 = true ->
  exists n', n = S n' /\ wp (search_body x) (searching s a vs v0 n') s.
Proof.
  intros R [_ HI] Hc. destruct x as [[cur v] stop]. cbn in *.
  apply andb_prop in Hc as [Hc Hstop]. destruct stop; [done|].
  destruct HI as (b1 & b2 & c2 & Hb & Hv & -> & -> & Hs).
  destruct b2 as [|y b2]; [done|]. exists (length b2). split; [done|].
  apply Forall2_cons_inv_l in Hv as (c & c2' & Hy & Hv & ->).
  destruct (rep_busy_entry _ _ b1 y b2 R Hb) as (nd & w & Hnd & Hel & Hnx & Hva & Hcell).
  unfold search_body. wp_step. eapply wp_mem_read_node; [done|exact Hnd|].
  wp_step. eapply wp_mem_read_cell; [exact Hel|exact Hcell|].
  rewrite Hy in Hva. injection Hva as <-. cbn in Hs.
  destruct (pred c); wp_step; (split; [done|]); cbn.
  - by rewrite Hs, Hel.
  - exists (b1 ++ [y]), b2, c2'. rewrite <- app_assoc. by split_and!.
Qed.

Lemma wp_pool_search s a vs v :
  pool_rep None None s a -> vals_along (a_vals a) (a_busy a) vs ->
  wp (pool_search v) (fun r s' => r = a_search (a_busy a) vs v /\ s' = s) s.
Proof.
  intros R Hvs. unfold pool_search. wp_steps. eapply (wp_while (searching s a vs v)).
  - intros n x s' HI Hc. pose proof (proj1 HI) as ->. by apply wp_search_body.
  - intros n x s' [-> HI] Hc. wp_step. split; [|done]. destruct x as [[cur w] stop]. cbn in *.
    destruct stop; cbn in *; [by rewrite HI|]. rewrite andb_true_r in Hc.
    destruct HI as (b1 & b2 & c2 & _ & _ & -> & _ & ->). by destruct b2.
  - split; [done|]. cbn. exists [], (a_busy a), vs. split_and!; try done.
    apply (dlist_first _ _ _ (rep_busy _ _ R)).
  - pose proof (dlist_fuel _ _ _ (rep_busy _ _ R)) as Hf. by rewrite length_fmap in Hf.
Qed.

(** The search does not find what is not there, and finds a unique element. *)
Lemma a_search_miss busy vs v :
  Forall (fun c => pred c = false) vs -> length busy = length vs ->
  a_search busy vs v = Nat.iter (length vs) miss v.
Proof.
  intros Hf. revert busy v. induction Hf as [|c vs Hc _ IH]; intros [|x busy] v Hl; try done.
  cbn [a_search length]. rewrite Hc, IH by (cbn in Hl; lia). by rewrite Nat.iter_succ_r.
Qed.

Lemma a_search_hit busy vs v i x c :
  busy !! i = Some x -> vs !! i = Some c -> pred c = true ->
  (forall j c', (j < i)%nat -> vs !! j = Some c' -> pred c' = false) ->
  a_search busy vs v = hit (Some x.2).
Proof.
  revert busy vs v. induction i as [|i IH]; intros [|y busy] [|c' vs] v Hx Hc Hp Hbefore; try done; cbn in *.
  - simplify_eq. by rewrite Hp.
  - rewrite (Hbefore 0%nat c') by (done || lia). eapply IH; [done..|].
    intros j c'' Hj. apply (Hbefore (S j)). lia.
Qed.
End search_c.

(** Reading a structure nested in another one: [m] runs on [t] and its changes,
    if any, are dropped. *)
Definition peek {S T A} (t : T) (m : M T A) : M S A := zoom (fun _ => t) (fun _ s => s) m.

Lemma wp_peek {S T A} (t : T) (m : M T A) (Q : A -> S -> Prop) s :
  wp m (fun a _ => Q a s) t -> wp (peek t m) Q s.
Proof. exact (wp_zoom (fun _ => t) (fun _ s => s) m Q s). Qed.

(** ** A pool as the list of the values it holds *)

Section holds.
Context {E : Type}.
Implicit Types (p : pool_state E) (free busy : list (loc * loc)) (vs : list E).

(** The pool [p] holds the values [vs], at the entries [busy]; the entries
    [free] are left. *)
Record holds p free busy vs : Prop := {
  hd_rep : exists vals, pool_rep None None p (APool free busy vals) /\ vals_along vals busy vs
}.

Lemma holds_length p free busy vs : holds p free busy vs ->
  length busy = length vs /\ current_size (pool p) = Z.of_nat (length vs) /\ NoDup busy.*2 /\
  pool_size (pool p) = Z.of_nat (length free + length vs).
Proof.
  intros [(vals & R & Hv)]. pose proof (Forall2_length _ _ _ Hv) as Hl. split_and!; [done| | |].
  - rewrite (rep_current _ _ R). cbn. by rewrite Hl.
  - apply (rep_busy_els _ _ R).
  - rewrite (rep_size _ _ R). cbn. by rewrite Hl.
Qed.

Lemma holds_read p free busy vs i x v (Q : E -> pool_state E -> Prop) :
  holds p free busy vs -> busy !! i = Some x -> vs !! i = Some v -> Q v p ->
  wp (on_mem (read_cell (Some x.2))) Q p.
Proof.
  intros [(vals & R & Hv)] Hx Hi HQ. eapply wp_mem_read_cell; [done| |done].
  rewrite (rep_vals _ _ R). cbn.
  eapply (Forall2_lookup_lr (fun (x : loc * loc) v => vals !! x.2 = Some v)); done.
Qed.

Lemma holds_read_last p free busy vs x v (Q : E -> pool_state E -> Prop) :
  holds p free (busy ++ [x]) (vs ++ [v]) -> Q v p -> wp (on_mem (read_cell (Some x.2))) Q p.
Proof.
  intros R HQ. destruct (holds_length _ _ _ _ R) as (Hl & _). rewrite !length_app in Hl. cbn [length] in Hl.
  apply (holds_read _ _ _ _ (length busy) x v _ R); [by apply list_lookup_middle| |done].
  apply list_lookup_middle. lia.
Qed.

Lemma holds_write p free busy vs i x v v' (Q : unit -> pool_state E -> Prop) :
  holds p free busy vs -> busy !! i = Some x -> vs !! i = Some v ->
  (forall p', holds p' free busy (<[i := v']> vs) -> Q tt p') ->
  wp (on_mem (write_cell (Some x.2) v')) Q p.
Proof.
  intros H Hx Hi HQ. pose proof (holds_length _ _ _ _ H) as (_ & _ & Hnd & _).
  destruct H as [(vals & R & Hv)]. apply wp_on_mem. eapply wp_write_cell; [done| |].
  { rewrite (rep_vals _ _ R). cbn.
    eapply (Forall2_lookup_lr (fun (x : loc * loc) v => vals !! x.2 = Some v)); done. }
  apply HQ. split. exists (<[x.2 := v']> vals). split; [|by apply vals_along_insert].
  apply (rep_write _ _ x _ R). cbn. apply elem_of_app. right. by eapply list_elem_of_lookup_2.
Qed.

Lemma holds_alloc p free busy vs (Q : ptr -> pool_state E -> Prop) :
  holds p free busy vs ->
  (free = [] -> forall p', holds p' free busy vs -> Q NULL p') ->
  (forall x fr p' v, free = x :: fr -> holds p' fr (busy ++ [x]) (vs ++ [v]) -> Q (Some x.2) p') ->
  wp simple_pool_alloc Q p.
Proof.
  intros [(vals & R & Hv)] Hnone Hsome.
  eapply wp_mono; [by apply wp_alloc_null|]. intros r p' [_ Hr]. cbn in Hr.
  destruct free as [|x fr]; [destruct Hr as [-> R']; apply Hnone; [done|split; by exists vals]|].
  destruct Hr as (-> & Hx & R').
  destruct (rep_entry _ _ R' x) as [_ [v Hva]]; [cbn; set_solver|]. cbn in Hva.
  apply (Hsome x fr p' v); [done|]. split. exists vals. split; [done|].
  apply Forall2_app; [done|]. by constructor.
Qed.

(** The same, ready for writes to the new element: it is number [length vs]. *)
Lemma holds_alloc_last p free busy vs (Q : ptr -> pool_state E -> Prop) :
  holds p free busy vs ->
  (free = [] -> forall p', holds p' free busy vs -> Q NULL p') ->
  (forall x fr p' v, free = x :: fr -> (busy ++ [x]) !! length vs = Some x ->
     holds p' fr (busy ++ [x]) (<[length vs := v]> (vs ++ [v])) -> Q (Some x.2) p') ->
  wp simple_pool_alloc Q p.
Proof.
  intros H Hnone Hsome. pose proof (holds_length _ _ _ _ H) as (Hl & _).
  eapply holds_alloc; [exact H|exact Hnone|]. intros x fr p' v Hf Hp'.
  apply (Hsome x fr p' v Hf); [rewrite <- Hl; by apply list_lookup_middle|].
  by rewrite list_insert_id by by apply list_lookup_middle.
Qed.

Lemma insert_last vs v w : <[length vs := w]> (vs ++ [v]) = vs ++ [w].
Proof. by rewrite insert_app_r_alt, Nat.sub_diag by done. Qed.

(** Assignments to fields of an element: [f] of what it holds. *)
Definition pool_upd (e : ptr) (f : E -> E) : M (pool_state E) unit :=
  let! v := on_mem (read_cell e) in on_mem (write_cell e (f v)).

Lemma holds_upd p free busy vs i x v f (Q : unit -> pool_state E -> Prop) :
  holds p free busy (<[i := v]> vs) -> busy !! i = Some x ->
  (forall p', holds p' free busy (<[i := f v]> vs) -> Q tt p') ->
  wp (pool_upd (Some x.2) f) Q p.
Proof.
  intros R Hx HQ. pose proof (holds_length _ _ _ _ R) as (Hl & _). rewrite length_insert in Hl.
  assert (Hi : <[i := v]> vs !! i = Some v).
  { apply list_lookup_insert_eq. apply lookup_lt_Some in Hx. lia. }
  unfold pool_upd. wp_step. eapply holds_read; [done..|]. eapply holds_write; [done..|].
  intros p' Hp. apply HQ. by rewrite list_insert_insert_eq in Hp.
Qed.

Lemma holds_size p free busy vs (Q : Z -> pool_state E -> Prop) :
  holds p free busy vs -> Q (Z.of_nat (length vs)) p -> wp simple_pool_get_current_size Q p.
Proof.
  intros H HQ. destruct (holds_length _ _ _ _ H) as (_ & Hc & _).
  unfold simple_pool_get_current_size. wp_steps. by rewrite Hc.
Qed.

Lemma holds_search {X} p free busy vs pred (hit : ptr -> X) miss v (Q : X -> pool_state E -> Prop) :
  holds p free busy vs -> Q (a_search pred hit miss busy vs v) p ->
  wp (pool_search pred hit miss v) Q p.
Proof.
  intros [(vals & R & Hv)] HQ. eapply wp_mono; [by apply wp_pool_search|]. by intros r p' [-> ->].
Qed.

(** A search that keeps the variable on a miss finds an entry, or keeps it. *)
Lemma a_search_in pred busy vs (c : ptr) :
  a_search pred id id busy vs c = c \/
  exists i x v, a_search pred id id busy vs c = Some x.2 /\ busy !! i = Some x /\ vs !! i = Some v /\ pred v = true.
Proof.
  revert vs. induction busy as [|x busy IH]; intros [|v vs]; [by left..|]. cbn.
  destruct (pred v) eqn:Hp; [right; by exists 0%nat, x, v|].
  destruct (IH vs) as [H|(i & y & w & Hs & Hy & Hw & Hpw)]; [by left|right]. by exists (S i), y, w.
Qed.

(** Search by a number that no two values share. *)
Lemma a_search_key {X} (key : E -> Z) (hit : ptr -> X) miss busy vs c i x v :
  NoDup (key <$> vs) -> busy !! i = Some x -> vs !! i = Some v ->
  a_search (fun w => key w =? key v) hit miss busy vs c = hit (Some x.2).
Proof.
  intros Hnd Hx Hv. apply (a_search_hit _ _ _ _ _ _ i x v); [done|done|apply Z.eqb_refl|].
  intros j w Hj Hw. apply Z.eqb_neq. intros Heq. assert (i = j); [|lia].
  eapply (NoDup_lookup _ _ _ (key v) Hnd); rewrite list_lookup_fmap; [by rewrite Hv|rewrite Hw; cbn; by f_equal].
Qed.

Lemma a_search_key_miss {X} (key : E -> Z) (hit : ptr -> X) k busy vs c :
  k ∉ key <$> vs -> length busy = length vs -> a_search (fun w => key w =? k) hit id busy vs c = c.
Proof.
  intros Hk Hl. rewrite a_search_miss; [|apply Forall_forall|done].
  - clear. induction (length vs) as [|n IH]; [done|exact IH].
  - intros w Hw. apply Z.eqb_neq. intros <-. apply Hk. by apply list_elem_of_fmap_2.
Qed.
End holds.

(** ** Pools of one element, for examples *)

Section one.
Context {E : Type}.

(** Free, respectively busy; node 1, element 11. *)
Definition one_entry : loc * loc := (1, 11)%positive.
Definition one_mem (v : E) : heap E :=
  Heap 20 0 ∅ {[1%positive := Node (Some 11%positive) NULL NULL]} {[11%positive := v]}.
Definition one_free (v : E) : pool_state E :=
  PoolState (Pool (Some 1%positive) NULL 4 1 0 None NULL None) (one_mem v).
Definition one_busy (v : E) : pool_state E :=
  PoolState (Pool NULL (Some 1%positive) 4 1 1 None NULL None) (one_mem v).

Lemma one_dlist (v : E) : dlist (nodes (one_mem v)) (Some 1%positive) [1%positive].
Proof. split; [done|]. cbn. split; [by eexists|done]. Qed.

Lemma one_entry_ok (v : E) x : x ∈ [one_entry] ->
  el <$> nodes (one_mem v) !! x.1 = Some (Some x.2) /\ is_Some (({[11%positive := v]} : gmap loc E) !! x.2).
Proof. intros ->%list_elem_of_singleton. split; [done|by exists v]. Qed.

Lemma one_free_holds (v : E) : holds (one_free v) [one_entry] [] [].
Proof.
  split. exists {[11%positive := v]}. split; [|constructor]. split; cbn; try done.
  - apply (one_dlist v).
  - apply NoDup_singleton.
  - apply NoDup_singleton.
  - apply (one_entry_ok v).
Qed.

Lemma one_busy_holds (v : E) : holds (one_busy v) [] [one_entry] [v].
Proof.
  split. exists {[11%positive := v]}. split; [|by repeat constructor]. split; cbn; try done.
  - apply (one_dlist v).
  - apply NoDup_singleton.
  - apply NoDup_singleton.
  - apply (one_entry_ok v).
Qed.

(** Two elements: [one_entry] is free, node 2 holds element 12. *)
Definition other_entry : loc * loc := (2, 12)%positive.
Definition one_each (v w : E) : pool_state E :=
  PoolState (Pool (Some 1%positive) (Some 2%positive) 4 2 1 None NULL None)
    (Heap 20 0 ∅ {[1%positive := Node (Some 11%positive) NULL NULL; 2%positive := Node (Some 12%positive) NULL NULL]}
       {[11%positive := v; 12%positive := w]}).

Lemma one_each_holds (v w : E) : holds (one_each v w) [one_entry] [other_entry] [w].
Proof.
  split. exists {[11%positive := v; 12%positive := w]}. split; [|by repeat constructor]. split; cbn; try done.
  - split; [done|]. cbn. split; [by eexists|done].
  - split; [done|]. cbn. split; [by eexists|done].
  - by apply (bool_decide_unpack _).
  - by apply (bool_decide_unpack _).
  - intros x Hx. repeat (apply elem_of_cons in Hx as [->|Hx]); [by split; [|eexists]..|by apply not_elem_of_nil in Hx].
Qed.
End one.
