(* ===== verification/Sync.v ===== *)
(** * Sync: mutexes and semaphores (include/sel4osapi/mutex.h, semaphore.h)

    The library's mutexes and semaphores are objects of libsel4sync in memory of
    the C heap.  libsel4sync is the environment ([SyncLib], [SyncLibOk]); the
    [create] functions call it inside [assert], whose argument a build with
    NDEBUG does not evaluate ([Build]).  Everywhere else in the development
    assertions are enabled.

    [SyncObjects] is what the rest of the library relies on; the instance at
    the end discharges it. *)

From S2P Require Import Prelude Memory.

(** Handles are pointers to the objects.  The calls report an error code. *)
Class SyncLib (K : Type) := {
  sizeof_sync_recursive_mutex : Z;
  sizeof_sync_sem : Z;
  sync_recursive_mutex_new : ptr -> K -> Z * K;
  sync_recursive_mutex_destroy : ptr -> K -> Z * K;
  sync_recursive_mutex_lock : ptr -> K -> Z * K;
  sync_recursive_mutex_unlock : ptr -> K -> Z * K;
  sync_sem_new : ptr -> Z -> K -> Z * K;
  sync_sem_destroy : ptr -> K -> Z * K;
  sync_sem_wait : ptr -> K -> Z * K;
  sync_sem_post : ptr -> K -> Z * K
}.

Class Build := { NDEBUG : bool }.

(** [assert(e)] where [e] calls a function. *)
Definition assert_call {B : Build} {S} (e : M S bool) : M S unit :=
  if NDEBUG then ret tt else let! b := e in assert_ b.

Record sync_state (K : Type) := SyncState { sync_mem : heap unit; sync_kern : K }.
Arguments SyncState {K} _ _.
Arguments sync_mem {K} _.
Arguments sync_kern {K} _.

Section sync_h.
Context {K : Type} {LIB : SyncLib K} {BUILD : Build}.

Definition on_sync_mem {A} (m : M (heap unit) A) : M (sync_state K) A :=
  zoom sync_mem (fun h s => SyncState h (sync_kern s)) m.
Definition scall {A} (f : K -> A * K) : M (sync_state K) A := fun s =>
  Done ((f (sync_kern s)).1, SyncState (sync_mem s) (f (sync_kern s)).2).
Definition succeeds (f : K -> Z * K) : M (sync_state K) bool :=
  let! e := scall f in ret (e =? 0).

Definition sel4osapi_mutex_create : M (sync_state K) ptr :=
  let! mutex := on_sync_mem (sel4osapi_heap_allocate sizeof_sync_recursive_mutex) in
  (if NDEBUG then ret tt else assert_ (non_null mutex)) ;;
  assert_call (succeeds (sync_recursive_mutex_new mutex)) ;;
  ret mutex.

(** The memory of the object is not given back. *)
Definition sel4osapi_mutex_delete (mutex : ptr) : M (sync_state K) unit :=
  let! _ := scall (sync_recursive_mutex_destroy mutex) in ret tt.

Definition sel4osapi_mutex_lock (mutex : ptr) : M (sync_state K) Z := scall (sync_recursive_mutex_lock mutex).
Definition sel4osapi_mutex_unlock (mutex : ptr) : M (sync_state K) Z := scall (sync_recursive_mutex_unlock mutex).

Definition sel4osapi_semaphore_create (init : Z) : M (sync_state K) ptr :=
  let! sem := on_sync_mem (sel4osapi_heap_allocate sizeof_sync_sem) in
  assert_call (succeeds (sync_sem_new sem init)) ;;
  ret sem.

Definition sel4osapi_semaphore_delete (sem : ptr) : M (sync_state K) unit :=
  let! _ := scall (sync_sem_destroy sem) in ret tt.

(** The timeout is not used. *)
Definition sel4osapi_semaphore_take (sem : ptr) (timeout : Z) : M (sync_state K) Z := scall (sync_sem_wait sem).
Definition sel4osapi_semaphore_give (sem : ptr) : M (sync_state K) Z := scall (sync_sem_post sem).
End sync_h.

(** ** What is used of libsel4sync

    [mutexes]: the mutexes that exist; [sems]: the semaphores with their counts;
    [notifications]: how many more kernel objects the allocator has for them.
    - a mutex or semaphore is created from memory that holds none, with one
      kernel object; NULL or no object left is an error;
    - waiting on a semaphore whose count is positive takes one, without
      blocking; posting adds one; other objects are not touched. *)
Record sync_view := SyncView { mutexes : gset loc; sems : gmap loc Z; notifications : nat }.

Class SyncLibOk (K : Type) `{SyncLib K} := {
  sync_of : K -> sync_view;
  sizeof_mutex_ok : 0 < sizeof_sync_recursive_mutex < 2 ^ 16;
  sizeof_sem_ok : 0 < sizeof_sync_sem < 2 ^ 16;
  mutex_new_ok l k : (0 < notifications (sync_of k))%nat ->
    (sync_recursive_mutex_new (Some l) k).1 = 0 /\
    sync_of (sync_recursive_mutex_new (Some l) k).2 =
      SyncView ({[l]} ∪ mutexes (sync_of k)) (sems (sync_of k)) (pred (notifications (sync_of k)));
  mutex_new_fails p k : p = NULL \/ notifications (sync_of k) = 0%nat -> (sync_recursive_mutex_new p k).1 <> 0;
  sem_new_ok l n k : (0 < notifications (sync_of k))%nat ->
    (sync_sem_new (Some l) n k).1 = 0 /\
    sync_of (sync_sem_new (Some l) n k).2 =
      SyncView (mutexes (sync_of k)) (<[l := n]> (sems (sync_of k))) (pred (notifications (sync_of k)));
  sem_new_fails p n k : p = NULL \/ notifications (sync_of k) = 0%nat -> (sync_sem_new p n k).1 <> 0
}.

(** ** The interface to the other components

    Creating mutexes and semaphores, for a state [K].  [objects_of]: the mutexes
    and the counts of the semaphores that exist, and how many more can be
    created; [objects_inv] holds of states where that makes sense. *)
Class SyncObjects (K : Type) := {
  mutex_create : M K ptr;
  semaphore_create : Z -> M K ptr
}.

Record objects_view := Objects { live_mutexes : gset loc; counts : gmap loc Z; objects_left : nat }.

(** The objects after one more was created. *)
Definition created (w : objects_view) (mutex : bool) (l : loc) (n : Z) (w' : objects_view) : Prop :=
  l ∉ live_mutexes w /\ counts w !! l = None /\
  live_mutexes w' = (if mutex then {[l]} ∪ live_mutexes w else live_mutexes w) /\
  counts w' = (if mutex then counts w else <[l := n]> (counts w)) /\
  (pred (objects_left w) <= objects_left w')%nat.

Class SyncObjectsOk (K : Type) `{SyncObjects K} := {
  objects_inv : K -> Prop;
  objects_of : K -> objects_view;
  mutex_create_ok k : objects_inv k -> (0 < objects_left (objects_of k))%nat ->
    wp mutex_create (fun r k' => objects_inv k' /\
      exists l, r = Some l /\ created (objects_of k) true l 0 (objects_of k')) k;
  semaphore_create_ok n k : objects_inv k -> (0 < objects_left (objects_of k))%nat ->
    wp (semaphore_create n) (fun r k' => objects_inv k' /\
      exists l, r = Some l /\ created (objects_of k) false l n (objects_of k')) k
}.

(** ** mutex.h and semaphore.h implement it, with assertions enabled *)

Section sync_spec.
Context {K : Type} {LIB : SyncLib K} {OK : SyncLibOk K}.
#[local] Instance assertions_on : Build := {| NDEBUG := false |}.
Implicit Types (s : sync_state K).

Definition sync_bytes : Z := Z.max sizeof_sync_recursive_mutex sizeof_sync_sem + 64.

Lemma sync_bytes_small : 0 < sync_bytes < 2 ^ 17.
Proof. unfold sync_bytes. pose proof sizeof_mutex_ok. pose proof sizeof_sem_ok. lia. Qed.

(** Every object lives in a block of the heap. *)
Record sync_inv s : Prop := {
  si_heap : heap_wf (sync_mem s);
  si_mutexes l : l ∈ mutexes (sync_of (sync_kern s)) -> is_Some (blocks (sync_mem s) !! l);
  si_sems l : is_Some (sems (sync_of (sync_kern s)) !! l) -> is_Some (blocks (sync_mem s) !! l)
}.

Definition sync_objects s : objects_view :=
  Objects (mutexes (sync_of (sync_kern s))) (sems (sync_of (sync_kern s)))
    (Nat.min (notifications (sync_of (sync_kern s))) (Z.to_nat (avail (sync_mem s) / sync_bytes))).

(** Memory for one object: a block no object lives in. *)
Lemma wp_object_memory size s :
  sync_inv s -> 0 < size -> size + 64 <= sync_bytes -> (0 < objects_left (sync_objects s))%nat ->
  wp (on_sync_mem (sel4osapi_heap_allocate size)) (fun r s' => exists l, r = Some l /\ sync_inv s' /\
    sync_kern s' = sync_kern s /\ is_Some (blocks (sync_mem s') !! l) /\
    l ∉ mutexes (sync_of (sync_kern s)) /\ sems (sync_of (sync_kern s)) !! l = None /\
    avail (sync_mem s) - sync_bytes <= avail (sync_mem s')) s.
Proof.
  intros [Hwf Hm Hs] Hsize Hle Hleft. pose proof sync_bytes_small. unfold on_sync_mem, sel4osapi_heap_allocate. apply wp_zoom.
  assert (Hu : u32 (size + 64) = size + 64) by (apply u32_small; unfold is_u32; lia).
  cbn in Hleft. assert (Hav : sync_bytes <= avail (sync_mem s)).
  { assert (1 <= avail (sync_mem s) / sync_bytes) by lia.
    pose proof (Z.mul_div_le (avail (sync_mem s)) sync_bytes ltac:(lia)). nia. }
  destruct (malloc_ok (size + 64) _ Hwf) as (h & Hh & Hwf' & _ & Hav' & Hbl & _); [lia|].
  eexists _, _. split; [exact Hh|]. exists (brk (sync_mem s)). cbn.
  assert (Hnew : blocks (sync_mem s) !! brk (sync_mem s) = None).
  { apply eq_None_not_Some. intros Hb. apply (wf_blocks _ Hwf) in Hb. lia. }
  assert (Hgrow : forall l, is_Some (blocks (sync_mem s) !! l) -> is_Some (blocks h !! l)).
  { intros l Hl. rewrite Hbl. destruct (decide (l = brk (sync_mem s))) as [->|]; simplify_map_eq; eauto. }
  split_and!; try done.
  - split; cbn; [done|..]; intros l Hl; [by apply Hgrow, Hm|by apply Hgrow, Hs].
  - rewrite Hbl. by simplify_map_eq.
  - intros Hin%Hm. rewrite Hnew in Hin. by destruct Hin.
  - apply eq_None_not_Some. intros Hin%Hs. rewrite Hnew in Hin. by destruct Hin.
  - lia.
Qed.

Lemma objects_left_after (n1 n2 : nat) a1 a2 : n2 = pred n1 -> a1 - sync_bytes <= a2 ->
  (pred (Nat.min n1 (Z.to_nat (a1 / sync_bytes))) <= Nat.min n2 (Z.to_nat (a2 / sync_bytes)))%nat.
Proof.
  intros -> Ha. pose proof sync_bytes_small.
  assert (a1 / sync_bytes - 1 <= a2 / sync_bytes); [|lia].
  replace (a1 / sync_bytes - 1) with ((a1 - sync_bytes) / sync_bytes).
  - apply Z.div_le_mono; lia.
  - replace (a1 - sync_bytes) with (a1 + -1 * sync_bytes) by lia. rewrite Z.div_add by lia. lia.
Qed.

Lemma wp_mutex_create s :
  sync_inv s -> (0 < objects_left (sync_objects s))%nat ->
  wp sel4osapi_mutex_create (fun r s' => sync_inv s' /\
    exists l, r = Some l /\ created (sync_objects s) true l 0 (sync_objects s')) s.
Proof.
  intros Hinv Hleft. unfold sel4osapi_mutex_create. wp_step. eapply wp_mono.
  { pose proof sizeof_mutex_ok. apply wp_object_memory; [done|lia|unfold sync_bytes; lia|done]. }
  intros r s1 (l & -> & [Hwf Hm Hs] & Hk & Hb & Hnm & Hns & Hav). wp_steps.
  unfold assert_call, succeeds, scall, assertions_on. cbn [NDEBUG]. wp_steps. eexists _, _. split; [reflexivity|].
  rewrite Hk in *. cbn in Hleft. destruct (mutex_new_ok l (sync_kern s)) as [He Hv]; [lia|]. rewrite He. wp_steps.
  split.
  - split; cbn; [done|..]; rewrite Hv; cbn; [|done]. intros l' [->%elem_of_singleton|Hl]%elem_of_union; [done|by apply Hm].
  - exists l. split; [done|]. unfold created, sync_objects. cbn. rewrite Hv. cbn. split_and!; try done.
    by apply objects_left_after.
Qed.

Lemma wp_semaphore_create n s :
  sync_inv s -> (0 < objects_left (sync_objects s))%nat ->
  wp (sel4osapi_semaphore_create n) (fun r s' => sync_inv s' /\
    exists l, r = Some l /\ created (sync_objects s) false l n (sync_objects s')) s.
Proof.
  intros Hinv Hleft. unfold sel4osapi_semaphore_create. wp_step. eapply wp_mono.
  { pose proof sizeof_sem_ok. apply wp_object_memory; [done|lia|unfold sync_bytes; lia|done]. }
  intros r s1 (l & -> & [Hwf Hm Hs] & Hk & Hb & Hnm & Hns & Hav). wp_steps.
  unfold assert_call, succeeds, scall, assertions_on. cbn [NDEBUG]. wp_steps. eexists _, _. split; [reflexivity|].
  rewrite Hk in *. cbn in Hleft. destruct (sem_new_ok l n (sync_kern s)) as [He Hv]; [lia|]. rewrite He. wp_steps.
  split.
  - split; cbn; [done|..]; rewrite Hv; cbn; [done|]. intros l' Hl.
    destruct (decide (l' = l)) as [->|]; [done|]. simplify_map_eq. by apply Hs.
  - exists l. split; [done|]. unfold created, sync_objects. cbn. rewrite Hv. cbn. split_and!; try done.
    by apply objects_left_after.
Qed.

#[export] Instance sync_objects_impl : SyncObjects (sync_state K) := {|
  mutex_create := sel4osapi_mutex_create;
  semaphore_create := sel4osapi_semaphore_create
|}.

#[export] Instance sync_objects_ok : SyncObjectsOk (sync_state K) := {|
  objects_inv := sync_inv;
  objects_of := sync_objects;
  mutex_create_ok := wp_mutex_create;
  semaphore_create_ok := wp_semaphore_create
|}.
End sync_spec.

(** ** Creating many objects, against the interface *)

Section objects.
Context {K : Type} {OBJ : SyncObjects K} {OOK : SyncObjectsOk K}.
Implicit Types (k : K) (reqs : list (option Z)) (ls : list loc) (w : objects_view).

(** [None]: a mutex; [Some n]: a semaphore of count [n]. *)
Fixpoint create_objects reqs : M K (list ptr) :=
  match reqs with
  | [] => ret []
  | req :: reqs =>
      let! p := (match req with None => mutex_create | Some n => semaphore_create n end) in
      let! ps := create_objects reqs in
      ret (p :: ps)
  end.

Definition installed w (req : option Z) (l : loc) : Prop :=
  match req with None => l ∈ live_mutexes w | Some n => counts w !! l = Some n end.
Definition unused w (l : loc) : Prop := l ∉ live_mutexes w /\ counts w !! l = None.
Definition grows w w' : Prop := live_mutexes w ⊆ live_mutexes w' /\ counts w ⊆ counts w'.

Lemma created_grows w b l n w' : created w b l n w' -> grows w w'.
Proof.
  intros (H1 & H2 & H3 & H4 & _). unfold grows. rewrite H3, H4. destruct b; split; [set_solver|done|done|].
  by apply insert_subseteq.
Qed.

Lemma grows_unused w w' l : grows w w' -> unused w' l -> unused w l.
Proof.
  intros [H1 H2] [H3 H4]. split; [set_solver|]. apply eq_None_not_Some. intros [n Hn].
  eapply lookup_weaken in Hn; [|exact H2]. congruence.
Qed.

Lemma grows_installed w w' req l : grows w w' -> installed w req l -> installed w' req l.
Proof. intros [H1 H2]. destruct req; cbn; [intros Hl; by eapply lookup_weaken|set_solver]. Qed.

Lemma wp_create_object req k : objects_inv k -> (0 < objects_left (objects_of k))%nat ->
  wp (match req with None => mutex_create | Some n => semaphore_create n end) (fun r k' => objects_inv k' /\
    exists l, r = Some l /\ unused (objects_of k) l /\ installed (objects_of k') req l /\
      grows (objects_of k) (objects_of k') /\ (pred (objects_left (objects_of k)) <= objects_left (objects_of k'))%nat) k.
Proof.
  intros Hinv Hleft. destruct req as [n|].
  - eapply wp_mono; [by apply semaphore_create_ok|]. intros r k' (Hi & l & -> & Hc). split; [done|].
    exists l. pose proof (created_grows _ _ _ _ _ Hc) as Hg. destruct Hc as (H1 & H2 & H3 & H4 & H5).
    split_and!; try done. cbn. rewrite H4. by simplify_map_eq.
  - eapply wp_mono; [by apply mutex_create_ok|]. intros r k' (Hi & l & -> & Hc). split; [done|].
    exists l. pose proof (created_grows _ _ _ _ _ Hc) as Hg. destruct Hc as (H1 & H2 & H3 & H4 & H5).
    split_and!; try done. cbn. rewrite H3. set_solver.
Qed.

Lemma wp_create_objects reqs k : objects_inv k -> (length reqs <= objects_left (objects_of k))%nat ->
  wp (create_objects reqs) (fun r k' => objects_inv k' /\ exists ls, r = Some <$> ls /\ NoDup ls /\
    Forall (unused (objects_of k)) ls /\ Forall2 (installed (objects_of k')) reqs ls /\
    grows (objects_of k) (objects_of k')) k.
Proof.
  revert k. induction reqs as [|req reqs IH]; intros k Hinv Hleft; cbn [create_objects].
  - wp_step. split; [done|]. exists []. split_and!; constructor; done.
  - cbn in Hleft. wp_step. eapply wp_mono; [apply (wp_create_object req); [done|lia]|].
    intros r k1 (Hinv1 & l & -> & Hu & Hi & Hg & Hl1). wp_step. eapply wp_mono; [apply IH; [done|lia]|].
    intros rs k2 (Hinv2 & ls & -> & Hnd & Hus & His & Hg2). wp_step. split; [done|]. exists (l :: ls).
    split_and!; [done| | | |].
    + constructor; [|done]. intros Hin. pose proof (proj1 (Forall_forall _ _) Hus l Hin) as [Hn1 Hn2].
      destruct req; cbn in Hi; [congruence|done].
    + constructor; [done|]. eapply Forall_impl; [exact Hus|]. intros l'. by apply grows_unused.
    + constructor; [|done]. by eapply grows_installed.
    + destruct Hg, Hg2. split; by etrans.
Qed.
End objects.

(** ** Properties *)

Section properties.
Context {K : Type} {LIB : SyncLib K} {OK : SyncLibOk K}.
Implicit Types (s : sync_state K).

(** C34: Creating mutexes and semaphores never hands out an object that is not
    ready.  While memory and kernel objects last, the handles of any sequence of
    creations are distinct, differ from those in use, and refer to objects that
    exist with the count asked for; when either runs out, creation stops in an
    assertion. *)
Theorem sync_objects_ready s reqs :
  sync_inv s ->
  ((length reqs <= objects_left (sync_objects s))%nat ->
   exists ls s', create_objects (OBJ := sync_objects_impl) reqs s = Done (Some <$> ls, s') /\ NoDup ls /\
     Forall (unused (sync_objects s)) ls /\ Forall2 (installed (sync_objects s')) reqs ls) /\
  (notifications (sync_of (sync_kern s)) = 0%nat \/
   avail (sync_mem s) < Z.min sizeof_sync_recursive_mutex sizeof_sync_sem + 64 ->
   forall req : option Z, match req with
     | None => sel4osapi_mutex_create (BUILD := assertions_on) s
     | Some n => sel4osapi_semaphore_create (BUILD := assertions_on) n s
     end = Assert_failed).
Proof.
  intros Hinv. split.
  - intros Hleft. destruct (wp_create_objects (OOK := sync_objects_ok) reqs s Hinv Hleft)
      as (r & s' & Hr & _ & ls & -> & Hnd & Hu & Hi & _). by exists ls, s'.
  - intros Hout req. pose proof sizeof_mutex_ok. pose proof sizeof_sem_ok.
    assert (Hsz : forall size, 0 < size < 2 ^ 16 -> u32 (size + 64) = size + 64)
      by (intros; apply u32_small; unfold is_u32; lia).
    destruct req as [n|]; unfold sel4osapi_semaphore_create, sel4osapi_mutex_create, on_sync_mem,
      sel4osapi_heap_allocate, zoom, bind, malloc; rewrite Hsz by done;
      (destruct (Z.leb_spec (sizeof_sync_sem + 64) (avail (sync_mem s)));
       destruct (Z.leb_spec (sizeof_sync_recursive_mutex + 64) (avail (sync_mem s)));
       try (destruct Hout; [|lia]); cbn; try done; unfold assert_call, succeeds, scall, bind, ret, assert_; cbn).
    all: match goal with
      | |- context [sync_sem_new ?p ?n ?k] =>
          rewrite (proj2 (Z.eqb_neq _ _) (sem_new_fails p n k ltac:(tauto))); done
      | |- context [sync_recursive_mutex_new ?p ?k] =>
          rewrite (proj2 (Z.eqb_neq _ _) (mutex_new_fails p k ltac:(tauto))); done
      end.
Qed.

(** In a build with NDEBUG the assertions take the initialisation away:
    [sel4osapi_mutex_create] returns memory in which no mutex was created. *)
Theorem sync_ndebug_uninitialised s :
  sync_inv s -> (0 < objects_left (sync_objects s))%nat ->
  exists l s', sel4osapi_mutex_create (BUILD := {| NDEBUG := true |}) s = Done (Some l, s') /\
    l ∉ mutexes (sync_of (sync_kern s')) /\ sync_kern s' = sync_kern s.
Proof.
  intros Hinv Hleft.
  assert (H : wp (sel4osapi_mutex_create (BUILD := {| NDEBUG := true |})) (fun r s' => exists l, r = Some l /\
    l ∉ mutexes (sync_of (sync_kern s')) /\ sync_kern s' = sync_kern s) s).
  { unfold sel4osapi_mutex_create, assert_call. cbn [NDEBUG]. wp_step. eapply wp_mono.
    { pose proof sizeof_mutex_ok. apply wp_object_memory; [done|lia|unfold sync_bytes; lia|done]. }
    intros r s1 (l & -> & _ & Hk & _ & Hm & _). wp_steps. exists l. by rewrite Hk. }
  destruct H as (r & s' & Hr & l & -> & H). by exists l, s'.
Qed.
End properties.

(** ** A libsel4sync to run examples on: the view itself *)

Definition demo_new (p : ptr) (f : loc -> sync_view -> sync_view) (k : sync_view) : Z * sync_view :=
  match p, notifications k with
  | Some l, S n => (0, f l (SyncView (mutexes k) (sems k) n))
  | _, _ => (-1, k)
  end.
Definition demo_add (d : Z) (p : ptr) (k : sync_view) : Z * sync_view :=
  match p with
  | Some l => (0, SyncView (mutexes k) (alter (fun n => n + d) l (sems k)) (notifications k))
  | None => (-1, k)
  end.

#[export] Instance demo_sync : SyncLib sync_view := {|
  sizeof_sync_recursive_mutex := 16;
  sizeof_sync_sem := 12;
  sync_recursive_mutex_new p := demo_new p (fun l k => SyncView ({[l]} ∪ mutexes k) (sems k) (notifications k));
  sync_recursive_mutex_destroy p k := (0, k);
  sync_recursive_mutex_lock p k := (0, k);
  sync_recursive_mutex_unlock p k := (0, k);
  sync_sem_new p n := demo_new p (fun l k => SyncView (mutexes k) (<[l := n]> (sems k)) (notifications k));
  sync_sem_destroy p k := (0, k);
  sync_sem_wait := demo_add (-1);
  sync_sem_post := demo_add 1
|}.

#[export] Instance demo_sync_ok : SyncLibOk sync_view.
Proof.
  refine {| sync_of k := k |}; cbn; try done.
  - intros l k H. unfold demo_new. destruct (notifications k); [lia|done].
  - intros p k H. unfold demo_new. destruct p, (notifications k); destruct H; try done.
  - intros l n k H. unfold demo_new. destruct (notifications k); [lia|done].
  - intros p n k H. unfold demo_new. destruct p, (notifications k); destruct H; try done.
Defined.

Definition sample_sync : sync_state sync_view := SyncState (Heap 1 4096 ∅ ∅ ∅) (SyncView ∅ ∅ 8).

Lemma sample_sync_ok : sync_inv sample_sync /\ objects_left (sync_objects sample_sync) = 8%nat.
Proof. split; [|reflexivity]. split; cbn; [by split; cbn; try (intros l [? Hl])|set_solver|by intros l [? Hl]]. Qed.

Lemma sync_objects_ready_witness :
  exists ls s', create_objects (OBJ := sync_objects_impl) [None; Some 1; Some 0] sample_sync = Done (Some <$> ls, s') /\
    NoDup ls /\ Forall2 (installed (sync_objects s')) [None; Some 1; Some 0] ls.
Proof.
  destruct sample_sync_ok as [Hinv Hleft].
  destruct (sync_objects_ready sample_sync [None; Some 1; Some 0] Hinv) as [H _].
  destruct H as (ls & s' & Hr & Hnd & _ & Hi); [rewrite Hleft; cbn; lia|].
  exists ls, s'. split; [exact Hr|]. split; [exact Hnd|exact Hi].
Defined.

Lemma sync_ndebug_uninitialised_witness :
  exists l s', sel4osapi_mutex_create (BUILD := {| NDEBUG := true |}) sample_sync = Done (Some l, s') /\
    l ∉ mutexes (sync_of (sync_kern s')).
Proof.
  destruct sample_sync_ok as [Hinv Hleft].
  destruct (sync_ndebug_uninitialised sample_sync Hinv) as (l & s' & H1 & H2 & _); [rewrite Hleft; lia|].
  exists l, s'. split; [exact H1|exact H2].
Defined.
