(* ===== verification/Kernel.v ===== *)
(** * Kernel: what the library is built on

    The seL4 kernel and the user libraries (libsel4vka, libsel4sync,
    libsel4platsupport) are not part of the repository.  Their state is a type
    [K]; the calls the library makes are the operations of the class [Kernel];
    [KernelOk] lists the documented behaviour its proofs rely on.  A second part
    models what of a message the servers see: seL4 message registers. *)

From S2P Require Import Prelude.

Definition seL4_CapNull : Z := 0.
Definition seL4_NoError : Z := 0.

(** Calls that report an error code (0 for success) and may return a value. *)
Class Kernel (K : Type) := {
  vka_cspace_alloc : K -> (Z * Z) * K;           (* error, capability slot *)
  vka_cnode_revoke : Z -> K -> Z * K;
  sync_recursive_mutex_lock : K -> Z * K;
  sync_recursive_mutex_unlock : K -> Z * K;
  sel4platsupport_handle_timer_irq : K -> K
}.

(** The CSpace of the process: the slots handed out so far, and how many more
    the allocator can hand out. *)
Record cspace_view := CSpace { used : gset Z; room : nat }.

(** - vka_cspace_alloc succeeds while there is room, and then returns a slot
      that was free, never the null capability;
    - revoking the capability in a slot deletes its descendants; it succeeds
      and leaves the slot allocated;
    - locking and unlocking a recursive mutex that exists succeeds;
    - neither these nor acknowledging the timer interrupt hand out a slot. *)
Class KernelOk (K : Type) `{Kernel K} := {
  cspace_of : K -> cspace_view;
  cspace_alloc_ok k : (0 < room (cspace_of k))%nat ->
    exists (c : Z) (k' : K), vka_cspace_alloc k = ((0, c), k') /\
    c ∉ used (cspace_of k) /\ 0 < c < 2 ^ 32 /\
    cspace_of k' = CSpace ({[c]} ∪ used (cspace_of k)) (pred (room (cspace_of k)));
  cnode_revoke_ok c k : c ∈ used (cspace_of k) ->
    (vka_cnode_revoke c k).1 = 0 /\ cspace_of (vka_cnode_revoke c k).2 = cspace_of k;
  mutex_lock_ok k : (sync_recursive_mutex_lock k).1 = 0 /\
    cspace_of (sync_recursive_mutex_lock k).2 = cspace_of k;
  mutex_unlock_ok k : cspace_of (sync_recursive_mutex_unlock k).2 = cspace_of k;
  handle_timer_irq_ok k : cspace_of (sel4platsupport_handle_timer_irq k) = cspace_of k
}.

Abbreviation slots k := (used (cspace_of k)).

(** A message as a server receives it: badge of the sender, length and number
    of extra capabilities from the message info, message registers. *)
Record message := Msg { badge : Z; msg_extraCaps : Z; mrs : list Z }.
#[export] Instance message_eq_dec : EqDecision message.
Proof. solve_decision. Defined.

Definition msg_length (m : message) : Z := Z.of_nat (length (mrs m)).
Definition getMR (i : nat) (m : message) : Z := nth i (mrs m) 0.

(** What a server does to the outside: signals on endpoints, replies. *)
Inductive event :=
| Ev_send (ep : Z) (mr0 : Z)
| Ev_reply (mrs : list Z).

#[export] Instance event_eq_dec : EqDecision event.
Proof. solve_decision. Defined.

(** ** A kernel to run examples on: slots 1 to 64, handed out in order *)

Record demo_kernel := DemoKernel { demo_next : nat; demo_used : gset Z }.

Definition demo_capacity : nat := 64.

#[export] Instance demo_kernel_ops : Kernel demo_kernel := {|
  vka_cspace_alloc k :=
    let c := Z.of_nat (demo_next k) + 1 in
    if (demo_next k <? demo_capacity)%nat && bool_decide (c ∉ demo_used k)
    then ((0, c), DemoKernel (S (demo_next k)) ({[c]} ∪ demo_used k))
    else ((1, 0), k);
  vka_cnode_revoke c k := (if bool_decide (c ∈ demo_used k) then 0 else 1, k);
  sync_recursive_mutex_lock k := (0, k);
  sync_recursive_mutex_unlock k := (0, k);
  sel4platsupport_handle_timer_irq k := k
|}.

(** The room left: the numbers above the counter, when none of them is used. *)
Definition demo_view (k : demo_kernel) : cspace_view :=
  CSpace (demo_used k)
    (if bool_decide (set_Forall (fun c : Z => c <= Z.of_nat (demo_next k)) (demo_used k))
     then (demo_capacity - demo_next k)%nat else 0%nat).

#[export] Instance demo_kernel_ok : KernelOk demo_kernel.
Proof.
  refine {| cspace_of := demo_view |}; cbn -[demo_capacity Nat.ltb]; try done.
  - intros k Hroom. cbn -[demo_capacity] in Hroom. case_bool_decide as Hall; [|lia].
    assert (Hn : Z.of_nat (demo_next k) + 1 ∉ demo_used k) by (intros Hin%Hall; lia).
    destruct (Nat.ltb_spec (demo_next k) demo_capacity); [|lia].
    rewrite bool_decide_true by done.
    eexists _, _. split; [reflexivity|]. split; [done|]. split.
    + unfold demo_capacity in *. lia.
    + unfold demo_view. cbn -[demo_capacity]. rewrite bool_decide_true; [f_equal; lia|].
      apply set_Forall_union; [apply set_Forall_singleton; lia|].
      eapply set_Forall_impl; [exact Hall|]. cbn. lia.
  - intros c k Hc. by rewrite bool_decide_true.
Defined.
