(* ===== verification/Clock.v ===== *)
(** * Clock: the system clock (src/clock.c, include/sel4osapi/clock.h)

    The root task keeps one [sel4osapi_sysclock_t] with the time in
    milliseconds and a pool of scheduled timeouts.  Two threads work on it: the
    server, which answers requests received on an endpoint, and the timer,
    which advances the time on each hardware tick and signals the timeouts that
    are due.  Both hold [timeouts_mutex] while they touch the pool, so the
    steps below (one per critical section) are what interleaves. *)

From S2P Require Import Prelude Config Memory LinkedList Pool Kernel.

(** [struct timeout_entry]. *)
Record timeout_entry := TimeoutEntry {
  caller : Z;
  aep : Z;
  periodic : Z;
  period : Z;
  next_event : Z
}.

#[export] Instance timeout_entry_eq_dec : EqDecision timeout_entry.
Proof. solve_decision. Defined.

Definition sizeof_timeout_entry : Z := 20.
Definition SEL4OSAPI_SYSCLOCK_MAX_ENTRIES : Z := 100.

Definition SYSCLOCK_OP_GET_TIME : Z := 100.
Definition SYSCLOCK_OP_SET_TIMEOUT : Z := 101.
Definition SYSCLOCK_OP_CANCEL_TIMEOUT : Z := 102.

(** The callbacks of the pool.  [next_event] is not reset by the code. *)
Definition timer_entry_init : simple_pool_init_el_fn timeout_entry := fun el arg =>
  let! entry := read_cell el in
  write_cell el (TimeoutEntry 0 seL4_CapNull 0 0 (next_event entry)).

Definition timer_entry_compare : simple_pool_compare_el_fn timeout_entry := fun el1 el2 =>
  assert_ (non_null el1) ;;
  assert_ (non_null el2) ;;
  let! e1 := read_cell el1 in
  let! e2 := read_cell el2 in
  ret (if aep e1 =? aep e2 then 0 else if aep e2 <? aep e1 then -1 else 1).

Section clock_c.
Context {CFG : Config} {K : Type} {KER : Kernel K}.

(** The clock, the slot in which the server thread receives capabilities
    ([caller_ep], a local of the server), the kernel, and what was sent. *)
Record clock_state := ClockState {
  time : Z;
  schedule : pool_state timeout_entry;
  caller_ep : Z;
  kernel : K;
  events : list event
}.

Definition set_time (t : Z) (s : clock_state) : clock_state :=
  ClockState t (schedule s) (caller_ep s) (kernel s) (events s).
Definition set_schedule (p : pool_state timeout_entry) (s : clock_state) : clock_state :=
  ClockState (time s) p (caller_ep s) (kernel s) (events s).
Definition set_caller_ep (c : Z) (s : clock_state) : clock_state :=
  ClockState (time s) (schedule s) c (kernel s) (events s).
Definition set_kernel (k : K) (s : clock_state) : clock_state :=
  ClockState (time s) (schedule s) (caller_ep s) k (events s).
Definition add_event (e : event) (s : clock_state) : clock_state :=
  ClockState (time s) (schedule s) (caller_ep s) (kernel s) (events s ++ [e]).

Definition on_sched {A} (m : M (pool_state timeout_entry) A) : M clock_state A :=
  zoom schedule set_schedule m.
Definition kcall {A} (f : K -> A * K) : M clock_state A := fun s =>
  let r := f (kernel s) in Done (r.1, set_kernel r.2 s).
Definition emit (e : event) : M clock_state unit := modify (add_event e).

Definition timeouts_lock : M clock_state unit :=
  let! error := kcall sync_recursive_mutex_lock in
  assert_ (error =? 0).
Definition timeouts_unlock : M clock_state unit :=
  kcall sync_recursive_mutex_unlock ;; ret tt.

(** [simple_pool_free(sysclock->schedule, timeout)] and the revocation of the
    capability it held, as both threads do it. *)
Definition release_timeout (el : ptr) (tout_aep : Z) : M clock_state unit :=
  let! error := on_sched (simple_pool_free el) in
  assert_ (error =? 0) ;;
  let! error := kcall (vka_cnode_revoke tout_aep) in
  assert_ (error =? 0).

(** SYSCLOCK_OP_CANCEL_TIMEOUT: the body of the loop over the schedule.  The
    matching entry is not advanced over: the next iteration looks at it again. *)
Definition cancel_body (timeout_id : Z) (entry : ptr) : M clock_state ptr :=
  let! n := on_sched (on_mem (read_node entry)) in
  let! hit :=
    (if non_null (el n) then
       let! timeout := on_sched (on_mem (read_cell (el n))) in
       ret (if u32 (aep timeout) =? timeout_id then Some (aep timeout) else None)
     else ret None) in
  match hit with
  | Some tout_aep => release_timeout (el n) tout_aep ;; ret entry
  | None => ret (next n)
  end.

Definition server_cancel_timeout (m : message) : M clock_state (list Z) :=
  let done := 0 in
  assert_ (msg_length m =? 2) ;;
  let timeout_id := u32 (getMR 1 m) in
  timeouts_lock ;;
  let! s := get in
  let! _ := while (heap_fuel (mem (schedule s)))
              (fun entry => non_null entry && (done =? 0))
              (cancel_body timeout_id) (entries (pool (schedule s))) in
  timeouts_unlock ;;
  ret [if done =? 0 then 1 else 0].

(** SYSCLOCK_OP_SET_TIMEOUT. *)
Definition server_set_timeout (m : message) : M clock_state (list Z) :=
  assert_ (msg_extraCaps m =? 1) ;;
  assert_ (msg_length m =? 3) ;;
  let periodic := u32 (getMR 1 m) in
  let timeout_ms := u32 (getMR 2 m) in
  timeouts_lock ;;
  let! new_entry := on_sched simple_pool_alloc in
  let! reply :=
    (if non_null new_entry then
       let! e := on_sched (on_mem (read_cell new_entry)) in
       assert_ (aep e =? seL4_CapNull) ;;
       let! s := get in
       let insert_time := time s in
       on_sched (on_mem (write_cell new_entry
         (TimeoutEntry (badge m) (caller_ep s) periodic timeout_ms
                       (u32 (insert_time + timeout_ms))))) ;;
       ret [0; caller_ep s; insert_time]
     else ret [1; seL4_CapNull; 0]) in
  timeouts_unlock ;;
  ret reply.

Definition server_get_time : M clock_state (list Z) :=
  let! s := get in ret [time s].

(** A fresh slot to receive the next callback capability in. *)
Definition renew_caller_ep : M clock_state unit :=
  let! r := kcall vka_cspace_alloc in
  assert_ (r.1 =? 0) ;;
  modify (set_caller_ep r.2).

(** One iteration of [sel4osapi_sysclock_server_thread] on a received message. *)
Definition sysclock_server_step (m : message) : M clock_state unit :=
  assert_ (1 <=? msg_length m) ;;
  let opcode := u32 (getMR 0 m) in
  assert_ ((opcode =? SYSCLOCK_OP_CANCEL_TIMEOUT) || (opcode =? SYSCLOCK_OP_SET_TIMEOUT)
           || (opcode =? SYSCLOCK_OP_GET_TIME)) ;;
  let! reply :=
    (if opcode =? SYSCLOCK_OP_CANCEL_TIMEOUT then server_cancel_timeout m
     else if opcode =? SYSCLOCK_OP_SET_TIMEOUT then server_set_timeout m
     else server_get_time) in
  emit (Ev_reply reply) ;;
  if opcode =? SYSCLOCK_OP_SET_TIMEOUT then renew_caller_ep else ret tt.

(** The timer thread: [sysclock->time += PERIOD], outside the mutex, *)
Definition timer_advance : M clock_state unit :=
  modify (fun s => set_time (u32 (time s + SEL4OSAPI_SYSCLOCK_PERIOD_MS)) s).

(** the loop over the schedule, whose next node is read before the entry may
    be freed, *)
Definition timer_scan_body (entry : ptr) : M clock_state ptr :=
  let! n := on_sched (on_mem (read_node entry)) in
  (if non_null (el n) then
     let! timeout := on_sched (on_mem (read_cell (el n))) in
     let! s := get in
     if negb (aep timeout =? seL4_CapNull) && (next_event timeout <=? time s) then
       emit (Ev_send (aep timeout) (time s)) ;;
       if negb (periodic timeout =? 0) then
         on_sched (on_mem (write_cell (el n)
           (TimeoutEntry (caller timeout) (aep timeout) (periodic timeout) (period timeout)
                         (u32 (time s + period timeout)))))
       else release_timeout (el n) (aep timeout)
     else ret tt
   else ret tt) ;;
  ret (next n).

(** and the critical section around it. *)
Definition timer_scan : M clock_state unit :=
  timeouts_lock ;;
  let! s := get in
  let! _ := while (heap_fuel (mem (schedule s))) non_null timer_scan_body
              (entries (pool (schedule s))) in
  timeouts_unlock ;;
  modify (fun s => set_kernel (sel4platsupport_handle_timer_irq (kernel s)) s).

(** One iteration of [sel4osapi_sysclock_timer_thread]. *)
Definition timer_iteration : M clock_state unit :=
  timer_advance ;; timer_scan.

(** *** Clients: the requests, with [call] the rendezvous on the server's
    endpoint (it delivers the message and returns the reply registers). *)

Definition sel4osapi_sysclock_schedule_timeout {S} (call : message -> M S (list Z))
    (my_badge : Z) (periodic timeout_ms : Z) : M S Z :=
  let! r := call (Msg my_badge 1 [SYSCLOCK_OP_SET_TIMEOUT; periodic; timeout_ms]) in
  let error := nth 0 r 0 in
  let timeout_id := nth 1 r 0 in
  ret (if negb (error =? 0) then 0 else timeout_id).

Definition sel4osapi_sysclock_cancel_timeout {S} (call : message -> M S (list Z))
    (my_badge : Z) (timeout_id : Z) : M S Z :=
  let! r := call (Msg my_badge 0 [SYSCLOCK_OP_CANCEL_TIMEOUT; timeout_id]) in
  ret (s32 (nth 0 r 0)).

(** [has_clock]: the process environment exists and holds the server endpoint. *)
Definition sel4osapi_sysclock_get_time {S} (call : message -> M S (list Z))
    (my_badge : Z) (has_clock : bool) : M S Z :=
  if has_clock then
    let! r := call (Msg my_badge 0 [SYSCLOCK_OP_GET_TIME]) in
    ret (u32 (nth 0 r 0))
  else ret 0.

(** [wait]: seL4_Wait on a notification.  A notification wakes its waiter but
    hands over no message, so [GetMR0], seL4_GetMR(0) read afterwards, is
    whatever the message register of the calling thread held. *)
Definition sel4osapi_sysclock_wait_for_timeout {S} (wait : Z -> M S unit) (GetMR0 : M S Z)
    (call : message -> M S (list Z)) (my_badge timeout_id callback_aep : Z) (cancel : bool) : M S Z :=
  wait callback_aep ;;
  let! wakeup_time := GetMR0 in
  (if cancel then sel4osapi_sysclock_cancel_timeout call my_badge timeout_id ;; ret tt
   else ret tt) ;;
  ret (u32 wakeup_time).

(** seL4_Call served by the clock server: the reply it emits to the message. *)
Definition call_server (m : message) : M clock_state (list Z) :=
  let! s := get in
  sysclock_server_step m ;;
  let! s' := get in
  match drop (length (events s)) (events s') with
  | [Ev_reply r] => ret r
  | _ => wild
  end.
End clock_c.
Arguments clock_state K : clear implicits.

(** ** The callbacks meet the pool's contract *)

#[export] Instance timer_callbacks :
  PoolCallbacks (Some timer_entry_init) (Some timer_entry_compare).
Proof.
  refine {| init_val := fun v => TimeoutEntry 0 seL4_CapNull 0 0 (next_event v);
            same := Some (fun v v' => aep v =? aep v') |}; try done.
  - intros f Hf arg h e v Hv. simplify_eq. unfold timer_entry_init, read_cell, write_cell, bind.
    cbn. unfold deref. rewrite Hv. unfold read_cell, bind. cbn. unfold deref. by rewrite Hv.
  - intros f Hf. simplify_eq. eexists. split; [reflexivity|]. intros h a b va vb Ha Hb.
    eexists. split.
    + unfold timer_entry_compare, read_cell, bind. cbn. unfold deref. rewrite Ha. cbn. by rewrite Hb.
    + destruct (Z.eqb_spec (aep va) (aep vb)); [done|]. by destruct (aep vb <? aep va).
Defined.

Abbreviation tinit := (Some timer_entry_init).
Abbreviation tcmp := (Some timer_entry_compare).

(** ** The abstract clock: the time and the timeouts in schedule order *)

Record aclock := AClock { ac_time : Z; ac_timers : list timeout_entry }.

Section aclock.
Context {CFG : Config}.

Definition due (now : Z) (t : timeout_entry) : bool := next_event t <=? now.

Definition reschedule (now : Z) (t : timeout_entry) : timeout_entry :=
  TimeoutEntry (caller t) (aep t) (periodic t) (period t) (u32 (now + period t)).

(** What a scan at time [now] makes of one timeout, and what it signals. *)
Definition scan_one (now : Z) (t : timeout_entry) : list timeout_entry :=
  if due now t then if periodic t =? 0 then [] else [reschedule now t] else [t].
Definition fired (now : Z) (ts : list timeout_entry) : list event :=
  (fun t => Ev_send (aep t) now) <$> filter (fun t => due now t = true) ts.

Definition a_scan (c : aclock) : aclock :=
  AClock (ac_time c) (ac_timers c ≫= scan_one (ac_time c)).
Definition a_advance (c : aclock) : aclock :=
  AClock (u32 (ac_time c + SEL4OSAPI_SYSCLOCK_PERIOD_MS)) (ac_timers c).

(** Scheduling: refused when the schedule is full. *)
Definition a_set (bdg slot per ms : Z) (c : aclock) : list Z * aclock :=
  if (length (ac_timers c) <? Z.to_nat SEL4OSAPI_SYSCLOCK_MAX_ENTRIES)%nat then
    ([0; slot; ac_time c],
     AClock (ac_time c) (ac_timers c ++ [TimeoutEntry bdg slot per ms (u32 (ac_time c + ms))]))
  else ([1; seL4_CapNull; 0], c).

(** Cancelling removes the timeout with this id; the reply is always 1. *)
Definition a_cancel (id : Z) (c : aclock) : list Z * aclock :=
  ([1], AClock (ac_time c) (filter (fun t => aep t <> id) (ac_timers c))).
End aclock.

Section clock_spec.
Context {CFG : Config} {K : Type} {KER : Kernel K} {KOK : KernelOk K}.
Implicit Types (s : clock_state K) (c : aclock) (a : apool timeout_entry).

(** A live timeout holds the capability in a slot of its own. *)
Definition live_aeps (used : gset Z) (ts : list timeout_entry) : Prop :=
  NoDup (aep <$> ts) /\ Forall (fun t => aep t <> seL4_CapNull /\ is_u32 (aep t) /\ aep t ∈ used) ts.

Definition sched_rep s a c : Prop :=
  pool_rep tinit tcmp (schedule s) a /\
  pool_size (pool (schedule s)) = SEL4OSAPI_SYSCLOCK_MAX_ENTRIES /\
  vals_along (a_vals a) (a_busy a) (ac_timers c) /\
  time s = ac_time c /\ is_u32 (ac_time c) /\
  live_aeps (slots (kernel s)) (ac_timers c).

(** The clock represents [c]; the server's receive slot is its own. *)
Definition clock_rep s c : Prop :=
  (exists a, sched_rep s a c) /\
  caller_ep s <> seL4_CapNull /\ is_u32 (caller_ep s) /\ caller_ep s ∈ slots (kernel s) /\
  caller_ep s ∉ aep <$> ac_timers c.

Lemma wp_on_sched {A} (m : M (pool_state timeout_entry) A) (Q : A -> clock_state K -> Prop) s :
  wp m (fun r p => Q r (set_schedule p s)) (schedule s) -> wp (on_sched m) Q s.
Proof. apply wp_zoom. Qed.

Lemma set_schedule_id s : set_schedule (schedule s) s = s.
Proof. by destruct s. Qed.

Lemma wp_sched_read_node p l nd (Q : sel4osapi_list_t -> clock_state K -> Prop) s :
  p = Some l -> nodes (mem (schedule s)) !! l = Some nd -> Q nd s ->
  wp (on_sched (on_mem (read_node p))) Q s.
Proof.
  intros -> Hl HQ. apply wp_on_sched. eapply wp_mem_read_node; [done..|]. by rewrite set_schedule_id.
Qed.

Lemma wp_sched_read_cell p l v (Q : timeout_entry -> clock_state K -> Prop) s :
  p = Some l -> cells (mem (schedule s)) !! l = Some v -> Q v s ->
  wp (on_sched (on_mem (read_cell p))) Q s.
Proof.
  intros -> Hl HQ. apply wp_on_sched. eapply wp_mem_read_cell; [done..|]. by rewrite set_schedule_id.
Qed.

Lemma wp_lock (Q : unit -> clock_state K -> Prop) s :
  (forall k, cspace_of k = cspace_of (kernel s) -> Q tt (set_kernel k s)) -> wp timeouts_lock Q s.
Proof.
  intros HQ. destruct (mutex_lock_ok (kernel s)) as [H1 H2].
  unfold timeouts_lock. wp_step. eapply wp_eq; [reflexivity|]. apply wp_assert; [by rewrite H1|].
  by apply HQ.
Qed.

Lemma wp_unlock (Q : unit -> clock_state K -> Prop) s :
  (forall k, cspace_of k = cspace_of (kernel s) -> Q tt (set_kernel k s)) -> wp timeouts_unlock Q s.
Proof.
  intros HQ. pose proof (mutex_unlock_ok (kernel s)) as H.
  unfold timeouts_unlock. wp_step. eapply wp_eq; [reflexivity|]. apply wp_ret. by apply HQ.
Qed.

Lemma vals_along_mid (vals : gmap loc timeout_entry) b1 x b2 ts :
  vals_along vals (b1 ++ x :: b2) ts ->
  exists t1 t t2, ts = t1 ++ t :: t2 /\ vals_along vals b1 t1 /\
    vals !! x.2 = Some t /\ vals_along vals b2 t2.
Proof.
  intros (t1 & t2' & H1 & H2 & ->)%Forall2_app_inv_l.
  apply Forall2_cons_inv_l in H2 as (t & t2 & Ht & H2 & ->). by exists t1, t, t2.
Qed.

(** Distinct capabilities: the search by capability finds the entry itself. *)
Lemma a_find_aep a b1 x b2 t1 t :
  a_busy a = b1 ++ x :: b2 -> vals_along (a_vals a) b1 t1 -> a_vals a !! x.2 = Some t ->
  aep t ∉ aep <$> t1 -> a_find tinit tcmp a x.2 = Some x.
Proof.
  intros Hb H1 Hx Hnot. unfold a_find. rewrite Hb, a_first_app.
  assert (a_first tinit tcmp a x.2 b1 = None) as ->.
  { clear Hb. induction H1 as [|y v b1 t1 Hy _ IH]; [done|]. cbn in *.
    unfold a_matches. cbn. rewrite Hy, Hx.
    destruct (Z.eqb_spec (aep v) (aep t)) as [Heq|]; [set_solver|]. apply IH. set_solver. }
  cbn. unfold a_matches. cbn. by rewrite Hx, Z.eqb_refl.
Qed.

Lemma wp_release_timeout s a b1 x b2 t1 t :
  pool_rep tinit tcmp (schedule s) a -> a_busy a = b1 ++ x :: b2 ->
  vals_along (a_vals a) b1 t1 -> a_vals a !! x.2 = Some t -> aep t ∉ aep <$> t1 ->
  aep t ∈ slots (kernel s) ->
  wp (release_timeout (Some x.2) (aep t))
     (fun _ s' => exists p k, s' = set_kernel k (set_schedule p s) /\
        cspace_of k = cspace_of (kernel s) /\ pool_size (pool p) = pool_size (pool (schedule s)) /\
        pool_rep tinit tcmp p (a_release tinit tcmp a x)) s.
Proof.
  intros R Hb H1 Hx Hnot Hslot. unfold release_timeout.
  pose proof (a_find_aep _ _ _ _ _ _ Hb H1 Hx Hnot) as Hf.
  wp_step. apply wp_on_sched. eapply wp_mono.
  { apply (wp_pool_free _ a x.2 R). intros _. by rewrite Hx. }
  intros r p. unfold a_pool_free. rewrite Hf. cbn. intros [-> R'].
  destruct (cnode_revoke_ok (aep t) (kernel s) Hslot) as [Hr1 Hr2].
  wp_steps. eapply wp_eq; [reflexivity|]. apply wp_assert; [cbn; by rewrite Hr1|].
  eexists p, _. split; [reflexivity|]. split_and!; [done| |done].
  rewrite (rep_size _ _ R), (rep_size _ _ R').
  pose proof (rep_busy_nodup _ _ R) as Hnd. unfold a_release. cbn. rewrite Hb in Hnd |- *.
  rewrite (filter_ne_mid _ _ _ Hnd), !length_app. cbn. lia.
Qed.

(** *** The scan of the timer thread *)

Lemma scan_one_aeps now ts : aep <$> (ts ≫= scan_one now) ⊆ aep <$> ts.
Proof.
  induction ts as [|t ts IH]; cbn; [done|]. rewrite fmap_app.
  unfold scan_one at 1. destruct (due now t), (periodic t =? 0); cbn; set_solver.
Qed.

Lemma scan_one_live now used ts : live_aeps used ts -> live_aeps used (ts ≫= scan_one now).
Proof.
  intros [Hnd Hall]. induction ts as [|t ts IH]; cbn; [done|].
  apply Forall_cons in Hall as [Ht Hall]. apply NoDup_cons in Hnd as [Hn Hnd].
  destruct (IH Hnd Hall) as [I1 I2]. pose proof (scan_one_aeps now ts) as Hsub.
  unfold scan_one at 1. destruct (due now t), (periodic t =? 0); cbn; try done;
    (split; [apply NoDup_cons; split; [set_solver|done]|apply Forall_cons; done]).
Qed.

(** The state of the scan: [td] is done and has become [tk], [tr] remains. *)
Record scan_inv (s0 : clock_state K) (ts : list timeout_entry) (n : nat) (x : ptr)
    (s : clock_state K) (a : apool timeout_entry) (kept rest : list (loc * loc))
    (td tr : list timeout_entry) : Prop := {
  si_ts : ts = td ++ tr;
  si_rep : pool_rep tinit tcmp (schedule s) a;
  si_busy : a_busy a = kept ++ rest;
  si_kept : vals_along (a_vals a) kept (td ≫= scan_one (time s0));
  si_rest : vals_along (a_vals a) rest tr;
  si_x : x = first NULL rest.*1;
  si_n : n = length rest;
  si_time : time s = time s0;
  si_ep : caller_ep s = caller_ep s0;
  si_slots : cspace_of (kernel s) = cspace_of (kernel s0);
  si_size : pool_size (pool (schedule s)) = pool_size (pool (schedule s0));
  si_events : events s = events s0 ++ fired (time s0) td
}.

Lemma fired_app now l1 l2 : fired now (l1 ++ l2) = fired now l1 ++ fired now l2.
Proof. unfold fired. by rewrite filter_app, fmap_app. Qed.

Lemma fired_one now t : fired now [t] = if due now t then [Ev_send (aep t) now] else [].
Proof.
  unfold fired. destruct (due now t) eqn:Hd;
    [rewrite filter_cons_True by done|rewrite filter_cons_False by (by rewrite Hd)]; done.
Qed.

(** The facts about the next timeout of the scan. *)
Lemma scan_next s0 ts n x s a kept y rest td t tr :
  live_aeps (slots (kernel s0)) ts -> scan_inv s0 ts (S n) x s a kept (y :: rest) td (t :: tr) ->
  exists nd, x = Some y.1 /\ nodes (mem (schedule s)) !! y.1 = Some nd /\ el nd = Some y.2 /\ next nd = first NULL rest.*1 /\
    a_vals a !! y.2 = Some t /\ cells (mem (schedule s)) !! y.2 = Some t /\ vals_along (a_vals a) rest tr /\ n = length rest /\
    y.2 ∉ kept.*2 /\ y.2 ∉ rest.*2 /\ aep t <> seL4_CapNull /\ aep t ∈ slots (kernel s0) /\
    aep t ∉ aep <$> (td ≫= scan_one (time s0)).
Proof.
  intros [Hlive Hall] []. injection si_n0 as Hn.
  destruct (rep_busy_entry _ _ kept y rest si_rep0 si_busy0) as (nd & v & Hnd & Hel & Hnx & Hva & Hv).
  pose proof (rep_busy_els _ _ si_rep0) as Hels. rewrite si_busy0, fmap_app in Hels. cbn in Hels.
  apply NoDup_app in Hels as (_ & Hdis & [Hyr _]%NoDup_cons).
  apply Forall2_cons in si_rest0 as [Hy Hrest]. rewrite Hy in Hva. simplify_eq.
  rewrite fmap_app in Hlive. cbn in Hlive. apply Forall_app in Hall as [_ [(Ht0 & _ & Hts) _]%Forall_cons].
  apply NoDup_app in Hlive as (_ & Hdt & _). exists nd. split_and!; try done; [set_solver|].
  intros Hin%scan_one_aeps. apply (Hdt _ Hin). set_solver.
Qed.

Lemma wp_scan_body s0 ts n x s a kept y rest td t tr :
  live_aeps (slots (kernel s0)) ts -> scan_inv s0 ts (S n) x s a kept (y :: rest) td (t :: tr) ->
  wp (timer_scan_body x)
     (fun x' s' => exists a' kept', scan_inv s0 ts n x' s' a' kept' rest (td ++ [t]) tr) s.
Proof.
  intros Hlive Hinv. destruct (scan_next _ _ _ _ _ _ _ _ _ _ _ _ Hlive Hinv) as
    (nd & -> & Hnd & Hel & Hnx & Hy & Hv & Hrest & -> & Hyk & Hyr & Ht0 & Hts & Htk).
  destruct Hinv as [-> si_rep0 si_busy0 si_kept0 _ _ _ si_time0 si_ep0 si_slots0 si_size0 si_events0]. unfold timer_scan_body.
  assert (Hcons : td ++ t :: tr = (td ++ [t]) ++ tr) by by rewrite <- app_assoc.
  wp_step. eapply wp_sched_read_node; [done..|].
  wp_step. rewrite Hel. cbn. wp_step. eapply wp_sched_read_cell; [done..|]. wp_steps.
  destruct (Z.eqb_spec (aep t) seL4_CapNull); [done|]. cbn. rewrite si_time0.
  change (next_event t <=? time s0) with (due (time s0) t).
  pose proof (fired_one (time s0) t) as Hone.
  assert (Hscan : (td ++ [t]) ≫= scan_one (time s0) = (td ≫= scan_one (time s0)) ++ scan_one (time s0) t).
  { rewrite bind_app. cbn. by rewrite app_nil_r. }
  pose proof (eq_refl (scan_one (time s0) t)) as Hsv. unfold scan_one at 2 in Hsv.
  destruct (due (time s0) t).
  - unfold emit. wp_steps. destruct (Z.eqb_spec (periodic t) 0) as [Hp|Hp]; cbn.
    + (* one-shot: back to the pool *)
      eapply wp_mono.
      { eapply (wp_release_timeout _ a kept y rest); [exact si_rep0|exact si_busy0|exact si_kept0|exact Hy|exact Htk|].
        cbn. by rewrite si_slots0. }
      intros [] s' (p & k & -> & Hk & Hsz & R'). wp_step.
      exists (a_release tinit tcmp a y), kept. split; cbn; try done.
      * by rewrite si_busy0, filter_ne_mid by (rewrite <- si_busy0; by eapply rep_busy_nodup).
      * rewrite Hscan, Hsv, app_nil_r. by apply vals_along_alter_ne.
      * by apply vals_along_alter_ne.
      * by rewrite Hk.
      * by rewrite Hsz.
      * by rewrite si_events0, fired_app, Hone, app_assoc.
    + (* periodic: a new deadline *)
      apply wp_on_sched, wp_on_mem. eapply wp_write_cell; [done..|]. wp_step.
      eexists (APool (a_free a) (a_busy a) (<[y.2 := _]> (a_vals a))), (kept ++ [y]). split; cbn; try done.
      * apply (rep_write _ _ y); [done|rewrite si_busy0; set_solver].
      * by rewrite <- app_assoc.
      * rewrite Hscan, Hsv. apply Forall2_app; [by apply vals_along_insert_ne|].
        constructor; [|constructor]. by rewrite lookup_insert_eq.
      * by apply vals_along_insert_ne.
      * by rewrite si_events0, fired_app, Hone, app_assoc.
  - wp_steps. exists a, (kept ++ [y]). split; try done.
    + by rewrite <- app_assoc.
    + rewrite Hscan, Hsv. apply Forall2_app; [done|]. by constructor.
    + by rewrite si_events0, fired_app, Hone, app_nil_r.
Qed.

Lemma wp_timer_scan s c :
  clock_rep s c ->
  wp timer_scan
     (fun _ s' => clock_rep s' (a_scan c) /\
        events s' = events s ++ fired (ac_time c) (ac_timers c) /\
        caller_ep s' = caller_ep s /\ cspace_of (kernel s') = cspace_of (kernel s)) s.
Proof.
  intros [(a & R & Hsz & Hv & Ht & Htr & Hlive) (Hc0 & Hcu & Hcs & Hcn)].
  unfold timer_scan. wp_step. apply wp_lock. intros k Hk. wp_steps.
  set (s1 := set_kernel k s). rewrite <- Hk in Hlive, Hcs |- *.
  eapply (wp_while (fun n x s' => exists a kept rest td tr,
            scan_inv s1 (ac_timers c) n x s' a kept rest td tr)).
  - intros n x s' (a' & kept & rest & td & tr & I) Hc.
    pose proof (si_x _ _ _ _ _ _ _ _ _ _ I) as Hx. pose proof (si_n _ _ _ _ _ _ _ _ _ _ I) as Hn.
    destruct rest as [|y rest]; [by rewrite Hx in Hc|].
    pose proof (si_rest _ _ _ _ _ _ _ _ _ _ I) as Hr.
    destruct tr as [|t tr]; [by apply Forall2_length in Hr|].
    exists (length rest). split; [done|]. subst n.
    eapply wp_mono; [eapply (wp_scan_body s1); [exact Hlive|exact I]|].
    intros x' s'' (a2 & kept2 & I2). by exists a2, kept2, rest, (td ++ [t]), tr.
  - intros n x s' (a' & kept & rest & td & tr & []) Hc.
    wp_step. destruct rest as [|y rest]; [|by rewrite si_x0 in Hc].
    apply Forall2_nil_inv_l in si_rest0 as ->. rewrite app_nil_r in si_ts0, si_busy0. subst td.
    apply wp_unlock. intros k' Hk'. wp_step. cbn.
    pose proof (handle_timer_irq_ok k') as Hi. rewrite Hi, Hk', si_slots0, si_ep0, si_events0. cbn.
    rewrite Ht. split_and!; try done. split.
    + exists a'. unfold sched_rep. cbn. rewrite Hi, Hk', si_slots0, si_size0, si_time0, si_busy0.
      cbn in si_kept0 |- *. rewrite Ht in si_kept0. split_and!; try done. by apply scan_one_live.
    + cbn. rewrite si_ep0, Hi, Hk', si_slots0. split_and!; try done.
      intros Hin%scan_one_aeps. done.
  - exists a, [], (a_busy a), [], (ac_timers c). split; try done.
    + constructor.
    + apply (dlist_first _ _ _ (rep_busy _ _ R)).
    + by rewrite app_nil_r.
  - pose proof (dlist_fuel _ _ _ (rep_busy _ _ R)) as Hf. by rewrite length_fmap in Hf.
Qed.

Lemma wp_timer_advance s c (Q : unit -> clock_state K -> Prop) :
  clock_rep s c -> (forall s', clock_rep s' (a_advance c) -> events s' = events s ->
    caller_ep s' = caller_ep s -> cspace_of (kernel s') = cspace_of (kernel s) -> Q tt s') ->
  wp timer_advance Q s.
Proof.
  intros [(a & R & Hsz & Hv & Ht & Htr & Hlive) Hc] HQ. unfold timer_advance. wp_step.
  apply HQ; try done. split; [|done]. exists a. unfold sched_rep. cbn. rewrite Ht.
  split_and!; auto with osapi.
Qed.

(** *** Cancellation *)

Lemma filter_aep_none id ts : Forall (fun t => aep t <> id) ts ->
  filter (fun t => aep t <> id) ts = ts.
Proof. apply filter_all. Qed.

Lemma filter_aep_mid id t1 t t2 :
  NoDup (aep <$> t1 ++ t :: t2) -> aep t = id ->
  filter (fun t => aep t <> id) (t1 ++ t :: t2) = t1 ++ t2.
Proof.
  rewrite fmap_app. cbn. intros [Hn _]%NoDup_app_not_mid <-. rewrite filter_app_mid by tauto.
  apply filter_all, Forall_forall. intros u Hu Heq. apply Hn. rewrite <- fmap_app, <- Heq.
  by apply list_elem_of_fmap_2.
Qed.

(** The state once the entry [y] with timeout [t] has been released from [s0]. *)
Record released (s0 : clock_state K) (ts : list timeout_entry) (id : Z) s a
    (y : loc * loc) (b1 b2 : list (loc * loc)) (t1 : list timeout_entry) (t : timeout_entry)
    (t2 : list timeout_entry) : Prop := {
  re_ts : ts = t1 ++ t :: t2;
  re_id : aep t = id;
  re_free : exists fr, a_free a = fr ++ [y];
  re_busy : a_busy a = b1 ++ b2;
  re_v1 : vals_along (a_vals a) b1 t1;
  re_v2 : vals_along (a_vals a) b2 t2;
  re_reset : exists v, a_vals a !! y.2 = Some v /\ aep v = seL4_CapNull;
  re_rep : pool_rep tinit tcmp (schedule s) a;
  re_size : pool_size (pool (schedule s)) = pool_size (pool (schedule s0));
  re_slots : cspace_of (kernel s) = cspace_of (kernel s0);
  re_time : time s = time s0;
  re_ep : caller_ep s = caller_ep s0;
  re_events : events s = events s0
}.

Definition cancel_inv s0 a0 (ts : list timeout_entry) (id : Z) (n : nat) (x : ptr) s : Prop :=
  (s = s0 /\ exists b1 b2 t1 t2, a_busy a0 = b1 ++ b2 /\ ts = t1 ++ t2 /\
     vals_along (a_vals a0) b1 t1 /\ vals_along (a_vals a0) b2 t2 /\
     Forall (fun t => aep t <> id) t1 /\ x = first NULL b2.*1 /\ n = S (length b2)) \/
  (exists a y b1 b2 t1 t t2, released s0 ts id s a y b1 b2 t1 t t2 /\
     ((x = Some y.1 /\ (0 < n)%nat) \/ x = NULL)).

Lemma wp_cancel_search s0 a0 ts id b1 y b2 t1 t t2 :
  pool_rep tinit tcmp (schedule s0) a0 -> live_aeps (slots (kernel s0)) ts ->
  a_busy a0 = b1 ++ y :: b2 -> ts = t1 ++ t :: t2 ->
  vals_along (a_vals a0) b1 t1 -> a_vals a0 !! y.2 = Some t -> vals_along (a_vals a0) b2 t2 ->
  Forall (fun t => aep t <> id) t1 ->
  wp (cancel_body id (Some y.1)) (cancel_inv s0 a0 ts id (S (length b2))) s0.
Proof.
  intros R [Hnd Hall] Hb Hts Hv1 Hy Hv2 Hno. unfold cancel_body.
  destruct (rep_busy_entry _ _ b1 y b2 R Hb) as (nd & v & Hnd' & Hel & Hnx & Hva & Hv).
  rewrite Hy in Hva. injection Hva as <-.
  pose proof (rep_busy_els _ _ R) as Hels. rewrite Hb, fmap_app in Hels. cbn in Hels.
  apply NoDup_app_not_mid in Hels as [Hyn _]. rewrite <- fmap_app in Hyn.
  rewrite Hts, fmap_app in Hnd. rewrite Hts in Hall. cbn in Hnd.
  apply Forall_app in Hall as [_ [(Ht0 & Htr & Hts') _]%Forall_cons].
  wp_step. eapply wp_sched_read_node; [done..|]. wp_step.
  rewrite Hel. cbn. wp_step. eapply wp_sched_read_cell; [done..|]. wp_step.
  rewrite u32_small by done. destruct (Z.eqb_spec (aep t) id) as [Hid|Hid].
  - wp_step. eapply wp_mono.
    { eapply (wp_release_timeout _ a0 b1 y b2); [done..| |done].
      apply NoDup_app in Hnd as (_ & Hd & _). intros Hin%Hd. set_solver. }
    intros [] s' (p & k & -> & Hk & Hsz & R'). wp_step. right.
    exists (a_release tinit tcmp a0 y), y, b1, b2, t1, t, t2. split; [|left; split; [done|lia]].
    rewrite fmap_app in Hyn. split; cbn; try done.
    + by eexists.
    + by rewrite Hb, filter_ne_mid by (rewrite <- Hb; by eapply rep_busy_nodup).
    + apply vals_along_alter_ne; [set_solver|done].
    + apply vals_along_alter_ne; [set_solver|done].
    + eexists. by rewrite lookup_alter_eq, Hy.
  - wp_step. left. split; [done|]. exists (b1 ++ [y]), b2, (t1 ++ [t]), t2.
    rewrite <- !app_assoc. split_and!; try done.
    + apply Forall2_app; [done|]. by repeat constructor.
    + apply Forall_app. by repeat constructor.
Qed.

Lemma wp_cancel_body s0 a0 ts id n x s :
  pool_rep tinit tcmp (schedule s0) a0 -> live_aeps (slots (kernel s0)) ts ->
  cancel_inv s0 a0 ts id n x s -> non_null x && (0 =? 0) = true ->
  exists n', n = S n' /\ wp (cancel_body id x) (cancel_inv s0 a0 ts id n') s.
Proof.
  intros R Hlive [[-> (b1 & b2 & t1 & t2 & Hb & Hts & Hv1 & Hv2 & Hno & -> & ->)]|H] Hc.
  - destruct b2 as [|y b2]; [done|]. eexists. split; [reflexivity|].
    apply Forall2_cons_inv_l in Hv2 as (t & t2' & Hy & Hv2 & ->).
    by eapply wp_cancel_search.
  - destruct H as (a & y & b1 & b2 & t1 & t & t2 & Hre & [[-> Hn]| ->]); [|done].
    destruct n as [|n]; [lia|]. exists n. split; [done|]. pose proof Hre as [].
    destruct re_free0 as [fr Hfr]. destruct re_reset0 as (v & Hv & Hv0).
    pose proof (rep_free _ _ re_rep0) as Hd. rewrite Hfr, fmap_app in Hd. cbn in Hd.
    destruct (dlist_split _ _ _ _ _ Hd) as [e He].
    destruct (rep_entry_get _ _ y re_rep0) as (nd & v' & Hn' & Hel & Hce); [rewrite Hfr; set_solver|].
    rewrite He in Hn'. injection Hn' as <-. cbn in Hel. subst e.
    rewrite (rep_vals _ _ re_rep0), Hv in Hce. injection Hce as <-.
    unfold cancel_body. wp_step. eapply wp_sched_read_node; [done..|]. wp_step. cbn. wp_step.
    eapply wp_sched_read_cell; [done|by rewrite (rep_vals _ _ re_rep0)|]. wp_step.
    destruct Hlive as [_ Hall]. rewrite re_ts0 in Hall.
    apply Forall_app in Hall as [_ [(Ht0 & _) _]%Forall_cons]. rewrite Hv0.
    destruct (Z.eqb_spec (u32 seL4_CapNull) id) as [Heq|_].
    { exfalso. apply Ht0. by rewrite re_id0, <- Heq. }
    wp_step. right. exists a, y, b1, b2, t1, t, t2. split; [done|]. by right.
Qed.

Lemma wp_cancel_timeout m s c :
  clock_rep s c -> msg_length m = 2 ->
  wp (server_cancel_timeout m)
     (fun r s' => r = (a_cancel (u32 (getMR 1 m)) c).1 /\
        clock_rep s' (a_cancel (u32 (getMR 1 m)) c).2 /\ events s' = events s /\
        caller_ep s' = caller_ep s /\ cspace_of (kernel s') = cspace_of (kernel s)) s.
Proof.
  intros [(a & R & Hsz & Hv & Ht & Htr & Hlive) (Hc0 & Hcu & Hcs & Hcn)] Hm.
  unfold server_cancel_timeout. wp_step. apply wp_assert; [by apply Z.eqb_eq|].
  set (id := u32 (getMR 1 m)). wp_step. apply wp_lock. intros k Hk. wp_steps.
  set (s1 := set_kernel k s). rewrite <- Hk in Hlive, Hcs |- *.
  eapply (wp_while (cancel_inv s1 a (ac_timers c) id)).
  - intros n x s'. by apply wp_cancel_body.
  - intros n x s' Hinv Hc. wp_step. apply wp_unlock. intros k' Hk'. wp_step.
    rewrite andb_true_r in Hc. cbn in Hk'.
    destruct Hinv as [[-> (b1 & b2 & t1 & t2 & Hb & Hts & Hv1 & Hv2 & Hno & -> & _)]|H].
    + destruct b2; [|done]. apply Forall2_nil_inv_l in Hv2 as ->. rewrite app_nil_r in *. subst t1.
      split_and!; try done. unfold clock_rep, a_cancel. cbn. rewrite Hk'.
      rewrite filter_aep_none by done. split; [|done].
      exists a. unfold sched_rep. cbn. by rewrite Hk'.
    + destruct H as (a' & y & b1 & b2 & t1 & t & t2 & [] & _).
      split_and!; cbn; try done; [|by rewrite Hk'].
      assert (Hfil : filter (fun t => aep t <> id) (ac_timers c) = t1 ++ t2).
      { rewrite re_ts0. apply filter_aep_mid; [|done]. rewrite <- re_ts0. apply Hlive. }
      rewrite re_ts0 in Hlive, Hcn.
      unfold clock_rep, sched_rep. cbn. rewrite Hfil, Hk', re_slots0, re_ep0. cbn. split.
      * exists a'. rewrite re_size0, re_time0. split_and!; try done.
        -- rewrite re_busy0. by apply Forall2_app.
        -- destruct Hlive as [Hnd Hall]. split.
           ++ rewrite fmap_app in Hnd |- *. cbn in Hnd. by apply NoDup_app_not_mid in Hnd as [_ ?].
           ++ apply Forall_app in Hall as [? [_ ?]%Forall_cons]. by apply Forall_app.
      * split_and!; try done. rewrite fmap_app in Hcn |- *. set_solver.
  - left. split; [done|]. exists [], (a_busy a), [], (ac_timers c). split_and!; try done.
    + constructor.
    + apply (dlist_first _ _ _ (rep_busy _ _ R)).
  - pose proof (dlist_size _ _ _ (rep_busy _ _ R)) as Hf. rewrite length_fmap in Hf.
    unfold heap_fuel. cbn. lia.
Qed.

(** *** Scheduling *)

Lemma vals_along_length (vals : gmap loc timeout_entry) l ts :
  vals_along vals l ts -> length l = length ts.
Proof. apply Forall2_length. Qed.

Lemma sched_rep_length s a c : sched_rep s a c ->
  (length (a_free a) + length (ac_timers c) = Z.to_nat SEL4OSAPI_SYSCLOCK_MAX_ENTRIES)%nat.
Proof.
  intros (R & Hsz & Hv & _). rewrite (rep_size _ _ R) in Hsz.
  rewrite <- (vals_along_length _ _ _ Hv). unfold SEL4OSAPI_SYSCLOCK_MAX_ENTRIES in *. lia.
Qed.

Lemma wp_set_timeout m s c :
  clock_rep s c -> msg_extraCaps m = 1 -> msg_length m = 3 ->
  let r := a_set (badge m) (caller_ep s) (u32 (getMR 1 m)) (u32 (getMR 2 m)) c in
  wp (server_set_timeout m)
     (fun rep s' => rep = r.1 /\ (exists a', sched_rep s' a' r.2) /\
        events s' = events s /\ caller_ep s' = caller_ep s /\
        cspace_of (kernel s') = cspace_of (kernel s)) s.
Proof.
  intros [(a & Hrep) (Hc0 & Hcu & Hcs & Hcn)] Hx Hm r.
  pose proof (sched_rep_length _ _ _ Hrep) as Hlen.
  destruct Hrep as (R & Hsz & Hv & Ht & Htr & Hlive).
  unfold server_set_timeout. wp_step. apply wp_assert; [by apply Z.eqb_eq|].
  wp_step. apply wp_assert; [by apply Z.eqb_eq|]. wp_step. apply wp_lock. intros k Hk.
  wp_step. apply wp_on_sched. eapply wp_mono; [apply (wp_alloc _ a R)|].
  intros e p [-> R']. unfold a_alloc in R' |- *. unfold r, a_set.
  destruct (a_free a) as [|x fr] eqn:Hfr; cbn [length] in Hlen;
    destruct (Nat.ltb_spec (length (ac_timers c)) (Z.to_nat SEL4OSAPI_SYSCLOCK_MAX_ENTRIES));
    try lia; cbn in R' |- *.
  - wp_steps. apply wp_unlock. intros k' Hk'. wp_step. cbn in Hk' |- *. rewrite Hk', Hk.
    split_and!; try done. exists a. unfold sched_rep. cbn. rewrite Hk', Hk.
    split_and!; try done. by rewrite (rep_size _ _ R'), <- (rep_size _ _ R).
  - assert (Hxin : x ∈ fr ++ (a_busy a ++ [x])) by set_solver.
    destruct (rep_entry_get _ _ x R' Hxin) as (nd & v & Hn & Hel & Hcell).
    pose proof (rep_els _ _ R) as Hels. rewrite Hfr in Hels. cbn in Hels.
    apply NoDup_cons in Hels as [Hxn _].
    assert (Hv0 : aep v = seL4_CapNull).
    { rewrite (rep_vals _ _ R') in Hcell. cbn in Hcell. rewrite lookup_alter_eq in Hcell.
      destruct (a_vals a !! x.2); [|done]. cbn in Hcell. by injection Hcell as <-. }
    wp_steps. eapply wp_sched_read_cell; [done..|]. wp_step. apply wp_assert; [by rewrite Hv0|].
    wp_steps. apply wp_on_sched, wp_on_mem. eapply wp_write_cell; [done..|].
    wp_steps. apply wp_unlock. intros k' Hk'. wp_step. cbn. cbn in Hk'. rewrite Ht, Hk', Hk.
    split_and!; try done.
    eexists (APool fr (a_busy a ++ [x]) (<[x.2 := _]> (alter _ x.2 (a_vals a)))).
    unfold sched_rep. cbn. rewrite ?Ht, Hk', Hk.
    split_and!; [by apply (rep_write _ _ x _ R')| | |done|done|].
    + by rewrite (rep_size _ _ R'), <- Hsz, (rep_size _ _ R), Hfr; cbn; rewrite length_app; cbn; lia.
    + apply Forall2_app.
      * apply vals_along_insert_ne; [set_solver|]. apply vals_along_alter_ne; [set_solver|done].
      * constructor; [|constructor]. cbn. by rewrite lookup_insert_eq.
    + destruct Hlive as [Hnd Hall]. split.
      * rewrite fmap_app. cbn. apply NoDup_app. split_and!; [done|set_solver|apply NoDup_singleton].
      * apply Forall_app. split; [done|]. by apply Forall_singleton.
Qed.

(** *** The server *)

Definition request_ok (m : message) : bool :=
  let opcode := u32 (getMR 0 m) in
  (1 <=? msg_length m) &&
  (((opcode =? SYSCLOCK_OP_CANCEL_TIMEOUT) && (msg_length m =? 2)) ||
   ((opcode =? SYSCLOCK_OP_SET_TIMEOUT) && (msg_extraCaps m =? 1) && (msg_length m =? 3)) ||
   (opcode =? SYSCLOCK_OP_GET_TIME)).

Definition a_serve (slot : Z) (m : message) (c : aclock) : list Z * aclock :=
  let opcode := u32 (getMR 0 m) in
  if opcode =? SYSCLOCK_OP_CANCEL_TIMEOUT then a_cancel (u32 (getMR 1 m)) c
  else if opcode =? SYSCLOCK_OP_SET_TIMEOUT then
    a_set (badge m) slot (u32 (getMR 1 m)) (u32 (getMR 2 m)) c
  else ([ac_time c], c).

Definition is_set (m : message) : bool := u32 (getMR 0 m) =? SYSCLOCK_OP_SET_TIMEOUT.

(** The CSpace slots a request uses up. *)
Definition slots_needed (m : message) : nat := if is_set m then 1 else 0.

Lemma wp_renew s a c :
  sched_rep s a c -> (0 < room (cspace_of (kernel s)))%nat ->
  wp renew_caller_ep (fun _ s' => clock_rep s' c /\ events s' = events s /\
    caller_ep s' ∉ slots (kernel s) /\
    cspace_of (kernel s') = CSpace ({[caller_ep s']} ∪ slots (kernel s))
                                   (pred (room (cspace_of (kernel s))))) s.
Proof.
  intros (R & Hsz & Hv & Ht & Htr & [Hnd Hall]) Hav.
  destruct (cspace_alloc_ok (kernel s) Hav) as (slot & k & Hal & Hn & Hr & Hs).
  unfold renew_caller_ep. wp_step. eapply wp_eq; [unfold kcall; by rewrite Hal|]. wp_steps. cbn.
  split; [|done]. split.
  - exists a. unfold sched_rep. cbn. rewrite Hs. split_and!; try done.
    split; [done|]. eapply Forall_impl; [exact Hall|]. cbn. intros t (? & ? & ?).
    split_and!; try done. set_solver.
  - cbn. rewrite Hs. split_and!; [unfold seL4_CapNull; lia|unfold is_u32; lia|set_solver|].
    intros Hin. apply list_elem_of_fmap in Hin as (t & -> & Ht').
    rewrite Forall_forall in Hall. by destruct (Hall t Ht') as (_ & _ & ?).
Qed.

(** The receive slot after a request: fresh after a SET_TIMEOUT. *)
Definition slot_renewed (m : message) s s' : Prop :=
  if is_set m then caller_ep s' ∉ slots (kernel s) /\
    cspace_of (kernel s') = CSpace ({[caller_ep s']} ∪ slots (kernel s))
                                   (pred (room (cspace_of (kernel s))))
  else caller_ep s' = caller_ep s /\ cspace_of (kernel s') = cspace_of (kernel s).

Lemma wp_server_step m s c :
  clock_rep s c -> request_ok m = true -> (slots_needed m <= room (cspace_of (kernel s)))%nat ->
  let r := a_serve (caller_ep s) m c in
  wp (sysclock_server_step m)
     (fun _ s' => clock_rep s' r.2 /\ events s' = events s ++ [Ev_reply r.1] /\
        slot_renewed m s s') s.
Proof.
  intros Hrep Hok Hav r. unfold request_ok in Hok. apply andb_prop in Hok as [Hlen Hok].
  unfold slots_needed, is_set in Hav. unfold slot_renewed, is_set.
  unfold sysclock_server_step. wp_step. apply wp_assert; [done|]. wp_step. unfold r, a_serve.
  destruct (Z.eqb_spec (u32 (getMR 0 m)) SYSCLOCK_OP_CANCEL_TIMEOUT) as [Hop|Hop];
    [|destruct (Z.eqb_spec (u32 (getMR 0 m)) SYSCLOCK_OP_SET_TIMEOUT) as [Hop2|Hop2]].
  - rewrite Hop in Hok. cbn in Hok. rewrite !orb_false_r in Hok. apply Z.eqb_eq in Hok.
    apply wp_assert; [done|]. wp_step. eapply wp_mono; [by apply wp_cancel_timeout|].
    intros rep s' (-> & Hrep' & Hev & Hep & Hcs). unfold emit. wp_steps. rewrite Hop. cbn. wp_step. cbn.
    split_and!; [exact Hrep'|by rewrite Hev|exact Hep|exact Hcs].
  - rewrite Hop2 in Hok |- *. cbn in Hok. rewrite orb_false_r in Hok. apply andb_prop in Hok as [H1 H2].
    apply Z.eqb_eq in H1, H2. apply wp_assert; [done|]. wp_step.
    eapply wp_mono; [by apply (wp_set_timeout m s c)|].
    intros rep s' (-> & (a' & Hrep') & Hev & _ & Hsl). unfold emit. wp_steps. cbn.
    eapply wp_mono; [apply (wp_renew _ a')|].
    + exact Hrep'.
    + cbn. rewrite Hsl. lia.
    + intros [] s'' (Hr'' & -> & Hn & Hcs). cbn in Hn, Hcs |- *. rewrite Hsl in Hn, Hcs.
      rewrite Hcs. split_and!; [exact Hr''|by rewrite Hev|exact Hn|done].
  - cbn in Hok |- *. rewrite Hok. apply wp_assert; [done|].
    unfold server_get_time, emit. wp_steps. cbn.
    destruct Hrep as [(a & R & Hsz & Hv & Ht & Hrest) Hc]. rewrite Ht. split_and!; try done.
    split; [|done]. by exists a.
Qed.
End clock_spec.
