(* ===== verification/Sysclock.v ===== *)
(** * Sysclock: the clock as a system of two threads (src/clock.c)

    Server and timer exclude each other through [timeouts_mutex], except for
    the timer's [time += PERIOD].  A run of the clock is therefore a sequence
    of the labels below, in any order the scheduler picks; the theorems follow
    the whole system, and one timeout, through every such sequence. *)

From S2P Require Import Prelude Config Memory LinkedList Pool Kernel Clock.

Inductive clock_label :=
| L_request (m : message)
| L_advance
| L_scan.

#[export] Instance clock_label_eq_dec : EqDecision clock_label.
Proof. solve_decision. Defined.

Section system.
Context {CFG : Config} {K : Type} {KER : Kernel K}.

Definition clock_run_label (l : clock_label) : M (clock_state K) unit :=
  match l with
  | L_request m => sysclock_server_step m
  | L_advance => timer_advance
  | L_scan => timer_scan
  end.

Fixpoint clock_run (ls : list clock_label) : M (clock_state K) unit :=
  match ls with
  | [] => ret tt
  | l :: ls => clock_run_label l ;; clock_run ls
  end.

(** Each thread on its own: [ms], the messages the server receives while it is
    active, and [n], the ticks the timer gets.  [set_timeout] (of a number of
    nanoseconds) and [destroy_timer] are calls of the timer library. *)
Definition sysclock_server_thread (ms : list message) : M (clock_state K) unit :=
  renew_caller_ep ;; clock_run (L_request <$> ms).

Fixpoint timer_ticks (n : nat) : M (clock_state K) unit :=
  match n with
  | O => ret tt
  | S n => timer_iteration ;; timer_ticks n
  end.

Definition sysclock_timer_thread (set_timeout : Z -> K -> Z * K) (destroy_timer : K -> K) (NS_IN_MS : Z) (n : nat) : M (clock_state K) unit :=
  let! error := kcall (set_timeout (SEL4OSAPI_SYSCLOCK_PERIOD_MS * NS_IN_MS)) in
  assert_ (error =? 0) ;;
  timer_ticks n ;;
  modify (fun s => set_kernel (destroy_timer (kernel s)) s).

(** What [sel4osapi_sysclock_initialize] leaves for the two threads, once the
    server has run its prologue: time 0, an empty schedule, a receive slot. *)
Definition sysclock_boot (uninit : timeout_entry) (h : heap timeout_entry) (k : K)
    : outcome (clock_state K) :=
  match simple_pool_new SEL4OSAPI_SYSCLOCK_MAX_ENTRIES sizeof_timeout_entry
          (Some timer_entry_init) NULL (Some timer_entry_compare) uninit h with
  | Done (p, h') =>
      match vka_cspace_alloc k with
      | ((error, caller_ep), k') =>
          if error =? 0 then Done (ClockState 0 (PoolState p h') caller_ep k' [])
          else Assert_failed
      end
  | Assert_failed => Assert_failed
  | Wild_access => Wild_access
  | Out_of_fuel => Out_of_fuel
  end.

(** Requests that pass the server's assertions, in a sequence of labels. *)
Definition label_ok (l : clock_label) : bool :=
  match l with L_request m => request_ok m | _ => true end.
Definition label_slots (l : clock_label) : nat :=
  match l with L_request m => slots_needed m | _ => 0 end.
Definition run_slots (ls : list clock_label) : nat := sum_list (label_slots <$> ls).

(** Does this request cancel the timeout [id]? *)
Definition cancels (id : Z) (m : message) : bool :=
  (u32 (getMR 0 m) =? SYSCLOCK_OP_CANCEL_TIMEOUT) && (u32 (getMR 1 m) =? id).

(** The message register 0 of each signal sent on [id]. *)
Definition sends_to (id : Z) (evs : list event) : list Z :=
  omap (fun e => match e with
                 | Ev_send ep t => if ep =? id then Some t else None
                 | Ev_reply _ => None
                 end) evs.

(** ** One timeout on its own

    The signals on [id] when its timeout is [o], from time [now] on. *)
Fixpoint watch (id : Z) (o : option timeout_entry) (now : Z) (ls : list clock_label) : list Z :=
  match ls with
  | [] => []
  | L_advance :: ls => watch id o (u32 (now + SEL4OSAPI_SYSCLOCK_PERIOD_MS)) ls
  | L_scan :: ls =>
      match o with
      | Some t =>
          if due now t
          then now :: watch id (if periodic t =? 0 then None else Some (reschedule now t)) now ls
          else watch id o now ls
      | None => watch id None now ls
      end
  | L_request m :: ls => watch id (if cancels id m then None else o) now ls
  end.

(** The time of the first scan at or after [deadline], on a clock that does
    not wrap. *)
Fixpoint first_due (deadline now : Z) (ls : list clock_label) : option Z :=
  match ls with
  | [] => None
  | L_advance :: ls => first_due deadline (now + SEL4OSAPI_SYSCLOCK_PERIOD_MS) ls
  | L_scan :: ls => if deadline <=? now then Some now else first_due deadline now ls
  | L_request _ :: ls => first_due deadline now ls
  end.

Fixpoint advances (ls : list clock_label) : nat :=
  match ls with
  | [] => 0
  | L_advance :: ls => S (advances ls)
  | _ :: ls => advances ls
  end.
End system.

(** The ticks of the timer alone are a run of the system. *)
Lemma timer_ticks_run `{CFG : Config} {K : Type} {KER : Kernel K} n (s : clock_state K) :
  timer_ticks n s = clock_run (concat (replicate n [L_advance; L_scan])) s.
Proof.
  revert s. induction n as [|n IH]; intros s; [done|].
  cbn [timer_ticks replicate concat app clock_run clock_run_label]. unfold timer_iteration, bind.
  destruct (timer_advance s) as [[? s1]| | |]; [|done..]. destruct (timer_scan s1) as [[? s2]| | |]; [apply IH|done..].
Qed.

Section sysclock_spec.
Context {CFG : Config} {K : Type} {KER : Kernel K} {KOK : KernelOk K}.
Implicit Types (s : clock_state K) (c : aclock) (o : option timeout_entry).

Lemma sends_to_app id e1 e2 : sends_to id (e1 ++ e2) = sends_to id e1 ++ sends_to id e2.
Proof. apply omap_app. Qed.

(** [id] belongs to the timeout [o], or to none and never will again. *)
Definition tracks (id : Z) o s c : Prop :=
  match o with
  | Some t => t ∈ ac_timers c /\ aep t = id
  | None => id ∉ aep <$> ac_timers c /\ id ∈ slots (kernel s) /\ id <> caller_ep s
  end.

Lemma tracks_used id o s c : clock_rep s c -> tracks id o s c ->
  id ∈ slots (kernel s) /\ id <> caller_ep s.
Proof.
  intros [(a & _ & _ & _ & _ & _ & [_ Hall]) (_ & _ & _ & Hn)] Ht. destruct o as [t|]; cbn in Ht; [|tauto].
  destruct Ht as [Ht <-]. rewrite Forall_forall in Hall. split; [by apply Hall|].
  intros Heq. apply Hn. rewrite <- Heq. by apply list_elem_of_fmap_2.
Qed.

Lemma clock_rep_nodup s c : clock_rep s c -> NoDup (aep <$> ac_timers c).
Proof. intros [(a & _ & _ & _ & _ & _ & [? _]) _]. done. Qed.

Lemma sends_to_fired_none id now ts : id ∉ aep <$> ts -> sends_to id (fired now ts) = [].
Proof.
  induction ts as [|t ts IH]; intros Hn; [done|]. cbn in Hn.
  change (t :: ts) with ([t] ++ ts). rewrite fired_app, fired_one, sends_to_app, IH by set_solver.
  destruct (due now t); [|done]. cbn. destruct (Z.eqb_spec (aep t) id); [set_solver|done].
Qed.

Lemma sends_to_fired id now ts t :
  NoDup (aep <$> ts) -> t ∈ ts -> aep t = id ->
  sends_to id (fired now ts) = if due now t then [now] else [].
Proof.
  intros Hnd Ht <-. apply list_elem_of_split in Ht as (t1 & t2 & ->).
  rewrite fmap_app in Hnd. cbn in Hnd. apply NoDup_app_not_mid in Hnd as [Hn _].
  change (t :: t2) with ([t] ++ t2). rewrite !fired_app, !sends_to_app, fired_one.
  rewrite !sends_to_fired_none by set_solver. rewrite app_nil_r. cbn.
  destruct (due now t); [|done]. cbn. by rewrite Z.eqb_refl.
Qed.

(** How a scan moves the tracked timeout. *)
Definition scan_tracked (now : Z) o : option timeout_entry :=
  o ≫= fun t => head (scan_one now t).

Lemma scan_one_shape now t :
  scan_one now t = [] \/ exists t', scan_one now t = [t'] /\ aep t' = aep t.
Proof.
  unfold scan_one. destruct (due now t), (periodic t =? 0); [by left|right..]; by eexists.
Qed.

Lemma scan_tracks id now ts t :
  NoDup (aep <$> ts) -> t ∈ ts -> aep t = id ->
  match head (scan_one now t) with
  | Some t' => t' ∈ ts ≫= scan_one now /\ aep t' = id
  | None => id ∉ aep <$> (ts ≫= scan_one now)
  end.
Proof.
  intros Hnd Ht <-. destruct (scan_one_shape now t) as [Hs|(t' & Hs & Ha)].
  - rewrite Hs. cbn. apply list_elem_of_split in Ht as (t1 & t2 & ->).
    rewrite fmap_app in Hnd. cbn in Hnd. apply NoDup_app_not_mid in Hnd as [Hn _].
    rewrite bind_app. cbn. rewrite Hs, fmap_app.
    pose proof (scan_one_aeps now t1). pose proof (scan_one_aeps now t2). set_solver.
  - rewrite Hs. cbn. split; [|done]. apply list_elem_of_bind. exists t. rewrite Hs. set_solver.
Qed.

(** One label: the clock still represents an abstract clock, the timeout is
    still tracked, and the signals on [id] are those of the timeout alone. *)
Definition watch_step (id : Z) o (now : Z) (l : clock_label) : list Z * option timeout_entry * Z :=
  match l with
  | L_request m => ([], if cancels id m then None else o, now)
  | L_advance => ([], o, u32 (now + SEL4OSAPI_SYSCLOCK_PERIOD_MS))
  | L_scan => (match o with Some t => if due now t then [now] else [] | None => [] end,
               scan_tracked now o, now)
  end.

Lemma watch_unfold id o now l ls :
  watch id o now (l :: ls) =
  let '(sent, o', now') := watch_step id o now l in sent ++ watch id o' now' ls.
Proof.
  destruct l as [m| |]; cbn; try done. destruct o as [t|]; [|done]. cbn. unfold scan_one.
  destruct (due now t); [|done]. by destruct (periodic t =? 0).
Qed.

Lemma a_serve_time slot m c : ac_time (a_serve slot m c).2 = ac_time c.
Proof. unfold a_serve, a_set. by repeat case_match. Qed.

Lemma tracks_serve id o s c m s' :
  clock_rep s c -> tracks id o s c -> slot_renewed m s s' ->
  tracks id (if cancels id m then None else o) s' (a_serve (caller_ep s) m c).2.
Proof.
  intros Hrep Htr Hren. destruct (tracks_used _ _ _ _ Hrep Htr) as [Hin Hne].
  assert (id ∈ slots (kernel s') /\ id <> caller_ep s') as [Hin' Hne'].
  { unfold slot_renewed in Hren. destruct (is_set m).
    - destruct Hren as [Hn ->]. cbn. set_solver.
    - destruct Hren as [-> ->]. done. }
  unfold a_serve, cancels. destruct (Z.eqb_spec (u32 (getMR 0 m)) SYSCLOCK_OP_CANCEL_TIMEOUT); cbn.
  - destruct (Z.eqb_spec (u32 (getMR 1 m)) id) as [->|Hid].
    + cbn. split_and!; [|done..]. intros (t & Heq & [Hx _]%list_elem_of_filter)%list_elem_of_fmap.
      by rewrite Heq in Hx.
    + destruct o as [t|]; cbn in *.
      * destruct Htr as [Ht <-]. split; [|done]. apply list_elem_of_filter. split; [congruence|done].
      * split_and!; try done. intros (t & Heq & [_ Hx]%list_elem_of_filter)%list_elem_of_fmap.
        destruct Htr as [Htr _]. apply Htr. rewrite Heq. by apply list_elem_of_fmap_2.
  - destruct (u32 (getMR 0 m) =? SYSCLOCK_OP_SET_TIMEOUT); cbn; [|by destruct o; cbn in *; tauto].
    unfold a_set. destruct (_ <? _)%nat; cbn; [|by destruct o; cbn in *; tauto].
    destruct o as [t|]; cbn in *; [set_solver|]. rewrite fmap_app. set_solver.
Qed.

Lemma wp_label id o s c l :
  clock_rep s c -> tracks id o s c -> label_ok l = true ->
  (label_slots l <= room (cspace_of (kernel s)))%nat ->
  let '(sent, o', now') := watch_step id o (ac_time c) l in
  wp (clock_run_label l) (fun _ s' => exists c' evs,
      clock_rep s' c' /\ tracks id o' s' c' /\ ac_time c' = now' /\
      events s' = events s ++ evs /\ sends_to id evs = sent /\
      (room (cspace_of (kernel s')) + label_slots l = room (cspace_of (kernel s)))%nat) s.
Proof.
  intros Hrep Htr Hok Hroom. destruct l as [m| |]; cbn in *.
  - eapply wp_mono; [by apply wp_server_step|].
    intros [] s' (Hr' & He & Hren). exists (a_serve (caller_ep s) m c).2, [Ev_reply (a_serve (caller_ep s) m c).1].
    rewrite a_serve_time.
    split_and!; [done|by eapply tracks_serve|done|exact He|done|].
    unfold slot_renewed in Hren. unfold slots_needed in *. destruct (is_set m).
    + destruct Hren as [_ ->]. cbn. lia.
    + destruct Hren as [_ ->]. lia.
  - eapply wp_timer_advance; [done|]. intros s' Hr' He Hep Hcs.
    exists (a_advance c), []. rewrite He, Hcs, app_nil_r, Nat.add_0_r. split_and!; try done.
    destruct o; cbn in *; [done|]. by rewrite Hcs, Hep.
  - eapply wp_mono; [by apply wp_timer_scan|]. intros [] s' (Hr' & He & Hep & Hcs).
    exists (a_scan c), (fired (ac_time c) (ac_timers c)). rewrite Hcs, Nat.add_0_r.
    pose proof (clock_rep_nodup _ _ Hrep) as Hnd.
    destruct (tracks_used _ _ _ _ Hrep Htr) as [Hin Hne].
    split_and!; try done.
    + unfold scan_tracked. destruct o as [t|]; cbn in *.
      * destruct Htr as [Ht Hid]. pose proof (scan_tracks id (ac_time c) _ t Hnd Ht Hid) as Hs.
        destruct (head _); [exact Hs|]. cbn. by rewrite Hep, Hcs.
      * rewrite Hep, Hcs. split; [|done]. intros Hx%scan_one_aeps. by apply (proj1 Htr).
    + destruct o as [t|]; cbn in *; [destruct Htr; by apply sends_to_fired|].
      by apply sends_to_fired_none, (proj1 Htr).
Qed.

Lemma wp_clock_run id ls o s c :
  clock_rep s c -> tracks id o s c -> Forall (fun l => label_ok l = true) ls ->
  (run_slots ls <= room (cspace_of (kernel s)))%nat ->
  wp (clock_run ls) (fun _ s' => exists c' evs, clock_rep s' c' /\
      events s' = events s ++ evs /\ sends_to id evs = watch id o (ac_time c) ls) s.
Proof.
  revert o s c. induction ls as [|l ls IH]; intros o s c Hrep Htr Hok Hroom.
  - apply wp_ret. exists c, []. by rewrite app_nil_r.
  - apply Forall_cons in Hok as [Hl Hok]. cbn in Hroom. rewrite watch_unfold.
    cbn [clock_run]. wp_step. pose proof (wp_label id o s c l Hrep Htr Hl) as Hw.
    destruct (watch_step id o (ac_time c) l) as [[sent o'] now'].
    eapply wp_mono; [apply Hw; lia|]. intros [] s' (c' & evs & Hr' & Ht' & <- & He & Hs & Hrm).
    eapply wp_mono; [apply (IH o' s' c' Hr' Ht' Hok)|].
    { unfold run_slots in *. cbn in *. lia. }
    intros [] s'' (c'' & evs' & Hr'' & He' & Hs'). exists c'', (evs ++ evs').
    rewrite He', He, app_assoc, sends_to_app, Hs, Hs'. done.
Qed.

(** A one-shot timeout that is not cancelled, on a clock that does not wrap. *)
Lemma watch_oneshot id t now ls :
  periodic t = 0 -> Forall (fun l => match l with L_request m => cancels id m = false | _ => True end) ls ->
  0 <= now -> 0 <= SEL4OSAPI_SYSCLOCK_PERIOD_MS ->
  now + SEL4OSAPI_SYSCLOCK_PERIOD_MS * Z.of_nat (advances ls) < 2 ^ 32 ->
  watch id (Some t) now ls = option_list (first_due (next_event t) now ls).
Proof.
  intros Hp Hc. revert now. induction Hc as [|l ls Hl Hc IH]; intros now Hnow Hper Hw; [done|].
  destruct l as [m| |]; cbn [watch first_due advances] in *.
  - rewrite Hl. by apply IH.
  - rewrite u32_small by (unfold is_u32; nia). apply IH; try done; nia.
  - unfold due. destruct (next_event t <=? now); [|by apply IH].
    rewrite Hp. cbn. f_equal. clear. revert now.
    induction ls as [|[m| |] ls IH]; intros now; cbn; try done. by destruct (cancels id m).
Qed.

Lemma watch_none id now ls : watch id None now ls = [].
Proof.
  revert now. induction ls as [|[m| |] ls IH]; intros now; cbn; try done. by destruct (cancels id m).
Qed.
End sysclock_spec.

(** ** Properties *)

Section properties.
Context {CFG : Config} {K : Type} {KER : Kernel K} {KOK : KernelOk K}.
Implicit Types (s : clock_state K) (c : aclock).

Lemma clock_rep_set_time s c t :
  clock_rep s c -> is_u32 t -> clock_rep (set_time t s) (AClock t (ac_timers c)).
Proof.
  intros [(a & R & Hsz & Hv & _ & _ & Hl) Hc] Ht. split; [|exact Hc].
  exists a. unfold sched_rep. cbn. by split_and!.
Qed.

Lemma wp_boot uninit h k :
  heap_wf h -> pool_bytes SEL4OSAPI_SYSCLOCK_MAX_ENTRIES sizeof_timeout_entry <= avail h ->
  (0 < room (cspace_of k))%nat ->
  exists s, sysclock_boot uninit h k = Done s /\ clock_rep s (AClock 0 []) /\ events s = [] /\
    caller_ep s ∉ slots k /\
    cspace_of (kernel s) = CSpace ({[caller_ep s]} ∪ slots k) (pred (room (cspace_of k))).
Proof.
  intros Hwf Hmem Hroom.
  destruct (wp_pool_new (init:=tinit) (cmp:=tcmp) SEL4OSAPI_SYSCLOCK_MAX_ENTRIES
              sizeof_timeout_entry NULL uninit h Hwf) as (p & h' & Hr & fr & Hl & Hwf' & R & _);
    [done|done|done|].
  destruct (cspace_alloc_ok k Hroom) as (ep & k' & Hal & Hn & He & Hc).
  unfold sysclock_boot. rewrite Hr, Hal. cbn. eexists. split; [reflexivity|]. cbn.
  split_and!; try done. unfold clock_rep, sched_rep. cbn. rewrite Hc. cbn.
  split_and!; [|unfold seL4_CapNull; lia|unfold is_u32; lia|set_solver|set_solver].
  exists (APool fr [] (cells h')). split_and!; [done| |constructor|done|done|].
  - pose proof (rep_size _ _ R) as Hs. cbn in Hs. rewrite Hs, Hl, Nat.add_0_r.
    unfold SEL4OSAPI_SYSCLOCK_MAX_ENTRIES. lia.
  - by split; [apply NoDup_nil_2|].
Qed.

(** C12: Refinement.  On a request that passes its checks the server reaches
    its reply, and both the reply and the schedule it leaves are those of the
    abstract clock: SET_TIMEOUT appends a timeout with deadline now + ms and
    answers its id, or answers an error when 100 are scheduled; CANCEL_TIMEOUT
    removes the timeout with the given id; GET_TIME answers the time. *)
Theorem clock_server_refines m s c :
  clock_rep s c -> request_ok m = true -> (slots_needed m <= room (cspace_of (kernel s)))%nat ->
  exists s', sysclock_server_step m s = Done (tt, s') /\
    events s' = events s ++ [Ev_reply (a_serve (caller_ep s) m c).1] /\
    clock_rep s' (a_serve (caller_ep s) m c).2.
Proof.
  intros H1 H2 H3. destruct (wp_server_step m s c H1 H2 H3) as ([] & s' & Hr & Hrep & He & _).
  by exists s'.
Qed.

(** The server refuses a malformed request by failing an assertion: with
    an unknown opcode, or the wrong number of message registers or
    capabilities, a client stops the clock server of the whole system. *)
Theorem clock_malformed_asserts m s :
  request_ok m = false -> sysclock_server_step m s = Assert_failed.
Proof.
  unfold request_ok, sysclock_server_step, assert_, bind. intros H.
  destruct (1 <=? msg_length m); [|done]. cbn in H |- *.
  destruct (u32 (getMR 0 m) =? SYSCLOCK_OP_CANCEL_TIMEOUT); cbn in H |- *.
  - unfold server_cancel_timeout, bind, assert_.
    destruct (msg_length m =? 2); [|done]. done.
  - destruct (u32 (getMR 0 m) =? SYSCLOCK_OP_SET_TIMEOUT); cbn in H |- *; [|by rewrite H].
    unfold server_set_timeout, bind, assert_.
    destruct (msg_extraCaps m =? 1); [|done]. destruct (msg_length m =? 3); done.
Qed.

(** C14: A scan signals exactly the timeouts whose deadline has been reached,
    once each and in schedule order, frees the one-shot ones, moves the
    deadline of the periodic ones to now + period, and keeps the others. *)
Theorem timer_scan_fires_due s c :
  clock_rep s c ->
  exists s', timer_scan s = Done (tt, s') /\
    events s' = events s ++
      ((fun t => Ev_send (aep t) (ac_time c)) <$>
         filter (fun t => next_event t <= ac_time c) (ac_timers c)) /\
    clock_rep s' (a_scan c).
Proof.
  intros H. destruct (wp_timer_scan s c H) as ([] & s' & Hr & Hrep & He & _).
  exists s'. split_and!; [done| |done]. rewrite He. f_equal. unfold fired. f_equal.
  apply list_filter_iff. intros t. apply Z.leb_le.
Qed.

(** Every interleaving of the server's requests with the timer's advances
    and scans runs to its end, and the signals sent on a timeout's capability
    are those of that timeout alone, whatever the other clients do. *)
Theorem clock_timeouts_independent s c t ls :
  clock_rep s c -> t ∈ ac_timers c -> Forall (fun l => label_ok l = true) ls ->
  (run_slots ls <= room (cspace_of (kernel s)))%nat ->
  exists s' c' evs, clock_run ls s = Done (tt, s') /\ clock_rep s' c' /\
    events s' = events s ++ evs /\ sends_to (aep t) evs = watch (aep t) (Some t) (ac_time c) ls.
Proof.
  intros H1 H2 H3 H4. destruct (wp_clock_run (aep t) ls (Some t) s c H1) as ([] & s' & Hr & c' & evs & H); try done.
  by exists s', c', evs.
Qed.

(** C15: A one-shot timeout that nobody cancels fires exactly once, at the
    first scan at or after its deadline, with the time as message; before
    such a scan not at all.  (The clock must not wrap meanwhile.) *)
Theorem oneshot_fires_once s c t ls :
  clock_rep s c -> t ∈ ac_timers c -> periodic t = 0 ->
  Forall (fun l => label_ok l = true) ls ->
  Forall (fun l => match l with L_request m => cancels (aep t) m = false | _ => True end) ls ->
  (run_slots ls <= room (cspace_of (kernel s)))%nat ->
  0 <= SEL4OSAPI_SYSCLOCK_PERIOD_MS ->
  ac_time c + SEL4OSAPI_SYSCLOCK_PERIOD_MS * Z.of_nat (advances ls) < 2 ^ 32 ->
  exists s' evs, clock_run ls s = Done (tt, s') /\ events s' = events s ++ evs /\
    sends_to (aep t) evs = option_list (first_due (next_event t) (ac_time c) ls).
Proof.
  intros H1 H2 Hp H3 Hc H4 Hper Hw.
  destruct (wp_clock_run (aep t) ls (Some t) s c H1) as ([] & s' & Hr & c' & evs & _ & He & Hs); try done.
  exists s', evs. rewrite Hs. split_and!; try done. apply watch_oneshot; try done.
  destruct H1 as [(a & _ & _ & _ & _ & [? _] & _) _]. done.
Qed.

(** After a timeout has been cancelled, no signal is ever sent on its
    capability again, whatever is scheduled later: ids are not reused. *)
Theorem cancelled_never_fires s c t m ls :
  clock_rep s c -> t ∈ ac_timers c -> request_ok m = true -> cancels (aep t) m = true ->
  Forall (fun l => label_ok l = true) ls ->
  (run_slots ls <= room (cspace_of (kernel s)))%nat ->
  exists s' evs, clock_run (L_request m :: ls) s = Done (tt, s') /\
    events s' = events s ++ evs /\ sends_to (aep t) evs = [].
Proof.
  intros H1 H2 Hm Hc H3 H4.
  assert (Hn : slots_needed m = 0%nat).
  { unfold cancels in Hc. apply andb_prop in Hc as [Hop _]. apply Z.eqb_eq in Hop.
    unfold slots_needed, is_set. by rewrite Hop. }
  destruct (wp_clock_run (aep t) (L_request m :: ls) (Some t) s c H1)
    as ([] & s' & Hr & c' & evs & _ & He & Hs); try done.
  - by constructor.
  - unfold run_slots in *. cbn. by rewrite Hn.
  - exists s', evs. rewrite Hs. cbn. by rewrite Hc, watch_none.
Qed.

(** C17: A deadline past 2^32 ms wraps to a time that is already past: such a
    timeout, however long, fires on the very next scan. *)
Theorem wrapped_deadline_fires_at_once m s c :
  clock_rep s c -> request_ok m = true -> u32 (getMR 0 m) = SYSCLOCK_OP_SET_TIMEOUT ->
  (1 <= room (cspace_of (kernel s)))%nat -> Z.of_nat (length (ac_timers c)) < 100 ->
  2 ^ 32 <= ac_time c + u32 (getMR 2 m) ->
  exists s' evs, clock_run [L_request m; L_scan] s = Done (tt, s') /\
    events s' = events s ++ Ev_reply [0; caller_ep s; ac_time c] :: evs /\
    Ev_send (caller_ep s) (ac_time c) ∈ evs.
Proof.
  intros H1 Hok Hop Hroom Hlen Hwrap.
  assert (Hs : is_set m = true) by (unfold is_set; by rewrite Hop).
  destruct (wp_server_step m s c H1 Hok) as ([] & s1 & Hr1 & Hrep1 & He1 & _).
  { unfold slots_needed. by rewrite Hs. }
  destruct (wp_timer_scan s1 _ Hrep1) as ([] & s2 & Hr2 & _ & He2 & _).
  exists s2. eexists. cbn [clock_run clock_run_label].
  rewrite (bind_done _ _ _ _ _ Hr1), (bind_done _ _ _ _ _ Hr2).
  rewrite a_serve_time in He2.
  assert (a_serve (caller_ep s) m c = a_set (badge m) (caller_ep s) (u32 (getMR 1 m)) (u32 (getMR 2 m)) c) as Hse.
  { unfold a_serve. by rewrite Hop. }
  rewrite Hse in He1, He2. unfold a_set in He1, He2.
  destruct (Nat.ltb_spec (length (ac_timers c)) (Z.to_nat SEL4OSAPI_SYSCLOCK_MAX_ENTRIES));
    [|unfold SEL4OSAPI_SYSCLOCK_MAX_ENTRIES in *; lia].
  cbn [fst snd ac_time ac_timers] in He1, He2. rewrite He2, He1, <- app_assoc.
  split_and!; [done|done|].
  rewrite fired_app, fired_one. apply elem_of_app. right.
  unfold due. cbn [next_event aep].
  destruct H1 as [(a & _ & _ & _ & _ & [? ?] & _) _].
  pose proof (u32_range (getMR 2 m)) as Hu. unfold is_u32 in Hu.
  replace (u32 (ac_time c + u32 (getMR 2 m))) with (ac_time c + u32 (getMR 2 m) - 2 ^ 32).
  - destruct (Z.leb_spec (ac_time c + u32 (getMR 2 m) - 2 ^ 32) (ac_time c)); [set_solver|lia].
  - unfold u32 at 2. symmetry. rewrite <- (Z.mod_add _ (-1)) by lia. apply Z.mod_small. lia.
Qed.

(** *** What clients get *)

Lemma wp_call_server_slots m s c :
  clock_rep s c -> request_ok m = true -> (slots_needed m <= room (cspace_of (kernel s)))%nat ->
  wp (call_server m) (fun r s' => r = (a_serve (caller_ep s) m c).1 /\
    clock_rep s' (a_serve (caller_ep s) m c).2 /\ slot_renewed m s s') s.
Proof.
  intros H1 H2 H3. unfold call_server. wp_steps. eapply wp_mono; [by apply wp_server_step|].
  intros [] s' (Hrep & He & Hren). wp_steps. rewrite He, drop_app_length. by wp_step.
Qed.

Lemma wp_call_server m s c :
  clock_rep s c -> request_ok m = true -> (slots_needed m <= room (cspace_of (kernel s)))%nat ->
  wp (call_server m) (fun r s' => r = (a_serve (caller_ep s) m c).1 /\
                                  clock_rep s' (a_serve (caller_ep s) m c).2) s.
Proof. intros H1 H2 H3. eapply wp_mono; [by apply wp_call_server_slots|]. by intros r s' (-> & ? & _). Qed.

(** Scheduling through the client API: the caller gets the nonzero id of a
    timeout due at now + ms, or 0 when 100 timeouts are scheduled, in which
    case the schedule is unchanged. *)
Theorem schedule_timeout_result bdg per ms s c :
  clock_rep s c -> is_u32 per -> is_u32 ms -> (1 <= room (cspace_of (kernel s)))%nat ->
  exists id s', sel4osapi_sysclock_schedule_timeout call_server bdg per ms s = Done (id, s') /\
    if bool_decide (length (ac_timers c) < 100)%nat then
      id <> 0 /\ id ∉ aep <$> ac_timers c /\
      clock_rep s' (AClock (ac_time c) (ac_timers c ++
        [TimeoutEntry bdg id per ms (u32 (ac_time c + ms))]))
    else id = 0 /\ clock_rep s' c.
Proof.
  intros H1 Hper Hms Hroom. unfold sel4osapi_sysclock_schedule_timeout.
  set (m := Msg bdg 1 [SYSCLOCK_OP_SET_TIMEOUT; per; ms]).
  destruct (wp_call_server m s c H1) as (r & s' & Hr & -> & Hrep); [done|done|].
  exists (if negb (nth 0 (a_serve (caller_ep s) m c).1 0 =? 0) then 0
          else nth 1 (a_serve (caller_ep s) m c).1 0), s'.
  rewrite (bind_done _ _ _ _ _ Hr). split; [done|].
  assert (Hse : a_serve (caller_ep s) m c = a_set bdg (caller_ep s) per ms c).
  { unfold a_serve. cbn. by rewrite !u32_small. }
  rewrite Hse in Hrep |- *. unfold a_set in Hrep |- *.
  destruct H1 as [_ (He & _ & _ & Hn)].
  change (Z.to_nat SEL4OSAPI_SYSCLOCK_MAX_ENTRIES) with 100%nat in *.
  case_bool_decide as Hlt; destruct (Nat.ltb_spec (length (ac_timers c)) 100); try lia; done.
Qed.

(** C16: Cancelling through the client API takes the timeout out of the
    schedule, but always returns 1: the caller is told of a failure whether or
    not there was such a timeout. *)
Theorem cancel_timeout_result bdg id s c :
  clock_rep s c -> is_u32 id ->
  exists s', sel4osapi_sysclock_cancel_timeout call_server bdg id s = Done (1, s') /\
    clock_rep s' (AClock (ac_time c) (filter (fun t => aep t <> id) (ac_timers c))).
Proof.
  intros H1 Hid. unfold sel4osapi_sysclock_cancel_timeout.
  set (m := Msg bdg 0 [SYSCLOCK_OP_CANCEL_TIMEOUT; id]).
  destruct (wp_call_server m s c H1) as (r & s' & Hr & -> & Hrep); [done|apply Nat.le_0_l|].
  exists s'. rewrite (bind_done _ _ _ _ _ Hr). unfold a_serve, m in Hrep |- *. cbn in Hrep |- *.
  rewrite (u32_small id) in Hrep by done. split; [done|exact Hrep].
Qed.

(** *** Reachable states *)

Inductive clock_reachable : clock_state K -> Prop :=
| clock_reach_boot uninit h k s :
    heap_wf h -> pool_bytes SEL4OSAPI_SYSCLOCK_MAX_ENTRIES sizeof_timeout_entry <= avail h ->
    (0 < room (cspace_of k))%nat -> sysclock_boot uninit h k = Done s -> clock_reachable s
| clock_reach_step s l s' :
    clock_reachable s -> label_ok l = true ->
    (label_slots l <= room (cspace_of (kernel s)))%nat ->
    clock_run_label l s = Done (tt, s') -> clock_reachable s'.

Lemma wp_any_label s c l :
  clock_rep s c -> label_ok l = true -> (label_slots l <= room (cspace_of (kernel s)))%nat ->
  wp (clock_run_label l) (fun _ s' => exists c', clock_rep s' c') s.
Proof.
  intros Hrep Hok Hroom. destruct l as [m| |]; cbn.
  - eapply wp_mono; [by apply wp_server_step|]. intros [] s' [H _]. by eexists.
  - eapply wp_timer_advance; [done|]. intros s' H _ _ _. by eexists.
  - eapply wp_mono; [by apply wp_timer_scan|]. intros [] s' [H _]. by eexists.
Qed.

(** C11: Safety of the clock.  In every state reachable from start-up by
    well-formed requests, advances and scans, the pool is well formed with at
    most 100 timeouts on distinct live capabilities, and no step out of that
    state fails an assertion, touches memory that is not there, or loops. *)
Theorem clock_reachable_safe s :
  clock_reachable s ->
  (exists c, clock_rep s c /\ (length (ac_timers c) <= 100)%nat /\ NoDup (aep <$> ac_timers c)) /\
  forall l, label_ok l = true -> (label_slots l <= room (cspace_of (kernel s)))%nat ->
    exists s', clock_run_label l s = Done (tt, s').
Proof.
  intros Hr. assert (exists c, clock_rep s c) as [c Hc].
  { induction Hr as [uninit h k s Hwf Hmem Hroom Hb|s l s' _ [c Hc] Hok Hroom Hl].
    - destruct (wp_boot uninit h k Hwf Hmem Hroom) as (s1 & Hb1 & Hc & _).
      rewrite Hb in Hb1. injection Hb1 as <-. by eexists.
    - apply (wp_done _ _ _ _ _ (wp_any_label s c l Hc Hok Hroom) Hl). }
  split.
  - exists c. split_and!; [done| |by eapply clock_rep_nodup].
    destruct Hc as [(a & Ha) _]. apply sched_rep_length in Ha.
    unfold SEL4OSAPI_SYSCLOCK_MAX_ENTRIES in Ha. lia.
  - intros l Hok Hroom. destruct (wp_any_label s c l Hc Hok Hroom) as ([] & s' & H & _). by exists s'.
Qed.
End properties.

(** *** A concrete clock: default configuration, demo kernel, one timeout *)

Section samples.
#[local] Existing Instance default_config.

Definition sample_arena : heap timeout_entry := Heap 1 65536 ∅ ∅ ∅.
Definition sample_kernel : demo_kernel := DemoKernel 0 ∅.
Definition sample_uninit : timeout_entry := TimeoutEntry 0 0 0 0 0.
Definition sample_booted : clock_state demo_kernel :=
  match sysclock_boot sample_uninit sample_arena sample_kernel with
  | Done s => s
  | _ => ClockState 0 (PoolState (Pool NULL NULL 0 0 0 None NULL None) sample_arena) 0 sample_kernel []
  end.

(** A one-shot timeout of 10 ms requested by the client with badge 7. *)
Definition sample_set : message := Msg 7 1 [SYSCLOCK_OP_SET_TIMEOUT; 0; 10].
Definition sample_cancel : message := Msg 7 0 [SYSCLOCK_OP_CANCEL_TIMEOUT; 1].
Definition sample_timeout : timeout_entry := TimeoutEntry 7 1 0 10 10.
Definition sample_clock : aclock := AClock 0 [sample_timeout].
Definition sample_scheduled : clock_state demo_kernel :=
  match sysclock_server_step sample_set sample_booted with
  | Done (_, s) => s
  | _ => sample_booted
  end.
Definition sample_labels : list clock_label := [L_advance; L_scan; L_advance; L_scan; L_advance; L_scan].

Lemma sample_booted_ok :
  sysclock_boot sample_uninit sample_arena sample_kernel = Done sample_booted /\
  clock_rep sample_booted (AClock 0 []) /\ caller_ep sample_booted = 1 /\
  room (cspace_of (kernel sample_booted)) = 63%nat.
Proof.
  assert (He : caller_ep sample_booted = 1) by by vm_compute.
  destruct (wp_boot sample_uninit sample_arena sample_kernel) as (s & Hs & Hrep & _ & _ & Hc);
    [by split; cbn; try (intros l [? Hl])|by vm_compute|apply Nat.ltb_lt; by vm_compute|].
  unfold sample_booted in *. rewrite Hs in He |- *. 
  split; [done|]. split; [done|]. split; [done|]. rewrite Hc. vm_compute. done.
Qed.

Lemma sample_scheduled_ok :
  clock_rep sample_scheduled sample_clock /\ room (cspace_of (kernel sample_scheduled)) = 62%nat.
Proof.
  destruct sample_booted_ok as (_ & Hrep & He & Hroom).
  destruct (wp_server_step sample_set _ _ Hrep) as ([] & s & Hs & Hrep' & _ & Hren);
    [done|rewrite Hroom; apply Nat.ltb_lt; by vm_compute|].
  unfold sample_scheduled. rewrite Hs. rewrite He in Hrep'. split; [exact Hrep'|].
  destruct Hren as [_ ->]. rewrite Hroom. done.
Qed.

Lemma sample_room n : (n <= 62)%nat -> (n <= room (cspace_of (kernel sample_scheduled)))%nat.
Proof. by rewrite (proj2 sample_scheduled_ok). Qed.

Lemma clock_server_refines_witness :
  exists s', sysclock_server_step sample_cancel sample_scheduled = Done (tt, s') /\
    clock_rep s' (AClock 0 []).
Proof.
  destruct (clock_server_refines sample_cancel sample_scheduled sample_clock)
    as (s' & H1 & _ & H2);
    [apply sample_scheduled_ok|done|apply Nat.le_0_l|].
  exists s'. split; [exact H1|exact H2].
Defined.

Lemma clock_malformed_asserts_witness :
  sysclock_server_step (Msg 7 0 [SYSCLOCK_OP_SET_TIMEOUT; 0; 10]) sample_booted = Assert_failed.
Proof. apply (clock_malformed_asserts (Msg 7 0 [SYSCLOCK_OP_SET_TIMEOUT; 0; 10])). reflexivity. Defined.

Lemma timer_scan_fires_due_witness :
  exists s', timer_scan sample_scheduled = Done (tt, s') /\ clock_rep s' sample_clock.
Proof.
  destruct (timer_scan_fires_due sample_scheduled sample_clock) as (s' & H1 & _ & H2);
    [apply sample_scheduled_ok|].
  exists s'. split; [exact H1|exact H2].
Defined.

Lemma clock_timeouts_independent_witness :
  exists s' c' evs, clock_run (sample_labels ++ [L_request sample_set; L_scan]) sample_scheduled = Done (tt, s') /\
    clock_rep s' c' /\ sends_to 1 evs = [10] /\ events s' = events sample_scheduled ++ evs.
Proof.
  destruct (clock_timeouts_independent sample_scheduled sample_clock sample_timeout
              (sample_labels ++ [L_request sample_set; L_scan]))
    as (s' & c' & evs & H1 & H2 & H3 & H4);
    [apply sample_scheduled_ok|by apply list_elem_of_here|solve_Forall|
     apply sample_room, Nat.leb_le; by vm_compute|].
  exists s', c', evs. split_and!; [exact H1|exact H2|exact H4|exact H3].
Defined.

Lemma oneshot_fires_once_witness :
  exists s' evs, clock_run sample_labels sample_scheduled = Done (tt, s') /\
    sends_to 1 evs = [10] /\ events s' = events sample_scheduled ++ evs.
Proof.
  destruct (oneshot_fires_once sample_scheduled sample_clock sample_timeout sample_labels)
    as (s' & evs & H1 & H2 & H3);
    [apply sample_scheduled_ok|by apply list_elem_of_here|done|solve_Forall|
     solve_Forall|apply sample_room, Nat.leb_le; by vm_compute|done|by vm_compute|].
  exists s', evs. split_and!; [exact H1|exact H3|exact H2].
Defined.

Lemma cancelled_never_fires_witness :
  exists s' evs, clock_run (L_request sample_cancel :: sample_labels) sample_scheduled = Done (tt, s') /\
    sends_to 1 evs = [] /\ events s' = events sample_scheduled ++ evs.
Proof.
  destruct (cancelled_never_fires sample_scheduled sample_clock sample_timeout sample_cancel sample_labels)
    as (s' & evs & H1 & H2 & H3);
    [apply sample_scheduled_ok|by apply list_elem_of_here|done|done|solve_Forall|
     apply sample_room, Nat.leb_le; by vm_compute|].
  exists s', evs. split_and!; [exact H1|exact H3|exact H2].
Defined.

Lemma schedule_timeout_result_witness :
  exists id s', sel4osapi_sysclock_schedule_timeout call_server 7 0 20 sample_scheduled = Done (id, s') /\
    id <> 0.
Proof.
  destruct (schedule_timeout_result 7 0 20 sample_scheduled sample_clock)
    as (id & s' & H1 & H2);
    [apply sample_scheduled_ok|done|done|apply sample_room; lia|].
  rewrite bool_decide_true in H2 by (cbn; lia).
  exists id, s'. split; [exact H1|exact (proj1 H2)].
Defined.

Lemma cancel_timeout_result_witness :
  exists s', sel4osapi_sysclock_cancel_timeout call_server 7 1 sample_scheduled = Done (1, s') /\
    clock_rep s' (AClock 0 []).
Proof.
  destruct (cancel_timeout_result 7 1 sample_scheduled sample_clock) as (s' & H1 & H2);
    [apply sample_scheduled_ok|done|].
  exists s'. split; [exact H1|exact H2].
Defined.

Lemma clock_reachable_safe_witness :
  exists c, clock_rep sample_booted c /\ (length (ac_timers c) <= 100)%nat.
Proof.
  destruct (clock_reachable_safe sample_booted) as [(c & H1 & H2 & _) _].
  { eapply (clock_reach_boot sample_uninit sample_arena sample_kernel);
      [by split; cbn; try (intros l [? Hl])|by vm_compute|apply Nat.ltb_lt; by vm_compute|
       apply sample_booted_ok]. }
  exists c. split; [exact H1|exact H2].
Defined.

(** The clock 5 ms before it wraps. *)
Definition sample_late : clock_state demo_kernel := set_time (2 ^ 32 - 5) sample_booted.

Lemma sample_late_ok : clock_rep sample_late (AClock (2 ^ 32 - 5) []).
Proof.
  destruct sample_booted_ok as (_ & Hrep & _). apply (clock_rep_set_time _ _ (2 ^ 32 - 5) Hrep).
  unfold is_u32. lia.
Qed.

Lemma sample_late_kernel : kernel sample_late = kernel sample_booted.
Proof. unfold sample_late. by destruct sample_booted. Qed.

Lemma sample_late_ep : caller_ep sample_late = 1.
Proof.
  destruct sample_booted_ok as (_ & _ & <- & _). unfold sample_late. by destruct sample_booted.
Qed.

Lemma wrapped_deadline_fires_at_once_witness :
  exists s' evs, clock_run [L_request sample_set; L_scan] sample_late = Done (tt, s') /\
    Ev_send 1 (2 ^ 32 - 5) ∈ evs /\ events s' = events sample_late ++ Ev_reply [0; 1; 2 ^ 32 - 5] :: evs.
Proof.
  destruct sample_booted_ok as (_ & _ & _ & Hroom).
  destruct (wrapped_deadline_fires_at_once sample_set sample_late _ sample_late_ok)
    as (s' & evs & H1 & H2 & H3);
    [done|done|rewrite sample_late_kernel, Hroom; apply Nat.leb_le; by vm_compute
    |done|by vm_compute|].
  rewrite sample_late_ep in H2, H3.
  exists s', evs. split_and!; [exact H1|exact H3|exact H2].
Defined.
End samples.
