(* ===== verification/ClockTypes.v ===== *)
(** * ClockTypes: the numbers of the clock stay 32-bit words

    The fields of [struct timeout_entry], the time and the message registers
    of src/clock.c are 32-bit words, here unbounded integers.  Whatever the
    clients send, the clock keeps them in range, and the registers of each
    reply are those that the client calls of clock.c read. *)

From S2P Require Import Prelude Config Memory LinkedList Pool Kernel Clock Sysclock.

Record timeout_typed (t : timeout_entry) : Prop := {
  tt_caller : is_u32 (caller t);
  tt_aep : is_u32 (aep t);
  tt_periodic : is_u32 (periodic t);
  tt_period : is_u32 (period t);
  tt_next_event : is_u32 (next_event t)
}.

(** The reply to a request: one register, or error, timeout and time; the
    timeout is the null capability exactly when there is an error. *)
Definition reply_typed (m : message) (r : list Z) : Prop :=
  Forall is_u32 r /\
  if is_set m then length r = 3%nat /\ (nth 0 r 0 = 0 <-> nth 1 r 0 <> seL4_CapNull)
  else length r = 1%nat.

Definition signal_typed (e : event) : Prop :=
  match e with Ev_send ep now => is_u32 ep /\ ep <> seL4_CapNull /\ is_u32 now | Ev_reply _ => True end.

Definition requests (ls : list clock_label) : list message :=
  omap (fun l => match l with L_request m => Some m | _ => None end) ls.
Definition replies (evs : list event) : list (list Z) :=
  omap (fun e => match e with Ev_reply r => Some r | Ev_send _ _ => None end) evs.

(** The badge of a message is a word of the kernel's. *)
Definition badges_typed (ls : list clock_label) : Prop := Forall (fun m => is_u32 (badge m)) (requests ls).

(** Lists of words, one at a time. *)
Ltac typed_words := repeat first [apply Forall_nil_2 | apply Forall_cons_2]; try apply u32_range; try done.

Section clock_types.
Context {CFG : Config} {K : Type} {KER : Kernel K} {KOK : KernelOk K}.
Implicit Types (s : clock_state K) (c : aclock).

Definition evs_typed (ls : list clock_label) (evs : list event) : Prop :=
  Forall2 reply_typed (requests ls) (replies evs) /\ Forall signal_typed evs.

Lemma evs_typed_app ls1 ls2 evs1 evs2 : evs_typed ls1 evs1 -> evs_typed ls2 evs2 -> evs_typed (ls1 ++ ls2) (evs1 ++ evs2).
Proof.
  intros [H1 H2] [H3 H4]. unfold evs_typed, requests, replies. rewrite !omap_app.
  split; [by apply Forall2_app|by apply Forall_app].
Qed.

Lemma replies_fired now ts : replies (fired now ts) = [].
Proof. unfold fired. induction ts as [|t ts IH]; [done|]. rewrite filter_cons. by case_decide. Qed.

Lemma rep_aeps s c : clock_rep s c -> Forall (fun t => aep t <> seL4_CapNull /\ is_u32 (aep t)) (ac_timers c).
Proof. intros [(a & _ & _ & _ & _ & _ & [_ H]) _]. eapply Forall_impl; [exact H|]. cbn. tauto. Qed.

Lemma scan_one_typed now t : timeout_typed t -> Forall timeout_typed (scan_one now t).
Proof.
  intros [H1 H2 H3 H4 H5]. unfold scan_one. repeat case_match; typed_words. split; cbn; [done..|apply u32_range].
Qed.

Lemma fired_typed now ts : is_u32 now -> Forall (fun t => aep t <> seL4_CapNull /\ is_u32 (aep t)) ts ->
  Forall signal_typed (fired now ts).
Proof.
  intros Hn H. unfold fired. apply Forall_fmap, Forall_forall. intros t [_ Ht]%list_elem_of_filter.
  rewrite Forall_forall in H. cbn. by destruct (H t Ht).
Qed.

Lemma serve_typed s c m : clock_rep s c -> Forall timeout_typed (ac_timers c) -> is_u32 (badge m) ->
  reply_typed m (a_serve (caller_ep s) m c).1 /\ Forall timeout_typed (ac_timers (a_serve (caller_ep s) m c).2).
Proof.
  intros (( a & _ & _ & _ & _ & Htime & _) & Hne & Hep & _) Ht Hb.
  unfold reply_typed, a_serve, is_set. destruct (Z.eqb_spec (u32 (getMR 0 m)) SYSCLOCK_OP_CANCEL_TIMEOUT) as [->|Hc]; cbn.
  - split; [split; [by typed_words|done]|]. rewrite Forall_forall in Ht |- *. intros t [_ Hin]%list_elem_of_filter. by apply Ht.
  - destruct (u32 (getMR 0 m) =? SYSCLOCK_OP_SET_TIMEOUT); cbn; [|split; [split; [by typed_words|done]|done]].
    unfold a_set. destruct (_ <? _)%nat; cbn.
    + split; [split; [by typed_words|done]|]. apply Forall_app_2; [done|]. typed_words. split; cbn; [done..|apply u32_range|apply u32_range|apply u32_range].
    + split; [split; [by typed_words|done]|done].
Qed.

Lemma wp_typed_label s c l : clock_rep s c -> Forall timeout_typed (ac_timers c) -> label_ok l = true -> badges_typed [l] ->
  (label_slots l <= room (cspace_of (kernel s)))%nat ->
  wp (clock_run_label l) (fun _ s' => exists c' evs, clock_rep s' c' /\ Forall timeout_typed (ac_timers c') /\
    events s' = events s ++ evs /\ evs_typed [l] evs /\
    (room (cspace_of (kernel s')) + label_slots l = room (cspace_of (kernel s)))%nat) s.
Proof.
  intros Hrep Ht Hok Hb Hroom. destruct l as [m| |]; cbn in *.
  - apply Forall_inv in Hb. destruct (serve_typed s c m Hrep Ht Hb) as [Hr Ht'].
    eapply wp_mono; [by apply wp_server_step|]. intros [] s' (Hr' & He & Hren).
    eexists _, [_]. split; [exact Hr'|]. split; [done|]. split; [exact He|].
    split; [split; [apply Forall2_cons; by split|by typed_words]|]. unfold slot_renewed in Hren. unfold slots_needed in *. destruct (is_set m).
    + destruct Hren as [_ ->]. cbn. lia.
    + destruct Hren as [_ ->]. lia.
  - eapply wp_timer_advance; [done|]. intros s' Hr' He _ Hcs. exists (a_advance c), [].
    rewrite He, Hcs, app_nil_r. split_and!; [done..|by split; constructor|lia].
  - eapply wp_mono; [by apply wp_timer_scan|]. intros [] s' (Hr' & He & _ & Hcs).
    exists (a_scan c), (fired (ac_time c) (ac_timers c)). rewrite Hcs. split_and!; [done| |done| |lia].
    + cbn. apply Forall_bind. eapply Forall_impl; [exact Ht|]. intros t. apply scan_one_typed.
    + split; [rewrite replies_fired; constructor|]. apply fired_typed; [|by eapply rep_aeps].
      by destruct Hrep as [(a & _ & _ & _ & _ & Htime & _) _].
Qed.

Lemma wp_typed_run ls s c : clock_rep s c -> Forall timeout_typed (ac_timers c) ->
  Forall (fun l => label_ok l = true) ls -> badges_typed ls -> (run_slots ls <= room (cspace_of (kernel s)))%nat ->
  wp (clock_run ls) (fun _ s' => exists c' evs, clock_rep s' c' /\ Forall timeout_typed (ac_timers c') /\
    events s' = events s ++ evs /\ evs_typed ls evs) s.
Proof.
  revert s c. induction ls as [|l ls IH]; intros s c Hrep Ht Hok Hb Hroom.
  - apply wp_ret. exists c, []. rewrite app_nil_r. split_and!; [done..|by split; constructor].
  - apply Forall_cons in Hok as [Hl Hok]. unfold badges_typed in Hb. change (l :: ls) with ([l] ++ ls) in Hb. unfold requests in Hb.
    rewrite omap_app in Hb. apply Forall_app in Hb as [Hb1 Hb2].
    cbn in Hroom. cbn [clock_run]. wp_step. eapply wp_mono; [apply (wp_typed_label s c l Hrep Ht Hl Hb1); lia|].
    intros [] s1 (c1 & evs1 & Hr1 & Ht1 & He1 & Hy1 & Hrm). eapply wp_mono; [apply (IH s1 c1 Hr1 Ht1 Hok Hb2)|].
    { unfold run_slots in *. cbn in *. lia. }
    intros [] s2 (c2 & evs2 & Hr2 & Ht2 & He2 & Hy2). exists c2, (evs1 ++ evs2).
    split_and!; [done..|by rewrite He2, He1, app_assoc|by apply (evs_typed_app [l])].
Qed.

(** C13: The numbers of the clock have their types.  From start-up on, under
    any sequence of well-formed requests, ticks and scans, the time, the
    server's slot and the fields of every scheduled timeout are 32-bit words;
    each request is answered, in order, with as many words as its client reads,
    and a schedule request with a timeout that is null exactly when the reply
    reports an error; each signal goes to a capability that is not null. *)
Theorem clock_values_typed uninit h k s ls :
  heap_wf h -> pool_bytes SEL4OSAPI_SYSCLOCK_MAX_ENTRIES sizeof_timeout_entry <= avail h -> (0 < room (cspace_of k))%nat ->
  sysclock_boot uninit h k = Done s -> Forall (fun l => label_ok l = true) ls -> badges_typed ls ->
  (run_slots ls <= room (cspace_of (kernel s)))%nat ->
  exists s' c, clock_run ls s = Done (tt, s') /\ clock_rep s' c /\ is_u32 (time s') /\ is_u32 (caller_ep s') /\
    Forall timeout_typed (ac_timers c) /\
    Forall2 reply_typed (requests ls) (replies (events s')) /\ Forall signal_typed (events s').
Proof.
  intros Hwf Hmem Hk Hboot Hok Hb Hroom. destruct (wp_boot uninit h k Hwf Hmem Hk) as (s0 & Hb0 & Hc & He & _).
  rewrite Hboot in Hb0. injection Hb0 as <-.
  destruct (wp_typed_run ls s _ Hc ltac:(constructor) Hok Hb Hroom) as ([] & s' & Hr & c & evs & Hrep & Ht & He' & Hy1 & Hy2).
  rewrite He in He'. cbn in He'. exists s', c. rewrite He'. split_and!; try done.
  - by destruct Hrep as [(a & _ & _ & _ & -> & Htime & _) _].
  - by destruct Hrep as (_ & _ & ? & _).
Qed.
End clock_types.

#[local] Existing Instance default_config.

Lemma clock_values_typed_witness : exists s' c,
  clock_run [L_request sample_set; L_advance; L_scan; L_request sample_cancel] sample_booted = Done (tt, s') /\
  Forall timeout_typed (ac_timers c) /\ Forall2 reply_typed [sample_set; sample_cancel] (replies (events s')).
Proof.
  destruct (clock_values_typed sample_uninit sample_arena sample_kernel sample_booted
    [L_request sample_set; L_advance; L_scan; L_request sample_cancel]) as (s' & c & H1 & _ & _ & _ & H2 & H3 & _).
  - by split; cbn; try (intros l [? Hl]).
  - by vm_compute.
  - apply Nat.ltb_lt. by vm_compute.
  - apply sample_booted_ok.
  - by repeat constructor.
  - by repeat constructor.
  - apply Nat.leb_le. by vm_compute.
  - exists s', c. split; [exact H1|]. split; [exact H2|exact H3].
Defined.
