(* ===== verification/Sleep.v ===== *)
(** * Sleep: a thread that sleeps (src/thread.c, on top of the system clock)

    [sel4osapi_thread_sleep] has the clock server of [Clock] schedule a one-shot
    timeout on the notification of the calling thread and waits on it ([await]).
    While it waits the clock runs: other clients' requests, ticks and scans, in
    any order ([quiet]).  A notification carries no message, so what the thread
    reads from its message register afterwards is a parameter. *)

From S2P Require Import Prelude Config Memory LinkedList Pool Kernel Clock Sysclock.

Section sleep_c.
Context {CFG : Config} {K : Type} {KER : Kernel K}.

(** [wait_aep]: the notification of the calling thread. *)
Definition sel4osapi_thread_sleep {S} (call : message -> M S (list Z)) (wait : Z -> M S unit)
    (GetMR0 : M S Z) (my_badge wait_aep ms : Z) : M S Z :=
  let! timeout_id := sel4osapi_sysclock_schedule_timeout call my_badge 0 ms in
  assert_ (negb (timeout_id =? seL4_CapNull)) ;;
  sel4osapi_sysclock_wait_for_timeout wait GetMR0 call my_badge timeout_id wait_aep false.

(** What is sent on the copies of a notification; [target]: the notification
    behind a capability of the clock server. *)
Definition signals (target : Z -> Z) (notification : Z) (evs : list event) : list Z :=
  omap (fun e => match e with
                 | Ev_send c t => if target c =? notification then Some t else None
                 | Ev_reply _ => None
                 end) evs.

(** Waiting on a notification that is not signalled yet, while the clock does
    [ls], one label after the other: the thread goes on as soon as one of them
    has signalled it, and is still waiting when none has. *)
Fixpoint await (target : Z -> Z) (ls : list clock_label) (notification : Z) : M (clock_state K) unit :=
  match ls with
  | [] => fun _ => Out_of_fuel
  | l :: ls =>
      let! s := get in
      clock_run_label l ;;
      let! s' := get in
      match signals target notification (drop (length (events s)) (events s')) with
      | [] => await target ls notification
      | _ :: _ => ret tt
      end
  end.
End sleep_c.

Section sleep_spec.
Context {CFG : Config} {K : Type} {KER : Kernel K} {KOK : KernelOk K}.

Lemma signals_sends target id evs : (forall c, target c = target id -> c = id) ->
  signals target (target id) evs = sends_to id evs.
Proof.
  intros Hinj. unfold signals, sends_to. induction evs as [|e evs IH]; [done|]. cbn. rewrite IH.
  destruct e as [c t|]; [|done]. destruct (Z.eqb_spec c id) as [->|Hne].
  - by rewrite Z.eqb_refl.
  - by rewrite (proj2 (Z.eqb_neq _ _)) by (intros H%Hinj; done).
Qed.

Lemma first_due_late deadline now ls t : first_due deadline now ls = Some t -> deadline <= t.
Proof.
  revert now. induction ls as [|[m| |] ls IH]; intros now; cbn [first_due]; try done; try apply IH.
  destruct (Z.leb_spec deadline now); [|apply IH]. by intros [= ->].
Qed.

(** What else may happen while a thread waits for its timeout [id]: any
    well-formed requests but its own cancellation, ticks and scans, with [free]
    slots for the requests, on a clock at [now] that does not wrap. *)
Record quiet (id : Z) (ls : list clock_label) (free : nat) (now : Z) : Prop := {
  quiet_ok : Forall (fun l => label_ok l = true) ls;
  quiet_kept : Forall (fun l => match l with L_request m => cancels id m = false | _ => True end) ls;
  quiet_room : (run_slots ls <= free)%nat;
  quiet_period : 0 <= SEL4OSAPI_SYSCLOCK_PERIOD_MS;
  quiet_time : now + SEL4OSAPI_SYSCLOCK_PERIOD_MS * Z.of_nat (advances ls) < 2 ^ 32
}.

(** The one-shot timeout [t] across one label: it is either due, and signalled,
    or it stays. *)
Definition due_now (t : timeout_entry) c (l : clock_label) : bool :=
  match l with L_scan => next_event t <=? ac_time c | _ => false end.

Lemma wp_label_oneshot t s c l ls : clock_rep s c -> t ∈ ac_timers c -> periodic t = 0 ->
  quiet (aep t) (l :: ls) (room (cspace_of (kernel s))) (ac_time c) ->
  wp (clock_run_label l) (fun _ s' => exists evs c', clock_rep s' c' /\
      events s' = events s ++ evs /\
      if due_now t c l then sends_to (aep t) evs = [ac_time c] /\ time s' = ac_time c
      else sends_to (aep t) evs = [] /\ t ∈ ac_timers c' /\ quiet (aep t) ls (room (cspace_of (kernel s'))) (ac_time c') /\
           forall ls1, first_due (next_event t) (ac_time c) (l :: ls1) = first_due (next_event t) (ac_time c') ls1) s.
Proof.
  intros Hrep Ht Hp [[Hl Hok]%Forall_cons [Hc Hks]%Forall_cons Hroom Hper Hw].
  assert (Hnow : is_u32 (ac_time c)) by (destruct Hrep as [(a & _ & _ & _ & _ & ? & _) _]; done).
  unfold run_slots in Hroom. cbn in Hroom.
  pose proof (wp_label (aep t) (Some t) s c l Hrep (conj Ht eq_refl) Hl) as Hwp.
  destruct (watch_step (aep t) (Some t) (ac_time c) l) as [[sent o'] now'] eqn:Hstep.
  eapply wp_mono; [apply Hwp; lia|]. intros [] s' (c' & evs & Hrep' & Htr & <- & He & Hs & Hrm).
  exists evs, c'. split; [done|]. split; [done|]. subst sent.
  assert (Hq : ac_time c' + SEL4OSAPI_SYSCLOCK_PERIOD_MS * Z.of_nat (advances ls) < 2 ^ 32 ->
    quiet (aep t) ls (room (cspace_of (kernel s'))) (ac_time c')) by (constructor; try done; unfold run_slots; lia).
  destruct l as [m| |]; cbn in Hstep |- *.
  - rewrite Hc in Hstep. injection Hstep as <- <- Ht'. rewrite <- Ht' in *. destruct Htr. eauto.
  - injection Hstep as <- <- Ht'. cbn [advances] in Hw. unfold is_u32 in Hnow.
    rewrite u32_small in Ht' by (unfold is_u32; nia). rewrite <- Ht' in *. destruct Htr.
    split_and!; try done. apply Hq. lia.
  - unfold scan_tracked, scan_one, due in Hstep. cbn in Hstep. cbn [advances] in Hw.
    destruct (next_event t <=? ac_time c); injection Hstep as <- <- Ht'; rewrite <- Ht' in *.
    + split; [done|]. destruct Hrep' as [(a & _ & _ & _ & ? & _) _]. congruence.
    + destruct Htr. eauto.
Qed.

(** How waiting for [t] ends: right after the first scan that finds it due, or
    not at all. *)
Definition wakes (deadline : Z) (ls : list clock_label) s c (r : outcome (unit * clock_state K)) : Prop :=
  match first_due deadline (ac_time c) ls with
  | Some now => exists ls1 ls2 s', ls = ls1 ++ L_scan :: ls2 /\ first_due deadline (ac_time c) ls1 = None /\
      clock_run (ls1 ++ [L_scan]) s = Done (tt, s') /\ r = Done (tt, s') /\ time s' = now
  | None => r = Out_of_fuel
  end.

Lemma await_wakes target t ls s c : clock_rep s c -> t ∈ ac_timers c -> periodic t = 0 ->
  (forall k, target k = target (aep t) -> k = aep t) -> quiet (aep t) ls (room (cspace_of (kernel s))) (ac_time c) ->
  wakes (next_event t) ls s c (await target ls (target (aep t)) s).
Proof.
  intros Hrep Ht Hp Hinj. revert s c Hrep Ht. induction ls as [|l ls IH]; intros s c Hrep Ht Hq; [done|].
  destruct (wp_label_oneshot t s c l ls Hrep Ht Hp Hq) as ([] & s1 & Hr & evs & c1 & Hrep1 & He & Hcase).
  assert (Haw : await target (l :: ls) (target (aep t)) s =
    match sends_to (aep t) evs with [] => await target ls (target (aep t)) s1 | _ :: _ => Done (tt, s1) end).
  { cbn [await]. unfold bind, get. rewrite Hr, He, drop_app_length, signals_sends by done. by destruct (sends_to _ _). }
  rewrite Haw. unfold wakes. destruct (due_now t c l) eqn:Hd.
  - destruct Hcase as [-> Htime]. destruct l; try done. cbn in Hd |- *. rewrite Hd.
    exists [], ls, s1. split_and!; try done. cbn. by rewrite (bind_done _ _ _ _ _ Hr).
  - destruct Hcase as (-> & Ht1 & Hq1 & Hfd). rewrite Hfd. specialize (IH s1 c1 Hrep1 Ht1 Hq1). unfold wakes in IH.
    destruct (first_due _ _ ls) as [now|]; [|done]. destruct IH as (ls1 & ls2 & s' & -> & Hn & Hrun & Hres & Htime).
    exists (l :: ls1), ls2, s'. split_and!; try done.
    + by rewrite Hfd.
    + cbn. by rewrite (bind_done _ _ _ _ _ Hr).
Qed.

(** The request of a sleeping thread: a one-shot timeout on the server's
    receive slot, for which one slot is used up. *)
Lemma schedules bdg ms s c : clock_rep s c -> (length (ac_timers c) < 100)%nat -> is_u32 ms ->
  (1 <= room (cspace_of (kernel s)))%nat -> ac_time c + ms < 2 ^ 32 ->
  wp (sel4osapi_sysclock_schedule_timeout call_server bdg 0 ms) (fun id s1 => id = caller_ep s /\
    clock_rep s1 (AClock (ac_time c) (ac_timers c ++ [TimeoutEntry bdg (caller_ep s) 0 ms (ac_time c + ms)])) /\
    room (cspace_of (kernel s1)) = pred (room (cspace_of (kernel s)))) s.
Proof.
  intros H Hlen Hms Hroom Hw. pose proof H as [(a & _ & _ & _ & _ & Hnow & _) _].
  unfold sel4osapi_sysclock_schedule_timeout. set (m := Msg bdg 1 [SYSCLOCK_OP_SET_TIMEOUT; 0; ms]).
  apply wp_bind. eapply wp_mono; [by apply (wp_call_server_slots m s c H)|]. intros r s1 (-> & Hrep & Hren). apply wp_ret.
  assert (Hse : a_serve (caller_ep s) m c = a_set bdg (caller_ep s) 0 ms c) by (unfold a_serve; cbn; by rewrite (u32_small ms)).
  rewrite Hse in *. unfold a_set in *. change (Z.to_nat SEL4OSAPI_SYSCLOCK_MAX_ENTRIES) with 100%nat in *.
  destruct (Nat.ltb_spec (length (ac_timers c)) 100); [|lia]. split; [done|].
  rewrite <- (u32_small (ac_time c + ms)) by (unfold is_u32 in *; lia). split; [exact Hrep|].
  unfold slot_renewed in Hren. change (is_set m) with true in Hren. destruct Hren as [_ ->]. done.
Qed.

(** C31: A sleeping thread is woken neither early nor late.  If the schedule has
    room, the calling thread's notification is clear and has no other timeout,
    nobody cancels this one and the clock does not wrap,
    [sel4osapi_thread_sleep] goes on right after the first scan at or after
    now + ms, whatever other requests, ticks and scans come in between, and goes
    on waiting as long as there is no such scan.  The time it returns is not
    that of the scan: it is what message register 0 of the thread held. *)
Theorem thread_sleep_wakes_at_deadline target mr0 bdg wait_aep ms ls s c :
  clock_rep s c -> (length (ac_timers c) < 100)%nat -> is_u32 ms -> is_u32 mr0 ->
  target (caller_ep s) = wait_aep -> (forall k, target k = wait_aep -> k = caller_ep s) ->
  (1 <= room (cspace_of (kernel s)))%nat -> ac_time c + ms < 2 ^ 32 ->
  quiet (caller_ep s) ls (pred (room (cspace_of (kernel s)))) (ac_time c) ->
  exists s1,
    sel4osapi_sysclock_schedule_timeout call_server bdg 0 ms s = Done (caller_ep s, s1) /\
    clock_rep s1 (AClock (ac_time c) (ac_timers c ++ [TimeoutEntry bdg (caller_ep s) 0 ms (ac_time c + ms)])) /\
    match first_due (ac_time c + ms) (ac_time c) ls with
    | Some now => ac_time c + ms <= now /\ exists ls1 ls2 s2, ls = ls1 ++ L_scan :: ls2 /\
        first_due (ac_time c + ms) (ac_time c) ls1 = None /\ clock_run (ls1 ++ [L_scan]) s1 = Done (tt, s2) /\
        time s2 = now /\
        sel4osapi_thread_sleep call_server (await target ls) (ret mr0) bdg wait_aep ms s = Done (mr0, s2)
    | None =>
        sel4osapi_thread_sleep call_server (await target ls) (ret mr0) bdg wait_aep ms s = Out_of_fuel
    end.
Proof.
  intros H Hlen Hms Hmr <- Hinj Hroom Hw Hq.
  destruct (schedules bdg ms s c H Hlen Hms Hroom Hw) as (? & s1 & Hsch & -> & Hrep & Hr1).
  exists s1. split; [done|]. split; [done|].
  set (t := TimeoutEntry bdg (caller_ep s) 0 ms (ac_time c + ms)) in *.
  assert (Hwk : wakes (next_event t) ls s1 (AClock (ac_time c) (ac_timers c ++ [t]))
    (await target ls (target (aep t)) s1)).
  { refine (await_wakes target t ls s1 _ Hrep _ eq_refl Hinj _); [|by rewrite Hr1].
    apply elem_of_app. right. by apply list_elem_of_here. }
  unfold wakes in Hwk. cbn [next_event aep t ac_time] in Hwk.
  unfold sel4osapi_thread_sleep. rewrite (bind_done _ _ _ _ _ Hsch).
  destruct H as [_ (Hid & _)]. rewrite (proj2 (Z.eqb_neq _ _) Hid).
  rewrite (bind_done (assert_ (negb false)) _ s1 tt s1 eq_refl). unfold sel4osapi_sysclock_wait_for_timeout.
  destruct (first_due _ _ ls) as [now|] eqn:Hd.
  - split; [by eapply first_due_late|]. destruct Hwk as (ls1 & ls2 & s2 & -> & Hn & Hrun & Hres & Htime).
    exists ls1, ls2, s2. split_and!; try done. rewrite (bind_done _ _ _ _ _ Hres). cbn. by rewrite u32_small.
  - unfold bind at 1. by rewrite Hwk.
Qed.
End sleep_spec.

Section samples.
#[local] Existing Instance default_config.

(** Ten milliseconds, with a scan every five: the thread goes on after the
    second scan, at 10, with the 99 its message register held. *)
Lemma thread_sleep_wakes_at_deadline_witness :
  exists s2, sel4osapi_thread_sleep call_server
      (await (fun k => k + 40) [L_advance; L_scan; L_advance; L_scan; L_scan]) (ret 99) 7 41 10 sample_booted
    = Done (99, s2) /\ time s2 = 10.
Proof.
  destruct sample_booted_ok as (_ & Hrep & He & Hroom).
  destruct (thread_sleep_wakes_at_deadline (fun k => k + 40) 99 7 41 10 [L_advance; L_scan; L_advance; L_scan; L_scan]
              sample_booted (AClock 0 []) Hrep)
    as (s1 & _ & _ & _ & ls1 & ls2 & s2 & _ & _ & _ & Htime & Hs);
    [apply Nat.ltb_lt; reflexivity|unfold is_u32; lia|unfold is_u32; lia|rewrite He; reflexivity
    |rewrite He; intros k Hk; lia|rewrite Hroom; apply Nat.leb_le; reflexivity|by apply Z.ltb_lt| |].
  - rewrite Hroom. constructor; [solve_Forall|solve_Forall|apply Nat.leb_le; reflexivity|by apply Z.leb_le|by apply Z.ltb_lt].
  - exists s2. split; [exact Hs|exact Htime].
Defined.
End samples.
