(* ===== verification/Serial.v ===== *)
(** * Serial: the serial port server and its clients (src/io.c, io.h)

    The server keeps a pool of clients; each client shares one page of memory
    ([buf]) with it.  A request names the client, an operation, a UART and a
    size; the data travels in the shared page.  The state is the server's
    ([serial_state]: the pool, and the locals of the server thread that survive
    from one request to the next) and the environment [D]: the UARTs, the
    clock, semaphores and the page allocator, reached through [SerialEnv]. *)

From S2P Require Import Prelude Config Memory LinkedList Pool Kernel.

Definition SERIAL_OP_WRITE : Z := 201.
Definition SERIAL_OP_READ : Z := 202.
Definition SERIAL_OP_CONFIG : Z := 203.
Definition SERIAL_DEV_UART1 : Z := 1.
Definition SERIAL_DEV_UART2 : Z := 2.
Definition EOF : Z := -1.

(** [1 << 12], and the macro [(SEL4OSAPI_SERIAL_BUF_SIZE/PAGE_SIZE_4K)]: as the
    first macro has no parentheses, the second reads [1 << (12 / 4096)]. *)
Definition PAGE_SIZE_4K : Z := 4096.
Definition SEL4OSAPI_SERIAL_BUF_SIZE : Z := Z.shiftl 1 12.
Definition SEL4OSAPI_SERIAL_BUF_PAGES : Z := Z.shiftl 1 (12 / PAGE_SIZE_4K).

Lemma serial_buf_4096 : SEL4OSAPI_SERIAL_BUF_SIZE = 4096.
Proof. done. Qed.

Inductive uart := uart1 | uart2.

(** What the server relies on outside of itself. *)
Class SerialEnv (D : Type) := {
  ps_cdev_putchar : uart -> Z -> D -> D;
  ps_cdev_getchar : uart -> D -> Z * D;
  serial_configure : uart -> Z -> Z -> Z -> Z -> D -> Z * D;
  clock_get_time : D -> Z * D;
  sel4osapi_semaphore_create : Z -> D -> Z * D;
  sel4osapi_semaphore_take : Z -> Z -> D -> D;
  sel4osapi_semaphore_give : Z -> D -> D;
  vspace_new_pages : Z -> D -> option (list Z) * D
}.

(** A 32-bit word as the little-endian target stores it. *)
Definition le32 (w : Z) : list Z :=
  [u8 w; u8 (Z.shiftr w 8); u8 (Z.shiftr w 16); u8 (Z.shiftr w 24)].
Definition of_le32 (bs : list Z) : option Z :=
  match bs with
  | b0 :: b1 :: b2 :: b3 :: _ =>
      Some (b0 + Z.shiftl b1 8 + Z.shiftl b2 16 + Z.shiftl b3 24)
  | _ => None
  end.

(** [buf] is the content of the shared page, a byte per element. *)
Record sel4osapi_serialclient_t := SerialClient {
  id : Z;
  buf_avail : Z;
  buf : option (list Z);
  buf_size : Z;
  client_ep : Z
}.

Definition sizeof_serialclient : Z := 20.

(** [struct sel4osapi_serial_config], as it is laid out in the page. *)
Record sel4osapi_serial_config_t := SerialConfig {
  bps : Z;
  char_size : Z;
  parity : Z;
  stop_bit : Z
}.

Definition config_store (c : sel4osapi_serial_config_t) : list Z :=
  le32 (bps c) ++ le32 (char_size c) ++ le32 (parity c) ++ le32 (stop_bit c).
Definition config_load (bs : list Z) : option sel4osapi_serial_config_t :=
  w0 ← of_le32 bs; w1 ← of_le32 (drop 4 bs); w2 ← of_le32 (drop 8 bs); w3 ← of_le32 (drop 12 bs);
  Some (SerialConfig (s32 w0) (s32 w1) w2 (s32 w3)).

Lemma of_le32_le32 w rest : is_u32 w -> of_le32 (le32 w ++ rest) = Some w.
Proof.
  intros Hw. cbn. f_equal. unfold u8. rewrite !Z.shiftr_div_pow2, !Z.shiftl_mul_pow2 by lia.
  unfold is_u32 in Hw. change (2 ^ 8) with 256. change (2 ^ 16) with 65536.
  change (2 ^ 24) with 16777216. change (2 ^ 32) with 4294967296 in Hw.
  Z.to_euclidean_division_equations. lia.
Qed.

Lemma u8_shiftr_u32 w k : 0 <= k <= 24 -> u8 (Z.shiftr (u32 w) k) = u8 (Z.shiftr w k).
Proof.
  intros Hk. unfold u8, u32. rewrite <- !Z.land_ones by lia. apply Z.bits_inj'. intros n Hn.
  rewrite !Z.land_spec, !Z.shiftr_spec, Z.land_spec by lia.
  destruct (Z.lt_ge_cases n 8); [|by rewrite (Z.ones_spec_high 8 n), !andb_false_r by lia].
  rewrite (Z.ones_spec_low 32) by lia. by rewrite andb_true_r.
Qed.

Lemma of_le32_u32 w rest : of_le32 (le32 w ++ rest) = Some (u32 w).
Proof.
  rewrite <- (of_le32_le32 (u32 w) rest (u32_range w)). unfold le32.
  rewrite !u8_shiftr_u32 by lia. pose proof (u8_shiftr_u32 w 0 ltac:(lia)) as H0.
  rewrite !Z.shiftr_0_r in H0. by rewrite H0.
Qed.

(** The configuration survives the trip through the page. *)
Lemma config_load_store c rest :
  is_s32 (bps c) -> is_s32 (char_size c) -> is_u32 (parity c) -> is_s32 (stop_bit c) ->
  config_load (config_store c ++ rest) = Some c.
Proof.
  intros H1 H2 H3 H4. unfold config_load, config_store. rewrite <- !app_assoc.
  rewrite of_le32_u32. cbn [mbind option_bind].
  change (drop 4 (le32 (bps c) ++ ?l)) with l.
  rewrite of_le32_u32. cbn [mbind option_bind].
  change (drop 8 (le32 (bps c) ++ le32 (char_size c) ++ ?l)) with l.
  rewrite of_le32_u32. cbn [mbind option_bind].
  change (drop 12 (le32 (bps c) ++ le32 (char_size c) ++ le32 (parity c) ++ ?l)) with l.
  rewrite of_le32_u32. cbn [mbind option_bind].
  rewrite !s32_u32, u32_small by done. by destruct c.
Qed.

Section serial_c.
Context {CFG : Config} {D : Type} {ENV : SerialEnv D}.

Record serial_state := SerialState {
  clients : pool_state sel4osapi_serialclient_t;
  server_ep : Z;
  srv_op_size : Z;          (* locals of the server thread *)
  srv_client : ptr;
  env : D;
  replies : list (list Z)
}.

Definition set_clients (p : pool_state sel4osapi_serialclient_t) (s : serial_state) : serial_state :=
  SerialState p (server_ep s) (srv_op_size s) (srv_client s) (env s) (replies s).
Definition set_op_size (n : Z) (s : serial_state) : serial_state :=
  SerialState (clients s) (server_ep s) n (srv_client s) (env s) (replies s).
Definition set_srv_client (c : ptr) (s : serial_state) : serial_state :=
  SerialState (clients s) (server_ep s) (srv_op_size s) c (env s) (replies s).
Definition set_env (d : D) (s : serial_state) : serial_state :=
  SerialState (clients s) (server_ep s) (srv_op_size s) (srv_client s) d (replies s).
Definition add_reply (r : list Z) (s : serial_state) : serial_state :=
  SerialState (clients s) (server_ep s) (srv_op_size s) (srv_client s) (env s) (replies s ++ [r]).

Definition on_clients {A} (m : M (pool_state sel4osapi_serialclient_t) A) : M serial_state A :=
  zoom clients set_clients m.
Definition ecall {A} (f : D -> A * D) : M serial_state A := fun s =>
  Done ((f (env s)).1, set_env (f (env s)).2 s).
Definition edo (f : D -> D) : M serial_state unit := modify (fun s => set_env (f (env s)) s).
Definition reply (r : list Z) : M serial_state unit := modify (add_reply r).

Definition read_client (p : ptr) : M serial_state sel4osapi_serialclient_t :=
  on_clients (on_mem (read_cell p)).
Definition set_buf (b : list Z) (c : sel4osapi_serialclient_t) : sel4osapi_serialclient_t :=
  SerialClient (id c) (buf_avail c) (Some b) (buf_size c) (client_ep c).

(** Access to the shared page, byte [i] or a block from its start. *)
Definition buf_load (p : ptr) (i : Z) : M serial_state Z :=
  let! c := read_client p in
  deref (b ← buf c; b !! Z.to_nat i).
Definition buf_write (p : ptr) (f : list Z -> option (list Z)) : M serial_state unit :=
  let! c := read_client p in
  let! b := deref (buf c ≫= f) in
  on_clients (on_mem (write_cell p (set_buf b c))).
Definition store_at (i : Z) (v : Z) (b : list Z) : option (list Z) :=
  if (Z.to_nat i <? length b)%nat then Some (<[Z.to_nat i := v]> b) else None.
Definition load_block (n : Z) (b : list Z) : option (list Z) :=
  if (Z.to_nat n <=? length b)%nat then Some (take (Z.to_nat n) b) else None.
Definition store_block (src : list Z) (b : list Z) : option (list Z) :=
  if (length src <=? length b)%nat then Some (src ++ drop (length src) b) else None.

(** [while (cursor != NULL)]: the search for the client, with its break. *)
Definition find_client_body (client_id : Z) (x : ptr * ptr * bool)
    : M serial_state (ptr * ptr * bool) :=
  let '(cursor, _, _) := x in
  let! n := on_clients (on_mem (read_node cursor)) in
  let! c := read_client (el n) in
  if id c =? client_id then ret (cursor, el n, true) else ret (next n, NULL, false).

Definition find_client (client_id : Z) : M serial_state unit :=
  let! s := get in
  let! r := while (heap_fuel (mem (clients s))) (fun x => non_null x.1.1 && negb x.2)
              (find_client_body client_id) (entries (pool (clients s)), srv_client s, false) in
  modify (set_srv_client r.1.2).

Definition device_of (devid : Z) : option uart :=
  if devid =? SERIAL_DEV_UART1 then Some uart1
  else if devid =? SERIAL_DEV_UART2 then Some uart2 else None.

Definition serve_write (client : ptr) (device : uart) (mr3 : Z) : M serial_state unit :=
  modify (set_op_size mr3) ;;
  let! _ := while (Z.to_nat mr3) (fun i => i <? mr3)
              (fun i => let! ch := buf_load client i in
                        edo (ps_cdev_putchar device ch) ;; ret (i + 1)) 0 in
  reply [mr3].

(** [while (ret == EOF)]: one poll of the device, or a break on timeout. *)
Definition read_poll_body (device : uart) (timeout tStart : Z) (x : Z * bool)
    : M serial_state (Z * bool) :=
  let! tNow := ecall clock_get_time in
  if (0 <? timeout) && (timeout <? u32 (tNow - tStart)) then ret (x.1, true)
  else let! ch := ecall (ps_cdev_getchar device) in ret (ch, x.2).

(** The loop over the bytes; [ret] is not reset between two bytes. *)
Definition read_byte_body (poll_fuel : nat) (client : ptr) (device : uart) (timeout tStart : Z)
    (x : Z * Z * bool) : M serial_state (Z * Z * bool) :=
  let '(i, r, _) := x in
  let! p := while poll_fuel (fun x => (x.1 =? EOF) && negb x.2)
              (read_poll_body device timeout tStart) (r, false) in
  if p.1 =? EOF then ret (i, p.1, true)
  else buf_write client (store_at i (u8 p.1)) ;; ret (i + 1, p.1, false).

Definition serve_read (poll_fuel : nat) (client : ptr) (device : uart) (mr3 : Z)
    : M serial_state unit :=
  modify (set_op_size mr3) ;;
  let! c := read_client client in
  let! timeout := deref (buf c ≫= of_le32) in
  let! tStart := ecall clock_get_time in
  let! r := while (Z.to_nat mr3) (fun x => (x.1.1 <? mr3) && negb x.2)
              (read_byte_body poll_fuel client device timeout tStart) (0, EOF, false) in
  reply [r.1.1].

Definition serve_config (client : ptr) (device : uart) : M serial_state unit :=
  let! c := read_client client in
  let! config := deref (buf c ≫= config_load) in
  let! mr0 := ecall (serial_configure device (bps config) (char_size config)
                                      (parity config) (stop_bit config)) in
  reply [u32 mr0].

(** One iteration of [sel4osapi_serial_server_thread].  The second assertion
    is on the size of the previous request. *)
Definition serial_server_step (poll_fuel : nat) (m : message) : M serial_state unit :=
  assert_ (msg_length m =? 4) ;;
  let mr0 := u32 (getMR 0 m) in
  let mr1 := u32 (getMR 1 m) in
  let mr2 := u32 (getMR 2 m) in
  let mr3 := u32 (getMR 3 m) in
  find_client (s32 mr0) ;;
  let! s := get in
  let client := srv_client s in
  assert_ (non_null client) ;;
  let! c := read_client client in
  assert_ (srv_op_size s <=? buf_size c) ;;
  match device_of mr2 with
  | None => assert_ false
  | Some device =>
      if mr1 =? SERIAL_OP_WRITE then serve_write client device mr3
      else if mr1 =? SERIAL_OP_READ then serve_read poll_fuel client device mr3
      else if mr1 =? SERIAL_OP_CONFIG then serve_config client device
      else ret tt
  end.

(** *** Clients

    [me] is the client structure of the calling process, whose [buf] is the
    page it shares with the server.  A call blocks until the server replies;
    a request that gets no reply blocks for good. *)
Definition serial_call (poll_fuel : nat) (m : message) : M serial_state (list Z) :=
  let! s := get in
  serial_server_step poll_fuel m ;;
  let! s' := get in
  match drop (length (replies s)) (replies s') with
  | [r] => ret r
  | _ => fun _ => Out_of_fuel
  end.

Definition serial_request (poll_fuel : nat) (c : sel4osapi_serialclient_t) (op dev size : Z)
    : M serial_state Z :=
  let! r := serial_call poll_fuel (Msg 0 0 [u32 (id c); op; u32 dev; u32 size]) in
  assert_ (length r =? 1)%nat ;;
  ret (nth 0 r 0).

Definition sel4osapi_io_serial_write (poll_fuel : nat) (me : ptr) (dev : Z) (data : list Z) (size : Z)
    : M serial_state Z :=
  let! client := read_client me in
  assert_ (size <=? buf_size client) ;;
  edo (sel4osapi_semaphore_take (buf_avail client) 0) ;;
  let! src := deref (load_block size data) in
  buf_write me (store_block src) ;;
  let! mr0 := serial_request poll_fuel client SERIAL_OP_WRITE dev size in
  edo (sel4osapi_semaphore_give (buf_avail client)) ;;
  ret (s32 mr0).

(** Returns the count and the content of the caller's [data] afterwards. *)
Definition sel4osapi_io_serial_read (poll_fuel : nat) (me : ptr) (dev : Z) (data : list Z) (size timeout : Z)
    : M serial_state (Z * list Z) :=
  let! client := read_client me in
  assert_ (size <=? buf_size client) ;;
  edo (sel4osapi_semaphore_take (buf_avail client) 0) ;;
  buf_write me (store_block (le32 timeout)) ;;
  let! mr0 := serial_request poll_fuel client SERIAL_OP_READ dev size in
  let! data' :=
    (if 0 <? mr0 then
       let! c := read_client me in
       deref (b ← buf c; src ← load_block mr0 b; store_block src data)
     else ret data) in
  edo (sel4osapi_semaphore_give (buf_avail client)) ;;
  ret (s32 mr0, data').

Definition sizeof_serial_config : Z := 16.

Definition sel4osapi_io_serial_configure (poll_fuel : nat) (me : ptr) (dev : Z)
    (bps char_size parity stop_bit : Z) : M serial_state Z :=
  let! client := read_client me in
  edo (sel4osapi_semaphore_take (buf_avail client) 0) ;;
  buf_write me (store_block (config_store (SerialConfig bps char_size parity stop_bit))) ;;
  let! mr0 := serial_request poll_fuel client SERIAL_OP_CONFIG dev sizeof_serial_config in
  edo (sel4osapi_semaphore_give (buf_avail client)) ;;
  ret (s32 mr0).

(** *** Set-up *)

Definition sel4osapi_io_serial_create_client : M serial_state ptr :=
  let! client := on_clients simple_pool_alloc in
  assert_ (non_null client) ;;
  let! n := on_clients simple_pool_get_current_size in
  let! buf_avail := ecall (sel4osapi_semaphore_create 1) in
  assert_ (negb (buf_avail =? 0)) ;;
  let! buf := ecall (vspace_new_pages SEL4OSAPI_SERIAL_BUF_PAGES) in
  assert_ (bool_decide (is_Some buf)) ;;
  let! s := get in
  let! _ := read_client client in
  on_clients (on_mem (write_cell client
    (SerialClient n buf_avail buf SEL4OSAPI_SERIAL_BUF_SIZE (server_ep s)))) ;;
  ret client.

(** What [sel4osapi_io_serial_initialize] leaves for the server thread; the
    UARTs, the endpoint and the thread are the environment's. *)
Definition serial_boot (uninit : sel4osapi_serialclient_t) (h : heap sel4osapi_serialclient_t)
    (server_ep : Z) (d : D) : outcome serial_state :=
  match simple_pool_new SEL4OSAPI_USER_PROCESS_MAX sizeof_serialclient None NULL None uninit h with
  | Done (p, h') =>
      if negb (server_ep =? seL4_CapNull)
      then Done (SerialState (PoolState p h') server_ep 0 NULL d []) else Assert_failed
  | Assert_failed => Assert_failed
  | Wild_access => Wild_access
  | Out_of_fuel => Out_of_fuel
  end.
End serial_c.
Arguments serial_state D : clear implicits.

(** ** The clients of the server, and polls of a device *)

Section serial_spec.
Context {CFG : Config} {D : Type} {ENV : SerialEnv D}.
Implicit Types (s : serial_state D) (cs : list sel4osapi_serialclient_t).
Implicit Types (p : pool_state sel4osapi_serialclient_t) (a : apool sel4osapi_serialclient_t).

Definition client_ok (c : sel4osapi_serialclient_t) : Prop :=
  buf_size c = SEL4OSAPI_SERIAL_BUF_SIZE /\
  exists b, buf c = Some b /\ length b = Z.to_nat SEL4OSAPI_SERIAL_BUF_SIZE.

(** The pool holds the clients [cs], numbered from 1 in order of creation. *)
Record clients_rep p a cs : Prop := {
  cr_pool : pool_rep None None p a;
  cr_size : pool_size (pool p) = SEL4OSAPI_USER_PROCESS_MAX;
  cr_vals : vals_along (a_vals a) (a_busy a) cs;
  cr_ids : id <$> cs = seqZ 1 (Z.of_nat (length cs));
  cr_max : Z.of_nat (length cs) < 2 ^ 31;
  cr_ok : Forall client_ok cs
}.

(** The [i]-th client is [c], at the location [x.2]. *)
Definition client_at a cs (i : nat) (x : loc * loc) (c : sel4osapi_serialclient_t) : Prop :=
  a_busy a !! i = Some x /\ cs !! i = Some c.

Definition put_all (dev : uart) (bs : list Z) (d : D) : D :=
  fold_left (fun d ch => ps_cdev_putchar dev ch d) bs d.

Definition expired (timeout tStart now : Z) : bool :=
  (0 <? timeout) && (timeout <? u32 (now - tStart)).

(** The polls of the read loop from [d]: [n] of them, until the device gives a
    character or the clock says the timeout has passed. *)
Inductive polls (dev : uart) (timeout tStart : Z) : D -> option Z -> D -> nat -> Prop :=
| polls_char d now d1 ch d2 :
    clock_get_time d = (now, d1) -> expired timeout tStart now = false ->
    ps_cdev_getchar dev d1 = (ch, d2) -> ch <> EOF -> polls dev timeout tStart d (Some ch) d2 1
| polls_expired d now d1 :
    clock_get_time d = (now, d1) -> expired timeout tStart now = true ->
    polls dev timeout tStart d None d1 1
| polls_again d now d1 d2 o d3 n :
    clock_get_time d = (now, d1) -> expired timeout tStart now = false ->
    ps_cdev_getchar dev d1 = (EOF, d2) -> polls dev timeout tStart d2 o d3 n ->
    polls dev timeout tStart d o d3 (S n).

Lemma set_clients_id s : set_clients (clients s) s = s.
Proof. by destruct s. Qed.

Lemma client_cell p a cs i x c :
  clients_rep p a cs -> client_at a cs i x c -> cells (mem p) !! x.2 = Some c.
Proof.
  intros R [Hx Hc]. rewrite (rep_vals _ _ (cr_pool _ _ _ R)).
  eapply (Forall2_lookup_lr (fun (x : loc * loc) c => a_vals a !! x.2 = Some c)); [apply R|done..].
Qed.

Lemma client_at_ok p a cs i x c : clients_rep p a cs -> client_at a cs i x c -> client_ok c.
Proof. intros R [_ Hc]. eapply Forall_lookup_1; [apply R|exact Hc]. Qed.

Lemma client_at_id p a cs i x c : clients_rep p a cs -> client_at a cs i x c -> id c = Z.of_nat i + 1.
Proof.
  intros R [_ Hc]. pose proof (cr_ids _ _ _ R) as Hids.
  assert (H : (id <$> cs) !! i = Some (id c)) by (rewrite list_lookup_fmap, Hc; done).
  rewrite Hids in H. apply lookup_seqZ in H. lia.
Qed.

Lemma wp_read_client s a cs i x c (Q : _ -> _ -> Prop) :
  clients_rep (clients s) a cs -> client_at a cs i x c -> Q c s ->
  wp (read_client (Some x.2)) Q s.
Proof.
  intros R Hx HQ. unfold read_client, on_clients. apply wp_zoom.
  eapply wp_mem_read_cell; [done|by eapply client_cell|]. by rewrite set_clients_id.
Qed.

(** Changing what is in a client's page. *)
Definition page_written p (x : loc * loc) (c : sel4osapi_serialclient_t) (b : list Z) :
    pool_state sel4osapi_serialclient_t :=
  set_mem (with_cells (<[x.2 := set_buf b c]> (cells (mem p))) (mem p)) p.
Definition a_page_written a (x : loc * loc) (c : sel4osapi_serialclient_t) (b : list Z) :=
  APool (a_free a) (a_busy a) (<[x.2 := set_buf b c]> (a_vals a)).

Lemma clients_rep_page p a cs i x c b :
  clients_rep p a cs -> client_at a cs i x c -> length b = Z.to_nat SEL4OSAPI_SERIAL_BUF_SIZE ->
  clients_rep (page_written p x c b) (a_page_written a x c b) (<[i := set_buf b c]> cs) /\
  client_at (a_page_written a x c b) (<[i := set_buf b c]> cs) i x (set_buf b c).
Proof.
  intros R [Hx Hc] Hb. pose proof (client_at_ok _ _ _ _ _ _ R (conj Hx Hc)) as [Hsz _].
  pose proof R as []. split.
  - split; cbn; try done; rewrite ?length_insert; try done.
    + apply (rep_write _ _ x); [done|]. apply elem_of_app. right. by eapply list_elem_of_lookup_2.
    + apply vals_along_insert; [by apply (rep_busy_els _ _ cr_pool0)|done..].
    + rewrite list_fmap_insert. cbn. rewrite list_insert_id; [done|]. by rewrite list_lookup_fmap, Hc.
    + apply Forall_insert; [done|]. split; [done|]. by eexists.
  - split; [done|]. cbn. apply list_lookup_insert_eq. by eapply lookup_lt_Some.
Qed.

Lemma wp_buf_write s a cs i x c b b' f (Q : _ -> _ -> Prop) :
  clients_rep (clients s) a cs -> client_at a cs i x c -> buf c = Some b -> f b = Some b' ->
  Q tt (set_clients (page_written (clients s) x c b') s) -> wp (buf_write (Some x.2) f) Q s.
Proof.
  intros R Hx Hb Hf HQ. unfold buf_write. wp_step. eapply wp_read_client; [done..|].
  wp_step. eapply (wp_deref _ b'); [by rewrite Hb|].
  unfold on_clients. apply wp_zoom, wp_on_mem. eapply wp_write_cell; [done|by eapply client_cell|].
  exact HQ.
Qed.

(** *** The search for the client *)

(** The result of the search, [stale] being the client of the last request. *)
Fixpoint search (busy : list (loc * loc)) cs (stale : ptr) (k : Z) : ptr :=
  match busy, cs with
  | x :: busy, c :: cs => if id c =? k then Some x.2 else search busy cs NULL k
  | _, _ => stale
  end.

Lemma search_hit busy cs stale i x c :
  NoDup (id <$> cs) -> busy !! i = Some x -> cs !! i = Some c ->
  search busy cs stale (id c) = Some x.2.
Proof.
  revert busy cs stale. induction i as [|i IH]; intros [|y busy] [|c' cs] stale Hnd Hx Hc; try done; cbn in *.
  - simplify_eq. by rewrite Z.eqb_refl.
  - apply NoDup_cons in Hnd as [Hn Hnd]. destruct (Z.eqb_spec (id c') (id c)) as [Heq|]; [|by apply IH].
    exfalso. apply Hn. rewrite Heq. apply list_elem_of_fmap_2. by eapply list_elem_of_lookup_2.
Qed.

Lemma search_miss busy cs stale k :
  length busy = length cs -> k ∉ id <$> cs ->
  search busy cs stale k = if bool_decide (cs = []) then stale else NULL.
Proof.
  revert busy stale. induction cs as [|c cs IH]; intros [|x busy] stale Hlen Hk; try done; cbn in *.
  destruct (Z.eqb_spec (id c) k); [set_solver|]. rewrite IH by (try lia; set_solver). by case_bool_decide.
Qed.

Definition search_inv s a cs (k : Z) (n : nat) (x : ptr * ptr * bool) s' : Prop :=
  s' = s /\
  if x.2 then search (a_busy a) cs (srv_client s) k = x.1.2
  else exists b1 b2 c2, a_busy a = b1 ++ b2 /\ vals_along (a_vals a) b2 c2 /\
    x.1.1 = first NULL b2.*1 /\ n = length b2 /\
    search (a_busy a) cs (srv_client s) k = search b2 c2 x.1.2 k.

Lemma wp_find_client_body s a cs k n x :
  clients_rep (clients s) a cs -> search_inv s a cs k n x s -> non_null x.1.1 && negb x.2 = true ->
  exists n', n = S n' /\ wp (find_client_body k x) (search_inv s a cs k n') s.
Proof.
  intros R [_ HI] Hc. destruct x as [[cur cl] stop]. cbn in *.
  apply andb_prop in Hc as [Hc Hstop]. destruct stop; [done|].
  destruct HI as (b1 & b2 & c2 & Hb & Hv & -> & -> & Hs).
  destruct b2 as [|y b2]; [done|]. exists (length b2). split; [done|].
  apply Forall2_cons_inv_l in Hv as (c & c2' & Hy & Hv & ->).
  destruct (rep_busy_entry _ _ b1 y b2 (cr_pool _ _ _ R) Hb) as (nd & v & Hnd & Hel & Hnx & Hva & Hcell).
  unfold find_client_body, on_clients. wp_step. apply wp_zoom.
  eapply wp_mem_read_node; [done|exact Hnd|]. rewrite set_clients_id. rewrite Hel.
  wp_step. unfold read_client, on_clients. apply wp_zoom. eapply wp_mem_read_cell; [done|exact Hcell|].
  rewrite set_clients_id. rewrite Hy in Hva. injection Hva as <-. cbn in Hs.
  destruct (id c =? k); wp_step; (split; [done|]); cbn; [done|].
  exists (b1 ++ [y]), b2, c2'. rewrite <- app_assoc. by split_and!.
Qed.

Lemma wp_find_client s a cs k :
  clients_rep (clients s) a cs ->
  wp (find_client k) (fun _ s' => s' = set_srv_client (search (a_busy a) cs (srv_client s) k) s) s.
Proof.
  intros R. unfold find_client. wp_steps.
  eapply (wp_while (search_inv s a cs k)).
  - intros n x s' HI Hc. pose proof (proj1 HI) as ->. by apply wp_find_client_body.
  - intros n x s' [-> HI] Hc. wp_step. destruct x as [[cur cl] stop]. cbn in *.
    destruct stop; cbn in *; [by rewrite HI|]. rewrite andb_true_r in Hc.
    destruct HI as (b1 & b2 & c2 & _ & _ & -> & _ & ->). destruct b2; [|done]. done.
  - split; [done|]. cbn. exists [], (a_busy a), cs. split_and!; try done; [apply R|].
    apply (dlist_first _ _ _ (rep_busy _ _ (cr_pool _ _ _ R))).
  - pose proof (dlist_fuel _ _ _ (rep_busy _ _ (cr_pool _ _ _ R))) as Hf. by rewrite length_fmap in Hf.
Qed.

(** *** The three operations of the server *)

Lemma put_all_snoc dev bs ch d : put_all dev (bs ++ [ch]) d = ps_cdev_putchar dev ch (put_all dev bs d).
Proof. unfold put_all. by rewrite fold_left_app. Qed.

Lemma wp_serve_write s a cs i x c b dev n :
  clients_rep (clients s) a cs -> client_at a cs i x c -> buf c = Some b ->
  0 <= n <= Z.of_nat (length b) ->
  wp (serve_write (Some x.2) dev n)
     (fun _ s' => s' = add_reply [n] (set_env (put_all dev (take (Z.to_nat n) b) (env s))
                                              (set_op_size n s))) s.
Proof.
  intros R Hx Hb Hn. unfold serve_write. wp_steps.
  eapply (wp_while (fun k i s' => 0 <= i <= n /\ k = Z.to_nat (n - i) /\
            s' = set_env (put_all dev (take (Z.to_nat i) b) (env s)) (set_op_size n s))).
  - intros k j s' (Hj & -> & ->) Hc. apply Z.ltb_lt in Hc.
    exists (Z.to_nat (n - (j + 1))). split; [lia|]. unfold buf_load, edo. wp_step. wp_step.
    eapply wp_read_client; [exact R|exact Hx|].
    destruct (lookup_lt_is_Some_2 b (Z.to_nat j)) as [ch Hch]; [lia|].
    eapply (wp_deref _ ch); [by rewrite Hb|]. wp_steps. split_and!; [lia|lia|lia|].
    cbn. unfold set_env. cbn. f_equal. replace (Z.to_nat (j + 1)) with (S (Z.to_nat j)) by lia.
    by rewrite (take_S_r b _ ch Hch), put_all_snoc.
  - intros k j s' (Hj & -> & ->) Hc. apply Z.ltb_ge in Hc. unfold reply. wp_step.
    by replace j with n by lia.
  - split_and!; [lia|lia|done|]. by destruct s.
  - lia.
Qed.

Lemma wp_serve_config s a cs i x c b cf dev :
  clients_rep (clients s) a cs -> client_at a cs i x c -> buf c = Some b -> config_load b = Some cf ->
  let r := serial_configure dev (bps cf) (char_size cf) (parity cf) (stop_bit cf) (env s) in
  wp (serve_config (Some x.2) dev) (fun _ s' => s' = add_reply [u32 r.1] (set_env r.2 s)) s.
Proof.
  intros R Hx Hb Hcf r. unfold serve_config. wp_step. eapply wp_read_client; [exact R|exact Hx|].
  wp_step. eapply (wp_deref _ cf); [by rewrite Hb|]. wp_step. eapply wp_eq; [reflexivity|].
  unfold reply. wp_step. done.
Qed.

(** With a character in hand the loop does not poll, nor after a break. *)
Lemma wp_no_poll dev timeout tStart ch fuel s (Q : _ -> _ -> Prop) :
  ch <> EOF -> Q (ch, false) s ->
  wp (while fuel (fun x => (x.1 =? EOF) && negb x.2) (read_poll_body dev timeout tStart) (ch, false)) Q s.
Proof.
  intros Hch HQ. destruct fuel; cbn; rewrite (proj2 (Z.eqb_neq _ _) Hch); cbn; by wp_step.
Qed.

Lemma wp_poll_broken dev timeout tStart r fuel s (Q : _ -> _ -> Prop) :
  Q (r, true) s ->
  wp (while fuel (fun x => (x.1 =? EOF) && negb x.2) (read_poll_body dev timeout tStart) (r, true)) Q s.
Proof. intros HQ. destruct fuel; cbn; rewrite andb_false_r; cbn; by wp_step. Qed.

(** Polling until a character comes or the time is up. *)
Lemma wp_read_poll dev timeout tStart o d' n fuel s :
  polls dev timeout tStart (env s) o d' n -> (n <= fuel)%nat ->
  wp (while fuel (fun x => (x.1 =? EOF) && negb x.2) (read_poll_body dev timeout tStart) (EOF, false))
     (fun r s' => s' = set_env d' s /\ r.1 = default EOF o) s.
Proof.
  intros Hp. remember (env s) as d eqn:Hd. revert s Hd fuel.
  induction Hp as [d now d1 ch d2 Ht He Hg Hch|d now d1 Ht He|d now d1 d2 o d3 n Ht He Hg Hp IH];
    intros s -> fuel Hn; destruct fuel as [|fuel]; try lia; cbn [while fst snd];
    change ((EOF =? EOF) && negb false) with true; cbn iota;
    wp_step; unfold read_poll_body; wp_step;
    (eapply wp_eq; [unfold ecall; rewrite Ht; reflexivity|]); cbn [fst snd]; unfold expired in He; rewrite He.
  - wp_step. eapply wp_eq; [unfold ecall; cbn; rewrite Hg; reflexivity|]. wp_step.
    cbn [fst snd]. by apply wp_no_poll.
  - wp_step. cbn [fst snd]. by apply wp_poll_broken.
  - wp_step. eapply wp_eq; [unfold ecall; cbn; rewrite Hg; reflexivity|]. wp_step. cbn [fst snd].
    eapply wp_mono; [apply IH; [done|lia]|]. intros r s' [-> ->]. by destruct s.
Qed.

(** *** One client's page *)

(** [s'] is [s] with [b] in the page of the [i]-th client [c]. *)
Definition paged s a cs (i : nat) c (b : list Z) s' : Prop :=
  exists p' a', s' = set_clients p' s /\ clients_rep p' a' (<[i := set_buf b c]> cs) /\
    a_busy a' = a_busy a.

Lemma set_buf_same c b : buf c = Some b -> set_buf b c = c.
Proof. destruct c. cbn. by intros ->. Qed.

Lemma paged_refl s a cs i x c b :
  clients_rep (clients s) a cs -> client_at a cs i x c -> buf c = Some b -> paged s a cs i c b s.
Proof.
  intros R [Hx Hc] Hb. exists (clients s), a. rewrite set_clients_id. split_and!; try done.
  by rewrite (set_buf_same _ _ Hb), list_insert_id.
Qed.

Lemma paged_at s a cs i x c b p' a' :
  client_at a cs i x c -> clients_rep p' a' (<[i := set_buf b c]> cs) -> a_busy a' = a_busy a ->
  client_at a' (<[i := set_buf b c]> cs) i x (set_buf b c).
Proof.
  intros [Hx Hc] _ Hb. split; [by rewrite Hb|]. apply list_lookup_insert_eq. by eapply lookup_lt_Some.
Qed.

Lemma paged_env s a cs i c b s' d : paged s a cs i c b s' -> paged (set_env d s) a cs i c b (set_env d s').
Proof. intros (p' & a' & -> & R & Hb). by exists p', a'. Qed.

Lemma wp_paged_read s a cs i x c b s' (Q : _ -> _ -> Prop) :
  client_at a cs i x c -> paged s a cs i c b s' -> Q (set_buf b c) s' -> wp (read_client (Some x.2)) Q s'.
Proof.
  intros Hx (p' & a' & -> & R & Hb) HQ. eapply wp_read_client; [exact R|by eapply paged_at|done].
Qed.

Lemma wp_paged_write s a cs i x c b b' f s' (Q : _ -> _ -> Prop) :
  client_at a cs i x c -> paged s a cs i c b s' -> f b = Some b' ->
  length b' = Z.to_nat SEL4OSAPI_SERIAL_BUF_SIZE ->
  (forall s'', paged s a cs i c b' s'' -> env s'' = env s' -> Q tt s'') -> wp (buf_write (Some x.2) f) Q s'.
Proof.
  intros Hx (p' & a' & -> & R & Hb) Hf Hlen HQ. pose proof (paged_at s _ _ _ _ _ _ _ _ Hx R Hb) as Hx'.
  eapply wp_buf_write; [exact R|exact Hx'|done|exact Hf|]. apply HQ; [|done].
  destruct (clients_rep_page _ _ _ _ _ _ b' R Hx' Hlen) as [R' _].
  eexists _, _. split; [reflexivity|]. rewrite list_insert_insert_eq in R'. split; [exact R'|exact Hb].
Qed.

Lemma replicate_snoc_drop (b : list Z) j v :
  (j < length b)%nat ->
  <[j := v]> (replicate j v ++ drop j b) = replicate (S j) v ++ drop (S j) b.
Proof.
  intros Hj. destruct (lookup_lt_is_Some_2 b j Hj) as [w Hw].
  rewrite (drop_S b w j Hw), insert_app_r_alt by (by rewrite length_replicate).
  rewrite length_replicate, Nat.sub_diag. cbn. change (v :: drop (S j) b) with ([v] ++ drop (S j) b).
  by rewrite app_assoc, <- replicate_cons_app.
Qed.

Lemma store_at_replicate (b : list Z) j v :
  (j < length b)%nat ->
  store_at (Z.of_nat j) v (replicate j v ++ drop j b) = Some (replicate (S j) v ++ drop (S j) b).
Proof.
  intros Hj. unfold store_at. rewrite Nat2Z.id, length_app, length_replicate, length_drop.
  destruct (Nat.ltb_spec j (j + (length b - j))); [|lia]. by rewrite replicate_snoc_drop.
Qed.

Lemma polls_not_eof dev timeout tStart d ch d' n :
  polls dev timeout tStart d (Some ch) d' n -> ch <> EOF.
Proof.
  intros Hp. remember (Some ch) as o eqn:Ho. induction Hp; simplify_eq; auto.
Qed.

Lemma env_set_env d s : set_env d (set_env (env s) s) = set_env d s.
Proof. done. Qed.

Lemma paged_env_eq s a cs i c b s' : paged s a cs i c b s' -> env s' = env s.
Proof. by intros (p' & a' & -> & _). Qed.

(** The loop over the bytes, from its start at environment [dS]. *)
Definition read_inv s a cs i c b (n : nat) ch dS d' (k : nat) (x : Z * Z * bool) s' : Prop :=
  exists j : nat, (j <= n)%nat /\ k = (n - j)%nat /\
    x = (Z.of_nat j, if (j =? 0)%nat then EOF else ch, false) /\
    paged (set_env (if (j =? 0)%nat then dS else d') s) a cs i c (replicate j (u8 ch) ++ drop j b) s'.

Lemma wp_read_byte s a cs i x c b n ch dS d' dev timeout tStart m fuel k y s' :
  client_at a cs i x c -> length b = Z.to_nat SEL4OSAPI_SERIAL_BUF_SIZE -> (n <= length b)%nat ->
  polls dev timeout tStart dS (Some ch) d' m -> (m <= fuel)%nat ->
  read_inv s a cs i c b n ch dS d' k y s' -> y.1.1 < Z.of_nat n ->
  exists k', k = S k' /\
    wp (read_byte_body fuel (Some x.2) dev timeout tStart y) (read_inv s a cs i c b n ch dS d' k') s'.
Proof.
  intros Hx Hlen Hn Hp Hm (j & Hj & -> & -> & Hpg) Hlt. cbn in Hlt.
  exists (n - S j)%nat. split; [lia|]. unfold read_byte_body. wp_step.
  pose proof (polls_not_eof _ _ _ _ _ _ _ Hp) as Hch.
  apply wp_mono with (P := fun r s'' => r.1 = ch /\
    paged (set_env d' s) a cs i c (replicate j (u8 ch) ++ drop j b) s'').
  { destruct j as [|j]; cbn [Nat.eqb] in *.
    - eapply wp_mono; [eapply wp_read_poll; [|exact Hm]|].
      + rewrite (paged_env_eq _ _ _ _ _ _ _ Hpg). exact Hp.
      + intros r s'' [-> ->]. split; [done|]. by apply (paged_env _ _ _ _ _ _ _ d') in Hpg.
    - by apply wp_no_poll. }
  intros [r q] s'' [Hr Hpg']. cbn in Hr |- *. subst r. rewrite (proj2 (Z.eqb_neq _ _) Hch).
  wp_step. eapply wp_paged_write; [exact Hx|exact Hpg'|by apply store_at_replicate; lia| |].
  { rewrite length_app, length_replicate, length_drop. lia. }
  intros s3 Hpg3 _. wp_step. exists (S j). split_and!; [lia|done| |exact Hpg3].
  by replace (Z.of_nat (S j)) with (Z.of_nat j + 1) by lia.
Qed.

Lemma wp_serve_read s a cs i x c b n ch timeout tStart dS d' dev m fuel :
  clients_rep (clients s) a cs -> client_at a cs i x c -> buf c = Some b ->
  length b = Z.to_nat SEL4OSAPI_SERIAL_BUF_SIZE -> 0 < n <= SEL4OSAPI_SERIAL_BUF_SIZE ->
  of_le32 b = Some timeout -> clock_get_time (env s) = (tStart, dS) ->
  polls dev timeout tStart dS (Some ch) d' m -> (m <= fuel)%nat ->
  wp (serve_read fuel (Some x.2) dev n)
     (fun _ => paged (add_reply [n] (set_env d' (set_op_size n s))) a cs i c
                     (replicate (Z.to_nat n) (u8 ch) ++ drop (Z.to_nat n) b)) s.
Proof.
  intros R Hx Hb Hlen Hn Ht Hcl Hp Hm. unfold serve_read. wp_step. wp_step. wp_step.
  eapply wp_read_client; [exact R|exact Hx|]. wp_step. eapply (wp_deref _ timeout); [by rewrite Hb|].
  wp_step. eapply wp_eq; [unfold ecall; cbn; rewrite Hcl; reflexivity|]. wp_step. cbn [fst snd].
  eapply (wp_while (read_inv (set_op_size n s) a cs i c b (Z.to_nat n) ch dS d')).
  - intros k y s' HI Hc. apply andb_prop in Hc as [Hc _]. apply Z.ltb_lt in Hc.
    eapply wp_read_byte; [exact Hx|exact Hlen| |exact Hp|exact Hm|exact HI|];
      unfold SEL4OSAPI_SERIAL_BUF_SIZE in *; cbn in *; lia.
  - intros k y s' (j & Hj & -> & -> & Hpg) Hc. cbn in Hc. rewrite andb_true_r in Hc.
    apply Z.ltb_ge in Hc. assert (j = Z.to_nat n) as -> by lia. unfold reply. wp_step. cbn [fst].
    destruct (Nat.eqb_spec (Z.to_nat n) 0); [lia|]. rewrite Z2Nat.id by lia.
    destruct Hpg as (p' & a' & -> & HR & Ha). by exists p', a'.
  - exists 0%nat. split_and!; [lia|done|done|]. cbn. apply paged_env.
    by eapply (paged_refl (set_op_size n s)).
  - lia.
Qed.

(** The timeout passes before any character: nothing is stored. *)
Lemma wp_serve_read_timeout s a cs i x c b n timeout tStart dS d' dev m fuel :
  clients_rep (clients s) a cs -> client_at a cs i x c -> buf c = Some b -> 0 < n ->
  of_le32 b = Some timeout -> clock_get_time (env s) = (tStart, dS) ->
  polls dev timeout tStart dS None d' m -> (m <= fuel)%nat ->
  wp (serve_read fuel (Some x.2) dev n)
     (fun _ => paged (add_reply [0] (set_env d' (set_op_size n s))) a cs i c b) s.
Proof.
  intros R Hx Hb Hn Ht Hcl Hp Hm. unfold serve_read. wp_step. wp_step. wp_step.
  eapply wp_read_client; [exact R|exact Hx|]. wp_step. eapply (wp_deref _ timeout); [by rewrite Hb|].
  wp_step. eapply wp_eq; [unfold ecall; cbn; rewrite Hcl; reflexivity|]. wp_step. cbn [fst snd].
  destruct (Z.to_nat n) as [|k] eqn:Hk; [lia|]. cbn [while fst snd].
  destruct (Z.ltb_spec 0 n); [|lia]. cbn [andb negb]. wp_step. unfold read_byte_body. wp_step.
  eapply wp_mono; [eapply wp_read_poll; [|exact Hm]; exact Hp|].
  intros [r q] s' [-> Hr]. cbn in Hr. subst r. cbn. wp_step.
  destruct k; cbn; rewrite andb_false_r; cbn; unfold reply; wp_steps;
    by eapply (paged_refl (add_reply [0] (set_env d' (set_op_size n s)))).
Qed.

(** *** One request *)

Definition serve (fuel : nat) (client : ptr) (device : uart) (op mr3 : Z) : M (serial_state D) unit :=
  if op =? SERIAL_OP_WRITE then serve_write client device mr3
  else if op =? SERIAL_OP_READ then serve_read fuel client device mr3
  else if op =? SERIAL_OP_CONFIG then serve_config client device
  else ret tt.

Definition request (c : sel4osapi_serialclient_t) (op dev size : Z) : message :=
  Msg 0 0 [u32 (id c); op; u32 dev; u32 size].

Lemma client_ids_nodup p a cs : clients_rep p a cs -> NoDup (id <$> cs).
Proof. intros R. rewrite (cr_ids _ _ _ R). apply NoDup_seqZ. Qed.

Lemma client_id_word p a cs i x c :
  clients_rep p a cs -> client_at a cs i x c -> s32 (u32 (u32 (id c))) = id c.
Proof.
  intros R Hx. pose proof (client_at_id _ _ _ _ _ _ R Hx) as Hid. destruct Hx as [_ Hc].
  apply lookup_lt_Some in Hc. pose proof (cr_max _ _ _ R).
  rewrite u32_idem, u32_small by (unfold is_u32; lia). apply s32_small. lia.
Qed.

Lemma wp_serial_step s a cs i x c op devid dev size fuel (Q : _ -> _ -> Prop) :
  clients_rep (clients s) a cs -> client_at a cs i x c ->
  srv_op_size s <= SEL4OSAPI_SERIAL_BUF_SIZE -> is_u32 op -> is_u32 devid -> is_u32 size ->
  device_of devid = Some dev ->
  wp (serve fuel (Some x.2) dev op size) Q (set_srv_client (Some x.2) s) ->
  wp (serial_server_step fuel (request c op devid size)) Q s.
Proof.
  intros R Hx Hop Ho Hd Hs Hdev Hserve. unfold serial_server_step, request. wp_step. wp_step.
  wp_step. cbn [getMR nth mrs].
  eapply wp_mono; [by eapply wp_find_client|]. intros [] s' ->.
  rewrite (client_id_word _ _ _ _ _ _ R Hx).
  rewrite (search_hit _ _ _ i x c) by first [by eapply client_ids_nodup|apply Hx].
  wp_steps. eapply wp_read_client; [exact R|exact Hx|]. wp_step.
  destruct (client_at_ok _ _ _ _ _ _ R Hx) as [Hsz _].
  apply wp_assert; [rewrite Hsz; cbn; by apply Z.leb_le|].
  rewrite !u32_small by (try done; apply u32_range). rewrite Hdev. exact Hserve.
Qed.

Lemma wp_serial_request s a cs i x c op devid dev size fuel r (P : serial_state D -> Prop) :
  clients_rep (clients s) a cs -> client_at a cs i x c ->
  srv_op_size s <= SEL4OSAPI_SERIAL_BUF_SIZE -> is_u32 op -> is_u32 devid -> is_u32 size ->
  device_of devid = Some dev ->
  wp (serve fuel (Some x.2) dev op size) (fun _ s' => replies s' = replies s ++ [[r]] /\ P s')
     (set_srv_client (Some x.2) s) ->
  wp (serial_request fuel c op devid size) (fun v s' => v = r /\ P s') s.
Proof.
  intros R Hx Hop Ho Hd Hs Hdev Hserve. unfold serial_request, serial_call. wp_step. wp_step. wp_step.
  wp_step.
  eapply wp_serial_step; [exact R|exact Hx|exact Hop|exact Ho|exact Hd|exact Hs|exact Hdev|].
  eapply wp_mono; [exact Hserve|]. intros [] s' [Hr HP]. wp_step. wp_step.
  rewrite Hr, drop_app_length. by wp_steps.
Qed.

(** The state after a request was served with result [r]. *)
Definition served (x : loc * loc) (n : Z) (d : D) (r : Z) s : serial_state D :=
  SerialState (clients s) (server_ep s) n (Some x.2) d (replies s ++ [[r]]).

Lemma store_block_Some src b :
  (length src <= length b)%nat -> store_block src b = Some (src ++ drop (length src) b).
Proof. intros H. unfold store_block. by destruct (Nat.leb_spec (length src) (length b)); [|lia]. Qed.

Lemma load_block_Some n b :
  (Z.to_nat n <= length b)%nat -> load_block n b = Some (take (Z.to_nat n) b).
Proof. intros H. unfold load_block. by destruct (Nat.leb_spec (Z.to_nat n) (length b)); [|lia]. Qed.

Lemma block_length (src b : list Z) :
  (length src <= length b)%nat -> length (src ++ drop (length src) b) = length b.
Proof. rewrite length_app, length_drop. lia. Qed.

Lemma served_eq s x n d r :
  srv_client s = Some x.2 -> add_reply [r] (set_env d (set_op_size n s)) = served x n d r s.
Proof. unfold served, add_reply, set_env, set_op_size. cbn. by intros ->. Qed.

(** The request of a client whose page holds [b], served into [b']. *)
Lemma wp_paged_request s a cs i x c op devid dev size fuel b b' n d r s1 :
  client_at a cs i x c -> srv_op_size s <= SEL4OSAPI_SERIAL_BUF_SIZE ->
  is_u32 op -> is_u32 devid -> is_u32 size -> device_of devid = Some dev ->
  paged s a cs i c b s1 ->
  (forall s2 a2 cs2, clients_rep (clients s2) a2 cs2 -> client_at a2 cs2 i x (set_buf b c) -> env s2 = env s1 ->
     srv_client s2 = Some x.2 ->
     wp (serve fuel (Some x.2) dev op size)
        (fun _ s' => paged (served x (match n with Some n => n | None => srv_op_size s2 end) d r s2)
                           a2 cs2 i (set_buf b c) b' s') s2) ->
  wp (serial_request fuel c op devid size)
     (fun v s' => v = r /\
        paged (served x (match n with Some n => n | None => srv_op_size s end) d r s) a cs i c b' s') s1.
Proof.
  intros Hx Hop Ho Hd Hs Hdev (p1 & a1 & -> & R1 & Hb1) Hserve.
  pose proof (paged_at s _ _ _ _ _ _ _ _ Hx R1 Hb1) as Hx1.
  change (serial_request fuel c op devid size) with (serial_request fuel (set_buf b c) op devid size).
  eapply (wp_serial_request _ a1 (<[i := set_buf b c]> cs) i x (set_buf b c));
    [exact R1|exact Hx1|exact Hop|exact Ho|exact Hd|exact Hs|exact Hdev|].
  eapply wp_mono; [eapply (Hserve (set_srv_client (Some x.2) (set_clients p1 s))); [exact R1|exact Hx1|done|done]|].
  intros [] s' (p2 & a2 & -> & R2 & Hb2). split; [done|].
  exists p2, a2. rewrite list_insert_insert_eq in R2. split_and!; [done|exact R2|]. by rewrite Hb2.
Qed.

(** *** The client calls *)

Lemma wp_client_write s a cs i x c devid dev data size fuel :
  clients_rep (clients s) a cs -> client_at a cs i x c ->
  srv_op_size s <= SEL4OSAPI_SERIAL_BUF_SIZE -> is_u32 devid -> device_of devid = Some dev ->
  0 <= size <= SEL4OSAPI_SERIAL_BUF_SIZE -> size <= Z.of_nat (length data) ->
  let bs := take (Z.to_nat size) data in
  wp (sel4osapi_io_serial_write fuel (Some x.2) devid data size)
     (fun r s' => r = size /\ exists p' a' b',
        clients_rep p' a' (<[i := set_buf b' c]> cs) /\ a_busy a' = a_busy a /\ take (Z.to_nat size) b' = bs /\
        s' = set_clients p' (served x size
               (sel4osapi_semaphore_give (buf_avail c)
                  (put_all dev bs (sel4osapi_semaphore_take (buf_avail c) 0 (env s)))) size s)) s.
Proof.
  intros R Hx Hop Hd Hdev Hsz Hlen bs. destruct (client_at_ok _ _ _ _ _ _ R Hx) as [Hbs (b & Hb & Hbl)].
  rewrite serial_buf_4096 in Hsz.
  assert (Hbl' : length bs = Z.to_nat size) by (unfold bs; rewrite length_take; lia).
  assert (Hle : (length bs <= length b)%nat) by (rewrite serial_buf_4096 in Hbl; lia).
  unfold sel4osapi_io_serial_write, edo. wp_step. eapply wp_read_client; [exact R|exact Hx|].
  wp_step. apply wp_assert; [rewrite Hbs; apply Z.leb_le; rewrite serial_buf_4096; lia|].
  wp_step. wp_step. wp_step. eapply wp_deref; [apply load_block_Some; lia|]. wp_step.
  set (s0 := set_env _ s).
  eapply (wp_paged_write s0); [exact Hx|by eapply (paged_refl s0)|by apply store_block_Some|by rewrite block_length|].
  intros s1 Hpg He. wp_step. fold bs in Hpg. set (b1 := bs ++ drop (length bs) b) in *.
  eapply wp_mono.
  { eapply (wp_paged_request s0 a cs i x c SERIAL_OP_WRITE devid dev size fuel b1 b1 (Some size));
      [exact Hx|exact Hop|done|exact Hd|unfold is_u32; lia|exact Hdev|exact Hpg|].
    intros s2 a2 cs2 R2 Hx2 He2 Hc2. unfold serve. cbn [Z.eqb]. cbn.
    eapply wp_mono; [eapply (wp_serve_write s2 a2 cs2 i x (set_buf b1 c) b1); [exact R2|exact Hx2|done|]|].
    { unfold b1. rewrite block_length by done. rewrite serial_buf_4096 in Hbl. lia. }
    intros [] s' ->. rewrite He2, He, (served_eq _ x) by done.
    eapply (paged_refl (served _ _ _ _ _)); [exact R2|exact Hx2|done]. }
  intros r s2 [-> (p' & a' & -> & R' & Ha)]. wp_steps. rewrite s32_small by lia.
  split; [done|]. exists p', a', b1. split_and!; [exact R'|exact Ha| |].
  - unfold b1. by rewrite <- Hbl', take_app_length.
  - unfold b1. rewrite <- Hbl', take_app_length. done.
Qed.

(** What a read that the device answers leaves in the page. *)
Definition page_read (b : list Z) (timeout n ch : Z) : list Z :=
  replicate (Z.to_nat n) (u8 ch) ++ drop (Z.to_nat n) (le32 timeout ++ drop 4 b).

Lemma wp_client_read s a cs i x c b devid dev data size timeout tStart dS o d' m fuel :
  clients_rep (clients s) a cs -> client_at a cs i x c -> buf c = Some b ->
  srv_op_size s <= SEL4OSAPI_SERIAL_BUF_SIZE -> is_u32 devid -> device_of devid = Some dev ->
  0 < size <= SEL4OSAPI_SERIAL_BUF_SIZE -> size <= Z.of_nat (length data) -> is_u32 timeout ->
  clock_get_time (sel4osapi_semaphore_take (buf_avail c) 0 (env s)) = (tStart, dS) ->
  polls dev timeout tStart dS o d' m -> (m <= fuel)%nat ->
  wp (sel4osapi_io_serial_read fuel (Some x.2) devid data size timeout)
     (fun r s' =>
        r = match o with
            | Some ch => (size, replicate (Z.to_nat size) (u8 ch) ++ drop (Z.to_nat size) data)
            | None => (0, data)
            end /\
        exists p' a' b', clients_rep p' a' (<[i := set_buf b' c]> cs) /\
          s' = set_clients p' (served x size (sel4osapi_semaphore_give (buf_avail c) d') r.1 s)) s.
Proof.
  intros R Hx Hb Hop Hd Hdev Hsz Hlen Hto Hcl Hp Hm.
  destruct (client_at_ok _ _ _ _ _ _ R Hx) as [Hbs (b0 & Hb0 & Hbl)]. rewrite Hb in Hb0. injection Hb0 as <-.
  rewrite serial_buf_4096 in *. change (Z.to_nat 4096) with (Z.to_nat SEL4OSAPI_SERIAL_BUF_SIZE) in Hbl.
  assert (Hbl4 : length b = Z.to_nat 4096) by exact Hbl.
  assert (Hle : (length (le32 timeout) <= length b)%nat) by (cbn; lia).
  unfold sel4osapi_io_serial_read, edo. wp_step. eapply wp_read_client; [exact R|exact Hx|].
  wp_step. apply wp_assert; [rewrite Hbs; apply Z.leb_le; lia|]. wp_step. wp_step. wp_step.
  set (s0 := set_env _ s).
  eapply (wp_paged_write s0); [exact Hx|by eapply (paged_refl s0)|by apply store_block_Some|by rewrite block_length|].
  intros s1 Hpg He. wp_step. change (drop (length (le32 timeout)) b) with (drop 4 b) in Hpg.
  set (b1 := le32 timeout ++ drop 4 b) in *.
  assert (Hb1l : length b1 = Z.to_nat SEL4OSAPI_SERIAL_BUF_SIZE) by (by rewrite <- Hbl; apply block_length).
  set (b2 := match o with Some ch => page_read b timeout size ch | None => b1 end).
  set (r := match o with Some _ => size | None => 0 end).
  eapply wp_mono.
  { eapply (wp_paged_request s0 a cs i x c SERIAL_OP_READ devid dev size fuel b1 b2 (Some size) d' r);
      [exact Hx|exact Hop|done|exact Hd|unfold is_u32; lia|exact Hdev|exact Hpg|].
    intros s2 a2 cs2 R2 Hx2 He2 Hc2. unfold serve. cbn [Z.eqb]. cbn.
    assert (Hcl2 : clock_get_time (env s2) = (tStart, dS)) by (rewrite He2, He; exact Hcl).
    pose proof (of_le32_le32 timeout (drop 4 b) Hto) as Hword. unfold b2, r, page_read.
    rewrite <- (served_eq _ x) by done. destruct o as [ch|].
    - eapply wp_serve_read; [exact R2|exact Hx2|done|exact Hb1l|rewrite serial_buf_4096; lia|exact Hword|
        exact Hcl2|exact Hp|exact Hm].
    - eapply wp_serve_read_timeout; [exact R2|exact Hx2|done|lia|exact Hword|exact Hcl2|exact Hp|exact Hm]. }
  intros v s2 [-> Hpg2]. wp_step.
  apply wp_mono with (P := fun data' s' => s' = s2 /\
    data' = match o with
            | Some ch => replicate (Z.to_nat size) (u8 ch) ++ drop (Z.to_nat size) data
            | None => data end).
  { unfold r, b2 in *. destruct o as [ch|]; [|change (0 <? 0) with false; cbn iota; by wp_step].
    destruct (Z.ltb_spec 0 size); [|lia]. wp_step. eapply wp_paged_read; [exact Hx|exact Hpg2|].
    unfold page_read. cbn [buf set_buf].
    eapply wp_deref; [|done]. cbn [mbind option_bind].
    rewrite load_block_Some by (rewrite length_app, length_replicate; lia). cbn [mbind option_bind].
    rewrite take_app_le, take_replicate, Nat.min_id by (rewrite length_replicate; lia).
    rewrite store_block_Some, length_replicate by (rewrite length_replicate; lia). done. }
  intros data' s3 [-> ->]. wp_steps.
  destruct Hpg2 as (p' & a' & -> & R' & Ha).
  rewrite s32_small by (unfold r; destruct o; lia). unfold r. split; [by destruct o|].
  exists p', a', b2. split; [exact R'|]. by destruct o.
Qed.

Lemma wp_client_configure s a cs i x c devid dev cf fuel :
  clients_rep (clients s) a cs -> client_at a cs i x c ->
  srv_op_size s <= SEL4OSAPI_SERIAL_BUF_SIZE -> is_u32 devid -> device_of devid = Some dev ->
  is_s32 (bps cf) -> is_s32 (char_size cf) -> is_u32 (parity cf) -> is_s32 (stop_bit cf) ->
  let r := serial_configure dev (bps cf) (char_size cf) (parity cf) (stop_bit cf)
             (sel4osapi_semaphore_take (buf_avail c) 0 (env s)) in
  wp (sel4osapi_io_serial_configure fuel (Some x.2) devid (bps cf) (char_size cf) (parity cf) (stop_bit cf))
     (fun v s' => v = s32 r.1 /\ exists p' a' b', clients_rep p' a' (<[i := set_buf b' c]> cs) /\
          s' = set_clients p' (served x (srv_op_size s)
                 (sel4osapi_semaphore_give (buf_avail c) r.2) (u32 r.1) s)) s.
Proof.
  intros R Hx Hop Hd Hdev H1 H2 H3 H4 r. destruct (client_at_ok _ _ _ _ _ _ R Hx) as [Hbs (b & Hb & Hbl)].
  assert (Hbl4 : length b = Z.to_nat 4096) by exact Hbl.
  unfold sel4osapi_io_serial_configure, edo. wp_step. eapply wp_read_client; [exact R|exact Hx|].
  wp_step. wp_step. wp_step. set (s0 := set_env _ s).
  replace (SerialConfig (bps cf) (char_size cf) (parity cf) (stop_bit cf)) with cf by by destruct cf.
  assert (Hle : (length (config_store cf) <= length b)%nat) by (cbn; lia).
  eapply (wp_paged_write s0); [exact Hx|by eapply (paged_refl s0)|by apply store_block_Some|by rewrite block_length|].
  intros s1 Hpg He. wp_step. set (b1 := config_store cf ++ _) in *.
  eapply wp_mono.
  { eapply (wp_paged_request s0 a cs i x c SERIAL_OP_CONFIG devid dev _ fuel b1 b1 None r.2 (u32 r.1));
      [exact Hx|exact Hop|done|exact Hd|done|exact Hdev|exact Hpg|].
    intros s2 a2 cs2 R2 Hx2 He2 Hc2. unfold serve. cbn [Z.eqb]. cbn.
    eapply wp_mono; [eapply (wp_serve_config s2 a2 cs2 i x (set_buf b1 c) b1 cf dev);
      [exact R2|exact Hx2|done|by apply config_load_store]|].
    intros [] s' ->. rewrite He2, He. rewrite <- (served_eq _ x) by done.
    eapply (paged_refl (add_reply _ _)); [exact R2|exact Hx2|done]. }
  intros v s2 [-> (p' & a' & -> & R' & Ha)]. wp_steps.
  split; [unfold s32; by rewrite u32_idem|]. by exists p', a', b1.
Qed.

(** *** Creating clients *)

Lemma clients_rep_length p a cs :
  clients_rep p a cs ->
  Z.of_nat (length (a_free a) + length cs) = SEL4OSAPI_USER_PROCESS_MAX.
Proof.
  intros R. rewrite <- (cr_size _ _ _ R), (rep_size _ _ (cr_pool _ _ _ R)).
  by rewrite (Forall2_length _ _ _ (cr_vals _ _ _ R)).
Qed.
End serial_spec.

(** Documented behaviour of the allocators: a semaphore handle that is not
    NULL, and as many zeroed or recycled bytes as the pages asked for. *)
Class SerialEnvOk (D : Type) `{SerialEnv D} := {
  semaphore_create_ok n d : (sel4osapi_semaphore_create n d).1 <> 0;
  new_pages_ok n d : 0 <= n -> exists b, (vspace_new_pages n d).1 = Some b /\
    Z.of_nat (length b) = n * PAGE_SIZE_4K
}.

Section create.
Context {CFG : Config} {D : Type} {ENV : SerialEnv D} {EOK : SerialEnvOk D}.
Implicit Types (s : serial_state D) (a : apool sel4osapi_serialclient_t).

Lemma wp_create_client s a cs :
  clients_rep (clients s) a cs -> SEL4OSAPI_USER_PROCESS_MAX < 2 ^ 31 ->
  Z.of_nat (length cs) < SEL4OSAPI_USER_PROCESS_MAX ->
  wp sel4osapi_io_serial_create_client
     (fun r s' => exists x a' c, r = Some x.2 /\ clients_rep (clients s') a' (cs ++ [c]) /\
        a_busy a' = a_busy a ++ [x] /\ id c = Z.of_nat (length cs) + 1 /\
        client_ep c = server_ep s' /\ server_ep s' = server_ep s /\
        srv_op_size s' = srv_op_size s /\ replies s' = replies s) s.
Proof.
  intros R Hmax Hlen. pose proof (clients_rep_length _ _ _ R) as Hl.
  unfold sel4osapi_io_serial_create_client, on_clients. wp_step. apply wp_zoom.
  eapply wp_mono; [apply wp_alloc_null, R|]. intros r p [Hsz Hr].
  destruct (a_free a) as [|x fr] eqn:Hf; [cbn in Hl; lia|]. destruct Hr as (-> & Hels & R').
  wp_steps. unfold simple_pool_get_current_size. wp_steps. cbn [clients set_clients].
  eapply wp_eq; [reflexivity|]. wp_step.
  apply wp_assert; [rewrite (proj2 (Z.eqb_neq _ _)); [done|apply semaphore_create_ok]|].
  wp_step. eapply wp_eq; [reflexivity|]. wp_step.
  match goal with |- context [vspace_new_pages ?n ?d] => destruct (new_pages_ok n d) as (b & Hb & Hbl); [done|] end.
  rewrite Hb. apply wp_assert; [done|]. wp_step. wp_step. wp_step.
  assert (Hx : x ∈ fr ++ (a_busy a ++ [x])) by set_solver.
  destruct (rep_entry_get _ _ x R' Hx) as (nd & v & Hn & Hel & Hcell).
  unfold read_client, on_clients. apply wp_zoom. cbn [clients set_clients set_env].
  eapply wp_mem_read_cell; [done|exact Hcell|]. wp_step. apply wp_zoom. cbn [clients set_clients set_env].
  apply wp_on_mem. eapply wp_write_cell; [done|exact Hcell|]. wp_step.
  set (c := SerialClient _ _ _ _ _).
  assert (Hcs : length (a_busy a) = length cs) by (eapply Forall2_length; apply R).
  assert (Hid : id c = Z.of_nat (length cs) + 1).
  { cbn. rewrite (rep_current _ _ R'). cbn. rewrite length_app, Hcs. cbn. lia. }
  exists x, (APool fr (a_busy a ++ [x]) (<[x.2 := c]> (a_vals a))), c.
  cbn [clients set_clients set_env server_ep srv_op_size replies]. split_and!; try done.
  split; cbn [pool set_mem a_free a_busy a_vals].
  - exact (rep_write p _ x c R' Hx).
  - by rewrite Hsz, (cr_size _ _ _ R).
  - apply Forall2_app; [apply vals_along_insert_ne; [set_solver|apply R]|].
    constructor; [|constructor]. by rewrite lookup_insert_eq.
  - rewrite fmap_app, (cr_ids _ _ _ R), length_app. cbn [length fmap list_fmap]. rewrite Hid.
    rewrite Nat2Z.inj_add, seqZ_app by lia. f_equal. change (Z.of_nat 1) with 1.
    rewrite seqZ_cons by lia. rewrite seqZ_nil by lia. f_equal. lia.
  - rewrite length_app. cbn. lia.
  - apply Forall_app. split; [apply R|]. apply Forall_singleton. split; [done|].
    exists b. split; [done|]. change SEL4OSAPI_SERIAL_BUF_PAGES with 1 in Hbl.
    change (Z.to_nat SEL4OSAPI_SERIAL_BUF_SIZE) with (Z.to_nat 4096). unfold PAGE_SIZE_4K in Hbl. lia.
Qed.
End create.

(** ** Properties *)

Section properties.
Context {CFG : Config} {D : Type} {ENV : SerialEnv D}.
Implicit Types (s : serial_state D) (cs : list sel4osapi_serialclient_t).
Implicit Types (a : apool sel4osapi_serialclient_t).

(** C18: A write by a client reaches its device: the bytes of [data], in order
    and each once, are put on the UART the client named, between the take and
    the give of its semaphore; the call returns [size], and no other client's
    page changes. *)
Theorem serial_write_delivers s a cs i x c devid dev data size fuel :
  clients_rep (clients s) a cs -> client_at a cs i x c ->
  srv_op_size s <= SEL4OSAPI_SERIAL_BUF_SIZE -> is_u32 devid -> device_of devid = Some dev ->
  0 <= size <= SEL4OSAPI_SERIAL_BUF_SIZE -> size <= Z.of_nat (length data) ->
  exists s' a' b', sel4osapi_io_serial_write fuel (Some x.2) devid data size s = Done (size, s') /\
    env s' = sel4osapi_semaphore_give (buf_avail c)
               (put_all dev (take (Z.to_nat size) data)
                  (sel4osapi_semaphore_take (buf_avail c) 0 (env s))) /\
    clients_rep (clients s') a' (<[i := set_buf b' c]> cs) /\ srv_op_size s' = size.
Proof.
  intros H1 H2 H3 H4 H5 H6 H7.
  destruct (wp_client_write s a cs i x c devid dev data size fuel) as (r & s' & Hr & -> & p' & a' & b' & R & _ & _ & ->); try done.
  eexists _, a', b'. split; [exact Hr|]. done.
Qed.

(** C19: A read of [size] bytes takes one character from the device and returns
    [size] copies of it: the server does not clear [ret] after storing a
    character, so it never polls the device for a second one. *)
Theorem serial_read_replicates s a cs i x c b devid dev data size timeout tStart dS ch d' m fuel :
  clients_rep (clients s) a cs -> client_at a cs i x c -> buf c = Some b ->
  srv_op_size s <= SEL4OSAPI_SERIAL_BUF_SIZE -> is_u32 devid -> device_of devid = Some dev ->
  0 < size <= SEL4OSAPI_SERIAL_BUF_SIZE -> size <= Z.of_nat (length data) -> is_u32 timeout ->
  clock_get_time (sel4osapi_semaphore_take (buf_avail c) 0 (env s)) = (tStart, dS) ->
  polls dev timeout tStart dS (Some ch) d' m -> (m <= fuel)%nat ->
  exists s', sel4osapi_io_serial_read fuel (Some x.2) devid data size timeout s =
      Done ((size, replicate (Z.to_nat size) (u8 ch) ++ drop (Z.to_nat size) data), s') /\
    env s' = sel4osapi_semaphore_give (buf_avail c) d'.
Proof.
  intros H1 H2 H3 H4 H5 H6 H7 H8 H9 H10 H11 H12.
  destruct (wp_client_read s a cs i x c b devid dev data size timeout tStart dS (Some ch) d' m fuel)
    as (r & s' & Hr & -> & p' & a' & b' & R & ->); try done.
  eexists. split; [exact Hr|]. done.
Qed.

(** When the timeout passes before a character arrives the read returns 0
    and leaves the caller's data as it was. *)
Theorem serial_read_times_out s a cs i x c b devid dev data size timeout tStart dS d' m fuel :
  clients_rep (clients s) a cs -> client_at a cs i x c -> buf c = Some b ->
  srv_op_size s <= SEL4OSAPI_SERIAL_BUF_SIZE -> is_u32 devid -> device_of devid = Some dev ->
  0 < size <= SEL4OSAPI_SERIAL_BUF_SIZE -> size <= Z.of_nat (length data) -> is_u32 timeout ->
  clock_get_time (sel4osapi_semaphore_take (buf_avail c) 0 (env s)) = (tStart, dS) ->
  polls dev timeout tStart dS None d' m -> (m <= fuel)%nat ->
  exists s', sel4osapi_io_serial_read fuel (Some x.2) devid data size timeout s = Done ((0, data), s') /\
    env s' = sel4osapi_semaphore_give (buf_avail c) d'.
Proof.
  intros H1 H2 H3 H4 H5 H6 H7 H8 H9 H10 H11 H12.
  destruct (wp_client_read s a cs i x c b devid dev data size timeout tStart dS None d' m fuel)
    as (r & s' & Hr & -> & p' & a' & b' & R & ->); try done.
  eexists. split; [exact Hr|]. done.
Qed.

(** A configuration crosses the shared page unchanged: the server calls
    serial_configure on the client's device with exactly the four values the
    client passed, and the client gets its result. *)
Theorem serial_configure_roundtrip s a cs i x c devid dev cf fuel :
  clients_rep (clients s) a cs -> client_at a cs i x c ->
  srv_op_size s <= SEL4OSAPI_SERIAL_BUF_SIZE -> is_u32 devid -> device_of devid = Some dev ->
  is_s32 (bps cf) -> is_s32 (char_size cf) -> is_u32 (parity cf) -> is_s32 (stop_bit cf) ->
  let r := serial_configure dev (bps cf) (char_size cf) (parity cf) (stop_bit cf)
             (sel4osapi_semaphore_take (buf_avail c) 0 (env s)) in
  exists s', sel4osapi_io_serial_configure fuel (Some x.2) devid (bps cf) (char_size cf)
               (parity cf) (stop_bit cf) s = Done (s32 r.1, s') /\
    env s' = sel4osapi_semaphore_give (buf_avail c) r.2.
Proof.
  intros H1 H2 H3 H4 H5 H6 H7 H8 H9 r.
  destruct (wp_client_configure s a cs i x c devid dev cf fuel) as (v & s' & Hr & -> & p' & a' & b' & R & ->); try done.
  eexists. split; [exact Hr|]. done.
Qed.

Lemma while_write_wild s a cs i x c b dev n fuel j d :
  clients_rep (clients s) a cs -> client_at a cs i x c -> buf c = Some b ->
  Z.of_nat (length b) < n -> 0 <= j <= Z.of_nat (length b) -> (Z.to_nat (n - j) <= fuel)%nat ->
  while fuel (fun i => i <? n)
    (fun i => let! ch := buf_load (Some x.2) i in edo (ps_cdev_putchar dev ch) ;; ret (i + 1)) j
    (set_env d s) = Wild_access.
Proof.
  intros R Hx Hb Hn. revert j d. induction fuel as [|fuel IH]; intros j d Hj Hf; [lia|].
  cbn [while]. destruct (Z.ltb_spec j n); [|lia].
  destruct (wp_read_client (set_env d s) a cs i x c (fun v s' => v = c /\ s' = set_env d s))
    as (v & s' & Hrd & -> & ->); [exact R|exact Hx|done|].
  unfold bind at 1 2. unfold buf_load. rewrite (bind_done _ _ _ _ _ Hrd). rewrite Hb. cbn [mbind option_bind].
  destruct (b !! Z.to_nat j) as [ch|] eqn:Hch; cbn [deref]; [|done].
  unfold edo, modify, bind at 1. cbn. apply lookup_lt_Some in Hch.
  apply (IH (j + 1) (ps_cdev_putchar dev ch d)); lia.
Qed.

(** The size check of the server looks at the size of the previous
    request: a write request whose size exceeds the client's page passes it,
    and the server reads on past the page. *)
Theorem serial_size_unchecked s a cs i x c devid dev size fuel :
  clients_rep (clients s) a cs -> client_at a cs i x c ->
  srv_op_size s <= SEL4OSAPI_SERIAL_BUF_SIZE -> is_u32 devid -> device_of devid = Some dev ->
  SEL4OSAPI_SERIAL_BUF_SIZE < size < 2 ^ 32 ->
  serial_server_step fuel (Msg 0 0 [id c; SERIAL_OP_WRITE; devid; size]) s = Wild_access.
Proof.
  intros R Hx Hop Hd Hdev Hsz. destruct (client_at_ok _ _ _ _ _ _ R Hx) as [Hbs (b & Hb & Hbl)].
  destruct (wp_find_client s a cs (id c) R) as ([] & s1 & Hf & Hs1).
  rewrite (search_hit _ _ _ i x c) in Hs1 by first [by eapply client_ids_nodup|apply Hx]. subst s1.
  unfold serial_server_step. cbn [getMR nth mrs]. rewrite (bind_done _ _ s tt s eq_refl). cbn zeta.
  pose proof (client_id_word _ _ _ _ _ _ R Hx) as Hid. rewrite u32_idem in Hid. rewrite Hid.
  rewrite (bind_done _ _ _ _ _ Hf), (bind_done _ _ _ _ _ eq_refl), (bind_done _ _ _ tt _ eq_refl).
  destruct (wp_read_client (set_srv_client (Some x.2) s) a cs i x c
              (fun v s' => v = c /\ s' = set_srv_client (Some x.2) s)) as (v & s' & Hrd & -> & ->);
    [exact R|exact Hx|done|].
  rewrite (bind_done _ _ _ _ _ Hrd). unfold bind at 1, assert_ at 1. cbn [srv_op_size set_srv_client].
  rewrite Hbs, (proj2 (Z.leb_le _ _) Hop).
  rewrite (u32_small devid), (u32_small size), Hdev by (done || (unfold is_u32; rewrite serial_buf_4096 in *; lia)).
  change (u32 SERIAL_OP_WRITE =? SERIAL_OP_WRITE) with true. cbn iota.
  unfold serve_write. rewrite (bind_done _ _ _ tt _ eq_refl).
  pose proof (while_write_wild (set_op_size size (set_srv_client (Some x.2) s)) a cs i x c b dev size
                (Z.to_nat size) 0 (env s) R Hx Hb) as Hw.
  change (set_env (env s) (set_op_size size (set_srv_client (Some x.2) s)))
    with (set_op_size size (set_srv_client (Some x.2) s)) in Hw.
  apply bind_wild, Hw; [|lia|lia].
  rewrite Hbl. change (Z.to_nat SEL4OSAPI_SERIAL_BUF_SIZE) with (Z.to_nat 4096).
  rewrite serial_buf_4096 in Hsz. lia.
Qed.

(** A request that names no client of the server, or no UART, fails an
    assertion of the serial server. *)
Theorem serial_bad_request_asserts m s a cs fuel :
  clients_rep (clients s) a cs -> cs <> [] -> msg_length m = 4 ->
  s32 (u32 (getMR 0 m)) ∉ id <$> cs \/ device_of (u32 (getMR 2 m)) = None ->
  srv_op_size s <= SEL4OSAPI_SERIAL_BUF_SIZE ->
  serial_server_step fuel m s = Assert_failed.
Proof.
  intros R Hne Hm Hbad Hop. set (k := s32 (u32 (getMR 0 m))).
  destruct (wp_find_client s a cs k R) as ([] & s1 & Hf & ->).
  unfold serial_server_step. rewrite Hm, (bind_done _ _ s tt s eq_refl). cbn zeta. fold k.
  rewrite (bind_done _ _ _ _ _ Hf), (bind_done _ _ _ _ _ eq_refl).
  pose proof (Forall2_length _ _ _ (cr_vals _ _ _ R)) as Hlen.
  destruct (decide (k ∈ id <$> cs)) as [Hin|Hnot].
  - apply list_elem_of_fmap in Hin as (c & Hc & Hin). apply list_elem_of_lookup in Hin as [i Hi].
    destruct (lookup_lt_is_Some_2 (a_busy a) i) as [x Hx]; [apply lookup_lt_Some in Hi; lia|].
    rewrite Hc, (search_hit _ _ _ i x c) by first [by eapply client_ids_nodup|done].
    rewrite (bind_done _ _ _ tt _ eq_refl).
    destruct (wp_read_client (set_srv_client (Some x.2) s) a cs i x c
                (fun v s' => v = c /\ s' = set_srv_client (Some x.2) s)) as (v & s' & Hrd & -> & ->);
      [exact R|split; [exact Hx|exact Hi]|done|].
    rewrite (bind_done _ _ _ _ _ Hrd).
    destruct Hbad as [Hbad| ->].
    { exfalso. apply Hbad. fold k. rewrite Hc. apply list_elem_of_fmap_2. by eapply list_elem_of_lookup_2. }
    unfold bind, assert_. by destruct (_ <=? _).
  - rewrite search_miss by done. rewrite bool_decide_false by done. done.
Qed.

(** A request of a client with an unknown operation gets no reply: the
    server goes on to the next request and the caller stays blocked. *)
Theorem serial_unknown_op_unanswered s a cs i x c op devid dev size fuel :
  clients_rep (clients s) a cs -> client_at a cs i x c ->
  srv_op_size s <= SEL4OSAPI_SERIAL_BUF_SIZE -> is_u32 op -> is_u32 devid -> is_u32 size ->
  device_of devid = Some dev ->
  op <> SERIAL_OP_WRITE -> op <> SERIAL_OP_READ -> op <> SERIAL_OP_CONFIG ->
  serial_server_step fuel (request c op devid size) s = Done (tt, set_srv_client (Some x.2) s) /\
  serial_call fuel (request c op devid size) s = Out_of_fuel.
Proof.
  intros R Hx Hop Ho Hd Hs Hdev H1 H2 H3.
  destruct (wp_serial_step s a cs i x c op devid dev size fuel
              (fun _ s' => s' = set_srv_client (Some x.2) s)) as ([] & s' & Hst & ->); try done.
  - unfold serve. rewrite !(proj2 (Z.eqb_neq _ _)) by done. by wp_step.
  - split; [done|]. unfold serial_call. rewrite (bind_done _ _ _ _ _ eq_refl), (bind_done _ _ _ _ _ Hst).
    rewrite (bind_done _ _ _ _ _ eq_refl). cbn [replies set_srv_client]. by rewrite drop_all.
Qed.
End properties.

Section numbering.
Context {CFG : Config} {D : Type} {ENV : SerialEnv D} {EOK : SerialEnvOk D}.

Fixpoint create_clients (n : nat) : M (serial_state D) (list ptr) :=
  match n with
  | O => ret []
  | S n =>
      let! c := sel4osapi_io_serial_create_client in
      let! cs := create_clients n in
      ret (c :: cs)
  end.

Lemma wp_create_clients n s a cs :
  clients_rep (clients s) a cs -> SEL4OSAPI_USER_PROCESS_MAX < 2 ^ 31 ->
  Z.of_nat (length cs + n) <= SEL4OSAPI_USER_PROCESS_MAX ->
  wp (create_clients n)
     (fun rs s' => exists xs a' new, clients_rep (clients s') a' (cs ++ new) /\
        a_busy a' = a_busy a ++ xs /\ rs = (fun x => Some x.2) <$> xs /\ length new = n /\
        srv_op_size s' = srv_op_size s) s.
Proof.
  revert s a cs. induction n as [|n IH]; intros s a cs R Hmax Hn.
  - apply wp_ret. exists [], a, []. by rewrite !app_nil_r.
  - cbn [create_clients]. wp_step. eapply wp_mono; [apply (wp_create_client s a cs R Hmax); lia|].
    intros r s1 (x & a1 & c & -> & R1 & Hb1 & _ & _ & _ & Hop & _). wp_step.
    eapply wp_mono; [apply (IH s1 a1 (cs ++ [c]) R1 Hmax); rewrite length_app; cbn; lia|].
    intros rs s2 (xs & a2 & new & R2 & Hb2 & -> & Hl & Hop2). wp_step.
    exists (x :: xs), a2, (c :: new). rewrite Hb2, Hb1, <- !app_assoc in *. cbn in *.
    split_and!; try done; [by f_equal|by rewrite Hop2].
Qed.

Lemma wp_serial_boot uninit h ep (d : D) :
  heap_wf h -> 0 < SEL4OSAPI_USER_PROCESS_MAX ->
  pool_bytes SEL4OSAPI_USER_PROCESS_MAX sizeof_serialclient <= avail h -> ep <> seL4_CapNull ->
  exists s a, serial_boot uninit h ep d = Done s /\ clients_rep (clients s) a [] /\
    a_busy a = [] /\ srv_op_size s = 0 /\ env s = d.
Proof.
  intros Hwf Hmax Hmem Hep.
  destruct (wp_pool_new (init:=None) (cmp:=None) SEL4OSAPI_USER_PROCESS_MAX
              sizeof_serialclient NULL uninit h Hwf) as (p & h' & Hr & fr & Hl & Hwf' & R & _);
    [done|done|done|].
  unfold serial_boot. rewrite Hr, (proj2 (Z.eqb_neq _ _) Hep).
  eexists _, (APool fr [] (cells h')). split; [reflexivity|]. cbn. split_and!; try done.
  split; try done; cbn.
  - pose proof (rep_size _ _ R) as Hs. cbn in Hs. rewrite Hs, Hl, Nat.add_0_r. lia.
  - constructor.
Qed.

(** The clients of a freshly initialised server are numbered 1, 2, ... in
    order of creation and have structures of their own; at most
    SEL4OSAPI_USER_PROCESS_MAX can be created, one more fails an assertion. *)
Theorem serial_clients_numbered uninit h ep (d : D) n :
  heap_wf h -> 0 < SEL4OSAPI_USER_PROCESS_MAX < 2 ^ 31 ->
  pool_bytes SEL4OSAPI_USER_PROCESS_MAX sizeof_serialclient <= avail h -> ep <> seL4_CapNull ->
  Z.of_nat n <= SEL4OSAPI_USER_PROCESS_MAX ->
  exists s0 rs s' a cs, serial_boot uninit h ep d = Done s0 /\ create_clients n s0 = Done (rs, s') /\
    NoDup rs /\ length rs = n /\ clients_rep (clients s') a cs /\
    rs = (fun x => Some x.2) <$> a_busy a /\ id <$> cs = seqZ 1 (Z.of_nat n) /\
    (Z.of_nat n = SEL4OSAPI_USER_PROCESS_MAX ->
     sel4osapi_io_serial_create_client s' = Assert_failed).
Proof.
  intros Hwf Hmax Hmem Hep Hn.
  destruct (wp_serial_boot uninit h ep d Hwf (proj1 Hmax) Hmem Hep) as (s0 & a0 & Hb & R0 & Hb0 & _).
  destruct (wp_create_clients n s0 a0 [] R0 (proj2 Hmax)) as (rs & s' & Hc & xs & a & new & R & Hb' & -> & Hl & _);
    [cbn; lia|].
  rewrite Hb0 in Hb'. cbn in Hb', R. subst xs.
  pose proof (Forall2_length _ _ _ (cr_vals _ _ _ R)) as Hlen.
  eexists s0, _, s', a, new. split_and!; [done|exact Hc| | |done|done| |].
  - replace ((fun x : loc * loc => Some x.2) <$> a_busy a) with (Some <$> (a_busy a).*2)
      by by rewrite <- list_fmap_compose.
    apply NoDup_fmap_2; [apply _|apply (rep_busy_els _ _ (cr_pool _ _ _ R))].
  - by rewrite length_fmap, Hlen.
  - by rewrite (cr_ids _ _ _ R), Hl.
  - intros Heq. pose proof (clients_rep_length _ _ _ R) as Hfr.
    destruct (wp_alloc_null _ _ (cr_pool _ _ _ R)) as (r & p' & Hal & _ & Hr).
    destruct (a_free a); [|cbn in Hfr; lia]. destruct Hr as [-> _].
    unfold sel4osapi_io_serial_create_client, bind, on_clients, zoom. by rewrite Hal.
Qed.
End numbering.

(** *** A board to run examples on *)

(** The clock ticks at each reading; polls give the incoming characters. *)
Record board := Board {
  now : Z;
  incoming : list Z;
  outgoing : list (uart * Z);
  configured : list (uart * sel4osapi_serial_config_t)
}.

#[export] Instance board_env : SerialEnv board := {|
  ps_cdev_putchar dev ch d := Board (now d) (incoming d) (outgoing d ++ [(dev, ch)]) (configured d);
  ps_cdev_getchar dev d :=
    match incoming d with
    | [] => (EOF, d)
    | ch :: rest => (ch, Board (now d) rest (outgoing d) (configured d))
    end;
  serial_configure dev w1 w2 w3 w4 d :=
    (0, Board (now d) (incoming d) (outgoing d) ((dev, SerialConfig w1 w2 w3 w4) :: configured d));
  clock_get_time d := (now d, Board (now d + 1) (incoming d) (outgoing d) (configured d));
  sel4osapi_semaphore_create n d := (1, d);
  sel4osapi_semaphore_take h t d := d;
  sel4osapi_semaphore_give h d := d;
  vspace_new_pages n d := (Some (replicate (Z.to_nat (n * PAGE_SIZE_4K)) 0), d)
|}.

#[export] Instance board_env_ok : SerialEnvOk board.
Proof.
  split; [done|]. intros n d Hn. eexists. split; [reflexivity|].
  rewrite length_replicate. unfold PAGE_SIZE_4K. lia.
Qed.

Section samples.
#[local] Existing Instance default_config.

Definition sample_board : board := Board 100 [EOF; 65; 66] [] [].
Definition sample_client_mem : heap sel4osapi_serialclient_t := Heap 1 65536 ∅ ∅ ∅.
Definition sample_booted_serial : serial_state board :=
  match serial_boot (SerialClient 0 0 None 0 0) sample_client_mem 9 sample_board with
  | Done s => s
  | _ => SerialState (PoolState (Pool NULL NULL 0 0 0 None NULL None) sample_client_mem) 0 0 NULL sample_board []
  end.
Definition sample_serial : ptr * serial_state board :=
  match sel4osapi_io_serial_create_client sample_booted_serial with
  | Done r => r
  | _ => (NULL, sample_booted_serial)
  end.

Lemma sample_client_mem_ok :
  heap_wf sample_client_mem /\
  pool_bytes SEL4OSAPI_USER_PROCESS_MAX sizeof_serialclient <= avail sample_client_mem.
Proof. split; [by split; cbn; try (intros l [? Hl])|by vm_compute]. Qed.

Lemma sample_serial_ok :
  exists x a c b, sample_serial.1 = Some x.2 /\ clients_rep (clients sample_serial.2) a [c] /\
    client_at a [c] 0 x c /\ buf c = Some b /\ id c = 1 /\
    srv_op_size sample_serial.2 <= SEL4OSAPI_SERIAL_BUF_SIZE.
Proof.
  destruct sample_client_mem_ok as [Hwf Hmem].
  destruct (wp_serial_boot (SerialClient 0 0 None 0 0) sample_client_mem 9 sample_board Hwf)
    as (s & a & Hb & R & Hb0 & Hop & _); [done|exact Hmem|done|].
  assert (Hs : sample_booted_serial = s) by (unfold sample_booted_serial; by rewrite Hb).
  destruct (wp_create_client s a [] R) as (r & s' & Hc & x & a' & c & -> & R' & Hb' & Hid & _ & _ & Hop' & _);
    [done|done|].
  unfold sample_serial. rewrite Hs, Hc. cbn in R'.
  assert (Hx : client_at a' [c] 0 x c) by (split; [by rewrite Hb', Hb0|done]).
  destruct (client_at_ok _ _ _ _ _ _ R' Hx) as [_ (b & Hbuf & _)].
  exists x, a', c, b. split; [reflexivity|]. split; [exact R'|]. split; [exact Hx|].
  split; [exact Hbuf|]. split; [exact Hid|]. cbn [snd]. rewrite Hop', Hop. by apply Z.leb_le.
Qed.

Lemma sample_board_env : env sample_serial.2 = sample_board.
Proof. by vm_compute. Qed.

Lemma serial_write_delivers_witness :
  exists s', sel4osapi_io_serial_write 0 sample_serial.1 1 [72; 105; 33] 2 sample_serial.2 = Done (2, s') /\
    outgoing (env s') = [(uart1, 72); (uart1, 105)].
Proof.
  destruct sample_serial_ok as (x & a & c & b & -> & R & Hx & _ & _ & Hop).
  destruct (serial_write_delivers sample_serial.2 a [c] 0 x c 1 uart1 [72; 105; 33] 2 0 R Hx Hop)
    as (s' & a' & b' & H1 & H2 & _); [done|done|rewrite serial_buf_4096; lia|cbn; lia|].
  exists s'. split; [exact H1|]. rewrite H2, sample_board_env. reflexivity.
Defined.

Lemma serial_read_replicates_witness :
  exists s', sel4osapi_io_serial_read 9 sample_serial.1 2 [0; 0; 0; 7] 3 1000 sample_serial.2 =
      Done ((3, [65; 65; 65; 7]), s') /\
    incoming (env s') = [66].
Proof.
  destruct sample_serial_ok as (x & a & c & b & -> & R & Hx & Hb & _ & Hop).
  destruct (serial_read_replicates sample_serial.2 a [c] 0 x c b 2 uart2 [0; 0; 0; 7] 3 1000
              100 (Board 101 [EOF; 65; 66] [] []) 65 (Board 103 [66] [] []) 2 9 R Hx Hb Hop)
    as (s' & H1 & H2); [done|done|rewrite serial_buf_4096; lia|cbn; lia|done| | |lia|].
  - by rewrite sample_board_env.
  - by eapply polls_again, polls_char.
  - exists s'. split; [exact H1|]. by rewrite H2.
Defined.

Lemma serial_read_times_out_witness :
  exists s', sel4osapi_io_serial_read 9 sample_serial.1 2 [5; 6] 2 1 sample_serial.2 = Done ((0, [5; 6]), s') /\
    incoming (env s') = [65; 66].
Proof.
  destruct sample_serial_ok as (x & a & c & b & -> & R & Hx & Hb & _ & Hop).
  destruct (serial_read_times_out sample_serial.2 a [c] 0 x c b 2 uart2 [5; 6] 2 1
              100 (Board 101 [EOF; 65; 66] [] []) (Board 103 [65; 66] [] []) 2 9 R Hx Hb Hop)
    as (s' & H1 & H2); [done|done|rewrite serial_buf_4096; lia|cbn; lia|done| | |lia|].
  - by rewrite sample_board_env.
  - by eapply polls_again, polls_expired.
  - exists s'. split; [exact H1|]. by rewrite H2.
Defined.

Lemma serial_configure_roundtrip_witness :
  exists s', sel4osapi_io_serial_configure 0 sample_serial.1 1 115200 8 2 (-1) sample_serial.2 = Done (0, s') /\
    configured (env s') = [(uart1, SerialConfig 115200 8 2 (-1))].
Proof.
  destruct sample_serial_ok as (x & a & c & b & -> & R & Hx & Hb & _ & Hop).
  destruct (serial_configure_roundtrip sample_serial.2 a [c] 0 x c 1 uart1
              (SerialConfig 115200 8 2 (-1)) 0 R Hx Hop) as (s' & H1 & H2);
    [done|done|by split|by split|by split|by split|].
  exists s'. split; [exact H1|]. rewrite H2, sample_board_env. reflexivity.
Defined.

Lemma serial_size_unchecked_witness :
  exists ep, serial_server_step 0 (Msg 0 0 [ep; SERIAL_OP_WRITE; 1; 4097]) sample_serial.2 = Wild_access.
Proof.
  destruct sample_serial_ok as (x & a & c & b & _ & R & Hx & Hb & _ & Hop).
  exists (id c). apply (serial_size_unchecked sample_serial.2 a [c] 0 x c 1 uart1 4097 0 R Hx Hop);
    [done|done|rewrite serial_buf_4096; lia].
Defined.

Lemma serial_bad_request_asserts_witness :
  serial_server_step 0 (Msg 0 0 [1; SERIAL_OP_WRITE; 3; 0]) sample_serial.2 = Assert_failed.
Proof.
  destruct sample_serial_ok as (x & a & c & b & _ & R & Hx & Hb & _ & Hop).
  apply (serial_bad_request_asserts (Msg 0 0 [1; SERIAL_OP_WRITE; 3; 0]) sample_serial.2 a [c] 0 R);
    [done|done|by right|exact Hop].
Defined.

Lemma serial_unknown_op_unanswered_witness :
  exists c, serial_call 0 (request c 204 1 0) sample_serial.2 = Out_of_fuel.
Proof.
  destruct sample_serial_ok as (x & a & c & b & _ & R & Hx & Hb & _ & Hop).
  exists c. apply (serial_unknown_op_unanswered sample_serial.2 a [c] 0 x c 204 1 uart1 0 0 R Hx Hop);
    done.
Defined.

Lemma serial_clients_numbered_witness :
  exists s0 rs s', serial_boot (SerialClient 0 0 None 0 0) sample_client_mem 9 sample_board = Done s0 /\
    create_clients 5 s0 = Done (rs, s') /\ NoDup rs /\ length rs = 5%nat /\
    sel4osapi_io_serial_create_client s' = Assert_failed.
Proof.
  destruct sample_client_mem_ok as [Hwf Hmem].
  destruct (serial_clients_numbered (SerialClient 0 0 None 0 0) sample_client_mem 9 sample_board 5)
    as (s0 & rs & s' & a & cs & H1 & H2 & H3 & H4 & _ & _ & _ & H5);
    [exact Hwf|done|exact Hmem|done|done|].
  exists s0, rs, s'. split_and!; [exact H1|exact H2|exact H3|exact H4|by apply H5].
Defined.
End samples.
