(* ===== verification/Udp.v ===== *)
(** * Udp: the data path of a bound UDP socket (src/udp.c, udp.h)

    Reception.  lwIP hands each packet of the socket to [udprecv], which queues
    it in the pool [msgs] and signals the notification [aep_rx_data].  The
    client waits on that notification, then calls the socket's rx thread, which
    copies the oldest packet into the page [rx_buf] shared with the client,
    replies with its length and source, and then gives packet and queue entry
    back.  The three run concurrently; [rx_step] interleaves their critical
    sections and rendezvous.

    Transmission.  The client copies its message to [tx_buf] and calls the tx
    thread, which hands a copy to lwIP. *)

From S2P Require Import Prelude Config Memory LinkedList Pool Kernel.

(** A pbuf chain: the payloads of its segments. *)
Definition pbuf_t : Type := list (list Z).

Record sel4osapi_udp_message_t := UdpMessage {
  pbuf : option pbuf_t;
  addr : Z;
  port : Z
}.

Definition sizeof_udp_message : Z := 12.
Definition SEL4OSAPI_UDP_MAX_MSGS_PER_CLIENT : Z := 1000.
Definition seL4_NotEnoughMemory : Z := 10.

(** Where the rx thread and the client thread are. *)
Inductive rx_point := Rx_top | Rx_wait | Rx_release.
Inductive client_point :=
| C_idle
| C_waiting (max_len : Z) (msg : list Z)
| C_calling (max_len : Z) (msg : list Z)
| C_replied (max_len : Z) (msg : list Z) (mr0 mr1 mr2 : Z).

Section udp_rx_c.

Record rx_state := RxState {
  msgs : pool_state sel4osapi_udp_message_t;
  notified : bool;                (* the notification aep_rx_data *)
  rx_buf : list Z;
  rx_buf_size : Z;
  rx_at : rx_point;
  remaining_msgs : Z;             (* locals of the rx thread *)
  rx_msg : ptr;
  client_at : client_point;
  freed : list pbuf_t             (* given back to lwIP, in order *)
}.

Definition set_msgs (p : pool_state sel4osapi_udp_message_t) (s : rx_state) : rx_state :=
  RxState p (notified s) (rx_buf s) (rx_buf_size s) (rx_at s) (remaining_msgs s) (rx_msg s) (client_at s) (freed s).
Definition set_notified (b : bool) (s : rx_state) : rx_state :=
  RxState (msgs s) b (rx_buf s) (rx_buf_size s) (rx_at s) (remaining_msgs s) (rx_msg s) (client_at s) (freed s).
Definition set_rx_buf (b : list Z) (s : rx_state) : rx_state :=
  RxState (msgs s) (notified s) b (rx_buf_size s) (rx_at s) (remaining_msgs s) (rx_msg s) (client_at s) (freed s).
Definition set_rx_at (p : rx_point) (s : rx_state) : rx_state :=
  RxState (msgs s) (notified s) (rx_buf s) (rx_buf_size s) p (remaining_msgs s) (rx_msg s) (client_at s) (freed s).
Definition set_remaining (n : Z) (s : rx_state) : rx_state :=
  RxState (msgs s) (notified s) (rx_buf s) (rx_buf_size s) (rx_at s) n (rx_msg s) (client_at s) (freed s).
Definition set_rx_msg (m : ptr) (s : rx_state) : rx_state :=
  RxState (msgs s) (notified s) (rx_buf s) (rx_buf_size s) (rx_at s) (remaining_msgs s) m (client_at s) (freed s).
Definition set_client (c : client_point) (s : rx_state) : rx_state :=
  RxState (msgs s) (notified s) (rx_buf s) (rx_buf_size s) (rx_at s) (remaining_msgs s) (rx_msg s) c (freed s).
Definition add_freed (p : pbuf_t) (s : rx_state) : rx_state :=
  RxState (msgs s) (notified s) (rx_buf s) (rx_buf_size s) (rx_at s) (remaining_msgs s) (rx_msg s) (client_at s) (freed s ++ [p]).

Definition on_msgs {A} (m : M (pool_state sel4osapi_udp_message_t) A) : M rx_state A :=
  zoom msgs set_msgs m.
Definition pbuf_free (p : pbuf_t) : M rx_state unit := modify (add_freed p).
Definition read_msg (p : ptr) : M rx_state sel4osapi_udp_message_t := on_msgs (on_mem (read_cell p)).

(** The callback lwIP runs on a packet for the socket: when the queue is full
    the packet is dropped; the client is signalled in any case. *)
Definition udprecv (p : pbuf_t) (addr port : Z) : M rx_state unit :=
  let! m := on_msgs simple_pool_alloc in
  (if non_null m then on_msgs (on_mem (write_cell m (UdpMessage (Some p) addr port)))
   else pbuf_free p) ;;
  modify (set_notified true).

(** [sel4osapi_udp_socket_rx_thread], from the top of its loop to the wait, *)
Definition rx_top : M rx_state unit :=
  let! s := get in
  (if 0 <? remaining_msgs s then modify (set_notified true) else ret tt) ;;
  modify (set_rx_at Rx_wait).

(** [memcpy(rx_buf + packet_len, q->payload, q->len)] along the chain, *)
Definition rx_store (off : Z) (seg : list Z) : M rx_state unit :=
  let! s := get in
  let i := Z.to_nat off in
  let! b := deref (if (i + length seg <=? length (rx_buf s))%nat
                   then Some (splice (rx_buf s) i seg)
                   else None) in
  modify (set_rx_buf b).

Fixpoint copy_chain (q : pbuf_t) (packet_len : Z) : M rx_state Z :=
  match q with
  | [] => ret packet_len
  | seg :: q =>
      rx_store packet_len seg ;;
      copy_chain q (u32 (packet_len + Z.of_nat (length seg)))
  end.

(** from a client's call to the reply (length, port, address), *)
Definition rx_serve : M rx_state (Z * Z * Z) :=
  let! s := get in
  let head := entries (pool (msgs s)) in
  if negb (non_null head) then
    modify (set_rx_at Rx_release) ;; ret (0, 0, 0)
  else
    let! n := on_msgs (on_mem (read_node head)) in
    let msg := el n in
    let! remaining := on_msgs simple_pool_get_current_size in
    assert_ (non_null msg) ;;
    let! m := read_msg msg in
    assert_ (bool_decide (is_Some (pbuf m))) ;;
    let! packet_len := copy_chain (default [] (pbuf m)) 0 in
    assert_ (packet_len <=? rx_buf_size s) ;;
    modify (set_remaining (remaining - 1)) ;;
    modify (set_rx_msg msg) ;;
    modify (set_rx_at Rx_release) ;;
    ret (packet_len, port m, addr m).

(** and from the reply back to the top of the loop. *)
Definition rx_release : M rx_state unit :=
  let! s := get in
  (if non_null (rx_msg s) then
     let! m := read_msg (rx_msg s) in
     let! p := deref (pbuf m) in
     pbuf_free p ;;
     let! error := on_msgs (simple_pool_free (rx_msg s)) in
     assert_ (error =? 0) ;;
     modify (set_rx_msg NULL)
   else ret tt) ;;
  modify (set_rx_at Rx_top).

(** [sel4osapi_udp_recv] up to its wait on the notification, [socket_port]
    being the port of the socket, *)
Definition udp_recv_begin (socket_port max_len : Z) (msg : list Z) : M rx_state unit :=
  assert_ (0 <? max_len) ;;
  assert_ (0 <? socket_port) ;;
  modify (set_client (C_waiting max_len msg)).

(** from the wake-up to the call, *)
Definition udp_recv_wake (max_len : Z) (msg : list Z) : M rx_state unit :=
  modify (set_notified false) ;;
  modify (set_client (C_calling max_len msg)).

(** and from the reply to the return: error, message, length, port, address. *)
Definition udp_recv_end (max_len : Z) (msg : list Z) (mr0 mr1 mr2 : Z)
    : M rx_state (Z * list Z * Z * Z * Z) :=
  let len := u32 mr0 in
  let port := u16 mr1 in
  let addr := u32 mr2 in
  let! s := get in
  let! r :=
    (if max_len <? len then ret (seL4_NotEnoughMemory, msg)
     else if len =? 0 then ret (-1, msg)
     else
       let n := Z.to_nat len in
       let! msg' := deref (if (n <=? length (rx_buf s))%nat && (n <=? length msg)%nat
                           then Some (take n (rx_buf s) ++ drop n msg) else None) in
       ret (0, msg')) in
  modify (set_client C_idle) ;;
  ret (r.1, r.2, len, port, addr).
End udp_rx_c.

(** ** The interleavings *)

Inductive rx_event :=
| Packet (p : pbuf_t) (addr port : Z)
| Top
| Serve (data : list Z) (addr port : Z)    (* a packet is handed to the client *)
| Serve_nothing
| Release
| Recv_begin
| Recv_wake
| Recv_end (error : Z) (msg : list Z) (len port addr : Z).

Inductive rx_step : rx_state -> rx_event -> rx_state -> Prop :=
| step_packet p addr port s s' :
    udprecv p addr port s = Done (tt, s') -> rx_step s (Packet p addr port) s'
| step_top s s' : rx_at s = Rx_top -> rx_top s = Done (tt, s') -> rx_step s Top s'
| step_serve max_len msg s s' len port addr :
    rx_at s = Rx_wait -> client_at s = C_calling max_len msg ->
    rx_serve s = Done ((len, port, addr), s') ->
    rx_step s (if non_null (rx_msg s') then Serve (take (Z.to_nat len) (rx_buf s')) addr port
               else Serve_nothing)
            (set_client (C_replied max_len msg len port addr) s')
| step_release s s' : rx_at s = Rx_release -> rx_release s = Done (tt, s') -> rx_step s Release s'
| step_begin socket_port max_len msg s s' :
    client_at s = C_idle -> udp_recv_begin socket_port max_len msg s = Done (tt, s') ->
    rx_step s Recv_begin s'
| step_wake max_len msg s s' :
    client_at s = C_waiting max_len msg -> notified s = true ->
    udp_recv_wake max_len msg s = Done (tt, s') -> rx_step s Recv_wake s'
| step_end max_len msg mr0 mr1 mr2 s s' error msg' len port addr :
    client_at s = C_replied max_len msg mr0 mr1 mr2 ->
    udp_recv_end max_len msg mr0 mr1 mr2 s = Done ((error, msg', len, port, addr), s') ->
    rx_step s (Recv_end error msg' len port addr) s'.

(** Histories: the packets accepted into the queue, what was handed to the
    client, and the packets dropped because the queue was full. *)
Definition datagram : Type := list Z * Z * Z.
Definition has_room (s : rx_state) : bool := current_size (pool (msgs s)) <? pool_size (pool (msgs s)).
Definition accepted (s : rx_state) (e : rx_event) : list sel4osapi_udp_message_t :=
  match e with Packet p addr port => if has_room s then [UdpMessage (Some p) addr port] else [] | _ => [] end.
Definition dropped (s : rx_state) (e : rx_event) : list pbuf_t :=
  match e with Packet p _ _ => if has_room s then [] else [p] | _ => [] end.
Definition delivered (e : rx_event) : list datagram :=
  match e with Serve data addr port => [(data, addr, port)] | _ => [] end.

Definition chain_of (m : sel4osapi_udp_message_t) : pbuf_t := default [] (pbuf m).
Definition datagram_of (m : sel4osapi_udp_message_t) : datagram := (concat (chain_of m), addr m, port m).

(** A fresh socket: empty queue of the given pool, both threads at the start. *)
Definition rx_initial (s : rx_state) : Prop :=
  (exists a, pool_rep None None (msgs s) a /\ a_busy a = []) /\
  notified s = false /\ Z.of_nat (length (rx_buf s)) = rx_buf_size s /\ rx_buf_size s < 2 ^ 32 /\
  rx_at s = Rx_top /\ remaining_msgs s = 0 /\ rx_msg s = NULL /\ client_at s = C_idle /\ freed s = [].

(** A packet fits the client's page.  (The rx thread does not check: see
    [udp_oversized_packet_overruns].)  Runs are over such packets. *)
Definition fits (size : Z) (m : sel4osapi_udp_message_t) : Prop :=
  Z.of_nat (length (concat (chain_of m))) <= size.

Inductive rx_reach : rx_state -> list sel4osapi_udp_message_t -> list datagram -> list pbuf_t -> Prop :=
| reach_initial s : rx_initial s -> rx_reach s [] [] []
| reach_step s e s' acc dlv drp :
    rx_reach s acc dlv drp -> Forall (fits (rx_buf_size s)) (accepted s e) -> rx_step s e s' ->
    rx_reach s' (acc ++ accepted s e) (dlv ++ delivered e) (drp ++ dropped s e).

Section rx_spec.
Implicit Types (s : rx_state) (a : apool sel4osapi_udp_message_t) (q : list sel4osapi_udp_message_t).

(** The queue holds [q]; [pend] is what of it the client has not been given. *)
Definition queue_rep s a q : Prop :=
  pool_rep None None (msgs s) a /\ vals_along (a_vals a) (a_busy a) q.

Definition pending s q : list sel4osapi_udp_message_t :=
  match rx_msg s with None => q | Some _ => tail q end.

(** Whoever waits for the pending messages will hear of them. *)
Definition signalled s : Prop :=
  notified s = true \/ (exists max_len msg, client_at s = C_calling max_len msg) \/
  (rx_at s <> Rx_wait /\ 0 < remaining_msgs s).

Record rx_inv s a q acc dlv drp : Prop := {
  ri_queue : queue_rep s a q;
  ri_pbufs : Forall (fun m => is_Some (pbuf m)) acc;
  ri_sub : exists out, acc = out ++ q;
  ri_buf : Z.of_nat (length (rx_buf s)) = rx_buf_size s;
  ri_size : rx_buf_size s < 2 ^ 32;
  ri_msg : forall e, rx_msg s = Some e -> rx_at s = Rx_release /\
             exists x b, a_busy a = x :: b /\ e = x.2;
  ri_fifo : datagram_of <$> acc = dlv ++ (datagram_of <$> pending s q);
  ri_freed : drp ++ (chain_of <$> acc) ≡ₚ freed s ++ (chain_of <$> q);
  ri_wake : pending s q <> [] -> signalled s
}.

Lemma queue_length s a q : queue_rep s a q -> length (a_busy a) = length q.
Proof. intros [_ Hv]. by eapply Forall2_length. Qed.

Lemma queue_has_room s a q : queue_rep s a q -> has_room s = negb (bool_decide (a_free a = [])).
Proof.
  intros [R _]. unfold has_room. rewrite (rep_current _ _ R), (rep_size _ _ R).
  destruct (a_free a); cbn; [apply Z.ltb_ge|apply Z.ltb_lt]; lia.
Qed.

(** *** udprecv *)

Lemma wp_udprecv s a q p ad po :
  queue_rep s a q ->
  wp (udprecv p ad po)
     (fun _ s' =>
        if has_room s then exists m' a' x, s' = set_notified true (set_msgs m' s) /\
            queue_rep s' a' (q ++ [UdpMessage (Some p) ad po]) /\ a_busy a' = a_busy a ++ [x]
        else exists m', s' = set_notified true (add_freed p (set_msgs m' s)) /\ queue_rep s' a q) s.
Proof.
  intros HQ. pose proof (queue_has_room _ _ _ HQ) as Hroom. destruct HQ as [R Hv].
  unfold udprecv, on_msgs. wp_step. apply wp_zoom. eapply wp_mono; [by apply wp_alloc_null|].
  intros r p' [Hsz Hr]. rewrite Hroom. clear Hroom. destruct (a_free a) as [|x fr] eqn:Hf.
  - destruct Hr as [-> R']. rewrite bool_decide_true by done. cbn. unfold pbuf_free. wp_steps.
    by exists p'.
  - destruct Hr as (-> & Hx & R'). rewrite bool_decide_false by done. cbn.
    destruct (rep_entry_get _ _ x R' ltac:(cbn; set_solver)) as (nd & v & Hn & Hel & Hcell).
    wp_step. apply wp_zoom, wp_on_mem. eapply wp_write_cell; [done|exact Hcell|]. wp_step.
    eexists _, (APool fr (a_busy a ++ [x]) (<[x.2 := UdpMessage (Some p) ad po]> (a_vals a))), x.
    split; [reflexivity|]. split; [|done]. split.
    + apply (rep_write _ _ x _ R'). cbn. set_solver.
    + cbn. apply Forall2_app; [by apply vals_along_insert_ne|].
      constructor; [|constructor]. by rewrite lookup_insert_eq.
Qed.

(** *** The copy of a chain *)

Lemma wp_copy_chain (ch : pbuf_t) off s :
  0 <= off -> (Z.to_nat off + length (concat ch) <= length (rx_buf s))%nat ->
  off + Z.of_nat (length (concat ch)) < 2 ^ 32 ->
  wp (copy_chain ch off)
     (fun r s' => r = off + Z.of_nat (length (concat ch)) /\
        s' = set_rx_buf (splice (rx_buf s) (Z.to_nat off) (concat ch)) s) s.
Proof.
  revert off s. induction ch as [|seg ch IH]; intros off s Hoff Hfit Hlt; cbn [copy_chain concat] in *.
  - apply wp_ret. cbn. rewrite Z.add_0_r, splice_nil. split; [done|by destruct s].
  - rewrite length_app in Hfit, Hlt. unfold rx_store. wp_step. wp_step. wp_step. wp_step.
    eapply wp_deref.
    { destruct (Nat.leb_spec (Z.to_nat off + length seg) (length (rx_buf s))); [reflexivity|lia]. }
    wp_step. rewrite u32_small by (unfold is_u32; lia).
    eapply wp_mono; [apply IH; cbn [rx_buf set_rx_buf]; rewrite ?splice_length by lia; lia|].
    intros r s' [-> ->]. cbn [rx_buf set_rx_buf]. rewrite length_app. split; [lia|].
    unfold set_rx_buf. cbn. f_equal.
    replace (Z.to_nat (off + Z.of_nat (length seg))) with (Z.to_nat off + length seg)%nat by lia.
    apply splice_app. lia.
Qed.

(** *** The rx thread *)

Lemma set_msgs_id s : set_msgs (msgs s) s = s.
Proof. by destruct s. Qed.

Lemma queue_head s a m q :
  queue_rep s a (m :: q) ->
  exists x b nd, a_busy a = x :: b /\ entries (pool (msgs s)) = Some x.1 /\
    nodes (mem (msgs s)) !! x.1 = Some nd /\ el nd = Some x.2 /\ cells (mem (msgs s)) !! x.2 = Some m /\
    a_vals a !! x.2 = Some m /\ vals_along (a_vals a) b q.
Proof.
  intros [R Hv]. inversion Hv as [|x m' b q' Hx Hv' Hb]. subst.
  destruct (rep_busy_entry _ _ [] x b R (eq_sym Hb)) as (nd & v & Hn & Hel & _ & Hva & Hc).
  rewrite Hx in Hva. injection Hva as <-. exists x, b, nd. split_and!; try done.
  pose proof (dlist_first _ _ _ (rep_busy _ _ R)) as Hf. by rewrite <- Hb in Hf.
Qed.

Lemma wp_msgs_read_cell p l v (Q : _ -> rx_state -> Prop) s :
  p = Some l -> cells (mem (msgs s)) !! l = Some v -> Q v s -> wp (read_msg p) Q s.
Proof.
  intros -> Hl HQ. unfold read_msg, on_msgs. apply wp_zoom. eapply wp_mem_read_cell; [done..|].
  by rewrite set_msgs_id.
Qed.

(** The state once [m], queued at [e] before [n] others, has been copied. *)
Definition served s (e : loc) (n : nat) (m : sel4osapi_udp_message_t) : rx_state :=
  RxState (msgs s) (notified s) (splice (rx_buf s) 0 (concat (chain_of m))) (rx_buf_size s)
          Rx_release (Z.of_nat n) (Some e) (client_at s) (freed s).

Lemma wp_rx_serve s a m q :
  queue_rep s a (m :: q) -> is_Some (pbuf m) -> fits (rx_buf_size s) m ->
  Z.of_nat (length (rx_buf s)) = rx_buf_size s -> rx_buf_size s < 2 ^ 32 ->
  wp rx_serve
     (fun r s' => r = (Z.of_nat (length (concat (chain_of m))), port m, addr m) /\
        exists x b, a_busy a = x :: b /\ s' = served s x.2 (length q) m) s.
Proof.
  intros HQ [ch Hch] Hfit Hlen Hlt. pose proof (queue_length _ _ _ HQ) as Hl.
  destruct (queue_head _ _ _ _ HQ) as (x & b & nd & Hb & He & Hn & Hel & Hc & _).
  unfold fits, chain_of in *. rewrite Hch in *. cbn [default] in *.
  unfold rx_serve. wp_step. wp_step. cbn [pool mem]. rewrite He. cbn. wp_step.
  unfold on_msgs at 1. apply wp_zoom. eapply wp_mem_read_node; [done..|]. rewrite set_msgs_id.
  wp_step. unfold on_msgs at 1, simple_pool_get_current_size. apply wp_zoom. wp_step. wp_step.
  wp_step. rewrite set_msgs_id, Hel. wp_step. apply wp_assert; [done|].
  wp_step. eapply wp_msgs_read_cell; [done|exact Hc|]. rewrite Hch. wp_step. apply wp_assert; [done|].
  wp_step. cbn [default]. eapply wp_mono; [apply wp_copy_chain; lia|]. cbn beta. intros r s' [-> ->].
  wp_step. apply wp_assert; [apply Z.leb_le; lia|]. wp_steps. split; [done|].
  exists x, b. split; [done|]. unfold served, chain_of, set_rx_at, set_rx_msg, set_remaining, set_rx_buf.
  cbn. rewrite Hch. cbn. f_equal. rewrite (rep_current _ _ (proj1 HQ)), Hl. cbn. lia.
Qed.

Lemma wp_rx_serve_nothing s a :
  queue_rep s a [] -> wp rx_serve (fun r s' => r = (0, 0, 0) /\ s' = set_rx_at Rx_release s) s.
Proof.
  intros HQ. pose proof (queue_length _ _ _ HQ) as Hl. destruct HQ as [R _].
  pose proof (dlist_first _ _ _ (rep_busy _ _ R)) as Hf. destruct (a_busy a); [|done].
  unfold rx_serve. wp_steps. rewrite Hf. cbn. by wp_steps.
Qed.

Lemma wp_rx_release s a m q x b :
  queue_rep s a (m :: q) -> is_Some (pbuf m) -> a_busy a = x :: b -> rx_msg s = Some x.2 ->
  wp rx_release
     (fun _ s' => exists p' a', s' = set_rx_at Rx_top (set_rx_msg NULL (set_msgs p' (add_freed (chain_of m) s))) /\
        queue_rep s' a' q) s.
Proof.
  intros HQ [ch Hch] Hb Hmsg. unfold chain_of. rewrite Hch.
  destruct (queue_head _ _ _ _ HQ) as (x' & b' & nd & Hb' & _ & _ & _ & Hc & _ & Hv).
  rewrite Hb in Hb'. injection Hb' as <- <-.
  unfold rx_release. wp_steps. rewrite Hmsg. cbn.
  wp_step. eapply wp_msgs_read_cell; [done|exact Hc|]. wp_step. eapply wp_deref; [exact Hch|].
  unfold pbuf_free, on_msgs. wp_step. wp_step. wp_step. apply wp_zoom.
  eapply wp_mono; [apply (wp_free_null _ a [] x b); [apply HQ|exact Hb]|].
  intros r p' (-> & _ & R'). wp_steps. cbn.
  eexists p', _. split; [reflexivity|]. split; [exact R'|exact Hv].
Qed.

(** *** The invariant is kept by every step *)

Definition rx_ok s acc dlv drp : Prop := exists a q, rx_inv s a q acc dlv drp.

Lemma rx_inv_head s a q acc dlv drp e :
  rx_inv s a q acc dlv drp -> rx_msg s = Some e ->
  exists m q' x b, q = m :: q' /\ a_busy a = x :: b /\ e = x.2 /\ rx_at s = Rx_release.
Proof.
  intros I He. destruct (ri_msg _ _ _ _ _ _ I e He) as (Hat & x & b & Hb & ->).
  pose proof (queue_length _ _ _ (ri_queue _ _ _ _ _ _ I)) as Hl. rewrite Hb in Hl.
  destruct q as [|m q']; [done|]. by exists m, q', x, b.
Qed.

Lemma rx_inv_no_msg s a q acc dlv drp :
  rx_inv s a q acc dlv drp -> rx_at s <> Rx_release -> rx_msg s = NULL.
Proof.
  intros I Hat. destruct (rx_msg s) as [e|] eqn:He; [|done].
  by destruct (ri_msg _ _ _ _ _ _ I e He) as [? _].
Qed.

Lemma rx_inv_queued s a q acc dlv drp :
  rx_inv s a q acc dlv drp -> Forall (fits (rx_buf_size s)) acc ->
  Forall (fun m => is_Some (pbuf m) /\ fits (rx_buf_size s) m) q.
Proof.
  intros I Hf. pose proof (ri_pbufs _ _ _ _ _ _ I) as Hp.
  destruct (ri_sub _ _ _ _ _ _ I) as [out ->]. apply Forall_app in Hf as [_ Hf], Hp as [_ Hp].
  by apply Forall_and.
Qed.

(** Steps of the client and of the rx thread that leave the queue alone. *)
Lemma rx_inv_frame s s' a q acc dlv drp :
  rx_inv s a q acc dlv drp ->
  msgs s' = msgs s -> length (rx_buf s') = length (rx_buf s) -> rx_buf_size s' = rx_buf_size s ->
  rx_msg s' = rx_msg s -> freed s' = freed s -> (rx_msg s <> NULL -> rx_at s' = rx_at s) ->
  (pending s q <> [] -> signalled s -> signalled s') -> rx_inv s' a q acc dlv drp.
Proof.
  intros [] Hm Hb Hs Hg Hf Hat Hw. split; unfold queue_rep, pending in *; rewrite ?Hm, ?Hb, ?Hs, ?Hg, ?Hf; auto.
  intros e He. destruct (ri_msg0 e He) as [? ?]. rewrite Hat by (by rewrite He). done.
Qed.

Lemma packet_keeps s s' p ad po acc dlv drp :
  rx_ok s acc dlv drp -> udprecv p ad po s = Done (tt, s') ->
  rx_ok s' (acc ++ accepted s (Packet p ad po)) (dlv ++ []) (drp ++ dropped s (Packet p ad po)) /\
  rx_buf_size s' = rx_buf_size s.
Proof.
  intros (a & q & I) Hr. pose proof (wp_done _ _ _ _ _ (wp_udprecv s a q p ad po (ri_queue _ _ _ _ _ _ I)) Hr) as H.
  pose proof (fun e => rx_inv_head _ _ _ _ _ _ e I) as Hhead. destruct I. rewrite app_nil_r.
  cbn. destruct (has_room s).
  - destruct H as (m' & a' & x & -> & HQ & Hb). split; [|done]. exists a', (q ++ [UdpMessage (Some p) ad po]).
    rewrite app_nil_r. assert (Hpend : pending (set_notified true (set_msgs m' s)) (q ++ [UdpMessage (Some p) ad po])
              = pending s q ++ [UdpMessage (Some p) ad po]).
    { unfold pending. cbn. destruct (rx_msg s) as [e|] eqn:He; [|done].
      by destruct (Hhead e eq_refl) as (m & q' & _ & _ & -> & _). }
    split; cbn [rx_buf rx_buf_size rx_msg rx_at freed set_notified set_msgs]; auto.
    + apply Forall_app. split; [done|]. apply Forall_singleton. by eexists.
    + destruct ri_sub0 as [out ->]. exists out. by rewrite app_assoc.
    + intros e He. destruct (ri_msg0 e He) as (Hat & y & b & Hy & ->). split; [done|].
      exists y, (b ++ [x]). by rewrite Hb, Hy.
    + by rewrite Hpend, !fmap_app, ri_fifo0, app_assoc.
    + rewrite !fmap_app, !app_assoc, ri_freed0. done.
    + intros _. by left.
  - destruct H as (m' & -> & HQ). split; [|done]. exists a, q. rewrite app_nil_r.
    split; cbn [rx_buf rx_buf_size rx_msg rx_at freed set_notified set_msgs add_freed]; auto.
    + rewrite <- app_assoc, (Permutation_app_comm [p]), app_assoc, ri_freed0.
      rewrite <- !app_assoc. by rewrite (Permutation_app_comm [p]).
    + intros _. by left.
Qed.

Lemma serve_keeps s s' len po ad acc dlv drp max_len msg :
  rx_ok s acc dlv drp -> Forall (fits (rx_buf_size s)) acc -> rx_at s = Rx_wait ->
  rx_serve s = Done ((len, po, ad), s') ->
  let e := if non_null (rx_msg s') then Serve (take (Z.to_nat len) (rx_buf s')) ad po else Serve_nothing in
  rx_ok (set_client (C_replied max_len msg len po ad) s') (acc ++ []) (dlv ++ delivered e) (drp ++ []) /\
  rx_buf_size s' = rx_buf_size s.
Proof.
  intros (a & q & I) Hf Hat Hr e. pose proof (rx_inv_no_msg _ _ _ _ _ _ I ltac:(by rewrite Hat)) as Hmsg.
  pose proof (rx_inv_queued _ _ _ _ _ _ I Hf) as Hq. rewrite !app_nil_r. pose proof I as [].
  destruct q as [|m q].
  - destruct (wp_done _ _ _ _ _ (wp_rx_serve_nothing s a ri_queue0) Hr) as [Heq ->].
    injection Heq as -> -> ->. unfold e. cbn. rewrite Hmsg. cbn. rewrite app_nil_r. split; [|done].
    exists a, []. apply (rx_inv_frame s); try done. unfold pending. by rewrite Hmsg.
  - apply Forall_cons in Hq as [[Hp Hm] _].
    destruct (wp_done _ _ _ _ _ (wp_rx_serve s a m q ri_queue0 Hp Hm ri_buf0 ri_size0) Hr)
      as (Heq & x & b & Hb & ->). injection Heq as -> -> ->. unfold fits in Hm.
    unfold e. cbn [non_null rx_msg served bool_decide]. split; [|done]. exists a, (m :: q).
    unfold pending in *. rewrite Hmsg in ri_fifo0. rewrite Nat2Z.id.
    split; cbn [msgs rx_buf rx_buf_size rx_msg rx_at freed set_client served]; auto.
    + by rewrite splice_length by lia.
    + intros e' [= <-]. split; [done|]. by exists x, b.
    + rewrite ri_fifo0. unfold non_null. cbn. rewrite <- app_assoc. cbn. unfold datagram_of at 1.
      by rewrite splice_0_take.
    + intros Hne. right. right. cbn in Hne |- *. split; [done|]. destruct q; [done|]. cbn. lia.
Qed.

Lemma release_keeps s s' acc dlv drp :
  rx_ok s acc dlv drp -> rx_at s = Rx_release -> rx_release s = Done (tt, s') ->
  rx_ok s' (acc ++ []) (dlv ++ []) (drp ++ []) /\ rx_buf_size s' = rx_buf_size s.
Proof.
  intros (a & q & I) Hat Hr. rewrite !app_nil_r. pose proof I as [].
  destruct (rx_msg s) as [e|] eqn:Hmsg.
  - destruct (rx_inv_head _ _ _ _ _ _ e I Hmsg) as (m & q' & x & b & -> & Hb & -> & _).
    assert (Hp : is_Some (pbuf m)).
    { destruct ri_sub0 as [out ->]. apply Forall_app in ri_pbufs0 as [_ H]. by apply Forall_cons in H as [? _]. }
    destruct (wp_done _ _ _ _ _ (wp_rx_release s a m q' x b ri_queue0 Hp Hb Hmsg) Hr) as (p' & a' & -> & HQ).
    split; [|done]. exists a', q'. unfold pending, signalled in *. rewrite Hmsg in *. cbn in *.
    split; cbn; auto.
    + destruct ri_sub0 as [out ->]. exists (out ++ [m]). by rewrite <- app_assoc.
    + done.
    + rewrite ri_freed0, <- app_assoc. done.
    + intros Hne. destruct (ri_wake0 Hne) as [?|[?|[? ?]]]; [by left|by right; left|right; right; by split].
  - unfold rx_release, bind in Hr. cbn in Hr. rewrite Hmsg in Hr. cbn in Hr. injection Hr as <-. split; [|done].
    exists a, q. apply (rx_inv_frame s); try done.
    intros _ [?|[?|[? ?]]]; [by left|by right; left|right; right; by split].
Qed.

Lemma top_keeps s s' acc dlv drp :
  rx_ok s acc dlv drp -> rx_at s = Rx_top -> rx_top s = Done (tt, s') ->
  rx_ok s' acc dlv drp /\ rx_buf_size s' = rx_buf_size s.
Proof.
  intros (a & q & I) Hat Hr. pose proof (rx_inv_no_msg _ _ _ _ _ _ I ltac:(by rewrite Hat)) as Hmsg.
  unfold rx_top, bind in Hr. cbn in Hr.
  destruct (0 <? remaining_msgs s) eqn:Hrem; cbn in Hr; injection Hr as <-; (split; [|done]);
    exists a, q; apply (rx_inv_frame s); try done.
  - intros _ _. by left.
  - intros _ [?|[?|[_ ?]]]; [by left|by right; left|apply Z.ltb_ge in Hrem; lia].
Qed.

Lemma begin_keeps s s' sp max_len msg acc dlv drp :
  rx_ok s acc dlv drp -> client_at s = C_idle -> udp_recv_begin sp max_len msg s = Done (tt, s') ->
  rx_ok s' acc dlv drp /\ rx_buf_size s' = rx_buf_size s.
Proof.
  intros (a & q & I) Hat Hr. unfold udp_recv_begin, bind, assert_ in Hr.
  destruct (0 <? max_len); [|done]. destruct (0 <? sp); [|done]. cbn in Hr. injection Hr as <-.
  split; [|done]. exists a, q. apply (rx_inv_frame s); try done.
  intros _ [?|[(? & ? & ?)|?]]; [by left|congruence|by right; right].
Qed.

Lemma wake_keeps s s' max_len msg acc dlv drp :
  rx_ok s acc dlv drp -> udp_recv_wake max_len msg s = Done (tt, s') ->
  rx_ok s' acc dlv drp /\ rx_buf_size s' = rx_buf_size s.
Proof.
  intros (a & q & I) Hr. injection Hr as <-. split; [|done].
  exists a, q. apply (rx_inv_frame s); try done. intros _ _. right. left. by eexists _, _.
Qed.

Lemma udp_recv_end_state max_len msg mr0 mr1 mr2 s r s' :
  udp_recv_end max_len msg mr0 mr1 mr2 s = Done (r, s') -> s' = set_client C_idle s.
Proof.
  unfold udp_recv_end, bind. cbn. destruct (max_len <? u32 mr0); [by intros [= _ <-]|].
  destruct (u32 mr0 =? 0); [by intros [= _ <-]|]. by destruct (_ && _); [intros [= _ <-]|].
Qed.

Lemma end_keeps s s' max_len msg mr0 mr1 mr2 r acc dlv drp :
  rx_ok s acc dlv drp -> client_at s = C_replied max_len msg mr0 mr1 mr2 ->
  udp_recv_end max_len msg mr0 mr1 mr2 s = Done (r, s') ->
  rx_ok s' acc dlv drp /\ rx_buf_size s' = rx_buf_size s.
Proof.
  intros (a & q & I) Hat ->%udp_recv_end_state. split; [|done].
  exists a, q. apply (rx_inv_frame s); try done.
  intros _ [?|[(? & ? & ?)|?]]; [by left|congruence|by right; right].
Qed.

Lemma step_keeps s e s' acc dlv drp :
  rx_ok s acc dlv drp -> Forall (fits (rx_buf_size s)) acc -> rx_step s e s' ->
  rx_ok s' (acc ++ accepted s e) (dlv ++ delivered e) (drp ++ dropped s e) /\
  rx_buf_size s' = rx_buf_size s.
Proof.
  intros Hok Hf Hs. destruct Hs; cbn [accepted delivered dropped]; rewrite ?app_nil_r.
  - rewrite <- (app_nil_r dlv). by apply packet_keeps.
  - by apply top_keeps.
  - rewrite <- (app_nil_r acc), <- (app_nil_r drp).
    pose proof (serve_keeps s s' len port0 addr0 acc dlv drp max_len msg Hok Hf) as Hk.
    destruct (non_null (rx_msg s')); cbn [accepted dropped]; rewrite (app_nil_r (acc ++ [])),
      (app_nil_r (drp ++ [])); by apply Hk.
  - rewrite <- (app_nil_r acc), <- (app_nil_r drp), <- (app_nil_r dlv). by apply release_keeps.
  - by eapply begin_keeps.
  - by eapply wake_keeps.
  - by eapply end_keeps.
Qed.

Lemma initial_ok s : rx_initial s -> rx_ok s [] [] [].
Proof.
  intros ((a & R & Hb) & Hn & Hbuf & Hsz & Hat & Hrem & Hmsg & Hcl & Hfr). exists a, [].
  split; unfold queue_rep, pending; rewrite ?Hmsg, ?Hb, ?Hfr; try done.
  - split; [done|]. constructor.
  - by exists [].
Qed.

Lemma rx_reach_ok s acc dlv drp :
  rx_reach s acc dlv drp -> rx_ok s acc dlv drp /\ Forall (fits (rx_buf_size s)) acc.
Proof.
  induction 1 as [s Hi|s e s' acc dlv drp Hr [IH Hf] He Hs]; [by split; [apply initial_ok|]|].
  destruct (step_keeps s e s' acc dlv drp IH Hf Hs) as [Hok ->]. split; [done|].
  by apply Forall_app.
Qed.

(** *** What the client reads is what was served *)

Definition replied_ok s (dlv : list datagram) : Prop :=
  forall max_len msg mr0 mr1 mr2, client_at s = C_replied max_len msg mr0 mr1 mr2 ->
    (mr0 = 0 /\ mr1 = 0 /\ mr2 = 0) \/
    (0 <= mr0 <= rx_buf_size s /\ last dlv = Some (take (Z.to_nat mr0) (rx_buf s), mr2, mr1)).

Lemma replied_frame s s' dlv :
  replied_ok s dlv -> rx_buf s' = rx_buf s -> rx_buf_size s' = rx_buf_size s ->
  client_at s' = client_at s \/ (forall max_len msg mr0 mr1 mr2, client_at s' <> C_replied max_len msg mr0 mr1 mr2) ->
  replied_ok s' dlv.
Proof.
  intros H Hb Hs [Hc|Hc] max_len msg mr0 mr1 mr2 Hat; [|by apply Hc in Hat].
  rewrite Hc in Hat. rewrite Hb, Hs. by eapply H.
Qed.

Lemma serve_replied s s' a q acc dlv drp max_len msg len po ad :
  rx_inv s a q acc dlv drp -> Forall (fits (rx_buf_size s)) acc -> rx_at s = Rx_wait ->
  rx_serve s = Done ((len, po, ad), s') ->
  replied_ok (set_client (C_replied max_len msg len po ad) s')
    (dlv ++ delivered (if non_null (rx_msg s') then Serve (take (Z.to_nat len) (rx_buf s')) ad po
                       else Serve_nothing)).
Proof.
  intros I Hf Hat Hr. pose proof (rx_inv_no_msg _ _ _ _ _ _ I ltac:(by rewrite Hat)) as Hmsg.
  pose proof (rx_inv_queued _ _ _ _ _ _ I Hf) as Hq. destruct I.
  intros ml mg mr0 mr1 mr2 [= <- <- <- <- <-]. destruct q as [|m q].
  - destruct (wp_done _ _ _ _ _ (wp_rx_serve_nothing s a ri_queue0) Hr) as [Heq ->].
    left. by injection Heq as -> -> ->.
  - apply Forall_cons in Hq as [[Hp Hm] _].
    destruct (wp_done _ _ _ _ _ (wp_rx_serve s a m q ri_queue0 Hp Hm ri_buf0 ri_size0) Hr)
      as (Heq & x & b & Hb & ->). injection Heq as -> -> ->. right. unfold fits in Hm.
    split; [cbn; lia|]. unfold non_null. cbn. by rewrite last_snoc.
Qed.

Lemma step_replied s e s' acc dlv drp :
  rx_ok s acc dlv drp -> Forall (fits (rx_buf_size s)) acc -> rx_step s e s' ->
  replied_ok s dlv -> replied_ok s' (dlv ++ delivered e).
Proof.
  intros Hok Hf Hs Hrep.
  destruct Hs as [p ad po s s' Hr|s s' Hat Hr|max_len msg s s' len po ad Hat Hcl Hr|s s' Hat Hr
    |sp max_len msg s s' Hcl Hr|max_len msg s s' Hcl Hn Hr|max_len msg mr0 mr1 mr2 s s' er msg' len po ad Hcl Hr];
    cbn [delivered]; rewrite ?app_nil_r.
  - destruct Hok as (a & q & I).
    pose proof (wp_done _ _ _ _ _ (wp_udprecv s a q p ad po (ri_queue _ _ _ _ _ _ I)) Hr) as H.
    destruct (has_room s).
    + destruct H as (m' & a' & x & -> & _). by apply (replied_frame s); [done..|left].
    + destruct H as (m' & -> & _). by apply (replied_frame s); [done..|left].
  - unfold rx_top, bind in Hr. cbn in Hr.
    destruct (0 <? remaining_msgs s); injection Hr as <-; by apply (replied_frame s); [done..|left].
  - destruct Hok as (a & q & I). by eapply serve_replied.
  - destruct Hok as (a & q & I). destruct (rx_msg s) as [e|] eqn:Hmsg.
    + destruct (rx_inv_head _ _ _ _ _ _ e I Hmsg) as (m & q' & x & b & -> & Hb & -> & _).
      pose proof (rx_inv_queued _ _ _ _ _ _ I Hf) as [[Hp _] _]%Forall_cons.
      destruct (wp_done _ _ _ _ _ (wp_rx_release s a m q' x b (ri_queue _ _ _ _ _ _ I) Hp Hb Hmsg) Hr)
        as (p' & a' & -> & _). by apply (replied_frame s); [done..|left].
    + unfold rx_release, bind in Hr. cbn in Hr. rewrite Hmsg in Hr. injection Hr as <-.
      by apply (replied_frame s); [done..|left].
  - unfold udp_recv_begin, bind, assert_ in Hr. destruct (0 <? max_len); [|done].
    destruct (0 <? sp); [|done]. injection Hr as <-. by apply (replied_frame s); [done..|right].
  - injection Hr as <-. by apply (replied_frame s); [done..|right].
  - apply udp_recv_end_state in Hr as ->. by apply (replied_frame s); [done..|right].
Qed.

Lemma rx_reach_replied s acc dlv drp : rx_reach s acc dlv drp -> replied_ok s dlv.
Proof.
  induction 1 as [s Hi|s e s' acc dlv drp Hr IH He Hs].
  - destruct Hi as (_ & _ & _ & _ & _ & _ & _ & Hcl & _). intros ? ? ? ? ? H. congruence.
  - destruct (rx_reach_ok _ _ _ _ Hr) as [Hok Hf]. by eapply step_replied.
Qed.
End rx_spec.

(** ** Paths, and how to compute them *)

Fixpoint rx_path (s : rx_state) (es : list rx_event) (s' : rx_state) : Prop :=
  match es with
  | [] => s = s'
  | e :: es => exists s1, rx_step s e s1 /\ rx_path s1 es s'
  end.

(** The choices of the scheduler and of the outside world. *)
Inductive rx_choice :=
| Do_packet (p : pbuf_t) (addr port : Z)
| Do_top | Do_serve | Do_release
| Do_begin (socket_port max_len : Z) (msg : list Z)
| Do_wake | Do_end.

Definition done_ {A} (o : outcome (A * rx_state)) : option (A * rx_state) :=
  match o with Done r => Some r | _ => None end.

Definition rx_exec (c : rx_choice) (s : rx_state) : option (rx_event * rx_state) :=
  match c, rx_at s, client_at s with
  | Do_packet p ad po, _, _ => r ← done_ (udprecv p ad po s); Some (Packet p ad po, r.2)
  | Do_top, Rx_top, _ => r ← done_ (rx_top s); Some (Top, r.2)
  | Do_serve, Rx_wait, C_calling max_len msg =>
      '((len, port, addr), s') ← done_ (rx_serve s);
      Some (if non_null (rx_msg s') then Serve (take (Z.to_nat len) (rx_buf s')) addr port
            else Serve_nothing, set_client (C_replied max_len msg len port addr) s')
  | Do_release, Rx_release, _ => r ← done_ (rx_release s); Some (Release, r.2)
  | Do_begin sp max_len msg, _, C_idle => r ← done_ (udp_recv_begin sp max_len msg s); Some (Recv_begin, r.2)
  | Do_wake, _, C_waiting max_len msg =>
      if notified s then r ← done_ (udp_recv_wake max_len msg s); Some (Recv_wake, r.2) else None
  | Do_end, _, C_replied max_len msg mr0 mr1 mr2 =>
      '((error, msg', len, port, addr), s') ← done_ (udp_recv_end max_len msg mr0 mr1 mr2 s);
      Some (Recv_end error msg' len port addr, s')
  | _, _, _ => None
  end.

Lemma done_Some {A} (o : outcome (A * rx_state)) r : done_ o = Some r -> o = Done r.
Proof. destruct o; cbn; congruence. Qed.

Lemma rx_exec_sound c s e s' : rx_exec c s = Some (e, s') -> rx_step s e s'.
Proof.
  unfold rx_exec. destruct c as [p ad po| | | |sp n msg| |].
  - destruct (done_ _) as [[[] s1]|] eqn:Hd; [|done]. cbn. intros [= <- <-].
    apply done_Some in Hd. by constructor.
  - destruct (rx_at s) eqn:Hat; try done. destruct (done_ _) as [[[] s1]|] eqn:Hd; [|done].
    cbn. intros [= <- <-]. apply done_Some in Hd. by constructor.
  - destruct (rx_at s) eqn:Hat; try done. destruct (client_at s) eqn:Hcl; try done.
    destruct (done_ _) as [[[[len po] ad] s1]|] eqn:Hd; [|done].
    cbn. intros [= <- <-]. apply done_Some in Hd. by eapply step_serve.
  - destruct (rx_at s) eqn:Hat; try done. destruct (done_ _) as [[[] s1]|] eqn:Hd; [|done].
    cbn. intros [= <- <-]. apply done_Some in Hd. by constructor.
  - destruct (rx_at s), (client_at s) eqn:Hcl; try done;
      (destruct (done_ _) as [[[] s1]|] eqn:Hd; [|done]; cbn; intros [= <- <-];
       apply done_Some in Hd; by eapply step_begin).
  - destruct (rx_at s), (client_at s) eqn:Hcl; try done;
      (destruct (notified s) eqn:Hn; [|done]; destruct (done_ _) as [[[] s1]|] eqn:Hd; [|done];
       cbn; intros [= <- <-]; apply done_Some in Hd; by eapply step_wake).
  - destruct (rx_at s), (client_at s) eqn:Hcl; try done;
      (destruct (done_ _) as [[[[[[er m'] len] po] ad] s1]|] eqn:Hd; [|done];
       cbn; intros [= <- <-]; apply done_Some in Hd; by eapply step_end).
Qed.

Fixpoint rx_execs (cs : list rx_choice) (s : rx_state) : option (list rx_event * rx_state) :=
  match cs with
  | [] => Some ([], s)
  | c :: cs => '(e, s1) ← rx_exec c s; '(es, s2) ← rx_execs cs s1; Some (e :: es, s2)
  end.

(** The history of a path from [s]. *)
Fixpoint accepted_path (cs : list rx_choice) (s : rx_state) : list sel4osapi_udp_message_t :=
  match cs with
  | [] => []
  | c :: cs => match rx_exec c s with
               | Some (e, s1) => accepted s e ++ accepted_path cs s1
               | None => []
               end
  end.
Fixpoint dropped_path (cs : list rx_choice) (s : rx_state) : list pbuf_t :=
  match cs with
  | [] => []
  | c :: cs => match rx_exec c s with
               | Some (e, s1) => dropped s e ++ dropped_path cs s1
               | None => []
               end
  end.

Lemma rx_execs_reach cs s es s' acc dlv drp :
  rx_reach s acc dlv drp -> rx_execs cs s = Some (es, s') ->
  Forall (fits (rx_buf_size s)) (accepted_path cs s) ->
  rx_reach s' (acc ++ accepted_path cs s) (dlv ++ (es ≫= delivered)) (drp ++ dropped_path cs s).
Proof.
  revert s es acc dlv drp. induction cs as [|c cs IH]; intros s es acc dlv drp Hr He Hf; cbn in *.
  - injection He as <- <-. by rewrite !app_nil_r.
  - destruct (rx_exec c s) as [[e s1]|] eqn:Hc; [|done]. cbn in He.
    destruct (rx_execs cs s1) as [[es' s2]|] eqn:Hcs; [|done]. cbn in He. injection He as <- <-.
    apply Forall_app in Hf as [Hfe Hf]. apply rx_exec_sound in Hc.
    destruct (rx_reach_ok _ _ _ _ Hr) as [Hok Hfit].
    destruct (step_keeps _ _ _ _ _ _ Hok Hfit Hc) as [_ Hsz].
    cbn. rewrite !app_assoc. apply (IH s1 es'); [|done|by rewrite Hsz].
    by apply (reach_step s).
Qed.

(** A socket to run examples on: a queue of 4, a page of 64 bytes. *)
Definition sample_msgs_mem : heap sel4osapi_udp_message_t := Heap 1 4096 ∅ ∅ ∅.
Definition sample_rx : rx_state :=
  match simple_pool_new 4 sizeof_udp_message None NULL None (UdpMessage None 0 0) sample_msgs_mem with
  | Done (p, h) => RxState (PoolState p h) false (replicate 64 0) 64 Rx_top 0 NULL C_idle []
  | _ => RxState (PoolState (Pool NULL NULL 0 0 0 None NULL None) sample_msgs_mem) false [] 0 Rx_top 0 NULL C_idle []
  end.

Lemma sample_rx_initial : rx_initial sample_rx.
Proof.
  destruct (wp_pool_new (init:=None) (cmp:=None) 4 sizeof_udp_message NULL (UdpMessage None 0 0) sample_msgs_mem)
    as (p & h & Hp & fr & _ & _ & R & _);
    [by split; cbn; try (intros l [? Hl])|done|done|by vm_compute|].
  unfold sample_rx. rewrite Hp. clear Hp. unfold rx_initial.
  cbn [msgs notified rx_buf rx_buf_size rx_at remaining_msgs rx_msg client_at freed].
  split; [by exists (APool fr [] (cells h))|]. split_and!; try reflexivity.
Qed.

(** Two packets; the second arrives while the client is calling. *)
Definition sample_run : list rx_choice :=
  [Do_top; Do_packet [[1; 2]] 10 7; Do_begin 5 4 [0; 0; 0; 0]; Do_wake;
   Do_packet [[3]; [4; 5]] 10 7; Do_serve; Do_end;
   Do_begin 5 4 [0; 0; 0; 0]; Do_wake; Do_release; Do_top; Do_serve; Do_end;
   Do_begin 5 4 [0; 0; 0; 0]; Do_wake; Do_release; Do_top; Do_serve].

Definition run_state (cs : list rx_choice) : rx_state :=
  match rx_execs cs sample_rx with Some (_, s) => s | None => sample_rx end.
Definition run_events (cs : list rx_choice) : list rx_event :=
  match rx_execs cs sample_rx with Some (es, _) => es | None => [] end.

Lemma run_reach cs :
  bool_decide (is_Some (rx_execs cs sample_rx)) = true ->
  forallb (fun m => Z.of_nat (length (concat (chain_of m))) <=? 64) (accepted_path cs sample_rx) = true ->
  rx_reach (run_state cs) (accepted_path cs sample_rx) (run_events cs ≫= delivered) (dropped_path cs sample_rx).
Proof.
  intros Hsome Hfit. apply bool_decide_eq_true in Hsome as [[es s'] Hrun].
  unfold run_state, run_events. rewrite Hrun.
  apply (rx_execs_reach cs sample_rx es s' [] [] []); [by apply reach_initial, sample_rx_initial|done|].
  assert (Hsz : rx_buf_size sample_rx = 64) by by vm_compute. rewrite Hsz.
  apply Forall_forall. intros m Hm. apply forallb_forall with (x := m) in Hfit.
  - unfold fits. by apply Z.leb_le.
  - by apply list_elem_of_In.
Qed.

(** ** Properties *)

Section properties.
Implicit Types (s : rx_state).

(** C7: Delivery is in order and without duplicates: at every moment of every
    interleaving, the datagrams handed to the client are a prefix of those
    accepted into the queue (payload, source address and port). *)
Theorem udp_fifo_delivery s acc dlv drp :
  rx_reach s acc dlv drp -> dlv `prefix_of` (datagram_of <$> acc).
Proof.
  intros Hr. destruct (rx_reach_ok _ _ _ _ Hr) as [(a & q & I) _].
  exists (datagram_of <$> pending s q). apply I.
Qed.

(** C8: No wake-up is lost: whenever an accepted datagram has not been
    delivered, the notification is pending, or the client is already calling,
    or the rx thread is on its way back and will signal. *)
Theorem udp_no_lost_wakeup s acc dlv drp :
  rx_reach s acc dlv drp -> (length dlv < length acc)%nat ->
  notified s = true \/ (exists max_len msg, client_at s = C_calling max_len msg) \/
  (rx_at s <> Rx_wait /\ 0 < remaining_msgs s).
Proof.
  intros Hr Hlt. destruct (rx_reach_ok _ _ _ _ Hr) as [(a & q & I) _].
  apply (ri_wake _ _ _ _ _ _ I). intros Hp. pose proof (ri_fifo _ _ _ _ _ _ I) as Hf.
  rewrite Hp in Hf. cbn in Hf. rewrite app_nil_r in Hf. apply (f_equal length) in Hf.
  rewrite length_fmap in Hf. lia.
Qed.

(** No packet buffer leaks and none is freed twice: when the rx thread
    holds no message, the buffers given back to lwIP are, up to order, those of
    the dropped packets and of the delivered datagrams; the undelivered ones
    are still in the queue. *)
Theorem udp_pbufs_freed_once s acc dlv drp :
  rx_reach s acc dlv drp -> rx_msg s = NULL ->
  exists done left, acc = done ++ left /\ dlv = datagram_of <$> done /\
    freed s ≡ₚ drp ++ (chain_of <$> done).
Proof.
  intros Hr Hmsg. destruct (rx_reach_ok _ _ _ _ Hr) as [(a & q & I) _]. destruct I.
  destruct ri_sub0 as [out ->]. exists out, q. unfold pending in ri_fifo0. rewrite Hmsg in ri_fifo0.
  rewrite !fmap_app in *. apply app_inv_tail in ri_fifo0 as ->. split_and!; try done.
  rewrite app_assoc in ri_freed0. symmetry. by apply Permutation_app_inv_r in ri_freed0.
Qed.

(** The receive path never fails: in every reachable state the lwIP
    callback, each step of the rx thread that is enabled, and the end of the
    client's call into a buffer of max_len bytes all run to their end - no
    assertion fails and nothing is written outside the shared page. *)
Theorem udp_receive_safe s acc dlv drp :
  rx_reach s acc dlv drp ->
  (forall p ad po, exists s', udprecv p ad po s = Done (tt, s')) /\
  (rx_at s = Rx_top -> exists s', rx_top s = Done (tt, s')) /\
  (rx_at s = Rx_wait -> exists r s', rx_serve s = Done (r, s')) /\
  (rx_at s = Rx_release -> exists s', rx_release s = Done (tt, s')) /\
  (forall max_len msg mr0 mr1 mr2, client_at s = C_replied max_len msg mr0 mr1 mr2 ->
     max_len <= Z.of_nat (length msg) ->
     exists r s', udp_recv_end max_len msg mr0 mr1 mr2 s = Done (r, s')).
Proof.
  intros Hr. destruct (rx_reach_ok _ _ _ _ Hr) as [(a & q & I) Hf].
  pose proof (rx_inv_queued _ _ _ _ _ _ I Hf) as Hq. pose proof (rx_reach_replied _ _ _ _ Hr) as Hrep.
  pose proof I as []. split_and!.
  - intros p ad po. destruct (wp_udprecv s a q p ad po ri_queue0) as ([] & s' & H & _). by exists s'.
  - intros _. unfold rx_top, bind. cbn. destruct (0 <? remaining_msgs s); by eexists.
  - intros Hat. destruct q as [|m q].
    + destruct (wp_rx_serve_nothing s a ri_queue0) as (r & s' & H & _). by exists r, s'.
    + apply Forall_cons in Hq as [[Hp Hm] _].
      destruct (wp_rx_serve s a m q ri_queue0 Hp Hm ri_buf0 ri_size0) as (r & s' & H & _). by exists r, s'.
  - intros Hat. destruct (rx_msg s) as [e|] eqn:Hmsg.
    + destruct (rx_inv_head _ _ _ _ _ _ e I Hmsg) as (m & q' & x & b & -> & Hb & -> & _).
      apply Forall_cons in Hq as [[Hp _] _].
      destruct (wp_rx_release s a m q' x b ri_queue0 Hp Hb Hmsg) as ([] & s' & H & _). by exists s'.
    + unfold rx_release, bind. cbn. rewrite Hmsg. by eexists.
  - intros max_len msg mr0 mr1 mr2 Hat Hlen. unfold udp_recv_end, bind. cbn.
    destruct (Z.ltb_spec max_len (u32 mr0)); [by eexists _, _|].
    destruct (u32 mr0 =? 0); [by eexists _, _|].
    destruct (Hrep _ _ _ _ _ Hat) as [[-> _]|[Hrange _]].
    + cbn. by eexists _, _.
    + rewrite u32_small in * by (unfold is_u32; lia).
      destruct (Nat.leb_spec (Z.to_nat mr0) (length (rx_buf s))); [|lia].
      destruct (Nat.leb_spec (Z.to_nat mr0) (length msg)); [|lia]. by eexists _, _.
Qed.

(** C10: What a client's receive returns is a datagram: when the call returns 0
    the length is that of the last datagram delivered to it, its bytes are at
    the start of the caller's buffer, and port and address are its source. *)
Theorem udp_recv_returns_datagram s acc dlv drp msg' len po ad s' :
  rx_reach s acc dlv drp ->
  Forall (fun m => 0 <= port m < 2 ^ 16 /\ is_u32 (addr m)) acc ->
  rx_step s (Recv_end 0 msg' len po ad) s' ->
  exists data, last dlv = Some (data, ad, po) /\ len = Z.of_nat (length data) /\ 0 < len /\
    take (length data) msg' = data.
Proof.
  intros Hr Hm Hs. pose proof (rx_reach_replied _ _ _ _ Hr) as Hrep.
  destruct (rx_reach_ok _ _ _ _ Hr) as [(a & q & I) _]. destruct I.
  inversion Hs; subst; try (match goal with H : (if _ then _ else _) = _ |- _ => by destruct (non_null _) end).
  match goal with
  | Hc : client_at s = C_replied ?n ?b ?r0 ?r1 ?r2, H : udp_recv_end _ _ _ _ _ _ = _ |- _ =>
      rename Hc into Hat, H into Hend, n into max_len, b into msg, r0 into mr0, r1 into mr1, r2 into mr2
  end.
  unfold udp_recv_end, bind in Hend. cbn in Hend.
  destruct (Z.ltb_spec max_len (u32 mr0)) as [|Hle]; [done|].
  destruct (Z.eqb_spec (u32 mr0) 0) as [|Hne]; [done|].
  destruct (Hrep _ _ _ _ _ Hat) as [[-> _]|[Hrange Hlast]]; [done|].
  rewrite u32_small in * by (unfold is_u32; lia).
  destruct (Nat.leb_spec (Z.to_nat mr0) (length (rx_buf s))); [|done].
  destruct (Nat.leb_spec (Z.to_nat mr0) (length msg)); [|done]. cbn in Hend. injection Hend as <- <- <- <- _.
  assert (Hin : (take (Z.to_nat mr0) (rx_buf s), mr2, mr1) ∈ datagram_of <$> acc).
  { rewrite ri_fifo0. apply elem_of_app. left. by apply last_Some_elem_of. }
  apply list_elem_of_fmap in Hin as (m & Heq & Hin). unfold datagram_of in Heq. injection Heq as _ -> ->.
  rewrite Forall_forall in Hm. destruct (Hm m Hin) as [Hport Haddr].
  rewrite u16_small, u32_small in * by done.
  exists (take (Z.to_nat mr0) (rx_buf s)). rewrite length_take, Nat.min_l by lia.
  split_and!; [done|lia|lia|]. rewrite take_app_le by (rewrite length_take; lia).
  rewrite take_take. f_equal. lia.
Qed.

(** Nothing bounds the copy of a packet: one longer than the client's page
    is written past its end before the length is looked at. *)
Theorem udp_oversized_packet_overruns s a m q ch :
  queue_rep s a (m :: q) -> pbuf m = Some ch -> ~ fits (rx_buf_size s) m ->
  Z.of_nat (length (rx_buf s)) = rx_buf_size s ->
  Forall (fun seg : list Z => Z.of_nat (length seg) < 2 ^ 16) ch -> rx_buf_size s < 2 ^ 31 ->
  rx_serve s = Wild_access.
Proof.
  intros HQ Hch Hbig Hlen Hseg Hsz. destruct (queue_head _ _ _ _ HQ) as (x & b & nd & Hb & He & Hn & Hel & Hc & _).
  assert (Hcopy : forall (c : pbuf_t) off st, length (rx_buf st) = length (rx_buf s) -> 0 <= off <= rx_buf_size s ->
            Forall (fun seg : list Z => Z.of_nat (length seg) < 2 ^ 16) c ->
            rx_buf_size s < off + Z.of_nat (length (concat c)) -> copy_chain c off st = Wild_access).
  { intros c. induction c as [|seg c IH]; intros off st Hst Hoff Hc' Hov; cbn in *; [lia|].
    apply Forall_cons in Hc' as [Hsg Hc']. rewrite length_app in Hov.
    unfold rx_store, bind at 1. cbn. destruct (Nat.leb_spec (Z.to_nat off + length seg) (length (rx_buf st))); [|done].
    cbn. rewrite u32_small by (unfold is_u32; lia).
    apply IH; [|lia|done|lia]. cbn. by rewrite splice_length by lia. }
  unfold fits, chain_of in Hbig. rewrite Hch in Hbig.
  change (default [] (Some ch)) with ch in Hbig. unfold rx_serve. rewrite (bind_done _ _ s s s eq_refl). rewrite He. cbn [non_null negb].
  change (negb (non_null (Some x.1))) with false. cbn iota.
  destruct (wp_mem_read_node (Some x.1) x.1 nd (fun v p => v = nd /\ p = msgs s) (msgs s))
    as (v & p & Hrd & -> & ->); [done..|].
  assert (Hrd' : on_msgs (on_mem (read_node (Some x.1))) s = Done (nd, s)).
  { unfold on_msgs, zoom. by rewrite Hrd, set_msgs_id. }
  rewrite (bind_done _ _ _ _ _ Hrd'). cbn zeta.
  assert (Hcur : on_msgs simple_pool_get_current_size s = Done (current_size (pool (msgs s)), s)).
  { unfold on_msgs, zoom. cbn. by rewrite set_msgs_id. }
  rewrite (bind_done _ _ _ _ _ Hcur). rewrite Hel.
  rewrite (bind_done _ _ s tt s eq_refl).
  destruct (wp_msgs_read_cell (Some x.2) x.2 m (fun v s' => v = m /\ s' = s) s)
    as (v & s' & Hrc & -> & ->); [done..|].
  rewrite (bind_done _ _ _ _ _ Hrc). rewrite Hch. rewrite (bind_done _ _ s tt s eq_refl).
  apply bind_wild. change (default [] (Some ch)) with ch. apply Hcopy; [done| |done|lia].
  split; [lia|]. rewrite <- Hlen. lia.
Qed.

(** *** Progress *)

Lemma serve_progress s a q acc dlv drp max_len msg :
  rx_inv s a q acc dlv drp -> Forall (fits (rx_buf_size s)) acc ->
  client_at s = C_waiting max_len msg -> rx_at s = Rx_wait -> pending s q <> [] ->
  exists d s', rx_path s [Recv_wake; Serve d.1.1 d.1.2 d.2] s' /\
    (datagram_of <$> acc) !! length dlv = Some d.
Proof.
  intros I Hf Hcl Hat Hp. pose proof (rx_inv_no_msg _ _ _ _ _ _ I ltac:(by rewrite Hat)) as Hmsg.
  pose proof (rx_inv_queued _ _ _ _ _ _ I Hf) as Hq. destruct I.
  destruct (ri_wake0 Hp) as [Hn|[(? & ? & ?)|[? _]]]; [|congruence|done].
  unfold pending in Hp, ri_fifo0. rewrite Hmsg in Hp, ri_fifo0. destruct q as [|m q]; [done|].
  apply Forall_cons in Hq as [[Hpb Hm] _].
  set (s1 := set_client (C_calling max_len msg) (set_notified false s)).
  destruct (wp_rx_serve s1 a m q ri_queue0 Hpb Hm ri_buf0 ri_size0) as (r & s2 & Hr & -> & x & b & Hb & ->).
  exists (datagram_of m). eexists. split.
  - exists s1. split; [by eapply step_wake|]. eexists. split; [|reflexivity].
    pose proof (step_serve max_len msg s1 _ _ _ _ Hat eq_refl Hr) as Hs.
    change (non_null (rx_msg (served s1 x.2 (length q) m))) with true in Hs. cbn iota in Hs.
    rewrite Nat2Z.id in Hs. cbn [rx_buf served] in Hs. rewrite splice_0_take in Hs. exact Hs.
  - rewrite ri_fifo0. by apply list_lookup_middle.
Qed.

Lemma top_progress s a q acc dlv drp max_len msg :
  rx_inv s a q acc dlv drp -> Forall (fits (rx_buf_size s)) acc ->
  client_at s = C_waiting max_len msg -> rx_at s = Rx_top -> (length dlv < length acc)%nat ->
  exists d s', rx_path s [Top; Recv_wake; Serve d.1.1 d.1.2 d.2] s' /\
    (datagram_of <$> acc) !! length dlv = Some d.
Proof.
  intros I Hf Hcl Hat Hlt.
  assert (exists s1, rx_top s = Done (tt, s1) /\ client_at s1 = client_at s /\ rx_at s1 = Rx_wait) as (s1 & Ht & Hcl1 & Hat1).
  { unfold rx_top, bind. cbn. destruct (0 <? remaining_msgs s); by eexists. }
  destruct (top_keeps s s1 acc dlv drp) as [(a1 & q1 & I1) Hsz]; [by exists a, q|done|done|].
  destruct (serve_progress s1 a1 q1 acc dlv drp max_len msg I1) as (d & s' & Hpath & Hd);
    [by rewrite Hsz|by rewrite Hcl1|done| |].
  - intros Hp. pose proof (ri_fifo _ _ _ _ _ _ I1) as Hfi. rewrite Hp, app_nil_r in Hfi.
    apply (f_equal length) in Hfi. rewrite length_fmap in Hfi. lia.
  - exists d, s'. split; [|done]. exists s1. split; [by constructor|exact Hpath].
Qed.

(** C9: Progress: when a client waits and an accepted datagram is undelivered,
    the threads on their own - no further packet needed - bring the oldest
    such datagram to the client, in at most four steps. *)
Theorem udp_delivery_progress s acc dlv drp max_len msg :
  rx_reach s acc dlv drp -> client_at s = C_waiting max_len msg ->
  (length dlv < length acc)%nat ->
  exists d pre s', rx_path s (pre ++ [Recv_wake; Serve d.1.1 d.1.2 d.2]) s' /\
    (pre = [] \/ pre = [Top] \/ pre = [Release; Top]) /\
    (datagram_of <$> acc) !! length dlv = Some d.
Proof.
  intros Hr Hcl Hlt. destruct (rx_reach_ok _ _ _ _ Hr) as [(a & q & I) Hf].
  destruct (rx_at s) eqn:Hat.
  - destruct (top_progress s a q acc dlv drp max_len msg I Hf Hcl Hat Hlt) as (d & s' & Hp & Hd).
    exists d, [Top], s'. split_and!; [exact Hp|by right; left|done].
  - destruct (serve_progress s a q acc dlv drp max_len msg I Hf Hcl Hat) as (d & s' & Hp & Hd).
    + intros Hp. pose proof (ri_fifo _ _ _ _ _ _ I) as Hfi. rewrite Hp, app_nil_r in Hfi.
      apply (f_equal length) in Hfi. rewrite length_fmap in Hfi. lia.
    + exists d, [], s'. split_and!; [exact Hp|by left|done].
  - destruct (udp_receive_safe s acc dlv drp Hr) as (_ & _ & _ & Hrel & _).
    destruct (Hrel Hat) as [s1 H1].
    destruct (release_keeps s s1 acc dlv drp) as [(a1 & q1 & I1) Hsz]; [by exists a, q|done..|].
    rewrite !app_nil_r in I1.
    assert (client_at s1 = client_at s /\ rx_at s1 = Rx_top) as [Hcl1 Hat1].
    { destruct (rx_msg s) as [e|] eqn:Hmsg.
      - destruct (rx_inv_head _ _ _ _ _ _ e I Hmsg) as (m & q' & x & b & -> & Hb & -> & _).
        pose proof (rx_inv_queued _ _ _ _ _ _ I Hf) as [[Hpb _] _]%Forall_cons.
        by destruct (wp_done _ _ _ _ _ (wp_rx_release s a m q' x b (ri_queue _ _ _ _ _ _ I) Hpb Hb Hmsg) H1)
          as (p' & a' & -> & _).
      - unfold rx_release, bind in H1. cbn in H1. rewrite Hmsg in H1. by injection H1 as <-. }
    destruct (top_progress s1 a1 q1 acc dlv drp max_len msg I1) as (d & s' & Hp & Hd);
      [by rewrite Hsz|by rewrite Hcl1|done|done|].
    exists d, [Release; Top], s'. split_and!; [|by right; right|done].
    exists s1. split; [by constructor|exact Hp].
Qed.

(** A wake-up may come once too often: a client can be woken, call the rx
    thread, and have its receive return -1 although every datagram accepted
    had been delivered before and none was lost. *)
Theorem udp_spurious_wakeup :
  exists s acc dlv msg s', rx_reach s acc dlv [] /\ length acc = 2%nat /\
    dlv = datagram_of <$> acc /\ rx_step s (Recv_end (-1) msg 0 0 0) s'.
Proof.
  exists (run_state sample_run), (accepted_path sample_run sample_rx), (run_events sample_run ≫= delivered).
  exists [0; 0; 0; 0]. eexists. split_and!.
  - assert (Hd : dropped_path sample_run sample_rx = []) by by vm_compute.
    rewrite <- Hd. apply run_reach; by vm_compute.
  - by vm_compute.
  - by vm_compute.
  - apply (rx_exec_sound Do_end). vm_compute. reflexivity.
Qed.
End properties.

(** *** Concrete runs *)

Lemma udp_fifo_delivery_witness :
  [([1; 2], 10, 7); ([3; 4; 5], 10, 7)]
    `prefix_of` (datagram_of <$> accepted_path sample_run sample_rx).
Proof.
  refine (udp_fifo_delivery (run_state sample_run) _ _ (dropped_path sample_run sample_rx) _).
  apply (run_reach sample_run); by vm_compute.
Defined.

Lemma udp_no_lost_wakeup_witness :
  let cs := take 9 sample_run in
  notified (run_state cs) = true \/
  (exists max_len msg, client_at (run_state cs) = C_calling max_len msg) \/
  (rx_at (run_state cs) <> Rx_wait /\ 0 < remaining_msgs (run_state cs)).
Proof.
  intros cs. apply (udp_no_lost_wakeup (run_state cs) (accepted_path cs sample_rx)
                      (run_events cs ≫= delivered) (dropped_path cs sample_rx)).
  - apply (run_reach cs); by vm_compute.
  - apply Nat.ltb_lt. by vm_compute.
Defined.

Lemma udp_pbufs_freed_once_witness :
  let cs := take 11 sample_run in
  exists done left, accepted_path cs sample_rx = done ++ left /\
    freed (run_state cs) ≡ₚ dropped_path cs sample_rx ++ (chain_of <$> done).
Proof.
  intros cs. destruct (udp_pbufs_freed_once (run_state cs) (accepted_path cs sample_rx)
                      (run_events cs ≫= delivered) (dropped_path cs sample_rx)) as (dn & lf & H1 & _ & H2).
  - apply (run_reach cs); by vm_compute.
  - by vm_compute.
  - exists dn, lf. split; [exact H1|exact H2].
Defined.

Lemma udp_receive_safe_witness :
  exists r s', rx_serve (run_state (take 5 sample_run)) = Done (r, s').
Proof.
  destruct (udp_receive_safe (run_state (take 5 sample_run)) (accepted_path (take 5 sample_run) sample_rx)
              (run_events (take 5 sample_run) ≫= delivered) (dropped_path (take 5 sample_run) sample_rx))
    as (_ & _ & H & _).
  - apply (run_reach (take 5 sample_run)); by vm_compute.
  - apply H. by vm_compute.
Defined.

Lemma udp_recv_returns_datagram_witness :
  let cs := take 6 sample_run in
  exists data, last (run_events cs ≫= delivered) = Some (data, 10, 7) /\
    take (length data) [1; 2; 0; 0] = data.
Proof.
  intros cs. destruct (udp_recv_returns_datagram (run_state cs) (accepted_path cs sample_rx)
                      (run_events cs ≫= delivered) (dropped_path cs sample_rx)
                      [1; 2; 0; 0] 2 7 10 (set_client C_idle (run_state cs))) as (data & H1 & _ & _ & H2).
  - apply (run_reach cs); by vm_compute.
  - change (accepted_path cs sample_rx) with (accepted_path (take 6 sample_run) sample_rx).
    apply (bool_decide_unpack _). by vm_compute.
  - apply (rx_exec_sound Do_end). by vm_compute.
  - exists data. split; [exact H1|exact H2].
Defined.

Lemma udp_delivery_progress_witness :
  let cs := take 8 sample_run in
  exists d pre s', rx_path (run_state cs) (pre ++ [Recv_wake; Serve d.1.1 d.1.2 d.2]) s' /\
    (datagram_of <$> accepted_path cs sample_rx) !! 1%nat = Some d.
Proof.
  intros cs. destruct (udp_delivery_progress (run_state cs) (accepted_path cs sample_rx)
                      (run_events cs ≫= delivered) (dropped_path cs sample_rx) 4 [0; 0; 0; 0])
    as (d & pre & s' & H1 & _ & H2).
  - apply (run_reach cs); by vm_compute.
  - by vm_compute.
  - apply Nat.ltb_lt. by vm_compute.
  - exists d, pre, s'. split; [exact H1|]. exact H2.
Defined.

(** The same socket with a page of 2 bytes and a packet of 3 in the queue. *)
Definition small_page (s : rx_state) : rx_state :=
  RxState (msgs s) (notified s) [0; 0] 2 (rx_at s) (remaining_msgs s) (rx_msg s) (client_at s) (freed s).

Definition queued_run : list rx_choice := [Do_top; Do_packet [[1]; [2; 3]] 10 7].
Definition queued_msg : sel4osapi_udp_message_t := UdpMessage (Some [[1]; [2; 3]]) 10 7.

Lemma queued_rep : exists a, queue_rep (run_state queued_run) a [queued_msg].
Proof.
  pose proof (run_reach queued_run ltac:(by vm_compute) ltac:(by vm_compute)) as Hr.
  destruct (rx_reach_ok _ _ _ _ Hr) as [(a & q & I) _]. destruct I. exists a.
  assert (Hacc : accepted_path queued_run sample_rx = [queued_msg]) by by vm_compute.
  assert (Hmsg : rx_msg (run_state queued_run) = NULL) by by vm_compute.
  assert (Hev : (run_events queued_run ≫= delivered) = []) by by vm_compute.
  rewrite Hacc in *. unfold pending in ri_fifo0. rewrite Hmsg, Hev in ri_fifo0.
  assert (q = [queued_msg]) as ->; [|exact ri_queue0].
  revert ri_fifo0 ri_sub0. clear. intros Hl [out Hout]. apply (f_equal length) in Hl.
  rewrite length_app, length_fmap in Hl. cbn in Hl. rewrite length_fmap in Hl.
  destruct out as [|m out]; [done|]. apply (f_equal length) in Hout.
  rewrite length_app in Hout. cbn in Hout. lia.
Qed.

Lemma udp_oversized_packet_overruns_witness :
  rx_serve (small_page (run_state queued_run)) = Wild_access.
Proof.
  destruct queued_rep as [a Hq]. revert Hq. generalize (run_state queued_run). intros s Hq.
  apply (udp_oversized_packet_overruns (small_page s) a queued_msg [] [[1]; [2; 3]] Hq);
    [reflexivity|unfold fits; cbn; lia|reflexivity|solve_Forall|reflexivity].
Defined.
