(* ===== verification/UdpSend.v ===== *)
(** * UdpSend: sending on a UDP socket (src/udp.c)

    The client copies its message to [tx_buf], the pages it shares with the
    root task, and calls the socket's tx thread, which copies the message into
    a buffer of lwIP and sends it, under the mutex of the interface.  lwIP, that
    mutex and the semaphore that guards [tx_buf] are the environment [N], reached
    through [TxEnv]; [TxEnvOk] is what is relied on. *)

From S2P Require Import Prelude.

(** lwIP's error codes. *)
Definition ERR_OK : Z := 0.
Definition ERR_MEM : Z := -1.

Class TxEnv (N : Type) := {
  pbuf_alloc : Z -> N -> bool * N;               (* size of the payload, 16 bits *)
  udp_sendto : list Z -> Z -> Z -> N -> Z * N;   (* payload, address, port *)
  pbuf_free : N -> N;
  tx_iface_lock : N -> Z * N;                    (* server->iface->mutex *)
  tx_iface_unlock : N -> N;
  tx_buf_take : N -> N;
  tx_buf_give : N -> N
}.

(** Locking a recursive mutex that exists succeeds; lwIP's errors are ints. *)
Class TxEnvOk (N : Type) `{TxEnv N} := {
  tx_iface_lock_ok (n : N) : (tx_iface_lock n).1 = 0;
  udp_sendto_int payload addr port (n : N) : is_s32 (udp_sendto payload addr port n).1
}.

Section udp_tx_c.
Context {N : Type} {ENV : TxEnv N}.

Record tx_state := TxState { tx_buf : list Z; tx_buf_size : Z; net : N }.

Definition set_net (n : N) (s : tx_state) : tx_state := TxState (tx_buf s) (tx_buf_size s) n.
Definition ncall {A} (f : N -> A * N) : M tx_state A := fun s =>
  Done ((f (net s)).1, set_net (f (net s)).2 s).
Definition ndo (f : N -> N) : M tx_state unit := modify (fun s => set_net (f (net s)) s).

(** The first [n] bytes behind a pointer. *)
Definition load (n : Z) (b : list Z) : option (list Z) :=
  if (0 <=? n) && (Z.to_nat n <=? length b)%nat then Some (take (Z.to_nat n) b) else None.

(** One iteration of [sel4osapi_udp_socket_tx_thread]; the result is the
    message register of its reply.  [len] is an int and [tx_buf_size] unsigned,
    so they are compared as unsigned. *)
Definition tx_serve (mr0 mr1 mr2 : Z) : M tx_state Z :=
  let! s := get in
  let addr := u32 mr1 in
  let port := u16 mr2 in
  let len := if tx_buf_size s <? u32 (s32 mr0) then s32 (tx_buf_size s) else s32 mr0 in
  let! error := ncall tx_iface_lock in
  assert_ (error =? 0) ;;
  let! p := ncall (pbuf_alloc (u16 len)) in
  let! lwerr :=
    (if p then
       let! payload := deref (if len <=? u16 len then load len (tx_buf s) else None) in
       let! lwerr := ncall (udp_sendto payload addr port) in
       ndo pbuf_free ;;
       ret lwerr
     else ret ERR_MEM) in
  ndo tx_iface_unlock ;;
  let error := if negb (lwerr =? ERR_OK) then lwerr else 0 in
  ret (u32 error).

(** [sel4osapi_udp_send], its call served by the tx thread. *)
Definition sel4osapi_udp_send (msg : list Z) (len ipaddr port : Z) : M tx_state Z :=
  let! s := get in
  assert_ (len <? tx_buf_size s) ;;
  ndo tx_buf_take ;;
  let! src := deref (load len msg) in
  let! b := deref (if (length src <=? length (tx_buf s))%nat then Some (splice (tx_buf s) 0 src) else None) in
  modify (fun s => TxState b (tx_buf_size s) (net s)) ;;
  let! mr0 := tx_serve (u32 len) (u32 ipaddr) (u32 port) in
  ndo tx_buf_give ;;
  ret (s32 mr0).
End udp_tx_c.
Arguments tx_state N : clear implicits.

Section tx_spec.
Context {N : Type} {ENV : TxEnv N} {EOK : TxEnvOk N}.
Implicit Types (s : tx_state N).

(** The shared buffer, of a size lwIP can send. *)
Definition tx_ok s : Prop := Z.of_nat (length (tx_buf s)) = tx_buf_size s /\ tx_buf_size s < 2 ^ 16.

Lemma load_Some n b : 0 <= n <= Z.of_nat (length b) -> load n b = Some (take (Z.to_nat n) b).
Proof.
  intros H. unfold load. rewrite (proj2 (Z.leb_le 0 n)) by lia.
  by destruct (Nat.leb_spec (Z.to_nat n) (length b)); [|lia].
Qed.

(** What lwIP is asked to do with a payload, between lock and unlock: the
    result, and the next state. *)
Definition transmit (payload : list Z) (addr port : Z) (n : N) : Z * N :=
  let a := pbuf_alloc (Z.of_nat (length payload)) (tx_iface_lock n).2 in
  let r := if a.1 then
             let r := udp_sendto payload addr port a.2 in (r.1, pbuf_free r.2)
           else (ERR_MEM, a.2) in
  (r.1, tx_iface_unlock r.2).

(** The length the tx thread settles on. *)
Definition tx_len s (mr0 : Z) : Z := Z.min (u32 mr0) (tx_buf_size s).

Lemma wp_tx_serve mr0 mr1 mr2 s :
  tx_ok s ->
  let r := transmit (take (Z.to_nat (tx_len s mr0)) (tx_buf s)) (u32 mr1) (u16 mr2) (net s) in
  wp (tx_serve mr0 mr1 mr2) (fun v s' => v = u32 r.1 /\ s' = set_net r.2 s) s.
Proof.
  intros [Hlen Hsz] r. pose proof (u32_range mr0) as Hu. unfold is_u32 in Hu.
  assert (Hl : (if tx_buf_size s <? u32 (s32 mr0) then s32 (tx_buf_size s) else s32 mr0) = tx_len s mr0).
  { unfold tx_len. assert (u32 (s32 mr0) = u32 mr0) as ->.
    { unfold s32. destruct (u32 mr0 <? 2 ^ 31); [apply u32_idem|].
      unfold u32 at 1. rewrite <- (Z.mod_add _ 1), Z.sub_add by lia. apply u32_idem. }
    destruct (Z.ltb_spec (tx_buf_size s) (u32 mr0)).
    - rewrite s32_small by lia. lia.
    - unfold s32. destruct (Z.ltb_spec (u32 mr0) (2 ^ 31)); lia. }
  unfold tx_len in Hl. set (len := Z.min (u32 mr0) (tx_buf_size s)) in *.
  unfold tx_serve. wp_step. wp_step. rewrite Hl. rewrite u16_small by lia.
  subst r. unfold transmit. unfold tx_len. fold len. assert (Hpl : Z.of_nat (length (take (Z.to_nat len) (tx_buf s))) = len)
    by (rewrite length_take; lia). rewrite Hpl.
  wp_step. eapply wp_eq; [reflexivity|]. rewrite (tx_iface_lock_ok (net s)). wp_step. apply wp_assert; [done|].
  cbn [net set_net]. set (n0 := (tx_iface_lock (net s)).2).
  wp_step. eapply wp_eq; [reflexivity|]. cbn [net set_net]. destruct (pbuf_alloc len n0) as [p n]. cbn.
  destruct p.
  - wp_step. wp_step. eapply wp_deref.
    { rewrite (proj2 (Z.leb_le _ _)) by lia. apply load_Some. lia. }
    wp_step. eapply wp_eq; [reflexivity|]. unfold ndo. wp_steps. cbn. split; [|done].
    destruct (Z.eqb_spec (udp_sendto (take (Z.to_nat len) (tx_buf s)) (u32 mr1) (u16 mr2) n).1 ERR_OK) as [->|]; done.
  - unfold ndo. wp_steps. done.
Qed.

(** C20: A send transmits the client's message: lwIP is given exactly the first
    [len] bytes of [msg] for the given address and port, once, under the mutex
    of the interface, which is released again, and the call
    returns lwIP's result - ERR_MEM, with nothing sent, when no buffer can be
    allocated. *)
Theorem udp_send_transmits msg len ipaddr port s :
  tx_ok s -> 0 <= len < tx_buf_size s -> len <= Z.of_nat (length msg) ->
  is_u32 ipaddr -> 0 <= port < 2 ^ 16 ->
  let r := transmit (take (Z.to_nat len) msg) ipaddr port (tx_buf_take (net s)) in
  exists s', sel4osapi_udp_send msg len ipaddr port s = Done (r.1, s') /\ net s' = tx_buf_give r.2.
Proof.
  intros [Hl Hsz] Hlen Hmsg Hip Hpo r.
  assert (Hw : wp (sel4osapi_udp_send msg len ipaddr port)
                  (fun v s' => v = r.1 /\ net s' = tx_buf_give r.2) s).
  { unfold sel4osapi_udp_send, ndo. wp_step. wp_step. wp_step. apply wp_assert; [apply Z.ltb_lt; lia|].
    wp_step. wp_step. wp_step. eapply wp_deref; [apply load_Some; lia|].
    set (src := take (Z.to_nat len) msg) in *.
    assert (Hsrc : length src = Z.to_nat len) by (unfold src; rewrite length_take; lia).
    wp_step. eapply wp_deref.
    { destruct (Nat.leb_spec (length src) (length (tx_buf s))); [reflexivity|lia]. }
    wp_step. wp_step. wp_step.
    eapply wp_mono.
    { apply wp_tx_serve. split; cbn; [by rewrite splice_length by lia|lia]. }
    cbn [tx_buf tx_buf_size net set_net]. intros v s' [-> ->].
    unfold tx_len. cbn [tx_buf_size]. rewrite !u32_idem, (u32_small len) by (unfold is_u32; lia).
    rewrite Z.min_l by lia. rewrite <- Hsrc, splice_0_take, (u32_small ipaddr) by done.
    rewrite (u32_small port), (u16_small port) by (unfold is_u32; lia). fold r. wp_steps. split; [|done].
    assert (Hr : is_s32 r.1).
    { unfold r, transmit. destruct (pbuf_alloc _ _) as [[] n]; cbn; [apply udp_sendto_int|unfold is_s32, ERR_MEM; lia]. }
    unfold s32. rewrite u32_idem. unfold is_s32 in Hr. unfold u32.
    change (2 ^ 32) with 4294967296. change (2 ^ 31) with 2147483648 in *.
    destruct (Z.ltb_spec (r.1 mod 4294967296) 2147483648); Z.to_euclidean_division_equations; lia. }
  destruct Hw as (v & s' & Hs & -> & Hn). by exists s'.
Qed.

(** The tx thread is safe against any request: whatever the three message
    registers, negative lengths included, it runs to its reply and sends at
    most the bytes of the shared buffer. *)
Theorem udp_tx_truncates mr0 mr1 mr2 s :
  tx_ok s ->
  exists n v s', tx_serve mr0 mr1 mr2 s = Done (v, s') /\
    n = Z.min (u32 mr0) (tx_buf_size s) /\
    s' = set_net (transmit (take (Z.to_nat n) (tx_buf s)) (u32 mr1) (u16 mr2) (net s)).2 s.
Proof.
  intros H. destruct (wp_tx_serve mr0 mr1 mr2 s H) as (v & s' & Hs & -> & ->).
  by eexists _, _, _.
Qed.
End tx_spec.

(** A network that records what it is given, and whether its mutex is held. *)
Record sample_net := SampleNet { sn_locked : bool; sn_sent : list (bool * list Z * Z * Z) }.

#[export] Instance sample_net_env : TxEnv sample_net := {|
  pbuf_alloc n s := (true, s);
  udp_sendto payload addr port s := (0, SampleNet (sn_locked s) (sn_sent s ++ [(sn_locked s, payload, addr, port)]));
  pbuf_free s := s;
  tx_iface_lock s := (0, SampleNet true (sn_sent s));
  tx_iface_unlock s := SampleNet false (sn_sent s);
  tx_buf_take s := s;
  tx_buf_give s := s
|}.

#[export] Instance sample_net_env_ok : TxEnvOk sample_net.
Proof. by split. Defined.

Definition sample_tx : tx_state sample_net := TxState (replicate 8 0) 8 (SampleNet false []).

Lemma udp_send_transmits_witness :
  exists s', sel4osapi_udp_send [1; 2; 3] 2 10 7 sample_tx = Done (0, s') /\
    net s' = SampleNet false [(true, [1; 2], 10, 7)].
Proof.
  destruct (udp_send_transmits [1; 2; 3] 2 10 7 sample_tx) as (s' & H1 & H2); [done|done|done|done|done|].
  exists s'. split; [exact H1|exact H2].
Defined.

Lemma udp_tx_truncates_witness :
  exists n v s', tx_serve (2 ^ 32 - 1) 10 7 sample_tx = Done (v, s') /\ n = 8 /\
    s' = set_net (SampleNet false [(true, replicate 8 0, 10, 7)]) sample_tx.
Proof.
  destruct (udp_tx_truncates (2 ^ 32 - 1) 10 7 sample_tx) as (n & v & s' & H1 & H2 & H3); [done|].
  exists n, v, s'. split; [exact H1|]. split; [exact H2|]. rewrite H3, H2. reflexivity.
Defined.
