(* ===== verification/Ipc.v ===== *)
(** * Ipc: the buffers processes share with the root task (src/ipc.c, ipc.h)

    The IPC server keeps a pool with one client per process: the number of the
    process, two buffers in the root task's address space (whose pages
    [Process] later maps into the process) and a semaphore for each.  Mutexes
    and semaphores come through the interface of [Sync], the address space is
    the environment [K]. *)

From S2P Require Import Prelude Config Memory LinkedList Pool PoolSearch Sync.

(** Addresses are words, 0 is NULL. *)
Class RootEnv (K : Type) := {
  vspace_new_pages : Z -> K -> Z * K;            (* pages of 4096 bytes *)
  ROUND_UP_UNSAFE : Z -> Z -> Z                  (* a macro of libutils *)
}.

Definition PAGE_SIZE_4K : Z := 4096.

Record sel4osapi_ipcclient_t := IpcClient {
  ic_id : Z;
  ic_tx_buf_avail : ptr;
  ic_rx_buf_avail : ptr;
  ic_rx_buf : Z;
  ic_rx_buf_size : Z;
  ic_tx_buf : Z;
  ic_tx_buf_size : Z
}.

Definition sizeof_ipcclient : Z := 28.

Section ipc_c.
Context {CFG : Config} {K : Type} {OBJ : SyncObjects K} {ENV : RootEnv K}.

Definition SEL4OSAPI_PROCESS_RX_BUF_PAGES : Z :=
  ROUND_UP_UNSAFE SEL4OSAPI_PROCESS_RX_BUF_SIZE PAGE_SIZE_4K / PAGE_SIZE_4K.
Definition SEL4OSAPI_PROCESS_TX_BUF_PAGES : Z :=
  ROUND_UP_UNSAFE SEL4OSAPI_PROCESS_TX_BUF_SIZE PAGE_SIZE_4K / PAGE_SIZE_4K.

Record ipc_state := IpcState {
  ipc_mutex : ptr;
  ipc_clients : pool_state sel4osapi_ipcclient_t;
  ipc_env : K
}.

Definition set_ipc_clients p (s : ipc_state) : ipc_state := IpcState (ipc_mutex s) p (ipc_env s).
Definition set_ipc_env k (s : ipc_state) : ipc_state := IpcState (ipc_mutex s) (ipc_clients s) k.
Definition on_ipc_clients {A} (m : M (pool_state sel4osapi_ipcclient_t) A) : M ipc_state A :=
  zoom ipc_clients set_ipc_clients m.
Definition on_ipc_env {A} (m : M K A) : M ipc_state A := zoom ipc_env set_ipc_env m.
Definition ipc_call {A} (f : K -> A * K) : M ipc_state A := on_ipc_env (fun k => Done (f k)).

(** [h] is the heap of the root task, [uninit] what malloc's memory holds. *)
Definition sel4osapi_ipcserver_initialize (uninit : sel4osapi_ipcclient_t)
    (h : heap sel4osapi_ipcclient_t) : M K (Z * ptr * pool_state sel4osapi_ipcclient_t) :=
  let! mutex := mutex_create in
  assert_ (non_null mutex) ;;
  let! clients := peek h (
    let! p := simple_pool_new SEL4OSAPI_USER_PROCESS_MAX sizeof_ipcclient None NULL None uninit in
    let! h' := get in
    ret (PoolState p h')) in
  ret (0, mutex, clients).

Definition ic_set_id (i : Z) (c : sel4osapi_ipcclient_t) :=
  IpcClient i (ic_tx_buf_avail c) (ic_rx_buf_avail c) (ic_rx_buf c) (ic_rx_buf_size c) (ic_tx_buf c) (ic_tx_buf_size c).
Definition ic_set_rx_avail (a : ptr) (c : sel4osapi_ipcclient_t) :=
  IpcClient (ic_id c) (ic_tx_buf_avail c) a (ic_rx_buf c) (ic_rx_buf_size c) (ic_tx_buf c) (ic_tx_buf_size c).
Definition ic_set_tx_avail (a : ptr) (c : sel4osapi_ipcclient_t) :=
  IpcClient (ic_id c) a (ic_rx_buf_avail c) (ic_rx_buf c) (ic_rx_buf_size c) (ic_tx_buf c) (ic_tx_buf_size c).
Definition ic_set_rx_buf (b n : Z) (c : sel4osapi_ipcclient_t) :=
  IpcClient (ic_id c) (ic_tx_buf_avail c) (ic_rx_buf_avail c) b n (ic_tx_buf c) (ic_tx_buf_size c).
Definition ic_set_tx_buf (b n : Z) (c : sel4osapi_ipcclient_t) :=
  IpcClient (ic_id c) (ic_tx_buf_avail c) (ic_rx_buf_avail c) (ic_rx_buf c) (ic_rx_buf_size c) b n.

Definition sel4osapi_ipc_create_client (id : Z) : M ipc_state ptr :=
  assert_ (0 <=? id) ;;
  let! client := on_ipc_clients simple_pool_alloc in
  assert_ (non_null client) ;;
  on_ipc_clients (pool_upd client (ic_set_id id)) ;;
  let! rx_avail := on_ipc_env (semaphore_create 1) in
  on_ipc_clients (pool_upd client (ic_set_rx_avail rx_avail)) ;;
  assert_ (non_null rx_avail) ;;
  let! tx_avail := on_ipc_env (semaphore_create 1) in
  on_ipc_clients (pool_upd client (ic_set_tx_avail tx_avail)) ;;
  assert_ (non_null tx_avail) ;;
  let! rx_buf := ipc_call (vspace_new_pages SEL4OSAPI_PROCESS_RX_BUF_PAGES) in
  assert_ (negb (rx_buf =? 0)) ;;
  on_ipc_clients (pool_upd client (ic_set_rx_buf rx_buf SEL4OSAPI_PROCESS_RX_BUF_SIZE)) ;;
  let! tx_buf := ipc_call (vspace_new_pages SEL4OSAPI_PROCESS_TX_BUF_PAGES) in
  assert_ (negb (tx_buf =? 0)) ;;
  on_ipc_clients (pool_upd client (ic_set_tx_buf tx_buf SEL4OSAPI_PROCESS_TX_BUF_SIZE)) ;;
  ret client.
End ipc_c.
Arguments ipc_state K : clear implicits.

(** ** What is used of the environment

    [mapped]: the regions (address, bytes) the address space has handed out;
    [pages_left]: how many pages it can still map.
    - creating mutexes and semaphores changes neither;
    - new pages do not overlap what is mapped, and are no mutex or semaphore;
    - ROUND_UP_UNSAFE is the next multiple, when the sum does not overflow. *)
Definition apart (r1 r2 : Z * Z) : Prop := r1.1 + r1.2 <= r2.1 \/ r2.1 + r2.2 <= r1.1.

Class RootEnvOk (K : Type) `{SyncObjectsOk K} `{!RootEnv K} := {
  mapped : K -> list (Z * Z);
  pages_left : K -> Z;
  mutex_frame k r k' : mutex_create k = Done (r, k') -> mapped k' = mapped k /\ pages_left k' = pages_left k;
  semaphore_frame n k r k' : semaphore_create n k = Done (r, k') -> mapped k' = mapped k /\ pages_left k' = pages_left k;
  new_pages_ok n k : 0 < n <= pages_left k -> let r := vspace_new_pages n k in
    r.1 <> 0 /\ mapped r.2 = (r.1, n * PAGE_SIZE_4K) :: mapped k /\
    Forall (apart (r.1, n * PAGE_SIZE_4K)) (mapped k) /\ pages_left r.2 = pages_left k - n /\
    objects_of r.2 = objects_of k /\ (objects_inv k -> objects_inv r.2);
  round_up_ok x n : 0 <= x -> 0 < n -> x + n <= 2 ^ 32 ->
    x <= ROUND_UP_UNSAFE x n < x + n /\ (n | ROUND_UP_UNSAFE x n)
}.

Section ipc_spec.
Context {CFG : Config} {K : Type} `{EOK : RootEnvOk K}.
Implicit Types (s : ipc_state K) (cs : list sel4osapi_ipcclient_t) (k : K) (w : objects_view).

Definition buf_pages : Z := SEL4OSAPI_PROCESS_RX_BUF_PAGES + SEL4OSAPI_PROCESS_TX_BUF_PAGES.

(** The buffer sizes make sense. *)
Definition buf_config : Prop :=
  0 < SEL4OSAPI_PROCESS_RX_BUF_SIZE <= 2 ^ 31 /\ 0 < SEL4OSAPI_PROCESS_TX_BUF_SIZE <= 2 ^ 31.

Lemma pages_cover x : 0 < x <= 2 ^ 31 ->
  0 < ROUND_UP_UNSAFE x PAGE_SIZE_4K / PAGE_SIZE_4K /\
  x <= ROUND_UP_UNSAFE x PAGE_SIZE_4K / PAGE_SIZE_4K * PAGE_SIZE_4K.
Proof.
  intros Hx. destruct (round_up_ok x PAGE_SIZE_4K) as [Hr [q Hq]]; unfold PAGE_SIZE_4K in *; try lia.
  rewrite Hq, Z.div_mul by lia. lia.
Qed.

(** The memory of a client: its two buffers, in whole pages. *)
Definition regions (c : sel4osapi_ipcclient_t) : list (Z * Z) :=
  [(ic_tx_buf c, SEL4OSAPI_PROCESS_TX_BUF_PAGES * PAGE_SIZE_4K);
   (ic_rx_buf c, SEL4OSAPI_PROCESS_RX_BUF_PAGES * PAGE_SIZE_4K)].

(** A client in a world of objects [w]: binary semaphores that exist, buffers of
    the sizes announced. *)
Definition binary_semaphore w (p : ptr) : Prop := exists l, p = Some l /\ counts w !! l = Some 1.

Record client_ok w (c : sel4osapi_ipcclient_t) : Prop := {
  co_rx_sem : binary_semaphore w (ic_rx_buf_avail c);
  co_tx_sem : binary_semaphore w (ic_tx_buf_avail c);
  co_sems : ic_rx_buf_avail c <> ic_tx_buf_avail c;
  co_bufs : ic_rx_buf c <> 0 /\ ic_tx_buf c <> 0;
  co_rx : ic_rx_buf_size c = SEL4OSAPI_PROCESS_RX_BUF_SIZE;
  co_tx : ic_tx_buf_size c = SEL4OSAPI_PROCESS_TX_BUF_SIZE
}.

Lemma binary_semaphore_grows w w' p : grows w w' -> binary_semaphore w p -> binary_semaphore w' p.
Proof. intros [_ Hg] (l & -> & Hl). exists l. split; [done|]. by eapply lookup_weaken. Qed.

Lemma client_ok_grows w w' c : grows w w' -> client_ok w c -> client_ok w' c.
Proof. intros Hg [H1 H2 H3 H4 H5 H6]. split; try done; by eapply binary_semaphore_grows. Qed.

Definition after_create k k' : Prop :=
  mapped k' = mapped k /\ pages_left k' = pages_left k /\ objects_inv k' /\
  grows (objects_of k) (objects_of k') /\ (pred (objects_left (objects_of k)) <= objects_left (objects_of k'))%nat.

Lemma wp_mutex k (Q : ptr -> K -> Prop) : objects_inv k -> (0 < objects_left (objects_of k))%nat ->
  (forall l k', after_create k k' -> Q (Some l) k') -> wp mutex_create Q k.
Proof.
  intros Hi Hl HQ. destruct (mutex_create_ok k Hi Hl) as (r & k' & Hr & Hi' & l & -> & Hc).
  exists (Some l), k'. split; [exact Hr|]. apply HQ. destruct (mutex_frame k _ _ Hr).
  split_and!; try done; [by eapply created_grows|by destruct Hc as (_ & _ & _ & _ & ?)].
Qed.

Lemma wp_binary_semaphore k (Q : ptr -> K -> Prop) : objects_inv k -> (0 < objects_left (objects_of k))%nat ->
  (forall l k', after_create k k' -> counts (objects_of k) !! l = None ->
     counts (objects_of k') !! l = Some 1 -> Q (Some l) k') -> wp (semaphore_create 1) Q k.
Proof.
  intros Hi Hl HQ. destruct (semaphore_create_ok 1 k Hi Hl) as (r & k' & Hr & Hi' & l & -> & Hc).
  exists (Some l), k'. split; [exact Hr|]. destruct (semaphore_frame 1 k _ _ Hr). pose proof (created_grows _ _ _ _ _ Hc).
  destruct Hc as (_ & Hn & _ & Hcs & Hle). apply HQ; [by split_and!|done|]. rewrite Hcs. by simplify_map_eq.
Qed.

(** One client: the memory mapped for it is its own. *)
Lemma wp_ipc_create_client id s x free busy cs :
  holds (ipc_clients s) (x :: free) busy cs -> 0 <= id -> buf_config ->
  objects_inv (ipc_env s) -> (2 <= objects_left (objects_of (ipc_env s)))%nat ->
  buf_pages <= pages_left (ipc_env s) ->
  wp (sel4osapi_ipc_create_client id) (fun r s' => r = Some x.2 /\ exists c,
    holds (ipc_clients s') free (busy ++ [x]) (cs ++ [c]) /\ ic_id c = id /\ client_ok (objects_of (ipc_env s')) c /\
    mapped (ipc_env s') = regions c ++ mapped (ipc_env s) /\
    pages_left (ipc_env s') = pages_left (ipc_env s) - buf_pages /\ ipc_mutex s' = ipc_mutex s /\
    objects_inv (ipc_env s') /\ grows (objects_of (ipc_env s)) (objects_of (ipc_env s')) /\
    (objects_left (objects_of (ipc_env s)) - 2 <= objects_left (objects_of (ipc_env s')))%nat /\
    (ForallOrdPairs apart (mapped (ipc_env s)) -> ForallOrdPairs apart (mapped (ipc_env s')))) s.
Proof.
  intros R Hid [Hrx Htx] Hinv Hobj Hpages. unfold sel4osapi_ipc_create_client, on_ipc_clients, on_ipc_env.
  destruct (pages_cover _ Hrx) as [Hprx _]. destruct (pages_cover _ Htx) as [Hptx _].
  unfold buf_pages in Hpages. fold SEL4OSAPI_PROCESS_RX_BUF_PAGES in Hprx. fold SEL4OSAPI_PROCESS_TX_BUF_PAGES in Hptx.
  wp_step. apply wp_assert; [by apply Z.leb_le|]. wp_step. apply wp_zoom.
  eapply holds_alloc_last; [exact R|done|]. intros x' fr p v [= <- <-] Hx R1.
  wp_step. apply wp_assert; [done|]. wp_step. apply wp_zoom. eapply holds_upd; [exact R1|exact Hx|].
  intros p1 R2. wp_step. apply wp_zoom. cbn [ipc_env set_ipc_clients ipc_clients].
  apply wp_binary_semaphore; [done|lia|]. intros la k1 (Hm1 & Hp1 & Hi1 & Hg1 & Hl1) _ Ha.
  wp_step. apply wp_zoom. eapply holds_upd; [exact R2|exact Hx|]. intros p2 R3.
  wp_step. apply wp_assert; [done|]. wp_step. apply wp_zoom. cbn [ipc_env set_ipc_clients set_ipc_env ipc_clients].
  apply wp_binary_semaphore; [done|lia|]. intros lb k2 (Hm2 & Hp2 & Hi2 & Hg2 & Hl2) Hnew Hb.
  wp_step. apply wp_zoom. eapply holds_upd; [exact R3|exact Hx|]. intros p3 R4.
  wp_step. apply wp_assert; [done|]. wp_step. unfold ipc_call, on_ipc_env. apply wp_zoom.
  cbn [ipc_env set_ipc_clients set_ipc_env ipc_clients]. eexists _, _. split; [apply (f_equal Done), surjective_pairing|].
  destruct (new_pages_ok SEL4OSAPI_PROCESS_RX_BUF_PAGES k2) as (Hc & Hm3 & Hd3 & Hp3 & Ho3 & Hi3); [lia|].
  set (k3 := (vspace_new_pages SEL4OSAPI_PROCESS_RX_BUF_PAGES k2).2) in *.
  wp_step. apply wp_assert; [by rewrite (proj2 (Z.eqb_neq _ _) Hc)|]. wp_step. apply wp_zoom.
  eapply holds_upd; [exact R4|exact Hx|]. intros p4 R5. wp_step. apply wp_zoom.
  cbn [ipc_env set_ipc_clients set_ipc_env ipc_clients]. eexists _, _. split; [apply (f_equal Done), surjective_pairing|].
  destruct (new_pages_ok SEL4OSAPI_PROCESS_TX_BUF_PAGES k3) as (He & Hm4 & Hd4 & Hp4 & Ho4 & Hi4); [lia|].
  set (k4 := (vspace_new_pages SEL4OSAPI_PROCESS_TX_BUF_PAGES k3).2) in *.
  wp_step. apply wp_assert; [by rewrite (proj2 (Z.eqb_neq _ _) He)|]. wp_step. apply wp_zoom.
  eapply holds_upd; [exact R5|exact Hx|]. intros p5 R6. wp_step. split; [done|].
  rewrite insert_last in R6. eexists. split; [exact R6|]. cbn.
  rewrite Ho4, Ho3, Hm4, Hm3, Hm2, Hm1. rewrite Hm3, Hm2, Hm1 in Hd4. rewrite Hm2, Hm1 in Hd3.
  split_and!; [done| |done|unfold buf_pages; lia|done|by apply Hi4, Hi3| |lia|].
  - split; cbn; try done.
    + exists la. split; [done|]. by eapply lookup_weaken; [|apply Hg2].
    + by exists lb.
    + intros [= ->]. rewrite Ha in Hnew. done.
  - destruct Hg1, Hg2. split; by etrans.
  - intros Hall. constructor; [exact Hd4|]. by constructor.
Qed.

(** *** The clients of a server *)

Fixpoint create_ipc_clients (ids : list Z) : M (ipc_state K) (list ptr) :=
  match ids with
  | [] => ret []
  | id :: ids =>
      let! r := sel4osapi_ipc_create_client id in
      let! rs := create_ipc_clients ids in
      ret (r :: rs)
  end.

Definition clients_ok s cs : Prop :=
  mapped (ipc_env s) = concat (regions <$> rev cs) /\ ForallOrdPairs apart (mapped (ipc_env s)) /\
  Forall (client_ok (objects_of (ipc_env s))) cs /\ objects_inv (ipc_env s).

Lemma wp_create_ipc_clients ids s free busy cs :
  holds (ipc_clients s) free busy cs -> (length ids <= length free)%nat -> Forall (fun i => 0 <= i) ids ->
  buf_config -> Z.of_nat (length ids) * buf_pages <= pages_left (ipc_env s) ->
  (2 * length ids <= objects_left (objects_of (ipc_env s)))%nat -> clients_ok s cs ->
  wp (create_ipc_clients ids) (fun rs s' => exists free' busy' new,
    holds (ipc_clients s') free' (busy ++ busy') (cs ++ new) /\ free = busy' ++ free' /\
    rs = (fun x => Some x.2) <$> busy' /\ ic_id <$> new = ids /\ clients_ok s' (cs ++ new)) s.
Proof.
  revert s free busy cs. induction ids as [|id ids IH]; intros s free busy cs R Hlen Hids Hcfg Hpg Hobj Hok; cbn [create_ipc_clients].
  - wp_step. exists free, [], []. by rewrite !app_nil_r.
  - destruct free as [|x free]; [cbn in Hlen; lia|]. apply Forall_cons in Hids as [Hid Hids].
    assert (Hbp : 0 <= buf_pages).
    { destruct (pages_cover _ (proj1 Hcfg)), (pages_cover _ (proj2 Hcfg)). unfold buf_pages, SEL4OSAPI_PROCESS_RX_BUF_PAGES, SEL4OSAPI_PROCESS_TX_BUF_PAGES. lia. }
    destruct Hok as (Hmap & Hap & Hcl & Hinv). cbn [length] in Hlen, Hpg, Hobj. wp_step. eapply wp_mono.
    { apply (wp_ipc_create_client id s x free busy cs); [done|done|done|done|lia|nia]. }
    intros r s1 (-> & c & R1 & Hcid & Hcok & Hm1 & Hp1 & _ & Hi1 & Hg1 & Hl1 & Hap1). wp_step.
    eapply wp_mono; [apply (IH s1 free (busy ++ [x]) (cs ++ [c]) R1)|]; try done; try lia.
    + split_and!; [by rewrite Hm1, Hmap, rev_app_distr|by apply Hap1| |done].
      apply Forall_app. split; [|by constructor]. eapply Forall_impl; [exact Hcl|]. intros c'. by apply client_ok_grows.
    + intros rs s2 (free' & busy' & new & R2 & -> & -> & Hn & Hok2). wp_step.
      exists free', (x :: busy'), (c :: new). rewrite <- !app_assoc in *. cbn in *.
      split_and!; try done. by rewrite Hcid, Hn.
Qed.

(** C28: The buffers of the processes are isolated.  The clients created for the
    processes [ids], as many as configured, get these numbers and structures of
    their own; all their receive and transmit buffers are pairwise disjoint,
    cover the sizes announced to the processes and have a binary semaphore each;
    one client more fails an assertion. *)
Theorem ipc_buffers_isolated uninit h k ids :
  heap_wf h -> 0 < SEL4OSAPI_USER_PROCESS_MAX -> pool_bytes SEL4OSAPI_USER_PROCESS_MAX sizeof_ipcclient <= avail h ->
  buf_config -> mapped k = [] -> Z.of_nat (length ids) <= SEL4OSAPI_USER_PROCESS_MAX ->
  Forall (fun i => 0 <= i) ids -> Z.of_nat (length ids) * buf_pages <= pages_left k ->
  objects_inv k -> (1 + 2 * length ids <= objects_left (objects_of k))%nat ->
  exists mutex p k0 rs s' free busy cs, sel4osapi_ipcserver_initialize uninit h k = Done (0, mutex, p, k0) /\
    create_ipc_clients ids (IpcState mutex p k0) = Done (rs, s') /\ holds (ipc_clients s') free busy cs /\
    rs = (fun x => Some x.2) <$> busy /\ NoDup rs /\ ic_id <$> cs = ids /\
    Forall (client_ok (objects_of (ipc_env s'))) cs /\ ForallOrdPairs apart (concat (regions <$> rev cs)) /\
    Forall (fun c => Forall2 (fun r size => 0 < size <= r.2) (regions c) [ic_tx_buf_size c; ic_rx_buf_size c]) cs /\
    (Z.of_nat (length ids) = SEL4OSAPI_USER_PROCESS_MAX ->
     forall i, 0 <= i -> sel4osapi_ipc_create_client i s' = Assert_failed).
Proof.
  intros Hwf Hmax Hmem Hcfg Hmap Hlen Hids Hpg Hinv Hobj.
  destruct (wp_pool_new (init := None) (cmp := None) SEL4OSAPI_USER_PROCESS_MAX sizeof_ipcclient NULL uninit h Hwf)
    as (p & h' & Hr & fr & Hl & _ & Rp & _); [done|done|done|].
  assert (Hinit : wp (sel4osapi_ipcserver_initialize uninit h) (fun r k0 => exists m, r = (0, Some m, PoolState p h') /\ after_create k k0) k).
  { unfold sel4osapi_ipcserver_initialize. wp_step. apply wp_mutex; [done|lia|]. intros m k0 Hk0. wp_steps. apply wp_peek.
    wp_step. eapply wp_eq; [exact Hr|]. wp_steps. by exists m. }
  destruct Hinit as (r & k0 & Hinit & m & -> & (Hm0 & Hp0 & Hi0 & Hg0 & Hl0)). set (s0 := IpcState (Some m) (PoolState p h') k0).
  assert (R0 : holds (ipc_clients s0) fr [] []) by (split; exists (cells h'); split; [exact Rp|constructor]).
  destruct (wp_create_ipc_clients ids s0 fr [] [] R0) as (rs & s' & Hc & free & busy & cs & R & Hfr & -> & Hid & Hap & Hapd & Hok & _);
    [lia|done|done|cbn; by rewrite Hp0|cbn; lia|split_and!; cbn; rewrite ?Hm0, ?Hmap; try done; constructor|].
  cbn [app] in R, Hok, Hap. rewrite Hap in Hapd.
  exists (Some m), (PoolState p h'), k0, ((fun x => Some x.2) <$> busy), s', free, busy, cs. destruct (holds_length _ _ _ _ R) as (Hlb & _ & Hnd & _).
  split_and!; try done.
  - replace ((fun x : loc * loc => Some x.2) <$> busy) with (Some <$> busy.*2) by by rewrite <- list_fmap_compose.
    by apply NoDup_fmap_2; [apply _|].
  - eapply Forall_impl; [exact Hok|]. intros c [_ _ _ _ Hrx Htx]. rewrite Hrx, Htx.
    destruct (pages_cover _ (proj1 Hcfg)), (pages_cover _ (proj2 Hcfg)), Hcfg.
    repeat constructor; cbn; unfold SEL4OSAPI_PROCESS_RX_BUF_PAGES, SEL4OSAPI_PROCESS_TX_BUF_PAGES; lia.
  - intros Heq i Hi. assert (free = []) as ->.
    { apply (f_equal length) in Hid. rewrite length_fmap in Hid. apply (f_equal length) in Hfr.
      rewrite length_app in Hfr. destruct free; [done|cbn in Hfr; lia]. }
    unfold sel4osapi_ipc_create_client. rewrite (proj2 (Z.leb_le 0 i) Hi), (bind_done _ _ _ tt s' eq_refl).
    assert (Ha : wp (on_ipc_clients simple_pool_alloc) (fun r _ => r = NULL) s').
    { unfold on_ipc_clients. apply wp_zoom. eapply holds_alloc; [exact R|done|done]. }
    destruct Ha as (r & s2 & Ha & ->). rewrite (bind_done _ _ _ _ _ Ha). done.
Qed.
End ipc_spec.

(** ** With the mutexes and semaphores of [Sync]

    [PagesOk] are the laws of the address space when the objects of libsel4sync
    are in the same state. *)
Class PagesOk (K : Type) `{SyncLibOk K} `{!RootEnv K} := {
  pg_mapped : K -> list (Z * Z);
  pg_left : K -> Z;
  pg_mutex_frame p k : let r := sync_recursive_mutex_new p k in pg_mapped r.2 = pg_mapped k /\ pg_left r.2 = pg_left k;
  pg_sem_frame p n k : let r := sync_sem_new p n k in pg_mapped r.2 = pg_mapped k /\ pg_left r.2 = pg_left k;
  pg_new_ok n k : 0 < n <= pg_left k -> let r := vspace_new_pages n k in
    r.1 <> 0 /\ pg_mapped r.2 = (r.1, n * PAGE_SIZE_4K) :: pg_mapped k /\
    Forall (apart (r.1, n * PAGE_SIZE_4K)) (pg_mapped k) /\ pg_left r.2 = pg_left k - n /\ sync_of r.2 = sync_of k;
  pg_round_up_ok x n : 0 <= x -> 0 < n -> x + n <= 2 ^ 32 ->
    x <= ROUND_UP_UNSAFE x n < x + n /\ (n | ROUND_UP_UNSAFE x n)
}.

Section sync_root.
Context {K : Type} `{POK : PagesOk K}.

#[export] Instance sync_root_env : RootEnv (sync_state K) := {|
  vspace_new_pages n s := ((vspace_new_pages n (sync_kern s)).1, SyncState (sync_mem s) (vspace_new_pages n (sync_kern s)).2);
  ROUND_UP_UNSAFE := ROUND_UP_UNSAFE
|}.

Lemma object_memory_kern size s r s' : on_sync_mem (K := K) (sel4osapi_heap_allocate size) s = Done (r, s') ->
  sync_kern s' = sync_kern s.
Proof. unfold on_sync_mem, zoom. by destruct (sel4osapi_heap_allocate size (sync_mem s)) as [[? ?]| | |]; intros [= <- <-]. Qed.

Lemma wlp_assert_succeeds (P : K -> Prop) f s :
  P (f (sync_kern s)).2 -> wlp (assert_call (B := assertions_on) (succeeds f)) (fun _ s' => P (sync_kern s')) s.
Proof.
  intros HP. unfold assert_call, succeeds, scall. cbn [NDEBUG assertions_on]. wlp_steps.
  intros a s1 [= <- <-]. wlp_steps. done.
Qed.

#[export] Program Instance sync_root_ok : @RootEnvOk (sync_state K) sync_objects_impl sync_objects_ok sync_root_env := {|
  mapped s := pg_mapped (sync_kern s);
  pages_left s := pg_left (sync_kern s)
|}.
Next Obligation.
  intros s r s' Hr. revert r s' Hr. change (wlp (sel4osapi_mutex_create (BUILD := assertions_on)) (fun _ s' =>
    (fun k => pg_mapped k = pg_mapped (sync_kern s) /\ pg_left k = pg_left (sync_kern s)) (sync_kern s')) s).
  unfold sel4osapi_mutex_create. wlp_step. intros p s1 Hp%object_memory_kern. cbn [NDEBUG assertions_on]. wlp_steps.
  eapply wlp_mono; [apply (wlp_assert_succeeds (fun k => pg_mapped k = pg_mapped (sync_kern s) /\ pg_left k = pg_left (sync_kern s)))|].
  - rewrite Hp. apply pg_mutex_frame.
  - intros ? s2 H2. by wlp_steps.
Qed.
Next Obligation.
  intros n s r s' Hr. revert r s' Hr. change (wlp (sel4osapi_semaphore_create (BUILD := assertions_on) n) (fun _ s' =>
    (fun k => pg_mapped k = pg_mapped (sync_kern s) /\ pg_left k = pg_left (sync_kern s)) (sync_kern s')) s).
  unfold sel4osapi_semaphore_create. wlp_step. intros p s1 Hp%object_memory_kern. wlp_steps.
  eapply wlp_mono; [apply (wlp_assert_succeeds (fun k => pg_mapped k = pg_mapped (sync_kern s) /\ pg_left k = pg_left (sync_kern s)))|].
  - rewrite Hp. apply pg_sem_frame.
  - intros ? s2 H2. by wlp_steps.
Qed.
Next Obligation.
  intros n s Hn. destruct (pg_new_ok n (sync_kern s) Hn) as (H1 & H2 & H3 & H4 & H5). cbn.
  split_and!; try done.
  - unfold sync_objects. cbn. by rewrite H5.
  - intros [Hi1 Hi2 Hi3]. by split; cbn; rewrite ?H5.
Qed.
Next Obligation. intros x n. apply (pg_round_up_ok (K := K)). Qed.
End sync_root.

(** ** An address space to run examples on: pages are handed out upwards *)

Record demo_vspace := DemoVspace { dv_sync : sync_view; dv_next : Z; dv_mapped : list (Z * Z); dv_pages : Z }.

Definition dv_with (r : Z * sync_view) (k : demo_vspace) : Z * demo_vspace :=
  (r.1, DemoVspace r.2 (dv_next k) (dv_mapped k) (dv_pages k)).

#[export] Instance demo_vspace_sync : SyncLib demo_vspace := {|
  sizeof_sync_recursive_mutex := 16;
  sizeof_sync_sem := 12;
  sync_recursive_mutex_new p k := dv_with (sync_recursive_mutex_new p (dv_sync k)) k;
  sync_recursive_mutex_destroy p k := (0, k);
  sync_recursive_mutex_lock p k := (0, k);
  sync_recursive_mutex_unlock p k := (0, k);
  sync_sem_new p n k := dv_with (sync_sem_new p n (dv_sync k)) k;
  sync_sem_destroy p k := (0, k);
  sync_sem_wait p k := dv_with (sync_sem_wait p (dv_sync k)) k;
  sync_sem_post p k := dv_with (sync_sem_post p (dv_sync k)) k
|}.

#[export] Instance demo_vspace_sync_ok : SyncLibOk demo_vspace.
Proof.
  refine {| sync_of k := dv_sync k |}; try done.
  - intros l k. exact (mutex_new_ok (K := sync_view) l (dv_sync k)).
  - intros p k. exact (mutex_new_fails (K := sync_view) p (dv_sync k)).
  - intros l n k. exact (sem_new_ok (K := sync_view) l n (dv_sync k)).
  - intros p n k. exact (sem_new_fails (K := sync_view) p n (dv_sync k)).
Defined.

#[export] Instance demo_root_env : RootEnv demo_vspace := {|
  vspace_new_pages n k :=
    (dv_next k, DemoVspace (dv_sync k) (dv_next k + n * PAGE_SIZE_4K) ((dv_next k, n * PAGE_SIZE_4K) :: dv_mapped k) (dv_pages k - n));
  ROUND_UP_UNSAFE x n := (x + n - 1) / n * n
|}.

Definition demo_fits (k : demo_vspace) : Prop :=
  0 < dv_next k /\ Forall (fun r => r.1 + r.2 <= dv_next k) (dv_mapped k).

#[export] Program Instance demo_pages_ok : PagesOk demo_vspace := {|
  pg_mapped := dv_mapped;
  pg_left k := if bool_decide (demo_fits k) then dv_pages k else 0
|}.
Next Obligation. done. Qed.
Next Obligation. done. Qed.
Next Obligation.
  intros n k [Hn Hp]. case_bool_decide as Hf; [|lia]. destruct Hf as [Hn0 Hall]. cbn.
  rewrite bool_decide_eq_true_2.
  - split_and!; [lia|done| |done|done]. eapply Forall_impl; [exact Hall|]. intros r Hr. right. exact Hr.
  - split; cbn; unfold PAGE_SIZE_4K; [lia|]. constructor; [cbn; unfold PAGE_SIZE_4K; lia|].
    eapply Forall_impl; [exact Hall|]. cbn. intros r Hr. lia.
Qed.
Next Obligation.
  intros x n Hx Hn _. cbn. split; [|by exists ((x + n - 1) / n)].
  pose proof (Z.div_mod (x + n - 1) n ltac:(lia)). pose proof (Z.mod_pos_bound (x + n - 1) n ltac:(lia)). lia.
Qed.

Section samples.
#[local] Existing Instance default_config.

Definition sample_ipc_mem : heap sel4osapi_ipcclient_t := Heap 1 4096 ∅ ∅ ∅.
Definition empty_vspace (pages : Z) : sync_state demo_vspace :=
  SyncState (Heap 1 4096 ∅ ∅ ∅) (DemoVspace (SyncView ∅ ∅ 8) 268435456 [] pages).

Lemma empty_vspace_ok pages : sync_inv (empty_vspace pages) /\ objects_left (sync_objects (empty_vspace pages)) = 8%nat.
Proof. split; [|reflexivity]. split; cbn; [by split; cbn; try (intros l [? Hl])|set_solver|by intros l [? Hl]]. Qed.

(** Three processes, 24 pages. *)
Lemma ipc_buffers_isolated_witness :
  exists mutex p k0 rs s' cs,
    sel4osapi_ipcserver_initialize (IpcClient 0 NULL NULL 0 0 0 0) sample_ipc_mem (empty_vspace 24) = Done (0, mutex, p, k0) /\
    create_ipc_clients [1; 2; 3] (IpcState mutex p k0) = Done (rs, s') /\ ic_id <$> cs = [1; 2; 3] /\
    ForallOrdPairs apart (concat (regions (K:=sync_state demo_vspace) <$> rev cs)).
Proof.
  destruct (empty_vspace_ok 24) as [Hinv Hobj].
  destruct (ipc_buffers_isolated (IpcClient 0 NULL NULL 0 0 0 0) sample_ipc_mem (empty_vspace 24) [1; 2; 3])
    as (m & p & k0 & rs & s' & _ & _ & cs & H1 & H2 & _ & _ & _ & H3 & _ & H4 & _);
    [by split; cbn; try (intros l [? Hl])|done|by vm_compute|done|done|by vm_compute|by repeat constructor|by vm_compute
    |exact Hinv|cbn [length]; change (objects_of (empty_vspace 24)) with (sync_objects (empty_vspace 24)); rewrite Hobj; lia|].
  exists m, p, k0, rs, s', cs. split; [exact H1|]. split; [exact H2|]. split; [exact H3|exact H4].
Defined.
End samples.
