(* ===== verification/Network.v ===== *)
(** * Network: network interfaces (src/network.c, network.h)

    The root task keeps a pool of network interfaces; each has a driver, a
    mutex that serialises lwIP, the capability and notification of its
    interrupt, a thread for the interrupt and a pool of virtual interfaces, each
    an lwIP netif with its own address.

    lwIP and the interrupts of the kernel are a library ([NetLib]).  The rest of
    the system, its mutexes, capabilities and threads, is an interface ([NetEnv],
    [NetEnvOk]), which [RootUdp] implements with the root task.  The second half
    is about the interrupt thread, [sel4osapi_eth_irq1_thread], running beside the
    UDP server thread. *)

From Stdlib Require Import String.
From stdpp Require Import relations.
From S2P Require Import Prelude Config Memory LinkedList Pool PoolSearch Sync.

(** The netif of a virtual interface is its first field: lwIP knows it by the
    address of the structure.  Function pointers are words, 0 is NULL. *)
Record sel4osapi_netvface_t := NetVface { ip_mask : Z; ip_addr : Z; ip_gw : Z }.

Record sel4osapi_netiface_driver_t := NetDriver {
  irq_num : Z;
  init_fn : Z;
  handle_irq_fn : Z;
  driver_state : Z
}.

(** [name] is never written. *)
Record sel4osapi_netiface_t := NetIface {
  iface_mutex : ptr;
  iface_driver : sel4osapi_netiface_driver_t;
  iface_irq : Z;
  irq_aep : Z;
  irq_thread : ptr;
  vfaces : pool_state sel4osapi_netvface_t;
  last_checked_ip_t : Z;
  last_checked_arp_t : Z
}.

Definition sizeof_netvface : Z := 76.
Definition sizeof_netiface : Z := 44.

(** Interrupts and lwIP; error codes are 0 on success. *)
Class NetLib (K : Type) := {
  simple_get_IRQ_handler : Z -> Z -> K -> Z * K;                    (* interrupt, slot *)
  seL4_IRQHandler_SetNotification : Z -> Z -> K -> Z * K;           (* slot, notification *)
  lwip_init : K -> K;
  (** netif, address, mask, gateway, driver state and init function *)
  netif_add : ptr -> Z -> Z -> Z -> Z -> Z -> K -> ptr * K;
  netif_set_up : ptr -> K -> K;
  netif_set_default : ptr -> K -> K;
  ipaddr_aton : string -> Z
}.

(** The rest of the system; the threads are those of src/thread.c whose routine is
    [sel4osapi_eth_irq1_thread]. *)
Class NetEnv (K : Type) := {
  net_cspace_alloc : K -> (Z * Z) * K;
  net_alloc_notification : K -> (Z * Z) * K;
  irq_thread_create : string -> ptr -> Z -> M K ptr;                (* name, interface, priority *)
  irq_thread_start : ptr -> M K Z
}.

Section network_c.
Context {CFG : Config} {K : Type} {OBJ : SyncObjects K} {NLIB : NetLib K} {ENV : NetEnv K}.

Record net_state := NetState {
  netstack_mutex : ptr;
  net_ifaces : pool_state sel4osapi_netiface_t;
  net_env : K
}.

Definition set_net_ifaces p (s : net_state) : net_state := NetState (netstack_mutex s) p (net_env s).
Definition set_net_env k (s : net_state) : net_state := NetState (netstack_mutex s) (net_ifaces s) k.
Definition on_ifaces {A} (m : M (pool_state sel4osapi_netiface_t) A) : M net_state A :=
  zoom net_ifaces set_net_ifaces m.
Definition on_net_env {A} (m : M K A) : M net_state A := zoom net_env set_net_env m.
Definition net_call {A} (f : K -> A * K) : M net_state A := on_net_env (fun k => Done (f k)).
Definition net_do (f : K -> K) : M net_state unit := on_net_env (modify f).

Definition read_iface (p : ptr) : M net_state sel4osapi_netiface_t := on_ifaces (on_mem (read_cell p)).
Definition upd_iface (p : ptr) (f : sel4osapi_netiface_t -> sel4osapi_netiface_t) : M net_state unit :=
  on_ifaces (pool_upd p f).

(** Assignments to fields. *)
Definition ni_set_mutex m (i : sel4osapi_netiface_t) :=
  NetIface m (iface_driver i) (iface_irq i) (irq_aep i) (irq_thread i) (vfaces i) (last_checked_ip_t i) (last_checked_arp_t i).
Definition ni_set_driver d (i : sel4osapi_netiface_t) :=
  NetIface (iface_mutex i) d (iface_irq i) (irq_aep i) (irq_thread i) (vfaces i) (last_checked_ip_t i) (last_checked_arp_t i).
Definition ni_set_irq c (i : sel4osapi_netiface_t) :=
  NetIface (iface_mutex i) (iface_driver i) c (irq_aep i) (irq_thread i) (vfaces i) (last_checked_ip_t i) (last_checked_arp_t i).
Definition ni_set_irq_aep c (i : sel4osapi_netiface_t) :=
  NetIface (iface_mutex i) (iface_driver i) (iface_irq i) c (irq_thread i) (vfaces i) (last_checked_ip_t i) (last_checked_arp_t i).
Definition ni_set_irq_thread t (i : sel4osapi_netiface_t) :=
  NetIface (iface_mutex i) (iface_driver i) (iface_irq i) (irq_aep i) t (vfaces i) (last_checked_ip_t i) (last_checked_arp_t i).
Definition ni_set_vfaces v (i : sel4osapi_netiface_t) :=
  NetIface (iface_mutex i) (iface_driver i) (iface_irq i) (irq_aep i) (irq_thread i) v (last_checked_ip_t i) (last_checked_arp_t i).
Definition ni_set_checked n1 n2 (i : sel4osapi_netiface_t) :=
  NetIface (iface_mutex i) (iface_driver i) (iface_irq i) (irq_aep i) (irq_thread i) (vfaces i) n1 n2.

(** Code on the virtual interfaces of an interface. *)
Definition on_vfaces {A} (iface : ptr) (m : M (pool_state sel4osapi_netvface_t) A) : M net_state A :=
  let! i := read_iface iface in
  let! r := peek (vfaces i) (let! a := m in let! p := get in ret (a, p)) in
  upd_iface iface (ni_set_vfaces r.2) ;;
  ret r.1.

Definition given (o : option Z) : M net_state Z :=
  assert_ (bool_decide (is_Some o)) ;; deref o.

(** The addresses are passed by pointer. *)
Definition sel4osapi_netiface_add_vface (iface : ptr) (addr mask gw : option Z) (is_default : bool) : M net_state Z :=
  assert_ (non_null iface) ;;
  let! addr := given addr in
  let! mask := given mask in
  let! gw := given gw in
  let! vface := on_vfaces iface simple_pool_alloc in
  assert_ (non_null vface) ;;
  on_vfaces iface (pool_upd vface (fun _ => NetVface mask addr gw)) ;;
  let! i := read_iface iface in
  let! netif := net_call (netif_add vface addr mask gw (driver_state (iface_driver i)) (init_fn (iface_driver i))) in
  assert_ (non_null netif) ;;
  net_do (netif_set_up netif) ;;
  (if is_default then net_do (netif_set_default netif) else ret tt) ;;
  ret 0.

(** [priority] is that of the process; the thread is always called eth::irq.
    [uninit] and [h]: what malloc's memory holds, and the heap. *)
Definition sel4osapi_network_create_interface (priority : Z) (uninit : sel4osapi_netvface_t)
    (h : heap sel4osapi_netvface_t) (name : option string) (driver : option sel4osapi_netiface_driver_t) : M net_state ptr :=
  assert_ (bool_decide (is_Some name)) ;;
  assert_ (bool_decide (is_Some driver)) ;;
  let! driver := deref driver in
  assert_ (negb (handle_irq_fn driver =? 0)) ;;
  assert_ (negb (init_fn driver =? 0)) ;;
  assert_ (0 <? irq_num driver) ;;
  let! iface := on_ifaces simple_pool_alloc in
  assert_ (non_null iface) ;;
  let! mutex := on_net_env mutex_create in
  upd_iface iface (ni_set_mutex mutex) ;;
  assert_ (non_null mutex) ;;
  upd_iface iface (ni_set_driver driver) ;;
  let! slot := net_call net_cspace_alloc in
  upd_iface iface (ni_set_irq slot.2) ;;
  assert_ (slot.1 =? 0) ;;
  let! error := net_call (simple_get_IRQ_handler (irq_num driver) slot.2) in
  assert_ (error =? 0) ;;
  let! aep := net_call net_alloc_notification in
  assert_ (aep.1 =? 0) ;;
  upd_iface iface (ni_set_irq_aep aep.2) ;;
  let! error := net_call (seL4_IRQHandler_SetNotification slot.2 aep.2) in
  assert_ (error =? 0) ;;
  net_do lwip_init ;;
  let! pool := peek h (
    let! p := simple_pool_new SEL4OSAPI_NET_VFACES_MAX sizeof_netvface None NULL None uninit in
    let! h' := get in
    ret (PoolState p h')) in
  upd_iface iface (ni_set_vfaces pool) ;;
  let! thread := on_net_env (irq_thread_create "eth::irq" iface priority) in
  upd_iface iface (ni_set_irq_thread thread) ;;
  assert_ (non_null thread) ;;
  upd_iface iface (ni_set_checked 0 0) ;;
  ret iface.

(** [net] is the netstack before: its mutex and pool are the first to be made. *)
Definition sel4osapi_network_initialize (priority : Z) (uninit : sel4osapi_netvface_t) (h : heap sel4osapi_netvface_t)
    (uninit' : sel4osapi_netiface_t) (h' : heap sel4osapi_netiface_t)
    (iface_name : option string) (driver : option sel4osapi_netiface_driver_t) : M net_state Z :=
  let! mutex := on_net_env mutex_create in
  modify (fun s => NetState mutex (net_ifaces s) (net_env s)) ;;
  assert_ (non_null mutex) ;;
  let! pool := peek h' (
    let! p := simple_pool_new SEL4OSAPI_NET_PHYS_IFACES sizeof_netiface None NULL None uninit' in
    let! h1 := get in
    ret (PoolState p h1)) in
  modify (set_net_ifaces pool) ;;
  let! iface := sel4osapi_network_create_interface priority uninit h iface_name driver in
  assert_ (non_null iface) ;;
  let! error := sel4osapi_netiface_add_vface iface (Some (ipaddr_aton SEL4OSAPI_IP_ADDR_DEFAULT))
    (Some (ipaddr_aton SEL4OSAPI_IP_MASK_DEFAULT)) (Some (ipaddr_aton SEL4OSAPI_IP_GW_DEFAULT)) true in
  assert_ (error =? 0) ;;
  let! i := read_iface iface in
  let! error := on_net_env (irq_thread_start (irq_thread i)) in
  assert_ (error =? 0) ;;
  ret 0.
End network_c.
Arguments net_state K : clear implicits.

(** ** What is used of lwIP and of the system

    [nv_irqs], [nv_targets]: the interrupt and the notification behind a handler's
    slot; [nv_netifs]: lwIP's netifs with address, mask, gateway and whether they
    are up. *)
Record stack_view := StackView {
  nv_irqs : gmap Z Z;
  nv_targets : gmap Z Z;
  nv_netifs : gmap loc (Z * Z * Z * bool);
  nv_default : option loc
}.

Definition sk_irqs f (v : stack_view) : stack_view := StackView (f (nv_irqs v)) (nv_targets v) (nv_netifs v) (nv_default v).
Definition sk_targets f (v : stack_view) : stack_view := StackView (nv_irqs v) (f (nv_targets v)) (nv_netifs v) (nv_default v).
Definition sk_netifs f (v : stack_view) : stack_view := StackView (nv_irqs v) (nv_targets v) (f (nv_netifs v)) (nv_default v).
Definition sk_default d (v : stack_view) : stack_view := StackView (nv_irqs v) (nv_targets v) (nv_netifs v) d.

(** - an interrupt nobody handles can be handled, and bound to a notification;
    - [lwip_init] empties the stack; a netif that is not in it can be added, is
      down at first, and can be brought up and made the default. *)
Class NetLibOk (K : Type) `{NetLib K} := {
  stack_of : K -> stack_view;
  nl_handler_ok irq slot k : nv_irqs (stack_of k) !! slot = None -> map_Forall (fun _ i => i <> irq) (nv_irqs (stack_of k)) ->
    let r := simple_get_IRQ_handler irq slot k in r.1 = 0 /\ stack_of r.2 = sk_irqs <[slot := irq]> (stack_of k);
  nl_bind_ok slot n k : is_Some (nv_irqs (stack_of k) !! slot) ->
    let r := seL4_IRQHandler_SetNotification slot n k in r.1 = 0 /\ stack_of r.2 = sk_targets <[slot := n]> (stack_of k);
  nl_init_ok k : stack_of (lwip_init k) = sk_default None (sk_netifs (fun _ => ∅) (stack_of k));
  nl_add_ok l a m g d f k : nv_netifs (stack_of k) !! l = None ->
    let r := netif_add (Some l) a m g d f k in r.1 = Some l /\ stack_of r.2 = sk_netifs <[l := (a, m, g, false)]> (stack_of k);
  nl_up_ok l a m g u k : nv_netifs (stack_of k) !! l = Some (a, m, g, u) ->
    stack_of (netif_set_up (Some l) k) = sk_netifs <[l := (a, m, g, true)]> (stack_of k);
  nl_default_ok l k : stack_of (netif_set_default (Some l) k) = sk_default (Some l) (stack_of k)
}.

Inductive net_op {K : Type} `{NetLib K} (k : K) : K -> Prop :=
| no_handler irq slot : net_op k (simple_get_IRQ_handler irq slot k).2
| no_bind slot n : net_op k (seL4_IRQHandler_SetNotification slot n k).2
| no_init : net_op k (lwip_init k)
| no_add p a m g d f : net_op k (netif_add p a m g d f k).2
| no_up p : net_op k (netif_set_up p k)
| no_default p : net_op k (netif_set_default p k).

(** What the rest of the system has for the network: the calls it can still
    serve, the threads that can still be made, and those that were made, in order. *)
Record net_thread := NetThread { nt_name : string; nt_iface : loc; nt_priority : Z; nt_started : bool }.
Record net_view := NetView { nv_room : nat; nv_slots : nat; nv_threads : list (loc * net_thread) }.

Definition nv_take (n : nat) (w : net_view) : net_view := NetView (nv_room w - n) (nv_slots w) (nv_threads w).
Definition nv_create t th (w : net_view) : net_view := NetView (nv_room w) (pred (nv_slots w)) (nv_threads w ++ [(t, th)]).
Definition nv_start j (w : net_view) : net_view := NetView (nv_room w) (nv_slots w)
  (alter (fun x => (x.1, NetThread (nt_name x.2) (nt_iface x.2) (nt_priority x.2) true)) j (nv_threads w)).

(** [net_ok w k]: the system [k] has [w] for the network.  A call succeeds while
    there is room, takes one unit of it, and changes nothing of lwIP and of the
    interrupts unless it is one of theirs ([net_op]); a slot is new. *)
Class NetEnvOk (K : Type) `{SyncObjects K} `{NetLibOk K} `{!NetEnv K} := {
  net_ok : net_view -> K -> Prop;
  nt_op_ok w k k' : net_ok w k -> (0 < nv_room w)%nat -> net_op k k' -> net_ok (nv_take 1 w) k';
  nt_mutex_ok w k : net_ok w k -> (0 < nv_room w)%nat ->
    wp mutex_create (fun r k' => exists l, r = Some l /\ net_ok (nv_take 1 w) k' /\ stack_of k' = stack_of k) k;
  nt_slot_ok w k : net_ok w k -> (0 < nv_room w)%nat -> let r := net_cspace_alloc k in
    r.1.1 = 0 /\ nv_irqs (stack_of k) !! r.1.2 = None /\ net_ok (nv_take 1 w) r.2 /\ stack_of r.2 = stack_of k;
  nt_notification_ok w k : net_ok w k -> (0 < nv_room w)%nat -> let r := net_alloc_notification k in
    r.1.1 = 0 /\ net_ok (nv_take 1 w) r.2 /\ stack_of r.2 = stack_of k;
  nt_thread_ok name l p w k : net_ok w k -> (0 < nv_room w)%nat -> (0 < nv_slots w)%nat ->
    wp (irq_thread_create name (Some l) p) (fun r k' => exists t, r = Some t /\
      net_ok (nv_create t (NetThread name l p false) (nv_take 1 w)) k' /\ stack_of k' = stack_of k) k;
  nt_start_ok j t th w k : net_ok w k -> (0 < nv_room w)%nat -> nv_threads w !! j = Some (t, th) -> nt_started th = false ->
    wp (irq_thread_start (Some t)) (fun r k' => r = 0 /\ net_ok (nv_start j (nv_take 1 w)) k' /\ stack_of k' = stack_of k) k
}.

Section network_spec.
Context {CFG : Config} {K : Type} `{NOK : NetEnvOk K}.
Implicit Types (s : net_state K) (i : sel4osapi_netiface_t) (ifs : list sel4osapi_netiface_t) (k : K).
Implicit Types (free busy : list (loc * loc)).

Lemma wp_net_call {A} (f : K -> A * K) (Q : A -> net_state K -> Prop) s :
  Q (f (net_env s)).1 (set_net_env (f (net_env s)).2 s) -> wp (net_call f) Q s.
Proof.
  intros HQ. unfold net_call, on_net_env. apply wp_zoom. eexists _, _. split; [|exact HQ].
  f_equal. apply surjective_pairing.
Qed.

Lemma wp_net_do (f : K -> K) (Q : unit -> net_state K -> Prop) s :
  Q tt (set_net_env (f (net_env s)) s) -> wp (net_do f) Q s.
Proof. intros HQ. unfold net_do, on_net_env. apply wp_zoom. by wp_step. Qed.

Lemma wp_upd_iface s free busy ifs j x i f (Q : unit -> net_state K -> Prop) :
  holds (net_ifaces s) free busy (<[j := i]> ifs) -> busy !! j = Some x ->
  (forall p, holds p free busy (<[j := f i]> ifs) -> Q tt (set_net_ifaces p s)) ->
  wp (upd_iface (Some x.2) f) Q s.
Proof. intros R Hx HQ. unfold upd_iface, on_ifaces. apply wp_zoom. eapply holds_upd; [done..|]. exact HQ. Qed.

Lemma wp_read_iface s free busy ifs j x i (Q : _ -> net_state K -> Prop) :
  holds (net_ifaces s) free busy (<[j := i]> ifs) -> busy !! j = Some x -> Q i s -> wp (read_iface (Some x.2)) Q s.
Proof.
  intros R Hx HQ. destruct (holds_length _ _ _ _ R) as (Hl & _). rewrite length_insert in Hl.
  unfold read_iface, on_ifaces. apply wp_zoom.
  eapply holds_read; [done|done|apply list_lookup_insert_eq; apply lookup_lt_Some in Hx; lia|]. by destruct s.
Qed.

Lemma wp_on_vfaces {A} s free busy ifs j x i (m : M (pool_state sel4osapi_netvface_t) A) (Q : A -> net_state K -> Prop) :
  holds (net_ifaces s) free busy (<[j := i]> ifs) -> busy !! j = Some x ->
  wp m (fun a v => forall p, holds p free busy (<[j := ni_set_vfaces v i]> ifs) -> Q a (set_net_ifaces p s)) (vfaces i) ->
  wp (on_vfaces (Some x.2) m) Q s.
Proof.
  intros R Hx (a & v & Hm & HQ). unfold on_vfaces. wp_step. eapply wp_read_iface; [done..|].
  wp_step. apply wp_peek. wp_step. eapply wp_eq; [exact Hm|]. wp_steps. cbn [fst snd].
  eapply wp_upd_iface; [done..|]. intros p R'. wp_step. by apply HQ.
Qed.

(** *** Calls of the environment *)

Lemma nv_take_take n m w : nv_take n (nv_take m w) = nv_take (m + n) w.
Proof. unfold nv_take. cbn. f_equal. lia. Qed.

Lemma wp_net_mutex w s (Q : ptr -> net_state K -> Prop) : net_ok w (net_env s) -> (0 < nv_room w)%nat ->
  (forall l k, net_ok (nv_take 1 w) k -> stack_of k = stack_of (net_env s) -> Q (Some l) (set_net_env k s)) -> wp (on_net_env mutex_create) Q s.
Proof.
  intros Hw Hr HQ. unfold on_net_env. apply wp_zoom. eapply wp_mono; [by eapply nt_mutex_ok|]. intros r k (l & -> & HA & HB). by apply HQ.
Qed.

Lemma wp_net_slot w s (Q : Z * Z -> net_state K -> Prop) : net_ok w (net_env s) -> (0 < nv_room w)%nat ->
  (forall c k, nv_irqs (stack_of k) !! c = None -> net_ok (nv_take 1 w) k -> stack_of k = stack_of (net_env s) -> Q (0, c) (set_net_env k s)) ->
  wp (net_call net_cspace_alloc) Q s.
Proof.
  intros Hw Hr HQ. apply wp_net_call. destruct (nt_slot_ok w _ Hw Hr) as (He & Hn & Hw' & Hs).
  rewrite (surjective_pairing (net_cspace_alloc (net_env s)).1), He. apply HQ; [by rewrite Hs|done..].
Qed.

Lemma wp_net_notification w s (Q : Z * Z -> net_state K -> Prop) : net_ok w (net_env s) -> (0 < nv_room w)%nat ->
  (forall c k, net_ok (nv_take 1 w) k -> stack_of k = stack_of (net_env s) -> Q (0, c) (set_net_env k s)) ->
  wp (net_call net_alloc_notification) Q s.
Proof.
  intros Hw Hr HQ. apply wp_net_call. destruct (nt_notification_ok w _ Hw Hr) as (He & Hw' & Hs).
  rewrite (surjective_pairing (net_alloc_notification (net_env s)).1), He. by apply HQ.
Qed.

Lemma wp_net_thread name l p w s (Q : ptr -> net_state K -> Prop) : net_ok w (net_env s) -> (0 < nv_room w)%nat -> (0 < nv_slots w)%nat ->
  (forall t k, net_ok (nv_create t (NetThread name l p false) (nv_take 1 w)) k -> stack_of k = stack_of (net_env s) -> Q (Some t) (set_net_env k s)) ->
  wp (on_net_env (irq_thread_create name (Some l) p)) Q s.
Proof.
  intros Hw Hr Hsl HQ. unfold on_net_env. apply wp_zoom. eapply wp_mono; [by apply (nt_thread_ok name l p w)|]. intros r k (t & -> & HA & HB). by apply HQ.
Qed.

Lemma wp_net_start j t th w s (Q : Z -> net_state K -> Prop) : net_ok w (net_env s) -> (0 < nv_room w)%nat ->
  nv_threads w !! j = Some (t, th) -> nt_started th = false ->
  (forall k, net_ok (nv_start j (nv_take 1 w)) k -> stack_of k = stack_of (net_env s) -> Q 0 (set_net_env k s)) ->
  wp (on_net_env (irq_thread_start (Some t))) Q s.
Proof.
  intros Hw Hr Ht Hf HQ. unfold on_net_env. apply wp_zoom. eapply wp_mono; [by eapply nt_start_ok|]. intros r k (-> & HA & HB). by apply HQ.
Qed.

(** Interrupts and lwIP; [step]: what the call does to the stack. *)
Lemma wp_net_op {A} (f : K -> A * K) a step w s (Q : A -> net_state K -> Prop) : net_ok w (net_env s) -> (0 < nv_room w)%nat ->
  net_op (net_env s) (f (net_env s)).2 -> (f (net_env s)).1 = a /\ stack_of (f (net_env s)).2 = step (stack_of (net_env s)) ->
  (forall k, net_ok (nv_take 1 w) k -> stack_of k = step (stack_of (net_env s)) -> Q a (set_net_env k s)) -> wp (net_call f) Q s.
Proof. intros Hw Hr Hop [Ha Hs] HQ. apply wp_net_call. rewrite Ha. apply HQ; [by eapply nt_op_ok|done]. Qed.

Lemma wp_net_do_op (f : K -> K) step w s (Q : unit -> net_state K -> Prop) : net_ok w (net_env s) -> (0 < nv_room w)%nat ->
  net_op (net_env s) (f (net_env s)) -> stack_of (f (net_env s)) = step (stack_of (net_env s)) ->
  (forall k, net_ok (nv_take 1 w) k -> stack_of k = step (stack_of (net_env s)) -> Q tt (set_net_env k s)) -> wp (net_do f) Q s.
Proof. intros Hw Hr Hop Hs HQ. apply wp_net_do. apply HQ; [by eapply nt_op_ok|done]. Qed.

(** *** A virtual interface *)

(** What lwIP knows of the virtual interface [l] afterwards. *)
Definition vface_up (l : loc) (addr mask gw : Z) (is_default : bool) (v : stack_view) : stack_view :=
  (if is_default then sk_default (Some l) else id) (sk_netifs <[l := (addr, mask, gw, true)]> v).

Lemma wp_add_vface w s free busy ifs j x i vx vfree vbusy vs addr mask gw d :
  holds (net_ifaces s) free busy (<[j := i]> ifs) -> busy !! j = Some x ->
  holds (vfaces i) (vx :: vfree) vbusy vs -> nv_netifs (stack_of (net_env s)) !! vx.2 = None ->
  net_ok w (net_env s) -> (3 <= nv_room w)%nat ->
  wp (sel4osapi_netiface_add_vface (Some x.2) (Some addr) (Some mask) (Some gw) d) (fun r s' => r = 0 /\ exists v n,
    holds (net_ifaces s') free busy (<[j := ni_set_vfaces v i]> ifs) /\
    holds v vfree (vbusy ++ [vx]) (vs ++ [NetVface mask addr gw]) /\
    stack_of (net_env s') = vface_up vx.2 addr mask gw d (stack_of (net_env s)) /\
    netstack_mutex s' = netstack_mutex s /\ net_ok (nv_take n w) (net_env s') /\ (n <= 3)%nat) s.
Proof.
  intros R Hx Rv Hnew Hw Hr. unfold sel4osapi_netiface_add_vface, given. wp_step. apply wp_assert; [done|]. wp_steps.
  eapply wp_on_vfaces; [exact R|exact Hx|]. eapply holds_alloc_last; [exact Rv|done|].
  intros x' fr v v' [= <- <-] Hvx Rv1 p R1. wp_step. apply wp_assert; [done|].
  wp_step. eapply wp_on_vfaces; [exact R1|exact Hx|]. cbn [vfaces ni_set_vfaces].
  eapply holds_upd; [exact Rv1|exact Hvx|]. intros v2 Rv2 p2 R2. rewrite insert_last in Rv2.
  wp_step. eapply wp_read_iface; [exact R2|exact Hx|]. wp_step.
  eapply (wp_net_op _ (Some vx.2) (sk_netifs _)); [exact Hw|lia|constructor|by apply nl_add_ok|]. intros k1 Hw1 Hs1. cbn in Hs1.
  wp_step. apply wp_assert; [done|]. wp_step.
  assert (Hd : nv_netifs (stack_of k1) !! vx.2 = Some (addr, mask, gw, false)) by (rewrite Hs1; cbn; by simplify_map_eq).
  eapply wp_net_do_op; [exact Hw1|cbn; lia|constructor|by eapply nl_up_ok|]. intros k2 Hw2 Hs2. cbn in Hs2.
  rewrite nv_take_take in Hw2. rewrite Hs1 in Hs2. cbn in Hs2. unfold sk_netifs in Hs2. cbn in Hs2. rewrite insert_insert_eq in Hs2.
  wp_step. destruct d.
  - eapply wp_net_do_op; [exact Hw2|cbn; lia|constructor|apply nl_default_ok|]. intros k3 Hw3 Hs3. cbn in Hs3. rewrite nv_take_take in Hw3.
    wp_step. split; [done|]. exists v2, 3%nat. cbn. split_and!; try done. by rewrite Hs3, Hs2.
  - wp_steps. split; [done|]. exists v2, 2%nat. cbn. split_and!; try done. lia.
Qed.

(** *** An interface *)

Record driver_ok (d : sel4osapi_netiface_driver_t) : Prop := {
  dr_handler : handle_irq_fn d <> 0;
  dr_init : init_fn d <> 0;
  dr_irq : 0 < irq_num d
}.

(** An interface for the driver [d] with the thread [t]: its interrupt, of those
    in [v], is bound to its notification. *)
Record iface_made (v : stack_view) (d : sel4osapi_netiface_driver_t) i (t : loc) : Prop := {
  im_driver : iface_driver i = d;
  im_mutex : iface_mutex i <> NULL;
  im_irq : nv_irqs v !! iface_irq i = Some (irq_num d);
  im_target : nv_targets v !! iface_irq i = Some (irq_aep i);
  im_thread : irq_thread i = Some t
}.

Definition irq_thread_of (x : loc * loc) (priority : Z) (started : bool) : net_thread := NetThread "eth::irq" x.2 priority started.

Lemma wp_vfaces_pool uninit (h : heap sel4osapi_netvface_t) (Q : pool_state sel4osapi_netvface_t -> net_state K -> Prop) s :
  heap_wf h -> 0 < SEL4OSAPI_NET_VFACES_MAX -> pool_bytes SEL4OSAPI_NET_VFACES_MAX sizeof_netvface <= avail h ->
  (forall v fr, holds v fr [] [] -> length fr = Z.to_nat SEL4OSAPI_NET_VFACES_MAX -> Q v s) ->
  wp (peek h (
    let! p := simple_pool_new SEL4OSAPI_NET_VFACES_MAX sizeof_netvface None NULL None uninit in
    let! h' := get in
    ret (PoolState p h'))) Q s.
Proof.
  intros Hwf Hmax Hmem HQ. apply wp_peek.
  destruct (wp_pool_new (init := None) (cmp := None) SEL4OSAPI_NET_VFACES_MAX sizeof_netvface NULL uninit h Hwf)
    as (p & h' & Hr & fr & Hl & _ & Rp & _); [done|done|done|].
  wp_step. eapply wp_eq; [exact Hr|]. wp_steps. apply (HQ _ fr); [|done].
  split. exists (cells h'). split; [exact Rp|constructor].
Qed.

Lemma wp_create_interface priority uninit h name d w s x free busy ifs :
  heap_wf h -> 0 < SEL4OSAPI_NET_VFACES_MAX -> pool_bytes SEL4OSAPI_NET_VFACES_MAX sizeof_netvface <= avail h ->
  holds (net_ifaces s) (x :: free) busy ifs -> driver_ok d ->
  net_ok w (net_env s) -> (7 <= nv_room w)%nat -> (0 < nv_slots w)%nat ->
  map_Forall (fun _ (n : Z) => n <> irq_num d) (nv_irqs (stack_of (net_env s))) ->
  wp (sel4osapi_network_create_interface priority uninit h (Some name) (Some d)) (fun r s' => r = Some x.2 /\
    exists i t vfr, holds (net_ifaces s') free (busy ++ [x]) (ifs ++ [i]) /\ iface_made (stack_of (net_env s')) d i t /\
      nv_netifs (stack_of (net_env s')) = ∅ /\
      holds (vfaces i) vfr [] [] /\ length vfr = Z.to_nat SEL4OSAPI_NET_VFACES_MAX /\ netstack_mutex s' = netstack_mutex s /\
      net_ok (nv_create t (irq_thread_of x priority false) (nv_take 7 w)) (net_env s')) s.
Proof.
  intros Hwf Hmax Hmem R [Hh Hi Hn] Hw Hroom Hsl Hirq. unfold sel4osapi_network_create_interface, on_ifaces.
  wp_step. apply wp_assert; [done|]. wp_step. apply wp_assert; [done|]. wp_steps.
  { by rewrite (proj2 (Z.eqb_neq _ _) Hh). }
  { by rewrite (proj2 (Z.eqb_neq _ _) Hi). }
  { by apply Z.ltb_lt. }
  eapply holds_alloc_last; [exact R|done|]. intros x' fr p v [= <- <-] Hx R1.
  wp_step. apply wp_assert; [done|]. wp_step.
  eapply wp_net_mutex; [exact Hw|lia|]. intros l k1 Hw1 Hs1. cbn in Hs1.
  wp_step. eapply wp_upd_iface; [exact R1|exact Hx|]. intros p2 R2. wp_step. apply wp_assert; [done|].
  wp_step. eapply wp_upd_iface; [exact R2|exact Hx|]. intros p3 R3.
  wp_step. eapply wp_net_slot; [exact Hw1|cbn; lia|]. intros slot k2 Hfree Hw2 Hs2. cbn in Hs2. rewrite Hs1 in Hs2. rewrite nv_take_take in Hw2.
  wp_step. eapply wp_upd_iface; [exact R3|exact Hx|]. intros p4 R4. wp_step. wp_step.
  wp_step. eapply (wp_net_op _ 0 (sk_irqs _)); [exact Hw2|cbn; lia|constructor|apply nl_handler_ok; [exact Hfree|cbn; by rewrite Hs2]|].
  intros k3 Hw3 Hs3. cbn in Hs3. rewrite nv_take_take in Hw3. wp_step. wp_step.
  wp_step. eapply wp_net_notification; [exact Hw3|cbn; lia|]. intros aep k4 Hw4 Hs4. cbn in Hs4. rewrite nv_take_take in Hw4. wp_step. wp_step.
  wp_step. eapply wp_upd_iface; [exact R4|exact Hx|]. intros p5 R5.
  assert (Hirq4 : nv_irqs (stack_of k4) !! slot = Some (irq_num d)) by (rewrite Hs4, Hs3; cbn; by simplify_map_eq).
  wp_step. eapply (wp_net_op _ 0 (sk_targets _)); [exact Hw4|cbn; lia|constructor|apply nl_bind_ok; by eexists|].
  intros k5 Hw5 Hs5. cbn in Hs5. rewrite nv_take_take in Hw5. wp_step. wp_step.
  wp_step. eapply (wp_net_do_op _ (fun v => sk_default None (sk_netifs (fun _ => ∅) v))); [exact Hw5|cbn; lia|constructor|apply nl_init_ok|]. intros k6 Hw6 Hs6. cbn in Hs6. rewrite nv_take_take in Hw6.
  wp_step. apply wp_vfaces_pool; [done|done|done|]. intros vf vfr Rv Hvl.
  wp_step. eapply wp_upd_iface; [exact R5|exact Hx|]. intros p6 R6.
  wp_step. eapply wp_net_thread; [exact Hw6|cbn; lia|exact Hsl|]. intros t k7 Hw7 Hs7. cbn in Hs7. rewrite nv_take_take in Hw7.
  wp_step. eapply wp_upd_iface; [exact R6|exact Hx|]. intros p7 R7. wp_step. wp_step.
  wp_step. eapply wp_upd_iface; [exact R7|exact Hx|]. intros p8 R8. wp_step. split; [done|]. rewrite insert_last in R8.
  eexists _, t, vfr. split; [exact R8|]. cbn [net_env set_net_ifaces set_net_env]. rewrite Hs7, Hs6, Hs5.
  split; [|by split_and!]. split; cbn; try done. by simplify_map_eq.
Qed.

(** *** The network *)

(** The virtual interface [l] of an interface that is up, and lwIP's netif for it. *)
Definition default_vface : sel4osapi_netvface_t :=
  NetVface (ipaddr_aton SEL4OSAPI_IP_MASK_DEFAULT) (ipaddr_aton SEL4OSAPI_IP_ADDR_DEFAULT) (ipaddr_aton SEL4OSAPI_IP_GW_DEFAULT).
Definition netif_of (v : sel4osapi_netvface_t) : Z * Z * Z * bool := (ip_addr v, ip_mask v, ip_gw v, true).

(** One interface with one virtual interface, the pools the UDP server searches,
    and what lwIP and the kernel know of them. *)
Record network_up (d : sel4osapi_netiface_driver_t) (x : loc * loc) (t : loc) s : Prop := {
  nu_mutex : netstack_mutex s <> NULL;
  nu_iface : exists free i vfree vx, holds (net_ifaces s) free [x] [i] /\ iface_made (stack_of (net_env s)) d i t /\
    holds (vfaces i) vfree [vx] [default_vface] /\ nv_default (stack_of (net_env s)) = Some vx.2 /\
    nv_netifs (stack_of (net_env s)) = {[vx.2 := netif_of default_vface]}
}.

Lemma network_up_env d x t s k : network_up d x t s -> stack_of k = stack_of (net_env s) -> network_up d x t (set_net_env k s).
Proof. intros [Hm (free & i & vfree & vx & Hi)] Hs. split; [done|]. exists free, i, vfree, vx. cbn. by rewrite Hs. Qed.

(** Memory for the two pools, a driver whose interrupt is not handled yet. *)
Record network_ready (h : heap sel4osapi_netvface_t) (h' : heap sel4osapi_netiface_t) (d : sel4osapi_netiface_driver_t) (v : stack_view) : Prop := {
  nr_vfaces : heap_wf h /\ 0 < SEL4OSAPI_NET_VFACES_MAX /\ pool_bytes SEL4OSAPI_NET_VFACES_MAX sizeof_netvface <= avail h;
  nr_ifaces : heap_wf h' /\ 0 < SEL4OSAPI_NET_PHYS_IFACES /\ pool_bytes SEL4OSAPI_NET_PHYS_IFACES sizeof_netiface <= avail h';
  nr_driver : driver_ok d;
  nr_irq : map_Forall (fun _ (n : Z) => n <> irq_num d) (nv_irqs v)
}.

(** The calls the network makes. *)
Definition network_cost : nat := 12.

Lemma wp_network_initialize priority uninit h uninit' h' name d w s :
  network_ready h h' d (stack_of (net_env s)) -> net_ok w (net_env s) -> (network_cost <= nv_room w)%nat -> (0 < nv_slots w)%nat ->
  wp (sel4osapi_network_initialize priority uninit h uninit' h' (Some name) (Some d)) (fun r s' => r = 0 /\ exists x t n,
    network_up d x t s' /\ (n <= network_cost)%nat /\ net_ok (NetView (nv_room w - n) (pred (nv_slots w))
      (nv_threads w ++ [(t, irq_thread_of x priority true)])) (net_env s')) s.
Proof.
  intros [(Hwf & Hmax & Hmem) (Hwf' & Hmax' & Hmem') Hd Hirq] Hw Hroom Hsl. unfold network_cost in *.
  unfold sel4osapi_network_initialize. wp_step. eapply wp_net_mutex; [exact Hw|lia|]. intros l k1 Hw1 Hs1. cbn in Hs1.
  wp_step. wp_step. wp_step. wp_step. wp_step. apply wp_peek.
  destruct (wp_pool_new (init := None) (cmp := None) SEL4OSAPI_NET_PHYS_IFACES sizeof_netiface NULL uninit' h' Hwf')
    as (p & h1 & Hr & fr & Hl & _ & Rp & _); [done|done|done|].
  wp_step. eapply wp_eq; [exact Hr|]. wp_steps. destruct fr as [|x fr]; [cbn in Hl; lia|].
  assert (R0 : holds (PoolState p h1) (x :: fr) [] []) by (split; exists (cells h1); split; [exact Rp|constructor]).
  eapply wp_mono; [eapply (wp_create_interface priority uninit h name d (nv_take 1 w) _ x fr [] []); try done; cbn; [lia|by rewrite Hs1]|].
  intros r s1 (-> & i & t & vfr & R1 & Hi & Hnet & Rv & Hvl & Hm1 & Hw2). wp_step. wp_step. destruct vfr as [|vx vfr]; [cbn in Hvl; lia|].
  wp_step. eapply wp_mono; [eapply (wp_add_vface _ s1 fr ([] ++ [x]) ([] ++ [i]) 0 x i vx vfr [] []); try done; [by rewrite Hnet|cbn; lia]|].
  intros r s2 (-> & v & n & R2 & Rv2 & Hs2 & Hm2 & Hw3 & Hn). wp_step. wp_step. wp_step.
  eapply wp_read_iface; [exact R2|done|]. wp_step. destruct Hi as [Hid Him Hii Hit Hith]. cbn [irq_thread ni_set_vfaces]. rewrite Hith.
  eapply (wp_net_start (length (nv_threads w))); [exact Hw3|cbn; lia|cbn; by rewrite list_lookup_middle|done|]. intros k4 Hw4 Hs4.
  cbn beta. wp_step. wp_step. wp_step. split; [done|]. exists x, t, (9 + n)%nat. split; [|split; [lia|]].
  - split; cbn [net_env set_net_env netstack_mutex net_ifaces]; [by rewrite Hm2, Hm1|]. rewrite Hs4, Hs2.
    exists fr, (ni_set_vfaces v i), vfr, vx. split; [exact R2|]. split; [by split|]. split; [exact Rv2|]. split; [done|].
    cbn. by rewrite Hnet.
  - unfold nv_start, nv_create, nv_take in Hw4. cbn in Hw4. rewrite alter_app_r_alt, Nat.sub_diag in Hw4 by lia. cbn in Hw4.
    replace (nv_room w - (9 + n))%nat with (nv_room w - 1 - 7 - n - 1)%nat by lia. exact Hw4.
Qed.

(** C32: The network comes up.  After [sel4osapi_network_initialize] there is one
    interface; its interrupt is bound to its notification, its thread serves it
    and was started with the priority of the process, beside the threads there were;
    it has one virtual interface with the configured address, mask
    and gateway, which lwIP has as its only and default netif, and it is up.
    These are the pools the UDP server searches. *)
Theorem network_comes_up priority uninit h uninit' h' name d w s :
  network_ready h h' d (stack_of (net_env s)) -> net_ok w (net_env s) -> (network_cost <= nv_room w)%nat -> (0 < nv_slots w)%nat ->
  exists s' x t n,
    sel4osapi_network_initialize priority uninit h uninit' h' (Some name) (Some d) s = Done (0, s') /\ network_up d x t s' /\
    net_ok (NetView (nv_room w - n) (pred (nv_slots w)) (nv_threads w ++ [(t, irq_thread_of x priority true)])) (net_env s').
Proof.
  intros HA HB HC HD. destruct (wp_network_initialize priority uninit h uninit' h' name d w s HA HB HC HD)
    as (r & s' & Hr & -> & x & t & n & Hup & _ & Hw). by exists s', x, t, n.
Qed.
End network_spec.

(** ** The interrupt thread

    [sel4osapi_eth_irq1_thread] as its sequence of calls: one before the loop,
    five in it; nothing clears the [active] of this thread, so the loop goes on.
    It shares lwIP with the UDP server thread, under the mutex of
    the interface. *)

Inductive irq_op := Op_notify | Op_wait | Op_lock | Op_handle | Op_ack | Op_unlock.
#[export] Instance irq_op_eq_dec : EqDecision irq_op.
Proof. solve_decision. Defined.

Definition eth_irq_start : list irq_op := [Op_notify].
Definition eth_irq_loop : list irq_op := [Op_wait; Op_lock; Op_handle; Op_ack; Op_unlock].

Inductive lwip_user := Irq_thread | Stack_thread.
#[export] Instance lwip_user_eq_dec : EqDecision lwip_user.
Proof. solve_decision. Defined.

(** [line]: the device asks for service; [masked]: the kernel holds the interrupt
    back until it is acknowledged; [pending]: the notification is signalled;
    [pc]: what is left of the round of the thread. *)
Record irq_world := IrqWorld {
  line : bool;
  masked : bool;
  pending : bool;
  owner : option lwip_user;
  pc : list irq_op
}.

(** One call; [served]: the driver leaves nothing to do.  [None]: it blocks. *)
Definition exec_op (op : irq_op) (served : bool) (w : irq_world) : option (bool * bool * bool * option lwip_user) :=
  match op with
  | Op_notify => Some (line w, masked w, true, owner w)
  | Op_wait => if pending w then Some (line w, masked w, false, owner w) else None
  | Op_lock => match owner w with None => Some (line w, masked w, pending w, Some Irq_thread) | Some _ => None end
  | Op_handle => Some (line w && negb served, masked w, pending w, owner w)
  | Op_ack => Some (line w, false, pending w, owner w)
  | Op_unlock => Some (line w, masked w, pending w, None)
  end.

Definition next_pc (rest : list irq_op) : list irq_op := match rest with [] => eth_irq_loop | _ => rest end.

Inductive irq_label := I_raise | I_deliver | I_thread (op : irq_op) | I_stack_lock | I_stack_unlock.
#[export] Instance irq_label_eq_dec : EqDecision irq_label.
Proof. solve_decision. Defined.

(** The device, the kernel, the thread, the UDP server thread around its calls
    of lwIP. *)
Inductive irq_step : irq_world -> irq_label -> irq_world -> Prop :=
| Is_raise w : irq_step w I_raise (IrqWorld true (masked w) (pending w) (owner w) (pc w))
| Is_deliver w : line w = true -> masked w = false ->
    irq_step w I_deliver (IrqWorld true true true (owner w) (pc w))
| Is_thread w op rest served l m p o : pc w = op :: rest -> exec_op op served w = Some (l, m, p, o) ->
    irq_step w (I_thread op) (IrqWorld l m p o (next_pc rest))
| Is_stack_lock w : owner w = None ->
    irq_step w I_stack_lock (IrqWorld (line w) (masked w) (pending w) (Some Stack_thread) (pc w))
| Is_stack_unlock w : owner w = Some Stack_thread ->
    irq_step w I_stack_unlock (IrqWorld (line w) (masked w) (pending w) None (pc w)).

Inductive irq_run : irq_world -> list irq_label -> irq_world -> Prop :=
| Ir_nil w : irq_run w [] w
| Ir_cons w lb w1 tr w2 : irq_step w lb w1 -> irq_run w1 tr w2 -> irq_run w (lb :: tr) w2.

(** The thread is about to start; an interrupt may have been lost before. *)
Definition irq_initial (l m : bool) : irq_world := IrqWorld l m false None (eth_irq_start ++ eth_irq_loop).

Definition reachable_irq (w : irq_world) : Prop := exists l m tr, irq_run (irq_initial l m) tr w.

(** What is left until the thread serves the device: its own calls before the
    handler's, and one interrupt more if it acknowledges one first. *)
Definition to_go (ops : list irq_op) : nat :=
  match ops with
  | Op_notify :: _ => 3
  | Op_wait :: _ => 2
  | Op_lock :: _ => 1
  | Op_handle :: _ => 0
  | Op_ack :: _ => 4 + 1
  | Op_unlock :: _ => 3
  | [] => 0
  end.

(** The points of the thread. *)
Definition irq_points : list (list irq_op) :=
  [eth_irq_start ++ eth_irq_loop; eth_irq_loop; drop 1 eth_irq_loop; drop 2 eth_irq_loop; drop 3 eth_irq_loop; drop 4 eth_irq_loop].

(** The thread owns lwIP from lock to unlock; an interrupt that is held back is
    about to be acknowledged. *)
Record irq_inv (w : irq_world) : Prop := {
  ii_pc : pc w ∈ irq_points;
  ii_owner : owner w = Some Irq_thread <-> head (pc w) ∈ [Some Op_handle; Some Op_ack; Some Op_unlock];
  ii_masked : masked w = true -> pending w = true \/ head (pc w) ∈ [Some Op_notify; Some Op_lock; Some Op_handle; Some Op_ack]
}.

Ltac irq_cases H :=
  unfold irq_points, eth_irq_start, eth_irq_loop in H; cbn in H;
  repeat (apply elem_of_cons in H as [H|H]); [..|by apply not_elem_of_nil in H].

Lemma irq_step_inv w lb w' : irq_inv w -> irq_step w lb w' -> irq_inv w'.
Proof.
  intros [Hpc Ho Hm] Hstep. destruct Hstep as [w|w Hl Hk|w op rest served l m p o Hop Hex|w Hn|w Hs].
  - by split.
  - split; cbn; [done|done|by left].
  - irq_cases Hpc; rewrite Hpc in Hop, Ho, Hm; injection Hop as <- <-; cbn in Hex, Ho, Hm; repeat case_match; simplify_eq;
      (split; cbn; [unfold irq_points; cbn; set_solver| |]); try set_solver; try (split; [congruence|set_solver]).
  - split; cbn; [done| |done]. split; [done|]. intros Hin%Ho. congruence.
  - split; cbn; [done| |done]. split; [done|]. intros Hin%Ho. congruence.
Qed.

Lemma irq_initial_inv l m : irq_inv (irq_initial l m).
Proof. split; cbn; [unfold irq_points; cbn; set_solver| |set_solver]. split; [done|set_solver]. Qed.

Lemma irq_run_inv w tr w' : irq_inv w -> irq_run w tr w' -> irq_inv w'.
Proof. intros Hw Hr. induction Hr as [|w lb w1 tr w2 Hs _ IH]; [done|]. by eapply IH, irq_step_inv. Qed.

Lemma reachable_irq_inv w : reachable_irq w -> irq_inv w.
Proof. intros (l & m & tr & Hr). eapply irq_run_inv; [apply irq_initial_inv|exact Hr]. Qed.

(** Steps other than a new demand of the device or of the UDP server. *)
Definition settles (lb : irq_label) : bool := match lb with I_raise | I_stack_lock => false | _ => true end.

(** The steps of a run other than new demands of the device, and how often the
    UDP server locks lwIP in it. *)
Definition irq_steps (tr : list irq_label) : nat := length (filter (fun lb => lb <> I_raise) tr).
Definition stack_locks (tr : list irq_label) : nat := length (filter (fun lb => lb = I_stack_lock) tr).

(** A bound on those steps until the device is served, if the UDP server does
    not lock lwIP again. *)
Definition irq_measure (w : irq_world) : nat :=
  (to_go (pc w) + (if masked w then 0 else 1) + (if decide (owner w = Some Stack_thread) then 1 else 0))%nat.

Lemma irq_measure_bound w : irq_inv w -> (irq_measure w <= 6)%nat.
Proof.
  intros [Hpc Ho _]. unfold irq_measure. irq_cases Hpc; rewrite Hpc in *; cbn in *;
    destruct (masked w); destruct (decide (owner w = Some Stack_thread)) as [Hs|]; try lia; exfalso;
    rewrite Hs in Ho; destruct Ho as [_ Ho]; discriminate Ho; set_solver.
Qed.

(** Every step brings the handler closer, unless it is a new demand of the
    device or of the UDP server. *)
Lemma irq_step_measure w lb w' : irq_inv w -> line w = true -> irq_step w lb w' ->
  lb = I_thread Op_handle \/ line w' = true /\
  match lb with
  | I_raise => irq_measure w' = irq_measure w
  | I_stack_lock => (irq_measure w' <= S (irq_measure w))%nat
  | _ => (irq_measure w' < irq_measure w)%nat
  end.
Proof.
  intros [Hpc Ho Hm] Hl Hstep. destruct Hstep as [w|w _ Hk|w op rest served l m p o Hop Hex|w Hn|w Hs].
  - by right.
  - right. split; [done|]. unfold irq_measure. cbn. rewrite Hk. lia.
  - irq_cases Hpc; rewrite Hpc in Hop, Ho; injection Hop as <- <-; cbn in Hex, Ho; repeat case_match; simplify_eq;
      first [by left|right; split; [done|unfold irq_measure; rewrite Hpc; cbn; repeat case_match; first [lia|congruence]]].
  - right. split; [done|]. unfold irq_measure. cbn. case_decide; lia.
  - right. split; [done|]. unfold irq_measure. cbn. rewrite Hs, decide_False, decide_True by done. lia.
Qed.

Lemma irq_run_serves w tr w' : irq_inv w -> line w = true -> irq_run w tr w' ->
  (irq_measure w + 2 * stack_locks tr < irq_steps tr)%nat -> I_thread Op_handle ∈ tr.
Proof.
  intros Hi Hl Hrun. revert Hi Hl. induction Hrun as [w|w lb w1 tr w2 Hs _ IH]; intros Hi Hl Hlen; [cbn in Hlen; lia|].
  destruct (irq_step_measure w lb w1 Hi Hl Hs) as [->|[Hl1 Hm]]; [apply list_elem_of_here|].
  apply elem_of_cons. right. apply IH; [by eapply irq_step_inv|done|].
  unfold irq_steps, stack_locks in *. rewrite !filter_cons in Hlen.
  repeat case_decide; destruct lb; simplify_eq; cbn [length] in Hlen; lia.
Qed.

Lemma irq_thread_steps w op rest l m p o : pc w = op :: rest -> exec_op op true w = Some (l, m, p, o) ->
  exists lb w', settles lb = true /\ irq_step w lb w'.
Proof. intros Hpc Hex. exists (I_thread op). eexists. split; [done|]. by eapply Is_thread. Qed.

Lemma irq_not_stuck w : irq_inv w -> line w = true -> exists lb w', settles lb = true /\ irq_step w lb w'.
Proof.
  intros [Hpc Ho Hm] Hl.
  destruct (decide (owner w = Some Stack_thread)) as [Hs|Hs]; [by eexists I_stack_unlock, _; split; [|constructor]|].
  destruct (masked w) eqn:Hk; [|by eexists I_deliver, _; split; [|constructor]]. specialize (Hm eq_refl).
  irq_cases Hpc; rewrite Hpc in Ho, Hm; cbn in Ho, Hm; eapply (irq_thread_steps w _ _ _ _ _ _ Hpc); cbn; try reflexivity.
  - destruct Hm as [->|Hm]; [reflexivity|set_solver].
  - destruct (owner w) as [[|]|]; [|done|reflexivity]. destruct Ho as [Ho _]. specialize (Ho eq_refl). set_solver.
Qed.

(** The interrupt handler of the driver has lwIP to itself: when it is about
    to run, the thread holds the mutex of the interface, and the UDP server
    thread is not between its lock and unlock. *)
Theorem irq_handler_exclusive w rest :
  reachable_irq w -> pc w = Op_handle :: rest ->
  owner w = Some Irq_thread /\ (forall w', ~ irq_step w I_stack_lock w') /\ (forall w', ~ irq_step w I_stack_unlock w').
Proof.
  intros Hr%reachable_irq_inv Hpc.
  assert (Ho : owner w = Some Irq_thread) by (apply (ii_owner _ Hr); rewrite Hpc; apply list_elem_of_here).
  split; [done|]. split; intros w' Hs; inversion Hs; congruence.
Qed.

(** C33: No interrupt is lost.  Whatever happened before, also when the kernel
    dropped an interrupt before the thread was ready, a device that asks for
    service gets it: under any scheduling the handler of its driver is called
    within seven steps of the kernel, the interrupt thread and the UDP server,
    or two more for each time the UDP server locks lwIP meanwhile, however often
    the device repeats its demand; and until then some step other than these two
    is possible. *)
Theorem irq_never_lost w :
  reachable_irq w -> line w = true ->
  (exists lb w', settles lb = true /\ irq_step w lb w') /\
  (forall tr w', irq_run w tr w' -> (7 + 2 * stack_locks tr <= irq_steps tr)%nat -> I_thread Op_handle ∈ tr).
Proof.
  intros Hr%reachable_irq_inv Hl. split; [by apply irq_not_stuck|].
  intros tr w' Hrun Hlen. apply (irq_run_serves w tr w' Hr Hl Hrun). pose proof (irq_measure_bound w Hr). lia.
Qed.

(** ** An environment to run examples on: the views, beside real mutexes *)

Record net_demo := NetDemo { dn_stack : stack_view; dn_view : net_view; dn_sync : sync_state sync_view }.

Definition dn_objects {A} (m : M (sync_state sync_view) A) : M net_demo A :=
  zoom dn_sync (fun o k => NetDemo (dn_stack k) (dn_view k) o) m.
Definition dn_on_stack (f : stack_view -> stack_view) (k : net_demo) : net_demo := NetDemo (f (dn_stack k)) (dn_view k) (dn_sync k).
Definition dn_on_view (f : net_view -> net_view) (k : net_demo) : net_demo := NetDemo (dn_stack k) (f (dn_view k)) (dn_sync k).

#[export] Instance net_demo_objects : SyncObjects net_demo := {|
  mutex_create := dn_objects (sel4osapi_mutex_create (BUILD := assertions_on));
  semaphore_create n := dn_objects (sel4osapi_semaphore_create (BUILD := assertions_on) n)
|}.

Definition at_ptr {A} (p : ptr) (f : loc -> A -> A) (x : A) : A := match p with Some l => f l x | None => x end.

(** lwIP and the interrupts, whose state is the view. *)
Definition stack_handler (irq slot : Z) (v : stack_view) : Z * stack_view := (0, sk_irqs <[slot := irq]> v).
Definition stack_bind (slot n : Z) (v : stack_view) : Z * stack_view := (0, sk_targets <[slot := n]> v).
Definition stack_init (v : stack_view) : stack_view := sk_default None (sk_netifs (fun _ => ∅) v).
Definition stack_add (p : ptr) (a m g : Z) (v : stack_view) : ptr * stack_view :=
  (p, sk_netifs (at_ptr p (fun l => <[l := (a, m, g, false)]>)) v).
Definition stack_up (p : ptr) (v : stack_view) : stack_view := sk_netifs (at_ptr p (fun l => alter (fun x => (x.1, true)) l)) v.

#[export] Instance stack_demo : NetLib stack_view := {|
  simple_get_IRQ_handler := stack_handler;
  seL4_IRQHandler_SetNotification := stack_bind;
  lwip_init := stack_init;
  netif_add p a m g _ _ := stack_add p a m g;
  netif_set_up := stack_up;
  netif_set_default := sk_default;
  ipaddr_aton s := Z.of_nat (String.length s)
|}.

#[export] Instance stack_demo_ok : NetLibOk stack_view.
Proof.
  refine {| stack_of := id |}; intros; cbn; try done.
  unfold stack_up, sk_netifs. cbn. by rewrite (alter_insert_Some _ _ _ _ H).
Defined.

(** A system that has such a library as a part. *)
Definition lift_stack {K A} (get_ : K -> stack_view) (set_ : stack_view -> K -> K) (f : stack_view -> A * stack_view) (k : K) : A * K :=
  ((f (get_ k)).1, set_ (f (get_ k)).2 k).

#[export] Instance net_demo_lib : NetLib net_demo :=
  let call := fun A (f : stack_view -> A * stack_view) => lift_stack dn_stack (fun v => dn_on_stack (fun _ => v)) f in {|
  simple_get_IRQ_handler irq slot := call _ (simple_get_IRQ_handler irq slot);
  seL4_IRQHandler_SetNotification slot n := call _ (seL4_IRQHandler_SetNotification slot n);
  lwip_init := dn_on_stack lwip_init;
  netif_add p a m g d f := call _ (netif_add p a m g d f);
  netif_set_up p := dn_on_stack (netif_set_up p);
  netif_set_default p := dn_on_stack (netif_set_default p);
  ipaddr_aton := ipaddr_aton (K := stack_view)
|}.

#[export] Instance net_demo_lib_ok : NetLibOk net_demo.
Proof.
  refine {| stack_of := dn_stack |}.
  - intros irq slot k. exact (nl_handler_ok irq slot (dn_stack k)).
  - intros slot n k. exact (nl_bind_ok slot n (dn_stack k)).
  - intros k. exact (nl_init_ok (dn_stack k)).
  - intros l a m g d f k. exact (nl_add_ok l a m g d f (dn_stack k)).
  - intros l a m g u k. exact (nl_up_ok l a m g u (dn_stack k)).
  - intros l k. exact (nl_default_ok l (dn_stack k)).
Defined.

(** A slot nobody uses; threads are the numbers from 1; starting one starts the
    thread of that number. *)
Definition thread_number (n : nat) : loc := Pos.of_succ_nat n.

#[export] Instance net_demo_env : NetEnv net_demo := {|
  net_cspace_alloc k := ((0, fresh (dom (nv_irqs (dn_stack k)))), dn_on_view (nv_take 1) k);
  net_alloc_notification k := ((0, 1000 + Z.of_nat (nv_room (dn_view k))), dn_on_view (nv_take 1) k);
  irq_thread_create name p prio k := let t := thread_number (length (nv_threads (dn_view k))) in
    Done (Some t, dn_on_view (at_ptr p (fun l w => nv_create t (NetThread name l prio false) (nv_take 1 w))) k);
  irq_thread_start t k := Done (0, dn_on_view (at_ptr t (fun t w => nv_start (pred (Pos.to_nat t)) (nv_take 1 w))) k)
|}.

(** The view is the one of the system, up to the room that calls of lwIP and
    mutexes do not take from it. *)
Record net_demo_ok (w : net_view) (k : net_demo) : Prop := {
  nd_room : (nv_room w <= nv_room (dn_view k))%nat /\ (nv_room w <= objects_left (sync_objects (dn_sync k)))%nat;
  nd_slots : nv_slots w = nv_slots (dn_view k);
  nd_threads : nv_threads w = nv_threads (dn_view k);
  nd_numbers : (nv_threads w).*1 = thread_number <$> seq 0 (length (nv_threads w));
  nd_sync : sync_inv (dn_sync k)
}.

Lemma net_demo_keeps w k stack n : net_demo_ok w k -> (n <= 1)%nat ->
  net_demo_ok (nv_take 1 w) (NetDemo stack (nv_take n (dn_view k)) (dn_sync k)).
Proof. intros [[H1 H2] H3 H4 H5 H6] Hn. split; cbn -[sync_objects]; try done. split; lia. Qed.

#[export] Instance net_demo_env_ok : NetEnvOk net_demo.
Proof.
  refine {| net_ok := net_demo_ok |}.
  - intros w k k' Hw _ Hop. assert (Hk : exists v, k' = NetDemo v (nv_take 0 (dn_view k)) (dn_sync k)).
    { replace (nv_take 0 (dn_view k)) with (dn_view k) by (destruct (dn_view k); unfold nv_take; cbn; f_equal; lia). destruct Hop; by eexists. }
    destruct Hk as [v ->]. apply net_demo_keeps; [done|lia].
  - intros w k [[H1 H2] H3 H4 H5 H6] Hr. cbn [mutex_create net_demo_objects]. apply wp_zoom.
    eapply wp_mono; [apply wp_mutex_create; [done|lia]|]. intros r o (Hi & l & -> & _ & _ & _ & _ & Hl).
    exists l. split_and!; try done. split; cbn -[sync_objects]; try done. split; lia.
  - intros w k Hw _. cbn. split_and!; try done; [apply not_elem_of_dom, is_fresh|by apply net_demo_keeps].
  - intros w k Hw _. cbn. split_and!; try done. by apply net_demo_keeps.
  - intros name l p w k [[H1 H2] H3 H4 H5 H6] Hr Hs. eexists _, _. split; [reflexivity|]. eexists. split; [reflexivity|]. split; [|done].
    split; cbn -[sync_objects]; try done; [split; lia|by rewrite H3|by rewrite H4|]. rewrite fmap_app, length_app, seq_app, fmap_app, H5. cbn. by rewrite H4.
  - intros j t th w k [[H1 H2] H3 H4 H5 H6] Hr Hj Hf.
    assert (Ht : pred (Pos.to_nat t) = j).
    { pose proof (f_equal (.!! j) H5) as H. rewrite !list_lookup_fmap, Hj, lookup_seq_lt in H by (by eapply lookup_lt_Some).
      injection H as ->. unfold thread_number. cbn. lia. }
    eexists _, _. split; [reflexivity|]. split; [done|]. split; [|done].
    split; cbn -[sync_objects]; rewrite ?Ht; try done; [split; lia|by rewrite H4|]. rewrite length_alter, <- H5. rewrite (list_fmap_alter _ _ id) by by apply Forall_forall. by apply list_alter_id.
Defined.

Section samples.
#[local] Existing Instance default_config.

Definition sample_driver : sel4osapi_netiface_driver_t := NetDriver 150 1 2 3.
Definition empty_stack : stack_view := StackView ∅ ∅ ∅ None.
Definition sample_net_board : net_demo := NetDemo empty_stack (NetView 12 1 []) (SyncState (Heap 1 65536 ∅ ∅ ∅) (SyncView ∅ ∅ 12)).
Definition no_pool {E} : pool_state E := PoolState (Pool NULL NULL 0 0 0 None NULL None) (Heap 1 4096 ∅ ∅ ∅).
Definition zero_vface : sel4osapi_netvface_t := NetVface 0 0 0.
Definition zero_iface : sel4osapi_netiface_t := NetIface NULL sample_driver 0 0 NULL no_pool 0 0.

Lemma sample_network_ready : network_ready (Heap 1 4096 ∅ ∅ ∅) (Heap 1 4096 ∅ ∅ ∅) sample_driver empty_stack.
Proof.
  split.
  - split_and!; [by split; cbn; try (intros l [? Hl])|reflexivity|by vm_compute].
  - split_and!; [by split; cbn; try (intros l [? Hl])|reflexivity|by vm_compute].
  - by split.
  - apply map_Forall_empty.
Qed.

Lemma network_comes_up_witness :
  exists s' x t,
    sel4osapi_network_initialize 100 zero_vface (Heap 1 4096 ∅ ∅ ∅) zero_iface (Heap 1 4096 ∅ ∅ ∅) (Some "eth0"%string)
      (Some sample_driver) (NetState NULL no_pool sample_net_board) = Done (0, s') /\
    network_up sample_driver x t s' /\ nv_threads (dn_view (net_env s')) = [(t, irq_thread_of x 100 true)].
Proof.
  destruct (network_comes_up 100 zero_vface (Heap 1 4096 ∅ ∅ ∅) zero_iface (Heap 1 4096 ∅ ∅ ∅) "eth0"%string sample_driver
              (NetView 12 1 []) (NetState NULL no_pool sample_net_board))
    as (s' & x & t & n & H1 & H2 & [_ _ H3 _ _]).
  - exact sample_network_ready.
  - split; try done.
    split; cbn; [by split; cbn; try (intros l [? Hl])|set_solver|by intros l [? Hl]].
  - done.
  - apply Nat.lt_0_1.
  - exists s', x, t. split; [exact H1|]. split; [exact H2|]. symmetry. exact H3.
Defined.
End samples.

(** The thread starts; the device raises its interrupt, which the kernel delivers. *)
Definition irq_trace : list irq_label := [I_thread Op_notify; I_thread Op_wait; I_thread Op_lock].

Lemma irq_trace_runs l m : irq_run (irq_initial l m) irq_trace (IrqWorld l m false (Some Irq_thread) (drop 2 eth_irq_loop)).
Proof.
  unfold irq_trace. econstructor; [by apply (Is_thread _ Op_notify eth_irq_loop true)|].
  econstructor; [by apply (Is_thread _ Op_wait (drop 1 eth_irq_loop) true)|].
  econstructor; [by apply (Is_thread _ Op_lock (drop 2 eth_irq_loop) true)|]. constructor.
Qed.

Lemma irq_handler_exclusive_witness :
  let w := IrqWorld true true false (Some Irq_thread) (drop 2 eth_irq_loop) in
  reachable_irq w /\ forall w', ~ irq_step w I_stack_lock w'.
Proof.
  assert (Hr : reachable_irq (IrqWorld true true false (Some Irq_thread) (drop 2 eth_irq_loop)))
    by (exists true, true, irq_trace; apply irq_trace_runs).
  split; [exact Hr|]. destruct (irq_handler_exclusive _ (drop 3 eth_irq_loop) Hr) as (_ & H & _); [reflexivity|exact H].
Defined.

(** The interrupt was dropped before the thread started. *)
(** The interrupt was dropped and the UDP server is about to lock lwIP; the
    device repeats its demand. *)
Definition sample_irqs : list irq_label :=
  [I_stack_lock; I_raise; I_thread Op_notify; I_thread Op_wait; I_stack_unlock; I_thread Op_lock; I_thread Op_handle;
   I_thread Op_ack; I_raise; I_deliver; I_thread Op_unlock].

Lemma sample_irqs_run : exists w', irq_run (irq_initial true true) sample_irqs w'.
Proof.
  eexists. unfold sample_irqs.
  repeat (eapply Ir_cons; [first [by eapply (Is_thread _ _ _ true)|by econstructor]|]). apply Ir_nil.
Qed.

Lemma irq_never_lost_witness :
  reachable_irq (irq_initial true true) /\
  (exists lb w', settles lb = true /\ irq_step (irq_initial true true) lb w') /\
  stack_locks sample_irqs = 1%nat /\ I_thread Op_handle ∈ sample_irqs.
Proof.
  assert (Hr : reachable_irq (irq_initial true true)) by (exists true, true, []; constructor).
  split; [exact Hr|]. destruct (irq_never_lost _ Hr) as [H Hserved]; [reflexivity|].
  split; [exact H|]. split; [reflexivity|]. destruct sample_irqs_run as (w' & Hrun).
  apply (Hserved sample_irqs w' Hrun). apply Nat.leb_le. reflexivity.
Defined.
