(* ===== verification/UdpStack.v ===== *)
(** * UdpStack: creating and binding UDP sockets (src/udp.c, udp.h)

    One thread of the root task, [sel4osapi_udp_stack_thread], serves the
    requests of the processes: create a socket, bind it, connect it.  It keeps
    the sockets in the pool [socket_servers] and looks the client of a request
    up among the clients of the IPC server and the interface among those of the
    network stack.  For each socket it creates the tx thread of [UdpSend], and
    when the socket is bound the packet pool and the rx thread of [Udp].

    lwIP, the kernel objects and the threads are the environment [K], reached
    through [Kernel] and [StackEnv].  The clients of the server
    are in [UdpOpen]. *)

From Stdlib Require Import String.
From stdpp Require Import strings pretty.
From S2P Require Import Prelude Config Memory LinkedList Pool PoolSearch Ipc Network Kernel Udp.

Definition UDPSTACK_CREATE_SOCKET : Z := 300.
Definition UDPSTACK_BIND_SOCKET : Z := 301.
Definition UDPSTACK_CONNECT_SOCKET : Z := 302.
Definition ERR_OK : Z := 0.

Record sel4osapi_udp_socket_t := UdpSocket {
  sock_id : Z;
  sock_addr : Z;
  sock_port : Z;
  ep_tx_ready : Z;
  ep_rx_ready : Z;
  aep_rx_data : Z
}.

Record sel4osapi_udp_socket_server_t := UdpSocketServer {
  ss_iface : ptr;
  ss_socket : sel4osapi_udp_socket_t;
  udp_pcb : Z;
  ss_client : ptr;
  tx_thread : Z;
  rx_thread : Z;
  msgs_mutex : ptr;
  ss_msgs : option (pool_state sel4osapi_udp_message_t)
}.

Inductive thread_main := Udp_tx_thread | Udp_rx_thread.

(** The environment; handles and capabilities are numbers, 0 is NULL. *)
Class StackEnv (K : Type) := {
  vka_alloc_endpoint_leaky : K -> Z * K;
  vka_cnode_copy : Z -> Z -> K -> Z * K;                       (* destination, source *)
  udp_new : K -> Z * K;
  udp_recv : Z -> ptr -> K -> K;                               (* pcb, argument of udprecv *)
  udp_bind : Z -> Z -> Z -> K -> Z * K;                        (* pcb, address, port *)
  sel4osapi_mutex_create : K -> ptr * K;
  sel4osapi_mutex_lock : ptr -> K -> Z * K;
  sel4osapi_mutex_unlock : ptr -> K -> K;
  sel4osapi_thread_create : string -> thread_main -> ptr -> Z -> K -> Z * K;
  sel4osapi_thread_start : Z -> K -> Z * K
}.

(** [snprintf(buf, max, ...)] writes at most [max - 1] characters. *)
Definition snprintf (max : Z) (text : string) : string := String.substring 0 (Z.to_nat (max - 1)) text.

Section stack_c.
Context {CFG : Config} {K : Type} {KER : Kernel K} {ENV : StackEnv K}.

(** [st_socket_server], [st_client], [st_iface], [st_error] and
    [rx_ready_ep_mint] are the locals of the thread that live through its loop;
    [receive_path] is the slot the next capability sent to it goes to; [arena]
    is what is left for malloc.  A reply is its registers and capability. *)
Record stack_state := StackState {
  socket_servers : pool_state sel4osapi_udp_socket_server_t;
  ipc_clients : pool_state sel4osapi_ipcclient_t;
  net_ifaces : pool_state sel4osapi_netiface_t;
  st_socket_server : ptr;
  st_client : ptr;
  st_iface : ptr;
  st_error : Z;
  rx_ready_ep_mint : Z;
  receive_path : Z;
  arena : Z;
  kern : K;
  stack_replies : list (list Z * option Z)
}.

Definition set_servers p (s : stack_state) : stack_state :=
  StackState p (ipc_clients s) (net_ifaces s) (st_socket_server s) (st_client s) (st_iface s) (st_error s)
    (rx_ready_ep_mint s) (receive_path s) (arena s) (kern s) (stack_replies s).
Definition set_socket_server v (s : stack_state) : stack_state :=
  StackState (socket_servers s) (ipc_clients s) (net_ifaces s) v (st_client s) (st_iface s) (st_error s)
    (rx_ready_ep_mint s) (receive_path s) (arena s) (kern s) (stack_replies s).
Definition set_client v (s : stack_state) : stack_state :=
  StackState (socket_servers s) (ipc_clients s) (net_ifaces s) (st_socket_server s) v (st_iface s) (st_error s)
    (rx_ready_ep_mint s) (receive_path s) (arena s) (kern s) (stack_replies s).
Definition set_iface v (s : stack_state) : stack_state :=
  StackState (socket_servers s) (ipc_clients s) (net_ifaces s) (st_socket_server s) (st_client s) v (st_error s)
    (rx_ready_ep_mint s) (receive_path s) (arena s) (kern s) (stack_replies s).
Definition set_error v (s : stack_state) : stack_state :=
  StackState (socket_servers s) (ipc_clients s) (net_ifaces s) (st_socket_server s) (st_client s) (st_iface s) v
    (rx_ready_ep_mint s) (receive_path s) (arena s) (kern s) (stack_replies s).
Definition set_rx_mint v (s : stack_state) : stack_state :=
  StackState (socket_servers s) (ipc_clients s) (net_ifaces s) (st_socket_server s) (st_client s) (st_iface s) (st_error s)
    v (receive_path s) (arena s) (kern s) (stack_replies s).
Definition set_receive_path v (s : stack_state) : stack_state :=
  StackState (socket_servers s) (ipc_clients s) (net_ifaces s) (st_socket_server s) (st_client s) (st_iface s) (st_error s)
    (rx_ready_ep_mint s) v (arena s) (kern s) (stack_replies s).
Definition set_arena v (s : stack_state) : stack_state :=
  StackState (socket_servers s) (ipc_clients s) (net_ifaces s) (st_socket_server s) (st_client s) (st_iface s) (st_error s)
    (rx_ready_ep_mint s) (receive_path s) v (kern s) (stack_replies s).
Definition set_kern v (s : stack_state) : stack_state :=
  StackState (socket_servers s) (ipc_clients s) (net_ifaces s) (st_socket_server s) (st_client s) (st_iface s) (st_error s)
    (rx_ready_ep_mint s) (receive_path s) (arena s) v (stack_replies s).
Definition add_stack_reply v (s : stack_state) : stack_state :=
  StackState (socket_servers s) (ipc_clients s) (net_ifaces s) (st_socket_server s) (st_client s) (st_iface s) (st_error s)
    (rx_ready_ep_mint s) (receive_path s) (arena s) (kern s) (stack_replies s ++ [v]).

Definition kcall {A} (f : K -> A * K) : M stack_state A := fun s =>
  Done ((f (kern s)).1, set_kern (f (kern s)).2 s).
Definition kdo (f : K -> K) : M stack_state unit := modify (fun s => set_kern (f (kern s)) s).
Definition on_servers {A} (m : M (pool_state sel4osapi_udp_socket_server_t) A) : M stack_state A :=
  zoom socket_servers set_servers m.
Definition read_server (p : ptr) : M stack_state sel4osapi_udp_socket_server_t :=
  on_servers (on_mem (read_cell p)).
Definition upd_server (p : ptr) (f : sel4osapi_udp_socket_server_t -> sel4osapi_udp_socket_server_t)
    : M stack_state unit :=
  let! v := read_server p in on_servers (on_mem (write_cell p (f v))).

(** Assignments to fields of a socket server. *)
Definition with_socket (f : sel4osapi_udp_socket_t -> sel4osapi_udp_socket_t) (v : sel4osapi_udp_socket_server_t) :=
  UdpSocketServer (ss_iface v) (f (ss_socket v)) (udp_pcb v) (ss_client v) (tx_thread v) (rx_thread v) (msgs_mutex v) (ss_msgs v).
Definition with_owner (i c : ptr) (v : sel4osapi_udp_socket_server_t) :=
  UdpSocketServer i (ss_socket v) (udp_pcb v) c (tx_thread v) (rx_thread v) (msgs_mutex v) (ss_msgs v).
Definition with_pcb (p : Z) (v : sel4osapi_udp_socket_server_t) :=
  UdpSocketServer (ss_iface v) (ss_socket v) p (ss_client v) (tx_thread v) (rx_thread v) (msgs_mutex v) (ss_msgs v).
Definition with_tx_thread (t : Z) (v : sel4osapi_udp_socket_server_t) :=
  UdpSocketServer (ss_iface v) (ss_socket v) (udp_pcb v) (ss_client v) t (rx_thread v) (msgs_mutex v) (ss_msgs v).
Definition with_rx_thread (t : Z) (v : sel4osapi_udp_socket_server_t) :=
  UdpSocketServer (ss_iface v) (ss_socket v) (udp_pcb v) (ss_client v) (tx_thread v) t (msgs_mutex v) (ss_msgs v).
Definition with_msgs_mutex (m : ptr) (v : sel4osapi_udp_socket_server_t) :=
  UdpSocketServer (ss_iface v) (ss_socket v) (udp_pcb v) (ss_client v) (tx_thread v) (rx_thread v) m (ss_msgs v).
Definition with_msgs (m : option (pool_state sel4osapi_udp_message_t)) (v : sel4osapi_udp_socket_server_t) :=
  UdpSocketServer (ss_iface v) (ss_socket v) (udp_pcb v) (ss_client v) (tx_thread v) (rx_thread v) (msgs_mutex v) m.

Definition sock_set_identity (id addr : Z) (k : sel4osapi_udp_socket_t) :=
  UdpSocket id addr 0 (ep_tx_ready k) 0 0.
Definition sock_set_tx (c : Z) (k : sel4osapi_udp_socket_t) :=
  UdpSocket (sock_id k) (sock_addr k) (sock_port k) c (ep_rx_ready k) (aep_rx_data k).
Definition sock_set_port (p : Z) (k : sel4osapi_udp_socket_t) :=
  UdpSocket (sock_id k) (sock_addr k) p (ep_tx_ready k) (ep_rx_ready k) (aep_rx_data k).
Definition sock_set_aep (c : Z) (k : sel4osapi_udp_socket_t) :=
  UdpSocket (sock_id k) (sock_addr k) (sock_port k) (ep_tx_ready k) (ep_rx_ready k) c.
Definition sock_set_rx (c : Z) (k : sel4osapi_udp_socket_t) :=
  UdpSocket (sock_id k) (sock_addr k) (sock_port k) (ep_tx_ready k) c (aep_rx_data k).

(** [vka_cspace_alloc(vka, &v)]: the error is ignored, [v] keeps its value. *)
Definition cspace_alloc_into (v : Z) : M stack_state Z :=
  let! r := kcall vka_cspace_alloc in ret (if r.1 =? 0 then r.2 else v).

(** The three searches; a variable that is not found keeps its value. *)
Definition find_client_number (client_id : Z) : M stack_state unit :=
  let! s := get in
  let! c := peek (ipc_clients s)
              (pool_search (fun ncursor => ic_id ncursor =? client_id) id id (st_client s)) in
  modify (set_client c).

(** The break leaves the inner loop only: the last interface counts. *)
Definition find_iface_body (addr : Z) (x : ptr * ptr) : M (pool_state sel4osapi_netiface_t) (ptr * ptr) :=
  let! n := on_mem (read_node x.1) in
  let ncursor := el n in
  let! i := on_mem (read_cell ncursor) in
  let! iface := peek (vfaces i)
    (pool_search (fun vcursor => (addr =? 0) || (ip_addr vcursor =? addr)) (fun _ => ncursor) id x.2) in
  ret (next n, iface).

Definition find_iface (addr : Z) : M stack_state unit :=
  let! s := get in
  let! i := peek (net_ifaces s)
    (let! p := get in
     let! r := while (heap_fuel (mem p)) (fun x => non_null x.1) (find_iface_body addr)
                 (entries (pool p), st_iface s) in
     ret r.2) in
  modify (set_iface i).

Definition find_socket (socket_id : Z) : M stack_state unit :=
  let! s := get in
  let! p := peek (socket_servers s)
              (pool_search (fun scursor => sock_id (ss_socket scursor) =? socket_id) id id (st_socket_server s)) in
  modify (set_socket_server p).

Definition assert_error : M stack_state unit := let! s := get in assert_ (st_error s =? 0).

Definition thread_name (id : Z) (suffix : string) : string :=
  snprintf SEL4OSAPI_THREAD_NAME_MAX_LEN ("udp-" ++ pretty id ++ suffix)%string.

(** UDPSTACK_CREATE_SOCKET; [uninit] is what the slot variable holds at first. *)
Definition serve_create (priority uninit mr1 mr2 : Z) : M stack_state unit :=
  find_client_number (s32 mr1) ;;
  let! s := get in
  assert_ (non_null (st_client s)) ;;
  find_iface mr2 ;;
  let! s := get in
  assert_ (non_null (st_iface s)) ;;
  let! socket_server := on_servers simple_pool_alloc in
  modify (set_socket_server socket_server) ;;
  assert_ (non_null socket_server) ;;
  upd_server socket_server (with_owner (st_iface s) (st_client s)) ;;
  let! pcb := kcall udp_new in
  upd_server socket_server (with_pcb pcb) ;;
  assert_ (negb (pcb =? 0)) ;;
  let! id := on_servers simple_pool_get_current_size in
  upd_server socket_server (with_socket (sock_set_identity id mr2)) ;;
  let! ep := kcall vka_alloc_endpoint_leaky in
  upd_server socket_server (with_socket (sock_set_tx ep)) ;;
  assert_ (negb (ep =? seL4_CapNull)) ;;
  let! tx := kcall (sel4osapi_thread_create (thread_name id "-tx") Udp_tx_thread socket_server priority) in
  upd_server socket_server (with_tx_thread tx) ;;
  assert_ (negb (tx =? 0)) ;;
  upd_server socket_server (fun v => with_msgs None (with_msgs_mutex NULL (with_rx_thread 0 v))) ;;
  let! tx_ready_ep_mint := cspace_alloc_into uninit in
  assert_ (negb (tx_ready_ep_mint =? seL4_CapNull)) ;;
  let! error := kcall (vka_cnode_copy tx_ready_ep_mint ep) in
  modify (set_error error) ;;
  assert_error ;;
  modify (add_stack_reply ([u32 error; u32 id], Some tx_ready_ep_mint)) ;;
  let! error := kcall (sel4osapi_thread_start tx) in
  modify (set_error error) ;;
  assert_error.

(** [simple_pool_new] for the packets, from the arena of the root task. *)
Definition new_msgs : M stack_state (option (pool_state sel4osapi_udp_message_t)) := fun s =>
  match simple_pool_new SEL4OSAPI_UDP_MAX_MSGS_PER_CLIENT sizeof_udp_message None NULL None
          (UdpMessage None 0 0) (Heap 1 (arena s) ∅ ∅ ∅) with
  | Done (p, h) => Done (Some (PoolState p h), set_arena (avail h) s)
  | Assert_failed => Assert_failed
  | Wild_access => Wild_access
  | Out_of_fuel => Out_of_fuel
  end.

(** UDPSTACK_BIND_SOCKET *)
Definition serve_bind (priority mr1 mr2 : Z) : M stack_state unit :=
  let bind_port := u16 mr2 in
  find_socket (s32 mr1) ;;
  let! s := get in
  let socket_server := st_socket_server s in
  assert_ (non_null socket_server) ;;
  let! v := read_server socket_server in
  assert_ (sock_port (ss_socket v) =? 0) ;;
  let! m := new_msgs in
  upd_server socket_server (with_msgs m) ;;
  let! mutex := kcall sel4osapi_mutex_create in
  upd_server socket_server (with_msgs_mutex mutex) ;;
  assert_ (non_null mutex) ;;
  let! rx := kcall (sel4osapi_thread_create (thread_name (sock_id (ss_socket v)) "-rx") Udp_rx_thread
                      socket_server priority) in
  upd_server socket_server (with_rx_thread rx) ;;
  assert_ (negb (rx =? 0)) ;;
  upd_server socket_server (with_socket (sock_set_port bind_port)) ;;
  let! s := get in
  upd_server socket_server (with_socket (sock_set_aep (rx_ready_ep_mint s))) ;;
  assert_ (negb (rx_ready_ep_mint s =? seL4_CapNull)) ;;
  let! ep := kcall vka_alloc_endpoint_leaky in
  upd_server socket_server (with_socket (sock_set_rx ep)) ;;
  assert_ (negb (ep =? seL4_CapNull)) ;;
  let! mint := cspace_alloc_into (rx_ready_ep_mint s) in
  modify (set_rx_mint mint) ;;
  assert_ (negb (mint =? seL4_CapNull)) ;;
  let! error := kcall (vka_cnode_copy mint ep) in
  modify (set_error error) ;;
  assert_error ;;
  let! i := peek (net_ifaces s) (on_mem (read_cell (ss_iface v))) in
  let! error := kcall (sel4osapi_mutex_lock (iface_mutex i)) in
  modify (set_error error) ;;
  assert_error ;;
  kdo (udp_recv (udp_pcb v) socket_server) ;;
  let! error := kcall (udp_bind (udp_pcb v) (sock_addr (ss_socket v)) bind_port) in
  modify (set_error error) ;;
  assert_ (error =? ERR_OK) ;;
  kdo (sel4osapi_mutex_unlock (iface_mutex i)) ;;
  modify (add_stack_reply ([u32 error], Some mint)) ;;
  let! error := kcall (sel4osapi_thread_start rx) in
  modify (set_error error) ;;
  assert_error ;;
  let! mint := cspace_alloc_into mint in
  modify (set_rx_mint mint) ;;
  assert_ (negb (mint =? seL4_CapNull)) ;;
  modify (set_receive_path mint).

(** UDPSTACK_CONNECT_SOCKET: nothing is done. *)
Definition serve_connect : M stack_state unit :=
  let! s := get in
  modify (add_stack_reply ([u32 (st_error s)], None)).

(** One iteration of [sel4osapi_udp_stack_thread]. *)
Definition stack_step (priority uninit : Z) (m : message) : M stack_state unit :=
  let mr0 := u32 (getMR 0 m) in
  let mr1 := u32 (getMR 1 m) in
  let mr2 := u32 (getMR 2 m) in
  assert_ (1 <=? msg_length m) ;;
  let opcode := s32 mr0 in
  if opcode =? UDPSTACK_CREATE_SOCKET then
    assert_ (msg_length m =? 3) ;; serve_create priority uninit mr1 mr2
  else if opcode =? UDPSTACK_BIND_SOCKET then
    assert_ (msg_length m =? 3) ;; assert_ (msg_extraCaps m =? 1) ;; serve_bind priority mr1 mr2
  else if opcode =? UDPSTACK_CONNECT_SOCKET then serve_connect
  else ret tt.

(** The thread up to its loop. *)
Definition stack_start (uninit : Z) : M stack_state unit :=
  let! mint := cspace_alloc_into uninit in
  modify (set_rx_mint mint) ;;
  assert_ (negb (mint =? seL4_CapNull)) ;;
  modify (set_receive_path mint).
End stack_c.
Arguments stack_state K : clear implicits.

(** ** When the kernel and lwIP have resources left

    [pcbs] and [threads]: how many more lwIP and the thread component can make;
    [ports]: those lwIP has bound.  A thread takes [thread_slots] slots. *)
Record stack_resources := Resources { pcbs : nat; threads : nat; ports : gset Z }.

(** - an endpoint takes a free slot; a copy between slots handed out succeeds;
    - udp_new succeeds while there are pcbs, udp_bind on a port not bound;
    - a mutex that exists can be locked; creating one succeeds;
    - creating a thread succeeds while there are threads and slots, starting
      one succeeds; nothing takes slots back. *)
Class StackEnvOk (K : Type) `{KernelOk K} {ENV : StackEnv K} := {
  res : K -> stack_resources;
  thread_slots : nat;
  cspace_alloc_res k : res (vka_cspace_alloc k).2 = res k;
  endpoint_ok k : (0 < room (cspace_of k))%nat ->
    let r := vka_alloc_endpoint_leaky k in
    r.1 ∉ slots k /\ 0 < r.1 < 2 ^ 32 /\ res r.2 = res k /\
    cspace_of r.2 = CSpace ({[r.1]} ∪ slots k) (pred (room (cspace_of k)));
  copy_ok d c k : d ∈ slots k -> c ∈ slots k ->
    let r := vka_cnode_copy d c k in r.1 = 0 /\ res r.2 = res k /\ cspace_of r.2 = cspace_of k;
  udp_new_ok k : (0 < pcbs (res k))%nat ->
    let r := udp_new k in r.1 <> 0 /\ cspace_of r.2 = cspace_of k /\
    res r.2 = Resources (pred (pcbs (res k))) (threads (res k)) (ports (res k));
  udp_recv_ok p a k : res (udp_recv p a k) = res k /\ cspace_of (udp_recv p a k) = cspace_of k;
  udp_bind_ok p a port k : 0 < port -> port ∉ ports (res k) ->
    let r := udp_bind p a port k in r.1 = ERR_OK /\ cspace_of r.2 = cspace_of k /\
    res r.2 = Resources (pcbs (res k)) (threads (res k)) ({[port]} ∪ ports (res k));
  stack_mutex_ok k : let r := sel4osapi_mutex_create k in
    r.1 <> NULL /\ res r.2 = res k /\ cspace_of r.2 = cspace_of k;
  lock_ok m k : let r := sel4osapi_mutex_lock m k in
    r.1 = 0 /\ res r.2 = res k /\ cspace_of r.2 = cspace_of k;
  unlock_ok m k : res (sel4osapi_mutex_unlock m k) = res k /\
    cspace_of (sel4osapi_mutex_unlock m k) = cspace_of k;
  thread_create_ok n f a p k : (0 < threads (res k))%nat -> (thread_slots <= room (cspace_of k))%nat ->
    let r := sel4osapi_thread_create n f a p k in
    r.1 <> 0 /\ slots k ⊆ slots r.2 /\ room (cspace_of r.2) = (room (cspace_of k) - thread_slots)%nat /\
    res r.2 = Resources (pcbs (res k)) (pred (threads (res k))) (ports (res k));
  thread_start_ok t k : let r := sel4osapi_thread_start t k in
    r.1 = 0 /\ res r.2 = res k /\ cspace_of r.2 = cspace_of k
}.


(** ** The pool of sockets *)

Section stack_spec.
Context {CFG : Config} {K : Type} {KER : Kernel K} {ENV : StackEnv K}.
Implicit Types (s : stack_state K) (p : pool_state sel4osapi_udp_socket_server_t).
Implicit Types (v : sel4osapi_udp_socket_server_t) (vs : list sel4osapi_udp_socket_server_t).

Lemma set_servers_id s : set_servers (socket_servers s) s = s.
Proof. by destruct s. Qed.

Lemma wp_read_server s free busy vs i x v (Q : _ -> _ -> Prop) :
  holds (socket_servers s) free busy vs -> busy !! i = Some x -> vs !! i = Some v ->
  Q v s -> wp (read_server (Some x.2)) Q s.
Proof.
  intros R Hx Hi HQ. unfold read_server, on_servers. apply wp_zoom.
  eapply holds_read; [done..|]. by rewrite set_servers_id.
Qed.

(** Writing a field of socket [i] in the middle of a request. *)
Lemma wp_upd_server s free busy vs i x v f (Q : unit -> _ -> Prop) :
  holds (socket_servers s) free busy (<[i := v]> vs) -> busy !! i = Some x ->
  (forall p, holds p free busy (<[i := f v]> vs) -> Q tt (set_servers p s)) ->
  wp (upd_server (Some x.2) f) Q s.
Proof.
  intros R Hx HQ. pose proof (holds_length _ _ _ _ R) as (Hl & _). rewrite length_insert in Hl.
  assert (Hi : <[i := v]> vs !! i = Some v).
  { apply list_lookup_insert_eq. apply lookup_lt_Some in Hx. lia. }
  unfold upd_server. wp_step. eapply wp_read_server; [done..|].
  unfold on_servers. apply wp_zoom. eapply holds_write; [done..|].
  intros p Hp. apply HQ. by rewrite list_insert_insert_eq in Hp.
Qed.

Lemma wp_alloc_server s free busy vs (Q : ptr -> _ -> Prop) :
  holds (socket_servers s) free busy vs ->
  (free = [] -> forall p, holds p free busy vs -> Q NULL (set_servers p s)) ->
  (forall x fr p v, free = x :: fr -> holds p fr (busy ++ [x]) (vs ++ [v]) ->
     Q (Some x.2) (set_servers p s)) ->
  wp (on_servers simple_pool_alloc) Q s.
Proof. intros R H1 H2. unfold on_servers. apply wp_zoom. by eapply holds_alloc. Qed.

Lemma wp_servers_size s free busy vs (Q : Z -> _ -> Prop) :
  holds (socket_servers s) free busy vs ->
  Q (Z.of_nat (length vs)) s -> wp (on_servers simple_pool_get_current_size) Q s.
Proof.
  intros R HQ. unfold on_servers. apply wp_zoom. eapply holds_size; [done|]. by rewrite set_servers_id.
Qed.

(** The search for a socket finds it, or keeps the one of the last request. *)
Lemma wp_find_socket s free busy vs k :
  holds (socket_servers s) free busy vs ->
  wp (find_socket k) (fun _ s' => s' = set_socket_server
    (a_search (fun scursor => sock_id (ss_socket scursor) =? k) id id busy vs (st_socket_server s)) s) s.
Proof.
  intros R. unfold find_socket. wp_steps. apply wp_peek. eapply holds_search; [done|]. by wp_step.
Qed.

(** Ids of the sockets. *)
Definition number v : Z := sock_id (ss_socket v).

Lemma numbers_nodup vs : number <$> vs = seqZ 1 (Z.of_nat (length vs)) -> NoDup (number <$> vs).
Proof. intros ->. apply NoDup_seqZ. Qed.

Lemma number_lookup vs i v : number <$> vs = seqZ 1 (Z.of_nat (length vs)) ->
  vs !! i = Some v -> number v = Z.of_nat i + 1.
Proof.
  intros Hids Hv. assert (H : (number <$> vs) !! i = Some (number v)) by (by rewrite list_lookup_fmap, Hv).
  rewrite Hids in H. apply lookup_seqZ in H. lia.
Qed.

(** *** Whatever the kernel answers *)

Lemma wlp_kcall {A} (f : K -> A * K) (Q : A -> _ -> Prop) s :
  (forall r k, Q r (set_kern k s)) -> wlp (kcall f) Q s.
Proof. intros HQ a s' [= <- <-]. apply HQ. Qed.

Lemma wlp_cspace_alloc_into (u : Z) (Q : Z -> _ -> Prop) s :
  (forall r k, Q r (set_kern k s)) -> wlp (cspace_alloc_into u) Q s.
Proof. intros HQ. unfold cspace_alloc_into. wlp_step. apply wlp_kcall. intros r k. wlp_step. apply HQ. Qed.

Lemma wlp_new_msgs (Q : _ -> _ -> Prop) s :
  (forall m n, Q (Some m) (set_arena n s)) -> wlp new_msgs Q s.
Proof.
  intros HQ a s'. unfold new_msgs.
  destruct (simple_pool_new _ _ _ _ _ _ _) as [[p h]| | |]; try done. intros [= <- <-]. apply HQ.
Qed.

Lemma wlp_peek {T A} (t : T) (m : M T A) (Q : A -> stack_state K -> Prop) s :
  (forall a, Q a s) -> wlp (peek t m) Q s.
Proof. intros HQ. unfold peek. apply wlp_zoom. intros a t' _. apply HQ. Qed.

(** What a socket is once its request has been served, and once it is bound. *)
Record socket_ok v : Prop := {
  so_client : is_Some (ss_client v);
  so_iface : is_Some (ss_iface v);
  so_pcb : udp_pcb v <> 0;
  so_tx : ep_tx_ready (ss_socket v) <> seL4_CapNull;
  so_tx_thread : tx_thread v <> 0;
  so_bound : sock_port (ss_socket v) <> 0 ->
    is_Some (ss_msgs v) /\ msgs_mutex v <> NULL /\ rx_thread v <> 0 /\
    aep_rx_data (ss_socket v) <> seL4_CapNull /\ ep_rx_ready (ss_socket v) <> seL4_CapNull
}.

Record stack_inv s free busy vs : Prop := {
  si_pool : holds (socket_servers s) free busy vs;
  si_ids : number <$> vs = seqZ 1 (Z.of_nat (length vs));
  si_ok : Forall socket_ok vs;
  si_current : forall l, st_socket_server s = Some l -> exists i x, busy !! i = Some x /\ l = x.2
}.

Definition stack_safe s : Prop := exists free busy vs, stack_inv s free busy vs.

Lemma seqZ_snoc n : 0 <= n -> seqZ 1 n ++ [n + 1] = seqZ 1 (n + 1).
Proof. intros Hn. rewrite seqZ_app by lia. f_equal. by rewrite (Z.add_comm 1 n). Qed.

Lemma wlp_upd_server s free busy vs i x v f (Q : unit -> _ -> Prop) :
  holds (socket_servers s) free busy (<[i := v]> vs) -> busy !! i = Some x ->
  (forall p, holds p free busy (<[i := f v]> vs) -> Q tt (set_servers p s)) ->
  wlp (upd_server (Some x.2) f) Q s.
Proof. intros. by eapply wlp_of_wp, wp_upd_server. Qed.

Lemma non_null_Some (p : ptr) : non_null p = true -> exists l, p = Some l.
Proof. unfold non_null. intros [l ->]%bool_decide_eq_true. by exists l. Qed.

Lemma negb_eqb_ne (a b : Z) : negb (a =? b) = true -> a <> b.
Proof. rewrite negb_true_iff. apply Z.eqb_neq. Qed.

(** The next write to the socket server, under a representation [R]. *)
Ltac wlp_write R Hx :=
  eapply wlp_upd_server; [exact R|exact Hx|]; clear R; intros ? R.
(** The result of a call just made is not NULL. *)
Ltac note_ne H' :=
  match goal with
  | H : negb (_ =? _) = true |- _ => apply negb_eqb_ne in H as H'; clear H
  | H : non_null ?p = true |- _ =>
      assert (p <> NULL) as H' by (apply non_null_Some in H as [? ->]; done); clear H
  end.

Lemma wlp_serve_create priority uninit mr1 mr2 s :
  stack_safe s -> wlp (serve_create priority uninit mr1 mr2) (fun _ => stack_safe) s.
Proof.
  intros (free & busy & vs & [R Hids Hok _]). unfold serve_create, find_client_number, find_iface, assert_error.
  wlp_steps. apply wlp_peek. intros c. wlp_steps. apply non_null_Some in Hassert as [lc Hc]. cbn in Hc. subst c.
  apply wlp_peek. intros i. wlp_steps. apply non_null_Some in Hassert as [li Hi]. cbn in Hi. subst i.
  eapply wlp_of_wp, wp_alloc_server; [exact R|..].
  { intros _ p _. do 2 wlp_step. cbn beta iota. wlp_step. by wlp_step. }
  intros x fr p v -> R1. destruct (holds_length _ _ _ _ R1) as (Hlen & _).
  rewrite !length_app in Hlen. cbn in Hlen. assert (Hlb : length busy = length vs) by lia.
  assert (Hx : (busy ++ [x]) !! length vs = Some x) by (rewrite <- Hlb; by apply list_lookup_middle).
  replace (vs ++ [v]) with (<[length vs := v]> (vs ++ [v])) in R1
    by (apply list_insert_id; by apply list_lookup_middle).
  wlp_steps. clear Hassert. wlp_write R1 Hx.
  wlp_step. apply wlp_kcall. intros pcb k1. wlp_step. wlp_write R1 Hx. wlp_steps. note_ne Hpcb.
  eapply wlp_of_wp, wp_servers_size; [exact R1|]. rewrite length_insert, length_app. cbn [length].
  wlp_step. wlp_write R1 Hx.
  wlp_step. apply wlp_kcall. intros ep k2. wlp_step. wlp_write R1 Hx. wlp_steps. note_ne Hep.
  apply wlp_kcall. intros tx k3. wlp_step. wlp_write R1 Hx. wlp_steps. note_ne Htx.
  wlp_write R1 Hx. wlp_step.
  apply wlp_cspace_alloc_into. intros mint k4. wlp_steps. apply wlp_kcall. intros e k5. wlp_steps.
  apply wlp_kcall. intros e' k6. wlp_steps.
  exists fr, (busy ++ [x]), (vs ++ [UdpSocketServer (Some li) (UdpSocket (Z.of_nat (length vs + 1)) mr2 0 ep 0 0)
    pcb (Some lc) tx 0 NULL None]). split.
  - cbn in R1 |- *. by rewrite insert_app_r_alt, Nat.sub_diag in R1 by done.
  - rewrite fmap_app, Hids, length_app. cbn. rewrite !Nat2Z.inj_add. apply seqZ_snoc. lia.
  - apply Forall_app. split; [done|]. constructor; [|constructor]. by split.
  - cbn. intros l [= <-]. by exists (length vs), x.
Qed.

Lemma wlp_serve_bind priority mr1 mr2 s :
  stack_safe s -> wlp (serve_bind priority mr1 mr2) (fun _ => stack_safe) s.
Proof.
  intros (free & busy & vs & [R Hids Hok Hcur]). unfold serve_bind, assert_error.
  wlp_step. eapply wlp_of_wp. eapply wp_mono; [by apply (wp_find_socket s free busy vs)|].
  intros [] s1 ->. wlp_steps. apply non_null_Some in Hassert as [l Hl]. cbn in Hl.
  destruct (holds_length _ _ _ _ R) as (Hlen & _).
  assert (exists i x, busy !! i = Some x /\ l = x.2) as (i & x & Hx & ->).
  { edestruct (a_search_in (E := sel4osapi_udp_socket_server_t)) as [H|(i & y & v & H & Hy & _)]; rewrite H in Hl.
    - by apply Hcur.
    - injection Hl as <-. by exists i, y. }
  rewrite Hl. clear Hl. destruct (lookup_lt_is_Some_2 vs i) as [v Hv]; [apply lookup_lt_Some in Hx; lia|].
  pose proof (proj1 (Forall_lookup _ _) Hok i v Hv) as Hvok.
  eapply wlp_of_wp, wp_read_server; [exact R|exact Hx|exact Hv|]. wlp_steps.
  assert (Hids' : forall w, number w = number v -> number <$> <[i := w]> vs = seqZ 1 (Z.of_nat (length vs))).
  { intros w Hw. rewrite list_fmap_insert, list_insert_id; [done|]. by rewrite list_lookup_fmap, Hv, Hw. }
  pose proof R as R1. rewrite <- (list_insert_id vs i v Hv) in R1.
  apply wlp_new_msgs. intros m n. wlp_step. wlp_write R1 Hx.
  wlp_step. apply wlp_kcall. intros mutex k1. wlp_step. wlp_write R1 Hx. wlp_steps. note_ne Hmutex.
  apply wlp_kcall. intros rx k2. wlp_step. wlp_write R1 Hx. wlp_steps. note_ne Hrx. wlp_write R1 Hx.
  wlp_steps. wlp_write R1 Hx. wlp_steps. note_ne Haep.
  apply wlp_kcall. intros ep k3. wlp_step. wlp_write R1 Hx. wlp_steps. note_ne Hep.
  apply wlp_cspace_alloc_into. intros mint k4. wlp_steps. apply wlp_kcall. intros e k5. wlp_steps.
  apply wlp_peek. intros ifc. wlp_steps. apply wlp_kcall. intros e1 k6. wlp_steps. unfold kdo. wlp_steps.
  apply wlp_kcall. intros e2 k7. wlp_steps. apply wlp_kcall. intros e3 k8. wlp_steps.
  apply wlp_cspace_alloc_into. intros mint' k9. wlp_steps.
  exists free, busy. eexists. split; [exact R1| | |].
  - rewrite length_insert. by apply Hids'.
  - apply Forall_insert; [done|]. destruct Hvok. by split.
  - cbn. intros l [= <-]. by exists i, x.
Qed.

Lemma wlp_stack_step priority uninit m s :
  stack_safe s -> wlp (stack_step priority uninit m) (fun _ => stack_safe) s.
Proof.
  intros Hs. unfold stack_step. wlp_steps.
  destruct (_ =? UDPSTACK_CREATE_SOCKET); [wlp_steps; by apply wlp_serve_create|].
  destruct (_ =? UDPSTACK_BIND_SOCKET); [wlp_steps; by apply wlp_serve_bind|].
  destruct (_ =? UDPSTACK_CONNECT_SOCKET); [unfold serve_connect; wlp_steps|by wlp_steps].
  destruct Hs as (free & busy & vs & [R Hids Hok Hcur]). exists free, busy, vs. by split.
Qed.

(** The states of the server: from a pool of no sockets, any requests, and at
    any time the rest of the system may change its state ([kern]), its clients
    and its interfaces. *)
Inductive stack_reach (priority : Z) : stack_state K -> Prop :=
| sr_initial s free : holds (socket_servers s) free [] [] -> st_socket_server s = NULL ->
    stack_reach priority s
| sr_step uninit m s s' : stack_reach priority s -> stack_step priority uninit m s = Done (tt, s') ->
    stack_reach priority s'
| sr_rest k cl ni s : stack_reach priority s ->
    stack_reach priority (StackState (socket_servers s) cl ni (st_socket_server s) (st_client s) (st_iface s)
      (st_error s) (rx_ready_ep_mint s) (receive_path s) (arena s) k (stack_replies s)).

Lemma stack_reach_safe priority s : stack_reach priority s -> stack_safe s.
Proof.
  induction 1 as [s free R Hc|uninit m s s' _ IH Hrun|k cl ni s _ (free & busy & vs & [R Hids Hok Hcur])].
  - exists free, [], []. split; [done|done|constructor|]. rewrite Hc. done.
  - eapply wlp_stack_step; done.
  - exists free, busy, vs. by split.
Qed.

(** C22: in every reachable state of the socket server, whatever requests it
    has served and whatever the kernel, lwIP and the other threads have done,
    the sockets are numbered 1, 2, ... in order of creation and never more than
    the pool holds; each has its client, interface, pcb, tx endpoint and tx
    thread; and a socket with a port has its packet pool, mutex, rx thread,
    notification and rx endpoint. *)
Theorem udp_sockets_wellformed priority s :
  stack_reach priority s ->
  exists free busy vs, holds (socket_servers s) free busy vs /\
    number <$> vs = seqZ 1 (Z.of_nat (length vs)) /\
    Z.of_nat (length vs) <= pool_size (pool (socket_servers s)) /\ Forall socket_ok vs.
Proof.
  intros (free & busy & vs & [R Hids Hok _])%stack_reach_safe. exists free, busy, vs.
  destruct (holds_length _ _ _ _ R) as (_ & _ & _ & Hs). split_and!; [done..| |done]. lia.
Qed.

Context {KOK : KernelOk K} {EOK : StackEnvOk K}.

Lemma wp_kcall {A} (f : K -> A * K) (Q : A -> _ -> Prop) s :
  Q (f (kern s)).1 (set_kern (f (kern s)).2 s) -> wp (kcall f) Q s.
Proof. intros HQ. by eexists _, _. Qed.

Lemma wp_kdo (f : K -> K) (Q : unit -> _ -> Prop) s :
  Q tt (set_kern (f (kern s)) s) -> wp (kdo f) Q s.
Proof. intros HQ. by eexists _, _. Qed.

(** A slot is available: it is new, and the rest of the kernel stays. *)
Lemma wp_cspace_alloc_into u (Q : Z -> stack_state K -> Prop) s :
  (0 < room (cspace_of (kern s)))%nat ->
  (forall c k, c ∉ slots (kern s) -> 0 < c < 2 ^ 32 -> res k = res (kern s) ->
     cspace_of k = CSpace ({[c]} ∪ slots (kern s)) (pred (room (cspace_of (kern s)))) ->
     Q c (set_kern k s)) ->
  wp (cspace_alloc_into u) Q s.
Proof.
  intros Hroom HQ. destruct (cspace_alloc_ok _ Hroom) as (c & k' & Heq & Hc & Hr & Hk').
  pose proof (cspace_alloc_res (kern s)) as Hres. rewrite Heq in Hres. cbn in Hres.
  unfold cspace_alloc_into. wp_step. apply wp_kcall. rewrite Heq. cbn. wp_step. by apply HQ.
Qed.

Lemma ne_negb_eqb (a b : Z) : a <> b -> negb (a =? b) = true.
Proof. intros H. by rewrite (proj2 (Z.eqb_neq a b) H). Qed.

(** *** The interface of an address *)

Definition serves_addr (addr : Z) (w : sel4osapi_netvface_t) : bool := (addr =? 0) || (ip_addr w =? addr).

(** The last interface with a virtual interface for [addr], or [acc]. *)
Fixpoint pick_iface (addr : Z) (busy : list (loc * loc)) (vfs : list (list sel4osapi_netvface_t)) (acc : ptr) : ptr :=
  match busy, vfs with
  | y :: busy, vf :: vfs =>
      pick_iface addr busy vfs (if existsb (serves_addr addr) vf then Some y.2 else acc)
  | _, _ => acc
  end.

Definition vfaces_hold (i : sel4osapi_netiface_t) (vf : list sel4osapi_netvface_t) : Prop :=
  exists free busy, holds (vfaces i) free busy vf.

Lemma a_search_exists {E X} (pred : E -> bool) (x acc : X) (busy : list (loc * loc)) l :
  length busy = length l ->
  a_search pred (fun _ => x) id busy l acc = if existsb pred l then x else acc.
Proof.
  revert busy. induction l as [|c l IH]; intros [|y busy] Hl; try done. cbn.
  destruct (pred c); [done|]. by apply IH; injection Hl.
Qed.

Lemma wp_find_iface addr s free busy ifs vfs :
  holds (net_ifaces s) free busy ifs -> Forall2 vfaces_hold ifs vfs ->
  wp (find_iface addr) (fun _ s' => s' = set_iface (pick_iface addr busy vfs (st_iface s)) s) s.
Proof.
  intros [(vals & R & Hv)] Hvf. unfold find_iface. wp_steps. apply wp_peek. wp_steps.
  eapply (wp_while (fun n (x : ptr * ptr) ps => ps = net_ifaces s /\ exists b1 b2 i2 w2,
    busy = b1 ++ b2 /\ vals_along vals b2 i2 /\ Forall2 vfaces_hold i2 w2 /\ x.1 = first NULL b2.*1 /\
    n = length b2 /\ pick_iface addr busy vfs (st_iface s) = pick_iface addr b2 w2 x.2)).
  - intros n [cur acc] ps (-> & b1 & b2 & i2 & w2 & Hb & Hw2 & Hvf2 & Hcur & -> & Hpick) Hc.
    cbn in Hcur, Hc. subst cur. destruct b2 as [|y b2]; [done|]. exists (length b2). split; [done|].
    apply Forall2_cons_inv_l in Hw2 as (i & i2' & Hy & Hw2 & ->).
    apply Forall2_cons_inv_l in Hvf2 as (vf & w2' & (fv & bv & Hhold) & Hvf2 & ->).
    destruct (rep_busy_entry _ _ b1 y b2 R Hb) as (nd & w & Hnd & Hel & Hnx & Hva & Hcell).
    cbn in Hva. rewrite Hy in Hva. injection Hva as <-.
    unfold find_iface_body. wp_step. eapply wp_mem_read_node; [done|exact Hnd|].
    wp_step. eapply wp_mem_read_cell; [exact Hel|exact Hcell|]. wp_step. apply wp_peek.
    eapply holds_search; [exact Hhold|]. wp_step. split; [done|].
    exists (b1 ++ [y]), b2, i2', w2'. rewrite <- app_assoc. split_and!; try done.
    cbn. rewrite Hpick. cbn. rewrite a_search_exists by apply (holds_length _ _ _ _ Hhold). by rewrite Hel.
  - intros n x ps (-> & b1 & b2 & i2 & w2 & _ & _ & _ & Hcur & _ & Hpick) Hc. wp_steps. rewrite Hpick.
    destruct b2; [done|]. by rewrite Hcur in Hc.
  - split; [done|]. cbn. exists [], busy, ifs, vfs. split_and!; try done.
    apply (dlist_first _ _ _ (rep_busy _ _ R)).
  - pose proof (dlist_fuel _ _ _ (rep_busy _ _ R)) as Hf. by rewrite length_fmap in Hf.
Qed.

Lemma wp_find_client_number s free busy cs k :
  holds (ipc_clients s) free busy cs ->
  wp (find_client_number k) (fun _ s' => s' = set_client
    (a_search (fun c => ic_id c =? k) id id busy cs (st_client s)) s) s.
Proof.
  intros R. unfold find_client_number. wp_steps. apply wp_peek. eapply holds_search; [done|]. by wp_step.
Qed.

(** What serving a create request changes: the socket [v] is added at [x]. *)
Record created s s' (free busy : list (loc * loc)) vs (x : loc * loc) v (mint : Z) : Prop := {
  ce_servers : holds (socket_servers s') free (busy ++ [x]) (vs ++ [v]);
  ce_reply : stack_replies s' = stack_replies s ++ [([0; number v], Some mint)];
  ce_fresh : ep_tx_ready (ss_socket v) ∉ slots (kern s) /\ mint ∉ slots (kern s) /\
    ep_tx_ready (ss_socket v) <> mint /\ ep_tx_ready (ss_socket v) <> 0 /\ mint <> 0;
  ce_handles : udp_pcb v <> 0 /\ tx_thread v <> 0;
  ce_locals : st_socket_server s' = Some x.2 /\ st_client s' = ss_client v /\ st_iface s' = ss_iface v /\
    rx_ready_ep_mint s' = rx_ready_ep_mint s /\ receive_path s' = receive_path s /\ arena s' = arena s /\
    st_error s' = 0;
  ce_pools : ipc_clients s' = ipc_clients s /\ net_ifaces s' = net_ifaces s;
  ce_room : room (cspace_of (kern s')) = (room (cspace_of (kern s)) - thread_slots - 2)%nat /\
    slots (kern s) ⊆ slots (kern s');
  ce_res : res (kern s') =
    Resources (pred (pcbs (res (kern s)))) (pred (threads (res (kern s)))) (ports (res (kern s)))
}.

Ltac wp_write R Hx :=
  eapply wp_upd_server; [exact R|exact Hx|]; clear R; intros ? R.

(** Calls of the kernel, with what they leave. *)
Lemma wp_new_endpoint (Q : Z -> stack_state K -> Prop) s : (0 < room (cspace_of (kern s)))%nat ->
  (forall ep k, ep ∉ slots (kern s) -> 0 < ep < 2 ^ 32 -> res k = res (kern s) ->
     cspace_of k = CSpace ({[ep]} ∪ slots (kern s)) (pred (room (cspace_of (kern s)))) -> Q ep (set_kern k s)) ->
  wp (kcall vka_alloc_endpoint_leaky) Q s.
Proof. intros Hr HQ. destruct (endpoint_ok (kern s) Hr) as (H1 & H2 & H3 & H4). apply wp_kcall. by apply HQ. Qed.

Lemma wp_new_thread n f a priority (Q : Z -> stack_state K -> Prop) s : (0 < threads (res (kern s)))%nat -> (thread_slots <= room (cspace_of (kern s)))%nat ->
  (forall t k, t <> 0 -> slots (kern s) ⊆ slots k -> room (cspace_of k) = (room (cspace_of (kern s)) - thread_slots)%nat ->
     res k = Resources (pcbs (res (kern s))) (pred (threads (res (kern s)))) (ports (res (kern s))) -> Q t (set_kern k s)) ->
  wp (kcall (sel4osapi_thread_create n f a priority)) Q s.
Proof. intros Ht Hr HQ. destruct (thread_create_ok n f a priority (kern s) Ht Hr) as (H1 & H2 & H3 & H4). apply wp_kcall. by apply HQ. Qed.

(** A call whose error code is stored and must be 0. *)
Lemma wp_no_error {A} (f : K -> Z * K) (rest : Z -> M (stack_state K) A) (Q : A -> stack_state K -> Prop) s :
  (let r := f (kern s) in r.1 = 0 /\ res r.2 = res (kern s) /\ cspace_of r.2 = cspace_of (kern s)) ->
  (forall k, res k = res (kern s) -> cspace_of k = cspace_of (kern s) -> wp (rest 0) Q (set_error 0 (set_kern k s))) ->
  wp (let! error := kcall f in modify (set_error error) ;; assert_error ;; rest error) Q s.
Proof.
  intros (He & Hr & Hk) HQ. unfold assert_error. wp_step. apply wp_kcall. rewrite He. wp_steps. by apply HQ.
Qed.

Lemma wp_no_error_last (f : K -> Z * K) (Q : unit -> stack_state K -> Prop) s :
  (let r := f (kern s) in r.1 = 0 /\ res r.2 = res (kern s) /\ cspace_of r.2 = cspace_of (kern s)) ->
  (forall k, res k = res (kern s) -> cspace_of k = cspace_of (kern s) -> Q tt (set_error 0 (set_kern k s))) ->
  wp (let! error := kcall f in modify (set_error error) ;; assert_error) Q s.
Proof.
  intros (He & Hr & Hk) HQ. unfold assert_error. wp_step. apply wp_kcall. rewrite He. wp_steps. by apply HQ.
Qed.

Lemma wp_serve_create priority uninit mr1 mr2 s x free busy vs fc bc cs c fi bi ifs vfs ifc :
  holds (socket_servers s) (x :: free) busy vs -> Z.of_nat (length vs) + 1 < 2 ^ 32 ->
  holds (ipc_clients s) fc bc cs ->
  a_search (fun c => ic_id c =? s32 mr1) id id bc cs (st_client s) = Some c ->
  holds (net_ifaces s) fi bi ifs -> Forall2 vfaces_hold ifs vfs ->
  pick_iface mr2 bi vfs (st_iface s) = Some ifc ->
  (0 < pcbs (res (kern s)))%nat -> (0 < threads (res (kern s)))%nat ->
  (thread_slots + 2 <= room (cspace_of (kern s)))%nat ->
  wp (serve_create priority uninit mr1 mr2) (fun _ s' => exists pcb ep tx mint,
    created s s' free busy vs x
      (UdpSocketServer (Some ifc) (UdpSocket (Z.of_nat (length vs) + 1) mr2 0 ep 0 0) pcb (Some c) tx 0 NULL None)
      mint) s.
Proof.
  intros R Hmax Rc Hc Ri Hvf Hi Hpcb Hth Hroom. unfold serve_create.
  wp_step. eapply wp_mono; [apply (wp_find_client_number s fc bc cs _ Rc)|]. intros [] ? ->. rewrite Hc. wp_steps.
  eapply wp_mono; [apply (wp_find_iface mr2 (set_client (Some c) s) fi bi ifs vfs Ri Hvf)|]. intros [] ? ->. cbn [st_iface set_client]. rewrite Hi. wp_steps.
  eapply wp_alloc_server; [exact R|done|]. intros x' fr p v [= <- <-] R1.
  pose proof (holds_length _ _ _ _ R) as (Hlb & _).
  assert (Hx : (busy ++ [x]) !! length vs = Some x) by (rewrite <- Hlb; by apply list_lookup_middle).
  replace (vs ++ [v]) with (<[length vs := v]> (vs ++ [v])) in R1
    by (apply list_insert_id; by apply list_lookup_middle).
  wp_steps. wp_write R1 Hx.
  destruct (udp_new_ok (kern s) Hpcb) as (Hpcb' & Hk1 & Hr1).
  wp_step. apply wp_kcall. cbn [kern set_servers set_iface set_client set_socket_server].
  set (k1 := (udp_new (kern s)).2) in *. wp_step. wp_write R1 Hx. wp_step. apply wp_assert; [by apply ne_negb_eqb|].
  wp_step. eapply wp_servers_size; [exact R1|]. rewrite length_insert, length_app. cbn [length].
  wp_step. wp_write R1 Hx. wp_step. apply wp_new_endpoint; [cbn; rewrite Hk1; lia|].
  intros ep k2 Hep Hep0 Hr2 Hk2. cbn [kern set_servers set_kern] in Hep, Hr2, Hk2. rewrite Hk1 in Hep, Hk2. rewrite Hr1 in Hr2.
  wp_step. wp_write R1 Hx. wp_step. apply wp_assert; [apply ne_negb_eqb; unfold seL4_CapNull; lia|].
  wp_step. apply wp_new_thread; [cbn; by rewrite Hr2|cbn; rewrite Hk2; cbn; lia|].
  intros tx k3 Htx Hsub Hk3 Hr3. cbn [kern set_servers set_kern] in Hsub, Hk3, Hr3. rewrite Hr2 in Hr3. rewrite Hk2 in Hsub, Hk3.
  wp_step. wp_write R1 Hx. wp_step. apply wp_assert; [by apply ne_negb_eqb|]. wp_step. wp_write R1 Hx.
  wp_step. apply wp_cspace_alloc_into; [cbn; rewrite Hk3; cbn; lia|].
  intros mint k4 Hmint Hm0 Hr4 Hk4. cbn [kern set_servers set_kern] in Hmint, Hr4, Hk4.
  wp_step. apply wp_assert; [apply ne_negb_eqb; unfold seL4_CapNull; lia|].
  apply wp_no_error; [apply copy_ok; cbn; rewrite Hk4; set_solver|]. intros k5 Hr5 Hk5. cbn in Hr5, Hk5.
  wp_step. wp_step. cbn beta iota. apply wp_no_error_last; [apply thread_start_ok|]. intros k6 Hr6 Hk6. cbn in Hr6, Hk6.
  exists (udp_new (kern s)).1, ep, tx, mint. split.
  - cbn in R1 |- *. rewrite insert_app_r_alt, Nat.sub_diag in R1 by done. cbn in R1.
    by rewrite Nat2Z.inj_add in R1.
  - cbn. rewrite (u32_small (Z.of_nat (length vs + 1))) by (unfold is_u32; lia). by rewrite Nat2Z.inj_add.
  - cbn. split_and!; [done|set_solver|set_solver|lia|lia].
  - done.
  - cbn. by split_and!.
  - done.
  - cbn. rewrite Hk6, Hk5, Hk4. cbn. rewrite Hk3. cbn. split; [lia|set_solver].
  - cbn. by rewrite Hr6, Hr5, Hr4, Hr3.
Qed.

Lemma wp_new_msgs (Q : _ -> _ -> Prop) s :
  pool_bytes SEL4OSAPI_UDP_MAX_MSGS_PER_CLIENT sizeof_udp_message <= arena s ->
  (forall m fr n, holds m fr [] [] -> Z.of_nat (length fr) = SEL4OSAPI_UDP_MAX_MSGS_PER_CLIENT ->
     Q (Some m) (set_arena n s)) ->
  wp new_msgs Q s.
Proof.
  intros Hmem HQ.
  assert (Hwf : heap_wf (Heap 1 (arena s) ∅ ∅ ∅ : heap sel4osapi_udp_message_t)).
  { split; cbn; try (intros l [? Hl]; done). etransitivity; [|exact Hmem]. by vm_compute. }
  destruct (wp_pool_new (init := None) (cmp := None) SEL4OSAPI_UDP_MAX_MSGS_PER_CLIENT sizeof_udp_message
    NULL (UdpMessage None 0 0) _ Hwf) as (p & h & Hr & fr & Hl & _ & R & _); [done|done|exact Hmem|].
  assert (Hh : holds (PoolState p h) fr [] []) by (split; exists (cells h); split; [exact R|constructor]).
  assert (Hn : new_msgs s = Done (Some (PoolState p h), set_arena (avail h) s)) by (unfold new_msgs; by rewrite Hr).
  eapply wp_eq; [exact Hn|]. apply (HQ _ fr); [exact Hh|]. rewrite Hl. by rewrite Z2Nat.id.
Qed.

(** What serving a bind request does to socket [i], [v] before and [w] after. *)
Record bound s s' (free busy : list (loc * loc)) vs (i : nat) v w (port mint : Z) : Prop := {
  bd_servers : holds (socket_servers s') free busy (<[i := w]> vs);
  bd_same : (ss_iface w, udp_pcb w, ss_client w, tx_thread w) = (ss_iface v, udp_pcb v, ss_client v, tx_thread v);
  bd_socket : exists ep, ss_socket w = UdpSocket (number v) (sock_addr (ss_socket v)) port
                (ep_tx_ready (ss_socket v)) ep (rx_ready_ep_mint s) /\ ep ∉ slots (kern s) /\ ep <> 0;
  bd_msgs : exists m fr, ss_msgs w = Some m /\ holds m fr [] [] /\
              Z.of_nat (length fr) = SEL4OSAPI_UDP_MAX_MSGS_PER_CLIENT;
  bd_handles : rx_thread w <> 0 /\ msgs_mutex w <> NULL;
  bd_reply : stack_replies s' = stack_replies s ++ [([0], Some mint)];
  bd_path : receive_path s' = rx_ready_ep_mint s' /\ rx_ready_ep_mint s' ∉ slots (kern s) /\
              rx_ready_ep_mint s' <> 0;
  bd_mint : mint ∉ slots (kern s) /\ mint <> 0 /\ mint <> ep_rx_ready (ss_socket w) /\ mint <> rx_ready_ep_mint s';
  bd_ports : ports (res (kern s')) = {[port]} ∪ ports (res (kern s))
}.

(** The socket is bound in lwIP, under the mutex of the interface. *)
Lemma wp_lock_and_bind {A} ifc v port (l : ptr) (rest : Z -> M (stack_state K) A) (Q : A -> stack_state K -> Prop) s :
  0 < port -> port ∉ ports (res (kern s)) ->
  (forall k, cspace_of k = cspace_of (kern s) ->
     res k = Resources (pcbs (res (kern s))) (threads (res (kern s))) ({[port]} ∪ ports (res (kern s))) ->
     wp (rest 0) Q (set_error 0 (set_kern k s))) ->
  wp (let! error := kcall (sel4osapi_mutex_lock (iface_mutex ifc)) in
      modify (set_error error) ;;
      assert_error ;;
      kdo (udp_recv (udp_pcb v) l) ;;
      let! error := kcall (udp_bind (udp_pcb v) (sock_addr (ss_socket v)) port) in
      modify (set_error error) ;;
      assert_ (error =? ERR_OK) ;;
      kdo (sel4osapi_mutex_unlock (iface_mutex ifc)) ;;
      rest error) Q s.
Proof.
  intros Hp0 Hp HQ. apply wp_no_error; [apply lock_ok|]. intros k1 Hr1 Hk1. wp_step. apply wp_kdo.
  wp_step. apply wp_kcall. cbn [kern set_kern set_error].
  destruct (udp_recv_ok (udp_pcb v) l k1) as (Hr2 & Hk2). set (k2 := udp_recv (udp_pcb v) l k1) in *.
  destruct (udp_bind_ok (udp_pcb v) (sock_addr (ss_socket v)) port k2) as (He3 & Hk3 & Hr3); [done|by rewrite Hr2, Hr1|].
  set (k3 := (udp_bind (udp_pcb v) (sock_addr (ss_socket v)) port k2).2) in *. rewrite He3.
  wp_step. wp_step. cbn beta iota. wp_step. apply wp_assert; [done|]. wp_step. apply wp_kdo. cbn [kern set_kern set_error].
  destruct (unlock_ok (iface_mutex ifc) k3) as (Hr4 & Hk4). apply (HQ (sel4osapi_mutex_unlock (iface_mutex ifc) k3)); [by rewrite Hk4, Hk3, Hk2, Hk1|by rewrite Hr4, Hr3, Hr2, Hr1].
Qed.

Lemma wp_serve_bind priority mr1 mr2 s free busy vs i x v fi bi ifs j y ifc :
  holds (socket_servers s) free busy vs ->
  a_search (fun scursor => sock_id (ss_socket scursor) =? s32 mr1) id id busy vs (st_socket_server s) = Some x.2 ->
  busy !! i = Some x -> vs !! i = Some v -> sock_port (ss_socket v) = 0 ->
  holds (net_ifaces s) fi bi ifs -> bi !! j = Some y -> ifs !! j = Some ifc -> ss_iface v = Some y.2 ->
  pool_bytes SEL4OSAPI_UDP_MAX_MSGS_PER_CLIENT sizeof_udp_message <= arena s ->
  (0 < threads (res (kern s)))%nat -> (thread_slots + 3 <= room (cspace_of (kern s)))%nat ->
  rx_ready_ep_mint s <> 0 -> 0 < u16 mr2 -> u16 mr2 ∉ ports (res (kern s)) ->
  wp (serve_bind priority mr1 mr2) (fun _ s' => exists w mint, bound s s' free busy vs i v w (u16 mr2) mint) s.
Proof.
  intros R Hfind Hx Hv Hport Ri Hy Hifc Hvi Hmem Hth Hroom Hrx Hp0 Hp. unfold serve_bind.
  wp_step. eapply wp_mono; [by apply (wp_find_socket s free busy vs)|]. intros [] ? ->. rewrite Hfind.
  wp_steps. cbn [st_socket_server set_socket_server]. eapply wp_read_server; [exact R|exact Hx|exact Hv|]. wp_step. apply wp_assert; [by apply Z.eqb_eq|].
  pose proof R as R1. rewrite <- (list_insert_id vs i v Hv) in R1.
  wp_step. apply wp_new_msgs; [done|]. intros m fr n Hm Hfr. wp_step. wp_write R1 Hx.
  wp_step. apply wp_kcall. cbn [kern set_servers set_arena set_socket_server].
  destruct (stack_mutex_ok (kern s)) as (Hmu & Hr1 & Hk1).
  set (k1 := (sel4osapi_mutex_create (kern s)).2) in *. wp_step. wp_write R1 Hx.
  wp_step. apply wp_assert; [by destruct (sel4osapi_mutex_create (kern s)).1|].
  wp_step. apply wp_new_thread; [cbn; by rewrite Hr1|cbn; rewrite Hk1; lia|].
  intros tx k2 Htx Hsub Hk2 Hr2. cbn [kern set_servers set_kern] in Hsub, Hk2, Hr2. rewrite Hr1 in Hr2. rewrite Hk1 in Hsub, Hk2.
  wp_step. wp_write R1 Hx. wp_step. apply wp_assert; [by apply ne_negb_eqb|]. wp_step. wp_write R1 Hx.
  wp_steps. wp_write R1 Hx. wp_step. apply wp_assert; [by apply ne_negb_eqb|].
  wp_step. apply wp_new_endpoint; [cbn; lia|]. intros ep k3 Hep Hep0 Hr3 Hk3. cbn [kern set_servers set_kern] in Hep, Hr3, Hk3.
  wp_step. wp_write R1 Hx. wp_step. apply wp_assert; [apply ne_negb_eqb; unfold seL4_CapNull; lia|].
  wp_step. apply wp_cspace_alloc_into; [cbn; rewrite Hk3; cbn; lia|].
  intros mint k4 Hmint Hm0 Hr4 Hk4. cbn [kern set_servers set_kern] in Hmint, Hr4, Hk4. rewrite Hk3 in Hmint, Hk4. cbn in Hmint, Hk4.
  wp_step. wp_step. cbn beta iota. wp_step. apply wp_assert; [apply ne_negb_eqb; unfold seL4_CapNull; lia|].
  apply wp_no_error; [apply copy_ok; cbn; rewrite Hk4; set_solver|]. intros k5 Hr5 Hk5. cbn in Hr5, Hk5.
  wp_step. rewrite Hvi. apply wp_peek. eapply holds_read; [exact Ri|exact Hy|exact Hifc|].
  apply wp_lock_and_bind; [done|cbn; by rewrite Hr5, Hr4, Hr3, Hr2|]. intros k6 Hk6 Hr6. cbn in Hk6, Hr6.
  wp_step. wp_step. cbn beta iota. apply wp_no_error; [apply thread_start_ok|]. intros k7 Hr7 Hk7. cbn in Hr7, Hk7.
  wp_step. apply wp_cspace_alloc_into; [cbn; rewrite Hk7, Hk6, Hk5, Hk4; cbn; lia|].
  intros mint' k8 Hmint' Hm0' Hr8 Hk8. cbn in Hmint', Hr8. rewrite Hk7, Hk6, Hk5, Hk4 in Hmint'. cbn in Hmint'.
  wp_step. wp_step. cbn beta iota. wp_step. apply wp_assert; [apply ne_negb_eqb; unfold seL4_CapNull; lia|]. wp_step.
  eexists _, mint. split.
  - exact R1.
  - done.
  - exists ep. split; [done|]. split; [set_solver|lia].
  - by exists m, fr.
  - done.
  - done.
  - cbn. split_and!; [done|set_solver|lia].
  - cbn. split_and!; [set_solver|lia|set_solver|set_solver].
  - cbn. by rewrite Hr8, Hr7, Hr6, Hr5, Hr4, Hr3, Hr2.
Qed.

(** An interface that serves the address is picked, from among the interfaces. *)
Lemma pick_iface_in addr (busy : list (loc * loc)) vfs acc :
  length busy = length vfs -> is_Some acc \/ Exists (fun vf => existsb (serves_addr addr) vf = true) vfs ->
  is_Some (pick_iface addr busy vfs acc).
Proof.
  revert vfs acc. induction busy as [|y busy IH]; intros [|vf vfs] acc Hl H; try done; cbn.
  - destruct H as [H|H]; [done|inversion H].
  - apply IH; [by injection Hl|]. destruct (existsb (serves_addr addr) vf) eqn:He; [by left|].
    destruct H as [H|H]; [by left|right]. inversion H; [congruence|done].
Qed.

(** Then what the server's variable held before does not matter. *)
Lemma pick_iface_serves addr (busy : list (loc * loc)) vfs acc acc' :
  length busy = length vfs -> Exists (fun vf => existsb (serves_addr addr) vf = true) vfs ->
  pick_iface addr busy vfs acc = pick_iface addr busy vfs acc'.
Proof.
  revert vfs acc acc'. induction busy as [|y busy IH]; intros [|vf vfs] acc acc' Hl H; try done; cbn; [inversion H|].
  injection Hl as Hl. destruct (existsb (serves_addr addr) vf) eqn:He; [done|].
  apply IH; [done|]. inversion H; [congruence|done].
Qed.

Lemma pick_iface_entry addr (busy : list (loc * loc)) vfs acc l :
  pick_iface addr busy vfs acc = Some l -> acc = Some l \/ exists j y, busy !! j = Some y /\ l = y.2.
Proof.
  revert vfs acc. induction busy as [|y busy IH]; intros [|vf vfs] acc H; cbn in H; try (by left).
  apply IH in H as [H|(j & y' & Hy & ->)]; [|right; by exists (S j), y'].
  destruct (existsb (serves_addr addr) vf); [|by left]. injection H as <-. right. by exists 0%nat, y.
Qed.

(** *** One request *)

Lemma stack_step_create priority uninit m s (Q : _ -> _ -> Prop) :
  msg_length m = 3 -> getMR 0 m = UDPSTACK_CREATE_SOCKET ->
  wp (serve_create priority uninit (u32 (getMR 1 m)) (u32 (getMR 2 m))) Q s -> wp (stack_step priority uninit m) Q s.
Proof.
  intros Hl H0 H. unfold stack_step. rewrite Hl, H0. wp_step. apply wp_assert; [done|].
  change (s32 (u32 UDPSTACK_CREATE_SOCKET) =? UDPSTACK_CREATE_SOCKET) with true. cbn iota.
  wp_step. by apply wp_assert.
Qed.

Lemma stack_step_bind priority uninit m s (Q : _ -> _ -> Prop) :
  msg_length m = 3 -> msg_extraCaps m = 1 -> getMR 0 m = UDPSTACK_BIND_SOCKET ->
  wp (serve_bind priority (u32 (getMR 1 m)) (u32 (getMR 2 m))) Q s -> wp (stack_step priority uninit m) Q s.
Proof.
  intros Hl Hc H0 H. unfold stack_step. rewrite Hl, H0, Hc. wp_step. apply wp_assert; [done|].
  change (s32 (u32 UDPSTACK_BIND_SOCKET) =? UDPSTACK_CREATE_SOCKET) with false.
  change (s32 (u32 UDPSTACK_BIND_SOCKET) =? UDPSTACK_BIND_SOCKET) with true. cbn iota.
  wp_step. apply wp_assert; [done|]. wp_step. by apply wp_assert.
Qed.

(** What is unknown to the server is taken for what the last request named. *)
Definition stale_found (busy : list (loc * loc)) vs (socket_id : Z) (last : ptr) : Prop :=
  socket_id ∉ number <$> vs /\ exists i x v, last = Some x.2 /\ busy !! i = Some x /\ vs !! i = Some v /\
    sock_port (ss_socket v) = 0.


(** The pool of a socket just bound is where the rx thread of [Udp] starts. *)
Lemma bound_rx_initial m fr buf :
  holds m fr [] [] -> Z.of_nat (length buf) < 2 ^ 32 ->
  rx_initial (RxState m false buf (Z.of_nat (length buf)) Rx_top 0 NULL C_idle []).
Proof. intros [(vals & R & _)] Hb. unfold rx_initial. cbn. split_and!; try done. by exists (APool fr [] vals). Qed.
End stack_spec.

(** ** A machine to run examples on

    The slots of [demo_kernel], some pcbs and threads; handles are numbers, a
    thread takes one slot. *)
Record demo_net := DemoNet { dn_kernel : demo_kernel; dn_res : stack_resources }.

Definition dn_step {A} (f : demo_kernel -> A * demo_kernel) (n : demo_net) : A * demo_net :=
  ((f (dn_kernel n)).1, DemoNet (f (dn_kernel n)).2 (dn_res n)).

#[export] Instance demo_net_kernel : Kernel demo_net := {|
  vka_cspace_alloc := dn_step vka_cspace_alloc;
  vka_cnode_revoke c := dn_step (vka_cnode_revoke c);
  sync_recursive_mutex_lock := dn_step sync_recursive_mutex_lock;
  sync_recursive_mutex_unlock := dn_step sync_recursive_mutex_unlock;
  sel4platsupport_handle_timer_irq n := DemoNet (sel4platsupport_handle_timer_irq (dn_kernel n)) (dn_res n)
|}.

#[export] Instance demo_net_kernel_ok : KernelOk demo_net.
Proof.
  refine {| cspace_of n := cspace_of (dn_kernel n) |}.
  - intros n Hr. destruct (cspace_alloc_ok (dn_kernel n) Hr) as (c & k' & Heq & Hc & Hb & Hk').
    exists c, (DemoNet k' (dn_res n)). split; [|exact (conj Hc (conj Hb Hk'))].
    change (dn_step vka_cspace_alloc n = ((0, c), DemoNet k' (dn_res n))). unfold dn_step. by rewrite Heq.
  - intros c n Hc. by apply (cnode_revoke_ok c (dn_kernel n)).
  - intros n. apply (mutex_lock_ok (dn_kernel n)).
  - intros n. apply (mutex_unlock_ok (dn_kernel n)).
  - intros n. apply (handle_timer_irq_ok (dn_kernel n)).
Defined.

Definition take_pcb (r : stack_resources) := Resources (pred (pcbs r)) (threads r) (ports r).
Definition take_thread (r : stack_resources) := Resources (pcbs r) (pred (threads r)) (ports r).

#[export] Instance demo_net_env : StackEnv demo_net := {|
  vka_alloc_endpoint_leaky n := let r := vka_cspace_alloc n in (r.1.2, r.2);
  vka_cnode_copy d c n := (0, n);
  udp_new n := (Z.of_nat (pcbs (dn_res n)), DemoNet (dn_kernel n) (take_pcb (dn_res n)));
  udp_recv p a n := n;
  udp_bind p a port n :=
    (0, DemoNet (dn_kernel n) (Resources (pcbs (dn_res n)) (threads (dn_res n)) ({[port]} ∪ ports (dn_res n))));
  sel4osapi_mutex_create n := (Some 1%positive, n);
  sel4osapi_mutex_lock m n := (0, n);
  sel4osapi_mutex_unlock m n := n;
  sel4osapi_thread_create s f a p n := let r := vka_cspace_alloc n in
    (Z.of_nat (threads (dn_res n)), DemoNet (dn_kernel r.2) (take_thread (dn_res n)));
  sel4osapi_thread_start t n := (0, n)
|}.

Lemma demo_net_alloc (n : demo_net) : (0 < room (cspace_of n))%nat ->
  let r := vka_cspace_alloc n in
  r.1.2 ∉ slots n /\ 0 < r.1.2 < 2 ^ 32 /\ dn_res r.2 = dn_res n /\
  cspace_of r.2 = CSpace ({[r.1.2]} ∪ slots n) (pred (room (cspace_of n))).
Proof.
  intros Hr. destruct (cspace_alloc_ok n Hr) as (c & k' & Heq & Hc & Hb & Hk'). cbn zeta.
  rewrite Heq. split_and!; [exact Hc|apply Hb|apply Hb| |exact Hk'].
  change (dn_step vka_cspace_alloc n = (0, c, k')) in Heq. by injection Heq as _ <-.
Qed.

#[export] Instance demo_net_env_ok : StackEnvOk demo_net.
Proof.
  refine {| res := dn_res; thread_slots := 1 |}; try done.
  - intros k Hr. by apply demo_net_alloc.
  - intros k Hr. cbn. split_and!; [lia|done|done].
  - intros n f a p k Hth Hr. destruct (demo_net_alloc k) as (Hc & _ & _ & Hk); [lia|].
    set (r := sel4osapi_thread_create n f a p k).
    assert (Hk' : cspace_of r.2 = CSpace ({[(vka_cspace_alloc k).1.2]} ∪ slots k) (pred (room (cspace_of k)))) by exact Hk.
    cbn zeta. fold r. rewrite Hk'. cbn [used room]. split_and!; [cbn; lia|set_solver|lia|done].
Defined.

Section samples.
#[local] Existing Instance default_config.

Definition no_socket : sel4osapi_udp_socket_t := UdpSocket 0 0 0 0 0 0.
Definition no_server : sel4osapi_udp_socket_server_t := UdpSocketServer NULL no_socket 0 NULL 0 0 NULL None.

(** One process, one interface with address 10; no socket yet. *)
Definition sample_net : demo_net := DemoNet (DemoKernel 1 {[1]}) (Resources 4 8 ∅).
Definition sample_vface : sel4osapi_netvface_t := NetVface 0 10 0.
Definition sample_iface : sel4osapi_netiface_t :=
  NetIface (Some 5%positive) (NetDriver 1 1 1 0) 1 1 (Some 6%positive) (one_busy sample_vface) 0 0.
Definition sample_ipc : sel4osapi_ipcclient_t := IpcClient 1 NULL NULL 0 0 0 0.
Definition sample_ifaces : pool_state sel4osapi_netiface_t := one_busy sample_iface.
Definition sample_stack : stack_state demo_net :=
  StackState (one_free no_server) (one_busy sample_ipc) sample_ifaces NULL NULL NULL 0 1 1 1000000 sample_net [].
(** The server after the create request of process 1 above. *)
Lemma sample_created : exists s',
  stack_step 100 0 (Msg 0 0 [UDPSTACK_CREATE_SOCKET; 1; 10]) sample_stack = Done (tt, s').
Proof. eexists. vm_compute. reflexivity. Qed.

Example udp_sockets_wellformed_witness :
  exists s free busy vs, stack_reach 100 s /\ holds (socket_servers s) free busy vs /\ Forall socket_ok vs.
Proof.
  destruct sample_created as (s' & Hs').
  assert (Hreach : stack_reach 100 s').
  { eapply sr_step; [|exact Hs']. apply (sr_initial 100 sample_stack [one_entry]); [apply one_free_holds|reflexivity]. }
  destruct (udp_sockets_wellformed 100 s' Hreach) as (free & busy & vs & H1 & _ & _ & H2).
  exists s', free, busy, vs. split_and!; [exact Hreach|exact H1|exact H2].
Defined.

(** Socket 1 is open, not bound; another process asks for socket 7. *)
Definition open_server : sel4osapi_udp_socket_server_t :=
  UdpSocketServer (Some 11%positive) (UdpSocket 1 10 0 2 0 0) 4 (Some 11%positive) 8 0 NULL None.
Definition sample_open : stack_state demo_net :=
  StackState (one_busy open_server) (one_busy sample_ipc) sample_ifaces (Some 11%positive) (Some 11%positive)
    (Some 11%positive) 0 1 1 1000000 sample_net [].

End samples.
