(* ===== verification/UdpOpen.v ===== *)
(** * UdpOpen: opening UDP sockets from a process (src/udp.c)

    The client side of [UdpStack]: [sel4osapi_udp_create_socket] and
    [sel4osapi_udp_bind], each a call of the socket server, and the search for
    the socket of a descriptor.  The process keeps its sockets in a pool of its
    own.  Capabilities travel by slot: that the kernel puts the one a message
    carries into the receive slot of the other side is the kernel's part. *)

From S2P Require Import Prelude Config Memory LinkedList Pool PoolSearch Ipc Network Kernel Udp UdpStack.

(** ** The client side

    The library in a process.  [cl_receive_path] is the slot a capability sent
    to it goes to; [J] its kernel objects. *)
Class ClientEnv (J : Type) := {
  vka_alloc_notification_leaky : J -> Z * J;
  client_cnode_copy : Z -> Z -> J -> Z * J;
  udp_iface_lock : J -> Z * J;
  udp_iface_unlock : J -> J
}.

Section client_c.
Context {CFG : Config} {K : Type} {KER : Kernel K} {ENV : StackEnv K}.
Context {J : Type} {JKER : Kernel J} {CENV : ClientEnv J}.

Record udp_client := UdpClient {
  sockets : pool_state sel4osapi_udp_socket_t;
  ipcclient_id : Z;
  cl_receive_path : Z;
  cl_kern : J
}.

Definition set_sockets p (c : udp_client) : udp_client :=
  UdpClient p (ipcclient_id c) (cl_receive_path c) (cl_kern c).
Definition set_cl_path v (c : udp_client) : udp_client :=
  UdpClient (sockets c) (ipcclient_id c) v (cl_kern c).
Definition set_cl_kern v (c : udp_client) : udp_client :=
  UdpClient (sockets c) (ipcclient_id c) (cl_receive_path c) v.

Definition on_client {A} (m : M udp_client A) : M (udp_client * stack_state K) A :=
  zoom fst (fun c s => (c, s.2)) m.
Definition on_stack {A} (m : M (stack_state K) A) : M (udp_client * stack_state K) A :=
  zoom snd (fun t s => (s.1, t)) m.

Definition ccall {A} (f : J -> A * J) : M udp_client A := fun c =>
  Done ((f (cl_kern c)).1, set_cl_kern (f (cl_kern c)).2 c).
Definition cdo (f : J -> J) : M udp_client unit := modify (fun c => set_cl_kern (f (cl_kern c)) c).
Definition on_sockets {A} (m : M (pool_state sel4osapi_udp_socket_t) A) : M udp_client A :=
  zoom sockets set_sockets m.
Definition read_socket (p : ptr) : M udp_client sel4osapi_udp_socket_t := on_sockets (on_mem (read_cell p)).
Definition upd_socket (p : ptr) (f : sel4osapi_udp_socket_t -> sel4osapi_udp_socket_t) : M udp_client unit :=
  let! k := read_socket p in on_sockets (on_mem (write_cell p (f k))).
Definition client_cspace_alloc (v : Z) : M udp_client Z :=
  let! r := ccall vka_cspace_alloc in ret (if r.1 =? 0 then r.2 else v).

(** [seL4_Call]: the server serves the message and replies; a request that gets
    no reply blocks for good. *)
Definition stack_call (priority uninit : Z) (m : message) : M (udp_client * stack_state K) (list Z * option Z) :=
  on_stack (
    let! s := get in
    stack_step priority uninit m ;;
    let! s' := get in
    match drop (length (stack_replies s)) (stack_replies s') with
    | [r] => ret r
    | _ => fun _ => Out_of_fuel
    end).

Definition sock_set_id (i : Z) (k : sel4osapi_udp_socket_t) :=
  UdpSocket i (sock_addr k) (sock_port k) (ep_tx_ready k) (ep_rx_ready k) (aep_rx_data k).
Definition sock_open (addr : Z) (k : sel4osapi_udp_socket_t) :=
  UdpSocket (sock_id k) addr 0 (ep_tx_ready k) seL4_CapNull seL4_CapNull.

Definition sel4osapi_udp_create_socket (priority uninit addr : Z) : M (udp_client * stack_state K) ptr :=
  let! socket := on_client (
    let! error := ccall udp_iface_lock in
    assert_ (error =? 0) ;;
    let! socket := on_sockets simple_pool_alloc in
    assert_ (non_null socket) ;;
    upd_socket socket (sock_open addr) ;;
    let! k := read_socket socket in
    let! c := client_cspace_alloc (ep_tx_ready k) in
    upd_socket socket (sock_set_tx c) ;;
    assert_ (negb (c =? seL4_CapNull)) ;;
    modify (set_cl_path c) ;;
    ret socket) in
  let! c := on_client get in
  let! r := stack_call priority uninit
    (Msg 0 0 [UDPSTACK_CREATE_SOCKET; u32 (ipcclient_id c); u32 addr]) in
  on_client (
    assert_ (length r.1 =? 2)%nat ;;
    assert_ (bool_decide (is_Some r.2)) ;;
    let error := s32 (nth 0 r.1 0) in
    upd_socket socket (sock_set_id (s32 (nth 1 r.1 0))) ;;
    assert_ (error =? 0) ;;
    modify (set_cl_path seL4_CapNull) ;;
    cdo udp_iface_unlock) ;;
  ret socket.

Definition sel4osapi_udp_bind (priority uninit : Z) (socket : ptr) (port : Z) : M (udp_client * stack_state K) Z :=
  let! k := on_client (
    assert_ (0 <? port) ;;
    assert_ (non_null socket) ;;
    let! k := read_socket socket in
    assert_ (sock_port k =? 0) ;;
    let! aep := ccall vka_alloc_notification_leaky in
    upd_socket socket (sock_set_aep aep) ;;
    assert_ (negb (aep =? seL4_CapNull)) ;;
    let! rx_read_ep_copy := client_cspace_alloc uninit in
    assert_ (negb (rx_read_ep_copy =? seL4_CapNull)) ;;
    let! error := ccall (client_cnode_copy rx_read_ep_copy aep) in
    assert_ (error =? 0) ;;
    let! c := client_cspace_alloc (ep_rx_ready k) in
    upd_socket socket (sock_set_rx c) ;;
    assert_ (negb (c =? seL4_CapNull)) ;;
    modify (set_cl_path c) ;;
    ret k) in
  let! r := stack_call priority uninit (Msg 0 1 [UDPSTACK_BIND_SOCKET; u32 (sock_id k); port]) in
  on_client (
    assert_ (length r.1 =? 1)%nat ;;
    assert_ (bool_decide (is_Some r.2)) ;;
    let error := s32 (nth 0 r.1 0) in
    assert_ (error =? 0) ;;
    upd_socket socket (sock_set_port port) ;;
    modify (set_cl_path seL4_CapNull)) ;;
  ret 0.

(** The socket of a descriptor; the error of the lock is not looked at. *)
Definition sel4osapi_udp_sd_to_socket (sd : Z) : M udp_client ptr :=
  assert_ (0 <? sd) ;;
  let! _ := ccall udp_iface_lock in
  let! socket := on_sockets (pool_search (fun k => sock_id k =? sd) id (fun _ => NULL) NULL) in
  assert_ (non_null socket) ;;
  cdo udp_iface_unlock ;;
  ret socket.

(** The calls by descriptor: [recv] and [send] are those of [Udp] and [UdpSend] on
    the socket, in a state [S] that the client is part of. *)
Definition on_socket_of {S A} (get_client : S -> udp_client) (set_client : udp_client -> S -> S) (sd : Z) (f : ptr -> M S A) : M S A :=
  let! socket := zoom get_client set_client (sel4osapi_udp_sd_to_socket sd) in
  f socket.
Definition sel4osapi_udp_recv_sd {S A} get_client set_client (recv : ptr -> Z -> M S A) (sd max_len : Z) : M S A :=
  on_socket_of get_client set_client sd (fun socket => recv socket max_len).
Definition sel4osapi_udp_send_sd {S A} get_client set_client (send : ptr -> list Z -> Z -> Z -> Z -> M S A) (sd : Z) (msg : list Z)
    (len ipaddr port : Z) : M S A :=
  on_socket_of get_client set_client sd (fun socket => send socket msg len ipaddr port).
End client_c.
Arguments udp_client J : clear implicits.

(** ** The client's calls *)

(** - a notification takes a free slot, a copy between slots handed out
      succeeds;
    - the mutex of the interface can be locked. *)
Class ClientEnvOk (J : Type) `{KernelOk J} {CENV : ClientEnv J} := {
  notification_ok k : (0 < room (cspace_of k))%nat ->
    let r := vka_alloc_notification_leaky k in
    r.1 ∉ slots k /\ 0 < r.1 < 2 ^ 32 /\ cspace_of r.2 = CSpace ({[r.1]} ∪ slots k) (pred (room (cspace_of k)));
  client_copy_ok d c k : d ∈ slots k -> c ∈ slots k ->
    (client_cnode_copy d c k).1 = 0 /\ cspace_of (client_cnode_copy d c k).2 = cspace_of k;
  iface_lock_ok k : (udp_iface_lock k).1 = 0 /\ cspace_of (udp_iface_lock k).2 = cspace_of k;
  iface_unlock_ok k : cspace_of (udp_iface_unlock k) = cspace_of k
}.

Section client_spec.
Context {CFG : Config} {K : Type} `{KOK : KernelOk K} {ENV : StackEnv K} {EOK : StackEnvOk K}.
Context {J : Type} `{JOK : KernelOk J} {CENV : ClientEnv J} {COK : ClientEnvOk J}.
Implicit Types (c : udp_client J) (s : stack_state K) (ks : list sel4osapi_udp_socket_t).

Lemma set_sockets_id c : set_sockets (sockets c) c = c.
Proof. by destruct c. Qed.

Lemma wp_ccall {A} (f : J -> A * J) (Q : A -> udp_client J -> Prop) c :
  Q (f (cl_kern c)).1 (set_cl_kern (f (cl_kern c)).2 c) -> wp (ccall f) Q c.
Proof. intros HQ. by eexists _, _. Qed.

Lemma wp_read_socket c free busy ks i x k (Q : _ -> _ -> Prop) :
  holds (sockets c) free busy ks -> busy !! i = Some x -> ks !! i = Some k ->
  Q k c -> wp (read_socket (Some x.2)) Q c.
Proof.
  intros R Hx Hi HQ. unfold read_socket, on_sockets. apply wp_zoom.
  eapply holds_read; [done..|]. by rewrite set_sockets_id.
Qed.

Lemma wp_upd_socket c free busy ks i x k f (Q : unit -> udp_client J -> Prop) :
  holds (sockets c) free busy (<[i := k]> ks) -> busy !! i = Some x ->
  (forall p, holds p free busy (<[i := f k]> ks) -> Q tt (set_sockets p c)) ->
  wp (upd_socket (Some x.2) f) Q c.
Proof.
  intros R Hx HQ. pose proof (holds_length _ _ _ _ R) as (Hl & _). rewrite length_insert in Hl.
  assert (Hi : <[i := k]> ks !! i = Some k).
  { apply list_lookup_insert_eq. apply lookup_lt_Some in Hx. lia. }
  unfold upd_socket. wp_step. eapply wp_read_socket; [done..|].
  unfold on_sockets. apply wp_zoom. eapply holds_write; [done..|].
  intros p Hp. apply HQ. by rewrite list_insert_insert_eq in Hp.
Qed.

Lemma wp_client_cspace_alloc u (Q : Z -> udp_client J -> Prop) c :
  (0 < room (cspace_of (cl_kern c)))%nat ->
  (forall r k, r ∉ slots (cl_kern c) -> 0 < r < 2 ^ 32 ->
     cspace_of k = CSpace ({[r]} ∪ slots (cl_kern c)) (pred (room (cspace_of (cl_kern c)))) ->
     Q r (set_cl_kern k c)) ->
  wp (client_cspace_alloc u) Q c.
Proof.
  intros Hroom HQ. destruct (cspace_alloc_ok _ Hroom) as (r & k' & Heq & Hc & Hr & Hk').
  unfold client_cspace_alloc. wp_step. apply wp_ccall. rewrite Heq. cbn. wp_step. by apply HQ.
Qed.

Ltac wp_cwrite R Hx :=
  eapply wp_upd_socket; [exact R|exact Hx|]; clear R; intros ? R.

(** The call returns what the server replied. *)
Lemma wp_stack_call priority uninit m c s (P : stack_state K -> list Z * option Z -> Prop) (Q : _ -> _ -> Prop) :
  wp (stack_step priority uninit m) (fun _ s' => exists r, stack_replies s' = stack_replies s ++ [r] /\ P s' r) s ->
  (forall s' r, P s' r -> Q r (c, s')) ->
  wp (stack_call priority uninit m) Q (c, s).
Proof.
  intros Hstep HQ. unfold stack_call, on_stack. apply wp_zoom. cbn [snd]. wp_steps.
  eapply wp_mono; [exact Hstep|]. intros [] s' (r & Hr & HP). wp_steps. rewrite Hr, drop_app_length.
  wp_step. by apply HQ.
Qed.

(** Creating a socket: both sides have it, under the same number. *)
Lemma wp_create_socket priority uninit addr c s z cfree cbusy ks x free busy vs fc bc cs j y cl fi bi ifs vfs :
  holds (sockets c) (z :: cfree) cbusy ks -> (0 < room (cspace_of (cl_kern c)))%nat ->
  is_s32 (ipcclient_id c) -> is_u32 addr ->
  holds (socket_servers s) (x :: free) busy vs -> Z.of_nat (length vs) + 1 < 2 ^ 31 ->
  holds (ipc_clients s) fc bc cs -> NoDup (ic_id <$> cs) ->
  bc !! j = Some y -> cs !! j = Some cl -> ic_id cl = ipcclient_id c ->
  holds (net_ifaces s) fi bi ifs -> Forall2 vfaces_hold ifs vfs ->
  Exists (fun vf => existsb (serves_addr addr) vf = true) vfs ->
  (0 < pcbs (res (kern s)))%nat -> (0 < threads (res (kern s)))%nat ->
  (thread_slots + 2 <= room (cspace_of (kern s)))%nat ->
  wp (sel4osapi_udp_create_socket priority uninit addr) (fun r t => r = Some z.2 /\
    exists ifc pcb ep tx mint slot k,
      created s t.2 free busy vs x
        (UdpSocketServer (Some ifc) (UdpSocket (Z.of_nat (length vs) + 1) addr 0 ep 0 0) pcb (Some y.2) tx 0 NULL None) mint /\
      pick_iface addr bi vfs (st_iface s) = Some ifc /\
      slot ∉ slots (cl_kern c) /\ 0 < slot /\
      cspace_of k = CSpace ({[slot]} ∪ slots (cl_kern c)) (pred (room (cspace_of (cl_kern c)))) /\
      exists p, t.1 = UdpClient p (ipcclient_id c) seL4_CapNull k /\
        holds p cfree (cbusy ++ [z]) (ks ++ [UdpSocket (Z.of_nat (length vs) + 1) addr 0 slot 0 0])) (c, s).
Proof.
  intros R Hroom Hid Haddr Rs Hmax Rc Hnd Hy Hcl Hnum Ri Hvf Hserves Hpcb Hth Hsroom.
  destruct (pick_iface_in addr bi vfs (st_iface s)) as [ifc Hifc]; [|by right|].
  { rewrite (proj1 (holds_length _ _ _ _ Ri)). by eapply Forall2_length. }
  unfold sel4osapi_udp_create_socket, on_client. wp_step. apply wp_zoom. cbn [fst snd].
  destruct (iface_lock_ok (cl_kern c)) as (Hlk & Hk1). wp_step. apply wp_ccall.
  set (k1 := (udp_iface_lock (cl_kern c)).2) in *. rewrite Hlk. wp_step. apply wp_assert; [done|].
  wp_step. unfold on_sockets. apply wp_zoom. eapply holds_alloc; [exact R|done|].
  intros x' fr p k [= <- <-] R1. pose proof (holds_length _ _ _ _ R) as (Hlb & _).
  assert (Hz : (cbusy ++ [z]) !! length ks = Some z) by (rewrite <- Hlb; by apply list_lookup_middle).
  replace (ks ++ [k]) with (<[length ks := k]> (ks ++ [k])) in R1
    by (apply list_insert_id; by apply list_lookup_middle).
  wp_step. apply wp_assert; [done|]. wp_step. wp_cwrite R1 Hz. wp_step.
  eapply wp_read_socket; [exact R1|exact Hz|apply list_lookup_insert_eq; rewrite length_app; cbn; lia|].
  wp_step. apply wp_client_cspace_alloc; [cbn [cl_kern set_sockets set_cl_kern]; by rewrite Hk1|].
  intros slot k2 Hslot Hs0 Hk2. cbn [cl_kern set_sockets set_cl_kern] in Hslot, Hk2. rewrite Hk1 in Hslot, Hk2.
  wp_step. wp_cwrite R1 Hz. wp_step. apply wp_assert; [apply ne_negb_eqb; unfold seL4_CapNull; lia|].
  wp_step. wp_step. cbn beta iota. wp_step. wp_step. wp_step. wp_step. cbn [fst snd].
  cbn [ipcclient_id set_sockets set_cl_path set_cl_kern].
  wp_step. eapply (wp_stack_call _ _ _ _ _ (fun s' r => exists pcb ep tx mint,
    r = ([0; Z.of_nat (length vs) + 1], Some mint) /\ created s s' free busy vs x
      (UdpSocketServer (Some ifc) (UdpSocket (Z.of_nat (length vs) + 1) addr 0 ep 0 0) pcb (Some y.2) tx 0 NULL None) mint)).
  - apply stack_step_create; [done|done|]. cbn [getMR nth mrs]. rewrite !u32_idem, (u32_small addr) by done.
    eapply wp_mono.
    + apply (wp_serve_create priority uninit (u32 (ipcclient_id c)) addr s x free busy vs fc bc cs y.2 fi bi ifs vfs ifc);
        try done; [lia|]. rewrite s32_u32, <- Hnum by done. by apply (a_search_key ic_id id id bc cs _ j).
    + intros [] s' (pcb & ep & tx & mint & C). exists ([0; Z.of_nat (length vs) + 1], Some mint).
      split; [apply C|]. by exists pcb, ep, tx, mint.
  - intros s' r (pcb & ep & tx & mint & -> & C). wp_step. apply wp_zoom. cbn [fst snd length nth].
    wp_step. apply wp_assert; [done|]. wp_step. apply wp_assert; [done|]. wp_step. wp_cwrite R1 Hz.
    wp_step. apply wp_assert; [done|]. wp_step. wp_step. cbn beta iota. unfold cdo. wp_step. wp_step. split; [done|].
    exists ifc, pcb, ep, tx, mint, slot, (udp_iface_unlock k2). split_and!; try done; [lia|by rewrite iface_unlock_ok|].
    eexists. split; [reflexivity|]. cbn in R1 |- *.
    rewrite insert_app_r_alt, Nat.sub_diag in R1 by done. cbn in R1. rewrite s32_small in R1 by lia. exact R1.
Qed.

(** Binding a socket: both sides have the port. *)
Lemma wp_bind_socket priority uninit port c s cfree cbusy ks n z k free busy vs i x v fi bi ifs j y ifc :
  holds (sockets c) cfree cbusy ks -> cbusy !! n = Some z -> ks !! n = Some k ->
  sock_port k = 0 -> 0 < port < 2 ^ 16 -> (3 <= room (cspace_of (cl_kern c)))%nat ->
  holds (socket_servers s) free busy vs -> number <$> vs = seqZ 1 (Z.of_nat (length vs)) ->
  busy !! i = Some x -> vs !! i = Some v -> sock_port (ss_socket v) = 0 ->
  sock_id k = number v -> number v < 2 ^ 31 ->
  holds (net_ifaces s) fi bi ifs -> bi !! j = Some y -> ifs !! j = Some ifc -> ss_iface v = Some y.2 ->
  pool_bytes SEL4OSAPI_UDP_MAX_MSGS_PER_CLIENT sizeof_udp_message <= arena s ->
  (0 < threads (res (kern s)))%nat -> (thread_slots + 3 <= room (cspace_of (kern s)))%nat ->
  rx_ready_ep_mint s <> 0 -> port ∉ ports (res (kern s)) ->
  wp (sel4osapi_udp_bind priority uninit (Some z.2) port) (fun r t => r = 0 /\
    exists w mint aep slot, bound s t.2 free busy vs i v w port mint /\
      NoDup [aep; slot] /\ aep ∉ slots (cl_kern c) /\ slot ∉ slots (cl_kern c) /\ aep <> 0 /\ slot <> 0 /\
      holds (sockets t.1) cfree cbusy
        (<[n := UdpSocket (sock_id k) (sock_addr k) port (ep_tx_ready k) slot aep]> ks)) (c, s).
Proof.
  intros R Hz Hk Hport Hp Hroom Rs Hids Hx Hv Hvp Hidk Hmax Ri Hy Hifc Hvi Hmem Hth Hsroom Hrx Hpf.
  assert (Hnum : number v = Z.of_nat i + 1) by (by apply (number_lookup vs)).
  assert (Hu : u16 (u32 port) = port) by (rewrite u32_small by (unfold is_u32; lia); apply u16_small; lia).
  unfold sel4osapi_udp_bind, on_client. wp_step. apply wp_zoom. cbn [fst snd].
  wp_step. apply wp_assert; [apply Z.ltb_lt; lia|]. wp_step. apply wp_assert; [done|]. wp_step.
  eapply wp_read_socket; [exact R|exact Hz|exact Hk|]. wp_step. apply wp_assert; [by apply Z.eqb_eq|].
  destruct (notification_ok (cl_kern c)) as (Haep & Ha0 & Hk1); [lia|]. wp_step. apply wp_ccall.
  set (aep := (vka_alloc_notification_leaky (cl_kern c)).1) in *.
  set (k1 := (vka_alloc_notification_leaky (cl_kern c)).2) in *.
  rewrite <- (list_insert_id ks n k Hk) in R. wp_step. wp_cwrite R Hz.
  wp_step. apply wp_assert; [apply ne_negb_eqb; unfold seL4_CapNull; lia|].
  wp_step. apply wp_client_cspace_alloc; [cbn [cl_kern set_sockets set_cl_kern]; rewrite Hk1; cbn; lia|].
  intros copy k2 Hcopy Hc0 Hk2. cbn [cl_kern set_sockets set_cl_kern] in Hcopy, Hk2.
  wp_step. apply wp_assert; [apply ne_negb_eqb; unfold seL4_CapNull; lia|]. wp_step. apply wp_ccall.
  cbn [cl_kern set_sockets set_cl_kern].
  destruct (client_copy_ok copy aep k2) as (He & Hk3); [rewrite Hk2; set_solver|rewrite Hk2, Hk1; set_solver|].
  rewrite He. wp_step. apply wp_assert; [done|].
  wp_step. apply wp_client_cspace_alloc; [cbn [cl_kern set_sockets set_cl_kern]; rewrite Hk3, Hk2, Hk1; cbn; lia|].
  intros slot k4 Hslot Hs0 Hk4. cbn [cl_kern set_sockets set_cl_kern] in Hslot. rewrite Hk3, Hk2, Hk1 in Hslot. cbn in Hslot.
  wp_step. wp_cwrite R Hz. wp_step. apply wp_assert; [apply ne_negb_eqb; unfold seL4_CapNull; lia|].
  wp_step. wp_step. cbn beta iota. wp_step. wp_step. cbn [fst snd].
  eapply (wp_stack_call _ _ _ _ _ (fun s' r => exists w mint,
    r = ([0], Some mint) /\ bound s s' free busy vs i v w port mint)).
  - apply stack_step_bind; [done|done|done|]. cbn [getMR nth mrs]. rewrite u32_idem.
    eapply wp_mono.
    + apply (wp_serve_bind priority (u32 (sock_id k)) (u32 port) s free busy vs i x v fi bi ifs j y ifc); try done.
      * rewrite s32_u32 by (unfold is_s32; lia). rewrite Hidk.
        apply (a_search_key number id id busy vs _ i); [by apply numbers_nodup|done|done].
      * rewrite Hu. lia.
      * by rewrite Hu.
    + intros [] s' (w & mint & B). rewrite Hu in B. exists ([0], Some mint). split; [apply B|]. by exists w, mint.
  - intros s' r (w & mint & -> & B). wp_step. apply wp_zoom. cbn [fst snd length nth].
    wp_step. apply wp_assert; [done|]. wp_step. apply wp_assert; [done|]. wp_step. apply wp_assert; [done|].
    wp_step. wp_cwrite R Hz. wp_step. wp_step. split; [done|]. exists w, mint, aep, slot.
    split; [exact B|]. cbn. split_and!; [|done|set_solver|lia|lia|exact R].
    apply NoDup_cons. split; [set_solver|apply NoDup_singleton].
Qed.

(** C23: a process that creates a socket and binds it, whatever sockets were
    opened before and whatever the last request left in the server's variables,
    gets a socket with the number, address and port of a new socket of the server.  The server's is
    bound to the process that asked and to an interface that serves the
    address; its notification is the capability the bind request carried, its
    packet pool is the empty queue its rx thread starts from, and no slot of
    either CSpace is used twice. *)
Theorem udp_open_and_bind priority uninit addr port c s z cfree cbusy ks x free busy vs fc bc cs j y cl fi bi ifs vfs :
  holds (sockets c) (z :: cfree) cbusy ks -> (4 <= room (cspace_of (cl_kern c)))%nat ->
  is_s32 (ipcclient_id c) -> is_u32 addr -> 0 < port < 2 ^ 16 ->
  holds (socket_servers s) (x :: free) busy vs -> number <$> vs = seqZ 1 (Z.of_nat (length vs)) ->
  Z.of_nat (length vs) + 1 < 2 ^ 31 ->
  holds (ipc_clients s) fc bc cs -> NoDup (ic_id <$> cs) ->
  bc !! j = Some y -> cs !! j = Some cl -> ic_id cl = ipcclient_id c ->
  holds (net_ifaces s) fi bi ifs -> Forall2 vfaces_hold ifs vfs ->
  Exists (fun vf => existsb (serves_addr addr) vf = true) vfs ->
  pool_bytes SEL4OSAPI_UDP_MAX_MSGS_PER_CLIENT sizeof_udp_message <= arena s ->
  (0 < pcbs (res (kern s)))%nat -> (1 < threads (res (kern s)))%nat ->
  (2 * thread_slots + 5 <= room (cspace_of (kern s)))%nat ->
  rx_ready_ep_mint s <> 0 -> port ∉ ports (res (kern s)) ->
  wp (let! p := sel4osapi_udp_create_socket priority uninit addr in
      let! e := sel4osapi_udp_bind priority uninit p port in ret (p, e))
     (fun r t => r = (Some z.2, 0) /\ exists k w ifc m fr,
        holds (sockets t.1) cfree (cbusy ++ [z]) (ks ++ [k]) /\
        holds (socket_servers t.2) free (busy ++ [x]) (vs ++ [w]) /\
        sock_id k = number w /\ number w = Z.of_nat (length vs) + 1 /\
        sock_addr k = addr /\ sock_addr (ss_socket w) = addr /\
        sock_port k = port /\ sock_port (ss_socket w) = port /\
        ss_client w = Some y.2 /\ ss_iface w = Some ifc /\ pick_iface addr bi vfs NULL = Some ifc /\
        aep_rx_data (ss_socket w) = rx_ready_ep_mint s /\
        NoDup [ep_tx_ready k; ep_rx_ready k; aep_rx_data k] /\
        Forall (fun r => r ∉ slots (cl_kern c)) [ep_tx_ready k; ep_rx_ready k; aep_rx_data k] /\
        ss_msgs w = Some m /\ Z.of_nat (length fr) = SEL4OSAPI_UDP_MAX_MSGS_PER_CLIENT /\ holds m fr [] []) (c, s).
Proof.
  intros R Hroom Hid Haddr Hp Rs Hids Hmax Rc Hnd Hy Hcl Hnum Ri Hvf Hserves Hmem Hpcb Hth Hsroom Hrx Hpf.
  wp_step. eapply wp_mono.
  { apply (wp_create_socket priority uninit addr c s z cfree cbusy ks x free busy vs fc bc cs j y cl fi bi ifs vfs); try done; lia. }
  intros r [c1 s1] (-> & ifc & pcb & ep & tx & mint & slot & kc & C & Hpick & Hslot & Hs0 & Hkc & p & Hc1 & R1).
  cbn [fst snd] in C, Hc1. subst c1.
  rewrite (pick_iface_serves _ _ _ _ NULL) in Hpick; [|rewrite (proj1 (holds_length _ _ _ _ Ri)); by eapply Forall2_length|done].
  set (k1 := UdpSocket (Z.of_nat (length vs) + 1) addr 0 slot 0 0) in *. set (v1 := UdpSocketServer _ _ _ _ _ _ _ _) in C.
  destruct (pick_iface_entry _ _ _ _ _ Hpick) as [|(ji & yi & Hyi & ->)]; [done|].
  destruct (lookup_lt_is_Some_2 ifs ji) as [ifv Hifv].
  { rewrite <- (proj1 (holds_length _ _ _ _ Ri)). by apply lookup_lt_Some in Hyi. }
  pose proof (holds_length _ _ _ _ R) as (Hlc & _). pose proof (holds_length _ _ _ _ Rs) as (Hls & _).
  destruct (ce_locals _ _ _ _ _ _ _ _ C) as (_ & _ & _ & Hmint & _ & Harena & _).
  destruct (ce_pools _ _ _ _ _ _ _ _ C) as (_ & Hni). destruct (ce_room _ _ _ _ _ _ _ _ C) as (Hr1 & _).
  pose proof (ce_res _ _ _ _ _ _ _ _ C) as Hres.
  wp_step. eapply wp_mono.
  - apply (wp_bind_socket priority uninit port (UdpClient p (ipcclient_id c) seL4_CapNull kc) s1 cfree (cbusy ++ [z])
      (ks ++ [k1]) (length ks) z k1 free (busy ++ [x]) (vs ++ [v1]) (length vs) x v1 fi bi ifs ji yi ifv R1); try done.
    + rewrite <- Hlc. by apply list_lookup_middle.
    + by apply list_lookup_middle.
    + cbn. rewrite Hkc. cbn. lia.
    + apply C.
    + rewrite fmap_app, Hids, length_app. cbn. rewrite Nat2Z.inj_add. apply seqZ_snoc. lia.
    + rewrite <- Hls. by apply list_lookup_middle.
    + by apply list_lookup_middle.
    + by rewrite Hni.
    + by rewrite Harena.
    + rewrite Hres. cbn. lia.
    + rewrite Hr1. lia.
    + by rewrite Hmint.
    + by rewrite Hres.
  - intros e [c2 s2] (-> & w & mint2 & aep & slot2 & B & Hnd2 & Ha & Hs2 & Ha0 & Hs20 & R2).
    cbn [fst snd] in *. wp_step. split; [done|].
    pose proof (bd_servers _ _ _ _ _ _ _ _ _ _ B) as Rs2.
    rewrite insert_app_r_alt, Nat.sub_diag in Rs2 by done. rewrite insert_app_r_alt, Nat.sub_diag in R2 by done.
    destruct (bd_socket _ _ _ _ _ _ _ _ _ _ B) as (ep2 & Hws & _). cbn in Hws. unfold number.
    destruct (bd_msgs _ _ _ _ _ _ _ _ _ _ B) as (m & fr & Hm & Hmh & Hfr).
    pose proof (bd_same _ _ _ _ _ _ _ _ _ _ B) as Hsame. injection Hsame as Hwi _ Hwc _.
    cbn [cl_kern] in Ha, Hs2. rewrite Hkc in Ha, Hs2. cbn in Ha, Hs2.
    eexists _, w, yi.2, m, fr. rewrite Hws. cbn. rewrite Hmint.
    split_and!; [exact R2|exact Rs2|done..| | |done|done|done].
    + apply NoDup_cons. split; [set_solver|]. apply NoDup_cons. split; [|apply NoDup_singleton].
      apply NoDup_cons in Hnd2 as [Hnd2 _]. set_solver.
    + repeat constructor; set_solver.
Qed.
End client_spec.

(** ** An example *)

#[export] Instance demo_client_env : ClientEnv demo_kernel := {|
  vka_alloc_notification_leaky k := let r := vka_cspace_alloc k in (r.1.2, r.2);
  client_cnode_copy d c k := (0, k);
  udp_iface_lock k := (0, k);
  udp_iface_unlock k := k
|}.

#[export] Instance demo_client_env_ok : ClientEnvOk demo_kernel.
Proof.
  split; try done. intros k Hr. destruct (cspace_alloc_ok k Hr) as (c & k' & Heq & Hc & Hb & Hk').
  cbn [vka_alloc_notification_leaky demo_client_env]. cbn zeta. by rewrite Heq.
Defined.

Section samples.
#[local] Existing Instance default_config.

(** Socket 1 of the process is open; the server's variables still name its
    client, its interface and its server side. *)
Definition sample_client : udp_client demo_kernel :=
  UdpClient (one_each no_socket (UdpSocket 1 10 0 2 0 0)) 1 0 (DemoKernel 0 ∅).
Definition sample_opened : stack_state demo_net :=
  StackState (one_each no_server open_server) (one_busy sample_ipc) sample_ifaces (Some 11%positive) (Some 11%positive)
    (Some 12%positive) 0 1 1 1000000 sample_net [].

Lemma sample_vfaces : Forall2 vfaces_hold [sample_iface] [[sample_vface]].
Proof. constructor; [|constructor]. exists [], [one_entry]. apply one_busy_holds. Qed.

Example udp_open_and_bind_witness :
  wp (let! p := sel4osapi_udp_create_socket 100 0 10 in
      let! e := sel4osapi_udp_bind 100 0 p 5000 in ret (p, e))
     (fun r t => r = (Some 11%positive, 0) /\ exists k w,
        holds (sockets t.1) [] [other_entry; one_entry] [UdpSocket 1 10 0 2 0 0; k] /\
        holds (socket_servers t.2) [] [other_entry; one_entry] [open_server; w] /\
        sock_id k = 2 /\ sock_port k = 5000 /\ sock_port (ss_socket w) = 5000) (sample_client, sample_opened).
Proof.
  eapply wp_mono.
  - apply (udp_open_and_bind 100 0 10 5000 sample_client sample_opened one_entry [] [other_entry] [UdpSocket 1 10 0 2 0 0]
      one_entry [] [other_entry] [open_server] [] [one_entry] [sample_ipc] 0 one_entry sample_ipc [] [one_entry] [sample_iface]
      [[sample_vface]]).
    + apply one_each_holds.
    + vm_compute. lia.
    + unfold is_s32. cbn. lia.
    + unfold is_u32. lia.
    + lia.
    + apply one_each_holds.
    + reflexivity.
    + cbn. lia.
    + apply one_busy_holds.
    + apply NoDup_singleton.
    + reflexivity.
    + reflexivity.
    + reflexivity.
    + apply one_busy_holds.
    + apply sample_vfaces.
    + apply Exists_cons_hd. reflexivity.
    + apply Z.leb_le. vm_compute. reflexivity.
    + cbn. lia.
    + cbn. lia.
    + vm_compute. lia.
    + done.
    + cbn. set_solver.
  - intros r t (-> & k & w & ifc & m & fr & Hk & Hw & Hid & Hn & _ & _ & Hp & Hp' & _). split; [reflexivity|].
    exists k, w. split_and!; [exact Hk|exact Hw|by rewrite Hid, Hn|exact Hp|exact Hp'].
Defined.

End samples.
