(* ===== verification/Untyped.v ===== *)
(** * Untyped: untyped memory for user processes (src/util.c, process.c, system.c)

    At start-up the root task sets aside blocks of untyped memory
    ([sel4osapi_util_allocate_untypeds], [initialize_untypeds]);
    [user_untypeds_allocation] records the pid of the process each block is
    given to, 0 for none.  Creating a process claims free blocks until it has
    SEL4OSAPI_USER_PROCESS_UNTYPED_MEM_SIZE bytes ([init_untypeds]); deleting it
    returns them ([delete_untypeds]).

    The allocator of the root task ([UntypedVka]) and the CSpace of the process
    ([ProcessCSpace]) are libraries; what is used of them is in
    [UntypedVkaOk] and [ProcessCSpaceOk]. *)

From S2P Require Import Prelude Config.

(** ** Blocks of untyped memory and their table *)

Record vka_object_t := VkaObject { cptr : Z; size_bits : Z }.

(** The fields of [sel4osapi_system_t] and [sel4osapi_process_env_t] about
    untypeds.  [revoked] is what was revoked in the root task's CSpace. *)
Record untyped_table := UntypedTable {
  user_untypeds_num : Z;
  user_untypeds : list vka_object_t;
  user_untypeds_allocation : list Z;
  user_untypeds_size_bits : list Z;
  revoked : list Z
}.

Record untyped_env := UntypedEnv {
  untypeds_start : Z;
  untypeds_end : Z;
  untyped_size_bits_list : list Z;
  untyped_indices : list Z
}.

Definition set_num (n : Z) (t : untyped_table) : untyped_table :=
  UntypedTable n (user_untypeds t) (user_untypeds_allocation t) (user_untypeds_size_bits t) (revoked t).
Definition set_blocks (l : list vka_object_t) (t : untyped_table) : untyped_table :=
  UntypedTable (user_untypeds_num t) l (user_untypeds_allocation t) (user_untypeds_size_bits t) (revoked t).
Definition set_allocation (l : list Z) (t : untyped_table) : untyped_table :=
  UntypedTable (user_untypeds_num t) (user_untypeds t) l (user_untypeds_size_bits t) (revoked t).
Definition set_size_bits (l : list Z) (t : untyped_table) : untyped_table :=
  UntypedTable (user_untypeds_num t) (user_untypeds t) (user_untypeds_allocation t) l (revoked t).
Definition add_revoked (c : Z) (t : untyped_table) : untyped_table :=
  UntypedTable (user_untypeds_num t) (user_untypeds t) (user_untypeds_allocation t)
    (user_untypeds_size_bits t) (revoked t ++ [c]).

(** Array accesses: outside of the array there is nothing. *)
Definition aget {S A} (l : list A) (i : Z) : M S A := deref (l !! Z.to_nat i).
Definition aset {S A} (l : list A) (i : Z) (v : A) : M S (list A) :=
  deref (if (Z.to_nat i <? length l)%nat then Some (<[Z.to_nat i := v]> l) else None).

(** ** Setting blocks aside *)

(** The allocator of the root task.  Allocation: error code, object written. *)
Class UntypedVka (V : Type) := {
  vka_alloc_untyped : Z -> V -> (Z * vka_object_t) * V;
  vka_free_object : vka_object_t -> V -> V
}.

Definition BIT (n : Z) : Z := u32 (Z.shiftl 1 n).
Definition UINT_MAX : Z := 2 ^ 32 - 1.
Definition ROOT_TASK_NUM_UNTYPEDS : Z := 16.

Section allocate.
Context {CFG : Config} {V : Type} {VKA : UntypedVka V}.

Definition untyped_size_bits : Z := 23.

(** The condition of the loop allocates; its result is the next state of the
    locals: number, bytes, the caller's array, whether to stop. *)
Definition allocate_body (bytes max_untypeds : Z) (x : Z * Z * list vka_object_t * bool)
    : M V (Z * Z * list vka_object_t * bool) :=
  let '(num_untypeds, allocated, untypeds, _) := x in
  if (num_untypeds <? max_untypeds) && (u32 (allocated + BIT untyped_size_bits) <=? bytes) then
    let! r := fun v => Done (vka_alloc_untyped untyped_size_bits v) in
    let! untypeds := aset untypeds num_untypeds r.2 in
    if r.1 =? 0 then
      ret (num_untypeds + 1, u32 (allocated + BIT untyped_size_bits), untypeds, false)
    else ret (num_untypeds, allocated, untypeds, true)
  else ret (num_untypeds, allocated, untypeds, true).

(** The number of blocks allocated, and the array. *)
Definition sel4osapi_util_allocate_untypeds (bytes max_untypeds : Z) (untypeds : list vka_object_t)
    : M V (Z * list vka_object_t) :=
  let! r := while (S (Z.to_nat max_untypeds)) (fun x => negb x.2)
              (allocate_body bytes max_untypeds) (0, 0, untypeds, false) in
  ret (r.1.1.1, r.1.2).

(** The block of [sel4osapi_system_initialize] about untypeds, on the allocator
    and the table.  [root_task_uts] is the local array, with whatever it holds. *)
Definition on_vka {A} (m : M V A) : M (V * untyped_table) A := zoom fst (fun v s => (v, s.2)) m.
Definition on_table (f : untyped_table -> untyped_table) : M (V * untyped_table) unit :=
  modify (fun s => (s.1, f s.2)).

Definition size_bits_body (i : Z) : M (V * untyped_table) Z :=
  let! s := get in
  let! o := aget (user_untypeds s.2) i in
  let! l := aset (user_untypeds_size_bits s.2) i (u8 (size_bits o)) in
  on_table (set_size_bits l) ;;
  ret (i + 1).

Definition release_body (root_task_uts : list vka_object_t) (i : Z) : M (V * untyped_table) Z :=
  let! o := aget root_task_uts i in
  on_vka (modify (vka_free_object o)) ;;
  ret (i + 1).

Definition clear_body (i : Z) : M (V * untyped_table) Z :=
  let! s := get in
  let! l := aset (user_untypeds_allocation s.2) i 0 in
  on_table (set_allocation l) ;;
  ret (i + 1).

Definition initialize_untypeds (root_task_uts : list vka_object_t) : M (V * untyped_table) unit :=
  let! root := on_vka (sel4osapi_util_allocate_untypeds
                         SEL4OSAPI_ROOT_TASK_UNTYPED_MEM_SIZE ROOT_TASK_NUM_UNTYPEDS root_task_uts) in
  let! s := get in
  let! user := on_vka (sel4osapi_util_allocate_untypeds
                         UINT_MAX (Z.of_nat (length (user_untypeds s.2))) (user_untypeds s.2)) in
  on_table (fun t => set_num (u8 user.1) (set_blocks user.2 t)) ;;
  let n := u8 user.1 in
  let! _ := while (Z.to_nat n) (fun i => i <? n) size_bits_body 0 in
  let! _ := while (Z.to_nat root.1) (fun i => i <? root.1) (release_body root.2) 0 in
  assert_ (0 <? n) ;;
  let! _ := while (Z.to_nat n) (fun i => i <? n) clear_body 0 in
  ret tt.
End allocate.

(** ** The blocks of a process *)

Class ProcessCSpace (P : Type) := {
  (** capability to copy, badge; the slot in the CSpace of the process *)
  sel4utils_mint_cap_to_process : Z -> Z -> P -> Z * P
}.

Section process.
Context {CFG : Config} {P : Type} {CSP : ProcessCSpace P}.

(** Creating or deleting one process: the table, its environment, its CSpace. *)
Record proc_state := ProcState { table : untyped_table; penv : untyped_env; native : P }.

Definition on_ptable (f : untyped_table -> untyped_table) : M proc_state unit :=
  modify (fun s => ProcState (f (table s)) (penv s) (native s)).
Definition set_penv (e : untyped_env) (s : proc_state) : proc_state := ProcState (table s) e (native s).

Definition sel4osapi_process_copy_cap_into (pid cap : Z) : M proc_state Z :=
  let! minted_cap := fun s =>
    let r := sel4utils_mint_cap_to_process cap pid (native s) in
    Done (r.1, ProcState (table s) (penv s) r.2) in
  assert_ (negb (minted_cap =? 0)) ;;
  ret minted_cap.

(** One round of the loop of [sel4osapi_process_init_env]; the locals are
    i, untyped_size and untyped_count. *)
Definition init_untypeds_body (pid : Z) (x : Z * Z * Z) : M proc_state (Z * Z * Z) :=
  let '(i, untyped_size, untyped_count) := x in
  let! s := get in
  let! owner := aget (user_untypeds_allocation (table s)) i in
  if negb (owner =? 0) then ret (i + 1, untyped_size, untyped_count)
  else
    let! block := aget (user_untypeds (table s)) i in
    let! proc_ut_cap := sel4osapi_process_copy_cap_into pid (cptr block) in
    let! allocation := aset (user_untypeds_allocation (table s)) i (u8 pid) in
    on_ptable (set_allocation allocation) ;;
    let! bits := aget (user_untypeds_size_bits (table s)) i in
    let! sizes := aset (untyped_size_bits_list (penv s)) untyped_count bits in
    let! indices := aset (untyped_indices (penv s)) untyped_count (u8 i) in
    modify (set_penv (UntypedEnv
      (if untyped_count =? 0 then proc_ut_cap else untypeds_start (penv s)) proc_ut_cap sizes indices)) ;;
    ret (i + 1, u32 (untyped_size + Z.shiftl 1 bits), untyped_count + 1).

Definition init_untypeds (pid : Z) : M proc_state unit :=
  let! s := get in
  let! _ := while (Z.to_nat (user_untypeds_num (table s)))
              (fun x => (x.1.1 <? user_untypeds_num (table s)) &&
                        (x.1.2 <? SEL4OSAPI_USER_PROCESS_UNTYPED_MEM_SIZE))
              (init_untypeds_body pid) (0, 0, 0) in
  let! s := get in
  assert_ (u32 (untypeds_end (penv s) - untypeds_start (penv s) + 1) <=? user_untypeds_num (table s)).

(** The part of [sel4osapi_process_delete] about untypeds.  The slot numbers
    are those of the process; they are revoked in the root task's CSpace. *)
Definition delete_untypeds_body (i : Z) : M proc_state Z :=
  let! s := get in
  on_ptable (add_revoked (u32 (untypeds_start (penv s) + i))) ;;
  let! idx := aget (untyped_indices (penv s)) i in
  let! allocation := aset (user_untypeds_allocation (table s)) idx 0 in
  on_ptable (set_allocation allocation) ;;
  ret (i + 1).

Definition delete_untypeds : M proc_state unit :=
  let! s := get in
  let assigned_untypeds := s32 (untypeds_end (penv s) - untypeds_start (penv s) + 1) in
  let! _ := while (Z.to_nat assigned_untypeds) (fun i => i <? assigned_untypeds) delete_untypeds_body 0 in
  ret tt.
End process.
Arguments proc_state P : clear implicits.

(** ** Array accesses *)

Lemma wp_aget {S A} (l : list A) (i : nat) a (Q : A -> S -> Prop) s :
  l !! i = Some a -> Q a s -> wp (aget l (Z.of_nat i)) Q s.
Proof. intros Hl HQ. unfold aget. rewrite Nat2Z.id. by eapply wp_deref. Qed.

Lemma wp_aset {S A} (l : list A) (i : nat) v (Q : list A -> S -> Prop) s :
  (i < length l)%nat -> Q (<[i := v]> l) s -> wp (aset l (Z.of_nat i) v) Q s.
Proof.
  intros Hi HQ. unfold aset. rewrite Nat2Z.id. eapply wp_deref; [|exact HQ].
  by rewrite (proj2 (Nat.ltb_lt _ _) Hi).
Qed.

(** Filling an array from the front. *)
Lemma take_S_insert {A} (l : list A) k v :
  (k < length l)%nat -> take (S k) (<[k := v]> l) = take k l ++ [v].
Proof.
  intros Hk. rewrite (take_S_r _ _ v) by (by apply list_lookup_insert_eq).
  by rewrite take_insert_ge.
Qed.

(** ** What is used of the allocator

    [available] counts the untyped objects of 2^23 bytes it can still make,
    [live] has the capabilities of those handed out:
    - allocation succeeds while one is available: a new capability, to an
      object of the size asked for; otherwise it reports an error;
    - freeing an object makes it available again. *)
Record vka_view := VkaView { available : nat; live : gset Z }.

Class UntypedVkaOk (V : Type) `{UntypedVka V} := {
  vka_view_of : V -> vka_view;
  alloc_untyped_ok v : (0 < available (vka_view_of v))%nat ->
    exists c v', vka_alloc_untyped untyped_size_bits v = ((0, VkaObject c untyped_size_bits), v') /\
    c ∉ live (vka_view_of v) /\
    vka_view_of v' = VkaView (pred (available (vka_view_of v))) ({[c]} ∪ live (vka_view_of v));
  alloc_untyped_none v : available (vka_view_of v) = 0%nat ->
    (vka_alloc_untyped untyped_size_bits v).1.1 <> 0 /\
    vka_view_of (vka_alloc_untyped untyped_size_bits v).2 = vka_view_of v;
  free_untyped_ok o v : cptr o ∈ live (vka_view_of v) ->
    vka_view_of (vka_free_object o v) =
      VkaView (S (available (vka_view_of v))) (live (vka_view_of v) ∖ {[cptr o]})
}.

Section allocate_proofs.
Context {CFG : Config} {V : Type} {VKA : UntypedVka V} {VKAOK : UntypedVkaOk V}.
Implicit Types (v : V) (objs arr : list vka_object_t).

(** [objs] are new blocks of 2^23 bytes: between [w] and [w'] exactly they were
    handed out. *)
Definition handed_out (w : vka_view) objs (w' : vka_view) : Prop :=
  Forall (fun o => size_bits o = untyped_size_bits) objs /\
  NoDup (cptr <$> objs) /\
  Forall (fun c => c ∉ live w) (cptr <$> objs) /\
  (length objs <= available w)%nat /\
  w' = VkaView (available w - length objs) (list_to_set (cptr <$> objs) ∪ live w).

Lemma handed_out_nil w : handed_out w [] w.
Proof.
  unfold handed_out. split_and!; try (by constructor); [cbn; lia|].
  destruct w as [n l]. cbn. f_equal; [lia|set_solver].
Qed.

Lemma handed_out_snoc w objs w' c :
  handed_out w objs w' -> c ∉ live w' -> (0 < available w')%nat ->
  handed_out w (objs ++ [VkaObject c untyped_size_bits])
    (VkaView (pred (available w')) ({[c]} ∪ live w')).
Proof.
  intros (Hs & Hnd & Hfresh & Hle & ->) Hc Hav. cbn in Hc, Hav.
  unfold handed_out. rewrite fmap_app, length_app. cbn [length fmap list_fmap app cptr].
  split_and!.
  - apply Forall_app. split; [done|]. by repeat constructor.
  - apply NoDup_app. split; [done|]. split; [|apply NoDup_singleton]. set_solver.
  - apply Forall_app. split; [done|]. constructor; [set_solver|constructor].
  - lia.
  - cbn. f_equal; [lia|]. rewrite list_to_set_app_L. set_solver.
Qed.

(** How many blocks a request gets. *)
Definition blocks_for (bytes max_untypeds : Z) (w : vka_view) : nat :=
  Nat.min (Nat.min (Z.to_nat max_untypeds) (Z.to_nat (bytes / 2 ^ untyped_size_bits))) (available w).

Definition allocated_ok w arr (k : nat) arr' w' : Prop :=
  length arr' = length arr /\ handed_out w (take k arr') w' /\ length (take k arr') = k.

Lemma wp_alloc_untyped (Q : Z * vka_object_t -> V -> Prop) v :
  (forall c v', (0 < available (vka_view_of v))%nat -> c ∉ live (vka_view_of v) ->
     vka_view_of v' = VkaView (pred (available (vka_view_of v))) ({[c]} ∪ live (vka_view_of v)) ->
     Q (0, VkaObject c untyped_size_bits) v') ->
  (forall e o v', available (vka_view_of v) = 0%nat -> e <> 0 ->
     vka_view_of v' = vka_view_of v -> Q (e, o) v') ->
  wp (fun v => Done (vka_alloc_untyped untyped_size_bits v)) Q v.
Proof.
  intros Hok Hno. destruct (decide (0 < available (vka_view_of v))%nat) as [Hav|Hav].
  - destruct (alloc_untyped_ok v Hav) as (c & v' & Heq & Hc & Hv').
    eexists _, _. split; [by rewrite Heq|]. by apply Hok.
  - assert (Hz : available (vka_view_of v) = 0%nat) by lia.
    destruct (alloc_untyped_none v Hz) as [He Hv'].
    destruct (vka_alloc_untyped untyped_size_bits v) as [[e o] v'] eqn:Heq. cbn in *.
    eexists _, _. split; [by rewrite Heq|]. by apply Hno.
Qed.

Definition allocate_inv (bytes max_untypeds : Z) w arr (left : nat)
    (x : Z * Z * list vka_object_t * bool) v : Prop :=
  exists k : nat, x.1.1.1 = Z.of_nat k /\ x.1.1.2 = Z.of_nat k * 2 ^ 23 /\
    allocated_ok w arr k x.1.2 (vka_view_of v) /\ (k <= blocks_for bytes max_untypeds w)%nat /\
    if x.2 then k = blocks_for bytes max_untypeds w else left = S (Z.to_nat max_untypeds - k)%nat.

Lemma wp_allocate_body bytes max_untypeds w arr left x v :
  is_u32 bytes -> 0 <= max_untypeds <= 511 -> max_untypeds <= Z.of_nat (length arr) ->
  allocate_inv bytes max_untypeds w arr left x v -> negb x.2 = true ->
  exists left', left = S left' /\
    wp (allocate_body bytes max_untypeds x) (allocate_inv bytes max_untypeds w arr left') v.
Proof.
  intros Hbytes Hmax Harr. destruct x as [[[num al] arr'] stop].
  intros (k & Hnum & Hal & (Hlen & Hho & Htk) & Hk & Hstop) Hns. cbn in Hnum, Hal, Hlen, Hho, Htk, Hstop, Hns.
  destruct stop; [done|]. subst. eexists. split; [reflexivity|]. clear Hns.
  assert (Hav : available (vka_view_of v) = (available w - k)%nat).
  { destruct Hho as (_ & _ & _ & _ & ->). cbn. by rewrite Htk. }
  assert (Hle : (k <= available w)%nat) by (unfold blocks_for in Hk; lia).
  unfold allocate_body. cbn beta iota.
  assert (Hdiv : (Z.of_nat k * 2 ^ 23 + 2 ^ 23 <= bytes <-> Z.of_nat k < bytes / 2 ^ 23)).
  { pose proof (Z.div_mod bytes (2 ^ 23) ltac:(lia)). pose proof (Z.mod_pos_bound bytes (2 ^ 23) ltac:(lia)). nia. }
  assert (HB : BIT untyped_size_bits = 2 ^ 23) by reflexivity. rewrite HB.
  destruct (Z.ltb_spec (Z.of_nat k) max_untypeds) as [Hlt|Hge]; cbn [andb].
  2:{ apply wp_ret. exists k. split_and!; try done.
      cbn. unfold blocks_for in *. lia. }
  rewrite u32_small by (unfold is_u32; lia).
  destruct (Z.leb_spec (Z.of_nat k * 2 ^ 23 + 2 ^ 23) bytes) as [Hfit|Hno].
  2:{ apply wp_ret. exists k. split_and!; try done.
      cbn. unfold blocks_for, untyped_size_bits in *. lia. }
  apply wp_bind. apply wp_alloc_untyped.
  - intros c v' Hav' Hc Hv'. apply wp_bind, wp_aset; [lia|]. cbn. apply wp_ret.
    exists (S k). cbn [fst snd]. split_and!; [lia|lia| |unfold blocks_for, untyped_size_bits in *; lia|lia].
    split; [by rewrite length_insert|]. rewrite take_S_insert by lia. split.
    + rewrite Hv'. by apply handed_out_snoc.
    + rewrite length_app, Htk. cbn. lia.
  - intros e o v' Hz He Hv'. apply wp_bind, wp_aset; [lia|]. cbn [fst snd].
    rewrite (proj2 (Z.eqb_neq e 0) He). apply wp_ret. exists k. cbn [fst snd].
    split_and!; try done; [|unfold blocks_for in *; lia].
    split; [by rewrite length_insert|]. rewrite take_insert_ge by lia. by rewrite Hv'.
Qed.

(** The routine gets as many blocks as the request, the limit and the
    allocator allow. *)
Lemma wp_allocate bytes max_untypeds arr v :
  is_u32 bytes -> 0 <= max_untypeds <= 511 -> max_untypeds <= Z.of_nat (length arr) ->
  wp (sel4osapi_util_allocate_untypeds bytes max_untypeds arr)
     (fun r v' => r.1 = Z.of_nat (blocks_for bytes max_untypeds (vka_view_of v)) /\
        allocated_ok (vka_view_of v) arr (Z.to_nat r.1) r.2 (vka_view_of v')) v.
Proof.
  intros Hbytes Hmax Harr. unfold sel4osapi_util_allocate_untypeds. apply wp_bind.
  apply (wp_while (allocate_inv bytes max_untypeds (vka_view_of v) arr))
    with (n := S (Z.to_nat max_untypeds)).
  - intros. by apply wp_allocate_body.
  - intros n x s (k & Hnum & _ & Hok & _ & Hstop) Hcond. apply wp_ret. cbn [fst snd].
    apply negb_false_iff in Hcond. rewrite Hcond in Hstop. subst k. split; [done|].
    by rewrite Hnum, Nat2Z.id.
  - exists 0%nat. cbn [fst snd]. split_and!; try done; [|lia|lia].
    split; [done|]. rewrite take_0. split; [apply handed_out_nil|done].
  - done.
Qed.

(** The table holds [blocks], block [i] given to process [owners !! i] (0: free). *)
Definition table_rep (t : untyped_table) (blocks : list vka_object_t) (owners : list Z) : Prop :=
  let n := length owners in
  user_untypeds_num t = Z.of_nat n /\ (0 < n <= 255)%nat /\ length blocks = n /\
  take n (user_untypeds t) = blocks /\
  take n (user_untypeds_allocation t) = owners /\
  take n (user_untypeds_size_bits t) = replicate n untyped_size_bits.

Lemma replicate_S_end' {A} (k : nat) (a : A) : replicate k a ++ [a] = replicate (S k) a.
Proof. symmetry. apply replicate_S_end. Qed.

(** The three loops of the initialisation. *)
Lemma wp_size_bits_loop v t n objs :
  take n (user_untypeds t) = objs -> length objs = n -> (n <= length (user_untypeds_size_bits t))%nat ->
  Forall (fun o => size_bits o = untyped_size_bits) objs ->
  wp (while (Z.to_nat (Z.of_nat n)) (fun i => i <? Z.of_nat n) size_bits_body 0)
     (fun _ s => exists l, s = (v, set_size_bits l t) /\ take n l = replicate n untyped_size_bits)
     (v, t).
Proof.
  intros Hobjs Hlen Hsz Hall.
  apply (wp_for _ _ (fun k (s : V * untyped_table) => exists l, s = (v, set_size_bits l t) /\
    length l = length (user_untypeds_size_bits t) /\ take k l = replicate k untyped_size_bits)); [lia| | |].
  - intros k s Hk (l & -> & Hl & Htk). rewrite Nat2Z.id in Hk.
    destruct (lookup_lt_is_Some_2 objs k) as [o Ho]; [lia|].
    pose proof (proj1 (Forall_lookup _ _) Hall _ _ Ho) as Hbits. cbn in Hbits.
    unfold size_bits_body, on_table. wp_steps. eapply wp_aget.
    { cbn. rewrite <- Hobjs in Ho. apply lookup_take_Some in Ho as [Ho _]. exact Ho. }
    wp_steps. apply wp_aset; [cbn; lia|]. wp_steps. split; [done|].
    exists (<[k := u8 (size_bits o)]> l). split; [done|]. split; [by rewrite length_insert|].
    rewrite take_S_insert, Htk, Hbits by lia. apply replicate_S_end'.
  - intros s (l & -> & Hl & Htk). rewrite Nat2Z.id in Htk. eauto.
  - exists (user_untypeds_size_bits t). rewrite take_0. by destruct t.
Qed.

Lemma wp_release_loop v t n uts :
  (n <= length uts)%nat -> NoDup (cptr <$> take n uts) ->
  Forall (fun c => c ∈ live (vka_view_of v)) (cptr <$> take n uts) ->
  wp (while (Z.to_nat (Z.of_nat n)) (fun i => i <? Z.of_nat n) (release_body uts) 0)
     (fun _ s => s.2 = t /\ vka_view_of s.1 = VkaView (available (vka_view_of v) + n)
        (live (vka_view_of v) ∖ list_to_set (cptr <$> take n uts)))
     (v, t).
Proof.
  intros Hlen Hnd Hlive.
  apply (wp_for _ _ (fun k (s : V * untyped_table) => s.2 = t /\
    vka_view_of s.1 = VkaView (available (vka_view_of v) + k)
      (live (vka_view_of v) ∖ list_to_set (cptr <$> take k uts)))); [lia| | |].
  - intros k [v1 t1] Hk [Ht Hv1]. cbn in Ht, Hv1. subst t1. rewrite Nat2Z.id in Hk.
    destruct (lookup_lt_is_Some_2 uts k) as [o Ho]; [lia|].
    assert (Hin : cptr o ∈ live (vka_view_of v) /\ cptr o ∉ cptr <$> take k uts).
    { rewrite <- (take_drop k (take n uts)), fmap_app in Hlive, Hnd.
      rewrite take_take, Nat.min_l in Hlive, Hnd by lia.
      rewrite (drop_S _ o) in Hlive, Hnd by (by rewrite lookup_take_lt).
      apply Forall_app in Hlive as [_ Hlive]. apply Forall_cons in Hlive as [Hlive _].
      apply NoDup_app in Hnd as (_ & Hnd & _). split; [done|]. intros Hi. apply (Hnd _ Hi). apply elem_of_cons. by left. }
    destruct Hin as [Hin Hni]. unfold release_body, on_vka. wp_steps. eapply wp_aget; [exact Ho|].
    wp_steps. split; [done|]. cbn [fst snd]. split; [done|].
    rewrite free_untyped_ok.
    + rewrite Hv1, (take_S_r uts k o), fmap_app, list_to_set_app_L by done. cbn.
      f_equal; [lia|]. set_solver.
    + rewrite Hv1. cbn. set_solver.
  - intros s Hs. rewrite Nat2Z.id in Hs. exact Hs.
  - cbn [fst snd]. split; [done|]. rewrite take_0. cbn. destruct (vka_view_of v) as [a l]. cbn.
    f_equal; [lia|set_solver].
Qed.

Lemma wp_clear_loop v t n :
  (n <= length (user_untypeds_allocation t))%nat ->
  wp (while (Z.to_nat (Z.of_nat n)) (fun i => i <? Z.of_nat n) clear_body 0)
     (fun _ s => exists l, s = (v, set_allocation l t) /\ take n l = replicate n 0) (v, t).
Proof.
  intros Hlen.
  apply (wp_for _ _ (fun k (s : V * untyped_table) => exists l, s = (v, set_allocation l t) /\
    length l = length (user_untypeds_allocation t) /\ take k l = replicate k 0)); [lia| | |].
  - intros k s Hk (l & -> & Hl & Htk). rewrite Nat2Z.id in Hk.
    unfold clear_body, on_table. wp_steps. apply wp_aset; [cbn; lia|]. wp_steps. split; [done|].
    exists (<[k := 0]> l). split; [done|]. split; [by rewrite length_insert|].
    rewrite take_S_insert, Htk by lia. apply replicate_S_end'.
  - intros s (l & -> & Hl & Htk). rewrite Nat2Z.id in Htk. eauto.
  - exists (user_untypeds_allocation t). rewrite take_0. by destruct t.
Qed.

(** Giving the reserve back leaves what the user processes got. *)
Lemma handed_out_release w ro w1 uo w2 :
  handed_out w ro w1 -> handed_out w1 uo w2 ->
  Forall (fun c => c ∈ live w2) (cptr <$> ro) /\
  handed_out w uo (VkaView (available w2 + length ro) (live w2 ∖ list_to_set (cptr <$> ro))).
Proof.
  intros (Hrs & Hrnd & Hrf & Hrl & ->) (Hus & Hund & Huf & Hul & ->). cbn in *. split.
  - apply Forall_forall. intros c Hc. set_solver.
  - unfold handed_out. split_and!; try done; [|lia|].
    + eapply Forall_impl; [exact Huf|]. cbn. set_solver.
    + f_equal; [lia|]. rewrite Forall_forall in Hrf, Huf. set_solver.
Qed.

Lemma wp_initialize_untypeds root_task_uts t v :
  is_u32 SEL4OSAPI_ROOT_TASK_UNTYPED_MEM_SIZE ->
  (16 <= length root_task_uts)%nat ->
  (length (user_untypeds t) <= 255)%nat ->
  (length (user_untypeds t) <= length (user_untypeds_size_bits t))%nat ->
  (length (user_untypeds t) <= length (user_untypeds_allocation t))%nat ->
  let reserve := blocks_for SEL4OSAPI_ROOT_TASK_UNTYPED_MEM_SIZE ROOT_TASK_NUM_UNTYPEDS (vka_view_of v) in
  let n := Nat.min (length (user_untypeds t)) (available (vka_view_of v) - reserve) in
  (0 < n)%nat ->
  wp (initialize_untypeds root_task_uts) (fun _ s => exists blocks,
    length blocks = n /\ table_rep s.2 blocks (replicate n 0) /\
    handed_out (vka_view_of v) blocks (vka_view_of s.1)) (v, t).
Proof.
  intros Hroot Huts Hmax Hsb Halloc reserve n Hn. unfold initialize_untypeds, on_vka.
  apply wp_bind, wp_zoom. cbn [fst snd].
  eapply wp_mono; [apply wp_allocate; [done|unfold ROOT_TASK_NUM_UNTYPEDS; lia|
    unfold ROOT_TASK_NUM_UNTYPEDS; lia]|].
  intros [rn ruts] v1 (Hrn & Hrl & Hrho & Hrlen). cbn [fst snd] in *. fold reserve in Hrn.
  rewrite Hrn, Nat2Z.id in Hrho, Hrlen. wp_steps. cbn [fst snd].
  eapply wp_mono; [apply wp_allocate; [unfold is_u32, UINT_MAX; lia|lia|lia]|].
  intros [un uuts] v2 (Hun & Hul & Huho & Hulen). cbn [fst snd] in *.
  assert (Hblocks : blocks_for UINT_MAX (Z.of_nat (length (user_untypeds t))) (vka_view_of v1) = n).
  { destruct Hrho as (_ & _ & _ & _ & Hv1). rewrite Hrlen in Hv1. unfold blocks_for. rewrite Hv1. cbn [available].
    replace (UINT_MAX / 2 ^ untyped_size_bits) with 511 by reflexivity. subst n. lia. }
  rewrite Hun, Hblocks, Nat2Z.id in Huho, Hulen. rewrite Hun, Hblocks, u8_small by (unfold is_u8; lia).
  unfold on_table. wp_steps. cbn [fst snd].
  eapply wp_mono; [apply (wp_size_bits_loop v2 _ n (take n uuts)); cbn; [done|done|lia|apply Huho]|].
  intros _ s (bits & -> & Hbits). wp_steps. rewrite Hrn.
  destruct (handed_out_release _ _ _ _ _ Hrho Huho) as [Hlive Hfinal]. rewrite Hrlen in Hfinal.
  eapply wp_mono; [apply wp_release_loop; [|apply Hrho|done]|].
  { rewrite length_take in Hrlen. lia. }
  intros _ [v3 t3] [Ht Hv3]. cbn [fst snd] in Ht, Hv3. subst t3. wp_step. apply wp_assert; [apply Z.ltb_lt; lia|].
  apply wp_bind. eapply wp_mono; [apply wp_clear_loop; cbn; lia|].
  intros _ s (owners & -> & Howners). apply wp_ret. exists (take n uuts). cbn [fst snd].
  split; [done|]. split; [|by rewrite Hv3].
  unfold table_rep. rewrite length_replicate. cbn. split_and!; try done; lia.
Qed.

(** C26: after [sel4osapi_system_initialize] has set the untyped memory aside,
    the table describes as many new blocks of 2^23 bytes as the array and the
    allocator have room for, all of them free, and the blocks that were held
    back for the root task in the meantime have been returned to the allocator. *)
Theorem initialize_untypeds_reserves root_task_uts t v :
  is_u32 SEL4OSAPI_ROOT_TASK_UNTYPED_MEM_SIZE ->
  (16 <= length root_task_uts)%nat ->
  (length (user_untypeds t) <= 255)%nat ->
  (length (user_untypeds t) <= length (user_untypeds_size_bits t))%nat ->
  (length (user_untypeds t) <= length (user_untypeds_allocation t))%nat ->
  let reserve := blocks_for SEL4OSAPI_ROOT_TASK_UNTYPED_MEM_SIZE ROOT_TASK_NUM_UNTYPEDS (vka_view_of v) in
  let n := Nat.min (length (user_untypeds t)) (available (vka_view_of v) - reserve) in
  (0 < n)%nat ->
  wp (initialize_untypeds root_task_uts) (fun _ s => exists blocks,
    length blocks = n /\ table_rep s.2 blocks (replicate n 0) /\
    handed_out (vka_view_of v) blocks (vka_view_of s.1)) (v, t).
Proof. apply wp_initialize_untypeds. Qed.
End allocate_proofs.

(** An allocator to run examples on: a number of objects, capabilities picked
    among the unused ones. *)
Record demo_vka := DemoVka { dv_available : nat; dv_live : gset Z }.

#[export] Instance demo_vka_ops : UntypedVka demo_vka := {|
  vka_alloc_untyped bits v :=
    match dv_available v with
    | O => ((1, VkaObject 0 0), v)
    | S n => let c := fresh (dv_live v) in ((0, VkaObject c bits), DemoVka n ({[c]} ∪ dv_live v))
    end;
  vka_free_object o v := DemoVka (S (dv_available v)) (dv_live v ∖ {[cptr o]})
|}.

#[export] Instance demo_vka_ok : UntypedVkaOk demo_vka.
Proof.
  refine {| vka_view_of := fun v => VkaView (dv_available v) (dv_live v) |}; [| |done].
  - intros [[|n] l]; cbn [available live dv_available dv_live]; [lia|]. intros _. eexists _, _.
    split; [reflexivity|]. split; [apply is_fresh|done].
  - intros [n l] Hn. cbn in *. by rewrite Hn.
Defined.

(** A machine with eleven blocks and a table of four entries. *)
Definition empty_table : untyped_table :=
  UntypedTable 0 (replicate 4 (VkaObject 0 0)) (replicate 4 0) (replicate 4 0) [].

(** Eight blocks are held back for the root task; three are left. *)
Example initialize_untypeds_reserves_witness :
  wp (initialize_untypeds (CFG := default_config) (replicate 16 (VkaObject 0 0)))
     (fun _ s => exists blocks, length blocks = 3%nat /\ table_rep s.2 blocks [0; 0; 0] /\
        handed_out (VkaView 11 ∅) blocks (vka_view_of s.1))
     (DemoVka 11 ∅, empty_table).
Proof.
  destruct (@initialize_untypeds_reserves default_config demo_vka _ _
    (replicate 16 (VkaObject 0 0)) empty_table (DemoVka 11 ∅))
    as (u & s & Heq & blocks & Hlen & Hrep & Hout); try (cbn; lia).
  - cbn. unfold is_u32. lia.
  - vm_compute. lia.
  - exists u, s. split; [exact Heq|]. exists blocks. split; [exact Hlen|]. split; [exact Hrep|exact Hout].
Defined.

(** ** What is used of the CSpace of a new process

    [cslots]: the capabilities copied into it, with their badges, from slot
    [cslot_base] on; [cspace_end]: the size of the CSpace (documented:
    capabilities are minted into consecutive slots, 0 is never one). *)
Class ProcessCSpaceOk (P : Type) `{ProcessCSpace P} := {
  cslots : P -> list (Z * Z);
  cslot_base : Z;
  cspace_end : Z;
  next_free (p : P) : Z := cslot_base + Z.of_nat (length (cslots p));
  mint_ok cap badge p : 0 < next_free p < cspace_end ->
    (sel4utils_mint_cap_to_process cap badge p).1 = next_free p /\
    cslots (sel4utils_mint_cap_to_process cap badge p).2 = cslots p ++ [(cap, badge)]
}.

(** ** Claiming blocks *)

(** The free blocks, lowest index first. *)
Definition free_blocks (owners : list Z) : list nat :=
  filter (fun i => owners !! i = Some 0) (seq 0 (length owners)).

(** The number of blocks a process needs. *)
Definition blocks_needed {CFG : Config} : nat :=
  Z.to_nat ((SEL4OSAPI_USER_PROCESS_UNTYPED_MEM_SIZE + 2 ^ untyped_size_bits - 1) / 2 ^ untyped_size_bits).

(** What creating a process claims: the first free blocks, as many as it needs. *)
Definition claimed {CFG : Config} (owners : list Z) : list nat := take blocks_needed (free_blocks owners).

(** The capabilities of the blocks [ids] for [pid]. *)
Definition block_caps (pid : Z) (blocks : list vka_object_t) (ids : list nat) : list (Z * Z) :=
  omap (fun i => (fun b => (cptr b, pid)) <$> blocks !! i) ids.

(** Giving the blocks [ids] to [pid]. *)
Definition give (pid : Z) (ids : list nat) (owners : list Z) : list Z :=
  foldr (fun i l => <[i := pid]> l) owners ids.

(** The environment of a process that has the blocks [ids], in the slots from
    [start] on. *)
Definition env_rep (e : untyped_env) (start : Z) (ids : list nat) : Prop :=
  untypeds_start e = start /\ untypeds_end e = start + Z.of_nat (length ids) - 1 /\
  take (length ids) (untyped_indices e) = Z.of_nat <$> ids /\
  take (length ids) (untyped_size_bits_list e) = replicate (length ids) untyped_size_bits.

(** The environment is one page, all zero at first. *)
Definition zero_env (n : nat) : untyped_env := UntypedEnv 0 0 (replicate n 0) (replicate n 0).

Lemma give_length pid ids owners : length (give pid ids owners) = length owners.
Proof. induction ids; cbn; [done|]. by rewrite length_insert. Qed.

Lemma give_lookup_in pid ids owners i :
  i ∈ ids -> (i < length owners)%nat -> give pid ids owners !! i = Some pid.
Proof.
  induction ids as [|j ids IH]; intros Hin Hlt; [by apply elem_of_nil in Hin|].
  change (<[j := pid]> (give pid ids owners) !! i = Some pid).
  destruct (decide (j = i)) as [->|Hne].
  - apply list_lookup_insert_eq. by rewrite give_length.
  - rewrite list_lookup_insert_ne by done. apply IH; [|done]. apply elem_of_cons in Hin as [|]; [congruence|done].
Qed.

Lemma give_lookup_out pid ids owners i : i ∉ ids -> give pid ids owners !! i = owners !! i.
Proof.
  induction ids as [|j ids IH]; intros Hni; [done|]. apply not_elem_of_cons in Hni as [Hne Hni].
  change (<[j := pid]> (give pid ids owners) !! i = owners !! i).
  rewrite list_lookup_insert_ne by congruence. by apply IH.
Qed.

Lemma give_snoc pid ids j owners : give pid (ids ++ [j]) owners = give pid ids (<[j := pid]> owners).
Proof. unfold give. by rewrite foldr_app. Qed.

Lemma give_insert pid ids j owners : j ∉ ids ->
  <[j := pid]> (give pid ids owners) = give pid (ids ++ [j]) owners.
Proof.
  rewrite give_snoc. induction ids as [|k ids IH]; intros Hni; [done|].
  apply not_elem_of_cons in Hni as [Hne Hni].
  change (<[j := pid]> (<[k := pid]> (give pid ids owners)) = <[k := pid]> (give pid ids (<[j := pid]> owners))).
  rewrite <- IH by done. by rewrite list_insert_insert_ne.
Qed.

Lemma elem_of_free_blocks owners i : i ∈ free_blocks owners <-> owners !! i = Some 0.
Proof.
  unfold free_blocks. rewrite list_elem_of_filter, elem_of_seq. split; [tauto|].
  intros Hi. split; [done|]. apply lookup_lt_Some in Hi. lia.
Qed.

Lemma free_blocks_NoDup owners : NoDup (free_blocks owners).
Proof. apply NoDup_filter, NoDup_seq. Qed.

Lemma free_blocks_length owners : (length (free_blocks owners) <= length owners)%nat.
Proof. unfold free_blocks. pose proof (length_filter (fun i => owners !! i = Some 0) (seq 0 (length owners))). rewrite length_seq in *. lia. Qed.

Section process_proofs.
Context {CFG : Config} {P : Type} {CSP : ProcessCSpace P} {CSPOK : ProcessCSpaceOk P}.
Implicit Types (t : untyped_table) (e : untyped_env) (p : P) (ids : list nat).

(** The environment after claiming: untouched when nothing was claimed. *)
Definition env_after e (e0 : untyped_env) (start : Z) ids : Prop :=
  (ids = [] -> e = e0) /\ (ids <> [] -> env_rep e start ids).

(** The free blocks among the first [k]. *)
Definition free_upto (owners : list Z) (k : nat) : list nat :=
  filter (fun i => owners !! i = Some 0) (seq 0 k).

Lemma free_upto_S owners k :
  free_upto owners (S k) =
  free_upto owners k ++ (if decide (owners !! k = Some 0) then [k] else []).
Proof.
  unfold free_upto. by rewrite seq_S, filter_app.
Qed.

Lemma free_upto_prefix owners k : (k <= length owners)%nat ->
  free_upto owners k = take (length (free_upto owners k)) (free_blocks owners).
Proof.
  intros Hk. unfold free_blocks. replace (length owners) with (k + (length owners - k))%nat by lia.
  rewrite seq_app, filter_app. by rewrite take_app_length.
Qed.

Lemma elem_of_free_upto owners k i : i ∈ free_upto owners k -> (i < k)%nat.
Proof. unfold free_upto. rewrite list_elem_of_filter, elem_of_seq. lia. Qed.

Lemma claimed_stop owners k :
  (k <= length owners)%nat -> (length (free_upto owners k) <= blocks_needed)%nat ->
  k = length owners \/ (blocks_needed <= length (free_upto owners k))%nat ->
  free_upto owners k = claimed owners.
Proof.
  intros Hk Hle [->|Hge]; unfold claimed.
  - rewrite take_ge; done.
  - replace blocks_needed with (length (free_upto owners k)) by lia. by apply free_upto_prefix.
Qed.

(** The size test of the loop counts blocks. *)
Lemma size_test (c : nat) : is_u32 SEL4OSAPI_USER_PROCESS_UNTYPED_MEM_SIZE ->
  Z.of_nat c * 2 ^ 23 < SEL4OSAPI_USER_PROCESS_UNTYPED_MEM_SIZE <-> (c < blocks_needed)%nat.
Proof.
  intros Hlim. unfold blocks_needed, untyped_size_bits, is_u32 in *.
  pose proof (Z.div_mod (SEL4OSAPI_USER_PROCESS_UNTYPED_MEM_SIZE + 2 ^ 23 - 1) (2 ^ 23) ltac:(lia)).
  pose proof (Z.mod_pos_bound (SEL4OSAPI_USER_PROCESS_UNTYPED_MEM_SIZE + 2 ^ 23 - 1) (2 ^ 23) ltac:(lia)). nia.
Qed.

(** The state between two rounds of the claiming loop, [k] blocks seen. *)
Definition init_inv (pid : Z) (s0 : proc_state P) blocks owners (k : nat) (x : Z * Z * Z) (s : proc_state P) : Prop :=
  let ids := free_upto owners k in
  let n := length owners in
  x = (Z.of_nat k, Z.of_nat (length ids) * 2 ^ 23, Z.of_nat (length ids)) /\
  (k <= n)%nat /\ (length ids <= blocks_needed)%nat /\
  table_rep (table s) blocks (give pid ids owners) /\ revoked (table s) = revoked (table s0) /\
  next_free (native s) = next_free (native s0) + Z.of_nat (length ids) /\
  cslots (native s) = cslots (native s0) ++ block_caps pid blocks ids /\
  env_after (penv s) (penv s0) (next_free (native s0)) ids /\
  length (untyped_indices (penv s)) = length (untyped_indices (penv s0)) /\
  length (untyped_size_bits_list (penv s)) = length (untyped_size_bits_list (penv s0)).

Lemma table_rep_owner t blocks owners i o :
  table_rep t blocks owners -> owners !! i = Some o -> user_untypeds_allocation t !! i = Some o.
Proof. intros (_ & _ & _ & _ & <- & _) Hi. by apply lookup_take_Some in Hi as [? _]. Qed.

Lemma table_rep_block t blocks owners i : table_rep t blocks owners -> (i < length owners)%nat ->
  (exists b, user_untypeds t !! i = Some b /\ blocks !! i = Some b) /\
  user_untypeds_size_bits t !! i = Some untyped_size_bits /\
  (length owners <= length (user_untypeds_allocation t))%nat.
Proof.
  intros (Hn & Hb & Hlen & Hbl & Hal & Hsz) Hi. split_and!.
  - destruct (lookup_lt_is_Some_2 blocks i) as [b Hbi]; [lia|]. exists b.
    split; [|done]. rewrite <- Hbl in Hbi. by apply lookup_take_Some in Hbi as [? _].
  - assert (Hr : replicate (length owners) untyped_size_bits !! i = Some untyped_size_bits)
      by (by apply lookup_replicate_2).
    rewrite <- Hsz in Hr. by apply lookup_take_Some in Hr as [? _].
  - apply (f_equal length) in Hal. rewrite length_take in Hal. lia.
Qed.

Lemma table_rep_give t blocks owners i pid : table_rep t blocks owners -> (i < length owners)%nat ->
  table_rep (set_allocation (<[i := pid]> (user_untypeds_allocation t)) t) blocks (<[i := pid]> owners).
Proof.
  intros (Hn & Hb & Hlen & Hbl & Hal & Hsz) Hi. unfold table_rep. rewrite length_insert. cbn.
  split_and!; try done; try lia. rewrite take_insert_lt by lia. by rewrite Hal.
Qed.

Lemma wp_copy_cap_into pid cap (Q : Z -> proc_state P -> Prop) s :
  0 < next_free (native s) < cspace_end ->
  (forall p', cslots p' = cslots (native s) ++ [(cap, pid)] -> next_free p' = next_free (native s) + 1 ->
     Q (next_free (native s)) (ProcState (table s) (penv s) p')) ->
  wp (sel4osapi_process_copy_cap_into pid cap) Q s.
Proof.
  intros Hn HQ. destruct (mint_ok cap pid (native s) Hn) as [H1 H2].
  unfold sel4osapi_process_copy_cap_into. apply wp_bind. eexists _, _. split; [done|].
  rewrite H1. apply wp_bind, wp_assert.
  - apply negb_true_iff, Z.eqb_neq. lia.
  - apply wp_ret. apply HQ; [done|]. unfold next_free. rewrite H2, length_app. cbn [length]. lia.
Qed.

(** Entering one more block in the environment. *)
Lemma env_after_snoc e e0 start ids i :
  env_after e e0 start ids -> (length ids < length (untyped_indices e))%nat ->
  (length ids < length (untyped_size_bits_list e))%nat ->
  env_after (UntypedEnv (if Z.of_nat (length ids) =? 0 then start + Z.of_nat (length ids) else untypeds_start e)
    (start + Z.of_nat (length ids))
    (<[length ids := untyped_size_bits]> (untyped_size_bits_list e))
    (<[length ids := Z.of_nat i]> (untyped_indices e))) e0 start (ids ++ [i]).
Proof.
  intros [Hnil Hcons] Hli Hls. split; [by destruct ids|]. intros _. unfold env_rep. cbn.
  rewrite length_app, fmap_app. cbn. rewrite Nat.add_1_r, !take_S_insert by done.
  destruct ids as [|j ids].
  - cbn. split_and!; try lia; try done. apply Z.add_0_r.
  - destruct Hcons as (Hst & _ & Hind & Hsz); [done|]. rewrite Hind, Hsz.
    split_and!; [exact Hst|cbn; lia|done|]. apply replicate_S_end'.
Qed.

(** The hypotheses on the state a process is created in. *)
Record creation_ok (pid : Z) (s : proc_state P) blocks owners : Prop := {
  cr_pid : 0 < pid < 256;
  cr_limit : is_u32 SEL4OSAPI_USER_PROCESS_UNTYPED_MEM_SIZE;
  cr_table : table_rep (table s) blocks owners;
  cr_indices : (length owners <= length (untyped_indices (penv s)))%nat;
  cr_sizes : (length owners <= length (untyped_size_bits_list (penv s)))%nat;
  cr_fresh : untypeds_start (penv s) = 0 /\ untypeds_end (penv s) = 0;
  cr_slots : 0 < next_free (native s);
  cr_room : next_free (native s) + Z.of_nat (length owners) <= cspace_end;
  cr_end : cspace_end <= 2 ^ 32
}.

Lemma wp_init_untypeds_body pid s0 blocks owners k x s :
  creation_ok pid s0 blocks owners ->
  init_inv pid s0 blocks owners k x s -> (k < length owners)%nat ->
  (length (free_upto owners k) < blocks_needed)%nat ->
  wp (init_untypeds_body pid x) (init_inv pid s0 blocks owners (S k)) s.
Proof.
  intros Hcr (-> & Hk & Hle & Htab & Hrev & Hnext & Hcs & Henv & Hli & Hls) Hlt Hneed.
  destruct (cr_table _ _ _ _ Hcr) as (_ & Hn255 & _).
  pose proof (cr_pid _ _ _ _ Hcr). pose proof (cr_room _ _ _ _ Hcr).
  pose proof (cr_slots _ _ _ _ Hcr). pose proof (cr_indices _ _ _ _ Hcr). pose proof (cr_sizes _ _ _ _ Hcr).
  set (ids := free_upto owners k) in *.
  assert (Hni : k ∉ ids) by (intros Hin%elem_of_free_upto; lia).
  assert (Hids : (length ids <= k)%nat).
  { unfold ids, free_upto. pose proof (length_filter (fun i => owners !! i = Some 0) (seq 0 k)).
    rewrite length_seq in *. lia. }
  destruct (lookup_lt_is_Some_2 owners k Hlt) as [o Ho].
  assert (Ho' : give pid ids owners !! k = Some o) by (by rewrite give_lookup_out).
  assert (HS : free_upto owners (S k) = ids ++ (if decide (o = 0) then [k] else [])).
  { rewrite free_upto_S, Ho. fold ids. destruct (decide (o = 0)) as [->|Hne].
    - by rewrite decide_True.
    - rewrite decide_False; [done|congruence]. }
  unfold init_untypeds_body. wp_steps. eapply wp_aget; [eapply table_rep_owner; done|].
  destruct (Z.eqb_spec o 0) as [->|Hne]; cbn [negb].
  2:{ apply wp_ret. unfold init_inv. rewrite HS, decide_False, app_nil_r by done.
      split_and!; try done; try lia. f_equal. f_equal. lia. }
  rewrite decide_True in HS by done.
  assert (Hkg : (k < length (give pid ids owners))%nat) by (by rewrite give_length).
  destruct (table_rep_block _ _ _ _ Htab Hkg) as ((b & Hb & Hbi) & Hbits & Hla).
  rewrite give_length in Hla.
  apply wp_bind. eapply wp_aget; [exact Hb|]. apply wp_bind, wp_copy_cap_into; [lia|].
  intros p' Hcs' Hp'. cbn [table penv native]. apply wp_bind, wp_aset; [lia|].
  unfold on_ptable. wp_steps. eapply wp_aget; [exact Hbits|].
  wp_steps. apply wp_aset; [lia|]. wp_steps. apply wp_aset; [lia|]. wp_steps.
  unfold init_inv. rewrite HS, length_app. cbn [length]. rewrite Hnext, !u8_small by (unfold is_u8; lia).
  change (Z.shiftl 1 untyped_size_bits) with (2 ^ 23). rewrite u32_small by (unfold is_u32; lia).
  split_and!; try lia.
  - f_equal; [f_equal|]; lia.
  - cbn. rewrite <- give_insert by done. by apply table_rep_give.
  - cbn. exact Hrev.
  - cbn. lia.
  - cbn [native set_penv]. unfold block_caps in *. rewrite omap_app, app_assoc, <- Hcs, Hcs'. cbn. by rewrite Hbi.
  - cbn [penv set_penv]. apply env_after_snoc; [done| |]; lia.
  - cbn. by rewrite length_insert.
  - cbn. by rewrite length_insert.
Qed.

Lemma wp_init_untypeds pid s0 blocks owners :
  creation_ok pid s0 blocks owners ->
  let ids := claimed owners in
  wp (init_untypeds pid) (fun _ s =>
    table_rep (table s) blocks (give pid ids owners) /\ revoked (table s) = revoked (table s0) /\
    next_free (native s) = next_free (native s0) + Z.of_nat (length ids) /\
    cslots (native s) = cslots (native s0) ++ block_caps pid blocks ids /\
    env_after (penv s) (penv s0) (next_free (native s0)) ids) s0.
Proof.
  intros Hcr ids. pose proof (cr_table _ _ _ _ Hcr) as Htab0.
  destruct (cr_table _ _ _ _ Hcr) as (Hn & Hn255 & _).
  unfold init_untypeds. wp_steps. rewrite Hn.
  apply (wp_while (fun left x s => exists k, left = (length owners - k)%nat /\
    init_inv pid s0 blocks owners k x s)) with (n := length owners).
  - intros left x s (k & -> & Hinv) [Hlt Hsz]%andb_prop.
    pose proof Hinv as (-> & Hk & _). cbn [fst snd] in Hlt, Hsz.
    apply Z.ltb_lt in Hlt, Hsz. apply (size_test _ (cr_limit _ _ _ _ Hcr)) in Hsz.
    exists (length owners - S k)%nat. split; [lia|].
    eapply wp_mono; [apply wp_init_untypeds_body; [done|done|lia|done]|]. eauto.
  - intros left x s (k & _ & -> & Hk & Hle & Htab & Hrev & Hnext & Hcs & Henv & _ & _) Hexit.
    cbn [fst snd] in Hexit.
    assert (Hids : free_upto owners k = ids).
    { apply claimed_stop; [done|done|]. apply andb_false_iff in Hexit as [Hx|Hx]; apply Z.ltb_ge in Hx.
      - left. lia.
      - right. destruct (decide (blocks_needed <= length (free_upto owners k))%nat); [done|].
        exfalso. apply Z.le_ngt in Hx. apply Hx, (size_test _ (cr_limit _ _ _ _ Hcr)). lia. }
    rewrite Hids in *. wp_step. apply wp_get, wp_assert; [|done].
    destruct (decide (ids = [])) as [Hnil|Hne].
    + rewrite (proj1 Henv Hnil). destruct (cr_fresh _ _ _ _ Hcr) as [-> ->].
      destruct Htab as (-> & _). rewrite give_length. apply Z.leb_le.
      change (u32 (0 - 0 + 1)) with 1. lia.
    + destruct (proj2 Henv Hne) as (-> & -> & _). destruct Htab as (-> & _). rewrite give_length.
      assert (length ids <= length owners)%nat.
      { unfold ids, claimed. pose proof (free_blocks_length owners). rewrite length_take. lia. }
      apply Z.leb_le. rewrite u32_small by (unfold is_u32; lia). lia.
  - exists 0%nat. split; [lia|]. unfold init_inv, free_upto. cbn [seq filter list_filter length].
    split_and!; try done; try lia. by rewrite app_nil_r.
  - lia.
Qed.

(** What minting keeps, claiming blocks keeps. *)
Lemma init_untypeds_keeps (I : P -> Prop) pid s :
  (forall cap badge p, I p -> I (sel4utils_mint_cap_to_process cap badge p).2) -> I (native s) ->
  wlp (init_untypeds pid) (fun _ s' => I (native s')) s.
Proof.
  intros Hmint Hs. unfold init_untypeds. wlp_steps. eapply wlp_mono.
  - apply (wlp_while (fun s => I (native s))); [|exact Hs].
    intros [[i sz] n] s1 H1. unfold init_untypeds_body, aget, aset, on_ptable, sel4osapi_process_copy_cap_into. wlp_steps.
    apply wlp_deref. intros o _. destruct (negb (o =? 0)); wlp_steps; [done|]. apply wlp_deref. intros b _.
    wlp_steps. intros c s2 [= <- <-]. wlp_steps. apply wlp_deref. intros al _. wlp_steps.
    apply wlp_deref. intros bits _. wlp_steps. apply wlp_deref. intros sizes _. wlp_steps.
    apply wlp_deref. intros ind _. wlp_steps. by apply Hmint.
  - intros x s1 H1. by wlp_steps.
Qed.

(** ** Returning blocks *)

(** What deletion reads of the environment: slots and indices. *)
Definition env_blocks e (start : Z) ids : Prop :=
  untypeds_start e = start /\ untypeds_end e = start + Z.of_nat (length ids) - 1 /\
  take (length ids) (untyped_indices e) = Z.of_nat <$> ids.

Lemma env_rep_blocks e start ids : env_rep e start ids -> env_blocks e start ids.
Proof. intros (? & ? & ? & ?). by split_and!. Qed.

Lemma zero_env_blocks N : (0 < N)%nat -> env_blocks (zero_env N) 0 [0%nat].
Proof. intros HN. destruct N; [lia|]. by split_and!. Qed.

(** The slots revoked. *)
Definition slots_from (start : Z) (n : nat) : list Z := (fun i => u32 (start + Z.of_nat i)) <$> seq 0 n.

Lemma slots_from_S start n : slots_from start (S n) = slots_from start n ++ [u32 (start + Z.of_nat n)].
Proof. unfold slots_from. by rewrite seq_S, fmap_app. Qed.

(** The state of deletion after [k] rounds. *)
Definition delete_inv (s0 : proc_state P) blocks owners start ids (k : nat) (s : proc_state P) : Prop :=
  table_rep (table s) blocks (give 0 (take k ids) owners) /\
  revoked (table s) = revoked (table s0) ++ slots_from start k /\
  penv s = penv s0 /\ native s = native s0.

Lemma blocks_bound n (ids : list nat) : NoDup ids -> Forall (fun i => (i < n)%nat) ids -> (length ids <= n)%nat.
Proof.
  intros Hnd Hlt. transitivity (length (seq 0 n)); [|by rewrite length_seq].
  apply submseteq_length, NoDup_submseteq; [done|]. intros i Hi. apply elem_of_seq.
  rewrite Forall_forall in Hlt. specialize (Hlt i Hi). lia.
Qed.

Lemma wp_delete_untypeds s0 blocks owners start ids :
  table_rep (table s0) blocks owners -> env_blocks (penv s0) start ids ->
  NoDup ids -> Forall (fun i => (i < length owners)%nat) ids ->
  wp delete_untypeds (fun _ => delete_inv s0 blocks owners start ids (length ids)) s0.
Proof.
  intros Htab (Hst & Hend & Hind) Hnd Hlt.
  pose proof (blocks_bound _ _ Hnd Hlt) as Hlen.
  assert (Hmax : (length owners <= 255)%nat) by apply Htab.
  unfold delete_untypeds. wp_steps. rewrite Hst, Hend.
  replace (s32 (start + Z.of_nat (length ids) - 1 - start + 1)) with (Z.of_nat (length ids))
    by (rewrite s32_small; lia).
  apply (wp_for _ _ (delete_inv s0 blocks owners start ids)); [lia| | |].
  - intros k s Hk (Hrep & Hrev & He & Hp). rewrite Nat2Z.id in Hk.
    destruct (lookup_lt_is_Some_2 ids k) as [i Hi]; [lia|].
    assert (Hil : (i < length owners)%nat) by (by apply (proj1 (Forall_lookup _ _) Hlt k)).
    assert (Hig : (i < length (give 0 (take k ids) owners))%nat) by (by rewrite give_length).
    unfold delete_untypeds_body, on_ptable. wp_steps. rewrite He. eapply wp_aget.
    { apply (lookup_take_Some _ (length ids)). rewrite Hind, list_lookup_fmap, Hi. reflexivity. }
    destruct (table_rep_block _ _ _ _ Hrep Hig) as (_ & _ & Hla). rewrite give_length in Hla.
    wp_steps. apply wp_aset; [lia|]. wp_steps. split; [done|].
    unfold delete_inv. cbn [table penv native]. split_and!; try done.
    + assert (Hni : i ∉ take k ids).
      { intros (j & Hj & Hjk)%elem_of_take. pose proof (NoDup_lookup _ _ _ _ Hnd Hi Hj). lia. }
      rewrite (take_S_r ids k i), <- give_insert by done. by apply (table_rep_give (add_revoked _ _) _ _ _ _ Hrep).
    + cbn [revoked add_revoked set_allocation]. by rewrite Hrev, slots_from_S, Hst, app_assoc.
  - intros s Hs. rewrite Nat2Z.id in Hs. by apply wp_ret.
  - unfold delete_inv. rewrite take_0. cbn. by rewrite app_nil_r.
Qed.

(** ** One process *)

(** Creating a process gives it the free blocks with the lowest numbers, as
    many as it needs or all there are, and no block of another process; they
    are entered in its environment in that order, with consecutive
    capabilities and their size. *)
Theorem process_creation_claims pid s0 blocks owners :
  creation_ok pid s0 blocks owners ->
  wp (init_untypeds pid) (fun _ s => exists owners',
    table_rep (table s) blocks owners' /\
    (forall i, i ∈ claimed owners -> owners !! i = Some 0 /\ owners' !! i = Some pid) /\
    (forall i, i ∉ claimed owners -> owners' !! i = owners !! i) /\
    (length (claimed owners) = blocks_needed \/ forall i, owners' !! i <> Some 0) /\
    next_free (native s) = next_free (native s0) + Z.of_nat (length (claimed owners)) /\
    cslots (native s) = cslots (native s0) ++ block_caps pid blocks (claimed owners) /\
    env_after (penv s) (penv s0) (next_free (native s0)) (claimed owners)) s0.
Proof.
  intros Hcr. eapply wp_mono; [by apply wp_init_untypeds|].
  intros _ s (Htab & _ & Hnext & Hcs & Henv). exists (give pid (claimed owners) owners).
  split_and!; try done.
  - intros i Hi. assert (H0 : owners !! i = Some 0).
    { apply elem_of_free_blocks. by apply (subseteq_take _ _ _ Hi). }
    split; [done|]. apply give_lookup_in; [done|]. by apply lookup_lt_Some in H0.
  - intros i Hi. by apply give_lookup_out.
  - unfold claimed. destruct (decide (blocks_needed <= length (free_blocks owners))%nat) as [Hle|Hgt].
    + left. by rewrite length_take_le.
    + right. rewrite take_ge by lia. intros i Hi.
      destruct (decide (i ∈ free_blocks owners)) as [Hin|Hni].
      * pose proof Hin as H0%elem_of_free_blocks%lookup_lt_Some.
        rewrite give_lookup_in in Hi by done. pose proof (cr_pid _ _ _ _ Hcr). simplify_eq. lia.
      * rewrite give_lookup_out in Hi by done. by apply Hni, elem_of_free_blocks.
Qed.

Lemma claimed_NoDup owners : NoDup (claimed owners).
Proof. unfold claimed. eapply sublist_NoDup; [apply free_blocks_NoDup|apply sublist_take]. Qed.

Lemma claimed_free owners i : i ∈ claimed owners -> owners !! i = Some 0.
Proof. intros Hi. apply elem_of_free_blocks. by apply (subseteq_take _ _ _ Hi). Qed.

Lemma claimed_lt owners : Forall (fun i => (i < length owners)%nat) (claimed owners).
Proof. apply Forall_forall. intros i Hi%claimed_free. by apply lookup_lt_Some in Hi. Qed.

(** Returning the blocks just given restores the owners. *)
Lemma give_back pid ids owners : (forall i, i ∈ ids -> owners !! i = Some 0) ->
  give 0 ids (give pid ids owners) = owners.
Proof.
  intros H0. apply list_eq. intros i. destruct (decide (i ∈ ids)) as [Hi|Hi].
  - rewrite give_lookup_in, (H0 i Hi); [done|done|]. rewrite give_length. by apply (lookup_lt_Some _ _ 0), H0.
  - by rewrite !give_lookup_out.
Qed.

(** C25: deleting a process that was given blocks returns exactly those: the
    allocation is what it was before the process was created, and one
    capability per block has been revoked. *)
Theorem process_delete_restores pid s0 blocks owners :
  creation_ok pid s0 blocks owners -> claimed owners <> [] ->
  wp (init_untypeds pid ;; delete_untypeds) (fun _ s =>
    table_rep (table s) blocks owners /\
    revoked (table s) = revoked (table s0) ++
      slots_from (next_free (native s0)) (length (claimed owners))) s0.
Proof.
  intros Hcr Hne. apply wp_bind. eapply wp_mono; [by apply wp_init_untypeds|].
  intros _ s (Htab & Hrev & _ & _ & Henv). apply (proj2 Henv) in Hne as Henv'.
  eapply wp_mono.
  - apply (wp_delete_untypeds s blocks _ _ (claimed owners) Htab (env_rep_blocks _ _ _ Henv'));
      [apply claimed_NoDup|]. rewrite give_length. apply claimed_lt.
  - intros _ s' (Htab' & Hrev' & _). rewrite take_ge, give_back in Htab' by (done || apply claimed_free).
    split; [done|]. by rewrite Hrev', Hrev.
Qed.

(** C27: a process created when no block is free is given none, but its
    environment, all zero, reads as one block in slot 0 with index 0: deleting
    it marks block 0 as free, although another process has it, and revokes the
    null slot. *)
Theorem empty_process_delete_frees_block_0 pid s0 blocks owners N p t :
  s0 = ProcState t (zero_env N) p ->
  creation_ok pid s0 blocks owners -> free_blocks owners = [] ->
  wp (init_untypeds pid ;; delete_untypeds) (fun _ s =>
    table_rep (table s) blocks (<[0%nat := 0]> owners) /\ revoked (table s) = revoked t ++ [0]) s0.
Proof.
  intros -> Hcr Hnone. assert (Hcl : claimed owners = []) by (unfold claimed; rewrite Hnone; apply take_nil).
  pose proof (cr_indices _ _ _ _ Hcr) as HN. cbn in HN. rewrite length_replicate in HN.
  assert (Hn0 : (0 < length owners)%nat) by apply (cr_table _ _ _ _ Hcr).
  apply wp_bind. eapply wp_mono; [by apply wp_init_untypeds|].
  rewrite Hcl. intros _ s (Htab & Hrev & _ & _ & Henv). pose proof (proj1 Henv eq_refl) as He. cbn in He.
  eapply wp_mono.
  - apply (wp_delete_untypeds s blocks owners 0 [0%nat]); [done| |apply NoDup_singleton|by repeat constructor].
    rewrite He. apply zero_env_blocks. lia.
  - intros _ s' (Htab' & Hrev' & _). split; [done|]. by rewrite Hrev', Hrev.
Qed.

(** ** Many processes

    The processes created and deleted over time.  A new process has the pid
    [simple_pool_get_current_size] of the pool of processes, which counts the
    processes created (deleted ones are not returned to it), at most
    SEL4OSAPI_USER_PROCESS_MAX.  When no block is free it is created all the
    same, with none.  The one step left out is what
    [empty_process_delete_frees_block_0] is about: deleting a process without
    blocks while block 0 belongs to another. *)
Record untyped_system := USystem {
  us_table : untyped_table;
  us_created : nat;
  us_live : list (Z * untyped_env)
}.

(** [N]: the length of the arrays of an environment. *)
Inductive us_step (N : nat) : untyped_system -> untyped_system -> Prop :=
| us_create t c l p s :
    Z.of_nat c < SEL4OSAPI_USER_PROCESS_MAX ->
    0 < next_free p -> next_free p + user_untypeds_num t <= cspace_end ->
    init_untypeds (Z.of_nat c + 1) (ProcState t (zero_env N) p) = Done (tt, s) ->
    us_step N (USystem t c l) (USystem (table s) (S c) ((Z.of_nat c + 1, penv s) :: l))
| us_delete t c l1 pid e l2 p s :
    untypeds_start e <> 0 \/ user_untypeds_allocation t !! 0%nat = Some 0 ->
    delete_untypeds (ProcState t e p) = Done (tt, s) ->
    us_step N (USystem t c (l1 ++ (pid, e) :: l2)) (USystem (table s) c (l1 ++ l2)).

(** The indices of the blocks in an environment: none, if they would start in
    the null slot. *)
Definition blocks_of e : list Z :=
  if untypeds_start e =? 0 then []
  else take (Z.to_nat (u32 (untypeds_end e - untypeds_start e + 1))) (untyped_indices e).

(** The environment of a process with the blocks [ids], its arrays of length
    [N]. *)
Definition env_given (N : nat) e ids : Prop :=
  match ids with
  | [] => e = zero_env N
  | _ => exists start, start <> 0 /\ env_blocks e start ids
  end.

(** What a live process is known by. *)
Record live_ok (N c : nat) (owners : list Z) (pid : Z) e ids : Prop := {
  lo_pid : 0 < pid <= Z.of_nat c;
  lo_env : env_given N e ids;
  lo_nodup : NoDup ids;
  lo_owner : forall i, i ∈ ids <-> owners !! i = Some pid
}.

Record us_inv (N : nat) blocks owners (s : untyped_system) : Prop := {
  ui_table : table_rep (us_table s) blocks owners;
  ui_created : (us_created s <= 255)%nat;
  ui_nodup : NoDup (us_live s).*1;
  ui_live : Forall (fun x => exists ids, live_ok N (us_created s) owners x.1 x.2 ids) (us_live s);
  ui_owned : forall i o, owners !! i = Some o -> o = 0 \/ o ∈ (us_live s).*1
}.

(** The configuration the invariant needs. *)
Record config_ok (N n : nat) : Prop := {
  cf_limit : is_u32 SEL4OSAPI_USER_PROCESS_UNTYPED_MEM_SIZE;
  cf_positive : 0 < SEL4OSAPI_USER_PROCESS_UNTYPED_MEM_SIZE;
  cf_max : SEL4OSAPI_USER_PROCESS_MAX <= 255;
  cf_arrays : (n <= N)%nat;
  cf_end : cspace_end <= 2 ^ 32
}.

Lemma live_ok_lt N c owners pid e ids :
  live_ok N c owners pid e ids -> Forall (fun i => (i < length owners)%nat) ids.
Proof.
  intros H. apply Forall_forall. intros i Hi%(lo_owner _ _ _ _ _ _ H). by apply lookup_lt_Some in Hi.
Qed.

Lemma live_ok_blocks N c owners pid e ids : (length owners <= 255)%nat ->
  live_ok N c owners pid e ids -> blocks_of e = Z.of_nat <$> ids.
Proof.
  intros Hn Hlo. pose proof (blocks_bound _ _ (lo_nodup _ _ _ _ _ _ Hlo) (live_ok_lt _ _ _ _ _ _ Hlo)) as Hlen.
  pose proof (lo_env _ _ _ _ _ _ Hlo) as He. unfold blocks_of.
  destruct ids as [|i ids]; cbn in He; [by subst|]. destruct He as (start & H0 & Hs & He & Hi).
  rewrite Hs, (proj2 (Z.eqb_neq _ _) H0), He. rewrite u32_small by (unfold is_u32; lia). rewrite <- Hi. f_equal. lia.
Qed.

Lemma table_rep_take t blocks owners : table_rep t blocks owners ->
  take (Z.to_nat (user_untypeds_num t)) (user_untypeds_allocation t) = owners /\
  user_untypeds_num t = Z.of_nat (length owners).
Proof. intros (-> & _ & _ & _ & Hal & _). by rewrite Nat2Z.id. Qed.

Lemma us_creation_ok N t c p blocks owners :
  config_ok N (length owners) -> table_rep t blocks owners ->
  Z.of_nat c < SEL4OSAPI_USER_PROCESS_MAX ->
  0 < next_free p -> next_free p + user_untypeds_num t <= cspace_end ->
  creation_ok (Z.of_nat c + 1) (ProcState t (zero_env N) p) blocks owners.
Proof.
  intros [Hl Hp Hm Ha He] Htab Hc Hf Hroom. destruct (table_rep_take _ _ _ Htab) as [_ Hnum].
  split; cbn; rewrite ?length_replicate; try done; lia.
Qed.

Lemma env_after_given N e start ids : start <> 0 -> env_after e (zero_env N) start ids -> env_given N e ids.
Proof.
  intros H0 [Hnil Hcons]. destruct ids as [|i ids]; [by apply Hnil|].
  exists start. split; [done|]. by apply env_rep_blocks, Hcons.
Qed.

Lemma us_inv_create N blocks owners t c l p s :
  config_ok N (length owners) -> us_inv N blocks owners (USystem t c l) ->
  Z.of_nat c < SEL4OSAPI_USER_PROCESS_MAX ->
  0 < next_free p -> next_free p + user_untypeds_num t <= cspace_end ->
  init_untypeds (Z.of_nat c + 1) (ProcState t (zero_env N) p) = Done (tt, s) ->
  us_inv N blocks (give (Z.of_nat c + 1) (claimed owners) owners)
    (USystem (table s) (S c) ((Z.of_nat c + 1, penv s) :: l)).
Proof.
  intros Hcf [Htab Hcr Hnd Hlive Hown] Hc Hf Hroom Hrun. cbn in *.
  pose proof (us_creation_ok _ _ _ _ _ _ Hcf Htab Hc Hf Hroom) as Hok.
  destruct (wp_done _ _ _ _ _ (wp_init_untypeds _ _ _ _ Hok) Hrun) as (Htab' & _ & _ & _ & Henv).
  rewrite Forall_forall in Hlive.
  assert (Hold : forall x, x ∈ l -> x.1 <= Z.of_nat c).
  { intros x (ids & Hlo)%Hlive. apply (lo_pid _ _ _ _ _ _ Hlo). }
  assert (Hnew : forall i, i ∈ claimed owners <->
            give (Z.of_nat c + 1) (claimed owners) owners !! i = Some (Z.of_nat c + 1)).
  { intros i. split.
    - intros Hi. apply give_lookup_in; [done|]. apply claimed_free, lookup_lt_Some in Hi. done.
    - intros Hi. destruct (decide (i ∈ claimed owners)) as [|Hni]; [done|].
      rewrite give_lookup_out in Hi by done. destruct (Hown _ _ Hi) as [|(x & Hx & Hin)%list_elem_of_fmap]; [lia|].
      apply Hold in Hin. lia. }
  split; cbn; [done|pose proof (cf_max _ _ Hcf); lia| | |].
  - apply NoDup_cons. split; [|done]. intros (x & Hx & Hin%Hold)%list_elem_of_fmap. lia.
  - apply Forall_cons. split; [exists (claimed owners)|apply Forall_forall].
    + split; [cbn; lia|apply (env_after_given _ _ (next_free p)); [lia|exact Henv]|apply claimed_NoDup|exact Hnew].
    + intros x Hx. destruct (Hlive x Hx) as (ids & [Hpid Hle Hnd' Ho]). exists ids.
      split; [lia|done|done|]. intros i. rewrite Ho.
      destruct (decide (i ∈ claimed owners)) as [Hi|Hni]; [|by rewrite give_lookup_out].
      rewrite (claimed_free _ _ Hi), (proj1 (Hnew i) Hi). split; intros; simplify_eq; lia.
  - intros i o Hi. destruct (decide (i ∈ claimed owners)) as [Hic|Hni].
    + rewrite (proj1 (Hnew i) Hic) in Hi. simplify_eq. right. apply elem_of_cons. by left.
    + rewrite give_lookup_out in Hi by done. destruct (Hown _ _ Hi) as [|]; [by left|].
      right. apply elem_of_cons. by right.
Qed.

(** Deleting a live process goes through; it returns the blocks it has, and
    nothing else unless it has none and block 0 is another's. *)
Lemma wp_delete_live N blocks owners c pid e ids t p :
  config_ok N (length owners) -> table_rep t blocks owners -> live_ok N c owners pid e ids ->
  wp delete_untypeds (fun _ s => untypeds_start e <> 0 \/ user_untypeds_allocation t !! 0%nat = Some 0 ->
    table_rep (table s) blocks (give 0 ids owners)) (ProcState t e p).
Proof.
  intros Hcf Htab Hlo. assert (Hpos : (0 < length owners)%nat) by apply Htab.
  pose proof (lo_env _ _ _ _ _ _ Hlo) as He. destruct ids as [|i ids]; cbn in He.
  - subst e. pose proof (cf_arrays _ _ Hcf). eapply wp_mono.
    + apply (wp_delete_untypeds (ProcState t (zero_env N) p) blocks owners 0 [0%nat] Htab);
        [apply zero_env_blocks; lia|apply NoDup_singleton|by repeat constructor].
    + intros [] s (Htab' & _) [Hx|H0]; [by destruct Hx|].
      assert (Hget : give 0 (take (length [0%nat]) [0%nat]) owners = owners); [|by rewrite Hget in Htab'].
      destruct (lookup_lt_is_Some_2 owners 0 Hpos) as [o Ho].
      rewrite (table_rep_owner _ _ _ _ _ Htab Ho) in H0. injection H0 as ->. cbn. by apply list_insert_id.
  - destruct He as (start & _ & He). eapply wp_mono.
    + apply (wp_delete_untypeds (ProcState t e p) _ _ _ _ Htab He (lo_nodup _ _ _ _ _ _ Hlo) (live_ok_lt _ _ _ _ _ _ Hlo)).
    + intros [] s (Htab' & _) _. by rewrite take_ge in Htab'.
Qed.

Lemma us_inv_delete N blocks owners t c l1 pid e l2 p ids s :
  config_ok N (length owners) -> us_inv N blocks owners (USystem t c (l1 ++ (pid, e) :: l2)) ->
  live_ok N c owners pid e ids ->
  untypeds_start e <> 0 \/ user_untypeds_allocation t !! 0%nat = Some 0 ->
  delete_untypeds (ProcState t e p) = Done (tt, s) ->
  us_inv N blocks (give 0 ids owners) (USystem (table s) c (l1 ++ l2)).
Proof.
  intros Hcf [Htab Hcr Hnd Hlive Hown] Hlo Hkept Hrun. cbn in *.
  pose proof (wp_done _ _ _ _ _ (wp_delete_live _ _ _ _ _ _ _ _ p Hcf Htab Hlo) Hrun Hkept) as Htab'.
  rewrite fmap_app in Hnd. cbn in Hnd. apply NoDup_app_not_mid in Hnd as [Hpid Hnd]. rewrite <- fmap_app in Hpid, Hnd.
  assert (Hsub : forall x, x ∈ l1 ++ l2 -> x.1 <> pid /\ exists ids', live_ok N c owners x.1 x.2 ids').
  { intros x Hx. split; [intros Hxp; apply Hpid, list_elem_of_fmap; eauto|].
    rewrite Forall_forall in Hlive. apply Hlive. rewrite elem_of_app, elem_of_cons in *. tauto. }
  pose proof (lo_owner _ _ _ _ _ _ Hlo) as Ho.
  assert (Hget : forall i o, give 0 ids owners !! i = Some o -> o <> 0 -> owners !! i = Some o /\ i ∉ ids).
  { intros i o Hi Hne. destruct (decide (i ∈ ids)) as [Hin|Hni].
    - rewrite give_lookup_in in Hi; [by simplify_eq|done|]. by apply Ho, lookup_lt_Some in Hin.
    - rewrite give_lookup_out in Hi by done. done. }
  split; cbn; try done.
  - apply Forall_forall. intros x Hx. destruct (Hsub x Hx) as (Hxp & ids' & [Hp Hle Hnd' Ho']).
    exists ids'. split; try done. intros i. rewrite Ho'. split.
    + intros Hi. rewrite give_lookup_out; [done|]. intros Hin%Ho. congruence.
    + intros Hi. apply Hget; [done|lia].
  - intros i o Hi. destruct (decide (o = 0)) as [|Hne]; [by left|right].
    destruct (Hget i o Hi Hne) as [Hi' Hni]. destruct (Hown i o Hi') as [|Hin]; [done|].
    rewrite fmap_app in *. cbn in Hin. rewrite elem_of_app, elem_of_cons in Hin. rewrite elem_of_app.
    destruct Hin as [|[->|]]; [by left| |by right]. by apply Ho in Hi'.
Qed.

Lemma us_inv_reach N blocks n t s :
  config_ok N n -> table_rep t blocks (replicate n 0) -> rtc (us_step N) (USystem t 0 []) s ->
  exists owners, length owners = n /\ us_inv N blocks owners s.
Proof.
  intros Hcf Htab Hreach.
  apply (rtc_ind_r (R := us_step N) (fun s => exists owners, length owners = n /\ us_inv N blocks owners s) (USystem t 0 []));
    [| |exact Hreach].
  - exists (replicate n 0). split; [apply length_replicate|]. split; cbn; [done|lia|constructor|constructor|].
    intros i o [-> _]%lookup_replicate. by left.
  - intros s1 s2 _ Hstep (owners & <- & Hinv). destruct Hstep as [t1 c l p s1 Hc Hf Hr Hrun|t1 c l1 pid e l2 p s1 Hk Hrun].
    + exists (give (Z.of_nat c + 1) (claimed owners) owners). split; [apply give_length|].
      by eapply us_inv_create.
    + pose proof (ui_live _ _ _ _ Hinv) as Hl. cbn in Hl. apply Forall_app in Hl as [_ Hl].
      apply Forall_cons in Hl as [(ids & Hlo) _]. cbn in Hlo.
      exists (give 0 ids owners). split; [apply give_length|]. by eapply us_inv_delete.
Qed.

(** C24: Whether or not blocks are left when a process is created, and as long
    as no process without blocks is deleted while block 0 is another's, no
    block is ever given to two live processes, the table names the live process
    that has each block and 0 for the others, and neither deleting any live
    process nor creating one more goes wrong. *)
Theorem untypeds_exclusive N blocks n t s :
  config_ok N n -> table_rep t blocks (replicate n 0) -> rtc (us_step N) (USystem t 0 []) s ->
  (forall l1 x l2 y l3 b, us_live s = l1 ++ x :: l2 ++ y :: l3 ->
     b ∈ blocks_of x.2 -> b ∉ blocks_of y.2) /\
  (forall i, (i < n)%nat -> exists o, user_untypeds_allocation (us_table s) !! i = Some o /\
     ((o = 0 /\ forall x, x ∈ us_live s -> Z.of_nat i ∉ blocks_of x.2) \/
      (o <> 0 /\ exists e, (o, e) ∈ us_live s /\ Z.of_nat i ∈ blocks_of e))) /\
  (forall x p, x ∈ us_live s -> exists s', delete_untypeds (ProcState (us_table s) x.2 p) = Done (tt, s')) /\
  (forall p, Z.of_nat (us_created s) < SEL4OSAPI_USER_PROCESS_MAX ->
     0 < next_free p -> next_free p + Z.of_nat n <= cspace_end ->
     exists s', init_untypeds (Z.of_nat (us_created s) + 1) (ProcState (us_table s) (zero_env N) p) = Done (tt, s')).
Proof.
  intros Hcf Htab Hreach. destruct (us_inv_reach _ _ _ _ _ Hcf Htab Hreach) as (owners & <- & Hinv).
  pose proof Hinv as [Htab' Hcr Hnd Hlive Hown]. rewrite Forall_forall in Hlive.
  destruct (table_rep_take _ _ _ Htab') as [_ Hnum].
  assert (Hn255 : (length owners <= 255)%nat) by apply Htab'.
  assert (Hiff : forall x i, x ∈ us_live s -> Z.of_nat i ∈ blocks_of x.2 <-> owners !! i = Some x.1).
  { intros x i Hx. destruct (Hlive x Hx) as (ids & Hlo). rewrite (live_ok_blocks _ _ _ _ _ _ Hn255 Hlo).
    rewrite (list_elem_of_fmap_inj Z.of_nat). apply (lo_owner _ _ _ _ _ _ Hlo). }
  split_and!.
  - intros l1 x l2 y l3 b Hl Hx Hy.
    assert (Hinx : x ∈ us_live s) by (rewrite Hl, elem_of_app, elem_of_cons; tauto).
    assert (Hiny : y ∈ us_live s) by (rewrite Hl, elem_of_app, elem_of_cons, elem_of_app, elem_of_cons; tauto).
    destruct (Hlive x Hinx) as (ids & Hlo). pose proof Hx as Hb.
    rewrite (live_ok_blocks _ _ _ _ _ _ Hn255 Hlo) in Hb. apply list_elem_of_fmap in Hb as (i & -> & _).
    apply (Hiff x i Hinx) in Hx. apply (Hiff y i Hiny) in Hy.
    rewrite Hl, fmap_app in Hnd. cbn in Hnd. apply NoDup_app_not_mid in Hnd as [Hni _].
    apply Hni. rewrite fmap_app. cbn. rewrite !elem_of_app, elem_of_cons. right. right. left. congruence.
  - intros i Hi. destruct (lookup_lt_is_Some_2 owners i Hi) as [o Ho]. exists o.
    split; [by eapply table_rep_owner|]. destruct (decide (o = 0)) as [->|Hne].
    + left. split; [done|]. intros x Hx Hb%Hiff; [|done]. destruct (Hlive x Hx) as (ids & Hlo).
      pose proof (lo_pid _ _ _ _ _ _ Hlo). simplify_eq. lia.
    + right. split; [done|]. destruct (Hown i o Ho) as [|((q & e) & -> & Hin)%list_elem_of_fmap]; [done|].
      exists e. split; [done|]. by apply (Hiff (q, e) i Hin).
  - intros x p Hx. destruct (Hlive x Hx) as (ids & Hlo).
    destruct (wp_delete_live _ _ _ _ _ _ _ _ p Hcf Htab' Hlo) as ([] & s' & Hrun & _). by exists s'.
  - intros p Hc Hf Hr. rewrite <- Hnum in Hr.
    destruct (wp_init_untypeds _ _ _ _ (us_creation_ok N _ _ _ _ _ Hcf Htab' Hc Hf Hr)) as ([] & s' & Hrun & _).
    by exists s'.
Qed.
End process_proofs.

(** A CSpace of 4096 slots to run examples on: what was copied from slot 3 on. *)
Definition demo_cspace : Type := list (Z * Z).

#[export] Instance demo_cspace_ops : ProcessCSpace demo_cspace := {|
  sel4utils_mint_cap_to_process cap badge p := (3 + Z.of_nat (length p), p ++ [(cap, badge)])
|}.

#[export] Instance demo_cspace_ok : ProcessCSpaceOk demo_cspace := {|
  cslots p := p;
  cslot_base := 3;
  cspace_end := 4096;
  mint_ok _ _ p _ := conj eq_refl eq_refl
|}.

(** ** Witnesses: ten blocks, eight for each process *)

#[local] Existing Instance default_config.

Definition ten_blocks : list vka_object_t := (fun i => VkaObject (Z.of_nat i) untyped_size_bits) <$> seq 100 10.
Definition ten_table (owners : list Z) : untyped_table :=
  UntypedTable 10 ten_blocks owners (replicate 10 untyped_size_bits) [].
Definition new_process (owners : list Z) : proc_state demo_cspace := ProcState (ten_table owners) (zero_env 16) [].

Lemma ten_table_rep owners : length owners = 10%nat -> table_rep (ten_table owners) ten_blocks owners.
Proof.
  intros Hl. unfold table_rep. rewrite Hl. cbn -[take].
  split_and!; try done; try lia. by apply take_ge; rewrite Hl.
Qed.

Lemma new_process_ok pid owners : 0 < pid < 256 -> length owners = 10%nat ->
  creation_ok pid (new_process owners) ten_blocks owners.
Proof.
  intros Hpid Hl. split; cbn -[replicate]; rewrite ?length_replicate, ?Hl; try done; try lia.
  by apply ten_table_rep.
Qed.

Example process_creation_claims_witness :
  wp (init_untypeds 1) (fun _ s => exists owners', table_rep (table s) ten_blocks owners' /\
    owners' !! 0%nat = Some 1 /\ owners' !! 9%nat = Some 0 /\
    env_rep (penv s) 3 (claimed (replicate 10 0))) (new_process (replicate 10 0)).
Proof.
  eapply wp_mono.
  - apply process_creation_claims. apply new_process_ok; [lia|done].
  - intros _ s (owners' & Htab & Hin & Hout & _ & _ & _ & Henv). exists owners'.
    split; [exact Htab|]. split_and!.
    + apply Hin. vm_compute. apply elem_of_cons. by left.
    + rewrite Hout; [done|]. vm_compute. intros Hx. by repeat (apply elem_of_cons in Hx as [|Hx]; [done|]); apply elem_of_nil in Hx.
    + by apply Henv.
Defined.

Example process_delete_restores_witness :
  claimed (replicate 10 0) <> [] /\
  wp (init_untypeds 1 ;; delete_untypeds) (fun _ s =>
    table_rep (table s) ten_blocks (replicate 10 0) /\ revoked (table s) = [3; 4; 5; 6; 7; 8; 9; 10])
    (new_process (replicate 10 0)).
Proof.
  assert (Hne : claimed (replicate 10 0) <> []) by (by vm_compute). split; [exact Hne|].
  eapply wp_mono.
  - apply (process_delete_restores 1 (new_process (replicate 10 0)) ten_blocks (replicate 10 0)).
    + apply new_process_ok; [lia|done].
    + exact Hne.
  - intros _ s [Htab Hrev]. split; [exact Htab|]. rewrite Hrev. vm_compute. reflexivity.
Defined.

(** Processes 1 and 2 have all blocks; creating and deleting process 3 takes
    block 0 away from process 1. *)
Example empty_process_delete_frees_block_0_witness :
  wp (init_untypeds 3 ;; delete_untypeds) (fun _ s =>
    table_rep (table s) ten_blocks [0; 1; 1; 1; 1; 1; 1; 1; 2; 2] /\ revoked (table s) = [0])
    (new_process [1; 1; 1; 1; 1; 1; 1; 1; 2; 2]).
Proof.
  apply (empty_process_delete_frees_block_0 3 (new_process [1; 1; 1; 1; 1; 1; 1; 1; 2; 2]) ten_blocks
    [1; 1; 1; 1; 1; 1; 1; 1; 2; 2] 16 [] (ten_table [1; 1; 1; 1; 1; 1; 1; 1; 2; 2])).
  - reflexivity.
  - apply new_process_ok; [lia|done].
  - reflexivity.
Defined.

(** Three processes are created, the third of which gets no block; the first
    and, now that block 0 is free, the third are deleted. *)
Definition ten_start : untyped_system := USystem (ten_table (replicate 10 0)) 0 [].

Lemma ten_run : exists s, rtc (us_step (P := demo_cspace) 16) ten_start s /\
  user_untypeds_allocation (us_table s) = [0; 0; 0; 0; 0; 0; 0; 0; 2; 2].
Proof.
  eexists. split.
  - do 3 (eapply rtc_l; [eapply (us_create (P := demo_cspace) 16 _ _ _ []); [done|done|done|vm_compute; reflexivity]|]).
    eapply rtc_l; [eapply (us_delete (P := demo_cspace) 16 _ _ [_; _] _ _ [] []); [by left|vm_compute; reflexivity]|].
    eapply rtc_l; [eapply (us_delete (P := demo_cspace) 16 _ _ [] _ _ [_] []); [by right|vm_compute; reflexivity]|].
    apply rtc_refl.
  - reflexivity.
Qed.

Example untypeds_exclusive_witness :
  exists s, user_untypeds_allocation (us_table s) = [0; 0; 0; 0; 0; 0; 0; 0; 2; 2] /\
    exists e, (2, e) ∈ us_live s /\ 8 ∈ blocks_of e.
Proof.
  destruct ten_run as (s & Hreach & Hal). exists s. split; [exact Hal|].
  destruct (untypeds_exclusive 16 ten_blocks 10 (ten_table (replicate 10 0)) s) as (_ & Htable & _).
  - split; [unfold is_u32; cbn; lia|done|done|lia|done].
  - by apply ten_table_rep.
  - exact Hreach.
  - destruct (Htable 8%nat ltac:(lia)) as (o & Ho & [[-> _]|(_ & Hlive)]); rewrite Hal in Ho; [done|].
    injection Ho as <-. exact Hlive.
Defined.

