(* ===== verification/Thread.v ===== *)
(** * Thread: threads of a process (src/thread.c, thread.h)

    A process keeps its threads in a pool of SEL4OSAPI_MAX_THREADS_PER_PROCESS
    structures.  [sel4osapi_thread_create] fills one and has libsel4utils
    configure a native thread; in the root task it also installs a fault
    handler.  A started thread runs [sel4osapi_thread_routine_wrapper]: it puts
    its structure in the thread-local user data, runs the routine, and at the
    end calls its own endpoint, where [sel4osapi_thread_join] waits for it.

    The kernel objects and libsel4utils are the environment ([ThreadEnv]). *)

From Stdlib Require Import String Ascii.
From stdpp Require Import strings pretty relations.
From S2P Require Import Prelude Config Memory LinkedList Pool PoolSearch.

(** ** Bytes in memory *)

Definition bytes_of (text : string) : list Z :=
  (fun a => Z.of_nat (nat_of_ascii a)) <$> list_ascii_of_string text.

Definition string_of_bytes (bs : list Z) : string :=
  string_of_list_ascii ((fun b => ascii_of_nat (Z.to_nat b)) <$> bs).

(** snprintf into a buffer: at most [max - 1] characters, then NUL. *)
Definition snprintf_bytes (max : Z) (text : string) : list Z := take (Z.to_nat (max - 1)) (bytes_of text) ++ [0].

(** A little-endian word at position [base] of memory, after the bytes [bs] were
    stored from position 0 on. *)
Definition byte_of (w : Z) (j : nat) : Z := w / 2 ^ (8 * Z.of_nat j) mod 2 ^ 8.
Definition poke (w : Z) (base : nat) (bs : list Z) : Z :=
  let b j := default (byte_of w j) (bs !! (base + j)%nat) in
  b 0%nat + 2 ^ 8 * b 1%nat + 2 ^ 16 * b 2%nat + 2 ^ 24 * b 3%nat.

(** "%02d" of a number that is not negative *)
Definition pad2 (z : Z) : string := if z <? 10 then ("0" ++ pretty z)%string else pretty z.

Definition SEL4OSAPI_THREAD_NAME_PREFIX_MAX_LEN : Z := 10.

(** ** The structures *)

Record native_thread := Native { native_tcb : Z; native_ipc_buffer : Z }.

Record sel4osapi_thread_info_t := ThreadInfo {
  ti_tid : Z;
  ti_name : list Z;
  ti_arg : Z;
  ti_tls : Z;
  ti_active : Z;
  ti_wait_aep : Z;
  ti_priority : Z;
  ti_ipc : Z;
  ti_ipc_word : Z
}.

(** [F]: the routines a thread can run. *)
Record sel4osapi_thread_t (F : Type) := Thread {
  th_local_endpoint : Z;
  th_aep : Z;
  th_native : native_thread;
  th_fault_endpoint : Z;
  th_routine : F;
  th_info : sel4osapi_thread_info_t
}.
Arguments Thread {F} _ _ _ _ _ _.
Arguments th_local_endpoint {F} _.
Arguments th_aep {F} _.
Arguments th_native {F} _.
Arguments th_fault_endpoint {F} _.
Arguments th_routine {F} _.
Arguments th_info {F} _.

(** What [sel4osapi_process_get_current] and the system give the calls. *)
Record process_caps := ProcessCaps {
  pc_pid : Z;
  pc_fault_endpoint : Z;
  pc_root_cnode : Z;
  pc_cspace_size_bits : Z;
  pc_tcb : Z;
  pc_is_root : bool                       (* simple->init_cap *)
}.

Record thread_config := ThreadConfig {
  tc_fault_endpoint : Z; tc_cspace : Z; tc_cspace_data : Z; tc_auth : Z; tc_mcp : Z; tc_priority : Z
}.

(** Error codes are 0 on success; capabilities are numbers. *)
Class ThreadEnv (K : Type) := {
  vka_alloc_endpoint : K -> (Z * Z) * K;
  vka_alloc_notification : K -> (Z * Z) * K;
  vka_free_object : Z -> K -> K;
  CNode_CapData : Z -> Z;                  (* cspace_size_bits *)
  simple_get_tcb : Z;
  sel4utils_configure_thread_config : thread_config -> K -> (Z * native_thread) * K;
  sel4utils_start_thread : native_thread -> K -> Z * K;
  sel4utils_clean_up_thread : native_thread -> K -> K;
  api_tcb_set_space : Z -> Z -> K -> Z * K;                  (* tcb, fault endpoint *)
  sel4utils_start_fault_handler : Z -> K -> (Z * Z) * K;     (* fault endpoint; tcb of the handler *)
  seL4_TCB_SetPriority : Z -> Z -> Z -> K -> Z * K;          (* tcb, authority, priority *)
  CONFIG_KERNEL_RT : bool;
  ZF_LOGF_ABORTS : bool;
  vka_alloc_sched_context : K -> (Z * Z) * K;
  api_sched_ctrl_configure : Z -> K -> Z * K;
  api_sc_bind : Z -> Z -> K -> Z * K
}.

Section thread_c.
Context {CFG : Config} {F K : Type} {ENV : ThreadEnv K}.

Record thread_state := ThreadState { th_pool : pool_state (sel4osapi_thread_t F); th_env : K }.

Definition on_threads {A} (m : M (pool_state (sel4osapi_thread_t F)) A) : M thread_state A :=
  zoom th_pool (fun p s => ThreadState p (th_env s)) m.
Definition tcall {A} (f : K -> A * K) : M thread_state A := fun s =>
  Done ((f (th_env s)).1, ThreadState (th_pool s) (f (th_env s)).2).
Definition tdo (f : K -> K) : M thread_state unit := modify (fun s => ThreadState (th_pool s) (f (th_env s))).
Definition upd_thread (t : ptr) (f : sel4osapi_thread_t F -> sel4osapi_thread_t F) : M thread_state unit :=
  on_threads (pool_upd t f).
Definition read_thread (t : ptr) : M thread_state (sel4osapi_thread_t F) := on_threads (on_mem (read_cell t)).

(** Assignments to fields. *)
Definition th_set_ep c (t : sel4osapi_thread_t F) :=
  Thread c (th_aep t) (th_native t) (th_fault_endpoint t) (th_routine t) (th_info t).
Definition th_set_aep c (t : sel4osapi_thread_t F) :=
  Thread (th_local_endpoint t) c (th_native t) (th_fault_endpoint t) (th_routine t) (th_info t).
Definition th_set_fault c (t : sel4osapi_thread_t F) :=
  Thread (th_local_endpoint t) (th_aep t) (th_native t) c (th_routine t) (th_info t).
Definition th_set_native n (t : sel4osapi_thread_t F) :=
  Thread (th_local_endpoint t) (th_aep t) n (th_fault_endpoint t) (th_routine t) (th_info t).
Definition th_set_routine (f : F) (t : sel4osapi_thread_t F) :=
  Thread (th_local_endpoint t) (th_aep t) (th_native t) (th_fault_endpoint t) f (th_info t).
Definition th_set_info (f : sel4osapi_thread_info_t -> sel4osapi_thread_info_t) (t : sel4osapi_thread_t F) :=
  Thread (th_local_endpoint t) (th_aep t) (th_native t) (th_fault_endpoint t) (th_routine t) (f (th_info t)).

Definition ti_set_priority p (i : sel4osapi_thread_info_t) :=
  ThreadInfo (ti_tid i) (ti_name i) (ti_arg i) (ti_tls i) (ti_active i) (ti_wait_aep i) p (ti_ipc i) (ti_ipc_word i).
Definition ti_set_arg a (i : sel4osapi_thread_info_t) :=
  ThreadInfo (ti_tid i) (ti_name i) a (ti_tls i) (ti_active i) (ti_wait_aep i) (ti_priority i) (ti_ipc i) (ti_ipc_word i).
Definition ti_set_tls_tid l d (i : sel4osapi_thread_info_t) :=
  ThreadInfo d (ti_name i) (ti_arg i) l (ti_active i) (ti_wait_aep i) (ti_priority i) (ti_ipc i) (ti_ipc_word i).
Definition ti_set_wait_ipc w c (i : sel4osapi_thread_info_t) :=
  ThreadInfo (ti_tid i) (ti_name i) (ti_arg i) (ti_tls i) (ti_active i) w (ti_priority i) c (ti_ipc_word i).
Definition ti_set_active a (i : sel4osapi_thread_info_t) :=
  ThreadInfo (ti_tid i) (ti_name i) (ti_arg i) (ti_tls i) a (ti_wait_aep i) (ti_priority i) (ti_ipc i) (ti_ipc_word i).
Definition ti_set_ipc_word w (i : sel4osapi_thread_info_t) :=
  ThreadInfo (ti_tid i) (ti_name i) (ti_arg i) (ti_tls i) (ti_active i) (ti_wait_aep i) (ti_priority i) (ti_ipc i) w.

(** The name is an array of [name_len] bytes; arg, tls and active follow, the
    words aligned to four bytes.  A write of more bytes reaches them. *)
Definition name_len : nat := Z.to_nat (SEL4OSAPI_THREAD_NAME_MAX_LEN - SEL4OSAPI_THREAD_NAME_PREFIX_MAX_LEN).
Definition arg_offset : nat := Z.to_nat ((Z.of_nat name_len + 3) / 4 * 4).

Definition write_name (bs : list Z) (i : sel4osapi_thread_info_t) : sel4osapi_thread_info_t :=
  ThreadInfo (ti_tid i) (splice (ti_name i) 0 (take name_len bs))
    (poke (ti_arg i) arg_offset bs) (poke (ti_tls i) (arg_offset + 4) bs)
    (default (ti_active i) (bs !! (arg_offset + 8)%nat))
    (ti_wait_aep i) (ti_priority i) (ti_ipc i) (ti_ipc_word i).

(** ** Creation *)

(** ZF_LOGF: whether a fatal log stops the program depends on how the logging
    library was configured. *)
Definition zf_logf_if (ok : bool) : M thread_state unit :=
  if ZF_LOGF_ABORTS then assert_ ok else ret tt.

Definition setup_fault_handler (thread : ptr) : M thread_state unit :=
  let! t := read_thread thread in
  let tcb := native_tcb (th_native t) in
  let! ep := tcall vka_alloc_endpoint in
  zf_logf_if (ep.1 =? 0) ;;
  let! error := tcall (api_tcb_set_space tcb ep.2) in
  zf_logf_if (error =? 0) ;;
  let! handler := tcall (sel4utils_start_fault_handler ep.2) in
  zf_logf_if (handler.1 =? 0) ;;
  let! error := tcall (seL4_TCB_SetPriority handler.2 simple_get_tcb (ti_priority (th_info t))) in
  zf_logf_if (error =? 0) ;;
  if CONFIG_KERNEL_RT then
    let! sc := tcall vka_alloc_sched_context in
    zf_logf_if (sc.1 =? 0) ;;
    let! error := tcall (api_sched_ctrl_configure sc.2) in
    zf_logf_if (error =? 0) ;;
    let! error := tcall (api_sc_bind sc.2 handler.2) in
    zf_logf_if (error =? 0)
  else ret tt.

Definition thread_text (env : process_caps) (name : option string) (tid : Z) : string :=
  match name with
  | Some n => n
  | None => ("p-" ++ pad2 (pc_pid env) ++ "-t-" ++ pad2 tid)%string
  end.

Definition sel4osapi_thread_create (env : process_caps) (name : option string) (thread_routine : F)
    (thread_arg priority : Z) : M thread_state ptr :=
  let! thread := on_threads simple_pool_alloc in
  assert_ (non_null thread) ;;
  let! tid := on_threads simple_pool_get_current_size in
  let! ep := tcall vka_alloc_endpoint in
  upd_thread thread (th_set_ep ep.2) ;;
  assert_ (ep.1 =? 0) ;;
  let! aep := tcall vka_alloc_notification in
  upd_thread thread (th_set_aep aep.2) ;;
  assert_ (aep.1 =? 0) ;;
  upd_thread thread (th_set_fault (pc_fault_endpoint env)) ;;
  let config := ThreadConfig (pc_fault_endpoint env) (pc_root_cnode env) (CNode_CapData (pc_cspace_size_bits env))
    (if pc_is_root env then simple_get_tcb else pc_tcb env) (u8 priority) (u8 priority) in
  let! native := tcall (sel4utils_configure_thread_config config) in
  upd_thread thread (th_set_native native.2) ;;
  assert_ (native.1 =? 0) ;;
  upd_thread thread (th_set_routine thread_routine) ;;
  upd_thread thread (th_set_info (ti_set_priority priority)) ;;
  upd_thread thread (th_set_info (ti_set_arg thread_arg)) ;;
  upd_thread thread (th_set_info (write_name
    (snprintf_bytes SEL4OSAPI_THREAD_NAME_MAX_LEN (thread_text env name tid)))) ;;
  upd_thread thread (th_set_info (ti_set_tls_tid 0 tid)) ;;
  let! t := read_thread thread in
  upd_thread thread (th_set_info (ti_set_wait_ipc (th_aep t) (native_ipc_buffer (th_native t)))) ;;
  (if pc_is_root env then setup_fault_handler thread else ret tt) ;;
  ret thread.

(** The structure stays in the pool, and the notification is not freed. *)
Definition sel4osapi_thread_delete (thread : ptr) : M thread_state unit :=
  let! t := read_thread thread in
  tdo (vka_free_object (th_local_endpoint t)) ;;
  let! t := read_thread thread in
  tdo (sel4utils_clean_up_thread (th_native t)).

Definition sel4osapi_thread_start (thread : ptr) : M thread_state Z :=
  let! t := read_thread thread in
  let! error := tcall (sel4utils_start_thread (th_native t)) in
  assert_ (error =? 0) ;;
  ret 0.
End thread_c.
Arguments thread_state F K : clear implicits.

(** ** What is used of the environment

    [caps_of]: the capabilities handed out; [objects]: how many more kernel
    objects can be made.
    - an endpoint or notification is a new capability;
    - while objects last everything succeeds; nothing else hands out
      capabilities twice. *)
Class ThreadEnvOk (K : Type) `{ThreadEnv K} := {
  caps_of : K -> gset Z;
  objects : K -> nat;
  takes (n : nat) (k k' : K) : Prop := caps_of k ⊆ caps_of k' /\ (objects k - n <= objects k')%nat;
  th_endpoint_ok k : (0 < objects k)%nat -> let r := vka_alloc_endpoint k in
    r.1.1 = 0 /\ r.1.2 ∉ caps_of k /\ r.1.2 ∈ caps_of r.2 /\ takes 1 k r.2;
  th_notification_ok k : (0 < objects k)%nat -> let r := vka_alloc_notification k in
    r.1.1 = 0 /\ r.1.2 ∉ caps_of k /\ r.1.2 ∈ caps_of r.2 /\ takes 1 k r.2;
  th_configure_ok c k : (0 < objects k)%nat -> let r := sel4utils_configure_thread_config c k in
    r.1.1 = 0 /\ native_ipc_buffer r.1.2 <> 0 /\ takes 1 k r.2;
  th_start_ok n k : let r := sel4utils_start_thread n k in r.1 = 0 /\ takes 0 k r.2;
  th_set_space_ok t e k : let r := api_tcb_set_space t e k in r.1 = 0 /\ takes 0 k r.2;
  th_handler_ok e k : (0 < objects k)%nat -> let r := sel4utils_start_fault_handler e k in r.1.1 = 0 /\ takes 1 k r.2;
  th_priority_ok t a p k : let r := seL4_TCB_SetPriority t a p k in r.1 = 0 /\ takes 0 k r.2;
  th_sc_ok k : (0 < objects k)%nat -> let r := vka_alloc_sched_context k in r.1.1 = 0 /\ takes 1 k r.2;
  th_sched_ok c k : let r := api_sched_ctrl_configure c k in r.1 = 0 /\ takes 0 k r.2;
  th_bind_ok c t k : let r := api_sc_bind c t k in r.1 = 0 /\ takes 0 k r.2
}.

(** What a thread costs. *)
Definition thread_cost : nat := 6.

Section thread_spec.
Context {CFG : Config} {F K : Type} {ENV : ThreadEnv K} {EOK : ThreadEnvOk K}.
Implicit Types (s : thread_state F K) (k : K) (t : sel4osapi_thread_t F) (ts : list (sel4osapi_thread_t F)).
Implicit Types (free busy : list (loc * loc)) (bs : list Z) (i : sel4osapi_thread_info_t).

Lemma takes_refl n k : takes n k k.
Proof. split; [done|lia]. Qed.

Lemma takes_trans n1 n2 k1 k2 k3 : takes n1 k1 k2 -> takes n2 k2 k3 -> takes (n1 + n2) k1 k3.
Proof. intros [H1 H2] [H3 H4]. split; [by etrans|lia]. Qed.

Lemma wp_tcall {A} (f : K -> A * K) (Q : A -> thread_state F K -> Prop) s :
  Q (f (th_env s)).1 (ThreadState (th_pool s) (f (th_env s)).2) -> wp (tcall f) Q s.
Proof. intros HQ. by eexists _, _. Qed.

(** The state of a pool whose element [i] is being filled. *)
Lemma wp_upd_thread s free busy ts j x t f (Q : unit -> thread_state F K -> Prop) :
  holds (th_pool s) free busy (<[j := t]> ts) -> busy !! j = Some x ->
  (forall p, holds p free busy (<[j := f t]> ts) -> Q tt (ThreadState p (th_env s))) ->
  wp (upd_thread (Some x.2) f) Q s.
Proof. intros R Hx HQ. unfold upd_thread, on_threads. apply wp_zoom. eapply holds_upd; [done..|]. exact HQ. Qed.

Lemma wp_read_thread s free busy ts j x t (Q : _ -> thread_state F K -> Prop) :
  holds (th_pool s) free busy ts -> busy !! j = Some x -> ts !! j = Some t -> Q t s ->
  wp (read_thread (Some x.2)) Q s.
Proof.
  intros R Hx Ht HQ. unfold read_thread, on_threads. apply wp_zoom. eapply holds_read; [done..|].
  by destruct s.
Qed.

(** *** Names *)

Lemma word_bytes w : is_u32 w ->
  byte_of w 0 + 2 ^ 8 * byte_of w 1 + 2 ^ 16 * byte_of w 2 + 2 ^ 24 * byte_of w 3 = w.
Proof.
  intros Hw. unfold byte_of, is_u32 in *.
  change (2 ^ (8 * Z.of_nat 0)) with 1. change (2 ^ (8 * Z.of_nat 1)) with 256.
  change (2 ^ (8 * Z.of_nat 2)) with 65536. change (2 ^ (8 * Z.of_nat 3)) with 16777216.
  change (2 ^ 8) with 256. change (2 ^ 16) with 65536. change (2 ^ 24) with 16777216.
  change (2 ^ 32) with 4294967296 in Hw. rewrite Z.div_1_r.
  assert (w / 65536 = w / 256 / 256) as -> by by rewrite Z.div_div by lia.
  assert (w / 16777216 = w / 256 / 256 / 256) as -> by by rewrite !Z.div_div by lia.
  pose proof (Z.div_mod w 256 ltac:(lia)). pose proof (Z.div_mod (w / 256) 256 ltac:(lia)).
  pose proof (Z.div_mod (w / 256 / 256) 256 ltac:(lia)).
  assert (0 <= w / 256 / 256 / 256 < 256).
  { rewrite !Z.div_div by lia. split; [apply Z.div_pos; lia|apply Z.div_lt_upper_bound; lia]. }
  rewrite (Z.mod_small (w / 256 / 256 / 256)) by done. lia.
Qed.

Lemma poke_outside w base bs : is_u32 w -> (length bs <= base)%nat -> poke w base bs = w.
Proof.
  intros Hw Hlen. unfold poke. rewrite !lookup_ge_None_2 by lia. cbn [default]. by apply word_bytes.
Qed.

Definition fits (text : string) : Prop := (length (bytes_of text) < name_len)%nat.

Lemma snprintf_fits text : fits text ->
  snprintf_bytes SEL4OSAPI_THREAD_NAME_MAX_LEN text = bytes_of text ++ [0] /\
  (length (snprintf_bytes SEL4OSAPI_THREAD_NAME_MAX_LEN text) <= name_len)%nat.
Proof.
  unfold fits, name_len, SEL4OSAPI_THREAD_NAME_PREFIX_MAX_LEN. intros H.
  unfold snprintf_bytes. rewrite firstn_all2 by lia. split; [done|]. rewrite length_app. cbn. lia.
Qed.

Lemma arg_offset_ge : (name_len <= arg_offset)%nat.
Proof.
  unfold arg_offset. pose proof (Z.div_mod (Z.of_nat name_len + 3) 4 ltac:(lia)).
  pose proof (Z.mod_pos_bound (Z.of_nat name_len + 3) 4 ltac:(lia)). lia.
Qed.

(** A name that fits is stored and the argument behind it kept. *)
Lemma name_stored text i : fits text ->
  take (S (length (bytes_of text))) (ti_name (write_name (snprintf_bytes SEL4OSAPI_THREAD_NAME_MAX_LEN text) i)) = bytes_of text ++ [0].
Proof.
  intros Hfit. destruct (snprintf_fits text Hfit) as [E Hlen]. rewrite E in *. cbn [write_name ti_name].
  rewrite (take_ge (bytes_of text ++ [0]) name_len) by lia. unfold splice. rewrite take_0. cbn [app].
  replace (S (length (bytes_of text))) with (length (bytes_of text ++ [0])) by (rewrite length_app; cbn; lia).
  by rewrite take_app_length.
Qed.

Lemma write_name_fits text i : fits text -> is_u32 (ti_arg i) ->
  let i' := write_name (snprintf_bytes SEL4OSAPI_THREAD_NAME_MAX_LEN text) i in
  take (S (length (bytes_of text))) (ti_name i') = bytes_of text ++ [0] /\ ti_arg i' = ti_arg i.
Proof.
  intros Hfit Ha. split; [by apply name_stored|]. destruct (snprintf_fits text Hfit) as [_ Hlen]. pose proof arg_offset_ge.
  cbn [write_name ti_arg]. by rewrite (poke_outside (ti_arg i)) by (done || lia).
Qed.

(** *** The fault handler of the root task *)

Lemma wp_zf_logf s (Q : unit -> thread_state F K -> Prop) : Q tt s -> wp (zf_logf_if true) Q s.
Proof. intros HQ. unfold zf_logf_if. destruct ZF_LOGF_ABORTS; by wp_steps. Qed.

Lemma wp_setup_fault_handler s free busy ts j x t :
  holds (th_pool s) free busy ts -> busy !! j = Some x -> ts !! j = Some t -> (3 <= objects (th_env s))%nat ->
  wp (setup_fault_handler (Some x.2)) (fun _ s' => th_pool s' = th_pool s /\ takes 3 (th_env s) (th_env s')) s.
Proof.
  intros R Hx Ht Hobj. unfold setup_fault_handler. wp_step. eapply wp_read_thread; [done..|].
  wp_step. apply wp_tcall. destruct (th_endpoint_ok (th_env s)) as (-> & _ & _ & T1); [lia|].
  set (e := (vka_alloc_endpoint (th_env s)).1.2). set (k1 := (vka_alloc_endpoint (th_env s)).2) in *. wp_step. apply wp_zf_logf. wp_steps.
  apply wp_tcall. cbn [th_env th_pool]. destruct (th_set_space_ok (native_tcb (th_native t)) e k1) as [-> T2].
  set (k2 := (api_tcb_set_space _ e k1).2) in *. wp_step. apply wp_zf_logf. wp_steps.
  apply wp_tcall. cbn [th_env th_pool]. pose proof (takes_trans _ _ _ _ _ T1 T2) as T12.
  destruct (th_handler_ok e k2) as [-> T3]; [destruct T12; lia|].
  set (h := (sel4utils_start_fault_handler e k2).1.2). set (k3 := (sel4utils_start_fault_handler e k2).2) in *. wp_step. apply wp_zf_logf. wp_steps.
  apply wp_tcall. cbn [th_env th_pool].
  destruct (th_priority_ok h simple_get_tcb (ti_priority (th_info t)) k3) as [-> T4].
  set (k4 := (seL4_TCB_SetPriority _ _ _ k3).2) in *. wp_step. apply wp_zf_logf.
  pose proof (takes_trans _ _ _ _ _ (takes_trans _ _ _ _ _ T12 T3) T4) as T14.
  destruct CONFIG_KERNEL_RT; wp_steps.
  - apply wp_tcall. cbn [th_env th_pool]. destruct (th_sc_ok k4) as [-> T5]; [destruct T14; lia|].
    set (c := (vka_alloc_sched_context k4).1.2). set (k5 := (vka_alloc_sched_context k4).2) in *. wp_step. apply wp_zf_logf. wp_steps.
    apply wp_tcall. cbn [th_env th_pool]. destruct (th_sched_ok c k5) as [-> T6].
    set (k6 := (api_sched_ctrl_configure c k5).2) in *. wp_step. apply wp_zf_logf. wp_steps.
    apply wp_tcall. cbn [th_env th_pool]. destruct (th_bind_ok c h k6) as [-> T7]. apply wp_zf_logf. split; [done|].
    exact (takes_trans _ _ _ _ _ (takes_trans _ _ _ _ _ (takes_trans _ _ _ _ _ T14 T5) T6) T7).
  - split; [done|]. cbn [th_env]. destruct T14. split; [done|lia].
Qed.

(** *** Creation *)

Record request := Request { rq_name : option string; rq_routine : F; rq_arg : Z; rq_priority : Z }.

(** The thread [t] made for a request, as number [n] of its process. *)
Record thread_made (env : process_caps) (n : nat) (q : request) t : Prop := {
  tm_routine : th_routine t = rq_routine q;
  tm_tid : ti_tid (th_info t) = Z.of_nat n;
  tm_priority : ti_priority (th_info t) = rq_priority q;
  tm_arg : ti_arg (th_info t) =
    poke (rq_arg q) arg_offset (snprintf_bytes SEL4OSAPI_THREAD_NAME_MAX_LEN (thread_text env (rq_name q) (Z.of_nat n)));
  tm_name : fits (thread_text env (rq_name q) (Z.of_nat n)) -> is_u32 (rq_arg q) ->
    let text := bytes_of (thread_text env (rq_name q) (Z.of_nat n)) in
    take (S (length text)) (ti_name (th_info t)) = text ++ [0] /\ ti_arg (th_info t) = rq_arg q;
  tm_wait : ti_wait_aep (th_info t) = th_aep t;
  tm_ipc : ti_ipc (th_info t) = native_ipc_buffer (th_native t) /\ native_ipc_buffer (th_native t) <> 0;
  tm_fault : th_fault_endpoint t = pc_fault_endpoint env
}.

Definition thread_create_req (env : process_caps) (q : request) : M (thread_state F K) ptr :=
  sel4osapi_thread_create env (rq_name q) (rq_routine q) (rq_arg q) (rq_priority q).

Lemma wp_thread_create env q s x free busy ts :
  holds (th_pool s) (x :: free) busy ts -> (thread_cost <= objects (th_env s))%nat ->
  wp (thread_create_req env q) (fun r s' => r = Some x.2 /\ exists t,
    holds (th_pool s') free (busy ++ [x]) (ts ++ [t]) /\ takes thread_cost (th_env s) (th_env s') /\
    th_local_endpoint t ∉ caps_of (th_env s) /\ th_local_endpoint t ∈ caps_of (th_env s') /\
    thread_made env (S (length ts)) q t) s.
Proof.
  unfold thread_cost. intros R Hobj. unfold thread_create_req, sel4osapi_thread_create.
  wp_step. unfold on_threads at 1. apply wp_zoom. eapply holds_alloc_last; [exact R|done|].
  intros x' fr p v [= <- <-] Hx R1. wp_step. apply wp_assert; [done|].
  wp_step. unfold on_threads at 1. apply wp_zoom. cbn [th_pool]. eapply holds_size; [exact R1|].
  rewrite length_insert, length_app. cbn [length]. replace (length ts + 1)%nat with (S (length ts)) by lia.
  wp_step. apply wp_tcall. cbn [th_env th_pool].
  destruct (th_endpoint_ok (th_env s)) as (He0 & Hfresh & Hin & T1); [lia|].
  set (k1 := (vka_alloc_endpoint (th_env s)).2) in *. set (e := (vka_alloc_endpoint (th_env s)).1.2) in *.
  wp_step. eapply wp_upd_thread; [exact R1|exact Hx|]. intros p1 R2. cbn [th_env]. rewrite He0. wp_steps.
  apply wp_tcall. cbn [th_env th_pool]. destruct (th_notification_ok k1) as (Ha0 & _ & _ & T2); [destruct T1; lia|].
  set (k2 := (vka_alloc_notification k1).2) in *. pose proof (takes_trans _ _ _ _ _ T1 T2) as T12.
  wp_step. eapply wp_upd_thread; [exact R2|exact Hx|]. intros p2 R3. cbn [th_env]. rewrite Ha0. wp_step.
  wp_step; wp_step. eapply wp_upd_thread; [exact R3|exact Hx|]. intros p3 R4. cbn [th_env].
  set (config := ThreadConfig _ _ _ _ _ _). wp_step. apply wp_tcall. cbn [th_env th_pool].
  destruct (th_configure_ok config k2) as (Hc0 & Hipc & T3); [destruct T12; lia|].
  set (k3 := (sel4utils_configure_thread_config config k2).2) in *. pose proof (takes_trans _ _ _ _ _ T12 T3) as T13.
  wp_step. eapply wp_upd_thread; [exact R4|exact Hx|]. intros p4 R5. cbn [th_env]. rewrite Hc0. wp_step. wp_step.
  wp_step. eapply wp_upd_thread; [exact R5|exact Hx|]. intros p5 R6. cbn [th_env].
  wp_step. eapply wp_upd_thread; [exact R6|exact Hx|]. intros p6 R7. cbn [th_env].
  wp_step. eapply wp_upd_thread; [exact R7|exact Hx|]. intros p7 R8. cbn [th_env].
  wp_step. eapply wp_upd_thread; [exact R8|exact Hx|]. intros p8 R9. cbn [th_env].
  wp_step. eapply wp_upd_thread; [exact R9|exact Hx|]. intros p9 R10. cbn [th_env].
  wp_step. eapply wp_read_thread; [exact R10|exact Hx|rewrite insert_last; apply list_lookup_middle; done|].
  wp_step. eapply wp_upd_thread; [exact R10|exact Hx|]. intros p10 R11. cbn [th_env].
  rewrite insert_last in R11. wp_step.
  set (t := th_set_info _ _) in R11.
  assert (Hmade : th_local_endpoint t = e /\ thread_made env (S (length ts)) q t).
  { split; [done|]. split; try done; cbn [t th_info th_set_info th_set_routine ti_arg ti_name ti_set_wait_ipc ti_set_tls_tid write_name ti_set_arg].
    intros Hfit Harg. apply (write_name_fits _ (ti_set_arg (rq_arg q) _) Hfit Harg). }
  destruct Hmade as [Hep Hmade]. rewrite <- Hep in Hfresh, Hin. clearbody t.
  destruct (pc_is_root env).
  - eapply wp_mono.
    { eapply (wp_setup_fault_handler _ _ _ _ (length ts) x t); [exact R11|exact Hx|by apply list_lookup_middle|].
      cbn [th_env]. destruct T13; lia. }
    intros _ s' [Hp T4]. cbn [th_env th_pool] in *. wp_step. split; [done|]. exists t. rewrite Hp.
    split_and!; try done; [exact (takes_trans _ _ _ _ _ T13 T4)|]. apply T4, T3, T2, Hin.
  - wp_steps. split; [done|]. exists t. cbn [th_env th_pool].
    split_and!; try done; [|by apply T3, T2]. destruct T13. split; [done|lia].
Qed.

(** *** The threads of a process *)

Fixpoint create_threads env (qs : list request) : M (thread_state F K) (list ptr) :=
  match qs with
  | [] => ret []
  | q :: qs =>
      let! r := thread_create_req env q in
      let! rs := create_threads env qs in
      ret (r :: rs)
  end.

Record threads_rep env s free busy ts (qs : list request) : Prop := {
  tr_pool : holds (th_pool s) free busy ts;
  tr_length : length ts = length qs;
  tr_made n q t : qs !! n = Some q -> ts !! n = Some t -> thread_made env (S n) q t;
  tr_distinct : NoDup (th_local_endpoint <$> ts);
  tr_caps : Forall (fun t => th_local_endpoint t ∈ caps_of (th_env s)) ts
}.

Lemma threads_rep_empty env s fr : holds (th_pool s) fr [] [] -> threads_rep env s fr [] [] [].
Proof. by split; try done; constructor. Qed.

Lemma threads_rep_create env q s x free busy ts qs :
  threads_rep env s (x :: free) busy ts qs -> (thread_cost <= objects (th_env s))%nat ->
  wp (thread_create_req env q) (fun r s' => r = Some x.2 /\ takes thread_cost (th_env s) (th_env s') /\
    exists t, threads_rep env s' free (busy ++ [x]) (ts ++ [t]) (qs ++ [q])) s.
Proof.
  intros [R Hl Hm Hnd Hc] Hobj. eapply wp_mono; [by eapply wp_thread_create|].
  intros r s' (-> & t & R' & T & Hfresh & Hin & Hmade). split; [done|]. split; [done|]. exists t. split; [done| | | |].
  - rewrite !length_app, Hl. done.
  - intros n q' t' Hq Ht. apply lookup_snoc_Some in Hq. apply lookup_snoc_Some in Ht.
    destruct Hq as [[_ Hq]|[-> <-]], Ht as [[Hlt Ht]|[Hn <-]]; [by apply Hm| |lia|by rewrite Hl in Hmade].
    apply lookup_lt_Some in Hq. lia.
  - rewrite fmap_app. apply NoDup_app. split; [done|]. split; [|apply NoDup_singleton].
    intros c Hcin ->%list_elem_of_singleton. apply Hfresh.
    apply list_elem_of_fmap in Hcin as (t' & -> & Ht'). by apply (proj1 (Forall_forall _ _) Hc).
  - apply Forall_app. split; [|by constructor]. eapply Forall_impl; [exact Hc|]. intros t'. apply T.
Qed.

Lemma wp_create_threads env qs2 s free busy ts qs :
  threads_rep env s free busy ts qs -> (length qs2 <= length free)%nat ->
  (thread_cost * length qs2 <= objects (th_env s))%nat ->
  wp (create_threads env qs2) (fun rs s' => exists free' busy' new, free = busy' ++ free' /\
    rs = (fun x => Some x.2) <$> busy' /\ threads_rep env s' free' (busy ++ busy') (ts ++ new) (qs ++ qs2)) s.
Proof.
  revert s free busy ts qs. induction qs2 as [|q qs2 IH]; intros s free busy ts qs H Hlen Hobj; cbn [create_threads].
  - wp_step. exists free, [], []. by rewrite !app_nil_r.
  - destruct free as [|x free]; [cbn in Hlen; lia|]. cbn [length] in Hlen, Hobj.
    wp_step. eapply wp_mono; [eapply threads_rep_create; [exact H|lia]|].
    intros r s1 (-> & [_ T] & t & H1). wp_step. eapply wp_mono; [eapply IH; [exact H1|lia|lia]|].
    intros rs s2 (free' & busy' & new & -> & -> & H2). wp_step. exists free', (x :: busy'), (t :: new).
    rewrite <- !app_assoc in H2. by split_and!.
Qed.

(** A full pool stops the next creation; deleting threads does not empty it. *)
Lemma thread_create_full env q s busy ts :
  holds (th_pool s) [] busy ts -> thread_create_req env q s = Assert_failed.
Proof.
  intros R. unfold thread_create_req, sel4osapi_thread_create.
  assert (Ha : wp (on_threads simple_pool_alloc) (fun r _ => r = NULL) s).
  { unfold on_threads. apply wp_zoom. eapply holds_alloc; [exact R|done|done]. }
  destruct Ha as (r & s' & Ha & ->). by rewrite (bind_done _ _ _ _ _ Ha).
Qed.

Lemma wp_thread_delete s free busy ts j x :
  holds (th_pool s) free busy ts -> busy !! j = Some x ->
  wp (sel4osapi_thread_delete (Some x.2)) (fun _ s' => th_pool s' = th_pool s) s.
Proof.
  intros R Hx. destruct (holds_length _ _ _ _ R) as (Hl & _).
  destruct (lookup_lt_is_Some_2 ts j) as [t Ht]; [apply lookup_lt_Some in Hx; lia|].
  unfold sel4osapi_thread_delete, tdo. wp_step. eapply wp_read_thread; [done..|]. wp_steps.
  eapply wp_read_thread; [done..|]. wp_steps. done.
Qed.

Fixpoint delete_threads (l : list ptr) : M (thread_state F K) unit :=
  match l with [] => ret tt | p :: l => sel4osapi_thread_delete p ;; delete_threads l end.

Lemma wp_delete_threads s free busy ts l :
  holds (th_pool s) free busy ts -> Forall (fun p => exists x, p = Some x.2 /\ x ∈ busy) l ->
  wp (delete_threads l) (fun _ s' => th_pool s' = th_pool s) s.
Proof.
  intros R Hl. revert s R. induction Hl as [|p l (x & -> & [j Hx]%list_elem_of_lookup) _ IH]; intros s R; cbn [delete_threads].
  - by wp_step.
  - wp_step. eapply wp_mono; [by eapply wp_thread_delete|]. intros ? s' Hp. eapply wp_mono; [apply IH; by rewrite Hp|].
    intros ? s2. by rewrite Hp.
Qed.

(** *** Properties *)

(** C30: The threads of a process are numbered 1, 2, ... in order of creation and
    have structures and endpoints of their own; each has the routine and the
    priority asked for and, when its name fits the array (thirty-nine characters
    by default), that name and its argument; it waits on its own notification.
    The pool allows SEL4OSAPI_MAX_THREADS_PER_PROCESS of them. *)
Theorem threads_numbered env s fr qs :
  holds (th_pool s) fr [] [] -> (length qs <= length fr)%nat -> (thread_cost * length qs <= objects (th_env s))%nat ->
  exists rs s' free busy ts, create_threads env qs s = Done (rs, s') /\ fr = busy ++ free /\
    rs = (fun x => Some x.2) <$> busy /\ NoDup rs /\ holds (th_pool s') free busy ts /\
    NoDup (th_local_endpoint <$> ts) /\ (fun t => ti_tid (th_info t)) <$> ts = seqZ 1 (Z.of_nat (length qs)) /\
    (forall n q t, qs !! n = Some q -> ts !! n = Some t -> thread_made env (S n) q t).
Proof.
  intros R Hlen Hobj.
  destruct (wp_create_threads env qs s fr [] [] []) as (rs & s' & Hr & free & busy & ts & -> & -> & H);
    [by apply threads_rep_empty|done|done|].
  cbn [app] in H. destruct (holds_length _ _ _ _ (tr_pool _ _ _ _ _ _ H)) as (Hlb & _ & Hnd & _).
  exists ((fun x => Some x.2) <$> busy), s', free, busy, ts. split_and!; try done; try apply H.
  - replace ((fun x : loc * loc => Some x.2) <$> busy) with (Some <$> busy.*2) by by rewrite <- list_fmap_compose.
    by apply NoDup_fmap_2; [apply _|].
  - apply list_eq. intros n. rewrite list_lookup_fmap.
    destruct (ts !! n) as [t|] eqn:Ht; cbn.
    + pose proof (lookup_lt_Some _ _ _ Ht) as Hn. rewrite (tr_length _ _ _ _ _ _ H) in Hn.
      destruct (lookup_lt_is_Some_2 qs n Hn) as [q Hq].
      rewrite (tm_tid _ _ _ _ (tr_made _ _ _ _ _ _ H n q t Hq Ht)), lookup_seqZ_lt by lia. f_equal. lia.
    + apply lookup_ge_None in Ht. rewrite (tr_length _ _ _ _ _ _ H) in Ht. by rewrite lookup_seqZ_ge by lia.
Qed.

(** Deleting a thread frees its kernel objects but not its structure: after
    as many creations as the pool has structures, one more fails an assertion
    even when every thread has been deleted. *)
Theorem thread_delete_leaks env s fr qs q :
  holds (th_pool s) fr [] [] -> length qs = length fr -> (thread_cost * length qs <= objects (th_env s))%nat ->
  exists rs s1 s2, create_threads env qs s = Done (rs, s1) /\ delete_threads rs s1 = Done (tt, s2) /\
    thread_create_req env q s2 = Assert_failed.
Proof.
  intros R Hlen Hobj.
  destruct (wp_create_threads env qs s fr [] [] []) as (rs & s1 & Hr & free & busy & ts & Hfr & -> & H);
    [by apply threads_rep_empty|lia|done|].
  cbn [app] in H. pose proof (tr_pool _ _ _ _ _ _ H) as R1. destruct (holds_length _ _ _ _ R1) as (Hlb & _).
  assert (free = []) as ->.
  { rewrite (tr_length _ _ _ _ _ _ H) in Hlb. rewrite Hlen, Hfr, length_app in Hlb. destruct free; [done|cbn in Hlb; lia]. }
  destruct (wp_delete_threads s1 [] busy ts ((fun x => Some x.2) <$> busy) R1) as ([] & s2 & Hd & Hp).
  { apply Forall_fmap, Forall_forall. intros x Hx. by exists x. }
  exists ((fun x => Some x.2) <$> busy), s1, s2. split_and!; [done|done|].
  eapply thread_create_full. by rewrite Hp.
Qed.

(** Snprintf is given the size of a longer array than [name] is: the
    characters of a longer name, and its NUL, land in the thread's argument,
    which was stored before. *)
Theorem thread_long_name_corrupts_arg env q s x free busy ts n :
  holds (th_pool s) (x :: free) busy ts -> (thread_cost <= objects (th_env s))%nat ->
  rq_name q = Some n -> (arg_offset <= length (bytes_of n))%nat -> is_u32 (rq_arg q) -> arg_offset = name_len ->
  SEL4OSAPI_THREAD_NAME_PREFIX_MAX_LEN < SEL4OSAPI_THREAD_NAME_MAX_LEN ->
  exists s' t, thread_create_req env q s = Done (Some x.2, s') /\ holds (th_pool s') free (busy ++ [x]) (ts ++ [t]) /\
    byte_of (ti_arg (th_info t)) 0 = u8 (default 0 (bytes_of n !! arg_offset)).
Proof.
  intros R Hobj Hn Hlong Harg Hoff Hmax.
  destruct (wp_thread_create env q s x free busy ts R Hobj) as (r & s' & Hr & -> & t & R' & _ & _ & _ & Hm).
  exists s', t. split_and!; [done|done|]. rewrite (tm_arg _ _ _ _ Hm), Hn. cbn [thread_text].
  unfold byte_of at 1, poke. change (2 ^ (8 * Z.of_nat 0)) with 1. rewrite Z.div_1_r.
  unfold snprintf_bytes. rewrite Nat.add_0_r.
  assert (Hb : default (byte_of (rq_arg q) 0) ((take (Z.to_nat (SEL4OSAPI_THREAD_NAME_MAX_LEN - 1)) (bytes_of n) ++ [0]) !! arg_offset)
    = default 0 (bytes_of n !! arg_offset)).
  { unfold name_len, SEL4OSAPI_THREAD_NAME_PREFIX_MAX_LEN in Hoff, Hmax.
    destruct (bytes_of n !! arg_offset) as [b|] eqn:Hb.
    - cbn. rewrite lookup_app_l by (rewrite length_take; apply lookup_lt_Some in Hb; lia).
      by rewrite lookup_take_lt, Hb by lia.
    - apply lookup_ge_None in Hb. rewrite lookup_app_r by (rewrite length_take; lia).
      rewrite length_take. replace (arg_offset - _)%nat with 0%nat by lia. done. }
  rewrite Hb. unfold u8. set (b0 := default 0 _). change (2 ^ 8) with 256. change (2 ^ 16) with (256 * 256). change (2 ^ 24) with (256 * 65536).
  rewrite <- !Z.mul_assoc. rewrite <- !Z.add_assoc, <- !Z.mul_add_distr_l. by rewrite Z.mul_comm, Z.mod_add.
Qed.
End thread_spec.

(** ** Running threads

    Each thread runs on its own; what it shares with the others are the
    structures.  [tw_userdata] is the user-data word of each thread's IPC
    buffer, which libsel4utils sets to the buffer's address when it starts the
    thread; [tw_phase] is how far the thread has come: it stays blocked in its
    final call after it was joined, since nobody replies. *)

Inductive phase := Ph_created | Ph_started | Ph_running | Ph_calling (mr0 : Z) | Ph_joined.

Definition addr (l : loc) : Z := Z.pos l.

Section run_c.
Context {CFG : Config} {F K : Type} {ENV : ThreadEnv K}.

Record thread_world := TWorld {
  tw_state : thread_state F K;
  tw_userdata : gmap loc Z;
  tw_phase : gmap loc phase
}.

Definition on_state {A} (m : M (thread_state F K) A) : M thread_world A :=
  zoom tw_state (fun s w => TWorld s (tw_userdata w) (tw_phase w)) m.
Definition seL4_GetUserData (l : loc) : M thread_world Z := let! w := get in deref (tw_userdata w !! l).
Definition seL4_SetUserData (l : loc) (v : Z) : M thread_world unit :=
  modify (fun w => TWorld (tw_state w) (<[l := v]> (tw_userdata w)) (tw_phase w)).
Definition set_phase (l : loc) (p : phase) (w : thread_world) : thread_world :=
  TWorld (tw_state w) (tw_userdata w) (<[l := p]> (tw_phase w)).

(** Run by thread [l] itself. *)
Definition sel4osapi_thread_init_tls (l : loc) : M thread_world unit :=
  let! word := seL4_GetUserData l in
  on_state (upd_thread (Some l) (th_set_info (ti_set_ipc_word word))) ;;
  let! t := on_state (read_thread (Some l)) in
  assert_ (negb (ti_ipc_word (th_info t) =? 0)) ;;
  seL4_SetUserData l (addr l).

(** [sel4osapi_thread_routine_wrapper] before and after the routine; it ends in
    a call that carries 0. *)
Definition wrapper_enter (l : loc) : M thread_world unit :=
  sel4osapi_thread_init_tls l ;;
  on_state (upd_thread (Some l) (th_set_info (ti_set_active 1))).
Definition wrapper_leave (l : loc) : M thread_world Z :=
  on_state (upd_thread (Some l) (th_set_info (ti_set_active 0))) ;;
  ret 0.

Definition sel4osapi_thread_get_current (l : loc) : M thread_world loc :=
  let! word := seL4_GetUserData l in
  deref (match word with Zpos p => Some p | _ => None end).

(** Waiting on an endpoint that thread [l'] calls receives its message; when it
    does not call it, there is nothing to receive. *)
Definition seL4_Wait (l' : loc) (ep : Z) : M thread_world Z :=
  let! w := get in
  let! caller := on_state (read_thread (Some l')) in
  let! mr0 := deref (match tw_phase w !! l' with
                     | Some (Ph_calling mr0) => if th_local_endpoint caller =? ep then Some mr0 else None
                     | _ => None
                     end) in
  modify (set_phase l' Ph_joined) ;;
  ret mr0.

Definition sel4osapi_thread_join (wait : Z -> M thread_world Z) (thread : ptr) : M thread_world Z :=
  let! t := on_state (read_thread thread) in
  wait (th_local_endpoint t).

Inductive tlabel := T_start (l : loc) | T_enter (l : loc) | T_leave (l : loc) (mr0 : Z) | T_join (l caller : loc) (result : Z).

(** What happens to the thread [l]; a join receives the call of some thread
    [l'] that is waiting. *)
Inductive thread_step : thread_world -> tlabel -> thread_world -> Prop :=
| Ts_start l t w s' :
    tw_phase w !! l = Some Ph_created -> read_thread (Some l) (tw_state w) = Done (t, tw_state w) ->
    sel4osapi_thread_start (Some l) (tw_state w) = Done (0, s') ->
    thread_step w (T_start l) (set_phase l Ph_started
      (TWorld s' (<[l := native_ipc_buffer (th_native t)]> (tw_userdata w)) (tw_phase w)))
| Ts_enter l w w' :
    tw_phase w !! l = Some Ph_started -> wrapper_enter l w = Done (tt, w') ->
    thread_step w (T_enter l) (set_phase l Ph_running w')
| Ts_leave l w w' mr0 :
    tw_phase w !! l = Some Ph_running -> wrapper_leave l w = Done (mr0, w') ->
    thread_step w (T_leave l mr0) (set_phase l (Ph_calling mr0) w')
| Ts_join l l' w mr0 w' :
    is_Some (tw_phase w !! l) -> sel4osapi_thread_join (seL4_Wait l') (Some l) w = Done (mr0, w') ->
    thread_step w (T_join l l' mr0) w'.

Inductive thread_run (w : thread_world) : list tlabel -> thread_world -> Prop :=
| Tr_nil : thread_run w [] w
| Tr_snoc tr w1 lb w2 : thread_run w tr w1 -> thread_step w1 lb w2 -> thread_run w (tr ++ [lb]) w2.
End run_c.
Arguments thread_world F K : clear implicits.

Section run_spec.
Context {CFG : Config} {F K : Type} {ENV : ThreadEnv K} {EOK : ThreadEnvOk K}.
Implicit Types (w : thread_world F K) (t : sel4osapi_thread_t F) (ts : list (sel4osapi_thread_t F)).
Implicit Types (free busy : list (loc * loc)) (l : loc) (tr : list tlabel).

Definition label_of (lb : tlabel) : loc :=
  match lb with T_start l | T_enter l | T_leave l _ => l | T_join _ l' _ => l' end.
Definition history l tr : list tlabel := filter (fun lb => label_of lb = l) tr.

(** What a thread has done and what its structure says, by phase. *)
Definition lived l (ph : phase) (h : list tlabel) : Prop :=
  match ph with
  | Ph_created => h = []
  | Ph_started => h = [T_start l]
  | Ph_running => h = [T_start l; T_enter l]
  | Ph_calling mr0 => mr0 = 0 /\ h = [T_start l; T_enter l; T_leave l 0]
  | Ph_joined => h = [T_start l; T_enter l; T_leave l 0; T_join l l 0]
  end.

Definition thread_inv w tr l t : Prop :=
  native_ipc_buffer (th_native t) <> 0 /\ exists ph, tw_phase w !! l = Some ph /\ lived l ph (history l tr) /\
  match ph with
  | Ph_created => True
  | Ph_started => tw_userdata w !! l = Some (native_ipc_buffer (th_native t))
  | Ph_running => tw_userdata w !! l = Some (addr l) /\ ti_active (th_info t) = 1 /\
      ti_ipc_word (th_info t) = native_ipc_buffer (th_native t)
  | Ph_calling _ | Ph_joined => tw_userdata w !! l = Some (addr l) /\ ti_active (th_info t) = 0
  end.

Record world_inv free busy (eps : list Z) w tr : Prop := {
  wi_ts : exists ts, holds (th_pool (tw_state w)) free busy ts /\ th_local_endpoint <$> ts = eps /\
    forall j x t, busy !! j = Some x -> ts !! j = Some t -> thread_inv w tr x.2 t;
  wi_phases l : is_Some (tw_phase w !! l) -> l ∈ busy.*2
}.

(** A thread of the world: its place in the pool. *)
Lemma world_thread free busy eps w tr l : world_inv free busy eps w tr -> is_Some (tw_phase w !! l) ->
  exists ts j x t, x.2 = l /\ holds (th_pool (tw_state w)) free busy ts /\ th_local_endpoint <$> ts = eps /\
    busy !! j = Some x /\ ts !! j = Some t /\ NoDup busy.*2 /\ thread_inv w tr l t /\
    (forall j x t, busy !! j = Some x -> ts !! j = Some t -> thread_inv w tr x.2 t).
Proof.
  intros [(ts & R & He & Hall) Hph] Hl. apply Hph in Hl. apply list_elem_of_fmap in Hl as (x & -> & [j Hj]%list_elem_of_lookup).
  destruct (holds_length _ _ _ _ R) as (Hlen & _ & Hnd & _).
  destruct (lookup_lt_is_Some_2 ts j) as [t Ht]; [apply lookup_lt_Some in Hj; lia|].
  exists ts, j, x, t. split_and!; try done. by eapply Hall.
Qed.

(** Other threads are not concerned by a step of [l]. *)
Lemma history_other l lb tr : label_of lb <> l -> history l (tr ++ [lb]) = history l tr.
Proof. intros H. unfold history. rewrite filter_app, filter_cons_False by done. by rewrite filter_nil, app_nil_r. Qed.

Lemma history_same lb tr : history (label_of lb) (tr ++ [lb]) = history (label_of lb) tr ++ [lb].
Proof. unfold history. by rewrite filter_app, filter_cons_True. Qed.

Lemma thread_inv_other w w' tr lb l t : label_of lb <> l ->
  tw_phase w' !! l = tw_phase w !! l -> tw_userdata w' !! l = tw_userdata w !! l ->
  thread_inv w tr l t -> thread_inv w' (tr ++ [lb]) l t.
Proof. intros Hl Hp Hu. unfold thread_inv. by rewrite Hp, Hu, history_other. Qed.

(** The state after a step of the thread at place [j]: it changes its own
    structure, phase and user data. *)
Lemma world_step free busy eps w w' tr lb j x t t' ts :
  holds (th_pool (tw_state w')) free busy (<[j := t']> ts) -> th_local_endpoint <$> ts = eps ->
  busy !! j = Some x -> ts !! j = Some t -> th_local_endpoint t' = th_local_endpoint t -> NoDup busy.*2 ->
  label_of lb = x.2 -> thread_inv w' (tr ++ [lb]) x.2 t' ->
  (forall l, l <> x.2 -> tw_phase w' !! l = tw_phase w !! l /\ tw_userdata w' !! l = tw_userdata w !! l) ->
  (forall j x t, busy !! j = Some x -> ts !! j = Some t -> thread_inv w tr x.2 t) ->
  (forall l, is_Some (tw_phase w !! l) -> l ∈ busy.*2) ->
  world_inv free busy eps w' (tr ++ [lb]).
Proof.
  intros R He Hx Ht Hep Hnd Hlb Hinv Hframe Hall Hph. split.
  - exists (<[j := t']> ts). split; [done|]. split.
    + rewrite list_fmap_insert, He, Hep, list_insert_id; [done|]. rewrite <- He, list_lookup_fmap, Ht. done.
    + intros j2 x2 t2 Hx2 Ht2. destruct (decide (j2 = j)) as [->|Hne].
      * rewrite list_lookup_insert_eq in Ht2 by (by eapply lookup_lt_Some). by simplify_eq.
      * rewrite list_lookup_insert_ne in Ht2 by done.
        assert (Hne2 : x2.2 <> x.2).
        { intros Heq. apply Hne. eapply (NoDup_lookup _ _ _ x.2 Hnd); rewrite list_lookup_fmap; [rewrite Hx2; cbn; by rewrite Heq|by rewrite Hx]. }
        destruct (Hframe x2.2 Hne2). eapply thread_inv_other; [by rewrite Hlb|done|done|]. by eapply Hall.
  - intros l Hl. destruct (decide (l = x.2)) as [->|Hne].
    + apply list_elem_of_fmap. exists x. split; [done|]. by eapply list_elem_of_lookup_2.
    + apply Hph. by rewrite <- (proj1 (Hframe l Hne)).
Qed.

Lemma wp_upd_at w free busy ts j x t f (Q : unit -> thread_world F K -> Prop) :
  holds (th_pool (tw_state w)) free busy (<[j := t]> ts) -> busy !! j = Some x ->
  (forall s, holds (th_pool s) free busy (<[j := f t]> ts) -> Q tt (TWorld s (tw_userdata w) (tw_phase w))) ->
  wp (on_state (upd_thread (Some x.2) f)) Q w.
Proof. intros R Hx HQ. unfold on_state. apply wp_zoom. eapply wp_upd_thread; [done..|]. intros p R'. by apply HQ. Qed.

Lemma wp_wrapper_enter w free busy ts j x t word :
  holds (th_pool (tw_state w)) free busy (<[j := t]> ts) -> busy !! j = Some x -> (j < length ts)%nat ->
  tw_userdata w !! x.2 = Some word -> word <> 0 ->
  wp (wrapper_enter x.2) (fun _ w' =>
    holds (th_pool (tw_state w')) free busy (<[j := th_set_info (ti_set_active 1) (th_set_info (ti_set_ipc_word word) t)]> ts) /\
    tw_phase w' = tw_phase w /\ tw_userdata w' = <[x.2 := addr x.2]> (tw_userdata w)) w.
Proof.
  intros R Hx Hj Hu Hw. unfold wrapper_enter, sel4osapi_thread_init_tls, seL4_GetUserData, seL4_SetUserData.
  wp_step. wp_step. wp_step. wp_step. eapply wp_deref; [exact Hu|]. wp_step. eapply wp_upd_at; [exact R|exact Hx|].
  intros s1 R1. wp_step. unfold on_state at 1. apply wp_zoom. cbn [tw_state].
  eapply wp_read_thread; [exact R1|exact Hx|by apply list_lookup_insert_eq|]. cbn [th_info th_set_info ti_ipc_word ti_set_ipc_word].
  wp_step. apply wp_assert; [by rewrite (proj2 (Z.eqb_neq _ _) Hw)|]. wp_step.
  eapply wp_upd_at; [exact R1|exact Hx|]. intros s2 R2. by split_and!.
Qed.

Lemma read_thread_eq (s s' : thread_state F K) free busy ts j x t t' : holds (th_pool s) free busy ts -> busy !! j = Some x ->
  ts !! j = Some t -> read_thread (Some x.2) s = Done (t', s') -> t' = t /\ s' = s.
Proof.
  intros R Hx Ht. apply (wlp_of_wp _ (fun a s' => a = t /\ s' = s)). by eapply wp_read_thread.
Qed.

(** A join receives the call of a thread whose endpoint is that of the thread it names. *)
Lemma join_done l l' w mr0 w' : sel4osapi_thread_join (seL4_Wait l') (Some l) w = Done (mr0, w') ->
  exists t t' s s', read_thread (Some l) (tw_state w) = Done (t, s) /\ read_thread (Some l') s = Done (t', s') /\
    th_local_endpoint t' = th_local_endpoint t /\ tw_phase w !! l' = Some (Ph_calling mr0) /\
    w' = set_phase l' Ph_joined (TWorld s' (tw_userdata w) (tw_phase w)).
Proof.
  unfold sel4osapi_thread_join, seL4_Wait, on_state, zoom, bind, get, deref, modify, ret.
  repeat case_match; intros; simplify_eq. cbn in *.
  eexists _, _, _, _. split_and!; [done|done|by apply Z.eqb_eq|done|done].
Qed.

(** Every step keeps the invariant: one lemma per rule. *)

Lemma step_start_inv free busy eps w tr l t0 s' : world_inv free busy eps w tr ->
  tw_phase w !! l = Some Ph_created -> read_thread (Some l) (tw_state w) = Done (t0, tw_state w) ->
  sel4osapi_thread_start (Some l) (tw_state w) = Done (0, s') ->
  world_inv free busy eps (set_phase l Ph_started (TWorld s' (<[l := native_ipc_buffer (th_native t0)]> (tw_userdata w)) (tw_phase w)))
    (tr ++ [T_start l]).
Proof.
  intros Hinv Hp Hrd Hst. pose proof (wi_phases _ _ _ _ _ Hinv) as Hph.
  destruct (world_thread _ _ _ _ _ l Hinv) as (ts & j & x & t & <- & R & He & Hx & Ht & Hnd & (Hipc & ph & Hp' & Hlv & _) & Hall); [done|].
  rewrite Hp in Hp'. injection Hp' as <-.
  assert (t0 = t) as ->.
  { by apply (read_thread_eq _ _ _ _ _ _ _ _ _ R Hx Ht) in Hrd as []. }
  assert (Hs' : th_pool s' = th_pool (tw_state w)).
  { revert Hst. apply wlp_of_wp with (Q := fun _ s' => th_pool s' = th_pool (tw_state w)). unfold sel4osapi_thread_start. wp_step. eapply wp_read_thread; [done..|].
    wp_step. apply wp_tcall. destruct (th_start_ok (th_native t) (th_env (tw_state w))) as [-> _]. wp_steps. done. }
  eapply (world_step _ _ _ w _ _ _ j x t t ts); try done.
  - cbn. by rewrite Hs', list_insert_id.
  - split; [done|]. exists Ph_started. cbn. rewrite !lookup_insert_eq. split_and!; [done| |done].
    rewrite (history_same (T_start x.2)). cbn in *. by rewrite Hlv.
  - intros l Hl. cbn. by rewrite !lookup_insert_ne.
Qed.

Lemma step_enter_inv free busy eps w tr l w' : world_inv free busy eps w tr ->
  tw_phase w !! l = Some Ph_started -> wrapper_enter l w = Done (tt, w') ->
  world_inv free busy eps (set_phase l Ph_running w') (tr ++ [T_enter l]).
Proof.
  intros Hinv Hp Hen. pose proof (wi_phases _ _ _ _ _ Hinv) as Hph.
  destruct (world_thread _ _ _ _ _ l Hinv) as (ts & j & x & t & <- & R & He & Hx & Ht & Hnd & (Hipc & ph & Hp' & Hlv & Hst) & Hall); [done|].
  rewrite Hp in Hp'. injection Hp' as <-.
  eapply wp_done in Hen; [|eapply (wp_wrapper_enter w free busy ts j x t); [by rewrite list_insert_id|done|by eapply lookup_lt_Some|exact Hst|done]].
  destruct Hen as (R' & Hp' & Hu').
  eapply (world_step _ _ _ w _ _ _ j x t _ ts); [exact R'|done|done|done|done|done|done| | |done|done].
  - split; [done|]. exists Ph_running. cbn. rewrite Hu', Hp', !lookup_insert_eq. split_and!; try done.
    rewrite (history_same (T_enter x.2)). cbn in *. by rewrite Hlv.
  - intros l Hl. cbn. by rewrite Hu', Hp', !lookup_insert_ne.
Qed.

Lemma step_leave_inv free busy eps w tr l mr0 w' : world_inv free busy eps w tr ->
  tw_phase w !! l = Some Ph_running -> wrapper_leave l w = Done (mr0, w') ->
  world_inv free busy eps (set_phase l (Ph_calling mr0) w') (tr ++ [T_leave l mr0]).
Proof.
  intros Hinv Hp Hlv. pose proof (wi_phases _ _ _ _ _ Hinv) as Hph.
  destruct (world_thread _ _ _ _ _ l Hinv) as (ts & j & x & t & <- & R & He & Hx & Ht & Hnd & (Hipc & ph & Hp' & Hlf & Hst) & Hall); [done|].
  rewrite Hp in Hp'. injection Hp' as <-. destruct Hst as (Hu & _ & _).
  assert (Hw : wp (wrapper_leave x.2) (fun r w' => r = 0 /\
    holds (th_pool (tw_state w')) free busy (<[j := th_set_info (ti_set_active 0) t]> ts) /\
    tw_phase w' = tw_phase w /\ tw_userdata w' = tw_userdata w) w).
  { unfold wrapper_leave. wp_step. eapply (wp_upd_at w free busy ts j x t); [by rewrite list_insert_id|done|].
    intros s R'. wp_step. by split_and!. }
  eapply wp_done in Hlv; [|exact Hw]. destruct Hlv as (-> & R' & Hp' & Hu').
  eapply (world_step _ _ _ w _ _ _ j x t _ ts); [exact R'|done|done|done|done|done|done| | |done|done].
  - split; [done|]. exists (Ph_calling 0). cbn. rewrite Hu', Hp', lookup_insert_eq. split_and!; try done.
    rewrite (history_same (T_leave x.2 0)). cbn in *. by rewrite Hlf.
  - intros l Hl. cbn. by rewrite Hu', Hp', lookup_insert_ne.
Qed.

Lemma step_join_inv free busy eps w tr l l' mr0 w' : NoDup eps -> world_inv free busy eps w tr ->
  is_Some (tw_phase w !! l) -> sel4osapi_thread_join (seL4_Wait l') (Some l) w = Done (mr0, w') ->
  world_inv free busy eps w' (tr ++ [T_join l l' mr0]).
Proof.
  intros Hnde Hinv Hl Hj. pose proof (wi_phases _ _ _ _ _ Hinv) as Hph.
  apply join_done in Hj as (t0 & t0' & s0 & s0' & Hrd & Hrd' & Hep & Hp & ->).
  destruct (world_thread _ _ _ _ _ l' Hinv) as (ts & j & x & t & <- & R & He & Hx & Ht & Hnd & (Hipc & ph & Hp' & Hlf & Hst) & Hall); [done|].
  rewrite Hp in Hp'. injection Hp' as <-.
  destruct (world_thread _ _ _ _ _ l Hinv Hl) as (ts2 & j2 & x2 & t2 & <- & R2 & He2 & Hx2 & Ht2 & _).
  apply (read_thread_eq _ _ _ _ _ _ _ _ _ R2 Hx2 Ht2) in Hrd as [-> ->].
  apply (read_thread_eq _ _ _ _ _ _ _ _ _ R Hx Ht) in Hrd' as [-> ->].
  assert (x2 = x) as ->.
  { rewrite <- He in Hnde. assert (j2 = j) as ->; [|by simplify_eq].
    eapply (NoDup_lookup _ _ _ (th_local_endpoint t) Hnde); [|by rewrite list_lookup_fmap, Ht].
    by rewrite He, <- He2, list_lookup_fmap, Ht2, Hep. }
  eapply (world_step _ _ _ w _ _ _ j x t t ts); try done.
  - cbn. by rewrite list_insert_id.
  - destruct Hlf as [-> Hlf]. split; [done|]. exists Ph_joined. cbn. rewrite lookup_insert_eq. split_and!; try done; try apply Hst.
    rewrite (history_same (T_join x.2 x.2 0)). cbn in *. by rewrite Hlf.
  - intros l2 Hl2. cbn. by rewrite lookup_insert_ne.
Qed.

Lemma thread_step_inv free busy eps w tr lb w' : NoDup eps ->
  world_inv free busy eps w tr -> thread_step w lb w' -> world_inv free busy eps w' (tr ++ [lb]).
Proof.
  intros Hnde Hinv Hstep. destruct Hstep.
  - by eapply step_start_inv.
  - by eapply step_enter_inv.
  - by eapply step_leave_inv.
  - by eapply step_join_inv.
Qed.

Lemma thread_run_inv free busy eps w tr w' : NoDup eps ->
  world_inv free busy eps w [] -> thread_run w tr w' -> world_inv free busy eps w' tr.
Proof.
  intros Hnd Hinv Hrun. induction Hrun as [|tr w1 lb w2 _ IH Hstep]; [done|].
  eapply thread_step_inv; [done|by apply IH|done].
Qed.

(** The threads of a process that were created and not started yet. *)
Definition all_created env s free busy ts qs w : Prop :=
  tw_state w = s /\ threads_rep env s free busy ts qs /\
  forall l, tw_phase w !! l = if bool_decide (l ∈ busy.*2) then Some Ph_created else None.

Lemma all_created_inv env s free busy ts qs w : all_created env s free busy ts qs w ->
  world_inv free busy (th_local_endpoint <$> ts) w [].
Proof.
  intros (<- & [R Hlq Hm Hnd Hc] & Hph). destruct (holds_length _ _ _ _ R) as (Hl & _). split.
  - exists ts. split_and!; [done|done|]. intros j x t Hx Ht.
    destruct (lookup_lt_is_Some_2 qs j) as [q Hq]; [rewrite <- Hlq; by eapply lookup_lt_Some|].
    split; [apply (tm_ipc _ _ _ _ (Hm j q t Hq Ht))|]. exists Ph_created. split; [|by split].
    rewrite Hph, bool_decide_true; [done|]. apply list_elem_of_fmap. exists x. split; [done|]. by eapply list_elem_of_lookup_2.
  - intros l Hl'. rewrite Hph in Hl'. case_bool_decide; [done|by destruct Hl'].
Qed.

(** C29: Joining waits for the end.  In every interleaving of the threads of a
    process, a thread is started, enters its routine, leaves it and is joined in
    this order and once each; a join that names a thread receives the call of
    that thread and of no other, returns 0, and happens only after the thread has
    left its routine and is no longer active. *)
Theorem thread_join_waits env s free busy ts qs w tr w' :
  all_created env s free busy ts qs w -> thread_run w tr w' ->
  (forall l, l ∈ busy.*2 -> history l tr `prefix_of` [T_start l; T_enter l; T_leave l 0; T_join l l 0]) /\
  (forall l l' r w2, thread_step w' (T_join l l' r) w2 ->
     l' = l /\ r = 0 /\ history l tr = [T_start l; T_enter l; T_leave l 0] /\
     exists t, read_thread (Some l) (tw_state w') = Done (t, tw_state w') /\ ti_active (th_info t) = 0).
Proof.
  intros H0 Hrun. pose proof (all_created_inv _ _ _ _ _ _ _ H0) as Hinv0. destruct H0 as (_ & H & _).
  pose proof (tr_distinct _ _ _ _ _ _ H) as Hnde.
  pose proof (thread_run_inv _ _ _ _ _ _ Hnde Hinv0 Hrun) as Hinv. split.
  - intros l (x & -> & [j Hx]%list_elem_of_lookup)%list_elem_of_fmap.
    destruct (wi_ts _ _ _ _ _ Hinv) as (ts' & R & _ & Hall). destruct (holds_length _ _ _ _ R) as (Hl & _).
    destruct (lookup_lt_is_Some_2 ts' j) as [t Ht]; [apply lookup_lt_Some in Hx; lia|].
    destruct (Hall j x t Hx Ht) as (_ & ph & _ & Hlv & _).
    destruct ph; cbn in Hlv; [..|destruct Hlv as [_ Hlv]|]; rewrite Hlv; by eexists.
  - intros l l' r w2 Hstep.
    pose proof (thread_step_inv _ _ _ _ _ _ _ Hnde Hinv Hstep) as Hinv2.
    assert (Hp : tw_phase w' !! l' = Some (Ph_calling r) /\ tw_phase w2 !! l' = Some Ph_joined).
    { inversion Hstep as [| | |? ? ? ? ? _ Hj]; subst. apply join_done in Hj as (? & ? & ? & ? & _ & _ & _ & Hp & ->).
      split; [done|]. cbn. apply lookup_insert_eq. }
    destruct Hp as [Hp Hp2].
    destruct (world_thread _ _ _ _ _ l' Hinv) as (ts' & j & x & t & <- & R & _ & Hx & Ht & _ & (_ & ph & Hp' & Hlv & Hst) & _); [done|].
    rewrite Hp in Hp'. injection Hp' as <-. destruct Hst as [_ Hact].
    destruct (world_thread _ _ _ _ _ x.2 Hinv2) as (? & ? & ? & ? & Heq & _ & _ & _ & _ & _ & (_ & ph & Hp' & Hlv2 & _) & _); [done|].
    rewrite Hp2 in Hp'. injection Hp' as <-. cbn [lived] in Hlv, Hlv2.
    destruct Hlv as [-> Hlv]. rewrite (history_same (T_join l x.2 0)) in Hlv2. cbn [label_of] in Hlv2.
    rewrite Hlv in Hlv2. injection Hlv2 as ->.
    split_and!; try done. exists t. split; [|done].
    assert (Hr : wp (read_thread (Some x.2)) (fun a s' => a = t /\ s' = tw_state w') (tw_state w')) by (by eapply wp_read_thread).
    destruct Hr as (a & s' & Hr & -> & ->). done.
Qed.

(** No thread is stuck.  In every reachable world each thread can take its
    next step until it has been joined - its start, the entry of its routine,
    where no assertion fails, its end, and the join - and while it runs
    [sel4osapi_thread_get_current] gives it its own structure. *)
Theorem thread_progress env s free busy ts qs w tr w' l :
  all_created env s free busy ts qs w -> thread_run w tr w' -> l ∈ busy.*2 ->
  match tw_phase w' !! l with
  | Some Ph_created => exists w2, thread_step w' (T_start l) w2
  | Some Ph_started => exists w2, thread_step w' (T_enter l) w2
  | Some Ph_running => sel4osapi_thread_get_current l w' = Done (l, w') /\ exists w2, thread_step w' (T_leave l 0) w2
  | Some (Ph_calling _) => exists w2, thread_step w' (T_join l l 0) w2
  | Some Ph_joined => forall lb w2, label_of lb = l -> ~ thread_step w' lb w2
  | None => False
  end.
Proof.
  intros H0 Hrun (x & -> & [j Hx]%list_elem_of_lookup)%list_elem_of_fmap.
  pose proof (all_created_inv _ _ _ _ _ _ _ H0) as Hinv0. destruct H0 as (_ & H & _).
  pose proof (thread_run_inv _ _ _ _ _ _ (tr_distinct _ _ _ _ _ _ H) Hinv0 Hrun) as Hinv.
  destruct (wi_ts _ _ _ _ _ Hinv) as (ts' & R & _ & Hall). destruct (holds_length _ _ _ _ R) as (Hl & _).
  destruct (lookup_lt_is_Some_2 ts' j) as [t Ht]; [apply lookup_lt_Some in Hx; lia|].
  destruct (Hall j x t Hx Ht) as (Hipc & ph & Hp & Hlv & Hst). rewrite Hp.
  assert (Hrd : read_thread (Some x.2) (tw_state w') = Done (t, tw_state w')).
  { assert (Hr : wp (read_thread (Some x.2)) (fun a s' => a = t /\ s' = tw_state w') (tw_state w')) by (by eapply wp_read_thread).
    by destruct Hr as (a & s' & Hr & -> & ->). }
  destruct ph as [| | |mr0|].
  - eexists. eapply Ts_start; [done|done|]. unfold sel4osapi_thread_start. rewrite (bind_done _ _ _ _ _ Hrd).
    unfold tcall, bind, assert_, ret. destruct (th_start_ok (th_native t) (th_env (tw_state w'))) as [-> _]. done.
  - destruct (wp_wrapper_enter w' free busy ts' j x t (native_ipc_buffer (th_native t))) as ([] & w2 & Hw & _);
      [by rewrite list_insert_id|done|by eapply lookup_lt_Some|done|done|]. eexists. by eapply Ts_enter.
  - destruct Hst as (Hu & _). split.
    + unfold sel4osapi_thread_get_current, seL4_GetUserData, bind, get, deref. by rewrite Hu.
    + assert (Hw : wp (wrapper_leave x.2) (fun r _ => r = 0) w').
      { unfold wrapper_leave. wp_step. eapply (wp_upd_at w' free busy ts' j x t); [by rewrite list_insert_id|done|].
        intros s' R'. by wp_step. }
      destruct Hw as (r & w2 & Hw & ->). eexists. by eapply Ts_leave.
  - destruct Hlv as [-> _]. eexists. apply Ts_join; [done|].
    unfold sel4osapi_thread_join, seL4_Wait, on_state, zoom, bind, get, deref, modify, ret.
    rewrite Hrd. cbn [tw_state tw_userdata tw_phase]. rewrite Hrd. cbn [tw_phase]. rewrite Hp, Z.eqb_refl. done.
  - intros lb w2 Hlb Hstep. destruct Hstep as [| | |? ? ? ? ? ? Hj]; cbn in Hlb; subst; try congruence.
    apply join_done in Hj as (? & ? & ? & ? & _ & _ & _ & Hp' & _). congruence.
Qed.
End run_spec.

(** ** Threads to run examples on: every object costs one, capabilities are new *)

Record demo_objects := DemoObjects { do_caps : gset Z; do_left : nat }.

Definition demo_alloc (k : demo_objects) : (Z * Z) * demo_objects :=
  match do_left k with
  | O => ((1, 0), k)
  | S n => ((0, fresh (do_caps k)), DemoObjects ({[fresh (do_caps k)]} ∪ do_caps k) n)
  end.

#[export] Instance demo_thread_env : ThreadEnv demo_objects := {|
  vka_alloc_endpoint := demo_alloc;
  vka_alloc_notification := demo_alloc;
  vka_free_object c k := DemoObjects (do_caps k ∖ {[c]}) (S (do_left k));
  CNode_CapData b := 32 - b;
  simple_get_tcb := 1;
  sel4utils_configure_thread_config c k := let r := demo_alloc k in ((r.1.1, Native r.1.2 4096), r.2);
  sel4utils_start_thread n k := (0, k);
  sel4utils_clean_up_thread n k := k;
  api_tcb_set_space t e k := (0, k);
  sel4utils_start_fault_handler e := demo_alloc;
  seL4_TCB_SetPriority t a p k := (0, k);
  CONFIG_KERNEL_RT := false;
  ZF_LOGF_ABORTS := true;
  vka_alloc_sched_context := demo_alloc;
  api_sched_ctrl_configure c k := (0, k);
  api_sc_bind c t k := (0, k)
|}.

Lemma demo_alloc_ok k : (0 < do_left k)%nat -> let r := demo_alloc k in
  r.1.1 = 0 /\ r.1.2 ∉ do_caps k /\ r.1.2 ∈ do_caps r.2 /\
  do_caps k ⊆ do_caps r.2 /\ (do_left k - 1 <= do_left r.2)%nat.
Proof.
  intros H. unfold demo_alloc. destruct (do_left k) as [|n]; [lia|]. cbn.
  split_and!; [done|apply is_fresh|set_solver|set_solver|lia].
Qed.

#[export] Instance demo_thread_env_ok : ThreadEnvOk demo_objects.
Proof.
  refine {| caps_of := do_caps; objects := do_left |}; try (intros; cbn; split_and!; done || lia).
  - apply demo_alloc_ok.
  - apply demo_alloc_ok.
  - intros c k Hk. destruct (demo_alloc_ok k Hk) as (H1 & _ & _ & H4 & H5). by split_and!.
  - intros e k Hk. destruct (demo_alloc_ok k Hk) as (H1 & _ & _ & H4 & H5). by split_and!.
  - intros k Hk. destruct (demo_alloc_ok k Hk) as (H1 & _ & _ & H4 & H5). by split_and!.
Defined.

Section samples.
#[local] Existing Instance default_config.

Definition sample_root : process_caps := ProcessCaps 0 0 2 10 3 true.
Definition blank_thread : sel4osapi_thread_t nat := Thread 0 0 (Native 0 0) 0 0%nat (ThreadInfo 0 [] 0 0 0 0 0 0 0).
Definition sample_threads (n : nat) : thread_state nat demo_objects :=
  ThreadState (one_free blank_thread) (DemoObjects ∅ n).
Definition sample_request (name : string) : request := Request (Some name) 5%nat 305419896 100.

Lemma sample_threads_ok n : holds (th_pool (sample_threads n)) [one_entry] [] [].
Proof. apply one_free_holds. Qed.

Lemma threads_numbered_witness :
  exists rs s' ts, create_threads sample_root [sample_request "eth::irq"] (sample_threads 20) = Done (rs, s') /\
    NoDup rs /\ (fun t : sel4osapi_thread_t nat => ti_tid (th_info t)) <$> ts = [1].
Proof.
  destruct (threads_numbered sample_root (sample_threads 20) [one_entry] [sample_request "eth::irq"] (sample_threads_ok 20))
    as (rs & s' & _ & _ & ts & H1 & _ & _ & H2 & _ & _ & H3 & _); [cbn; lia|cbn; lia|].
  exists rs, s', ts. split; [exact H1|]. split; [exact H2|exact H3].
Defined.

Lemma thread_delete_leaks_witness :
  exists rs s1 s2, create_threads sample_root [sample_request "a"] (sample_threads 20) = Done (rs, s1) /\
    delete_threads rs s1 = Done (tt, s2) /\ thread_create_req sample_root (sample_request "b") s2 = Assert_failed.
Proof.
  destruct (thread_delete_leaks sample_root (sample_threads 20) [one_entry] [sample_request "a"] (sample_request "b") (sample_threads_ok 20))
    as (rs & s1 & s2 & H1 & H2 & H3); [done|cbn; lia|].
  exists rs, s1, s2. split; [exact H1|]. split; [exact H2|exact H3].
Defined.

(** Forty characters. *)
Definition long_name : string := "a-thread-whose-name-has-forty-characters".

(** The argument 0x12345678 becomes one that ends in 00. *)
Lemma thread_long_name_corrupts_arg_witness :
  exists s' (t : sel4osapi_thread_t nat), thread_create_req sample_root (sample_request long_name) (sample_threads 20) = Done (Some 11%positive, s') /\
    byte_of (rq_arg (sample_request long_name)) 0 = 120 /\ byte_of (ti_arg (th_info t)) 0 = 0.
Proof.
  destruct (thread_long_name_corrupts_arg sample_root (sample_request long_name) (sample_threads 20) one_entry [] [] [] long_name
              (sample_threads_ok 20)) as (s' & t & H1 & _ & H2);
    [apply Nat.leb_le; reflexivity|reflexivity|apply Nat.leb_le; by vm_compute|split; [by apply Z.leb_le|by apply Z.ltb_lt]|by vm_compute|by apply Z.ltb_lt|].
  exists s', t. split; [exact H1|]. split; [by vm_compute|]. rewrite H2. by vm_compute.
Defined.

(** A thread that was created; it can start. *)
Definition sample_world (s : thread_state nat demo_objects) : thread_world nat demo_objects :=
  TWorld s ∅ {[11%positive := Ph_created]}.

Lemma sample_world_ok : exists rs s1 ts, create_threads sample_root [sample_request "a"] (sample_threads 20) = Done (rs, s1) /\
  all_created sample_root s1 [] [one_entry] ts [sample_request "a"] (sample_world s1).
Proof.
  destruct (wp_create_threads sample_root [sample_request "a"] (sample_threads 20) [one_entry] [] [] [])
    as (rs & s1 & Hr & free & busy & ts & Hfr & _ & H); [apply threads_rep_empty, sample_threads_ok|cbn; lia|cbn; lia|].
  cbn [app] in H. destruct (holds_length _ _ _ _ (tr_pool _ _ _ _ _ _ H)) as (Hl & _).
  rewrite (tr_length _ _ _ _ _ _ H) in Hl. destruct busy as [|b [|b2 busy]]; [discriminate Hl| |discriminate Hl]. injection Hfr as <- <-.
  exists rs, s1, ts. split; [exact Hr|]. split; [done|]. split; [exact H|]. intros l. cbn.
  clear. destruct (decide (l = 11%positive)) as [->|Hne].
  - rewrite bool_decide_true by apply list_elem_of_here. apply lookup_singleton_eq.
  - rewrite bool_decide_false by (intros H%list_elem_of_singleton; done). by apply lookup_singleton_ne.
Qed.

Lemma thread_join_waits_witness :
  exists rs s1, create_threads sample_root [sample_request "a"] (sample_threads 20) = Done (rs, s1) /\
    forall tr w', thread_run (sample_world s1) tr w' ->
      history 11%positive tr `prefix_of` [T_start 11%positive; T_enter 11%positive; T_leave 11%positive 0; T_join 11%positive 11%positive 0].
Proof.
  destruct sample_world_ok as (rs & s1 & ts & Hr & Hw). exists rs, s1. split; [exact Hr|]. intros tr w' Hrun.
  apply (thread_join_waits sample_root s1 [] [one_entry] ts [sample_request "a"] (sample_world s1) tr w' Hw Hrun).
  apply list_elem_of_here.
Defined.

Lemma thread_progress_witness :
  exists rs s1 w2, create_threads sample_root [sample_request "a"] (sample_threads 20) = Done (rs, s1) /\
    thread_step (sample_world s1) (T_start 11%positive) w2.
Proof.
  destruct sample_world_ok as (rs & s1 & ts & Hr & Hw).
  pose proof (thread_progress sample_root s1 [] [one_entry] ts [sample_request "a"] (sample_world s1) [] (sample_world s1)
                11%positive Hw (Tr_nil _) (list_elem_of_here _ _)) as H.
  cbn [sample_world tw_phase] in H. rewrite lookup_singleton_eq in H. destruct H as [w2 H].
  exists rs, s1, w2. split; [exact Hr|exact H].
Defined.
End samples.
