(* ===== verification/Process.v ===== *)
(** * Process: the environment of a new process (src/process.c, process.h, util.c)

    [sel4osapi_process_init_env] fills the page a process learns its
    environment from: copies of the root task's capabilities in the CSpace of
    the process, badged with its pid, the blocks of untyped memory of [Untyped],
    and the buffers it shares with the root task, whose pages are mapped a second
    time through copies of their capabilities.

    The allocator and the address spaces are the environment: [K] is the root
    task's side, [P] the CSpace and address space of the new process. *)

From Stdlib Require Import String.
From stdpp Require Import strings pretty.
From S2P Require Import Prelude Config Memory LinkedList Pool PoolSearch Sync Ipc Untyped Thread.

Definition SEL4OSAPI_USER_PROCESS_NAME_MAX_LEN : Z := 15.
Definition SEL4OSAPI_SERIAL_BUF_SIZE : Z := 4096.
Definition SEL4OSAPI_SERIAL_BUF_PAGES : Z := 1.

(** A client of the serial server: here [sl_buf] is an address. *)
Record sel4osapi_serialclient_t := SerialClient {
  sl_id : Z;
  sl_buf_avail : ptr;
  sl_buf : Z;
  sl_buf_size : Z;
  sl_server_ep : Z
}.

Record sel4osapi_process_env_t := ProcessEnv {
  pe_name : list Z;
  pe_pid : Z;
  pe_page_directory : Z;
  pe_root_cnode : Z;
  pe_cspace_size_bits : Z;
  pe_tcb : Z;
  pe_free_slots : Z * Z;                  (* start, end *)
  pe_untypeds : untyped_env;
  pe_fault_endpoint : Z;
  pe_sysclock_server_ep : Z;
  pe_idling_aep : Z;
  pe_threads : ptr;
  pe_priority : Z;
  pe_ipcclient : sel4osapi_ipcclient_t;
  pe_stack_op_ep : Z;                     (* udp_iface.stack_op_ep *)
  pe_serial : sel4osapi_serialclient_t
}.

(** Of sel4utils_process_t: capabilities of the root task, and what [P] stands for. *)
Record sel4utils_process_t (P : Type) := NativeProcess {
  np_pd : Z;
  np_tcb : Z;
  np_fault_endpoint : Z;
  np_spaces : P
}.
Arguments NativeProcess {P} _ _ _ _.
Arguments np_pd {P} _.
Arguments np_tcb {P} _.
Arguments np_fault_endpoint {P} _.
Arguments np_spaces {P} _.

(** The lines of [sel4osapi_process_print_env]: label and number. *)
Definition sel4osapi_process_print_env (e : sel4osapi_process_env_t) : list (string * Z) :=
  [("page_directory", pe_page_directory e); ("root_cnode", pe_root_cnode e); ("tcb", pe_tcb e);
   ("cspace_size_bits", pe_cspace_size_bits e); ("free_slots.start", (pe_free_slots e).1); ("free_slots.end", (pe_free_slots e).2);
   ("untypeds.start", untypeds_start (pe_untypeds e)); ("untypeds.end", untypeds_end (pe_untypeds e))]%string ++
  omap (fun x : nat * Z => if x.2 =? 0 then None else Some (("process_data.untypeds_size_bits_list[" ++ pretty x.1 ++ "]")%string, x.2))
    (imap pair (untyped_size_bits_list (pe_untypeds e))) ++
  [("fault_endpoint"%string, pe_fault_endpoint e)].

Class ProcessLib (K P : Type) := {
  SEL4UTILS_CNODE_SLOT : Z;
  CONFIG_SEL4UTILS_CSPACE_SIZE_BITS : Z;
  vspace_get_cap : Z -> K -> Z;                              (* address *)
  vka_cspace_alloc : K -> (Z * Z) * K;
  vka_cnode_copy : Z -> Z -> K -> Z * K;                     (* destination, source *)
  vka_new_notification : K -> (Z * Z) * K;
  vspace_map_pages : list Z -> P * K -> Z * (P * K)          (* capabilities of pages *)
}.

Section process_c.
Context {CFG : Config} {K P : Type} {CSP : ProcessCSpace P} {ROOT : RootEnv K} {LIB : ProcessLib K P}.

(** The table and the process of [Untyped], and the root task. *)
Record init_state := InitState { is_proc : proc_state P; is_root : K }.

Definition on_proc {A} (m : M (proc_state P) A) : M init_state A :=
  zoom is_proc (fun p s => InitState p (is_root s)) m.
Definition root_call {A} (f : K -> A * K) : M init_state A := fun s =>
  Done ((f (is_root s)).1, InitState (is_proc s) (f (is_root s)).2).

(** util.c *)
Definition sel4osapi_util_copy_cap (src : Z) : M init_state Z :=
  let! dest := root_call vka_cspace_alloc in
  assert_ (dest.1 =? 0) ;;
  let! error := root_call (vka_cnode_copy dest.2 src) in
  assert_ (error =? 0) ;;
  ret dest.2.

(** The three loops that copy the capabilities of pages write this out for the
    page [i] of a buffer; the copies go into an array. *)
Definition copy_page (buf : Z) (i : nat) : M init_state Z :=
  let! s := get in
  let page := vspace_get_cap (buf + Z.of_nat i * PAGE_SIZE_4K) (is_root s) in
  assert_ (negb (page =? 0)) ;;
  sel4osapi_util_copy_cap page.

Fixpoint copy_pages (buf : Z) (pages : list nat) : M init_state (list Z) :=
  match pages with
  | [] => ret []
  | i :: pages =>
      let! cap := copy_page buf i in
      let! caps := copy_pages buf pages in
      ret (cap :: caps)
  end.

Definition copy_buffer (buf num : Z) : M init_state (list Z) := copy_pages buf (seq 0 (Z.to_nat num)).

(** The call is given an array and a number of pages. *)
Definition map_pages (caps : list Z) (num : Z) : M init_state Z :=
  if (Z.to_nat num <=? length caps)%nat then fun s =>
    let r := vspace_map_pages (take (Z.to_nat num) caps) (native (is_proc s), is_root s) in
    Done (r.1, InitState (ProcState (table (is_proc s)) (penv (is_proc s)) r.2.1) r.2.2)
  else wild.

Definition copy_cap_into (pid cap : Z) : M init_state Z := on_proc (sel4osapi_process_copy_cap_into pid cap).

(** A copy whose slot is asserted not to be null. *)
Definition copy_checked (pid cap : Z) : M init_state Z :=
  let! slot := copy_cap_into pid cap in
  assert_ (negb (slot =? 0)) ;;
  ret slot.

(** The notification to idle on: in the root task and in the process. *)
Definition make_idling_aep (pid : Z) : M init_state (Z * Z) :=
  let! aep_obj := root_call vka_new_notification in
  assert_ (aep_obj.1 =? 0) ;;
  let parent_idling_aep := aep_obj.2 in
  let! idling_aep := copy_checked pid parent_idling_aep in
  ret (parent_idling_aep, idling_aep).

(** The buffers of the ipc client: their addresses in the process.  Both calls are
    given the number of receive pages. *)
Definition map_ipc_buffers (ipcclient : sel4osapi_ipcclient_t) : M init_state (Z * Z) :=
  let! rx_pages := copy_buffer (ic_rx_buf ipcclient) SEL4OSAPI_PROCESS_RX_BUF_PAGES in
  let! tx_pages := copy_buffer (ic_tx_buf ipcclient) SEL4OSAPI_PROCESS_TX_BUF_PAGES in
  let! rx_buf := map_pages rx_pages SEL4OSAPI_PROCESS_RX_BUF_PAGES in
  assert_ (negb (rx_buf =? 0)) ;;
  let! tx_buf := map_pages tx_pages SEL4OSAPI_PROCESS_RX_BUF_PAGES in
  assert_ (negb (tx_buf =? 0)) ;;
  ret (rx_buf, tx_buf).

Definition map_serial_buffer (serialclient : sel4osapi_serialclient_t) : M init_state Z :=
  let! buf_pages := copy_buffer (sl_buf serialclient) SEL4OSAPI_SERIAL_BUF_PAGES in
  let! buf := map_pages buf_pages SEL4OSAPI_SERIAL_BUF_PAGES in
  assert_ (negb (buf =? 0)) ;;
  ret buf.

(** [env0]: the new page, of which [penv] is the part about untypeds.  The fields
    are assigned together at the end.  Result: 0, the page and the notification
    to idle on in the root task. *)
Definition sel4osapi_process_init_env (process : sel4utils_process_t P) (env0 : sel4osapi_process_env_t) (pid : Z) (name : string)
    (priority : Z) (ipcclient : sel4osapi_ipcclient_t) (serialclient : sel4osapi_serialclient_t)
    (sysclock_ep udp_stack_ep : Z) : M init_state (Z * sel4osapi_process_env_t * Z) :=
  let! page_directory := copy_cap_into pid (np_pd process) in
  let root_cnode := SEL4UTILS_CNODE_SLOT in
  let! tcb := copy_cap_into pid (np_tcb process) in
  on_proc (init_untypeds pid) ;;
  let! sysclock_server_ep := copy_checked pid sysclock_ep in
  let! aeps := make_idling_aep pid in
  let! bufs := map_ipc_buffers ipcclient in
  let! stack_op_ep := copy_checked pid udp_stack_ep in
  let! server_ep := copy_checked pid (sl_server_ep serialclient) in
  let! buf := map_serial_buffer serialclient in
  let! fault_endpoint := copy_checked pid (np_fault_endpoint process) in
  let free_slots := (u32 (fault_endpoint + 1), u32 (Z.shiftl 1 CONFIG_SEL4UTILS_CSPACE_SIZE_BITS)) in
  assert_ (free_slots.1 <? free_slots.2) ;;
  let! s := get in
  ret (0, ProcessEnv (splice (pe_name env0) 0 (snprintf_bytes SEL4OSAPI_USER_PROCESS_NAME_MAX_LEN name)) pid
    page_directory root_cnode CONFIG_SEL4UTILS_CSPACE_SIZE_BITS tcb free_slots (penv (is_proc s)) fault_endpoint
    sysclock_server_ep aeps.2 (pe_threads env0) priority
    (IpcClient (ic_id ipcclient) (ic_tx_buf_avail (pe_ipcclient env0)) (ic_rx_buf_avail (pe_ipcclient env0))
       bufs.1 SEL4OSAPI_PROCESS_RX_BUF_SIZE bufs.2 SEL4OSAPI_PROCESS_TX_BUF_SIZE)
    stack_op_ep
    (SerialClient (sl_id serialclient) (sl_buf_avail (pe_serial env0)) buf SEL4OSAPI_SERIAL_BUF_SIZE server_ep),
    aeps.1).
End process_c.
Arguments init_state K P : clear implicits.

(** ** What is used of the libraries

    [rcaps]: the root task's CSpace, the object of a capability and whether it was
    used for a mapping; [page_caps]: the capability of each page mapped in its
    address space; [slots_left]: slots it can still allocate.  [pmap]: the pages
    of the process' address space with the capability (of the root task) they were
    mapped with; [pages_free]: how many more can be mapped.
    - a mapped page has a capability; an allocated slot is empty, and copying puts
      the same object there;
    - capabilities not used for a mapping so far can be mapped, to consecutive new
      pages, with at most [map_cost] slots for page tables; that leaves the CSpace
      of the process as it is;
    - minting into the process leaves its address space as it is;
    - nothing takes capabilities or pages away from the root task. *)
Record root_view := RootView { rcaps : gmap Z (Z * bool); page_caps : gmap Z Z; slots_left : nat }.

Definition use_cap (c : Z) (m : gmap Z (Z * bool)) : gmap Z (Z * bool) := alter (fun x => (x.1, true)) c m.
Fixpoint use_caps (cs : list Z) (m : gmap Z (Z * bool)) : gmap Z (Z * bool) :=
  match cs with
  | [] => m
  | c :: cs => use_cap c (use_caps cs m)
  end.

(** From [w] to [w'] at most [n] slots were taken. *)
Definition extends (n : nat) (w w' : root_view) : Prop :=
  rcaps w ⊆ rcaps w' /\ page_caps w ⊆ page_caps w' /\ (slots_left w - n <= slots_left w')%nat.

(** The pages from [a] on, mapped with [caps]. *)
Fixpoint pages_at (a : Z) (caps : list Z) : gmap Z Z :=
  match caps with
  | [] => ∅
  | c :: caps => <[a := c]> (pages_at (a + PAGE_SIZE_4K) caps)
  end.

Class ProcessLibOk (K P : Type) `{ProcessCSpaceOk P} `{!ProcessLib K P} := {
  root_of : K -> root_view;
  pmap : P -> gmap Z Z;
  pages_free : P -> Z;
  map_cost : nat;
  cspace_bits_ok : 0 <= CONFIG_SEL4UTILS_CSPACE_SIZE_BITS < 32 /\ cspace_end = 2 ^ CONFIG_SEL4UTILS_CSPACE_SIZE_BITS;
  get_cap_ok a c k : page_caps (root_of k) !! a = Some c ->
    vspace_get_cap a k = c /\ c <> 0 /\ is_Some (rcaps (root_of k) !! c);
  slot_alloc_ok k : (0 < slots_left (root_of k))%nat -> let r := vka_cspace_alloc k in
    r.1.1 = 0 /\ rcaps (root_of r.2) !! r.1.2 = None /\ extends 1 (root_of k) (root_of r.2);
  cnode_copy_ok dest src o k : fst <$> rcaps (root_of k) !! src = Some o -> rcaps (root_of k) !! dest = None ->
    let r := vka_cnode_copy dest src k in
    r.1 = 0 /\ rcaps (root_of r.2) !! dest = Some (o, false) /\ extends 0 (root_of k) (root_of r.2);
  notification_ok k : (0 < slots_left (root_of k))%nat -> let r := vka_new_notification k in
    r.1.1 = 0 /\ rcaps (root_of k) !! r.1.2 = None /\ is_Some (rcaps (root_of r.2) !! r.1.2) /\
    extends 1 (root_of k) (root_of r.2);
  map_pages_ok caps p k : Z.of_nat (length caps) <= pages_free p -> (map_cost <= slots_left (root_of k))%nat ->
    caps <> [] -> NoDup caps -> Forall (fun c => snd <$> rcaps (root_of k) !! c = Some false) caps ->
    let r := vspace_map_pages caps (p, k) in
    r.1 <> 0 /\ pages_at r.1 caps ##ₘ pmap p /\ pmap r.2.1 = pages_at r.1 caps ∪ pmap p /\
    pages_free r.2.1 = pages_free p - Z.of_nat (length caps) /\ cslots r.2.1 = cslots p /\
    extends map_cost (RootView (use_caps caps (rcaps (root_of k))) (page_caps (root_of k)) (slots_left (root_of k)))
      (root_of r.2.2);
  mint_frame cap badge p : let p' := (sel4utils_mint_cap_to_process cap badge p).2 in
    pmap p' = pmap p /\ pages_free p' = pages_free p
}.

(** What [sel4osapi_process_init_env] calls on the root task; the number counts
    kernel objects it makes. *)
Inductive process_op {K P : Type} `{ProcessLib K P} (k : K) : nat -> K -> Prop :=
| po_slot : process_op k 0 (vka_cspace_alloc k).2
| po_copy dest src : process_op k 0 (vka_cnode_copy dest src k).2
| po_notification : process_op k 1 (vka_new_notification k).2
| po_map caps p : process_op k 0 (vspace_map_pages caps (p, k)).2.2.

Section process_spec.
Context {CFG : Config} {K P : Type} {ROOT : RootEnv K} {CSP : ProcessCSpace P} {COK : ProcessCSpaceOk P}.
Context {LIB : ProcessLib K P} {LOK : ProcessLibOk K P}.
Implicit Types (s : init_state K P) (w : root_view) (k : K) (p : P) (caps : list Z) (blocks : list vka_object_t).

(** *** What the root task holds *)

(** The object behind a capability. *)
Definition object_of w (c : Z) : option Z := fst <$> rcaps w !! c.

Lemma extends_refl n w : extends n w w.
Proof. split_and!; [done|done|lia]. Qed.

Lemma extends_trans n1 n2 w1 w2 w3 : extends n1 w1 w2 -> extends n2 w2 w3 -> extends (n1 + n2) w1 w3.
Proof. intros (H1 & H2 & H3) (H4 & H5 & H6). split_and!; [by etrans|by etrans|lia]. Qed.

Lemma extends_le n1 n2 w1 w2 : extends n1 w1 w2 -> (n1 <= n2)%nat -> extends n2 w1 w2.
Proof. intros (H1 & H2 & H3) Hle. split_and!; [done|done|lia]. Qed.

Lemma extends_object n w w' c o : extends n w w' -> object_of w c = Some o -> object_of w' c = Some o.
Proof.
  intros (H & _) Ho. unfold object_of in *. apply fmap_Some in Ho as (x & Hx & ->).
  by rewrite (lookup_weaken _ _ _ _ Hx H).
Qed.

Lemma use_caps_ne caps m c : c ∉ caps -> use_caps caps m !! c = m !! c.
Proof.
  induction caps as [|d caps IH]; [done|]. intros [Hne Hni]%not_elem_of_cons. cbn. unfold use_cap.
  by rewrite lookup_alter_ne, IH.
Qed.

Lemma use_caps_fst caps m c : fst <$> use_caps caps m !! c = fst <$> m !! c.
Proof.
  induction caps as [|d caps IH]; [done|]. cbn. unfold use_cap. destruct (decide (d = c)) as [->|Hne].
  - rewrite lookup_alter_eq, <- IH. by destruct (use_caps caps m !! c).
  - by rewrite lookup_alter_ne, IH.
Qed.

(** Nothing the root task had is taken away: what every step keeps. *)
Definition keeps w w' : Prop :=
  (forall c o, object_of w c = Some o -> object_of w' c = Some o) /\ page_caps w ⊆ page_caps w'.

Lemma keeps_refl w : keeps w w.
Proof. done. Qed.

Lemma keeps_trans w1 w2 w3 : keeps w1 w2 -> keeps w2 w3 -> keeps w1 w3.
Proof. intros [H1 H2] [H3 H4]. split; [auto|by etrans]. Qed.

Lemma extends_keeps n w w' : extends n w w' -> keeps w w'.
Proof. intros H. split; [intros c o; by eapply extends_object|apply H]. Qed.

(** So does a step that takes at most [n] slots, and also uses capabilities. *)
Definition reaches (n : nat) w w' : Prop := keeps w w' /\ (slots_left w - n <= slots_left w')%nat.

Lemma reaches_trans n1 n2 w1 w2 w3 : reaches n1 w1 w2 -> reaches n2 w2 w3 -> reaches (n1 + n2) w1 w3.
Proof. intros [H1 H2] [H3 H4]. split; [by eapply keeps_trans|lia]. Qed.

Lemma extends_reaches n w w' : extends n w w' -> reaches n w w'.
Proof. intros H. split; [by eapply extends_keeps|apply H]. Qed.

(** *** Copies of the capabilities of a buffer *)

(** [c] is a copy, not used for a mapping so far, of the capability of the page [a]. *)
Definition page_copy w (a c : Z) : Prop := exists c0 o,
  page_caps w !! a = Some c0 /\ object_of w c0 = Some o /\ rcaps w !! c = Some (o, false).

Definition copies w (buf : Z) (idx : list nat) caps : Prop :=
  Forall2 (fun i c => page_copy w (buf + Z.of_nat i * PAGE_SIZE_4K) c) idx caps.

Lemma page_copy_extends n w w' a c : extends n w w' -> page_copy w a c -> page_copy w' a c.
Proof.
  intros He (c0 & o & H1 & H2 & H3). pose proof (extends_object _ _ _ _ _ He H2). destruct He as (He1 & He2 & _).
  exists c0, o. split_and!; [by eapply lookup_weaken|done|by eapply lookup_weaken].
Qed.

Lemma copies_extends n w w' buf idx caps : extends n w w' -> copies w buf idx caps -> copies w' buf idx caps.
Proof. intros He Hc. eapply Forall2_impl; [exact Hc|]. intros i c. by eapply page_copy_extends. Qed.

Definition mapped_pages w (buf : Z) (idx : list nat) : Prop :=
  Forall (fun i => is_Some (page_caps w !! (buf + Z.of_nat i * PAGE_SIZE_4K))) idx.

Lemma mapped_pages_extends n w w' buf idx : extends n w w' -> mapped_pages w buf idx -> mapped_pages w' buf idx.
Proof. intros (_ & He & _) Hm. eapply Forall_impl; [exact Hm|]. intros i [c Hc]. exists c. by eapply lookup_weaken. Qed.

Lemma mapped_pages_keeps w w' buf idx : page_caps w ⊆ page_caps w' -> mapped_pages w buf idx -> mapped_pages w' buf idx.
Proof. intros He Hm. eapply Forall_impl; [exact Hm|]. intros i [c Hc]. exists c. by eapply lookup_weaken. Qed.

Lemma wp_root_call {A} (f : K -> A * K) (Q : A -> init_state K P -> Prop) s :
  Q (f (is_root s)).1 (InitState (is_proc s) (f (is_root s)).2) -> wp (root_call f) Q s.
Proof. intros HQ. by eexists _, _. Qed.

(** util.c: the new slot has the same object. *)
Lemma wp_copy_cap src o s : object_of (root_of (is_root s)) src = Some o -> (0 < slots_left (root_of (is_root s)))%nat ->
  wp (sel4osapi_util_copy_cap src) (fun c s' => is_proc s' = is_proc s /\ rcaps (root_of (is_root s)) !! c = None /\
    rcaps (root_of (is_root s')) !! c = Some (o, false) /\ extends 1 (root_of (is_root s)) (root_of (is_root s'))) s.
Proof.
  intros Ho Hs. unfold sel4osapi_util_copy_cap. wp_step. apply wp_root_call.
  destruct (slot_alloc_ok (is_root s) Hs) as (-> & Hnew & He1). set (k1 := (vka_cspace_alloc (is_root s)).2) in *.
  set (c := (vka_cspace_alloc (is_root s)).1.2) in *. wp_steps. apply wp_root_call. cbn [is_root is_proc].
  destruct (cnode_copy_ok c src o k1) as (-> & Hc & He2); [by eapply extends_object|done|]. wp_steps.
  cbn [is_root is_proc]. split_and!; [done| |done|exact (extends_trans _ _ _ _ _ He1 He2)].
  destruct (rcaps (root_of (is_root s)) !! c) eqn:Hold; [|done].
  destruct He1 as (He1 & _). by rewrite (lookup_weaken _ _ _ _ Hold He1) in Hnew.
Qed.

Lemma wp_copy_page buf i s :
  is_Some (page_caps (root_of (is_root s)) !! (buf + Z.of_nat i * PAGE_SIZE_4K)) -> (0 < slots_left (root_of (is_root s)))%nat ->
  wp (copy_page buf i) (fun c s' => is_proc s' = is_proc s /\ rcaps (root_of (is_root s)) !! c = None /\
    page_copy (root_of (is_root s')) (buf + Z.of_nat i * PAGE_SIZE_4K) c /\
    extends 1 (root_of (is_root s)) (root_of (is_root s'))) s.
Proof.
  intros [c0 Hc0] Hs. destruct (get_cap_ok _ _ _ Hc0) as (Hg & Hne & [[o u] Ho]).
  unfold copy_page. wp_steps; rewrite Hg.
  { by rewrite (proj2 (Z.eqb_neq _ _) Hne). }
  assert (Hobj : object_of (root_of (is_root s)) c0 = Some o) by (unfold object_of; by rewrite Ho).
  eapply wp_mono; [by apply (wp_copy_cap c0 o)|]. intros c s' (Hp & Hn & Hc & He). split_and!; try done.
  exists c0, o. split_and!; [|by eapply extends_object|done]. by destruct He as (_ & He & _); eapply lookup_weaken.
Qed.

Lemma wp_copy_pages buf idx s :
  mapped_pages (root_of (is_root s)) buf idx -> (length idx <= slots_left (root_of (is_root s)))%nat ->
  wp (copy_pages buf idx) (fun caps s' => is_proc s' = is_proc s /\ NoDup caps /\
    Forall (fun c => rcaps (root_of (is_root s)) !! c = None) caps /\
    copies (root_of (is_root s')) buf idx caps /\
    extends (length idx) (root_of (is_root s)) (root_of (is_root s'))) s.
Proof.
  revert s. induction idx as [|i idx IH]; intros s Hm Hs; cbn [copy_pages].
  - wp_step. split_and!; [done|constructor|constructor|constructor|apply extends_refl].
  - apply Forall_cons in Hm as [Hi Hm]. cbn [length] in Hs. wp_step. eapply wp_mono; [apply wp_copy_page; [done|lia]|].
    intros c s1 (Hp1 & Hn1 & Hc1 & He1). wp_step. eapply wp_mono.
    { apply IH; [by eapply mapped_pages_extends|]. destruct He1 as (_ & _ & He1). lia. }
    intros caps s2 (Hp2 & Hnd & Hn2 & Hc2 & He2). wp_step.
    assert (Hin : is_Some (rcaps (root_of (is_root s1)) !! c)) by (destruct Hc1 as (? & ? & _ & _ & ->); by eexists).
    split_and!; [by rewrite Hp2| | | |exact (extends_trans _ _ _ _ _ He1 He2)].
    + constructor; [|done]. intros Hc. rewrite Forall_forall in Hn2. rewrite (Hn2 c Hc) in Hin. by destruct Hin.
    + constructor; [done|]. eapply Forall_impl; [exact Hn2|]. cbn. intros d Hd.
      destruct (rcaps (root_of (is_root s)) !! d) eqn:Hold; [|done].
      destruct He1 as (He1 & _). by rewrite (lookup_weaken _ _ _ _ Hold He1) in Hd.
    + constructor; [by eapply page_copy_extends|done].
Qed.

(** *** Mapping them into the process *)

(** Page by page the same frames, from [a] in the root task's address space and
    from [b] in the process'. *)
Definition shared_pages w (m : gmap Z Z) (a b : Z) (n : nat) : Prop := forall i, (i < n)%nat -> exists c0 c o,
  page_caps w !! (a + Z.of_nat i * PAGE_SIZE_4K) = Some c0 /\ m !! (b + Z.of_nat i * PAGE_SIZE_4K) = Some c /\
  object_of w c0 = Some o /\ object_of w c = Some o.

Lemma shared_pages_mono w w' m m' a b n : keeps w w' -> m ⊆ m' -> shared_pages w m a b n -> shared_pages w' m' a b n.
Proof.
  intros [Hk1 Hk2] Hm Hs i Hi. destruct (Hs i Hi) as (c0 & c & o & H1 & H2 & H3 & H4). exists c0, c, o.
  split_and!; [by eapply lookup_weaken|by eapply lookup_weaken|auto|auto].
Qed.

Lemma pages_at_below a b caps : b < a -> pages_at a caps !! b = None.
Proof.
  revert a. induction caps as [|c caps IH]; intros a Hb; [done|]. cbn.
  rewrite lookup_insert_ne by lia. apply IH. unfold PAGE_SIZE_4K. lia.
Qed.

Lemma pages_at_lookup a caps i c : caps !! i = Some c -> pages_at a caps !! (a + Z.of_nat i * PAGE_SIZE_4K) = Some c.
Proof.
  revert a i. induction caps as [|d caps IH]; intros a i Hi; [done|]. destruct i as [|i]; cbn in Hi |- *.
  - injection Hi as ->. rewrite Z.add_0_r. apply lookup_insert_eq.
  - rewrite lookup_insert_ne by (unfold PAGE_SIZE_4K; lia). rewrite <- (IH (a + PAGE_SIZE_4K) i Hi). f_equal. unfold PAGE_SIZE_4K. lia.
Qed.

Lemma copies_unused w buf idx caps : copies w buf idx caps -> Forall (fun c => snd <$> rcaps w !! c = Some false) caps.
Proof. intros H. induction H as [|i c idx caps (c0 & o & _ & _ & Hc) _ IH]; constructor; [by rewrite Hc|done]. Qed.

(** The process got the capabilities [l] and [n] pages, the root task used at most
    [m] slots, and the rest is as it was. *)
Record grew (l : list (Z * Z)) (n m : nat) s s' : Prop := {
  gr_table : table (is_proc s') = table (is_proc s);
  gr_penv : penv (is_proc s') = penv (is_proc s);
  gr_cslots : cslots (native (is_proc s')) = cslots (native (is_proc s)) ++ l;
  gr_pmap : pmap (native (is_proc s)) ⊆ pmap (native (is_proc s'));
  gr_free : pages_free (native (is_proc s')) = pages_free (native (is_proc s)) - Z.of_nat n;
  gr_root : reaches m (root_of (is_root s)) (root_of (is_root s'))
}.

Lemma grew_trans l1 n1 m1 l2 n2 m2 s1 s2 s3 : grew l1 n1 m1 s1 s2 -> grew l2 n2 m2 s2 s3 ->
  grew (l1 ++ l2) (n1 + n2) (m1 + m2) s1 s3.
Proof.
  intros [H1 H2 H3 H4 H5 H6] [G1 G2 G3 G4 G5 G6].
  split; try congruence; [by rewrite G3, H3, <- app_assoc|by etrans|lia|by eapply reaches_trans].
Qed.

Lemma grew_copied m s s' : is_proc s' = is_proc s -> extends m (root_of (is_root s)) (root_of (is_root s')) -> grew [] 0 m s s'.
Proof. intros Hp He. split; rewrite ?Hp, ?app_nil_r; try done; [lia|by apply extends_reaches]. Qed.

Lemma grew_next l n m s s' : grew l n m s s' ->
  next_free (native (is_proc s')) = next_free (native (is_proc s)) + Z.of_nat (length l).
Proof. intros [_ _ Hc _ _ _]. unfold next_free. rewrite Hc, length_app. lia. Qed.

Lemma wp_map_pages buf caps n s :
  copies (root_of (is_root s)) buf (seq 0 n) caps -> NoDup caps -> (0 < n)%nat ->
  Z.of_nat n <= pages_free (native (is_proc s)) -> (map_cost <= slots_left (root_of (is_root s)))%nat ->
  wp (map_pages caps (Z.of_nat n)) (fun b s' => b <> 0 /\ grew [] n map_cost s s' /\
    (forall c x, c ∉ caps -> rcaps (root_of (is_root s)) !! c = Some x -> rcaps (root_of (is_root s')) !! c = Some x) /\
    shared_pages (root_of (is_root s')) (pmap (native (is_proc s'))) buf b n) s.
Proof.
  intros Hc Hnd Hn Hfree Hcost. unfold map_pages. pose proof (Forall2_length _ _ _ Hc) as Hlen. rewrite length_seq in Hlen.
  rewrite Nat2Z.id, Hlen, (proj2 (Nat.leb_le _ _) (Nat.le_refl _)), firstn_all. eexists _, _. split; [reflexivity|]. cbn.
  destruct (map_pages_ok caps (native (is_proc s)) (is_root s)) as (Hb & Hdis & Hpm & Hpf & Hcs & He);
    [lia|done|by destruct caps; [cbn in Hlen; lia|]|done|by eapply copies_unused|].
  set (r := vspace_map_pages caps (native (is_proc s), is_root s)) in *.
  assert (Hk : keeps (root_of (is_root s)) (root_of r.2.2)).
  { eapply keeps_trans; [|by eapply extends_keeps]. split; [|done]. intros c o. unfold object_of. cbn. by rewrite use_caps_fst. }
  split_and!; try done.
  - split; cbn; rewrite ?app_nil_r; try done; try lia; [|by destruct He as (_ & _ & He); split]. rewrite Hpm. by apply map_union_subseteq_r.
  - intros c x Hni Hx. destruct He as (He & _). eapply lookup_weaken; [|exact He]. cbn. by rewrite use_caps_ne.
  - intros i Hi. destruct (lookup_lt_is_Some_2 caps i) as [c Hci]; [lia|].
    destruct (Forall2_lookup_r _ _ _ _ _ Hc Hci) as (i' & Hi' & c0 & o & H1 & H2 & H3).
    apply lookup_seq in Hi' as [-> _]. cbn in H1. exists c0, c, o.
    split_and!; [by destruct Hk as [_ Hk]; eapply lookup_weaken| |by apply Hk|apply Hk; unfold object_of; by rewrite H3].
    rewrite Hpm. apply lookup_union_Some_l. by apply pages_at_lookup.
Qed.

Lemma shared_pages_grew l n m s s' a b (j : nat) : grew l n m s s' ->
  shared_pages (root_of (is_root s)) (pmap (native (is_proc s))) a b j ->
  shared_pages (root_of (is_root s')) (pmap (native (is_proc s'))) a b j.
Proof. intros [_ _ _ Hm _ [Hk _]]. by apply shared_pages_mono. Qed.

(** The capabilities of the pages of a buffer of [n] pages. *)
Lemma wp_copy_buffer buf (n : nat) s :
  mapped_pages (root_of (is_root s)) buf (seq 0 n) -> (n <= slots_left (root_of (is_root s)))%nat ->
  wp (copy_buffer buf (Z.of_nat n)) (fun caps s' => is_proc s' = is_proc s /\ NoDup caps /\
    Forall (fun c => rcaps (root_of (is_root s)) !! c = None) caps /\
    copies (root_of (is_root s')) buf (seq 0 n) caps /\ extends n (root_of (is_root s)) (root_of (is_root s'))) s.
Proof.
  intros Hm Hn. unfold copy_buffer. rewrite Nat2Z.id. eapply wp_mono; [apply wp_copy_pages; [done|by rewrite length_seq]|].
  rewrite length_seq. done.
Qed.

Lemma map_pages_take caps n : (Z.to_nat n <= length caps)%nat ->
  map_pages (K := K) (P := P) caps n = map_pages (take (Z.to_nat n) caps) n.
Proof.
  intros Hn. unfold map_pages. rewrite length_take, Nat.min_l by done.
  rewrite (proj2 (Nat.leb_le _ _) Hn), (proj2 (Nat.leb_le _ _) (Nat.le_refl _)), take_take, Nat.min_id. done.
Qed.

Lemma copies_take w buf n m caps : (m <= n)%nat -> copies w buf (seq 0 n) caps -> copies w buf (seq 0 m) (take m caps).
Proof.
  intros Hm Hc. apply (Forall2_take _ _ _ m) in Hc. by rewrite take_seq, Nat.min_l in Hc.
Qed.

Lemma copies_lookup w buf idx caps c : copies w buf idx caps -> c ∈ caps -> exists o, rcaps w !! c = Some (o, false).
Proof.
  intros Hc [j Hj]%list_elem_of_lookup. destruct (Forall2_lookup_r _ _ _ _ _ Hc Hj) as (i & _ & c0 & o & _ & _ & H). by exists o.
Qed.

(** Copies that were not used stay copies when others are used. *)
Lemma copies_unaffected w w' buf idx caps (used : list Z) : keeps w w' ->
  (forall c x, c ∉ used -> rcaps w !! c = Some x -> rcaps w' !! c = Some x) -> (forall c, c ∈ caps -> c ∉ used) ->
  copies w buf idx caps -> copies w' buf idx caps.
Proof.
  intros [Hk1 Hk2] Hu Hdis Hc. induction Hc as [|i c idx caps (c0 & o & H1 & H2 & H3) _ IH]; constructor.
  - exists c0, o. split_and!; [by eapply lookup_weaken|by apply Hk1|]. apply Hu; [|done]. apply Hdis, list_elem_of_here.
  - apply IH. intros d Hd. by apply Hdis, list_elem_of_further.
Qed.

(** Both buffers of an ipc client, when there are at least as many transmit pages. *)
Lemma wp_map_ipc_buffers client (rx tx : nat) s :
  SEL4OSAPI_PROCESS_RX_BUF_PAGES = Z.of_nat rx -> SEL4OSAPI_PROCESS_TX_BUF_PAGES = Z.of_nat tx -> (0 < rx <= tx)%nat ->
  mapped_pages (root_of (is_root s)) (ic_rx_buf client) (seq 0 rx) ->
  mapped_pages (root_of (is_root s)) (ic_tx_buf client) (seq 0 tx) ->
  (rx + tx + 2 * map_cost <= slots_left (root_of (is_root s)))%nat -> 2 * Z.of_nat rx <= pages_free (native (is_proc s)) ->
  wp (map_ipc_buffers client) (fun r s' => r.1 <> 0 /\ r.2 <> 0 /\ grew [] (rx + rx) (rx + tx + map_cost + map_cost) s s' /\
    shared_pages (root_of (is_root s')) (pmap (native (is_proc s'))) (ic_rx_buf client) r.1 rx /\
    shared_pages (root_of (is_root s')) (pmap (native (is_proc s'))) (ic_tx_buf client) r.2 rx) s.
Proof.
  intros Hrx Htx Hle Hmr Hmt Hslots Hfree. unfold map_ipc_buffers. rewrite Hrx, Htx.
  wp_step. eapply wp_mono; [apply wp_copy_buffer; [done|lia]|]. intros rxs s1 (Hp1 & Hnd1 & Hn1 & Hc1 & He1).
  pose proof He1 as (_ & _ & Hl1). wp_step. eapply wp_mono; [apply wp_copy_buffer; [by eapply mapped_pages_extends|lia]|].
  intros txs s2 (Hp2 & Hnd2 & Hn2 & Hc2 & He2). pose proof He2 as (_ & _ & Hl2).
  pose proof (Forall2_length _ _ _ Hc2) as Hlen2. rewrite length_seq in Hlen2.
  assert (Hdis : forall c, c ∈ take rx txs -> c ∉ rxs).
  { intros c Ht%(subseteq_take rx) Hr. rewrite Forall_forall in Hn2.
    destruct (copies_lookup _ _ _ _ _ Hc1 Hr) as [o Ho]. by rewrite (Hn2 c Ht) in Ho. }
  pose proof (grew_copied _ _ _ Hp1 He1) as M1. pose proof (grew_copied _ _ _ Hp2 He2) as M2.
  wp_step. eapply wp_mono.
  { apply (wp_map_pages (ic_rx_buf client) rxs rx); [by eapply copies_extends|done|lia|rewrite Hp2, Hp1; lia|lia]. }
  intros b s3 (Hb & M3 & Hu3 & Hsh3). destruct (gr_root _ _ _ _ _ M3) as [Hk3 Hl3]. wp_step. apply wp_assert; [by rewrite (proj2 (Z.eqb_neq _ _) Hb)|].
  wp_step. rewrite map_pages_take by lia. rewrite Nat2Z.id. eapply wp_mono.
  { apply (wp_map_pages (ic_tx_buf client) (take rx txs) rx).
    - eapply copies_unaffected; [exact Hk3|exact Hu3|exact Hdis|]. apply (copies_take _ _ tx); [lia|done].
    - rewrite <- (take_drop rx txs) in Hnd2. by apply NoDup_app in Hnd2 as [? _].
    - lia.
    - rewrite (gr_free _ _ _ _ _ M3), Hp2, Hp1. lia.
    - lia. }
  intros b' s4 (Hb' & M4 & _ & Hsh4). wp_step. apply wp_assert; [by rewrite (proj2 (Z.eqb_neq _ _) Hb')|].
  wp_step. cbn [fst snd]. split_and!; [done|done| |by eapply shared_pages_grew|done].
  exact (grew_trans _ _ _ _ _ _ _ _ _ (grew_trans _ _ _ _ _ _ _ _ _ (grew_trans _ _ _ _ _ _ _ _ _ M1 M2) M3) M4).
Qed.

Lemma wp_map_serial_buffer client s :
  mapped_pages (root_of (is_root s)) (sl_buf client) [0%nat] -> (1 + map_cost <= slots_left (root_of (is_root s)))%nat ->
  1 <= pages_free (native (is_proc s)) ->
  wp (map_serial_buffer client) (fun r s' => r <> 0 /\ grew [] 1 (1 + map_cost) s s' /\
    shared_pages (root_of (is_root s')) (pmap (native (is_proc s'))) (sl_buf client) r 1) s.
Proof.
  intros Hm Hslots Hfree. unfold map_serial_buffer, SEL4OSAPI_SERIAL_BUF_PAGES. change 1 with (Z.of_nat 1).
  wp_step. eapply wp_mono; [apply wp_copy_buffer; [done|lia]|]. intros caps s1 (Hp1 & Hnd1 & _ & Hc1 & He1).
  pose proof He1 as (_ & _ & Hl1). pose proof (grew_copied _ _ _ Hp1 He1) as M1.
  wp_step. eapply wp_mono; [apply (wp_map_pages (sl_buf client) caps 1); [done|done|lia|rewrite Hp1; lia|lia]|].
  intros b s2 (Hb & M2 & _ & Hsh). wp_step. apply wp_assert; [by rewrite (proj2 (Z.eqb_neq _ _) Hb)|]. wp_step.
  split_and!; [done|exact (grew_trans _ _ _ _ _ _ _ _ _ M1 M2)|done].
Qed.

(** *** The environment *)

(** The capability in a slot of the process, with its badge. *)
Definition cap_at p (slot : Z) : option (Z * Z) :=
  if slot <? cslot_base then None else cslots p !! Z.to_nat (slot - cslot_base).

Lemma cap_at_app p l1 x l2 slot : cslots p = l1 ++ x :: l2 -> slot = cslot_base + Z.of_nat (length l1) -> cap_at p slot = Some x.
Proof.
  intros Hp ->. unfold cap_at. rewrite (proj2 (Z.ltb_ge _ _)) by lia.
  replace (Z.to_nat (cslot_base + Z.of_nat (length l1) - cslot_base)) with (length l1) by lia. rewrite Hp. by apply list_lookup_middle.
Qed.

Lemma cap_at_free p slot : cslot_base <= next_free p -> next_free p <= slot -> cap_at p slot = None.
Proof.
  unfold next_free, cap_at. intros H1 H2. rewrite (proj2 (Z.ltb_ge _ _)) by lia. apply lookup_ge_None_2. lia.
Qed.

(** One capability copied: the process gets it in its next slot. *)
Definition with_native p (q : proc_state P) : proc_state P := ProcState (table q) (penv q) p.

Lemma wp_env_cap pid cap (Q : Z -> init_state K P -> Prop) s : 0 < next_free (native (is_proc s)) < cspace_end ->
  (forall p, let s' := InitState (with_native p (is_proc s)) (is_root s) in
     pmap p = pmap (native (is_proc s)) -> grew [(cap, pid)] 0 0 s s' -> Q (next_free (native (is_proc s))) s') ->
  wp (copy_cap_into pid cap) Q s.
Proof.
  intros Hn HQ. unfold copy_cap_into, on_proc, sel4osapi_process_copy_cap_into. apply wp_zoom.
  wp_step. eexists _, _. split; [reflexivity|]. cbn [native].
  destruct (mint_ok cap pid _ Hn) as [-> Hc]. destruct (mint_frame cap pid (native (is_proc s))) as [Hm Hf].
  wp_step. apply wp_assert; [apply negb_true_iff, Z.eqb_neq; lia|]. wp_step. apply HQ; [done|].
  split; cbn; try done; [by rewrite Hm|lia|split; [done|lia]].
Qed.

Lemma wp_copy_checked pid cap (Q : Z -> init_state K P -> Prop) s : 0 < next_free (native (is_proc s)) < cspace_end ->
  (forall s', grew [(cap, pid)] 0 0 s s' -> Q (next_free (native (is_proc s))) s') -> wp (copy_checked pid cap) Q s.
Proof.
  intros Hn HQ. unfold copy_checked. wp_step. apply wp_env_cap; [done|]. intros p s' _ G.
  wp_step. apply wp_assert; [apply negb_true_iff, Z.eqb_neq; lia|]. wp_step. by apply HQ.
Qed.

Lemma wp_make_idling_aep pid s : 0 < next_free (native (is_proc s)) < cspace_end -> (0 < slots_left (root_of (is_root s)))%nat ->
  wp (make_idling_aep pid) (fun r s' => r.2 = next_free (native (is_proc s)) /\ grew [(r.1, pid)] 0 1 s s') s.
Proof.
  intros Hn Hs. unfold make_idling_aep. wp_step. apply wp_root_call. destruct (notification_ok _ Hs) as (-> & _ & _ & He).
  wp_step. apply wp_assert; [done|]. wp_step. apply wp_copy_checked; [done|]. intros s' G. wp_step. split; [done|].
  exact (grew_trans [] 0 1 _ _ _ _ _ _ (grew_copied 1 s (InitState (is_proc s) _) eq_refl He) G).
Qed.

(** Slots of the root task that [sel4osapi_process_init_env] uses. *)
Definition env_slots (rx tx : nat) : nat := rx + tx + 2 + 3 * map_cost.

(** What init_env is called with: the process' CSpace and table of [Untyped], the
    buffers mapped in the root task, and room for everything. *)
Record env_ready (pid : Z) (ipc : sel4osapi_ipcclient_t) (ser : sel4osapi_serialclient_t) (rx tx : nat) blocks owners s : Prop := {
  er_untypeds : creation_ok pid (is_proc s) blocks owners;
  er_slots : next_free (native (is_proc s)) + Z.of_nat (length owners) + 8 <= cspace_end;
  er_base : 0 < cslot_base;
  er_rx : SEL4OSAPI_PROCESS_RX_BUF_PAGES = Z.of_nat rx;
  er_tx : SEL4OSAPI_PROCESS_TX_BUF_PAGES = Z.of_nat tx;
  er_pages : (0 < rx <= tx)%nat;
  er_rx_mapped : mapped_pages (root_of (is_root s)) (ic_rx_buf ipc) (seq 0 rx);
  er_tx_mapped : mapped_pages (root_of (is_root s)) (ic_tx_buf ipc) (seq 0 tx);
  er_ser_mapped : mapped_pages (root_of (is_root s)) (sl_buf ser) [0%nat];
  er_room : (env_slots rx tx <= slots_left (root_of (is_root s)))%nat;
  er_space : 2 * Z.of_nat rx + 1 <= pages_free (native (is_proc s))
}.

(** Page directory, thread and fault endpoint of a process. *)
Definition given_caps (n : sel4utils_process_t P) : Z * Z * Z := (np_pd n, np_tcb n, np_fault_endpoint n).

(** The environment [e] of process [pid], whose capabilities are in the CSpace of
    [p], badged, below the free slots, and whose buffers are those of the root task. *)
Record env_made (pid : Z) (name : string) (priority : Z) (given : Z * Z * Z) (ipc : sel4osapi_ipcclient_t)
    (ser : sel4osapi_serialclient_t) (sysclock_ep stack_ep aep : Z) (rx : nat) (e : sel4osapi_process_env_t) w p : Prop := {
  em_ids : pe_pid e = pid /\ pe_priority e = priority /\ ic_id (pe_ipcclient e) = ic_id ipc /\ sl_id (pe_serial e) = sl_id ser;
  em_name : snprintf_bytes SEL4OSAPI_USER_PROCESS_NAME_MAX_LEN name `prefix_of` pe_name e;
  em_caps : Forall (fun x => cap_at p x.1 = Some (x.2, pid))
    [(pe_page_directory e, given.1.1); (pe_tcb e, given.1.2); (pe_sysclock_server_ep e, sysclock_ep);
     (pe_idling_aep e, aep); (pe_stack_op_ep e, stack_ep); (sl_server_ep (pe_serial e), sl_server_ep ser);
     (pe_fault_endpoint e, given.2)];
  em_free : pe_free_slots e = (next_free p, cspace_end) /\ next_free p < cspace_end;
  em_rx : shared_pages w (pmap p) (ic_rx_buf ipc) (ic_rx_buf (pe_ipcclient e)) rx;
  em_tx : shared_pages w (pmap p) (ic_tx_buf ipc) (ic_tx_buf (pe_ipcclient e)) rx;
  em_serial : shared_pages w (pmap p) (sl_buf ser) (sl_buf (pe_serial e)) 1;
  em_usable : ic_rx_buf (pe_ipcclient e) <> 0 /\ ic_tx_buf (pe_ipcclient e) <> 0 /\ sl_buf (pe_serial e) <> 0 /\ pe_stack_op_ep e <> 0;
  em_sizes : ic_rx_buf_size (pe_ipcclient e) = SEL4OSAPI_PROCESS_RX_BUF_SIZE /\
    ic_tx_buf_size (pe_ipcclient e) = SEL4OSAPI_PROCESS_TX_BUF_SIZE /\ sl_buf_size (pe_serial e) = SEL4OSAPI_SERIAL_BUF_SIZE
}.

(** The blocks [ids] of the process are in its slots from [start] on. *)
Definition blocks_at p (pid start : Z) blocks (ids : list nat) : Prop := forall j i b,
  ids !! j = Some i -> blocks !! i = Some b -> cap_at p (start + Z.of_nat j) = Some (cptr b, pid).

Lemma block_caps_length pid blocks ids : Forall (fun i => (i < length blocks)%nat) ids ->
  length (block_caps pid blocks ids) = length ids.
Proof.
  induction 1 as [|i ids Hi _ IH]; [done|]. unfold block_caps in *. cbn.
  destruct (lookup_lt_is_Some_2 blocks i Hi) as [b ->]. cbn. by rewrite IH.
Qed.

Lemma block_caps_lookup pid blocks ids j i b : Forall (fun i => (i < length blocks)%nat) ids ->
  ids !! j = Some i -> blocks !! i = Some b -> block_caps pid blocks ids !! j = Some (cptr b, pid).
Proof.
  intros Hall. revert j. induction Hall as [|i' ids Hi' _ IH]; intros j Hj Hb; [done|]. unfold block_caps in *. cbn.
  destruct (lookup_lt_is_Some_2 blocks i' Hi') as [b' Hb']. rewrite Hb'. cbn.
  destruct j as [|j]; cbn in Hj |- *; [by simplify_eq|by apply IH].
Qed.

Lemma blocks_at_app p pid blocks ids l1 l2 start : Forall (fun i => (i < length blocks)%nat) ids ->
  cslots p = l1 ++ block_caps pid blocks ids ++ l2 -> start = cslot_base + Z.of_nat (length l1) -> blocks_at p pid start blocks ids.
Proof.
  intros Hall Hp -> j i b Hj Hb. unfold cap_at. rewrite (proj2 (Z.ltb_ge _ _)) by lia. rewrite Hp.
  rewrite lookup_app_r by lia. apply lookup_app_l_Some.
  replace (Z.to_nat _ - length l1)%nat with j by lia. by eapply block_caps_lookup.
Qed.

(** The first part: the page directory, the thread and the blocks. *)
Lemma wp_first_caps pid cap1 cap2 blocks owners s (Q : unit -> init_state K P -> Prop) :
  creation_ok pid (is_proc s) blocks owners -> next_free (native (is_proc s)) + Z.of_nat (length owners) + 2 <= cspace_end ->
  (forall s', table_rep (table (is_proc s')) blocks (give pid (claimed owners) owners) ->
     cslots (native (is_proc s')) = cslots (native (is_proc s)) ++ [(cap1, pid); (cap2, pid)] ++ block_caps pid blocks (claimed owners) ->
     env_after (penv (is_proc s')) (penv (is_proc s)) (next_free (native (is_proc s)) + 2) (claimed owners) ->
     pmap (native (is_proc s')) = pmap (native (is_proc s)) -> pages_free (native (is_proc s')) = pages_free (native (is_proc s)) ->
     is_root s' = is_root s -> Q tt s') ->
  forall p, cslots p = cslots (native (is_proc s)) ++ [(cap1, pid); (cap2, pid)] -> pmap p = pmap (native (is_proc s)) ->
    pages_free p = pages_free (native (is_proc s)) ->
    wp (on_proc (init_untypeds pid)) Q (InitState (with_native p (is_proc s)) (is_root s)).
Proof.
  intros Hcr Hroom HQ p Hc Hm Hf. pose proof (cr_pid _ _ _ _ Hcr) as Hpid. pose proof (cr_slots _ _ _ _ Hcr) as Hpos.
  assert (Hnf : next_free p = next_free (native (is_proc s)) + 2) by (unfold next_free; rewrite Hc, length_app; cbn [length]; lia).
  unfold on_proc. apply wp_zoom. cbn [is_proc is_root].
  assert (Hcr' : creation_ok pid (with_native p (is_proc s)) blocks owners).
  { destruct Hcr. split; try done; cbn [native with_native]; lia. }
  eapply wp_mono.
  { apply wp_wlp; [by apply wp_init_untypeds|].
    apply (init_untypeds_keeps (fun q => pmap q = pmap p /\ pages_free q = pages_free p)); [|done].
    intros cap badge q [H1 H2]. destruct (mint_frame cap badge q) as [-> ->]. done. }
  intros [] q ((Htab & _ & _ & Hcs & Henv) & Hqm & Hqf). cbn [native penv with_native] in *. apply HQ; cbn [is_proc is_root]; try done.
  - by rewrite Hcs, Hc, <- app_assoc.
  - by rewrite <- Hnf.
  - by rewrite Hqm.
  - by rewrite Hqf.
Qed.

Lemma claimed_real pid (y : proc_state P) blocks owners : creation_ok pid y blocks owners ->
  Forall (fun i => (i < length blocks)%nat) (claimed owners).
Proof. intros Hcr. destruct (cr_table _ _ _ _ Hcr) as (_ & _ & -> & _). apply claimed_lt. Qed.

Lemma wp_process_caps {A} pid cap1 cap2 blocks owners s (rest : Z -> Z -> M (init_state K P) A) (Q : A -> init_state K P -> Prop) :
  creation_ok pid (is_proc s) blocks owners -> next_free (native (is_proc s)) + Z.of_nat (length owners) + 8 <= cspace_end ->
  let nf := next_free (native (is_proc s)) in
  (forall s', table_rep (table (is_proc s')) blocks (give pid (claimed owners) owners) ->
     cslots (native (is_proc s')) = cslots (native (is_proc s)) ++ [(cap1, pid); (cap2, pid)] ++ block_caps pid blocks (claimed owners) ->
     env_after (penv (is_proc s')) (penv (is_proc s)) (nf + 2) (claimed owners) ->
     pages_free (native (is_proc s')) = pages_free (native (is_proc s)) -> is_root s' = is_root s ->
     next_free (native (is_proc s')) = nf + 2 + Z.of_nat (length (claimed owners)) -> wp (rest nf (nf + 1)) Q s') ->
  wp (let! page_directory := copy_cap_into pid cap1 in
      let! tcb := copy_cap_into pid cap2 in
      on_proc (init_untypeds pid) ;;
      rest page_directory tcb) Q s.
Proof.
  intros Hcr Hslots nf HQ. pose proof (cr_slots _ _ _ _ Hcr) as Hpos. fold nf in Hpos, Hslots.
  pose proof (claimed_real _ _ _ _ Hcr) as Hcl.
  pose proof (block_caps_length pid _ _ Hcl) as Hbc.
  wp_step. apply wp_env_cap; [fold nf; lia|]. fold nf. intros p1 s1 Hm1 G1. pose proof (grew_next _ _ _ _ _ G1) as N1. cbn [length] in N1.
  wp_step. apply wp_env_cap; [lia|]. intros p2 s2 Hm2 G2. rewrite N1.
  wp_step. eapply (wp_first_caps pid cap1 cap2 blocks owners s); [done|fold nf; lia| |..].
  2:{ pose proof (gr_cslots _ _ _ _ _ (grew_trans _ _ _ _ _ _ _ _ _ G1 G2)) as Hc2. exact Hc2. } 2:{ exact (eq_trans Hm2 Hm1). }
  2:{ pose proof (gr_free _ _ _ _ _ G1). pose proof (gr_free _ _ _ _ _ G2). cbn in *. lia. }
  intros s3 Htab Hc3 Henv Hm3 Hf3 Hr3. apply HQ; try done.
  unfold nf, next_free. rewrite Hc3, !length_app, Hbc. cbn [length]. lia.
Qed.

(** Seven capabilities around the blocks, in their slots. *)
Lemma cap_at_range p slot x : cap_at p slot = Some x -> cslot_base <= slot < next_free p.
Proof.
  unfold cap_at, next_free. destruct (Z.ltb_spec slot cslot_base); [done|]. intros Hl%lookup_lt_Some. lia.
Qed.

Lemma caps_in_place p pid l0 bl c1 c2 c3 c4 c5 c6 c7 t1 t2 t3 t4 t5 t6 t7 :
  cslots p = l0 ++ [(c1, pid); (c2, pid)] ++ bl ++ ((fun c => (c, pid)) <$> [c3; c4; c5; c6; c7]) ->
  t1 = cslot_base + Z.of_nat (length l0) -> t2 = t1 + 1 -> t3 = t2 + 1 + Z.of_nat (length bl) ->
  t4 = t3 + 1 -> t5 = t4 + 1 -> t6 = t5 + 1 -> t7 = t6 + 1 ->
  Forall (fun x => cap_at p x.1 = Some (x.2, pid)) [(t1, c1); (t2, c2); (t3, c3); (t4, c4); (t5, c5); (t6, c6); (t7, c7)].
Proof.
  intros Hp H1 H2 H3 H4 H5 H6 H7. cbn [fmap list_fmap app] in Hp.
  pose (m := l0 ++ (c1, pid) :: (c2, pid) :: bl).
  assert (Hm : forall l1 x l2 slot, [(c3, pid); (c4, pid); (c5, pid); (c6, pid); (c7, pid)] = l1 ++ x :: l2 ->
    slot = t3 + Z.of_nat (length l1) -> cap_at p slot = Some x).
  { intros l1 x l2 slot Heq ->. apply (cap_at_app p (m ++ l1) x l2).
    - rewrite Hp, Heq. unfold m. by rewrite <- !app_assoc.
    - unfold m. rewrite !length_app. cbn [length]. lia. }
  repeat apply Forall_cons_2; [..|apply Forall_nil_2]; cbn [fst snd].
  - eapply cap_at_app; [exact Hp|lia].
  - apply (cap_at_app p (l0 ++ [(c1, pid)]) _ (bl ++ [(c3, pid); (c4, pid); (c5, pid); (c6, pid); (c7, pid)])).
    + by rewrite Hp, <- app_assoc.
    + rewrite length_app. cbn [length]. lia.
  - apply (Hm [] _ [(c4, pid); (c5, pid); (c6, pid); (c7, pid)]); [done|cbn [length]; lia].
  - apply (Hm [(c3, pid)] _ [(c5, pid); (c6, pid); (c7, pid)]); [done|cbn [length]; lia].
  - apply (Hm [(c3, pid); (c4, pid)] _ [(c6, pid); (c7, pid)]); [done|cbn [length]; lia].
  - apply (Hm [(c3, pid); (c4, pid); (c5, pid)] _ [(c7, pid)]); [done|cbn [length]; lia].
  - apply (Hm [(c3, pid); (c4, pid); (c5, pid); (c6, pid)] _ []); [done|cbn [length]; lia].
Qed.

Lemma wp_process_init_env process env0 pid name priority ipc ser sysclock_ep stack_ep rx tx blocks owners s :
  env_ready pid ipc ser rx tx blocks owners s ->
  wp (sel4osapi_process_init_env process env0 pid name priority ipc ser sysclock_ep stack_ep) (fun r s' => exists e aep,
    r = (0, e, aep) /\ env_made pid name priority (given_caps process) ipc ser sysclock_ep stack_ep aep rx e (root_of (is_root s')) (native (is_proc s')) /\
    table_rep (table (is_proc s')) blocks (give pid (claimed owners) owners) /\
    blocks_at (native (is_proc s')) pid (next_free (native (is_proc s)) + 2) blocks (claimed owners) /\
    env_after (pe_untypeds e) (penv (is_proc s)) (next_free (native (is_proc s)) + 2) (claimed owners) /\
    reaches (env_slots rx tx) (root_of (is_root s)) (root_of (is_root s'))) s.
Proof.
  intros [Hcr Hslots Hbase Hrx Htx Hle Hmr Hmt Hms Hroom Hspace]. unfold sel4osapi_process_init_env, env_slots in *.
  pose proof (cr_slots _ _ _ _ Hcr) as Hpos. set (nf := next_free (native (is_proc s))) in *.
  pose proof (claimed_real _ _ _ _ Hcr) as Hcl.
  assert (Hcn : (length (claimed owners) <= length owners)%nat) by (unfold claimed; pose proof (free_blocks_length owners); rewrite length_take; lia).
  pose proof (block_caps_length pid _ _ Hcl) as Hbc.
  apply (wp_process_caps pid _ _ blocks owners); [done|fold nf; lia|]. fold nf. intros s3 Htab Hc3 Henv Hf3 Hr3 N3.
  wp_step. apply wp_copy_checked; [lia|]. intros s4 G4. pose proof (grew_next _ _ _ _ _ G4) as N4. cbn [length] in N4.
  destruct (gr_root _ _ _ _ _ G4) as [_ L4]. rewrite Hr3 in L4.
  wp_step. eapply wp_mono; [apply wp_make_idling_aep; lia|]. intros [aep slot] s5 [Hslot G5]. cbn [fst snd] in *.
  pose proof (grew_next _ _ _ _ _ G5) as N5. cbn [length] in N5.
  pose proof (grew_trans _ _ _ _ _ _ _ _ _ G4 G5) as G45. pose proof (gr_free _ _ _ _ _ G45) as F5. destruct (gr_root _ _ _ _ _ G45) as [[_ Hk5] L5]. rewrite Hr3 in Hk5, L5.
  wp_step. eapply wp_mono.
  { apply (wp_map_ipc_buffers ipc rx tx); [done|done|done| | |lia|lia]; by eapply mapped_pages_keeps. }
  intros bufs s6 (Hb1 & Hb2 & G6 & Hsh1 & Hsh2). pose proof (grew_next _ _ _ _ _ G6) as N6. cbn [length] in N6.
  pose proof (grew_trans _ _ _ _ _ _ _ _ _ G45 G6) as G46.
  wp_step. apply wp_copy_checked; [lia|]. intros s7 G7. pose proof (grew_next _ _ _ _ _ G7) as N7. cbn [length] in N7.
  wp_step. apply wp_copy_checked; [lia|]. intros s8 G8. pose proof (grew_next _ _ _ _ _ G8) as N8. cbn [length] in N8.
  pose proof (grew_trans _ _ _ _ _ _ _ _ _ G46 (grew_trans _ _ _ _ _ _ _ _ _ G7 G8)) as G48.
  pose proof (gr_free _ _ _ _ _ G48) as F8. destruct (gr_root _ _ _ _ _ G48) as [[_ Hk8] L8]. rewrite Hr3 in Hk8, L8.
  wp_step. eapply wp_mono; [apply (wp_map_serial_buffer ser); [by eapply mapped_pages_keeps|lia|lia]|].
  intros buf s9 (Hb3 & G9 & Hsh3). pose proof (grew_next _ _ _ _ _ G9) as N9. cbn [length] in N9.
  wp_step. apply wp_copy_checked; [lia|]. intros s10 G10. pose proof (grew_next _ _ _ _ _ G10) as N10. cbn [length] in N10.
  pose proof (grew_trans _ _ _ _ _ _ _ _ _ G9 G10) as G910.
  pose proof (grew_trans _ _ _ _ _ _ _ _ _ (grew_trans _ _ _ _ _ _ _ _ _ G7 G8) G910) as G710.
  destruct (grew_trans _ _ _ _ _ _ _ _ _ G48 G910) as [Ht He Hc Hm _ [Hk Hs]]. rewrite Hr3 in Hk, Hs.
  destruct cspace_bits_ok as [Hbits Hend]. pose proof (Z.pow_lt_mono_r 2 _ 32 ltac:(lia) ltac:(lia) (proj2 Hbits)).
  rewrite Z.shiftl_1_l, <- Hend. rewrite !u32_small by (unfold is_u32; lia).
  wp_step. apply wp_assert; [apply Z.ltb_lt; cbn; lia|]. wp_steps. eexists _, aep. split; [reflexivity|].
  rewrite Hc3, <- !app_assoc in Hc. cbn [app] in Hc.
  split_and!; [|by rewrite Ht| |by rewrite He|split; [done|lia]].
  2:{ eapply blocks_at_app; [exact Hcl| |].
      - rewrite Hc. apply (app_assoc _ [_; _]).
      - unfold nf, next_free. rewrite length_app. cbn [length]. lia. }
  split; cbn [pe_name pe_page_directory pe_tcb pe_sysclock_server_ep pe_idling_aep pe_stack_op_ep pe_serial sl_server_ep pe_fault_endpoint
    pe_free_slots pe_ipcclient ic_rx_buf ic_tx_buf sl_buf]; try done.
  - by eexists.
  - eapply caps_in_place; [exact Hc|unfold nf, next_free; lia|lia..].
  - split; [f_equal; lia|lia].
  - exact (shared_pages_grew _ _ _ _ _ _ _ _ G710 Hsh1).
  - exact (shared_pages_grew _ _ _ _ _ _ _ _ G710 Hsh2).
  - exact (shared_pages_grew _ _ _ _ _ _ _ _ G10 Hsh3).
  - split_and!; [done..|lia].
Qed.

(** C2: A new process gets the environment it is told it has.  When the root task
    has mapped the buffers and there is room, [sel4osapi_process_init_env]
    succeeds: every capability the environment names is in the CSpace of the
    process, a copy of the right one badged with the pid, and so are the blocks of
    untyped memory, which are recorded as its own; all of them lie below the range
    of free slots; and its receive and serial buffers are page by page the frames
    of the root task's, the transmit buffer in as many pages as the receive
    buffer has. *)
Theorem process_env_made process env0 pid name priority ipc ser sysclock_ep stack_ep rx tx blocks owners s :
  env_ready pid ipc ser rx tx blocks owners s ->
  wp (sel4osapi_process_init_env process env0 pid name priority ipc ser sysclock_ep stack_ep) (fun r s' => exists e aep,
    r = (0, e, aep) /\ env_made pid name priority (given_caps process) ipc ser sysclock_ep stack_ep aep rx e (root_of (is_root s')) (native (is_proc s')) /\
    table_rep (table (is_proc s')) blocks (give pid (claimed owners) owners) /\
    blocks_at (native (is_proc s')) pid (next_free (native (is_proc s)) + 2) blocks (claimed owners) /\
    env_after (pe_untypeds e) (penv (is_proc s)) (next_free (native (is_proc s)) + 2) (claimed owners)) s.
Proof.
  intros Hready. eapply wp_mono; [by apply (wp_process_init_env _ _ _ _ _ _ _ _ _ _ _ _ _ _ Hready)|].
  intros r s' (e & aep & H1 & H2 & H3 & H4 & H5 & _). by exists e, aep.
Qed.

(** *** What it leaves alone in the root task: all that these calls do *)

Section init_env_moves.
Variable R : nat -> K -> K -> Prop.
Context {G : Graded R}.
Hypothesis op_moves : forall k n k', process_op k n k' -> R n k k'.

Local Abbreviation imoves n m := (moves (S := init_state K P) is_root R n m).

Lemma moves_root_call {A} n (f : K -> A * K) : (forall k, process_op k n (f k).2) -> imoves n (root_call f).
Proof. intros H s a s' [= <- <-]. apply op_moves, H. Qed.

Lemma moves_on_proc {A} (m : M (proc_state P) A) : imoves 0 (on_proc m).
Proof. by apply (moves_zoom is_root R). Qed.

Lemma moves_copy_cap c : imoves 0 (sel4osapi_util_copy_cap c).
Proof.
  unfold sel4osapi_util_copy_cap. apply (moves_bind is_root R 0 0); [apply moves_root_call; constructor|intros dest].
  apply (moves_bind is_root R 0 0); [apply (moves_assert is_root R)|intros _].
  apply (moves_bind is_root R 0 0); [apply moves_root_call; constructor|intros error].
  apply (moves_bind is_root R 0 0); [apply (moves_assert is_root R)|intros _; apply (moves_ret is_root R)].
Qed.

Lemma moves_copy_buffer buf n : imoves 0 (copy_buffer buf n).
Proof.
  unfold copy_buffer. induction (seq 0 (Z.to_nat n)) as [|i l IH]; [apply (moves_ret is_root R)|]. cbn [copy_pages].
  apply (moves_bind is_root R 0 0); [|intros c; apply (moves_bind is_root R 0 0); [exact IH|intros cs; apply (moves_ret is_root R)]].
  unfold copy_page. apply (moves_bind is_root R 0 0); [apply (moves_get is_root R)|intros s].
  apply (moves_bind is_root R 0 0); [apply (moves_assert is_root R)|intros _; apply moves_copy_cap].
Qed.

Lemma moves_map_pages caps n : imoves 0 (map_pages caps n).
Proof. intros s a s'. unfold map_pages. case_match; [|done]. intros [= <- <-]. apply op_moves, po_map. Qed.

Ltac init_moves := repeat first
  [ apply moves_copy_buffer | apply moves_map_pages | apply moves_on_proc | apply (moves_assert is_root R) | apply (moves_ret is_root R)
  | apply (moves_get is_root R) | apply (moves_bind is_root R 0 0); [|intros ?] ].

Lemma moves_copy_checked pid cap : imoves 0 (copy_checked pid cap).
Proof. unfold copy_checked, copy_cap_into. init_moves. Qed.

Lemma moves_map_ipc_buffers client : imoves 0 (map_ipc_buffers client).
Proof. unfold map_ipc_buffers. init_moves. Qed.

Lemma moves_map_serial_buffer client : imoves 0 (map_serial_buffer client).
Proof. unfold map_serial_buffer. init_moves. Qed.

Lemma moves_idling_aep pid : imoves 1 (make_idling_aep pid).
Proof.
  unfold make_idling_aep. apply (moves_bind is_root R 1 0); [apply moves_root_call; constructor|intros aep].
  repeat first [apply moves_copy_checked | progress init_moves].
Qed.

Lemma moves_init_env process env0 pid name priority ipc ser sysclock_ep stack_ep :
  imoves 1 (sel4osapi_process_init_env process env0 pid name priority ipc ser sysclock_ep stack_ep).
Proof.
  unfold sel4osapi_process_init_env, copy_cap_into.
  do 4 (apply (moves_bind is_root R 0 1); [first [apply moves_on_proc|apply moves_copy_checked]|intros ?]).
  apply (moves_bind is_root R 1 0); [apply moves_idling_aep|intros aeps].
  repeat first [apply moves_copy_checked | apply moves_map_ipc_buffers | apply moves_map_serial_buffer | progress init_moves].
Qed.
End init_env_moves.

(** With fewer transmit than receive pages no process can be created: the call
    that maps the transmit buffer is told the number of receive pages and reads
    past the array of capabilities. *)
Theorem process_tx_pages_overread ipc (rx tx : nat) s :
  SEL4OSAPI_PROCESS_RX_BUF_PAGES = Z.of_nat rx -> SEL4OSAPI_PROCESS_TX_BUF_PAGES = Z.of_nat tx -> (tx < rx)%nat ->
  mapped_pages (root_of (is_root s)) (ic_rx_buf ipc) (seq 0 rx) -> mapped_pages (root_of (is_root s)) (ic_tx_buf ipc) (seq 0 tx) ->
  (rx + tx + map_cost <= slots_left (root_of (is_root s)))%nat -> Z.of_nat rx <= pages_free (native (is_proc s)) ->
  map_ipc_buffers ipc s = Wild_access.
Proof.
  intros Hrx Htx Hlt Hmr Hmt Hslots Hfree. unfold map_ipc_buffers. rewrite Hrx, Htx.
  destruct (wp_copy_buffer (ic_rx_buf ipc) rx s Hmr) as (rxs & s1 & R1 & Hp1 & Hnd1 & _ & Hc1 & He1); [lia|].
  pose proof He1 as (_ & _ & Hl1). rewrite (bind_done _ _ _ _ _ R1).
  destruct (wp_copy_buffer (ic_tx_buf ipc) tx s1) as (txs & s2 & R2 & Hp2 & _ & _ & Hc2 & He2);
    [by eapply mapped_pages_extends|lia|]. pose proof He2 as (_ & _ & Hl2). rewrite (bind_done _ _ _ _ _ R2).
  destruct (wp_map_pages (ic_rx_buf ipc) rxs rx s2) as (b & s3 & R3 & Hb & _);
    [by eapply copies_extends|done|lia|rewrite Hp2, Hp1; lia|lia|]. rewrite (bind_done _ _ _ _ _ R3).
  rewrite (proj2 (Z.eqb_neq _ _) Hb), (bind_done _ _ _ tt s3 eq_refl).
  pose proof (Forall2_length _ _ _ Hc2) as Hlen. rewrite length_seq in Hlen.
  assert (Hw : map_pages txs (Z.of_nat rx) s3 = Wild_access).
  { unfold map_pages. rewrite Nat2Z.id, (proj2 (Nat.leb_gt _ _)) by lia. done. }
  unfold bind at 1. by rewrite Hw.
Qed.
End process_spec.

(** ** Libraries to run examples on

    The views themselves; a root task whose table of pages names capabilities it
    does not have, or a process whose next page is taken, has no room. *)

Record demo_root := DemoRoot { dr_caps : gmap Z (Z * bool); dr_pages : gmap Z Z; dr_left : nat }.
Record demo_process := DemoProcess { dp_slots : list (Z * Z); dp_map : gmap Z Z; dp_next : Z; dp_free : Z }.

#[export] Instance demo_process_cspace : ProcessCSpace demo_process := {|
  sel4utils_mint_cap_to_process cap badge p :=
    (3 + Z.of_nat (length (dp_slots p)), DemoProcess (dp_slots p ++ [(cap, badge)]) (dp_map p) (dp_next p) (dp_free p))
|}.

#[export] Instance demo_process_cspace_ok : ProcessCSpaceOk demo_process := {|
  cslots := dp_slots;
  cslot_base := 3;
  cspace_end := 4096;
  mint_ok _ _ _ _ := conj eq_refl eq_refl
|}.

#[export] Instance demo_process_root : RootEnv demo_root := {|
  vspace_new_pages n k := (0, k);
  ROUND_UP_UNSAFE x n := (x + n - 1) / n * n
|}.

Definition demo_root_slot (k : demo_root) : Z := fresh ({[0]} ∪ dom (dr_caps k)).

Lemma demo_root_slot_free k : dr_caps k !! demo_root_slot k = None /\ demo_root_slot k <> 0.
Proof. unfold demo_root_slot. pose proof (is_fresh ({[0]} ∪ dom (dr_caps k))) as H. split; [apply not_elem_of_dom|]; set_solver. Qed.

#[export] Instance demo_process_lib : ProcessLib demo_root demo_process := {|
  SEL4UTILS_CNODE_SLOT := 1;
  CONFIG_SEL4UTILS_CSPACE_SIZE_BITS := 12;
  vspace_get_cap a k := default 0 (dr_pages k !! a);
  vka_cspace_alloc k := ((0, demo_root_slot k), DemoRoot (dr_caps k) (dr_pages k) (pred (dr_left k)));
  vka_cnode_copy dest src k :=
    match dr_caps k !! src, dr_caps k !! dest with
    | Some x, None => (0, DemoRoot (<[dest := (x.1, false)]> (dr_caps k)) (dr_pages k) (dr_left k))
    | _, _ => (1, k)
    end;
  vka_new_notification k :=
    ((0, demo_root_slot k), DemoRoot (<[demo_root_slot k := (0, false)]> (dr_caps k)) (dr_pages k) (pred (dr_left k)));
  vspace_map_pages caps s :=
    (dp_next s.1, (DemoProcess (dp_slots s.1) (pages_at (dp_next s.1) caps ∪ dp_map s.1)
                     (dp_next s.1 + Z.of_nat (length caps) * PAGE_SIZE_4K) (dp_free s.1 - Z.of_nat (length caps)),
                   DemoRoot (use_caps caps (dr_caps s.2)) (dr_pages s.2) (dr_left s.2)))
|}.

Definition demo_root_fits (k : demo_root) : Prop := map_Forall (fun _ c => c <> 0 /\ is_Some (dr_caps k !! c)) (dr_pages k).
Definition demo_process_fits (p : demo_process) : Prop := 0 < dp_next p /\ map_Forall (fun a _ => a < dp_next p) (dp_map p).

Definition demo_root_view (k : demo_root) : root_view :=
  RootView (dr_caps k) (if bool_decide (demo_root_fits k) then dr_pages k else ∅) (dr_left k).

Lemma demo_fits_grow k k' : dr_caps k ⊆ dr_caps k' -> dr_pages k' = dr_pages k -> demo_root_fits k -> demo_root_fits k'.
Proof.
  intros Hc Hp Hf. unfold demo_root_fits in *. rewrite Hp. eapply map_Forall_impl; [exact Hf|].
  intros a c [Hne [x Hx]]. split; [done|]. exists x. by eapply lookup_weaken.
Qed.

Lemma demo_extends_pages n k k' : dr_caps k ⊆ dr_caps k' -> dr_pages k ⊆ dr_pages k' -> (dr_left k - n <= dr_left k')%nat ->
  (demo_root_fits k -> demo_root_fits k') -> extends n (demo_root_view k) (demo_root_view k').
Proof.
  intros Hc Hp Hl Hfit. split_and!; [done| |done]. cbn. case_bool_decide as Hf; [|apply map_empty_subseteq].
  case_bool_decide as Hf'; [done|]. by destruct Hf'; apply Hfit.
Qed.

Lemma demo_extends n k k' : dr_caps k ⊆ dr_caps k' -> dr_pages k' = dr_pages k -> (dr_left k - n <= dr_left k')%nat ->
  extends n (demo_root_view k) (demo_root_view k').
Proof.
  intros Hc Hp Hl. apply demo_extends_pages; [done|by rewrite Hp|done|by apply demo_fits_grow].
Qed.

Lemma pages_at_range a caps b c : pages_at a caps !! b = Some c -> a <= b < a + Z.of_nat (length caps) * PAGE_SIZE_4K.
Proof.
  revert a. induction caps as [|d caps IH]; intros a; [done|]. cbn [pages_at length]. unfold PAGE_SIZE_4K in *.
  destruct (decide (b = a)) as [->|Hne]; [lia|]. rewrite lookup_insert_ne by done. intros Hb%IH. lia.
Qed.

#[export] Instance demo_process_lib_ok : ProcessLibOk demo_root demo_process.
Proof.
  refine {| root_of := demo_root_view; pmap := dp_map; map_cost := 0;
            pages_free p := if bool_decide (demo_process_fits p) then dp_free p else 0 |}.
  - split; [cbn; lia|done].
  - intros a c k. cbn. case_bool_decide as Hf; [|done]. intros Hc. rewrite Hc. split; [done|]. exact (Hf _ _ Hc).
  - intros k _. cbn. split_and!; [done|apply (proj1 (demo_root_slot_free k))|]. apply demo_extends; cbn; [done|done|lia].
  - intros dest src o k. cbn. unfold demo_root_view at 1. cbn. intros (x & Hx & ->)%fmap_Some Hd. rewrite Hx, Hd.
    split_and!; [done|apply lookup_insert_eq|]. apply demo_extends; cbn; [by apply insert_subseteq|done|lia].
  - intros k _. destruct (demo_root_slot_free k) as [Hf _]. cbn.
    split_and!; [done|done|by rewrite lookup_insert_eq|]. apply demo_extends; cbn; [by apply insert_subseteq|done|lia].
  - intros caps p k. cbn. case_bool_decide as Hf; [|intros H1 _ H2; destruct caps; cbn in H1; [done|lia]].
    destruct Hf as [Hn Hf]. intros Hfree _ Hne Hnd Hun. split_and!; [lia| |done| |done|].
    + apply map_disjoint_spec. intros a c1 c2 H1 H2. apply pages_at_range in H1. apply Hf in H2. lia.
    + rewrite bool_decide_eq_true_2; [done|]. split; cbn; unfold PAGE_SIZE_4K; [lia|].
      intros a c [Ha|[_ Ha]]%lookup_union_Some_raw; [apply pages_at_range in Ha; unfold PAGE_SIZE_4K in Ha; lia|apply Hf in Ha; lia].
    + split_and!; cbn; [done| |lia]. case_bool_decide as Hr; [|apply map_empty_subseteq].
      rewrite bool_decide_eq_true_2; [done|]. eapply map_Forall_impl; [exact Hr|]. cbn. intros a c [Hc0 Hc]. split; [done|].
      pose proof (use_caps_fst caps (dr_caps k) c) as He. destruct Hc as [x Hx]. rewrite Hx in He.
      destruct (use_caps caps (dr_caps k) !! c); [by eexists|done].
  - done.
Defined.

Section samples.
Definition sample_native : sel4utils_process_t demo_process := NativeProcess 20 21 22 (DemoProcess [] ∅ 65536 64).
Definition sample_page_addr (i : nat) : Z := 268435456 + Z.of_nat i * PAGE_SIZE_4K.

(** Nine pages, four to receive, four to transmit and one for the serial port. *)
Definition sample_root_task : demo_root :=
  DemoRoot (list_to_map ((fun i => (100 + Z.of_nat i, (Z.of_nat i, true))) <$> seq 0 9))
    (list_to_map ((fun i => (sample_page_addr i, 100 + Z.of_nat i)) <$> seq 0 9)) 64.
Definition sample_ipc : sel4osapi_ipcclient_t := IpcClient 1 NULL NULL (sample_page_addr 0) 16384 (sample_page_addr 4) 16384.
Definition sample_serial : sel4osapi_serialclient_t := SerialClient 1 NULL (sample_page_addr 8) 4096 40.
Definition sample_init : init_state demo_root demo_process :=
  InitState (ProcState (ten_table (replicate 10 0)) (zero_env 16) (np_spaces sample_native)) sample_root_task.
Definition zero_page : sel4osapi_process_env_t :=
  ProcessEnv (replicate 15 0) 0 0 0 0 0 (0, 0) (zero_env 16) 0 0 0 NULL 0 (IpcClient 0 NULL NULL 0 0 0 0) 0 (SerialClient 0 NULL 0 0 0).

Lemma sample_mapped a n : (a + n <= 9)%nat ->
  mapped_pages (demo_root_view sample_root_task) (sample_page_addr a) (seq 0 n).
Proof.
  intros Hn. apply Forall_forall. intros i [_ Hi]%elem_of_seq. unfold sample_page_addr.
  replace (268435456 + Z.of_nat a * PAGE_SIZE_4K + Z.of_nat i * PAGE_SIZE_4K) with (sample_page_addr (a + i))
    by (unfold sample_page_addr; lia).
  assert (Hai : (a + i < 9)%nat) by lia. clear Hn Hi. generalize dependent (a + i)%nat. intros j Hj.
  do 9 (destruct j as [|j]; [by vm_compute; eexists|]). lia.
Qed.

#[local] Existing Instance default_config.

Lemma sample_env_ready : env_ready 1 sample_ipc sample_serial 4 4 ten_blocks (replicate 10 0) sample_init.
Proof.
  split; [split; cbn -[replicate]; rewrite ?length_replicate; try done; try lia; by apply ten_table_rep|by apply Z.leb_le|done|done|done|lia
    |apply (sample_mapped 0 4); lia|apply (sample_mapped 4 4); lia|apply (sample_mapped 8 1); lia|by apply Nat.leb_le|].
  apply Z.leb_le. vm_compute. reflexivity.
Qed.

Lemma process_env_made_witness :
  wp (sel4osapi_process_init_env sample_native zero_page 1 "shell"%string 100 sample_ipc sample_serial 30 31) (fun r s' => exists e aep,
    r = (0, e, aep) /\ cap_at (native (is_proc s')) (pe_sysclock_server_ep e) = Some (30, 1) /\
    shared_pages (root_of (is_root s')) (pmap (native (is_proc s'))) (sample_page_addr 0) (ic_rx_buf (pe_ipcclient e)) 4) sample_init.
Proof.
  eapply wp_mono.
  - apply (process_env_made sample_native zero_page 1 "shell"%string 100 sample_ipc sample_serial 30 31 4 4 ten_blocks (replicate 10 0)).
    exact sample_env_ready.
  - intros r s' (e & aep & -> & [_ _ Hcaps _ Hrx _ _ _ _] & _). exists e, aep. split; [reflexivity|]. split; [|exact Hrx].
    by do 2 apply Forall_cons in Hcaps as [_ Hcaps]; apply Forall_cons in Hcaps as [Hcaps _].
Defined.
End samples.

(** A configuration with one page to transmit. *)
Definition small_tx_config : Config := {|
  SEL4OSAPI_BOOTSTRAP_MEM_POOL_SIZE := 40960; SEL4OSAPI_SYSTEM_VMEM_SIZE := 67108864; SEL4OSAPI_VKA_VMEM_SIZE := 67108864;
  SEL4OSAPI_ROOT_TASK_UNTYPED_MEM_SIZE := 67108864; SEL4OSAPI_USER_PROCESS_UNTYPED_MEM_SIZE := 67108864;
  SEL4OSAPI_USER_PROCESS_MAX := 5; SEL4OSAPI_PROCESS_RX_BUF_SIZE := 16384; SEL4OSAPI_PROCESS_TX_BUF_SIZE := 4096;
  SEL4OSAPI_USER_PROCESS_PRIORITY_DEFAULT := 100; SEL4OSAPI_MAX_THREADS_PER_PROCESS := 50; SEL4OSAPI_THREAD_NAME_MAX_LEN := 50;
  SEL4OSAPI_SYSCLOCK_PERIOD_MS := 5; SEL4OSAPI_NET_VFACES_MAX := 2; SEL4OSAPI_NET_PHYS_IFACES := 1;
  SEL4OSAPI_IP_ADDR_DEFAULT := "10.0.0.2"; SEL4OSAPI_IP_GW_DEFAULT := "10.0.0.1"; SEL4OSAPI_IP_MASK_DEFAULT := "255.0.0.0"
|}.

Lemma process_tx_pages_overread_witness : map_ipc_buffers (CFG := small_tx_config) sample_ipc sample_init = Wild_access.
Proof.
  apply (process_tx_pages_overread (CFG := small_tx_config) sample_ipc 4 1 sample_init); [done|done|lia| | |by apply Nat.leb_le|].
  - apply (sample_mapped 0 4). lia.
  - apply (sample_mapped 4 1). lia.
  - apply Z.leb_le. vm_compute. reflexivity.
Defined.
