(* ===== verification/Spawn.v ===== *)
(** * Spawn: creating and starting processes (src/process.c, the root task's side)

    [sel4osapi_process_create] puts together the pool of processes, the clients of
    the serial and IPC servers ([Ipc]) and the environment ([Process]);
    [sel4osapi_process_spawn] starts the process and tells it where its
    environment is; [sel4osapi_process_delete] takes its blocks of memory back. *)

From Stdlib Require Import String.
From stdpp Require Import strings pretty.
From S2P Require Import Prelude Config Memory LinkedList Pool PoolSearch Sync Ipc Untyped Thread Process.

Record sel4osapi_process_t (P : Type) := MkProcess {
  pr_native : sel4utils_process_t P;
  pr_env_page : Z;                        (* address of the page [pr_env] *)
  pr_env : sel4osapi_process_env_t;
  pr_env_remote_vaddr : Z;
  pr_parent_idling_aep : Z;
  pr_ipcclient : ptr;
  pr_serialclient : ptr
}.
Arguments MkProcess {P} _ _ _ _ _ _ _.
Arguments pr_native {P} _.
Arguments pr_env_page {P} _.
Arguments pr_env {P} _.
Arguments pr_env_remote_vaddr {P} _.
Arguments pr_parent_idling_aep {P} _.
Arguments pr_ipcclient {P} _.
Arguments pr_serialclient {P} _.

(** A message on an endpoint: endpoint, label, words. *)
Record ipc_message := IpcMessage { im_endpoint : Z; im_label : Z; im_words : list Z }.
Definition seL4_Fault_NullFault : Z := 0.

Class SpawnLib (K P : Type) := {
  CONFIG_MAX_NUM_BOOTINFO_UNTYPED_CAPS : nat;
  sel4utils_configure_process_custom : string -> Z -> K -> (Z * sel4utils_process_t P) * K;   (* image, priority *)
  sel4utils_spawn_process_v : sel4utils_process_t P -> list (list Z) -> K -> (Z * P) * K;     (* arguments *)
  sel4utils_destroy_process : sel4utils_process_t P -> K -> K;
  vspace_unmap_page : Z -> P * K -> P * K
}.

Class Endpoints (K : Type) := {
  seL4_Send : ipc_message -> K -> K;
  seL4_Recv : Z -> K -> ipc_message * K
}.

(** A page of zeros read as an environment. *)
Definition blank_env (n : nat) : sel4osapi_process_env_t :=
  ProcessEnv (replicate (Z.to_nat SEL4OSAPI_USER_PROCESS_NAME_MAX_LEN) 0) 0 0 0 0 0 (0, 0) (zero_env n) 0 0 0 NULL 0
    (IpcClient 0 NULL NULL 0 0 0 0) 0 (SerialClient 0 NULL 0 0 0).

Section spawn_c.
Context {CFG : Config} {K P : Type} {OBJ : SyncObjects K} {ROOT : RootEnv K} {CSP : ProcessCSpace P}.
Context {LIB : ProcessLib K P} {SPAWN : SpawnLib K P} {EP : Endpoints K}.

(** Of sel4osapi_system_t; the root task is in [ipc_env]. *)
Record system_state := SystemState {
  sy_processes : pool_state (sel4osapi_process_t P);
  sy_table : untyped_table;
  sy_ipc : ipc_state K;
  sy_serial_clients : pool_state sel4osapi_serialclient_t;
  sy_serial_ep : Z;
  sy_sysclock_ep : Z;
  sy_stack_op_ep : Z
}.

Definition set_processes p (s : system_state) :=
  SystemState p (sy_table s) (sy_ipc s) (sy_serial_clients s) (sy_serial_ep s) (sy_sysclock_ep s) (sy_stack_op_ep s).
Definition set_table t (s : system_state) :=
  SystemState (sy_processes s) t (sy_ipc s) (sy_serial_clients s) (sy_serial_ep s) (sy_sysclock_ep s) (sy_stack_op_ep s).
Definition set_ipc i (s : system_state) :=
  SystemState (sy_processes s) (sy_table s) i (sy_serial_clients s) (sy_serial_ep s) (sy_sysclock_ep s) (sy_stack_op_ep s).
Definition set_serial_clients p (s : system_state) :=
  SystemState (sy_processes s) (sy_table s) (sy_ipc s) p (sy_serial_ep s) (sy_sysclock_ep s) (sy_stack_op_ep s).

Definition on_processes {A} (m : M (pool_state (sel4osapi_process_t P)) A) : M system_state A := zoom sy_processes set_processes m.
Definition on_ipc {A} (m : M (ipc_state K) A) : M system_state A := zoom sy_ipc set_ipc m.
Definition on_serial {A} (m : M (pool_state sel4osapi_serialclient_t) A) : M system_state A :=
  zoom sy_serial_clients set_serial_clients m.
Definition on_kern {A} (m : M K A) : M system_state A := on_ipc (on_ipc_env m).
Definition kern_call {A} (f : K -> A * K) : M system_state A := on_kern (fun k => Done (f k)).
Definition kern_do (f : K -> K) : M system_state unit := on_kern (modify f).
Definition upd_process (p : ptr) (f : sel4osapi_process_t P -> sel4osapi_process_t P) : M system_state unit :=
  on_processes (pool_upd p f).
Definition read_process (p : ptr) : M system_state (sel4osapi_process_t P) := on_processes (on_mem (read_cell p)).

(** Assignments to fields. *)
Definition pr_set_env_page a (p : sel4osapi_process_t P) :=
  MkProcess (pr_native p) a (blank_env CONFIG_MAX_NUM_BOOTINFO_UNTYPED_CAPS) (pr_env_remote_vaddr p) (pr_parent_idling_aep p)
    (pr_ipcclient p) (pr_serialclient p).
Definition pr_set_native (n : sel4utils_process_t P) (p : sel4osapi_process_t P) :=
  MkProcess n (pr_env_page p) (pr_env p) (pr_env_remote_vaddr p) (pr_parent_idling_aep p) (pr_ipcclient p) (pr_serialclient p).
Definition pr_set_spaces (q : P) (p : sel4osapi_process_t P) :=
  pr_set_native (NativeProcess (np_pd (pr_native p)) (np_tcb (pr_native p)) (np_fault_endpoint (pr_native p)) q) p.
Definition pr_set_env e (p : sel4osapi_process_t P) :=
  MkProcess (pr_native p) (pr_env_page p) e (pr_env_remote_vaddr p) (pr_parent_idling_aep p) (pr_ipcclient p) (pr_serialclient p).
Definition pr_set_idling a (p : sel4osapi_process_t P) :=
  MkProcess (pr_native p) (pr_env_page p) (pr_env p) (pr_env_remote_vaddr p) a (pr_ipcclient p) (pr_serialclient p).
Definition pr_set_ipcclient c (p : sel4osapi_process_t P) :=
  MkProcess (pr_native p) (pr_env_page p) (pr_env p) (pr_env_remote_vaddr p) (pr_parent_idling_aep p) c (pr_serialclient p).
Definition pr_set_serialclient c (p : sel4osapi_process_t P) :=
  MkProcess (pr_native p) (pr_env_page p) (pr_env p) (pr_env_remote_vaddr p) (pr_parent_idling_aep p) (pr_ipcclient p) c.

(** io.c: as in [Serial], with the address of the buffer. *)
Definition sel4osapi_io_serial_create_client : M system_state ptr :=
  let! client := on_serial simple_pool_alloc in
  assert_ (non_null client) ;;
  let! n := on_serial simple_pool_get_current_size in
  let! avail := on_kern (semaphore_create 1) in
  assert_ (non_null avail) ;;
  let! buf := kern_call (vspace_new_pages SEL4OSAPI_SERIAL_BUF_PAGES) in
  assert_ (negb (buf =? 0)) ;;
  let! s := get in
  on_serial (pool_upd client (fun _ => SerialClient n avail buf SEL4OSAPI_SERIAL_BUF_SIZE (sy_serial_ep s))) ;;
  ret client.

(** Code on the environment of a process: [Process] works on the table, the
    process and the root task. *)
Definition on_init {A} (process : ptr) (m : M (init_state K P) A) : M system_state A :=
  let! p := read_process process in
  let! s := get in
  let! r := peek (InitState (ProcState (sy_table s) (pe_untypeds (pr_env p)) (np_spaces (pr_native p))) (ipc_env (sy_ipc s)))
    (let! a := m in let! t := get in ret (a, t)) in
  modify (set_table (table (is_proc r.2))) ;;
  modify (fun s => set_ipc (set_ipc_env (is_root r.2) (sy_ipc s)) s) ;;
  upd_process process (pr_set_spaces (native (is_proc r.2))) ;;
  ret r.1.

Definition sel4osapi_process_create (process_name : string) (priority : Z) : M system_state ptr :=
  let! process := on_processes simple_pool_alloc in
  if negb (non_null process) then ret NULL else
  let! pid := on_processes simple_pool_get_current_size in
  let! page := kern_call (vspace_new_pages 1) in
  upd_process process (pr_set_env_page page) ;;
  let! native := kern_call (sel4utils_configure_process_custom process_name priority) in
  upd_process process (pr_set_native native.2) ;;
  assert_ (native.1 =? 0) ;;
  let! serialclient := sel4osapi_io_serial_create_client in
  upd_process process (pr_set_serialclient serialclient) ;;
  assert_ (non_null serialclient) ;;
  let! ipcclient := on_ipc (sel4osapi_ipc_create_client pid) in
  upd_process process (pr_set_ipcclient ipcclient) ;;
  assert_ (non_null ipcclient) ;;
  let! ipc := on_ipc (on_ipc_clients (on_mem (read_cell ipcclient))) in
  let! serial := on_serial (on_mem (read_cell serialclient)) in
  let! p := read_process process in
  let! s := get in
  (if page =? 0 then wild else ret tt) ;;
  let! r := on_init process (sel4osapi_process_init_env (pr_native p) (pr_env p) pid process_name priority ipc serial
    (sy_sysclock_ep s) (sy_stack_op_ep s)) in
  upd_process process (pr_set_env r.1.2) ;;
  upd_process process (pr_set_idling r.2) ;;
  assert_ (r.1.1 =? 0) ;;
  ret process.

(** The structure stays in the pool; the page is unmapped at an address that was
    never assigned. *)
Definition sel4osapi_process_delete (process : ptr) : M system_state unit :=
  let! p := read_process process in
  let! s := get in
  let r := vspace_unmap_page (pr_env_remote_vaddr p) (np_spaces (pr_native p), ipc_env (sy_ipc s)) in
  upd_process process (pr_set_spaces r.1) ;;
  modify (fun s => set_ipc (set_ipc_env r.2 (sy_ipc s)) s) ;;
  on_init process (on_proc delete_untypeds) ;;
  let! p := read_process process in
  kern_do (sel4utils_destroy_process (pr_native p)).

(** "%d" of a word *)
Definition decimal (w : Z) : string := pretty (s32 w).

(** The text in a buffer, up to the terminator. *)
Fixpoint c_string (bs : list Z) : list Z :=
  match bs with
  | [] => []
  | b :: bs => if b =? 0 then [] else b :: c_string bs
  end.

(** snprintf of a text that is in a buffer *)
Definition snprintf_copy (max : Z) (bs : list Z) : list Z := take (Z.to_nat (max - 1)) (c_string bs) ++ [0].

Definition spawn_argv (env : sel4osapi_process_env_t) : list (list Z) :=
  [snprintf_copy SEL4OSAPI_USER_PROCESS_NAME_MAX_LEN (pe_name env);
   snprintf_bytes 10 (decimal (pe_pid env));
   snprintf_bytes 10 (decimal (pe_fault_endpoint env))].

Definition sel4osapi_process_spawn (process : ptr) : M system_state unit :=
  let! p := read_process process in
  let! r := kern_call (sel4utils_spawn_process_v (pr_native p) (spawn_argv (pr_env p))) in
  upd_process process (pr_set_spaces r.2) ;;
  assert_ (r.1 =? 0) ;;
  let! s := get in
  let process_data_frame := vspace_get_cap (pr_env_page p) (ipc_env (sy_ipc s)) in
  let! copy := on_init process (sel4osapi_util_copy_cap process_data_frame) in
  let! vaddr := on_init process (map_pages [copy] 1) in
  assert_ (negb (vaddr =? 0)) ;;
  kern_do (seL4_Send (IpcMessage (np_fault_endpoint (pr_native p)) seL4_Fault_NullFault [vaddr])).

(** Its message is a fault or what [sel4osapi_process_signal_root] sends. *)
Definition sel4osapi_process_join (process : ptr) : M system_state Z :=
  let! p := read_process process in
  let! m := kern_call (seL4_Recv (np_fault_endpoint (pr_native p))) in
  ret (im_label m).

(** In the process; it idles afterwards. *)
Definition sel4osapi_process_signal_root (env : sel4osapi_process_env_t) (exit_code : Z) : ipc_message :=
  IpcMessage (pe_fault_endpoint env) seL4_Fault_NullFault [u32 exit_code].
End spawn_c.
Arguments system_state K P : clear implicits.

(** ** What is used of the libraries together

    - creating a semaphore, or a page, takes a bounded number of slots;
    - the regions of the root task's address space do not overlap, and every page
      has a capability, to a frame of its own;
    - a process can be configured when there is room: its CSpace has its first free
      slot at [new_process_slot] and space for [new_process_pages] pages; that maps
      nothing in the root task;
    - filling in an environment makes one kernel object, and does not touch the
      mutexes, the semaphores and the address space of the root task. *)
Record untouched {K : Type} `{RootEnvOk K} (n : nat) (k k' : K) : Prop := {
  un_inv : objects_inv k -> objects_inv k';
  un_objects : (objects_left (objects_of k) - n <= objects_left (objects_of k'))%nat;
  un_mapped : mapped k' = mapped k;
  un_pages : pages_left k' = pages_left k
}.

#[export] Instance untouched_graded {K : Type} `{RootEnvOk K} : Graded untouched.
Proof.
  split; [intros k; split; try done; lia|]. intros n1 n2 k1 k2 k3 [] [].
  split; [auto|lia|congruence..].
Qed.

Class SpawnLibOk (K P : Type) `{RootEnvOk K} `{ProcessCSpaceOk P} `{!ProcessLib K P} `{!ProcessLibOk K P} `{!SpawnLib K P} := {
  object_cost : nat;
  page_cost : nat;
  configure_cost : nat;
  new_process_slot : Z;
  new_process_pages : Z;
  sp_semaphore_root n k r k' : semaphore_create n k = Done (r, k') -> extends object_cost (root_of k) (root_of k');
  sp_pages_root n k : extends (Z.to_nat n * page_cost) (root_of k) (root_of (vspace_new_pages n k).2);
  sp_mapped_pages k r (i : nat) : objects_inv k -> r ∈ mapped k -> Z.of_nat i * PAGE_SIZE_4K < r.2 ->
    is_Some (page_caps (root_of k) !! (r.1 + Z.of_nat i * PAGE_SIZE_4K));
  sp_configure_ok name prio k : (configure_cost <= slots_left (root_of k))%nat ->
    let r := sel4utils_configure_process_custom name prio k in
    r.1.1 = 0 /\ next_free (np_spaces r.1.2) = new_process_slot /\ pages_free (np_spaces r.1.2) = new_process_pages /\
    mapped r.2 = mapped k /\ pages_left r.2 = pages_left k /\ objects_of r.2 = objects_of k /\ (objects_inv k -> objects_inv r.2) /\
    extends configure_cost (root_of k) (root_of r.2);
  sp_op_untouched k n k' : process_op k n k' -> untouched n k k';
  sp_frames a1 a2 c1 c2 o k : objects_inv k -> page_caps (root_of k) !! a1 = Some c1 -> page_caps (root_of k) !! a2 = Some c2 ->
    object_of (root_of k) c1 = Some o -> object_of (root_of k) c2 = Some o -> a1 = a2;
  sp_apart k : objects_inv k -> ForallOrdPairs apart (mapped k)
}.

Section spawn_spec.
Context {CFG : Config} {K P : Type} {OBJ : SyncObjects K} {OOK : SyncObjectsOk K} {ROOT : RootEnv K} {ROK : RootEnvOk K}.
Context {CSP : ProcessCSpace P} {COK : ProcessCSpaceOk P} {LIB : ProcessLib K P} {LOK : ProcessLibOk K P}.
Context {SPAWN : SpawnLib K P} {SOK : SpawnLibOk K P}.
Implicit Types (s : system_state K P) (k : K) (vs : list (sel4osapi_process_t P)) (v : sel4osapi_process_t P).
Implicit Types (free busy : list (loc * loc)) (sers : list sel4osapi_serialclient_t).

Definition set_kern k s : system_state K P := set_ipc (set_ipc_env k (sy_ipc s)) s.
Definition kern s : K := ipc_env (sy_ipc s).

Lemma wp_on_kern {A} (m : M K A) (Q : A -> system_state K P -> Prop) s :
  wp m (fun a k => Q a (set_kern k s)) (kern s) -> wp (on_kern m) Q s.
Proof. intros H. unfold on_kern, on_ipc, on_ipc_env. apply wp_zoom, wp_zoom. exact H. Qed.

Lemma wp_kern_call {A} (f : K -> A * K) (Q : A -> system_state K P -> Prop) s :
  Q (f (kern s)).1 (set_kern (f (kern s)).2 s) -> wp (kern_call f) Q s.
Proof. intros HQ. apply wp_on_kern. eexists _, _. split; [apply (f_equal Done), surjective_pairing|exact HQ]. Qed.

Lemma wp_upd_process s free busy vs j x v f (Q : unit -> system_state K P -> Prop) :
  holds (sy_processes s) free busy (<[j := v]> vs) -> busy !! j = Some x ->
  (forall p, holds p free busy (<[j := f v]> vs) -> Q tt (set_processes p s)) -> wp (upd_process (Some x.2) f) Q s.
Proof. intros R Hx HQ. unfold upd_process, on_processes. apply wp_zoom. eapply holds_upd; [done..|]. exact HQ. Qed.

Lemma wp_read_process s free busy vs j x v (Q : _ -> system_state K P -> Prop) :
  holds (sy_processes s) free busy (<[j := v]> vs) -> busy !! j = Some x -> Q v s -> wp (read_process (Some x.2)) Q s.
Proof.
  intros R Hx HQ. destruct (holds_length _ _ _ _ R) as (Hl & _). rewrite length_insert in Hl.
  unfold read_process, on_processes. apply wp_zoom.
  eapply holds_read; [done|done|apply list_lookup_insert_eq; apply lookup_lt_Some in Hx; lia|]. by destruct s.
Qed.

(** The state [Process] works on, for the process [v], and the state afterwards. *)
Definition init_of s v : init_state K P := InitState (ProcState (sy_table s) (pe_untypeds (pr_env v)) (np_spaces (pr_native v))) (kern s).

Lemma wp_on_init {A} s free busy vs j x v (m : M (init_state K P) A) (Q : A -> system_state K P -> Prop) :
  holds (sy_processes s) free busy (<[j := v]> vs) -> busy !! j = Some x ->
  wp m (fun a t => forall p, holds p free busy (<[j := pr_set_spaces (native (is_proc t)) v]> vs) ->
    Q a (set_processes p (set_kern (is_root t) (set_table (table (is_proc t)) s)))) (init_of s v) ->
  wp (on_init (Some x.2) m) Q s.
Proof.
  intros R Hx (a & t & Hm & HQ). unfold on_init. wp_step. eapply wp_read_process; [done..|]. wp_steps.
  apply wp_peek. wp_step. eapply wp_eq; [exact Hm|]. wp_steps. cbn [fst snd].
  eapply wp_upd_process; [exact R|exact Hx|]. intros p R'. wp_step. by apply HQ.
Qed.

(** *** Steps of the root task *)

(** From [k] to [k'] at most [o] objects, exactly [pg] pages and at most [n] slots
    were taken. *)
Record took (o : nat) (pg : Z) (n : nat) k k' : Prop := Took {
  tk_inv : objects_inv k';
  tk_objects : (objects_left (objects_of k) - o <= objects_left (objects_of k'))%nat;
  tk_pages : pages_left k' = pages_left k - pg;
  tk_root : reaches n (root_of k) (root_of k')
}.

Lemma took_trans o1 p1 n1 o2 p2 n2 k1 k2 k3 : took o1 p1 n1 k1 k2 -> took o2 p2 n2 k2 k3 ->
  took (o1 + o2) (p1 + p2) (n1 + n2) k1 k3.
Proof. intros [H1 H2 H3 H4] [H5 H6 H7 H8]. split; [done|lia|lia|by eapply reaches_trans]. Qed.

Lemma took_untouched o pg n m l k1 k2 k3 : took o pg n k1 k2 -> untouched m k2 k3 -> reaches l (root_of k2) (root_of k3) ->
  took (o + m) pg (n + l) k1 k3.
Proof. intros [H1 H2 H3 H4] [G1 G2 _ G4] Hr. split; [auto|lia|lia|by eapply reaches_trans]. Qed.

Lemma took_semaphore k (Q : ptr -> K -> Prop) : objects_inv k -> (0 < objects_left (objects_of k))%nat ->
  (forall l k', took 1 0 object_cost k k' -> mapped k' = mapped k -> Q (Some l) k') -> wp (semaphore_create 1) Q k.
Proof.
  intros Hi Hl HQ. destruct (semaphore_create_ok 1 k Hi Hl) as (r & k' & Hr & Hi' & l & -> & _ & _ & _ & _ & Hle).
  destruct (semaphore_frame 1 k _ _ Hr) as [Hm Hp]. exists (Some l), k'. split; [done|]. apply HQ; [|done].
  split; [done|lia|lia|by eapply extends_reaches, sp_semaphore_root].
Qed.

Lemma took_pages n k : 0 < n <= pages_left k -> objects_inv k -> let r := vspace_new_pages n k in
  took 0 n (Z.to_nat n * page_cost) k r.2 /\ r.1 <> 0 /\ mapped r.2 = (r.1, n * PAGE_SIZE_4K) :: mapped k /\
  (ForallOrdPairs apart (mapped k) -> ForallOrdPairs apart (mapped r.2)).
Proof.
  intros Hn Hi. destruct (new_pages_ok n k Hn) as (H1 & H2 & Ha & H3 & H4 & H5). cbn.
  split_and!; [|done|done|rewrite H2; by constructor].
  split; [auto|by rewrite H4; lia|done|apply extends_reaches, sp_pages_root].
Qed.

Lemma took_configured name priority k : (configure_cost <= slots_left (root_of k))%nat -> objects_inv k ->
  let r := sel4utils_configure_process_custom name priority k in
  r.1.1 = 0 /\ next_free (np_spaces r.1.2) = new_process_slot /\ pages_free (np_spaces r.1.2) = new_process_pages /\
  mapped r.2 = mapped k /\ took 0 0 configure_cost k r.2.
Proof.
  intros Hs Hi. destruct (sp_configure_ok name priority k Hs) as (H1 & H2 & H3 & H4 & H5 & H6 & H7 & H8%extends_reaches).
  split_and!; try done. split; [auto|rewrite H6; lia|lia|done].
Qed.

(** *** Clients *)

Lemma wp_serial_create_client s free busy sers x :
  holds (sy_serial_clients s) (x :: free) busy sers -> objects_inv (kern s) ->
  (1 <= objects_left (objects_of (kern s)))%nat -> 1 <= pages_left (kern s) ->
  wp sel4osapi_io_serial_create_client (fun r s' => r = Some x.2 /\ exists ser p k',
    s' = set_serial_clients p (set_kern k' s) /\ holds p free (busy ++ [x]) (sers ++ [ser]) /\
    took 1 1 (object_cost + page_cost) (kern s) k' /\ mapped k' = (sl_buf ser, PAGE_SIZE_4K) :: mapped (kern s) /\
    sl_id ser = Z.of_nat (length sers) + 1 /\ sl_server_ep ser = sy_serial_ep s /\
    (ForallOrdPairs apart (mapped (kern s)) -> ForallOrdPairs apart (mapped k'))) s.
Proof.
  intros R Hi Ho Hp. unfold sel4osapi_io_serial_create_client, on_serial.
  wp_step. apply wp_zoom. eapply holds_alloc_last; [exact R|done|]. intros x' fr p v [= <- <-] Hx R1.
  wp_step. apply wp_assert; [done|]. wp_step. apply wp_zoom. cbn [sy_serial_clients set_serial_clients].
  eapply holds_size; [exact R1|]. rewrite length_insert, length_app. cbn [length].
  wp_step. apply wp_on_kern. apply took_semaphore; [done|done|]. intros l k1 T1 Hm1.
  change (kern (set_serial_clients p (set_serial_clients p s))) with (kern s) in T1, Hm1. pose proof (tk_pages _ _ _ _ _ T1).
  wp_step. apply wp_assert; [done|]. wp_step. apply wp_kern_call.
  destruct (took_pages SEL4OSAPI_SERIAL_BUF_PAGES k1) as (T2 & Hb & Hm2 & Ha2);
    [unfold SEL4OSAPI_SERIAL_BUF_PAGES; lia|apply T1|].
  change (kern (set_kern k1 (set_serial_clients p (set_serial_clients p s)))) with k1.
  set (r := vspace_new_pages SEL4OSAPI_SERIAL_BUF_PAGES k1) in *.
  wp_step. apply wp_assert; [by rewrite (proj2 (Z.eqb_neq _ _) Hb)|]. wp_steps. eapply holds_upd; [exact R1|exact Hx|].
  intros p2 R2. wp_steps. split; [done|]. rewrite insert_last in R2. eexists _, p2, r.2. split; [reflexivity|].
  split; [exact R2|]. cbn [sl_buf sl_id sl_server_ep]. split_and!; [|by rewrite Hm2, Hm1|lia|done|by rewrite <- Hm1].
  pose proof (took_trans _ _ _ _ _ _ _ _ _ T1 T2) as T. unfold SEL4OSAPI_SERIAL_BUF_PAGES in T.
  change (Z.to_nat 1) with 1%nat in T. by rewrite Nat.mul_1_l in T.
Qed.

Lemma wlp_on_ipc_clients {A} (m : M (pool_state sel4osapi_ipcclient_t) A) (Q : A -> ipc_state K -> Prop) i :
  (forall a p, Q a (set_ipc_clients p i)) -> wlp (on_ipc_clients m) Q i.
Proof. intros HQ. unfold on_ipc_clients. apply wlp_zoom. intros a p _. apply HQ. Qed.

Lemma wlp_ipc_semaphore n (Q : ptr -> ipc_state K -> Prop) i :
  (forall a k, extends object_cost (root_of (ipc_env i)) (root_of k) -> Q a (set_ipc_env k i)) ->
  wlp (on_ipc_env (semaphore_create n)) Q i.
Proof. intros HQ. unfold on_ipc_env. apply wlp_zoom. intros a k Hk. apply HQ. by eapply sp_semaphore_root. Qed.

Lemma wlp_ipc_pages n (Q : Z -> ipc_state K -> Prop) i :
  (forall a k, extends (Z.to_nat n * page_cost) (root_of (ipc_env i)) (root_of k) -> Q a (set_ipc_env k i)) ->
  wlp (ipc_call (vspace_new_pages n)) Q i.
Proof.
  intros HQ. unfold ipc_call, on_ipc_env. apply wlp_zoom. intros a k [= Hr]. apply HQ.
  pose proof (sp_pages_root n (ipc_env i)) as He. by rewrite Hr in He.
Qed.

Definition ipc_slots : nat :=
  object_cost + object_cost + Z.to_nat SEL4OSAPI_PROCESS_RX_BUF_PAGES * page_cost + Z.to_nat SEL4OSAPI_PROCESS_TX_BUF_PAGES * page_cost.

Lemma ipc_create_root id i :
  wlp (sel4osapi_ipc_create_client id) (fun _ i' => extends ipc_slots (root_of (ipc_env i)) (root_of (ipc_env i'))) i.
Proof.
  unfold sel4osapi_ipc_create_client. wlp_step. wlp_step. wlp_step. apply wlp_on_ipc_clients. intros client p1.
  wlp_step. wlp_step. wlp_step. apply wlp_on_ipc_clients. intros [] p2. wlp_step. apply wlp_ipc_semaphore. intros l1 k1 E1.
  wlp_step. apply wlp_on_ipc_clients. intros [] p3. wlp_step. wlp_step. wlp_step. apply wlp_ipc_semaphore. intros l2 k2 E2.
  wlp_step. apply wlp_on_ipc_clients. intros [] p4. wlp_step. wlp_step. wlp_step. apply wlp_ipc_pages. intros b1 k3 E3.
  wlp_step. wlp_step. wlp_step. apply wlp_on_ipc_clients. intros [] p5. wlp_step. apply wlp_ipc_pages. intros b2 k4 E4.
  wlp_step. wlp_step. wlp_step. apply wlp_on_ipc_clients. intros [] p6. wlp_step.
  exact (extends_trans _ _ _ _ _ (extends_trans _ _ _ _ _ (extends_trans _ _ _ _ _ E1 E2) E3) E4).
Qed.

Lemma wp_create_ipcclient id s x free busy cs :
  holds (ipc_clients (sy_ipc s)) (x :: free) busy cs -> 0 <= id -> buf_config -> objects_inv (kern s) ->
  (2 <= objects_left (objects_of (kern s)))%nat -> buf_pages <= pages_left (kern s) ->
  wp (on_ipc (sel4osapi_ipc_create_client id)) (fun r s' => r = Some x.2 /\ exists c i,
    s' = set_ipc i s /\ holds (ipc_clients i) free (busy ++ [x]) (cs ++ [c]) /\ ic_id c = id /\
    took 2 buf_pages ipc_slots (kern s) (ipc_env i) /\ mapped (ipc_env i) = regions c ++ mapped (kern s) /\
    (ForallOrdPairs apart (mapped (kern s)) -> ForallOrdPairs apart (mapped (ipc_env i)))) s.
Proof.
  intros R Hid Hcfg Hi Ho Hp. unfold on_ipc. apply wp_zoom. eapply wp_mono.
  { apply wp_wlp; [by apply (wp_ipc_create_client id (sy_ipc s) x free busy cs)|apply ipc_create_root]. }
  intros r i ((-> & c & R' & Hcid & _ & Hm & Hpg & _ & Hinv & _ & Hl & Hap) & He%extends_reaches). split; [done|]. exists c, i.
  split_and!; try done.
Qed.

(** *** Creating a process *)

Lemma region_mapped k buf n : objects_inv k -> (buf, Z.of_nat n * PAGE_SIZE_4K) ∈ mapped k -> mapped_pages (root_of k) buf (seq 0 n).
Proof.
  intros Hinv Hin. apply Forall_forall. intros i [_ Hi]%elem_of_seq. apply (sp_mapped_pages k _ i Hinv Hin). cbn. unfold PAGE_SIZE_4K. lia.
Qed.

Definition create_slots (rx tx : nat) : nat :=
  page_cost + configure_cost + (object_cost + page_cost + ipc_slots) + env_slots rx tx.

(** Constants under which a process fits; [n]: blocks in the table. *)
Record spawn_sizes (rx tx n : nat) : Prop := {
  sz_caps : (n <= CONFIG_MAX_NUM_BOOTINFO_UNTYPED_CAPS)%nat;
  sz_limit : is_u32 SEL4OSAPI_USER_PROCESS_UNTYPED_MEM_SIZE;
  sz_rx : SEL4OSAPI_PROCESS_RX_BUF_PAGES = Z.of_nat rx;
  sz_tx : SEL4OSAPI_PROCESS_TX_BUF_PAGES = Z.of_nat tx;
  sz_le : (0 < rx <= tx)%nat;
  sz_bufs : buf_config;
  sz_base : 0 < cslot_base /\ 0 < new_process_slot /\ cspace_end <= 2 ^ 32;
  sz_cspace : new_process_slot + Z.of_nat n + 8 <= cspace_end;
  sz_space : 2 * Z.of_nat rx + 1 <= new_process_pages
}.

Lemma spawn_sizes_le rx tx n m : spawn_sizes rx tx n -> (m <= n)%nat -> spawn_sizes rx tx m.
Proof. intros [] Hle. split; try done; lia. Qed.

(** A root task with room for one more process: a structure, a client of each
    server, memory, capabilities. *)
Record create_ready s x free busy vs xi ifree ibusy cs xs sfree sbusy sers blocks owners (rx tx : nat) : Prop := {
  rd_processes : holds (sy_processes s) (x :: free) busy vs;
  rd_ipc : holds (ipc_clients (sy_ipc s)) (xi :: ifree) ibusy cs;
  rd_serial : holds (sy_serial_clients s) (xs :: sfree) sbusy sers;
  rd_table : table_rep (sy_table s) blocks owners;
  rd_pid : Z.of_nat (length vs) + 1 < 256;
  rd_sizes : spawn_sizes rx tx (length owners);
  rd_inv : objects_inv (kern s);
  rd_objects : (3 <= objects_left (objects_of (kern s)))%nat;
  rd_pages : 2 + buf_pages <= pages_left (kern s);
  rd_slots : (create_slots rx tx <= slots_left (root_of (kern s)))%nat
}.

(** The state is [t], up to computation. *)
Ltac state_is t := match goal with |- wp ?m ?Q _ => change (wp m Q t) end.

(** The clients of the two servers, for the process in [x]. *)
Lemma wp_process_clients {A} pid s x free busy vs v xi ifree ibusy cs xs sfree sbusy sers j (rest : ptr -> ptr -> M (system_state K P) A) Q :
  holds (sy_processes s) free busy (<[j := v]> vs) -> busy !! j = Some x ->
  holds (ipc_clients (sy_ipc s)) (xi :: ifree) ibusy cs -> holds (sy_serial_clients s) (xs :: sfree) sbusy sers ->
  0 <= pid -> buf_config -> objects_inv (kern s) -> (3 <= objects_left (objects_of (kern s)))%nat -> 1 + buf_pages <= pages_left (kern s) ->
  0 <= buf_pages ->
  (forall p i ps c ser, let s' := set_processes p (set_ipc i (set_serial_clients ps s)) in
     holds p free busy (<[j := pr_set_ipcclient (Some xi.2) (pr_set_serialclient (Some xs.2) v)]> vs) ->
     holds (ipc_clients i) ifree (ibusy ++ [xi]) (cs ++ [c]) -> holds ps sfree (sbusy ++ [xs]) (sers ++ [ser]) -> ic_id c = pid ->
     took 3 (1 + buf_pages) (object_cost + page_cost + ipc_slots) (kern s) (kern s') ->
     mapped (kern s') = regions c ++ (sl_buf ser, PAGE_SIZE_4K) :: mapped (kern s) ->
     (ForallOrdPairs apart (mapped (kern s)) -> ForallOrdPairs apart (mapped (kern s'))) ->
     wp (rest (Some xs.2) (Some xi.2)) Q s') ->
  wp (let! serialclient := sel4osapi_io_serial_create_client in
      upd_process (Some x.2) (pr_set_serialclient serialclient) ;;
      assert_ (non_null serialclient) ;;
      let! ipcclient := on_ipc (sel4osapi_ipc_create_client pid) in
      upd_process (Some x.2) (pr_set_ipcclient ipcclient) ;;
      assert_ (non_null ipcclient) ;;
      rest serialclient ipcclient) Q s.
Proof.
  intros Rp Hx Ri Rs Hpid Hcfg Hinv Hobj Hpg Hbp HQ. wp_step.
  eapply wp_mono; [apply (wp_serial_create_client s sfree sbusy sers xs Rs); [done|lia|lia]|].
  intros ? ? (-> & ser & ps & k1 & -> & Rs1 & T1 & Hm1 & _ & _ & Ha1). pose proof (tk_pages _ _ _ _ _ T1). pose proof (tk_objects _ _ _ _ _ T1).
  wp_step. eapply wp_upd_process; [exact Rp|exact Hx|]. intros p1 R1. wp_step. apply wp_assert; [done|].
  set (s1 := set_serial_clients ps (set_processes p1 (set_kern k1 s))). state_is s1. wp_step.
  eapply wp_mono; [apply (wp_create_ipcclient pid s1 xi ifree ibusy cs Ri); change (kern s1) with k1; [done|done|apply T1|lia|lia]|].
  change (kern s1) with k1. intros ? ? (-> & c & i & -> & Rc & Hcid & T2 & Hm2 & Ha2).
  wp_step. eapply wp_upd_process; [exact R1|exact Hx|]. intros p2 R2. wp_step. apply wp_assert; [done|].
  apply (HQ p2 i ps c ser R2 Rc Rs1 Hcid); [|by rewrite <- Hm1|by intros Ha; apply Ha2, Ha1].
  exact (took_trans _ _ _ _ _ _ _ _ _ T1 T2).
Qed.

(** What [Process] needs to fill in the environment of the new process [v]. *)
Lemma env_ready_new s x free busy vs xi ifree ibusy cs xs sfree sbusy sers blocks owners rx tx s' v c ser rest :
  create_ready s x free busy vs xi ifree ibusy cs xs sfree sbusy sers blocks owners rx tx ->
  sy_table s' = sy_table s -> pe_untypeds (pr_env v) = zero_env CONFIG_MAX_NUM_BOOTINFO_UNTYPED_CAPS ->
  next_free (np_spaces (pr_native v)) = new_process_slot -> pages_free (np_spaces (pr_native v)) = new_process_pages ->
  objects_inv (kern s') -> mapped (kern s') = regions c ++ (sl_buf ser, PAGE_SIZE_4K) :: rest ->
  (env_slots rx tx <= slots_left (root_of (kern s')))%nat ->
  env_ready (Z.of_nat (length vs) + 1) c ser rx tx blocks owners (init_of s' v).
Proof.
  intros [_ _ _ Htab Hpid [Hfits Hlim Hrx Htx Hle _ [Hbase [Hslot Hend]] Hcsp Hspc] _ _ _ _] Ht He Hnf Hpf Hinv Hm Hsl.
  assert (Hbuf : forall buf n, (buf, Z.of_nat n * PAGE_SIZE_4K) ∈ regions c ++ (sl_buf ser, PAGE_SIZE_4K) :: rest ->
    mapped_pages (root_of (kern s')) buf (seq 0 n)) by (intros buf n Hin; apply region_mapped; [done|by rewrite Hm]).
  split; try done; cbn [is_proc is_root init_of native table penv]; try lia.
  - split; cbn [native table penv]; try done; try lia; [by rewrite Ht|rewrite He; cbn; by rewrite length_replicate..|by rewrite He].
  - apply Hbuf. rewrite <- Hrx. apply elem_of_app. left. unfold regions. set_solver.
  - apply Hbuf. rewrite <- Htx. apply elem_of_app. left. unfold regions. set_solver.
  - apply (Hbuf _ 1%nat), elem_of_app. right. apply list_elem_of_here.
Qed.

(** The environment of the process [v] in [x] is filled in. *)
Lemma wp_process_environment s x free busy vs v j pid name priority c ser rx tx blocks owners (Q : ptr -> system_state K P -> Prop) :
  holds (sy_processes s) free busy (<[j := v]> vs) -> busy !! j = Some x ->
  env_ready pid c ser rx tx blocks owners (init_of s v) ->
  (forall e aep sp p k t, let v' := pr_set_idling aep (pr_set_env e (pr_set_spaces sp v)) in
     holds p free busy (<[j := v']> vs) ->
     env_made pid name priority (given_caps (pr_native v)) c ser (sy_sysclock_ep s) (sy_stack_op_ep s) aep rx e (root_of k) sp ->
     table_rep t blocks (give pid (claimed owners) owners) ->
     blocks_at sp pid (next_free (np_spaces (pr_native v)) + 2) blocks (claimed owners) ->
     env_after (pe_untypeds e) (pe_untypeds (pr_env v)) (next_free (np_spaces (pr_native v)) + 2) (claimed owners) ->
     untouched 1 (kern s) k -> reaches (env_slots rx tx) (root_of (kern s)) (root_of k) ->
     Q (Some x.2) (set_processes p (set_kern k (set_table t s)))) ->
  wp (let! r := on_init (Some x.2) (sel4osapi_process_init_env (pr_native v) (pr_env v) pid name priority c ser
        (sy_sysclock_ep s) (sy_stack_op_ep s)) in
      upd_process (Some x.2) (pr_set_env r.1.2) ;;
      upd_process (Some x.2) (pr_set_idling r.2) ;;
      assert_ (r.1.1 =? 0) ;;
      ret (Some x.2)) Q s.
Proof.
  intros R Hx Hready HQ. wp_step. eapply wp_on_init; [exact R|exact Hx|]. eapply wp_mono.
  { apply wp_wlp; [exact (wp_process_init_env _ _ pid name priority c ser _ _ rx tx blocks owners _ Hready)|].
    apply (moves_init_env untouched). exact sp_op_untouched. }
  intros ? t ((e & aep & -> & Hmade & Htab & Hat & Henv & Hreach) & Hun) p R1. cbn [fst snd].
  wp_step. eapply wp_upd_process; [exact R1|exact Hx|]. intros p2 R2.
  wp_step. eapply wp_upd_process; [exact R2|exact Hx|]. intros p3 R3. wp_step. wp_step. wp_step.
  by apply (HQ e aep _ p3 _ _ R3 Hmade Htab Hat Henv Hun Hreach).
Qed.

(** The endpoints of the servers, which creating a process only reads. *)
Definition server_eps s : Z * Z * Z := (sy_sysclock_ep s, sy_stack_op_ep s, sy_serial_ep s).

(** What creating process [pid] does: [v] and its clients [c] and [ser]. *)
Record process_made pid name priority rx tx blocks owners s v c ser s' : Prop := {
  spn_took : took 4 (2 + buf_pages) (create_slots rx tx) (kern s) (kern s');
  spn_mapped : mapped (kern s') = regions c ++ (sl_buf ser, PAGE_SIZE_4K) :: (pr_env_page v, PAGE_SIZE_4K) :: mapped (kern s);
  spn_apart : ForallOrdPairs apart (mapped (kern s)) -> ForallOrdPairs apart (mapped (kern s'));
  spn_id : ic_id c = pid;
  spn_env : env_made pid name priority (given_caps (pr_native v)) c ser (sy_sysclock_ep s) (sy_stack_op_ep s) (pr_parent_idling_aep v) rx
    (pr_env v) (root_of (kern s')) (np_spaces (pr_native v));
  spn_table : table_rep (sy_table s') blocks (give pid (claimed owners) owners);
  spn_blocks : blocks_at (np_spaces (pr_native v)) pid (new_process_slot + 2) blocks (claimed owners);
  spn_untypeds : env_after (pe_untypeds (pr_env v)) (zero_env CONFIG_MAX_NUM_BOOTINFO_UNTYPED_CAPS) (new_process_slot + 2) (claimed owners);
  spn_endpoints : server_eps s' = server_eps s
}.

Lemma wp_process_create name priority s x free busy vs xi ifree ibusy cs xs sfree sbusy sers blocks owners rx tx :
  create_ready s x free busy vs xi ifree ibusy cs xs sfree sbusy sers blocks owners rx tx ->
  let pid := Z.of_nat (length vs) + 1 in
  wp (sel4osapi_process_create name priority) (fun r s' => r = Some x.2 /\ exists v c ser,
    holds (sy_processes s') free (busy ++ [x]) (vs ++ [v]) /\
    holds (ipc_clients (sy_ipc s')) ifree (ibusy ++ [xi]) (cs ++ [c]) /\ pr_ipcclient v = Some xi.2 /\
    holds (sy_serial_clients s') sfree (sbusy ++ [xs]) (sers ++ [ser]) /\ pr_serialclient v = Some xs.2 /\
    process_made pid name priority rx tx blocks owners s v c ser s') s.
Proof.
  intros Hready pid. pose proof Hready as [Rp Ri Rs _ _ [_ _ Hrx Htx Hle Hcfg _ _ _] Hinv Hobj Hpg Hsl].
  unfold sel4osapi_process_create, on_processes. unfold create_slots in Hsl.
  assert (Hbp : 0 <= buf_pages) by (unfold buf_pages; lia).
  wp_step. apply wp_zoom. eapply holds_alloc_last; [exact Rp|done|]. intros x' fr p0 v0 [= <- <-] Hx R0.
  change (non_null (Some x.2)) with true. cbn [negb]. wp_step. apply wp_zoom. eapply holds_size; [exact R0|].
  rewrite length_insert, length_app. cbn [length]. replace (Z.of_nat (length vs + 1)) with pid by (unfold pid; lia).
  state_is (set_processes p0 s). wp_step. apply wp_kern_call. change (kern (set_processes p0 s)) with (kern s).
  destruct (took_pages 1 (kern s)) as (T1 & Hpage & Hm1 & Ha1); [lia|done|]. cbn zeta in *.
  set (k1 := (vspace_new_pages 1 (kern s)).2) in *. set (page := (vspace_new_pages 1 (kern s)).1) in *.
  change (Z.to_nat 1) with 1%nat in T1. rewrite Nat.mul_1_l in T1. pose proof T1 as [I1 O1 P1 [_ L1]].
  wp_step. eapply wp_upd_process; [exact R0|exact Hx|]. intros p1 R1.
  state_is (set_processes p1 (set_kern k1 s)). wp_step. apply wp_kern_call. change (kern (set_processes p1 (set_kern k1 s))) with k1.
  destruct (took_configured name priority k1) as (Hc0 & Hnf & Hpf & Hm2 & T2); [lia|done|]. pose proof T2 as [I2 O2 P2 _].
  set (npr := (sel4utils_configure_process_custom name priority k1).1.2) in *.
  set (k2 := (sel4utils_configure_process_custom name priority k1).2) in *. rewrite Hc0.
  wp_step. eapply wp_upd_process; [exact R1|exact Hx|]. intros p2 R2. wp_step. apply wp_assert; [done|].
  set (s2 := set_processes p2 (set_kern k2 s)). state_is s2.
  eapply (wp_process_clients pid s2 x free (busy ++ [x]) (vs ++ [v0]) _ xi ifree ibusy cs xs sfree sbusy sers);
    change (kern s2) with k2; [exact R2|exact Hx|exact Ri|exact Rs|unfold pid; lia|done|done|lia|lia|done|].
  intros p3 i ps c ser s3 R3 Rc Rs3 Hcid T3 Hm3 Ha3.
  pose proof (took_trans _ _ _ _ _ _ _ _ _ (took_trans _ _ _ _ _ _ _ _ _ T1 T2) T3) as T. pose proof (tk_root _ _ _ _ _ T) as [_ L].
  wp_step. unfold on_ipc at 1, on_ipc_clients at 1. apply wp_zoom, wp_zoom. eapply holds_read_last; [exact Rc|].
  wp_step. unfold on_serial at 1. apply wp_zoom. eapply holds_read_last; [exact Rs3|].
  state_is (set_serial_clients ps (set_ipc (set_ipc_clients (ipc_clients i) i) s3)).
  wp_step. eapply wp_read_process; [exact R3|exact Hx|]. wp_step. wp_step. rewrite (proj2 (Z.eqb_neq _ _) Hpage). wp_step. wp_step.
  eapply (wp_process_environment _ x free (busy ++ [x]) (vs ++ [v0]) _ _ pid name priority c ser rx tx blocks owners); [exact R3|exact Hx| |].
  { eapply env_ready_new; [exact Hready|done|done|exact Hnf|exact Hpf|exact (tk_inv _ _ _ _ _ T3)|exact Hm3|].
    change (env_slots rx tx <= slots_left (root_of (kern s3)))%nat. lia. }
  intros e aep sp p4 k4 t v' R4 Hmade Htab Hat Henv Hun Hreach. split; [done|]. rewrite insert_last in R4.
  exists v', c, ser. do 5 (split; [done|]). pose proof (un_mapped _ _ _ Hun) as Hm4. rewrite Hm2, Hm1 in Hm3.
  split; try done.
  - replace (2 + buf_pages) with (1 + 0 + (1 + buf_pages)) by lia. exact (took_untouched _ _ _ _ _ _ _ _ T Hun Hreach).
  - exact (eq_trans Hm4 Hm3).
  - intros Hall. change (kern _) with k4. rewrite Hm4. apply Ha3. rewrite Hm2. by apply Ha1.
  - change v' with v'. by rewrite <- Hnf.
  - by rewrite <- Hnf.
Qed.

(** Without a free structure nothing happens. *)
Lemma wp_create_none name priority s busy vs : holds (sy_processes s) [] busy vs ->
  wp (sel4osapi_process_create name priority) (fun r s' => r = NULL /\ exists p, s' = set_processes p s /\ holds p [] busy vs) s.
Proof.
  intros R. unfold sel4osapi_process_create, on_processes.
  wp_step. apply wp_zoom. eapply holds_alloc; [exact R| |done]. intros _ p R'. change (non_null NULL) with false. cbn [negb].
  wp_step. split; [done|]. by exists p.
Qed.

(** Creating a process, up to the configured number of them, gives it the next
    pid, an IPC client with this pid whose buffers overlap nothing the root task
    had mapped, and an environment that is true of its CSpace and address space
    ([env_made]); the blocks it was given are marked with its pid.  When the pool
    of processes is exhausted the result is NULL and nothing else happens. *)
Theorem process_created name priority s x free busy vs xi ifree ibusy cs xs sfree sbusy sers blocks owners rx tx :
  create_ready s x free busy vs xi ifree ibusy cs xs sfree sbusy sers blocks owners rx tx ->
  let pid := Z.of_nat (length vs) + 1 in
  wp (sel4osapi_process_create name priority) (fun r s' => r = Some x.2 /\ exists v c ser,
    holds (sy_processes s') free (busy ++ [x]) (vs ++ [v]) /\
    holds (ipc_clients (sy_ipc s')) ifree (ibusy ++ [xi]) (cs ++ [c]) /\ ic_id c = pid /\ pr_ipcclient v = Some xi.2 /\
    (ForallOrdPairs apart (mapped (kern s)) ->
       ForallOrdPairs apart (regions c ++ (sl_buf ser, PAGE_SIZE_4K) :: (pr_env_page v, PAGE_SIZE_4K) :: mapped (kern s))) /\
    env_made pid name priority (given_caps (pr_native v)) c ser (sy_sysclock_ep s) (sy_stack_op_ep s) (pr_parent_idling_aep v) rx
      (pr_env v) (root_of (kern s')) (np_spaces (pr_native v)) /\
    table_rep (sy_table s') blocks (give pid (claimed owners) owners)) s /\
  (forall s0 busy0 vs0, holds (sy_processes s0) [] busy0 vs0 ->
    wp (sel4osapi_process_create name priority) (fun r s' => r = NULL /\ exists p, s' = set_processes p s0 /\ holds p [] busy0 vs0) s0).
Proof.
  intros Hready pid. split.
  { eapply wp_mono; [exact (wp_process_create name priority _ _ _ _ _ _ _ _ _ _ _ _ _ _ _ _ _ Hready)|].
    intros r s' (-> & v & c & ser & H1 & H2 & H3 & _ & _ & [_ Hm Ha Hid Henv Htab _ _ _]). split; [done|]. exists v, c, ser.
    rewrite <- Hm. by split_and!. }
  intros s0 busy0 vs0. apply wp_create_none.
Qed.
End spawn_spec.

(** ** A board to run examples on: the mutexes of [Sync] beside the root task of
    [Process]; pages are handed out upwards *)

Record board := Board { bd_sync : sync_state sync_view; bd_root : demo_root; bd_next : Z; bd_mapped : list (Z * Z); bd_pages : Z }.

Definition bd_objects {A} (m : M (sync_state sync_view) A) : M board A :=
  zoom bd_sync (fun o k => Board o (bd_root k) (bd_next k) (bd_mapped k) (bd_pages k)) m.
Definition bd_set_root (r : demo_root) (k : board) : board := Board (bd_sync k) r (bd_next k) (bd_mapped k) (bd_pages k).
Definition bd_call {A} (f : demo_root -> A * demo_root) (k : board) : A * board :=
  ((f (bd_root k)).1, bd_set_root (f (bd_root k)).2 k).

Definition add_page (a : Z) (k : demo_root) : demo_root :=
  DemoRoot (<[demo_root_slot k := (demo_root_slot k, true)]> (dr_caps k)) (dr_pages k ∪ {[a := demo_root_slot k]}) (dr_left k).
Fixpoint add_pages (n : nat) (a : Z) (k : demo_root) : demo_root :=
  match n with
  | O => k
  | S n => add_pages n (a + PAGE_SIZE_4K) (add_page a k)
  end.

(** Every page has a frame of its own: the capability it was made with names it. *)
Definition frames_ok (k : demo_root) : Prop :=
  map_Forall (fun _ c => fst <$> dr_caps k !! c = Some c) (dr_pages k) /\
  forall a1 a2 c, dr_pages k !! a1 = Some c -> dr_pages k !! a2 = Some c -> a1 = a2.

Lemma frames_add_page a k : frames_ok k -> frames_ok (add_page a k).
Proof.
  intros [Hown Hinj]. destruct (demo_root_slot_free k) as [Hf _].
  assert (Hnew : forall b, dr_pages k !! b <> Some (demo_root_slot k)).
  { intros b Hb. apply Hown in Hb. cbn in Hb. by rewrite Hf in Hb. }
  split.
  - intros b c [Hb|[_ Hb]]%lookup_union_Some_raw; cbn.
    + rewrite lookup_insert_ne; [by apply (Hown b)|]. intros <-. by apply Hnew in Hb.
    + apply lookup_singleton_Some in Hb as [<- <-]. by rewrite lookup_insert_eq.
  - intros a1 a2 c [H1|[N1 H1]]%lookup_union_Some_raw [H2|[N2 H2]]%lookup_union_Some_raw;
      try apply lookup_singleton_Some in H1 as [<- <-]; try apply lookup_singleton_Some in H2 as [<- E]; try done.
    + by eapply Hinj.
    + rewrite <- E in H1. by apply Hnew in H1.
    + by apply Hnew in H2.
Qed.

Lemma frames_add_pages n a k : frames_ok k -> frames_ok (add_pages n a k).
Proof. revert a k. induction n as [|n IH]; intros a k H; [done|]. cbn. by apply IH, frames_add_page. Qed.

Lemma add_page_ok a k : let k' := add_page a k in
  dr_caps k ⊆ dr_caps k' /\ dr_pages k ⊆ dr_pages k' /\ dr_left k' = dr_left k /\ (demo_root_fits k -> demo_root_fits k') /\
  is_Some (dr_pages k' !! a).
Proof.
  destruct (demo_root_slot_free k) as [Hf Hne]. cbn. split_and!; [by apply insert_subseteq|apply map_union_subseteq_l|done| |].
  - intros Hfit b c [Hb|[_ Hb]]%lookup_union_Some_raw; cbn.
    + destruct (Hfit _ _ Hb) as [Hc [x Hx]]. split; [done|]. exists x. apply lookup_insert_Some. right. split; [congruence|done].
    + apply lookup_singleton_Some in Hb as [<- <-]. split; [done|]. rewrite lookup_insert_eq. by eexists.
  - destruct (dr_pages k !! a) as [c|] eqn:Ha; [exists c; by apply lookup_union_Some_l|].
    exists (demo_root_slot k). apply lookup_union_Some_raw. right. split; [done|apply lookup_singleton_eq].
Qed.

Lemma add_pages_ok n a k : let k' := add_pages n a k in
  dr_caps k ⊆ dr_caps k' /\ dr_pages k ⊆ dr_pages k' /\ dr_left k' = dr_left k /\ (demo_root_fits k -> demo_root_fits k') /\
  forall i, (i < n)%nat -> is_Some (dr_pages k' !! (a + Z.of_nat i * PAGE_SIZE_4K)).
Proof.
  revert a k. induction n as [|n IH]; intros a k; cbn [add_pages]; [split_and!; [done..|lia]|].
  destruct (add_page_ok a k) as (H1 & H2 & H3 & H4 & [c H5]). destruct (IH (a + PAGE_SIZE_4K) (add_page a k)) as (G1 & G2 & G3 & G4 & G5).
  cbn zeta. split_and!; [by etrans|by etrans|by rewrite G3|auto|].
  intros [|i] Hi.
  - exists c. rewrite Z.add_0_r. by eapply lookup_weaken.
  - destruct (G5 i) as [d Hd]; [lia|]. exists d. rewrite <- Hd. f_equal. unfold PAGE_SIZE_4K. lia.
Qed.

#[export] Instance board_objects : SyncObjects board := {|
  mutex_create := bd_objects (sel4osapi_mutex_create (BUILD := assertions_on));
  semaphore_create n := bd_objects (sel4osapi_semaphore_create (BUILD := assertions_on) n)
|}.

(** The address space and the capabilities agree. *)
Definition board_inv (k : board) : Prop := demo_root_fits (bd_root k) /\ frames_ok (bd_root k) /\ ForallOrdPairs apart (bd_mapped k) /\ forall r (i : nat), r ∈ bd_mapped k ->
  Z.of_nat i * PAGE_SIZE_4K < r.2 -> is_Some (dr_pages (bd_root k) !! (r.1 + Z.of_nat i * PAGE_SIZE_4K)).

#[export] Instance board_objects_ok : SyncObjectsOk board.
Proof.
  refine {| objects_inv k := sync_inv (bd_sync k) /\ board_inv k; objects_of k := sync_objects (bd_sync k) |};
    intros; cbn [mutex_create semaphore_create board_objects]; apply wp_zoom.
  - destruct H as [Hi Hb]. destruct (wp_mutex_create (bd_sync k)) as (r & s & Hr & H1 & H2); [done..|]. exists r, s. by rewrite Hr.
  - destruct H as [Hi Hb]. destruct (wp_semaphore_create n (bd_sync k)) as (r & s & Hr & H1 & H2); [done..|]. exists r, s. by rewrite Hr.
Defined.

#[export] Instance board_root_env : RootEnv board := {|
  vspace_new_pages n k := (bd_next k, Board (bd_sync k) (add_pages (Z.to_nat n) (bd_next k) (bd_root k))
    (bd_next k + n * PAGE_SIZE_4K) ((bd_next k, n * PAGE_SIZE_4K) :: bd_mapped k) (bd_pages k - n));
  ROUND_UP_UNSAFE x n := (x + n - 1) / n * n
|}.

Definition board_fits (k : board) : Prop := 0 < bd_next k /\ Forall (fun r => r.1 + r.2 <= bd_next k) (bd_mapped k).

Lemma bd_objects_frame {A} (m : M (sync_state sync_view) A) k r k' : bd_objects m k = Done (r, k') ->
  bd_mapped k' = bd_mapped k /\ bd_next k' = bd_next k /\ bd_pages k' = bd_pages k /\ bd_root k' = bd_root k.
Proof. unfold bd_objects, zoom. case_match; [|done..]. case_match. intros [= <- <-]. done. Qed.

#[export] Program Instance board_root_ok : RootEnvOk board := {|
  mapped := bd_mapped;
  pages_left k := if bool_decide (board_fits k) then bd_pages k else 0
|}.
Next Obligation.
  intros k r k' Hr. destruct (bd_objects_frame _ _ _ _ Hr) as (Hm & Hn & Hp & _). split; [done|].
  unfold board_fits. by rewrite Hm, Hn, Hp.
Qed.
Next Obligation.
  intros n k r k' Hr. destruct (bd_objects_frame _ _ _ _ Hr) as (Hm & Hn & Hp & _). split; [done|].
  unfold board_fits. by rewrite Hm, Hn, Hp.
Qed.
Next Obligation.
  intros n k [Hn Hp]. case_bool_decide as Hf; [|lia]. destruct Hf as [Hn0 Hall]. cbn.
  destruct (add_pages_ok (Z.to_nat n) (bd_next k) (bd_root k)) as (H1 & H2 & H3 & H4 & H5).
  rewrite bool_decide_eq_true_2.
  - split_and!; [lia|done| |done|done|].
    + eapply Forall_impl; [exact Hall|]. intros r Hr. right. exact Hr.
    + intros (Hs & Hfit & Hfr & Hap & Hmap). split; [done|]. split_and!; cbn; [auto|by apply frames_add_pages| |].
      { constructor; [|done]. eapply Forall_impl; [exact Hall|]. intros r Hr. by right. } intros r i [->|Hr]%elem_of_cons Hi; cbn in Hi |- *.
      * apply H5. unfold PAGE_SIZE_4K in Hi. lia.
      * destruct (Hmap r i Hr Hi) as [c Hc]. exists c. by eapply lookup_weaken.
  - split; cbn; unfold PAGE_SIZE_4K; [lia|]. constructor; [cbn; unfold PAGE_SIZE_4K; lia|].
    eapply Forall_impl; [exact Hall|]. cbn. intros r Hr. lia.
Qed.
Next Obligation.
  intros x n Hx Hn _. cbn. split; [|by exists ((x + n - 1) / n)].
  pose proof (Z.div_mod (x + n - 1) n ltac:(lia)). pose proof (Z.mod_pos_bound (x + n - 1) n ltac:(lia)). lia.
Qed.

#[export] Instance board_process_lib : ProcessLib board demo_process := {|
  SEL4UTILS_CNODE_SLOT := SEL4UTILS_CNODE_SLOT (K := demo_root) (P := demo_process);
  CONFIG_SEL4UTILS_CSPACE_SIZE_BITS := CONFIG_SEL4UTILS_CSPACE_SIZE_BITS (K := demo_root) (P := demo_process);
  vspace_get_cap a k := vspace_get_cap (P := demo_process) a (bd_root k);
  vka_cspace_alloc := bd_call (vka_cspace_alloc (P := demo_process));
  vka_cnode_copy dest src := bd_call (vka_cnode_copy (P := demo_process) dest src);
  vka_new_notification := bd_call (vka_new_notification (P := demo_process));
  vspace_map_pages caps s :=
    let r := vspace_map_pages caps (s.1, bd_root s.2) in (r.1, (r.2.1, bd_set_root r.2.2 s.2))
|}.

#[export] Instance board_process_lib_ok : ProcessLibOk board demo_process.
Proof.
  refine {| root_of k := root_of (bd_root k); pmap := dp_map; map_cost := map_cost (K := demo_root) (P := demo_process);
            pages_free := pages_free (K := demo_root) |}.
  - exact (cspace_bits_ok (K := demo_root) (P := demo_process)).
  - intros a c k. exact (get_cap_ok a c (bd_root k)).
  - intros k. exact (slot_alloc_ok (bd_root k)).
  - intros dest src o k. exact (cnode_copy_ok dest src o (bd_root k)).
  - intros k. exact (notification_ok (bd_root k)).
  - intros caps p k. exact (map_pages_ok caps p (bd_root k)).
  - exact (mint_frame (K := demo_root) (P := demo_process)).
Defined.

#[export] Instance board_spawn : SpawnLib board demo_process := {|
  CONFIG_MAX_NUM_BOOTINFO_UNTYPED_CAPS := 16;
  sel4utils_configure_process_custom _ _ k := ((0, NativeProcess 20 21 22 (DemoProcess [] ∅ 65536 64)), k);
  sel4utils_spawn_process_v p _ k := ((0, np_spaces p), k);
  sel4utils_destroy_process _ k := k;
  vspace_unmap_page _ s := s
|}.

#[export] Instance board_endpoints : Endpoints board := {|
  seL4_Send _ k := k;
  seL4_Recv ep k := (IpcMessage ep seL4_Fault_NullFault [], k)
|}.

Lemma board_untouched n r k : (forall c o, fst <$> dr_caps (bd_root k) !! c = Some o -> fst <$> dr_caps r !! c = Some o) ->
  dr_pages r = dr_pages (bd_root k) -> untouched n k (bd_set_root r k).
Proof.
  intros Hc Hp. split; [|cbn; lia|done|done]. intros (Hs & Hfit & [Hfr Hinj] & Hap & Hmap).
  split; [done|]. unfold board_inv, demo_root_fits, frames_ok. cbn [bd_root bd_set_root bd_mapped]. rewrite Hp. split_and!; try done.
  - eapply map_Forall_impl; [exact Hfit|]. intros a c [Hne [x Hx]]. split; [done|]. apply (fmap_is_Some fst). exists x.1. apply Hc. by rewrite Hx.
  - eapply map_Forall_impl; [exact Hfr|]. intros a c. apply Hc.
Qed.

Lemma board_op_untouched k n k' : process_op (P := demo_process) k n k' -> untouched n k k'.
Proof.
  assert (Hins : forall (m : gmap Z (Z * bool)) x v, m !! x = None -> forall c o, fst <$> m !! c = Some o -> fst <$> <[x := v]> m !! c = Some o).
  { intros m x v Hx c o Hc. rewrite lookup_insert_ne; [done|]. intros <-. by rewrite Hx in Hc. }
  intros [|dest src| |caps p]; apply board_untouched; try done; cbn.
  - case_match; [|done]. case_match; [done|]. by apply Hins.
  - case_match; [|done]. by case_match.
  - apply Hins, demo_root_slot_free.
  - intros c o. by rewrite use_caps_fst.
Qed.

#[export] Program Instance board_spawn_ok : SpawnLibOk board demo_process := {|
  object_cost := 0; page_cost := 0; configure_cost := 0; new_process_slot := 3; new_process_pages := 64
|}.
Next Obligation.
  intros n k r k' Hr. destruct (bd_objects_frame _ _ _ _ Hr) as (_ & _ & _ & Hroot). cbn. rewrite Hroot. apply extends_refl.
Qed.
Next Obligation.
  intros n k. cbn. destruct (add_pages_ok (Z.to_nat n) (bd_next k) (bd_root k)) as (H1 & H2 & H3 & H4 & _).
  apply demo_extends_pages; [done|done|rewrite H3; lia|done].
Qed.
Next Obligation.
  intros k r i (_ & Hfit & _ & _ & Hmap) Hr Hi. cbn. rewrite bool_decide_eq_true_2 by done. by apply Hmap.
Qed.
Next Obligation.
  intros name prio k _. split_and!; try done. apply extends_refl.
Qed.
Next Obligation.
  exact board_op_untouched.
Qed.
Next Obligation.
  intros a1 a2 c1 c2 o k (_ & Hfit & [Hfr Hinj] & _). cbn. rewrite bool_decide_eq_true_2 by done. unfold object_of. cbn.
  intros H1 H2 Ho1 Ho2. pose proof (Hfr _ _ H1) as E1. pose proof (Hfr _ _ H2) as E2. cbn in E1, E2. rewrite E1 in Ho1. rewrite E2 in Ho2.
  simplify_eq. by eapply Hinj.
Qed.
Next Obligation.
  by intros k (_ & _ & _ & Hap & _).
Qed.

Section samples.
#[local] Existing Instance default_config.

Definition sample_board : board :=
  Board (SyncState (Heap 1 4096 ∅ ∅ ∅) (SyncView ∅ ∅ 8)) (DemoRoot ∅ ∅ 64) 268435456 [] 16.
Definition blank_process : sel4osapi_process_t demo_process :=
  MkProcess (NativeProcess 0 0 0 (DemoProcess [] ∅ 0 0)) 0 (blank_env 16) 0 0 NULL NULL.
Definition sample_system : system_state board demo_process :=
  SystemState (one_free blank_process) (ten_table (replicate 10 0))
    (IpcState NULL (one_free (IpcClient 0 NULL NULL 0 0 0 0)) sample_board) (one_free (SerialClient 0 NULL 0 0 0)) 40 30 31.

Lemma empty_board_inv size n left next pages : 0 <= size -> objects_inv (Board (SyncState (Heap 1 size ∅ ∅ ∅) (SyncView ∅ ∅ n)) (DemoRoot ∅ ∅ left) next [] pages).
Proof.
  intros Hsize. split; [|split; [|split; [|split]]].
  - split; cbn; [by split; cbn; try (intros l [? Hl])|set_solver|by intros l [? Hl]].
  - apply map_Forall_empty.
  - split; [apply map_Forall_empty|done].
  - constructor.
  - intros r i Hr%not_elem_of_nil. done.
Qed.

Lemma sample_board_inv : objects_inv sample_board.
Proof. by apply empty_board_inv. Qed.

Lemma sample_system_ready :
  create_ready sample_system one_entry [] [] [] one_entry [] [] [] one_entry [] [] [] ten_blocks (replicate 10 0) 4 4.
Proof.
  assert (Hp : pages_left (kern sample_system) = 16 /\ pages_free (np_spaces sample_native) = 64) by done.
  split; try done; try apply one_free_holds; try (apply Nat.leb_le; reflexivity).
  - by apply ten_table_rep.
  - split; try done; try (apply Nat.leb_le; reflexivity); lia.
  - exact sample_board_inv.
Qed.

Lemma process_created_witness :
  wp (sel4osapi_process_create "shell"%string 100) (fun r s' => exists v c, r = Some one_entry.2 /\
    holds (sy_processes s') [] [one_entry] [v] /\ pe_pid (pr_env v) = 1 /\ ic_id c = 1 /\
    ForallOrdPairs apart (regions (K := board) c)) sample_system.
Proof.
  eapply wp_mono.
  - destruct (process_created "shell"%string 100 sample_system one_entry [] [] [] one_entry [] [] [] one_entry [] [] [] ten_blocks
      (replicate 10 0) 4 4 sample_system_ready) as [H _]. exact H.
  - intros r s' (-> & v & c & ser & H1 & _ & H2 & _ & H3 & H4 & _). exists v, c. split; [reflexivity|]. split; [exact H1|].
    split; [apply H4|]. split; [exact H2|].
    specialize (H3 (FOP_nil _)). unfold regions in *. cbn [app] in H3. inversion H3 as [|? ? H5 H6]; subst. constructor.
    + apply Forall_cons in H5 as [H5 _]. apply Forall_cons. split; [exact H5|apply Forall_nil_2].
    + repeat constructor.
Defined.
End samples.
