(* ===== verification/Args.v ===== *)
(** * Args: the arguments of a process

    [sel4osapi_process_spawn] prints the pid and the endpoint of a process into
    its arguments (src/process.c); [sel4osapi_system_initialize_process] reads the
    endpoint back with atoi (src/system.c). *)

From Stdlib Require Import String Ascii.
From stdpp Require Import strings pretty.
From S2P Require Import Prelude Config Ipc Untyped Thread Process Spawn.

(** atoi: leading spaces, a sign, digits; None where the behaviour is undefined. *)
Definition is_space (b : Z) : bool := (b =? 32) || ((9 <=? b) && (b <=? 13)).
Definition is_digit (b : Z) : bool := (48 <=? b) && (b <=? 57).

Fixpoint digits_value (acc : Z) (bs : list Z) : Z :=
  match bs with
  | [] => acc
  | b :: bs => if is_digit b then digits_value (acc * 10 + (b - 48)) bs else acc
  end.
Fixpoint skip_spaces (bs : list Z) : list Z :=
  match bs with
  | [] => []
  | b :: rest => if is_space b then skip_spaces rest else bs
  end.
Definition signed_value (bs : list Z) : Z :=
  match bs with
  | b :: rest => if b =? 45 then - digits_value 0 rest else if b =? 43 then digits_value 0 rest else digits_value 0 bs
  | [] => 0
  end.
Definition atoi (bs : list Z) : option Z :=
  let z := signed_value (skip_spaces bs) in
  if (- 2 ^ 31 <=? z) && (z <? 2 ^ 31) then Some z else None.

(** ** Printing and reading back *)

Lemma bytes_of_cons a s : bytes_of (String a s) = Z.of_nat (nat_of_ascii a) :: bytes_of s.
Proof. done. Qed.

Lemma digit_char x : (x < 10)%N -> Z.of_nat (nat_of_ascii (pretty_N_char x)) = 48 + Z.of_N x.
Proof. intros Hx. destruct x as [|p]; [done|]. do 4 (destruct p as [p|p|]; try done; try lia). Qed.

Definition digits (ds : list Z) : Prop := Forall (fun b => is_digit b = true) ds.

Lemma digits_value_app ds acc rest : digits ds -> digits_value acc (ds ++ rest) = digits_value (digits_value acc ds) rest.
Proof.
  revert acc. induction ds as [|d ds IH]; intros acc H; [done|]. apply Forall_cons in H as [Hd H]. cbn. rewrite Hd. by apply IH.
Qed.

Lemma digits_value_end acc : digits_value acc [0] = acc.
Proof. done. Qed.

(** The digits of a number below 10^k, in front of a text. *)
Lemma pretty_go_digits (k : nat) (x : N) (text : string) : (x < 10 ^ N.of_nat k)%N -> exists ds,
  bytes_of (pretty_N_go x text) = ds ++ bytes_of text /\ digits ds /\ (length ds <= k)%nat /\
  (0 < x -> ds <> [])%N /\ digits_value 0 ds = Z.of_N x.
Proof.
  revert x text. induction k as [|k IH]; intros x text Hx.
  - assert (x = 0%N) as -> by (change (10 ^ N.of_nat 0)%N with 1%N in Hx; lia). exists []. rewrite pretty_N_go_0.
    split_and!; [done|constructor|done|lia|done].
  - destruct (decide (x = 0%N)) as [->|Hne].
    { exists []. rewrite pretty_N_go_0. split_and!; [done|constructor|cbn; lia|lia|done]. }
    rewrite pretty_N_go_step by lia. pose proof (N.mod_lt x 10 ltac:(lia)) as Hm.
    assert (Hdig : 48 <= 48 + Z.of_N (x mod 10) <= 57) by (clear -Hm; set (m := (x mod 10)%N) in *; clearbody m; lia).
    destruct (IH (x / 10)%N (String (pretty_N_char (x mod 10)) text)) as (ds & Hb & Hd & Hl & Hn & Hv).
    { apply N.Div0.div_lt_upper_bound. rewrite Nat2N.inj_succ, N.pow_succ_r' in Hx. lia. }
    exists (ds ++ [48 + Z.of_N (x mod 10)]). rewrite Hb, bytes_of_cons, digit_char by done. split_and!.
    + by rewrite <- app_assoc.
    + apply Forall_app. split; [exact Hd|]. repeat constructor. apply andb_true_iff. split; apply Z.leb_le; lia.
    + rewrite length_app. cbn [length]. lia.
    + intros _ Hx0. by apply app_nil in Hx0 as [_ Hx0].
    + rewrite digits_value_app, Hv by done. cbn [digits_value]. unfold is_digit. rewrite !(proj2 (Z.leb_le _ _)) by lia. cbn [andb].
      rewrite (N.div_mod' x 10) at 3. rewrite N2Z.inj_add, N2Z.inj_mul. clear. lia.
Qed.

(** Printed with "%d" into ten bytes, a number below 10^9 is read back. *)
Lemma decimal_roundtrip w : 0 <= w < 10 ^ 9 -> atoi (snprintf_bytes 10 (decimal w)) = Some w.
Proof.
  intros Hw. unfold decimal. rewrite s32_small by lia.
  assert (Hv : exists d ds, bytes_of (pretty w) = d :: ds /\ is_digit d = true /\ digits ds /\ (length ds <= 8)%nat /\
    digits_value 0 (d :: ds) = w).
  { destruct w as [|p|p]; [by exists 48, []; repeat constructor| |lia].
    change (pretty (Z.pos p)) with (pretty_N_go (N.pos p) "").
    destruct (pretty_go_digits 9 (N.pos p) "") as (ds & Hb & Hd & Hl & Hn & Hv); [change (10 ^ N.of_nat 9)%N with 1000000000%N; lia|].
    rewrite Hb. change (bytes_of "") with (@nil Z). rewrite app_nil_r. destruct ds as [|d ds]; [by destruct Hn|].
    apply Forall_cons in Hd as [Hd Hds]. cbn in Hl. exists d, ds. split_and!; try done. lia. }
  destruct Hv as (d & ds & Hb & Hd & Hds & Hl & Hv). unfold snprintf_bytes. rewrite Hb.
  rewrite take_ge by (cbn [length]; lia). change ((d :: ds) ++ [0]) with (d :: ds ++ [0]).
  pose proof Hd as [H1%Z.leb_le H2%Z.leb_le]%andb_true_iff. unfold atoi, skip_spaces, is_space.
  rewrite (proj2 (Z.eqb_neq d 32)), (proj2 (Z.leb_gt d 13)) by lia. rewrite andb_false_r. cbn [orb].
  unfold signed_value. rewrite (proj2 (Z.eqb_neq d 45)), (proj2 (Z.eqb_neq d 43)) by lia.
  change (d :: ds ++ [0]) with ((d :: ds) ++ [0]). rewrite digits_value_app by (by constructor). rewrite Hv, digits_value_end.
  rewrite (proj2 (Z.leb_le _ _)), (proj2 (Z.ltb_lt _ _)) by lia. done.
Qed.

(** The bytes of a text that fits: its characters up to the terminator. *)
Lemma c_string_copy max bs : Forall (fun b => b <> 0) (c_string bs) /\
  c_string (snprintf_copy max bs) = take (Z.to_nat (max - 1)) (c_string bs).
Proof.
  assert (Hnz : Forall (fun b => b <> 0) (c_string bs)).
  { induction bs as [|b bs IH]; [constructor|]. cbn. destruct (Z.eqb_spec b 0); [constructor|by constructor]. }
  split; [done|]. unfold snprintf_copy. assert (Hall : Forall (fun b => b <> 0) (take (Z.to_nat (max - 1)) (c_string bs))) by by apply Forall_take.
  induction Hall as [|b l Hb _ IH]; [done|]. cbn. rewrite (proj2 (Z.eqb_neq b 0)) by done. by rewrite IH.
Qed.

(** C36: The arguments of a process carry its name, its pid and its endpoint: what
    [sel4osapi_process_spawn] prints is read back unchanged, for numbers of at
    most nine digits; the name is cut after 14 characters. *)
Theorem spawn_argv_roundtrip env : 0 <= pe_pid env < 10 ^ 9 -> 0 <= pe_fault_endpoint env < 10 ^ 9 ->
  exists name pid endpoint, spawn_argv env = [name; pid; endpoint] /\
    c_string name = take 14 (c_string (pe_name env)) /\ atoi pid = Some (pe_pid env) /\ atoi endpoint = Some (pe_fault_endpoint env).
Proof.
  intros Hp He. eexists _, _, _. split; [reflexivity|]. split; [apply c_string_copy|]. split; by apply decimal_roundtrip.
Qed.

Lemma spawn_argv_roundtrip_witness : exists name pid endpoint,
  spawn_argv (ProcessEnv (bytes_of "shell" ++ [0; 0]) 2 0 0 0 0 (0, 0) (zero_env 0) 17 0 0 None 0
    (IpcClient 0 None None 0 0 0 0) 0 (SerialClient 0 None 0 0 0)) = [name; pid; endpoint] /\
  atoi pid = Some 2 /\ atoi endpoint = Some 17.
Proof.
  destruct (spawn_argv_roundtrip (ProcessEnv (bytes_of "shell" ++ [0; 0]) 2 0 0 0 0 (0, 0) (zero_env 0) 17 0 0 None 0
    (IpcClient 0 None None 0 0 0 0) 0 (SerialClient 0 None 0 0 0))) as (name & pid & endpoint & H1 & _ & H2 & H3);
    [cbn; lia|cbn; lia|].
  exists name, pid, endpoint. split; [exact H1|]. split; [exact H2|exact H3].
Defined.
