(* ===== verification/System.v ===== *)
(** * System: what the root task and the processes initialise alike (src/system.c, log.c)

    A task has one [sel4osapi_system_t]: here the fields that both kinds of task
    use.  The environment of a task is in a page ([ta_pages], by address); the
    pool [threads] the environment points to is [ta_threads].  The mutex of the
    log is the global variable of log.c. *)

From Stdlib Require Import String.
From stdpp Require Import strings.
From S2P Require Import Prelude Config Memory LinkedList Pool PoolSearch Sync Ipc Untyped Thread Process Spawn.

(** The user data of a thread is a word of its IPC buffer; the address of
    [system->main_thread] and the size of a thread are those of the platform. *)
Class TaskLib (K : Type) := {
  main_thread_addr : Z;
  sizeof_thread : Z;
  seL4_GetUserData : K -> Z;
  seL4_SetUserData : Z -> K -> K;
  seL4_Wait_idle : Z -> K -> K;                (* seL4_Wait *)
  syslog_warn : string -> K -> K               (* the macro of log.h, see [Log] *)
}.

(** Memory malloc takes a pool from, and what it holds at first. *)
Definition arena (E : Type) : Type := heap E * E.

Definition new_pool {S E} (n size : Z) (a : arena E) : M S (pool_state E) :=
  peek a.1 (
    let! p := simple_pool_new n size None NULL None a.2 in
    let! h := get in
    ret (PoolState p h)).

Section system_c.
Context {CFG : Config} {F K : Type} {OBJ : SyncObjects K} {THR : ThreadEnv K} {TASK : TaskLib K}.

Record task := Task {
  ta_is_root : bool;
  ta_pages : gmap Z sel4osapi_process_env_t;
  ta_env : Z;
  ta_main : sel4osapi_thread_info_t;        (* main_thread.info *)
  ta_global_mutex : ptr;
  ta_logmutex : ptr;
  ta_threads : option (pool_state (sel4osapi_thread_t F));
  ta_kern : K
}.

Definition ta_set_env (root : bool) a (s : task) :=
  Task root (ta_pages s) a (ta_main s) (ta_global_mutex s) (ta_logmutex s) (ta_threads s) (ta_kern s).
Definition ta_set_pages m (s : task) :=
  Task (ta_is_root s) m (ta_env s) (ta_main s) (ta_global_mutex s) (ta_logmutex s) (ta_threads s) (ta_kern s).
Definition ta_set_main i (s : task) :=
  Task (ta_is_root s) (ta_pages s) (ta_env s) i (ta_global_mutex s) (ta_logmutex s) (ta_threads s) (ta_kern s).
Definition ta_set_mutex l (s : task) :=
  Task (ta_is_root s) (ta_pages s) (ta_env s) (ta_main s) l (ta_logmutex s) (ta_threads s) (ta_kern s).
Definition ta_set_log l (s : task) :=
  Task (ta_is_root s) (ta_pages s) (ta_env s) (ta_main s) (ta_global_mutex s) l (ta_threads s) (ta_kern s).
Definition ta_set_threads p (s : task) :=
  Task (ta_is_root s) (ta_pages s) (ta_env s) (ta_main s) (ta_global_mutex s) (ta_logmutex s) p (ta_kern s).
Definition ta_set_kern k (s : task) :=
  Task (ta_is_root s) (ta_pages s) (ta_env s) (ta_main s) (ta_global_mutex s) (ta_logmutex s) (ta_threads s) k.

Definition on_task_kern {A} (m : M K A) : M task A := zoom ta_kern ta_set_kern m.
Definition task_call {A} (f : K -> A * K) : M task A := on_task_kern (fun k => Done (f k)).
Definition task_do (f : K -> K) : M task unit := on_task_kern (modify f).
Definition upd_main (f : sel4osapi_thread_info_t -> sel4osapi_thread_info_t) : M task unit :=
  modify (fun s => ta_set_main (f (ta_main s)) s).

(** [system->env] *)
Definition read_env : M task sel4osapi_process_env_t :=
  let! s := get in deref (ta_pages s !! ta_env s).
Definition upd_env (f : sel4osapi_process_env_t -> sel4osapi_process_env_t) : M task unit :=
  let! e := read_env in
  modify (fun s => ta_set_pages (<[ta_env s := f e]> (ta_pages s)) s).

(** process.c *)
Definition sel4osapi_process_get_current : M task Z := gets ta_env.

Definition main_text (pid : Z) : string := ("p-" ++ pad2 (s32 pid) ++ "-main")%string.

Definition sel4osapi_system_initialize_main_thread : M task unit :=
  let! e := read_env in
  upd_main (write_name (snprintf_bytes SEL4OSAPI_THREAD_NAME_MAX_LEN (main_text (pe_pid e)))) ;;
  upd_main (ti_set_arg 0) ;;
  upd_main (ti_set_tls_tid 0 0) ;;
  upd_main (ti_set_priority (pe_priority e)) ;;
  upd_main (ti_set_active 1) ;;
  let! aep := task_call vka_alloc_notification in
  assert_ (aep.1 =? 0) ;;
  let! s := get in
  upd_main (ti_set_wait_ipc aep.2 (seL4_GetUserData (ta_kern s))) ;;
  task_do (seL4_SetUserData main_thread_addr).

Definition sel4osapi_system_initialize_global_mutex : M task unit :=
  let! mutex := on_task_kern mutex_create in
  modify (ta_set_mutex mutex) ;;
  assert_ (non_null mutex).

(** log.c *)
Definition sel4osapi_log_initialize : M task Z :=
  let! s := get in
  (if non_null (ta_logmutex s) then
     task_do (syslog_warn "OSAPI Syslog initialized more than once, ignoring subsequent initializations...")
   else
     let! mutex := on_task_kern mutex_create in
     modify (ta_set_log mutex) ;;
     assert_ (non_null mutex)) ;;
  ret 0.

Definition new_threads (a : arena (sel4osapi_thread_t F)) : M task unit :=
  let! p := new_pool SEL4OSAPI_MAX_THREADS_PER_PROCESS sizeof_thread a in
  modify (ta_set_threads (Some p)).

(** Blocks the thread: nothing signals the notification. *)
Definition sel4osapi_idle : M task unit :=
  let! e := read_env in
  task_do (seL4_Wait_idle (pe_idling_aep e)).
End system_c.
Arguments task F K : clear implicits.

(** ** What is used of the libraries

    The steps of a task that is starting: creating mutexes, semaphores and
    notifications, and setting the user data.  [room]: how many more objects of
    any kind can be made.
    - a step takes at most one and keeps what there is;
    - notifications and the user data have nothing to do with mutexes and
      semaphores. *)
Inductive task_op {K : Type} `{SyncObjects K} `{ThreadEnv K} `{TaskLib K} (k : K) : K -> Prop :=
| op_mutex r k' : mutex_create k = Done (r, k') -> task_op k k'
| op_semaphore n r k' : semaphore_create n k = Done (r, k') -> task_op k k'
| op_notification : task_op k (vka_alloc_notification k).2
| op_user_data w : task_op k (seL4_SetUserData w k).

Class TaskLibOk (K : Type) `{SyncObjectsOk K} `{ThreadEnvOk K} `{!TaskLib K} := {
  room : K -> nat;
  sizeof_thread_pos : 0 < sizeof_thread;
  room_objects k : objects_inv k -> (room k <= objects_left (objects_of k))%nat;
  room_threads k : (room k <= objects k)%nat;
  op_keeps k k' : task_op k k' -> caps_of k ⊆ caps_of k' /\ (room k - 1 <= room k')%nat;
  op_notification_objects k : objects_inv k -> let k' := (vka_alloc_notification k).2 in objects_inv k' /\ grows (objects_of k) (objects_of k');
  op_user_data_objects w k : objects_inv k -> let k' := seL4_SetUserData w k in objects_inv k' /\ grows (objects_of k) (objects_of k');
  user_data_ok w k : seL4_GetUserData (seL4_SetUserData w k) = w
}.

Section system_spec.
Context {CFG : Config} {F K : Type} {OBJ : SyncObjects K} {OOK : SyncObjectsOk K} {THR : ThreadEnv K} {TOK : ThreadEnvOk K}.
Context {TASK : TaskLib K} {TAOK : TaskLibOk K}.
Implicit Types (s : task F K) (k : K) (e : sel4osapi_process_env_t) (i : sel4osapi_thread_info_t).

(** From [k] to [k'] in at most [n] steps. *)
Record spent (n : nat) k k' : Prop := {
  sp_ops : bsteps task_op n k k';
  sp_inv : objects_inv k';
  sp_grows : grows (objects_of k) (objects_of k');
  sp_caps : caps_of k ⊆ caps_of k';
  sp_room : (room k - n <= room k')%nat
}.

Lemma spent_refl k : objects_inv k -> spent 0 k k.
Proof. intros H. split; [apply bsteps_refl|done|by split|done|lia]. Qed.

Lemma spent_trans n1 n2 k1 k2 k3 : spent n1 k1 k2 -> spent n2 k2 k3 -> spent (n1 + n2) k1 k3.
Proof. intros [H1 H2 [H3 H3'] H4 H5] [G1 G2 [G3 G3'] G4 G5]. split; [by eapply bsteps_trans|done|split; by etrans|by etrans|lia]. Qed.

Lemma spent_op k k' : task_op k k' -> objects_inv k' -> grows (objects_of k) (objects_of k') -> spent 1 k k'.
Proof. intros Hop Hi Hg. destruct (op_keeps _ _ Hop). split; [by apply bsteps_once|done..]. Qed.

(** A mutex that was not there. *)
Lemma wp_task_mutex k (Q : ptr -> K -> Prop) : objects_inv k -> (0 < room k)%nat ->
  (forall l k', spent 1 k k' -> l ∉ live_mutexes (objects_of k) -> l ∈ live_mutexes (objects_of k') -> Q (Some l) k') -> wp mutex_create Q k.
Proof.
  intros Hi Hr HQ. pose proof (room_objects k Hi). destruct (mutex_create_ok k Hi) as (r & k' & Hm & Hi' & l & -> & Hc); [lia|].
  exists (Some l), k'. split; [exact Hm|]. pose proof (created_grows _ _ _ _ _ Hc). destruct Hc as (Hn & _ & Hl & _).
  apply HQ; [by apply spent_op; [eapply op_mutex|..]|done|rewrite Hl; set_solver].
Qed.

(** A semaphore that was not there, with count [n]. *)
Lemma wp_task_semaphore n k (Q : ptr -> K -> Prop) : objects_inv k -> (0 < room k)%nat ->
  (forall l k', spent 1 k k' -> counts (objects_of k) !! l = None -> counts (objects_of k') !! l = Some n -> Q (Some l) k') ->
  wp (semaphore_create n) Q k.
Proof.
  intros Hi Hr HQ. pose proof (room_objects k Hi). destruct (semaphore_create_ok n k Hi) as (r & k' & Hm & Hi' & l & -> & Hc); [lia|].
  exists (Some l), k'. split; [exact Hm|]. pose proof (created_grows _ _ _ _ _ Hc). destruct Hc as (_ & Hn & _ & Hl & _).
  apply HQ; [by apply spent_op; [eapply op_semaphore|..]|done|rewrite Hl; apply lookup_insert_eq].
Qed.

Lemma wp_on_task_kern {A} (m : M K A) (Q : A -> task F K -> Prop) s :
  wp m (fun a k => Q a (ta_set_kern k s)) (ta_kern s) -> wp (on_task_kern m) Q s.
Proof. apply wp_zoom. Qed.

Lemma wp_task_call {A} (f : K -> A * K) (Q : A -> task F K -> Prop) s :
  Q (f (ta_kern s)).1 (ta_set_kern (f (ta_kern s)).2 s) -> wp (task_call f) Q s.
Proof. intros HQ. apply wp_on_task_kern. eexists _, _. split; [apply (f_equal Done), surjective_pairing|exact HQ]. Qed.

Lemma wp_read_env s e (Q : _ -> task F K -> Prop) : ta_pages s !! ta_env s = Some e -> Q e s -> wp read_env Q s.
Proof. intros He HQ. unfold read_env. wp_step. wp_step. by eapply wp_deref. Qed.

Lemma wp_upd_env s e f (Q : unit -> task F K -> Prop) : ta_pages s !! ta_env s = Some e ->
  Q tt (ta_set_pages (<[ta_env s := f e]> (ta_pages s)) s) -> wp (upd_env f) Q s.
Proof. intros He HQ. unfold upd_env. wp_step. eapply wp_read_env; [exact He|]. by wp_step. Qed.

(** A pool in a fresh arena: all its elements are free. *)
Definition arena_ok {E} (n size : Z) (a : arena E) : Prop :=
  heap_wf a.1 /\ 0 < n /\ 0 < size /\ pool_bytes n size <= avail a.1.

Definition fresh_pool {E} (n : Z) (p : pool_state E) : Prop := exists fr, length fr = Z.to_nat n /\ holds p fr [] [].

Lemma wp_new_pool {S E} n size (a : arena E) (Q : pool_state E -> S -> Prop) (s : S) :
  arena_ok n size a -> (forall p, fresh_pool n p -> Q p s) -> wp (new_pool n size a) Q s.
Proof.
  intros (Hwf & Hn & Hs & Hmem) HQ.
  destruct (wp_pool_new (init := None) (cmp := None) n size NULL a.2 a.1 Hwf) as (p & h' & Hr & fr & Hl & _ & Rp & _); [done..|].
  unfold new_pool. apply wp_peek. wp_step. eapply wp_eq; [exact Hr|]. wp_steps. apply HQ. exists fr. split; [done|].
  split. exists (cells h'). by split; [exact Rp|constructor].
Qed.

(** *** The main thread *)

(** The main thread of a task with environment [e]. *)
Record main_ready e k0 i k : Prop := {
  mr_ids : ti_tid i = 0 /\ ti_arg i = 0 /\ ti_tls i = 0 /\ ti_active i = 1 /\ ti_priority i = pe_priority e;
  mr_name : take (S (length (bytes_of (main_text (pe_pid e))))) (ti_name i) = bytes_of (main_text (pe_pid e)) ++ [0];
  mr_aep : ti_wait_aep i ∉ caps_of k0 /\ ti_wait_aep i ∈ caps_of k;
  mr_ipc : ti_ipc i = seL4_GetUserData (vka_alloc_notification k0).2 /\ seL4_GetUserData k = main_thread_addr
}.

Lemma wp_initialize_main_thread s e (Q : unit -> task F K -> Prop) :
  ta_pages s !! ta_env s = Some e -> fits (main_text (pe_pid e)) -> objects_inv (ta_kern s) -> (0 < room (ta_kern s))%nat ->
  (forall i k, spent 2 (ta_kern s) k -> main_ready e (ta_kern s) i k -> Q tt (ta_set_kern k (ta_set_main i s))) ->
  wp sel4osapi_system_initialize_main_thread Q s.
Proof.
  intros He Hfit Hi Hr HQ. unfold sel4osapi_system_initialize_main_thread, upd_main, task_do.
  wp_step. eapply wp_read_env; [exact He|]. wp_steps. apply wp_task_call. cbn [ta_kern ta_set_main ta_set_kern].
  destruct (th_notification_ok (ta_kern s)) as (-> & Hn & Hin & _); [pose proof (room_threads (ta_kern s)); lia|].
  set (k1 := (vka_alloc_notification (ta_kern s)).2) in *. wp_steps. apply wp_on_task_kern. wp_steps.
  destruct (op_notification_objects (ta_kern s) Hi) as [Hi1 Hg1]. fold k1 in Hi1, Hg1.
  destruct (op_user_data_objects main_thread_addr k1 Hi1) as [Hi2 Hg2].
  pose proof (spent_trans _ _ _ _ _ (spent_op _ k1 (op_notification _) Hi1 Hg1) (spent_op _ _ (op_user_data k1 main_thread_addr) Hi2 Hg2)) as T.
  match goal with |- Q _ (ta_set_kern ?k (ta_set_main ?i (ta_set_kern ?k' ?t))) => apply (HQ i k) end; [exact T|]. split.
  - done.
  - exact (name_stored _ _ Hfit).
  - split; [exact Hn|]. destruct (op_keeps _ _ (op_user_data k1 main_thread_addr)) as [Hsub _]. by apply Hsub.
  - split; [done|apply user_data_ok].
Qed.

Lemma wp_global_mutex s (Q : unit -> task F K -> Prop) : objects_inv (ta_kern s) -> (0 < room (ta_kern s))%nat ->
  (forall l k, spent 1 (ta_kern s) k -> l ∉ live_mutexes (objects_of (ta_kern s)) -> l ∈ live_mutexes (objects_of k) ->
     Q tt (ta_set_mutex (Some l) (ta_set_kern k s))) -> wp sel4osapi_system_initialize_global_mutex Q s.
Proof.
  intros Hi Hr HQ. unfold sel4osapi_system_initialize_global_mutex. wp_step. apply wp_on_task_kern.
  apply wp_task_mutex; [done..|]. intros l k T Hn Hl. wp_steps. by apply HQ.
Qed.

Lemma wp_log_initialize s (Q : Z -> task F K -> Prop) : objects_inv (ta_kern s) -> (0 < room (ta_kern s))%nat -> ta_logmutex s = NULL ->
  (forall l k, spent 1 (ta_kern s) k -> l ∉ live_mutexes (objects_of (ta_kern s)) -> l ∈ live_mutexes (objects_of k) ->
     Q 0 (ta_set_log (Some l) (ta_set_kern k s))) -> wp sel4osapi_log_initialize Q s.
Proof.
  intros Hi Hr Hlog HQ. unfold sel4osapi_log_initialize. wp_steps. rewrite Hlog.
  change (non_null None) with false. cbn iota. wp_step. apply wp_on_task_kern. apply wp_task_mutex; [done..|]. intros l k T Hn Hl. wp_steps. by apply HQ.
Qed.

Lemma wp_new_threads s a (Q : unit -> task F K -> Prop) : arena_ok SEL4OSAPI_MAX_THREADS_PER_PROCESS (sizeof_thread (K := K)) a ->
  (forall p, fresh_pool SEL4OSAPI_MAX_THREADS_PER_PROCESS p -> Q tt (ta_set_threads (Some p) s)) -> wp (new_threads a) Q s.
Proof. intros Ha HQ. unfold new_threads. wp_step. eapply wp_new_pool; [exact Ha|]. intros p Hp. wp_step. by apply HQ. Qed.
End system_spec.

(** *** Memory to run examples on *)

Lemma arena_empty_ok {E} n size (u : E) : 0 < n -> 0 < size -> pool_bytes n size <= 65536 -> arena_ok n size (Heap 1 65536 ∅ ∅ ∅, u).
Proof. intros Hn Hs Hb. split; [by split; cbn; try (intros l [? Hl])|done]. Qed.

Definition blank_main : sel4osapi_thread_info_t := ThreadInfo 0 (replicate 40 0) 0 0 0 0 0 0 0.
