(* ===== verification/Processes.v ===== *)
(** * Processes: several processes beside each other (src/process.c)

    [Spawn] creates one process.  Here the root task creates one after the other:
    each has buffers, an environment and blocks of memory that none of the others
    has, and what was true of the earlier ones stays true. *)

From Stdlib Require Import String.
From stdpp Require Import strings.
From S2P Require Import Prelude Config Memory LinkedList Pool PoolSearch Sync Ipc Untyped Thread Process Spawn System.

Section processes_c.
Context {CFG : Config} {K P : Type} {OBJ : SyncObjects K} {ROOT : RootEnv K} {CSP : ProcessCSpace P}.
Context {LIB : ProcessLib K P} {SPAWN : SpawnLib K P}.

(** One call after the other, with these names and priorities. *)
Fixpoint create_processes (specs : list (string * Z)) : M (system_state K P) (list ptr) :=
  match specs with
  | [] => ret []
  | spec :: specs =>
      let! process := sel4osapi_process_create spec.1 spec.2 in
      let! processes := create_processes specs in
      ret (process :: processes)
  end.
End processes_c.

(** A process the root task has created: where its structure is, the clients of
    the servers that belong to it and the blocks it was given. *)
Record child (P : Type) := Child {
  ch_spec : string * Z;
  ch_entry : loc * loc;
  ch_process : sel4osapi_process_t P;
  ch_client : sel4osapi_ipcclient_t;
  ch_serial : sel4osapi_serialclient_t;
  ch_blocks : list nat
}.
Arguments Child {P} _ _ _ _ _ _.
Arguments ch_spec {P} _.
Arguments ch_entry {P} _.
Arguments ch_process {P} _.
Arguments ch_client {P} _.
Arguments ch_serial {P} _.
Arguments ch_blocks {P} _.

Section processes_spec.
Context {CFG : Config} {K P : Type} {OBJ : SyncObjects K} {OOK : SyncObjectsOk K} {ROOT : RootEnv K} {ROK : RootEnvOk K}.
Context {CSP : ProcessCSpace P} {COK : ProcessCSpaceOk P} {LIB : ProcessLib K P} {LOK : ProcessLibOk K P}.
Context {SPAWN : SpawnLib K P} {SOK : SpawnLibOk K P}.
Implicit Types (s : system_state K P) (k : K) (ch : child P) (chs : list (child P)) (owners : list Z) (blocks : list vka_object_t).

(** The memory of a process that is mapped in the root task: its buffers, and its
    environment. *)
Definition memory_of ch : list (Z * Z) :=
  regions (ch_client ch) ++ [(sl_buf (ch_serial ch), PAGE_SIZE_4K); (pr_env_page (ch_process ch), PAGE_SIZE_4K)].

Definition ch_native ch : sel4utils_process_t P := pr_native (ch_process ch).
Definition ch_env ch : sel4osapi_process_env_t := pr_env (ch_process ch).

(** Process [pid] was told the truth: its environment, and in it the capabilities
    of its blocks. *)
Record child_ok (rx : nat) blocks s (pid : Z) ch : Prop := {
  co_id : ic_id (ch_client ch) = pid;
  co_env : env_made pid (ch_spec ch).1 (ch_spec ch).2 (given_caps (ch_native ch)) (ch_client ch) (ch_serial ch)
    (sy_sysclock_ep s) (sy_stack_op_ep s) (pr_parent_idling_aep (ch_process ch)) rx (ch_env ch) (root_of (kern s)) (np_spaces (ch_native ch));
  co_real : Forall (fun i => (i < length blocks)%nat) (ch_blocks ch);
  co_blocks : blocks_at (np_spaces (ch_native ch)) pid (new_process_slot + 2) blocks (ch_blocks ch);
  co_untypeds : env_after (pe_untypeds (ch_env ch)) (zero_env CONFIG_MAX_NUM_BOOTINFO_UNTYPED_CAPS) (new_process_slot + 2) (ch_blocks ch)
}.

(** The blocks of [n] processes created one after the other: each gets the first ones
    that are free. *)
Fixpoint shares (pid : Z) owners (n : nat) : list (list nat) :=
  match n with
  | O => []
  | S n => claimed owners :: shares (pid + 1) (give pid (claimed owners) owners) n
  end.

(** Of [r] blocks after those that are taken. *)
Lemma claimed_prefix pre r : Forall (fun o => o <> 0) pre -> claimed (pre ++ replicate r 0) = seq (length pre) (Nat.min blocks_needed r).
Proof.
  intros Hpre. unfold claimed, free_blocks. rewrite length_app, length_replicate, seq_app, filter_app. cbn [Nat.add].
  rewrite (filter_none _ (seq 0 _)), (filter_all _ (seq (length pre) r)), app_nil_l; [apply take_seq| |]; apply Forall_forall; intros i [Hl Hi]%elem_of_seq.
  - rewrite lookup_app_r by done. apply lookup_replicate. split; [done|lia].
  - cbn in Hi. rewrite lookup_app_l by done. intros Hx. by apply (proj1 (Forall_lookup _ _) Hpre i 0).
Qed.

Lemma give_prefix pid pre m r : (m <= r)%nat -> give pid (seq (length pre) m) (pre ++ replicate r 0) = pre ++ replicate m pid ++ replicate (r - m) 0.
Proof.
  intros Hm. unfold give. replace r with (m + (r - m))%nat at 1 by lia. rewrite replicate_add.
  generalize (replicate (r - m) 0). clear r Hm. intros tl. revert pre. induction m as [|m IH]; intros pre; [done|]. cbn [seq foldr replicate app].
  specialize (IH (pre ++ [0])). rewrite length_app, Nat.add_1_r in IH. rewrite <- !app_assoc in IH. cbn [app] in IH. rewrite IH.
  by rewrite insert_app_r_alt, Nat.sub_diag by done.
Qed.

(** Process [j] of [n] gets its blocks after those of the earlier ones. *)
Definition fair_shares (r n : nat) : list (list nat) :=
  (fun j => seq (j * blocks_needed) (Nat.min blocks_needed (r - j * blocks_needed))) <$> seq 0 n.

Lemma shares_prefix pid pre r n : 0 < pid -> Forall (fun o => o <> 0) pre ->
  shares pid (pre ++ replicate r 0) n = (fun j => seq (length pre + j * blocks_needed) (Nat.min blocks_needed (r - j * blocks_needed))) <$> seq 0 n.
Proof.
  revert pid pre r. induction n as [|n IH]; intros pid pre r Hpid Hpre; [done|]. cbn [shares seq].
  rewrite claimed_prefix, give_prefix by (done || lia). rewrite app_assoc, IH; [|lia|apply Forall_app; split; [done|apply Forall_replicate; lia]].
  rewrite <- (fmap_S_seq 0 n), fmap_cons, <- list_fmap_compose, length_app, length_replicate.
  f_equal; [f_equal; lia|]. apply list_fmap_ext. intros _ j _. cbn.
  destruct (Nat.le_gt_cases blocks_needed r); [f_equal; lia|].
  by replace (r - (blocks_needed + j * blocks_needed))%nat with 0%nat by lia; replace (r - Nat.min blocks_needed r)%nat with 0%nat by lia; cbn; rewrite !Nat.min_0_r.
Qed.

(** The processes [chs] of a root task that had mapped [old] before, with [free]
    structures for more. *)
Record family (rx : nat) old blocks owners free chs s : Prop := {
  fa_processes : holds (sy_processes s) free (ch_entry <$> chs) (ch_process <$> chs);
  fa_ipc : exists f b, length f = length free /\ holds (ipc_clients (sy_ipc s)) f b (ch_client <$> chs);
  fa_serial : exists f b, length f = length free /\ holds (sy_serial_clients s) f b (ch_serial <$> chs);
  fa_table : table_rep (sy_table s) blocks owners;
  fa_owners : forall i (j : nat), owners !! i = Some (Z.of_nat j + 1) <-> exists ch, chs !! j = Some ch /\ i ∈ ch_blocks ch;
  fa_mapped : mapped (kern s) = concat (reverse (memory_of <$> chs)) ++ old;
  fa_inv : objects_inv (kern s);
  fa_children : forall (j : nat) ch, chs !! j = Some ch -> child_ok rx blocks s (Z.of_nat j + 1) ch
}.

(** Room in the root task for [n] more. *)
Record room_for (rx tx n : nat) k : Prop := {
  rf_objects : (4 * n <= objects_left (objects_of k))%nat;
  rf_pages : Z.of_nat n * (2 + buf_pages) <= pages_left k;
  rf_slots : (n * create_slots rx tx <= slots_left (root_of k))%nat
}.

Lemma room_for_took rx tx n k k' : room_for rx tx (S n) k -> took 4 (2 + buf_pages) (create_slots rx tx) k k' -> room_for rx tx n k'.
Proof. intros [H1 H2 H3] [_ G1 G2 [_ G3]]. split; lia. Qed.

Lemma room_for_one rx tx n k : spawn_sizes rx tx n -> forall m, room_for rx tx (S m) k -> room_for rx tx 1 k.
Proof. intros Hsz m [H1 H2 H3]. destruct Hsz. unfold buf_pages in *. split; unfold buf_pages; nia. Qed.

(** What is true of a process does not become false when the root task gains. *)
Lemma env_made_keeps pid name priority given ipc ser sys stack aep rx e w w' p : keeps w w' ->
  env_made pid name priority given ipc ser sys stack aep rx e w p -> env_made pid name priority given ipc ser sys stack aep rx e w' p.
Proof.
  intros Hk [H1 H2 H3 H4 H5 H6 H7 H8 H9]. split; try done; by eapply shared_pages_mono.
Qed.

Lemma child_ok_kept rx blocks s s' pid ch : server_eps s' = server_eps s ->
  keeps (root_of (kern s)) (root_of (kern s')) -> child_ok rx blocks s pid ch -> child_ok rx blocks s' pid ch.
Proof. intros [= H1 H2 _] Hk [Hid He Hr Hb Hu]. split; try done. rewrite H1, H2. by eapply env_made_keeps. Qed.

(** One more process: its blocks were nobody's. *)
Lemma owners_snoc owners chs ch :
  (forall i (j : nat), owners !! i = Some (Z.of_nat j + 1) <-> exists ch, chs !! j = Some ch /\ i ∈ ch_blocks ch) ->
  ch_blocks ch = claimed owners ->
  forall i (j : nat), give (Z.of_nat (length chs) + 1) (claimed owners) owners !! i = Some (Z.of_nat j + 1) <->
    exists ch', (chs ++ [ch]) !! j = Some ch' /\ i ∈ ch_blocks ch'.
Proof.
  intros Ho Hb i j. destruct (decide (i ∈ claimed owners)) as [Hi|Hi].
  - pose proof (claimed_free _ _ Hi) as H0. rewrite give_lookup_in by (done || by eapply lookup_lt_Some). split.
    + intros [= Hj]. assert (j = length chs) as -> by lia. exists ch. rewrite Hb. split; [by apply list_lookup_middle|done].
    + intros (ch' & [Hj|[Hj Hc]]%lookup_snoc_Some & Hin); [|by simplify_eq].
      destruct Hj as [_ Hj]. assert (Hx : owners !! i = Some (Z.of_nat j + 1)) by (apply Ho; eauto). rewrite H0 in Hx. by simplify_eq; lia.
  - rewrite give_lookup_out, Ho by done. split; intros (ch' & Hj & Hin); exists ch'; (split; [|done]).
    + by apply lookup_app_l_Some.
    + apply lookup_snoc_Some in Hj as [[_ Hj]|[_ <-]]; [done|]. by rewrite Hb in Hin.
Qed.

Lemma family_create rx tx old blocks owners x free chs spec s : family rx old blocks owners (x :: free) chs s ->
  spawn_sizes rx tx (length owners) -> Z.of_nat (length chs) + 1 < 256 -> room_for rx tx 1 (kern s) ->
  wp (sel4osapi_process_create spec.1 spec.2) (fun r s' => r = Some x.2 /\ exists ch,
    ch_spec ch = spec /\ ch_entry ch = x /\ ch_blocks ch = claimed owners /\ family rx old blocks (give (Z.of_nat (length chs) + 1) (claimed owners) owners) free (chs ++ [ch]) s' /\
    server_eps s' = server_eps s /\ took 4 (2 + buf_pages) (create_slots rx tx) (kern s) (kern s')) s.
Proof.
  intros [Rp (f & b & Hf & Ri) (g & d & Hg & Rs) Htab Hown Hmap Hinv Hch] Hsz Hpid [Ho Hp Hs].
  destruct f as [|xi f]; [done|]. destruct g as [|xs g]; [done|].
  eapply wp_mono; [apply (wp_process_create spec.1 spec.2 s x free (ch_entry <$> chs) (ch_process <$> chs) xi f b (ch_client <$> chs) xs g d (ch_serial <$> chs) blocks owners rx tx)|].
  { split; try done; rewrite ?length_fmap; try done; lia. }
  intros r s' (-> & v & c & ser & Rp' & Ri' & _ & Rs' & _ & [Ht Hm Ha Hid He Htab' Hb Hu E]). split; [done|].
  rewrite length_fmap in *. exists (Child spec x v c ser (claimed owners)). do 3 (split; [done|]). split; [|by split]. injection E as E1 E2 E3.
  split; rewrite ?fmap_app; try done.
  - exists f, (b ++ [xi]). cbn in Hf. split; [lia|done].
  - exists g, (d ++ [xs]). cbn in Hg. split; [lia|done].
  - by apply owners_snoc.
  - rewrite Hm, Hmap. cbn [fmap list_fmap]. rewrite reverse_snoc. cbn [concat]. unfold memory_of. by rewrite <- !app_assoc.
  - apply Ht.
  - intros j ch [[_ Hj]|[-> <-]]%lookup_snoc_Some.
    + eapply (child_ok_kept _ _ s); [unfold server_eps; by rewrite E1, E2, E3|apply Ht|by apply Hch].
    + split; cbn; [done|by rewrite E1, E2| |done|done]. destruct Htab as (_ & _ & -> & _). apply claimed_lt.
Qed.

Lemma family_none rx old blocks owners chs name priority s : family rx old blocks owners [] chs s ->
  wp (sel4osapi_process_create name priority) (fun r s' => r = NULL /\ kern s' = kern s /\ server_eps s' = server_eps s /\ family rx old blocks owners [] chs s') s.
Proof.
  intros F. eapply wp_mono; [apply wp_create_none, (fa_processes _ _ _ _ _ _ _ F)|]. intros r s' [-> (p & -> & R)]. do 3 (split; [done|]).
  pose proof F as []. split; try done. intros j ch Hj. eapply (child_ok_kept _ _ s); [done|apply keeps_refl|by apply (fa_children _ _ _ _ _ _ _ F)].
Qed.

Lemma wp_create_processes rx tx old blocks owners free chs specs s : family rx old blocks owners free chs s ->
  spawn_sizes rx tx (length owners) -> Z.of_nat (length chs + length free) < 256 ->
  room_for rx tx (Nat.min (length specs) (length free)) (kern s) ->
  wp (create_processes specs) (fun ptrs s' => exists new free' owners',
    ch_spec <$> new = take (length free) specs /\ ch_blocks <$> new = shares (Z.of_nat (length chs) + 1) owners (length new) /\
    ptrs = ((fun ch => Some (ch_entry ch).2) <$> new) ++ replicate (length specs - length free) NULL /\
    length free' = (length free - length specs)%nat /\ length owners' = length owners /\ server_eps s' = server_eps s /\
    family rx old blocks owners' free' (chs ++ new) s') s.
Proof.
  intros F Hsz. revert owners free chs s F Hsz. induction specs as [|spec specs IH]; intros owners free chs s F Hsz Hpid Hroom; cbn [create_processes].
  { wp_step. exists [], free, owners. rewrite take_nil, (app_nil_r chs). split_and!; [done|done|done|cbn; lia|done..]. }
  destruct free as [|x free].
  - wp_step. eapply wp_mono; [by apply family_none|]. intros r s1 (-> & Hk & E1 & F1). wp_step. eapply wp_mono.
    { apply (IH owners [] chs s1 F1 Hsz Hpid). by rewrite Nat.min_0_r, Hk. }
    intros ptrs s2 (new & free' & owners' & Hn & Hb & -> & Hf & Ho & E2 & F2). wp_step. rewrite take_0 in Hn. apply fmap_nil_inv in Hn as ->.
    exists [], free', owners'. split_and!; try done; [cbn; by rewrite Nat.sub_0_r|by rewrite E2].
  - cbn [length] in *. wp_step. eapply wp_mono.
    { apply (family_create rx tx); [exact F|exact Hsz|lia|by eapply room_for_one]. }
    intros r s1 (-> & ch & Hspec & He & Hblk & F1 & E1 & T). wp_step. eapply wp_mono.
    { apply (IH _ free (chs ++ [ch]) s1 F1).
      - by rewrite give_length.
      - rewrite length_app. cbn [length]. lia.
      - eapply room_for_took; [exact Hroom|exact T]. }
    intros ptrs s2 (new & free' & owners' & Hn & Hb & -> & Hf & Ho & E2 & F2). wp_step. exists (ch :: new), free', owners'.
    rewrite <- app_assoc in F2. split_and!; try done.
    + cbn. by rewrite Hspec, Hn.
    + rewrite length_app in Hb. cbn [fmap list_fmap length shares] in *. rewrite Hblk, Hb.
      by replace (Z.of_nat (length chs + 1) + 1) with (Z.of_nat (length chs) + 1 + 1) by lia.
    + cbn. by rewrite He.
    + by rewrite Ho, give_length.
    + by rewrite E2.
Qed.

(** Two processes never get the same block. *)
Lemma family_blocks rx old blocks owners free chs s i j1 j2 ch1 ch2 : family rx old blocks owners free chs s ->
  chs !! j1 = Some ch1 -> chs !! j2 = Some ch2 -> i ∈ ch_blocks ch1 -> i ∈ ch_blocks ch2 -> j1 = j2.
Proof.
  intros F H1 H2 Hi1 Hi2. pose proof (fa_owners _ _ _ _ _ _ _ F i) as Ho.
  assert (E1 : owners !! i = Some (Z.of_nat j1 + 1)) by (apply Ho; eauto).
  assert (E2 : owners !! i = Some (Z.of_nat j2 + 1)) by (apply Ho; eauto). rewrite E1 in E2. simplify_eq. lia.
Qed.

(** *** The frames behind the buffers *)

(** The object behind a page of the root task. *)
Definition page_frame k (a : Z) : option Z := page_caps (root_of k) !! a ≫= object_of (root_of k).

(** The objects behind [n] pages from [b] on in an address space. *)
Definition frames_at k (m : gmap Z Z) (b : Z) (n : nat) : list Z :=
  omap (fun i : nat => m !! (b + Z.of_nat i * PAGE_SIZE_4K) ≫= object_of (root_of k)) (seq 0 n).

(** The frames of the buffers a process sees, where its environment says they are. *)
Definition buffer_frames (rx : nat) k ch : list Z :=
  let m := pmap (np_spaces (ch_native ch)) in
  frames_at k m (ic_tx_buf (pe_ipcclient (ch_env ch))) rx ++ frames_at k m (ic_rx_buf (pe_ipcclient (ch_env ch))) rx ++
  frames_at k m (sl_buf (pe_serial (ch_env ch))) 1.

(** The pages of a region. *)
Definition pages_from (a : Z) (n : nat) : list Z := (fun i : nat => a + Z.of_nat i * PAGE_SIZE_4K) <$> seq 0 n.
Definition region_pages (r : Z * Z) : list Z := pages_from r.1 (Z.to_nat (r.2 / PAGE_SIZE_4K)).

Lemma pages_from_NoDup a n : NoDup (pages_from a n).
Proof. apply NoDup_fmap_2_strong; [|apply NoDup_seq]. intros i j _ _ H. unfold PAGE_SIZE_4K in H. lia. Qed.

Lemma region_pages_in r a : a ∈ region_pages r -> r.1 <= a < r.1 + r.2.
Proof.
  intros (i & -> & [_ Hi]%elem_of_seq)%list_elem_of_fmap. unfold PAGE_SIZE_4K in *.
  pose proof (Z.mul_div_le r.2 4096 ltac:(lia)). lia.
Qed.

(** Regions that are apart have no page in common. *)
Lemma regions_NoDup rs : ForallOrdPairs apart rs -> NoDup (concat (region_pages <$> rs)).
Proof.
  induction 1 as [|r rs Hr _ IH]; [constructor|]. cbn. apply NoDup_app. split; [apply pages_from_NoDup|]. split; [|done].
  intros a Ha%region_pages_in. rewrite list_elem_of_In, in_concat. intros (l & Hl & Hin). rewrite <- list_elem_of_In in Hl. rewrite <- list_elem_of_In in Hin.
  apply list_elem_of_fmap in Hl as (r' & -> & Hr'). apply region_pages_in in Hin. rewrite Forall_forall in Hr.
  specialize (Hr _ Hr'). unfold apart in Hr. lia.
Qed.

Lemma NoDup_omap_inj {A B} (f : A -> option B) l : (forall x y b, f x = Some b -> f y = Some b -> x = y) -> NoDup l -> NoDup (omap f l).
Proof.
  intros Hf. induction 1 as [|x l Hx _ IH]; [constructor|]. cbn. destruct (f x) as [b|] eqn:Hb; [|done].
  constructor; [|done]. intros (y & Hy & Hfy)%list_elem_of_omap. by rewrite (Hf x y b Hb Hfy) in Hx.
Qed.

Lemma concat_Permutation {A} (l1 l2 : list (list A)) : l1 ≡ₚ l2 -> concat l1 ≡ₚ concat l2.
Proof.
  induction 1 as [|x l1 l2 _ IH|x y l|l1 l2 l3 _ IH1 _ IH2]; cbn; [done|by rewrite IH| |by etrans].
  by rewrite !app_assoc, (Permutation_app_comm x y).
Qed.

(** A shared buffer has the frames of the root task's. *)
Lemma shared_frames k m a b n : shared_pages (root_of k) m a b n ->
  frames_at k m b n = omap (page_frame k) (pages_from a n) /\ length (frames_at k m b n) = n.
Proof.
  intros Hs. unfold frames_at, pages_from.
  assert (H : forall l, Forall (fun i => (i < n)%nat) l ->
    omap (fun i : nat => m !! (b + Z.of_nat i * PAGE_SIZE_4K) ≫= object_of (root_of k)) l =
      omap (page_frame k) ((fun i : nat => a + Z.of_nat i * PAGE_SIZE_4K) <$> l) /\
    length (omap (fun i : nat => m !! (b + Z.of_nat i * PAGE_SIZE_4K) ≫= object_of (root_of k)) l) = length l).
  { induction 1 as [|i l Hi _ [IH1 IH2]]; [done|]. destruct (Hs i Hi) as (c0 & c & o & H1 & H2 & H3 & H4). cbn.
    unfold page_frame at 1. rewrite H1, H2. cbn. rewrite H3, H4. cbn. by rewrite IH2, IH1. }
  destruct (H (seq 0 n)) as [E L]; [apply Forall_forall; intros i [_ Hi]%elem_of_seq; lia|]. rewrite length_seq in L. by split.
Qed.

Lemma child_frames rx tx n blocks s pid ch : spawn_sizes rx tx n -> child_ok rx blocks s pid ch ->
  length (buffer_frames rx (kern s) ch) = (2 * rx + 1)%nat /\
  exists l, buffer_frames rx (kern s) ch = omap (page_frame (kern s)) l /\ sublist l (concat (region_pages <$> memory_of ch)).
Proof.
  intros [_ _ Hrx Htx Hle _ _ _ _] [_ [_ _ _ _ Hr Ht Hs _ _] _ _].
  destruct (shared_frames _ _ _ _ _ Hr) as [E1 L1], (shared_frames _ _ _ _ _ Ht) as [E2 L2], (shared_frames _ _ _ _ _ Hs) as [E3 L3].
  unfold buffer_frames. split; [rewrite !length_app; unfold ch_env, ch_native in *; lia|].
  eexists (pages_from (ic_tx_buf (ch_client ch)) rx ++ pages_from (ic_rx_buf (ch_client ch)) rx ++ pages_from (sl_buf (ch_serial ch)) 1).
  split; [unfold ch_env, ch_native in *; by rewrite E1, E2, E3, !omap_app|].
  unfold memory_of, regions, region_pages. cbn [app fmap list_fmap concat fst snd]. rewrite Hrx, Htx.
  rewrite !Z.div_mul, !Nat2Z.id by done. apply sublist_app.
  - unfold pages_from. replace tx with (rx + (tx - rx))%nat by lia. rewrite seq_app, fmap_app. by apply sublist_inserts_r.
  - apply sublist_app; [done|]. by apply sublist_inserts_r.
Qed.

Lemma family_frames rx tx old blocks owners free chs s : spawn_sizes rx tx (length owners) -> family rx old blocks owners free chs s ->
  NoDup (concat (buffer_frames rx (kern s) <$> chs)) /\ Forall (fun ch => length (buffer_frames rx (kern s) ch) = (2 * rx + 1)%nat) chs.
Proof.
  intros Hsz [_ _ _ _ _ Hm Hi Hch]. pose proof (sp_apart _ Hi) as Ha.
  assert (Hall : Forall (fun ch => length (buffer_frames rx (kern s) ch) = (2 * rx + 1)%nat /\
    exists l, buffer_frames rx (kern s) ch = omap (page_frame (kern s)) l /\ sublist l (concat (region_pages <$> memory_of ch))) chs).
  { apply Forall_lookup. intros j ch Hj. eapply child_frames; [exact Hsz|by apply Hch]. }
  split; [|eapply Forall_impl; [exact Hall|]; by intros ch []].
  assert (Hl : exists l, concat (buffer_frames rx (kern s) <$> chs) = omap (page_frame (kern s)) l /\
    sublist l (concat (region_pages <$> concat (memory_of <$> chs)))).
  { clear - Hall. induction Hall as [|ch chs [_ (l & E & Hl)] _ (ls & Es & Hls)]; [by exists []|].
    exists (l ++ ls). rewrite !fmap_cons, !concat_cons, E, Es, omap_app, fmap_app, concat_app. split; [done|by apply sublist_app]. }
  destruct Hl as (l & -> & Hl). apply NoDup_omap_inj.
  { intros x y o (c1 & H1 & H2)%bind_Some (c2 & H3 & H4)%bind_Some. by eapply sp_frames. }
  eapply sublist_NoDup; [|exact Hl]. apply regions_NoDup in Ha. rewrite Hm, fmap_app, concat_app in Ha. apply NoDup_app in Ha as [Ha _].
  by rewrite <- (concat_Permutation _ _ (fmap_Permutation region_pages _ _ (concat_Permutation _ _ (reverse_Permutation (memory_of <$> chs))))).
Qed.

(** The processes [chs] beside each other in a root task that had mapped [old]
    before: process [j + 1] was told the truth; their buffers and environments overlap
    neither each other nor [old]; the buffers they see have different frames, all there;
    no block of untyped memory was given to two of them. *)
Record isolated (rx : nat) old blocks chs s : Prop := {
  is_children : forall (j : nat) ch, chs !! j = Some ch -> child_ok rx blocks s (Z.of_nat j + 1) ch;
  is_apart : ForallOrdPairs apart (concat (reverse (memory_of <$> chs)) ++ old);
  is_frames : NoDup (concat (buffer_frames rx (kern s) <$> chs));
  is_seen : Forall (fun ch => length (buffer_frames rx (kern s) ch) = (2 * rx + 1)%nat) chs;
  is_blocks : forall i j1 j2 ch1 ch2, chs !! j1 = Some ch1 -> chs !! j2 = Some ch2 -> i ∈ ch_blocks ch1 -> i ∈ ch_blocks ch2 -> j1 = j2
}.

Lemma family_isolated rx tx old blocks owners free chs s : spawn_sizes rx tx (length owners) -> family rx old blocks owners free chs s ->
  isolated rx old blocks chs s.
Proof.
  intros Hsz F. destruct (family_frames _ _ _ _ _ _ _ _ Hsz F). split; try done.
  - apply F.
  - rewrite <- (fa_mapped _ _ _ _ _ _ _ F). apply sp_apart, F.
  - intros i j1 j2 ch1 ch2. by eapply family_blocks.
Qed.

(** A root task that has created none. *)
Record no_children s free old blocks owners : Prop := {
  nc_processes : holds (sy_processes s) free [] [];
  nc_ipc : exists f, length f = length free /\ holds (ipc_clients (sy_ipc s)) f [] [];
  nc_serial : exists f, length f = length free /\ holds (sy_serial_clients s) f [] [];
  nc_table : table_rep (sy_table s) blocks owners;
  nc_owners : Forall (fun o => o = 0) owners;
  nc_mapped : mapped (kern s) = old;
  nc_inv : objects_inv (kern s)
}.

Lemma no_children_family rx s free old blocks owners : no_children s free old blocks owners -> family rx old blocks owners free [] s.
Proof.
  intros [Rp (f & Hf & Ri) (g & Hg & Rs) Ht Ho Hm Hi]. split; try done; [by exists f, []|by exists g, []|].
  intros i j. split; [|by intros (? & ? & _)]. intros Hl. rewrite Forall_lookup in Ho. apply Ho in Hl. lia.
Qed.

Lemma wp_processes rx tx free old blocks owners specs s : no_children s free old blocks owners ->
  spawn_sizes rx tx (length owners) -> Z.of_nat (length free) < 256 ->
  room_for rx tx (Nat.min (length specs) (length free)) (kern s) ->
  wp (create_processes specs) (fun ptrs s' => exists chs free',
    ch_spec <$> chs = take (length free) specs /\ ch_blocks <$> chs = shares 1 owners (length chs) /\
    ptrs = ((fun ch => Some (ch_entry ch).2) <$> chs) ++ replicate (length specs - length free) NULL /\
    NoDup (ch_entry <$> chs).*2 /\
    holds (sy_processes s') free' (ch_entry <$> chs) (ch_process <$> chs) /\
    server_eps s' = server_eps s /\ isolated rx old blocks chs s') s.
Proof.
  intros N Hsz Hpid Hroom. eapply wp_mono.
  { apply (wp_create_processes rx tx old blocks owners free [] specs s); [by apply no_children_family|done|done|done]. }
  intros ptrs s' (chs & free' & owners' & Hspec & Hblk & -> & _ & Hlen & Heps & F). exists chs, free'. pose proof (fa_processes _ _ _ _ _ _ _ F) as Rp.
  destruct (holds_length _ _ _ _ Rp) as (_ & _ & Hnd & _). split_and!; try done. eapply (family_isolated _ tx); [|exact F]. by rewrite Hlen.
Qed.

(** C3: However many processes the root task is asked to create, those for which
    there is a structure exist beside each other, with pids 1, 2, ... in the order of the
    calls, and the calls for the others return NULL.  After the last call each
    environment is as true as it was after its own ([child_ok]: capabilities, shared
    buffers, blocks); the buffers and environments of all, and what the root task
    had mapped before, are disjoint regions of its address space; no two pages of
    buffers, of one or of two processes, have the same frame; each gets the first blocks of untyped
    memory that are left, and no block is given to two. *)
Theorem processes_isolated rx tx free old blocks owners specs s : no_children s free old blocks owners ->
  spawn_sizes rx tx (length owners) -> Z.of_nat (length free) < 256 ->
  room_for rx tx (Nat.min (length specs) (length free)) (kern s) ->
  wp (create_processes specs) (fun ptrs s' => exists chs free',
    ch_spec <$> chs = take (length free) specs /\ ch_blocks <$> chs = shares 1 owners (length chs) /\
    ptrs = ((fun ch => Some (ch_entry ch).2) <$> chs) ++ replicate (length specs - length free) NULL /\
    NoDup (ch_entry <$> chs).*2 /\
    holds (sy_processes s') free' (ch_entry <$> chs) (ch_process <$> chs) /\
    server_eps s' = server_eps s /\ isolated rx old blocks chs s') s.
Proof. apply wp_processes. Qed.
End processes_spec.

(** ** A root task with structures for two processes *)

Section samples.
#[local] Existing Instance default_config.

Definition pool_of_two {E} (v : E) : pool_state E :=
  match new_pool 2 8 (Heap 1 65536 ∅ ∅ ∅, v) tt with
  | Done (p, _) => p
  | _ => one_free v
  end.

Lemma pool_of_two_holds {E} (v : E) : exists f, length f = 2%nat /\ holds (pool_of_two v) f [] [].
Proof.
  destruct (wp_new_pool 2 8 (Heap 1 65536 ∅ ∅ ∅, v) (fun p _ => fresh_pool 2 p) tt) as (p & [] & Hp & Hf); [|done|].
  - apply arena_empty_ok; [done|done|]. by apply Z.leb_le.
  - unfold pool_of_two. by rewrite Hp.
Qed.

Definition board_of_two : board := Board (SyncState (Heap 1 65536 ∅ ∅ ∅) (SyncView ∅ ∅ 16)) (DemoRoot ∅ ∅ 64) 268435456 [] 64.
Definition system_of_two : system_state board demo_process :=
  SystemState (pool_of_two blank_process) (ten_table (replicate 10 0))
    (IpcState NULL (pool_of_two (IpcClient 0 NULL NULL 0 0 0 0)) board_of_two) (pool_of_two (SerialClient 0 NULL 0 0 0)) 40 30 31.

Lemma two_ready : exists f, length f = 2%nat /\ no_children system_of_two f [] ten_blocks (replicate 10 0).
Proof.
  destruct (pool_of_two_holds blank_process) as (f & Hf & R). exists f. split; [done|].
  split; try done; rewrite ?Hf; try apply pool_of_two_holds.
  - by apply ten_table_rep.
  - by apply Forall_replicate.
  - by apply empty_board_inv.
Qed.

Lemma two_sizes : spawn_sizes (K := board) (P := demo_process) 4 4 (length (replicate 10 0)).
Proof. split; try done; try (apply Nat.leb_le; reflexivity); lia. Qed.

Lemma two_room : room_for (P := demo_process) 4 4 2 (kern system_of_two).
Proof. split; [by apply Nat.leb_le|by apply Z.leb_le|by apply Nat.leb_le]. Qed.

Lemma processes_isolated_witness :
  wp (create_processes [("shell", 100); ("logger", 90); ("late", 80)]%string) (fun ptrs s' => exists p1 p2 ch1 ch2,
    ptrs = [Some p1; Some p2; NULL] /\ p1 <> p2 /\ pe_pid (ch_env ch1) = 1 /\ pe_pid (ch_env ch2) = 2 /\
    length (buffer_frames 4 (kern s') ch1) = 9%nat /\
    forall f, f ∈ buffer_frames 4 (kern s') ch1 -> f ∈ buffer_frames 4 (kern s') ch2 -> False) system_of_two.
Proof.
  destruct two_ready as (f & Hf & Hno). eapply wp_mono.
  - apply (processes_isolated 4 4 f [] ten_blocks (replicate 10 0)); [exact Hno|exact two_sizes|rewrite Hf; reflexivity|rewrite Hf; exact two_room].
  - intros ptrs s' (chs & free' & Hspec & _ & -> & Hnd & _ & _ & [Hch _ Hfr Hlen _]). rewrite Hf in *.
    destruct chs as [|ch1 [|ch2 [|ch3 chs]]]; try done. cbn in Hspec, Hnd.
    exists (ch_entry ch1).2, (ch_entry ch2).2, ch1, ch2. split; [done|]. split.
    { intros E. rewrite E in Hnd. apply NoDup_cons in Hnd as [Hn _]. by apply Hn, list_elem_of_here. }
    split; [apply (co_env _ _ _ _ _ (Hch 0%nat ch1 eq_refl))|]. split; [apply (co_env _ _ _ _ _ (Hch 1%nat ch2 eq_refl))|].
    split; [by apply Forall_cons in Hlen as [Hlen _]|]. intros o H1 H2. cbn in Hfr. apply NoDup_app in Hfr as (_ & Hd & _).
    apply (Hd o H1). rewrite app_nil_r. exact H2.
Defined.
End samples.
