(* ===== verification/UserBoot.v ===== *)
(** * UserBoot: the start of a process (src/system.c, sel4osapi_system_initialize_process)

    The process finds the endpoint the root task talks to in its arguments,
    receives the address of its environment, and sets up an allocator with the
    blocks of untyped memory the environment lists, a main thread, the log and
    the clients of the servers of the root task.

    The libraries of seL4 are the environment ([UserLib]). *)

From Stdlib Require Import String Ascii.
From stdpp Require Import strings pretty.
From S2P Require Import Prelude Config Memory LinkedList Pool PoolSearch Sync Ipc UdpStack Untyped Thread Process Spawn Args System Processes.

Class UserLib (K : Type) := {
  bootstrap_use_current_1level : Z -> Z -> Z -> Z -> Z -> K -> K;        (* cnode, size bits, free slots, pool size *)
  allocman_utspace_add_uts : Z -> Z -> K -> Z * K;                       (* slot, size bits *)
  seL4_GetIPCBuffer : K -> Z;
  sel4utils_bootstrap_vspace : Z -> list Z -> K -> Z * K;                (* page directory, existing frames *)
  vspace_reserve_range : Z -> K -> (Z * Z) * K;                          (* bytes; reservation, address *)
  bootstrap_configure_virtual_pool : Z -> Z -> Z -> K -> K;              (* address, bytes, page directory *)
  sel4utils_reserve_range_no_alloc : Z -> K -> (Z * Z) * K;              (* bytes; error, address *)
  MEMP_NUM_UDP_PCB : Z
}.

Definition sizeof_udp_socket : Z := 24.

Section user_c.
Context {CFG : Config} {F K : Type} {OBJ : SyncObjects K} {THR : ThreadEnv K} {TASK : TaskLib K} {EP : Endpoints K}.
Context {USER : UserLib K}.

(** Of the environment's [udp_iface], the mutex and the pool; [us_vmem_addr]:
    the memory of the allocator; [us_brk_start], [us_morecore] (bytes of the
    static area, 0 once malloc has its own range): the variables of muslc. *)
Record user_system := UserSystem {
  us_task : task F K;
  us_vmem_addr : Z;
  us_brk_start : Z;
  us_morecore : Z;
  us_udp_mutex : ptr;
  us_udp_sockets : option (pool_state sel4osapi_udp_socket_t)
}.

Definition us_set_task t (s : user_system) :=
  UserSystem t (us_vmem_addr s) (us_brk_start s) (us_morecore s) (us_udp_mutex s) (us_udp_sockets s).
Definition us_set_vmem a (s : user_system) :=
  UserSystem (us_task s) a (us_brk_start s) (us_morecore s) (us_udp_mutex s) (us_udp_sockets s).
Definition us_set_brk a (s : user_system) :=
  UserSystem (us_task s) (us_vmem_addr s) a (us_morecore s) (us_udp_mutex s) (us_udp_sockets s).
Definition us_set_morecore n (s : user_system) :=
  UserSystem (us_task s) (us_vmem_addr s) (us_brk_start s) n (us_udp_mutex s) (us_udp_sockets s).
Definition us_set_udp_mutex l (s : user_system) :=
  UserSystem (us_task s) (us_vmem_addr s) (us_brk_start s) (us_morecore s) l (us_udp_sockets s).
Definition us_set_sockets p (s : user_system) :=
  UserSystem (us_task s) (us_vmem_addr s) (us_brk_start s) (us_morecore s) (us_udp_mutex s) p.

Definition on_task {A} (m : M (task F K) A) : M user_system A := zoom us_task us_set_task m.
Definition user_call {A} (f : K -> A * K) : M user_system A := on_task (task_call f).
Definition user_do (f : K -> K) : M user_system unit := on_task (task_do f).

(** [slot] is an int, [untypeds.end] unsigned. *)
Definition add_untyped (e : untyped_env) (x : Z * Z) : M user_system (Z * Z) :=
  let '(slot, size_bits_index) := x in
  let! size_bits := aget (untyped_size_bits_list e) size_bits_index in
  let! error := user_call (allocman_utspace_add_uts (u32 slot) size_bits) in
  assert_ (error =? 0) ;;
  ret (slot + 1, size_bits_index + 1).

Definition add_untypeds (e : untyped_env) : M user_system unit :=
  let! _ := while (Z.to_nat (untypeds_end e - untypeds_start e + 1)) (fun x => u32 x.1 <=? untypeds_end e) (add_untyped e)
              (s32 (untypeds_start e), 0) in
  ret tt.

Definition sel4osapi_system_bootstrap_user (env : Z) : M user_system unit :=
  modify (us_set_morecore SEL4OSAPI_BOOTSTRAP_MEM_POOL_SIZE) ;;
  on_task (modify (ta_set_env false env)) ;;
  let! e := on_task read_env in
  user_do (bootstrap_use_current_1level (pe_root_cnode e) (pe_cspace_size_bits e) (pe_free_slots e).1 (pe_free_slots e).2
    SEL4OSAPI_ROOT_TASK_UNTYPED_MEM_SIZE) ;;
  add_untypeds (pe_untypeds e) ;;
  let! s := get in
  let! error := user_call (sel4utils_bootstrap_vspace (pe_page_directory e) [env; seL4_GetIPCBuffer (ta_kern (us_task s))]) in
  assert_ (error =? 0) ;;
  let! range := user_call (vspace_reserve_range (SEL4OSAPI_USER_PROCESS_UNTYPED_MEM_SIZE / 4)) in
  modify (us_set_vmem range.2) ;;
  assert_ (negb (range.1 =? 0)) ;;
  user_do (bootstrap_configure_virtual_pool range.2 (SEL4OSAPI_USER_PROCESS_UNTYPED_MEM_SIZE / 4) (pe_page_directory e)) ;;
  let! brk := user_call (sel4utils_reserve_range_no_alloc
    (SEL4OSAPI_USER_PROCESS_UNTYPED_MEM_SIZE - SEL4OSAPI_USER_PROCESS_UNTYPED_MEM_SIZE / 4)) in
  modify (us_set_brk brk.2) ;;
  assert_ (brk.1 =? 0) ;;
  modify (us_set_morecore 0).

Definition pe_set_ipcclient c (e : sel4osapi_process_env_t) : sel4osapi_process_env_t :=
  ProcessEnv (pe_name e) (pe_pid e) (pe_page_directory e) (pe_root_cnode e) (pe_cspace_size_bits e) (pe_tcb e) (pe_free_slots e)
    (pe_untypeds e) (pe_fault_endpoint e) (pe_sysclock_server_ep e) (pe_idling_aep e) (pe_threads e) (pe_priority e)
    c (pe_stack_op_ep e) (pe_serial e).
Definition pe_set_serial c (e : sel4osapi_process_env_t) : sel4osapi_process_env_t :=
  ProcessEnv (pe_name e) (pe_pid e) (pe_page_directory e) (pe_root_cnode e) (pe_cspace_size_bits e) (pe_tcb e) (pe_free_slots e)
    (pe_untypeds e) (pe_fault_endpoint e) (pe_sysclock_server_ep e) (pe_idling_aep e) (pe_threads e) (pe_priority e)
    (pe_ipcclient e) (pe_stack_op_ep e) c.

Definition create_ipc_semaphores : M user_system unit :=
  let! e := on_task read_env in
  let c := pe_ipcclient e in
  assert_ (negb (ic_rx_buf c =? 0)) ;;
  assert_ (negb (ic_tx_buf c =? 0)) ;;
  assert_ (0 <? ic_rx_buf_size c) ;;
  assert_ (0 <? ic_tx_buf_size c) ;;
  let! rx_avail := on_task (on_task_kern (semaphore_create 1)) in
  on_task (upd_env (fun e => pe_set_ipcclient (ic_set_rx_avail rx_avail (pe_ipcclient e)) e)) ;;
  assert_ (non_null rx_avail) ;;
  let! tx_avail := on_task (on_task_kern (semaphore_create 1)) in
  on_task (upd_env (fun e => pe_set_ipcclient (ic_set_tx_avail tx_avail (pe_ipcclient e)) e)) ;;
  assert_ (non_null tx_avail).

Definition create_udp_client (a : arena sel4osapi_udp_socket_t) : M user_system unit :=
  let! mutex := on_task (on_task_kern mutex_create) in
  modify (us_set_udp_mutex mutex) ;;
  assert_ (non_null mutex) ;;
  let! sockets := new_pool MEMP_NUM_UDP_PCB sizeof_udp_socket a in
  modify (us_set_sockets (Some sockets)) ;;
  let! e := on_task read_env in
  assert_ (negb (pe_stack_op_ep e =? 0)).

Definition sl_set_avail l (c : Process.sel4osapi_serialclient_t) :=
  Process.SerialClient (sl_id c) l (sl_buf c) (sl_buf_size c) (sl_server_ep c).

Definition create_serial_semaphore : M user_system unit :=
  let! e := on_task read_env in
  assert_ (negb (sl_buf (pe_serial e) =? 0)) ;;
  assert_ (0 <? sl_buf_size (pe_serial e)) ;;
  let! avail := on_task (on_task_kern (semaphore_create 1)) in
  on_task (upd_env (fun e => pe_set_serial (sl_set_avail avail (pe_serial e)) e)) ;;
  assert_ (non_null avail).

(** [bootstrap_mem_pool]: is it a buffer; [at_], [as_]: the memory for the pools
    of threads and sockets. *)
Definition sel4osapi_system_initialize_process (bootstrap_mem_pool : bool) (argv : list (list Z)) (at_ : arena (sel4osapi_thread_t F))
    (as_ : arena sel4osapi_udp_socket_t) : M user_system Z :=
  assert_ (bootstrap_mem_pool && (length argv =? 3)%nat) ;;
  let! text := deref (argv !! 2%nat) in
  let! endpoint := deref (atoi text) in
  let! m := user_call (seL4_Recv (u32 endpoint)) in
  assert_ (im_label m =? seL4_Fault_NullFault) ;;
  assert_ (length (im_words m) =? 1)%nat ;;
  let! env := deref (im_words m !! 0%nat) in
  assert_ (negb (env =? 0)) ;;
  sel4osapi_system_bootstrap_user env ;;
  on_task sel4osapi_system_initialize_global_mutex ;;
  on_task (new_threads at_) ;;
  on_task sel4osapi_system_initialize_main_thread ;;
  let! _ := on_task sel4osapi_log_initialize in
  create_ipc_semaphores ;;
  create_udp_client as_ ;;
  create_serial_semaphore ;;
  ret 0.
End user_c.
Arguments user_system F K : clear implicits.

(** ** What is used of the libraries

    [ut_at]: the size of the block of untyped memory behind a slot of the CSpace;
    [uts]: the blocks the allocator was given; [vmem_left]: bytes of address
    space not reserved.
    - a new allocator has no blocks; being given one that is in the CSpace makes
      room for objects;
    - a new address space has [user_vmem] bytes, ranges are reserved from it;
    - making objects gives the allocator no blocks. *)
Class UserLibOk (K : Type) `{TaskLibOk K} `{!UserLib K} := {
  ut_at : K -> Z -> option Z;
  uts : K -> list (Z * Z);
  vmem_left : K -> Z;
  ut_room : Z -> nat;
  user_vmem : Z;
  vspace_cost : nat;
  sockets_pos : 0 < MEMP_NUM_UDP_PCB;
  allocator_ok cn bits a b n k : a < b -> let k' := bootstrap_use_current_1level cn bits a b n k in
    objects_inv k' /\ uts k' = [] /\ ut_at k' = ut_at k;
  add_uts_ok slot bits k : objects_inv k -> ut_at k slot = Some bits -> slot ∉ (uts k).*1 ->
    let r := allocman_utspace_add_uts slot bits k in
    r.1 = 0 /\ objects_inv r.2 /\ uts r.2 = uts k ++ [(slot, bits)] /\ ut_at r.2 = ut_at k /\ (room k + ut_room bits <= room r.2)%nat;
  vspace_ok pd frames k : objects_inv k -> (vspace_cost <= room k)%nat -> let r := sel4utils_bootstrap_vspace pd frames k in
    r.1 = 0 /\ objects_inv r.2 /\ uts r.2 = uts k /\ (room k - vspace_cost <= room r.2)%nat /\ vmem_left r.2 = user_vmem;
  reserve_ok n k : objects_inv k -> 0 <= n <= vmem_left k -> let r := vspace_reserve_range n k in
    r.1.1 <> 0 /\ objects_inv r.2 /\ uts r.2 = uts k /\ (room k <= room r.2)%nat /\ vmem_left r.2 = vmem_left k - n;
  virtual_pool_ok a n pd k : objects_inv k -> let k' := bootstrap_configure_virtual_pool a n pd k in
    objects_inv k' /\ uts k' = uts k /\ (room k <= room k')%nat /\ vmem_left k' = vmem_left k;
  reserve_no_alloc_ok n k : objects_inv k -> 0 <= n <= vmem_left k -> let r := sel4utils_reserve_range_no_alloc n k in
    r.1.1 = 0 /\ objects_inv r.2 /\ uts r.2 = uts k /\ (room k <= room r.2)%nat /\ vmem_left r.2 = vmem_left k - n;
  op_uts k k' : task_op k k' -> uts k' = uts k
}.

Section user_spec.
Context {CFG : Config} {F K : Type} {OBJ : SyncObjects K} {OOK : SyncObjectsOk K} {THR : ThreadEnv K} {TOK : ThreadEnvOk K}.
Context {TASK : TaskLib K} {TAOK : TaskLibOk K} {EP : Endpoints K} {USER : UserLib K} {UOK : UserLibOk K}.
Implicit Types (s : user_system F K) (k : K) (e : sel4osapi_process_env_t) (ids : list nat) (st : Z).

Definition ukern s : K := ta_kern (us_task s).
Definition set_ukern k s : user_system F K := us_set_task (ta_set_kern k (us_task s)) s.

Lemma wp_on_task {A} (m : M (task F K) A) (Q : A -> user_system F K -> Prop) s :
  wp m (fun a t => Q a (us_set_task t s)) (us_task s) -> wp (on_task m) Q s.
Proof. apply wp_zoom. Qed.

Lemma wp_user_call {A} (f : K -> A * K) (Q : A -> user_system F K -> Prop) s :
  Q (f (ukern s)).1 (set_ukern (f (ukern s)).2 s) -> wp (user_call f) Q s.
Proof. intros HQ. apply wp_on_task. by apply wp_task_call. Qed.

Lemma user_call_eq {A} (f : K -> A * K) s : user_call f s = Done ((f (ukern s)).1, set_ukern (f (ukern s)).2 s).
Proof. unfold user_call, on_task, task_call, on_task_kern, zoom, set_ukern, ukern. by destruct (f (ta_kern (us_task s))). Qed.

Lemma wp_user_do (f : K -> K) (Q : unit -> user_system F K -> Prop) s : Q tt (set_ukern (f (ukern s)) s) -> wp (user_do f) Q s.
Proof. intros HQ. apply wp_on_task, wp_on_task_kern. by wp_step. Qed.

Lemma spent_uts n k k' : spent n k k' -> uts k' = uts k.
Proof. intros [H _ _ _ _]. clear -H UOK. induction H as [|? k1 k2 k3 Hop _ IH]; [done|]. by rewrite IH, (op_uts _ _ Hop). Qed.

(** *** The blocks of untyped memory *)

(** Blocks of 2^bits bytes in [n] slots from [st] on. *)
Definition blocks_from (st : Z) (n : nat) (bits : Z) : list (Z * Z) := (fun j : nat => (st + Z.of_nat j, bits)) <$> seq 0 n.

Lemma blocks_from_S st n bits : blocks_from st (S n) bits = blocks_from st n bits ++ [(st + Z.of_nat n, bits)].
Proof. unfold blocks_from. rewrite seq_S, fmap_app. done. Qed.

Lemma blocks_from_fresh st n bits : st + Z.of_nat n ∉ (blocks_from st n bits).*1.
Proof.
  unfold blocks_from. rewrite <- list_fmap_compose. intros (j & Hj & [_ Hlt]%elem_of_seq)%list_elem_of_fmap. cbn in Hj. lia.
Qed.

Definition untypeds_in k st (n : nat) (bits : Z) : Prop := forall j : nat, (j < n)%nat -> ut_at k (st + Z.of_nat j) = Some bits.

Lemma wp_add_untypeds (ue : untyped_env) st ids s (Q : unit -> user_system F K -> Prop) :
  env_rep ue st ids -> ids <> [] -> 0 <= st -> st + Z.of_nat (length ids) < 2 ^ 31 -> objects_inv (ukern s) ->
  uts (ukern s) = [] -> untypeds_in (ukern s) st (length ids) untyped_size_bits ->
  (forall k, objects_inv k -> uts k = blocks_from st (length ids) untyped_size_bits ->
     (room (ukern s) + length ids * ut_room untyped_size_bits <= room k)%nat -> Q tt (set_ukern k s)) -> wp (add_untypeds ue) Q s.
Proof.
  intros (Hst & Hend & _ & Hbits) Hne H0 Hlt Hinv Huts Hin HQ. unfold add_untypeds. rewrite Hst, Hend.
  assert (Hn : (0 < length ids)%nat) by (destruct ids; [done|cbn; lia]).
  rewrite s32_small by lia. replace (Z.to_nat (st + Z.of_nat (length ids) - 1 - st + 1)) with (length ids) by lia.
  set (n := length ids) in *. set (s0 := s) in *.
  wp_step. apply (wp_while (fun left x s => exists (j : nat) k, x = (st + Z.of_nat j, Z.of_nat j) /\ (left + j)%nat = n /\
    s = set_ukern k s0 /\ objects_inv k /\ uts k = blocks_from st j untyped_size_bits /\ ut_at k = ut_at (ukern s0) /\
    (room (ukern s0) + j * ut_room untyped_size_bits <= room k)%nat)) with (n := n).
  - intros left x s1 (j & k & -> & Hj & -> & Hi & Hu & Hat & Hr) Hc%Z.leb_le. cbn [fst] in Hc.
    rewrite u32_small in Hc by (unfold is_u32; lia). exists (pred left). split; [lia|]. unfold add_untyped.
    wp_step. apply (wp_aget _ j untyped_size_bits).
    { rewrite <- (lookup_take_lt _ n j) by lia. rewrite Hbits. apply lookup_replicate_2. lia. }
    wp_step. apply wp_user_call. rewrite u32_small by (unfold is_u32; lia). change (ukern (set_ukern k s0)) with k.
    destruct (add_uts_ok (st + Z.of_nat j) untyped_size_bits k Hi) as (He & Hi' & Hu' & Hat' & Hr').
    { rewrite Hat. apply Hin. lia. } { rewrite Hu. apply blocks_from_fresh. }
    rewrite He. wp_steps. exists (S j), (allocman_utspace_add_uts (st + Z.of_nat j) untyped_size_bits k).2.
    split; [f_equal; lia|]. split; [lia|]. split; [done|]. split; [done|]. split; [by rewrite Hu', Hu, blocks_from_S|].
    split; [by rewrite Hat'|lia].
  - intros left x s1 (j & k & -> & Hj & -> & Hi & Hu & Hat & Hr) Hc%Z.leb_gt. cbn [fst] in Hc.
    rewrite u32_small in Hc by (unfold is_u32; lia). assert (j = n) as -> by lia. wp_step. by apply HQ.
  - exists 0%nat, (ukern s0). split; [f_equal; lia|]. split; [lia|]. split; [by destruct s0 as [[]]|]. split; [done|].
    split; [done|]. split; [done|lia].
  - lia.
Qed.

(** *** The whole start *)

(** The state after [sel4osapi_system_bootstrap_user]. *)
Definition bootstrapped a st (n : nat) s s' : Prop := exists k vm brk,
  s' = UserSystem (ta_set_kern k (ta_set_env false a (us_task s))) vm brk 0 (us_udp_mutex s) (us_udp_sockets s) /\
  objects_inv k /\ uts k = blocks_from st n untyped_size_bits /\ (n * ut_room untyped_size_bits - vspace_cost <= room k)%nat.

(** The environment [e] at address [a] names the blocks in the slots from [st] on. *)
Record env_usable a e st ids s : Prop := {
  eu_page : ta_pages (us_task s) !! a = Some e;
  eu_slots : (pe_free_slots e).1 < (pe_free_slots e).2;
  eu_env : env_rep (pe_untypeds e) st ids;
  eu_some : ids <> [];
  eu_range : 0 <= st /\ st + Z.of_nat (length ids) < 2 ^ 31;
  eu_blocks : untypeds_in (ukern s) st (length ids) untyped_size_bits;
  eu_room : (vspace_cost + 8 <= length ids * ut_room untyped_size_bits)%nat;
  eu_vmem : 0 <= SEL4OSAPI_USER_PROCESS_UNTYPED_MEM_SIZE <= user_vmem
}.

Lemma wp_bootstrap_user a e st ids s (Q : unit -> user_system F K -> Prop) : env_usable a e st ids s ->
  (forall s', bootstrapped a st (length ids) s s' -> Q tt s') -> wp (sel4osapi_system_bootstrap_user a) Q s.
Proof.
  intros [Hp Hsl Henv Hne [H0 Hlt] Hin Hroom [Hv0 Hv]] HQ. unfold sel4osapi_system_bootstrap_user.
  wp_step. wp_step. wp_step. apply wp_on_task. wp_step. wp_step. apply wp_on_task.
  eapply wp_read_env; [exact Hp|]. wp_step. apply wp_user_do.
  destruct (allocator_ok (pe_root_cnode e) (pe_cspace_size_bits e) _ _ SEL4OSAPI_ROOT_TASK_UNTYPED_MEM_SIZE (ukern s) Hsl) as (Hi1 & Hu1 & Hat1).
  set (k1 := bootstrap_use_current_1level _ _ _ _ _ (ukern s)) in *.
  wp_step. eapply (wp_add_untypeds _ st ids); [exact Henv|done|done|done| | | |].
  { exact Hi1. } { exact Hu1. } { intros j Hj. change (ut_at k1 (st + Z.of_nat j) = Some untyped_size_bits). rewrite Hat1. by apply Hin. }
  intros k2 Hi2 Hu2 Hr2. wp_step. wp_step. wp_step. apply wp_user_call.
  set (frames := [a; _]). destruct (vspace_ok (pe_page_directory e) frames k2 Hi2) as (He & Hi3 & Hu3 & Hr3 & Hv3); [lia|].
  set (k3 := (sel4utils_bootstrap_vspace (pe_page_directory e) frames k2).2) in *.
  change (ukern (set_ukern k2 _)) with k2. rewrite He. wp_step. wp_step. wp_step. apply wp_user_call.
  set (n := SEL4OSAPI_USER_PROCESS_UNTYPED_MEM_SIZE) in *.
  assert (Hq : 0 <= n / 4 <= n) by (split; [apply Z.div_pos; lia|apply Z.div_le_upper_bound; lia]).
  change (ukern (set_ukern k3 _)) with k3. destruct (reserve_ok (n / 4) k3 Hi3) as (Hres & Hi4 & Hu4 & Hr4 & Hv4); [lia|].
  set (r4 := vspace_reserve_range (n / 4) k3) in *. wp_step. wp_step. wp_step.
  apply wp_assert; [by apply negb_true_iff, Z.eqb_neq|]. wp_step. apply wp_user_do.
  destruct (virtual_pool_ok r4.1.2 (n / 4) (pe_page_directory e) r4.2 Hi4) as (Hi5 & Hu5 & Hr5 & Hv5).
  match goal with |- context [bootstrap_configure_virtual_pool _ _ _ (ukern ?t)] => change (ukern t) with r4.2 end.
  set (k5 := bootstrap_configure_virtual_pool _ _ _ r4.2) in *. wp_step. apply wp_user_call.
  match goal with |- context [sel4utils_reserve_range_no_alloc _ (ukern ?t)] => change (ukern t) with k5 end.
  destruct (reserve_no_alloc_ok (n - n / 4) k5 Hi5) as (Hb & Hi6 & Hu6 & Hr6 & _); [lia|].
  wp_step. wp_step. wp_step. apply wp_assert; [by apply Z.eqb_eq|]. wp_step. apply HQ.
  exists (sel4utils_reserve_range_no_alloc (n - n / 4) k5).2. eexists _, _. split; [reflexivity|]. split; [exact Hi6|].
  split; [by rewrite Hu6, Hu5, Hu4, Hu3|lia].
Qed.

(** The environment of the task, and the state with another one. *)
Definition env_of s : option sel4osapi_process_env_t := ta_pages (us_task s) !! ta_env (us_task s).
Definition set_env e s : user_system F K := us_set_task (ta_set_pages (<[ta_env (us_task s) := e]> (ta_pages (us_task s))) (us_task s)) s.

Lemma wp_user_upd_env f e s (Q : unit -> user_system F K -> Prop) : env_of s = Some e -> Q tt (set_env (f e) s) ->
  wp (on_task (upd_env f)) Q s.
Proof. intros He HQ. apply wp_on_task. by eapply wp_upd_env. Qed.

Lemma wp_user_read_env e s (Q : _ -> user_system F K -> Prop) : env_of s = Some e -> Q e s -> wp (on_task read_env) Q s.
Proof. intros He HQ. apply wp_on_task. eapply wp_read_env; [exact He|]. by destruct s. Qed.

Lemma set_env_twice e e' s : set_env e (set_env e' s) = set_env e s.
Proof. unfold set_env. cbn. by rewrite insert_insert_eq. Qed.

Lemma env_of_set_env e k s : env_of (set_env e (set_ukern k s)) = Some e.
Proof. unfold env_of. cbn. apply lookup_insert_eq. Qed.

(** A binary semaphore for a field of the environment. *)
Lemma wp_user_semaphore s (Q : ptr -> user_system F K -> Prop) : objects_inv (ukern s) -> (0 < room (ukern s))%nat ->
  (forall l k, spent 1 (ukern s) k -> counts (objects_of (ukern s)) !! l = None -> counts (objects_of k) !! l = Some 1 ->
     Q (Some l) (set_ukern k s)) -> wp (on_task (on_task_kern (semaphore_create 1))) Q s.
Proof. intros Hi Hr HQ. by apply wp_on_task, wp_on_task_kern, wp_task_semaphore. Qed.

Definition with_ipc_semaphores rx tx e : sel4osapi_process_env_t :=
  pe_set_ipcclient (ic_set_tx_avail (Some tx) (ic_set_rx_avail (Some rx) (pe_ipcclient e))) e.
Definition with_serial_semaphore l e : sel4osapi_process_env_t := pe_set_serial (sl_set_avail (Some l) (pe_serial e)) e.

Record clients_usable e : Prop := {
  cu_rx : ic_rx_buf (pe_ipcclient e) <> 0 /\ 0 < ic_rx_buf_size (pe_ipcclient e);
  cu_tx : ic_tx_buf (pe_ipcclient e) <> 0 /\ 0 < ic_tx_buf_size (pe_ipcclient e);
  cu_udp : pe_stack_op_ep e <> 0;
  cu_serial : sl_buf (pe_serial e) <> 0 /\ 0 < sl_buf_size (pe_serial e)
}.

Lemma clients_usable_ipc rx tx e : clients_usable e -> clients_usable (with_ipc_semaphores rx tx e).
Proof. intros [H1 H2 H3 H4]. split; [exact H1|exact H2|exact H3|exact H4]. Qed.

Lemma wp_create_ipc_semaphores e s (Q : unit -> user_system F K -> Prop) : env_of s = Some e -> clients_usable e ->
  objects_inv (ukern s) -> (2 <= room (ukern s))%nat ->
  (forall rx tx k, spent 2 (ukern s) k -> rx <> tx -> (forall l, l = rx \/ l = tx -> counts (objects_of k) !! l = Some 1) ->
     Q tt (set_env (with_ipc_semaphores rx tx e) (set_ukern k s))) -> wp create_ipc_semaphores Q s.
Proof.
  intros He [[Hr1 Hr2] [Ht1 Ht2] _ _] Hi Hr HQ. unfold create_ipc_semaphores.
  wp_step. eapply wp_user_read_env; [exact He|]. cbn zeta.
  do 2 (wp_step; apply wp_assert; [by apply negb_true_iff, Z.eqb_neq|]).
  do 2 (wp_step; apply wp_assert; [by apply Z.ltb_lt|]).
  wp_step. apply wp_user_semaphore; [done|lia|]. intros rx k1 T1 _ Hc1.
  wp_step. eapply wp_user_upd_env; [exact He|]. wp_step. apply wp_assert; [done|]. pose proof (sp_room _ _ _ T1).
  wp_step. apply wp_user_semaphore; [apply T1|change (0 < room k1)%nat; lia|]. intros tx k2 T2 Hn Hc2.
  change (ukern _) with k1 in T2, Hn. wp_step.
  eapply wp_user_upd_env; [apply (env_of_set_env _ k2 s)|]. apply wp_assert; [done|].
  change (set_ukern k2 (set_env ?a (set_ukern k1 s))) with (set_env a (set_ukern k2 s)). rewrite set_env_twice.
  apply HQ; [by eapply (spent_trans 1 1)|intros ->; by rewrite Hc1 in Hn|].
  intros l [->| ->]; [|done]. eapply lookup_weaken; [exact Hc1|apply T2].
Qed.

Lemma wp_create_serial_semaphore e s (Q : unit -> user_system F K -> Prop) : env_of s = Some e -> clients_usable e ->
  objects_inv (ukern s) -> (0 < room (ukern s))%nat ->
  (forall l k, spent 1 (ukern s) k -> counts (objects_of (ukern s)) !! l = None -> counts (objects_of k) !! l = Some 1 ->
     Q tt (set_env (with_serial_semaphore l e) (set_ukern k s))) -> wp create_serial_semaphore Q s.
Proof.
  intros He [_ _ _ [H1 H2]] Hi Hr HQ. unfold create_serial_semaphore.
  wp_step. eapply wp_user_read_env; [exact He|]. wp_step. apply wp_assert; [by apply negb_true_iff, Z.eqb_neq|].
  wp_step. apply wp_assert; [by apply Z.ltb_lt|]. wp_step. apply wp_user_semaphore; [done|done|]. intros l k T Hn Hc.
  wp_step. eapply wp_user_upd_env; [exact He|]. apply wp_assert; [done|]. by apply HQ.
Qed.

Lemma wp_create_udp_client e s a (Q : unit -> user_system F K -> Prop) : env_of s = Some e -> clients_usable e ->
  objects_inv (ukern s) -> (0 < room (ukern s))%nat -> arena_ok (MEMP_NUM_UDP_PCB (K := K)) sizeof_udp_socket a ->
  (forall l k p, spent 1 (ukern s) k -> l ∉ live_mutexes (objects_of (ukern s)) -> l ∈ live_mutexes (objects_of k) ->
     fresh_pool (MEMP_NUM_UDP_PCB (K := K)) p -> Q tt (us_set_sockets (Some p) (us_set_udp_mutex (Some l) (set_ukern k s)))) ->
  wp (create_udp_client a) Q s.
Proof.
  intros He [_ _ Hu _] Hi Hr Ha HQ. unfold create_udp_client. wp_step. apply wp_on_task, wp_on_task_kern, wp_task_mutex; [done..|].
  intros l k T Hn Hl. wp_step. wp_step. wp_step. apply wp_assert; [done|]. wp_step. eapply wp_new_pool; [exact Ha|]. intros p Hp.
  wp_step. wp_step. wp_step. eapply wp_user_read_env; [exact He|]. apply wp_assert; [by apply negb_true_iff, Z.eqb_neq|]. by apply HQ.
Qed.

(** A process that is up: it has the blocks its environment names and no others,
    three binary semaphores and three mutexes, two pools whose elements are all
    free, and a main thread. *)
Record process_up e st (n : nat) s : Prop := {
  pu_blocks : uts (ukern s) = blocks_from st n untyped_size_bits;
  pu_env : exists rx tx ser, env_of s = Some (with_serial_semaphore ser (with_ipc_semaphores rx tx e)) /\
    NoDup [rx; tx; ser] /\ Forall (fun l => counts (objects_of (ukern s)) !! l = Some 1) [rx; tx; ser];
  pu_mutexes : exists g lg ud, ta_global_mutex (us_task s) = Some g /\ ta_logmutex (us_task s) = Some lg /\ us_udp_mutex s = Some ud /\
    NoDup [g; lg; ud] /\ Forall (fun l => l ∈ live_mutexes (objects_of (ukern s))) [g; lg; ud];
  pu_threads : exists p, ta_threads (us_task s) = Some p /\ fresh_pool SEL4OSAPI_MAX_THREADS_PER_PROCESS p;
  pu_sockets : exists p, us_udp_sockets s = Some p /\ fresh_pool (MEMP_NUM_UDP_PCB (K := K)) p;
  pu_main : let i := ta_main (us_task s) in
    (ti_tid i = 0 /\ ti_arg i = 0 /\ ti_tls i = 0 /\ ti_active i = 1 /\ ti_priority i = pe_priority e) /\
    take (S (length (bytes_of (main_text (pe_pid e))))) (ti_name i) = bytes_of (main_text (pe_pid e)) ++ [0] /\
    ti_wait_aep i ∈ caps_of (ukern s)
}.

Lemma spent_mutex n k k' l : spent n k k' -> l ∈ live_mutexes (objects_of k) -> l ∈ live_mutexes (objects_of k').
Proof. intros [_ _ [Hl _] _ _]. by apply Hl. Qed.

Lemma spent_count n k k' l c : spent n k k' -> counts (objects_of k) !! l = Some c -> counts (objects_of k') !! l = Some c.
Proof. intros [_ _ [_ Hc] _ _] Hl. by eapply lookup_weaken. Qed.

(** The part after [sel4osapi_system_bootstrap_user]. *)
Lemma wp_after_bootstrap a e st ids at_ as_ s s1 : env_usable a e st ids s -> clients_usable e -> ta_logmutex (us_task s) = NULL ->
  fits (main_text (pe_pid e)) -> arena_ok SEL4OSAPI_MAX_THREADS_PER_PROCESS (sizeof_thread (K := K)) at_ ->
  arena_ok (MEMP_NUM_UDP_PCB (K := K)) sizeof_udp_socket as_ -> bootstrapped a st (length ids) s s1 ->
  wp (on_task sel4osapi_system_initialize_global_mutex ;;
      on_task (new_threads at_) ;;
      on_task sel4osapi_system_initialize_main_thread ;;
      let! _ := on_task sel4osapi_log_initialize in
      create_ipc_semaphores ;;
      create_udp_client as_ ;;
      create_serial_semaphore ;;
      ret 0) (fun r s' => r = 0 /\ process_up e st (length ids) s') s1.
Proof.
  intros [Hp _ _ _ _ _ Hroom _] Hcl Hlog Hfit Hat Has (k1 & vm & brk & -> & Hi1 & Hu1 & Hr1).
  wp_step. apply wp_on_task. apply wp_global_mutex; [exact Hi1|cbn [ta_kern us_task ta_set_kern]; lia|]. intros g k2 T2 _ Hg2.
  change (ta_kern _) with k1 in T2. pose proof (sp_room _ _ _ T2).
  wp_step. apply wp_on_task. eapply wp_new_threads; [exact Hat|]. intros pt Hpt.
  wp_step. apply wp_on_task. eapply (wp_initialize_main_thread _ e); [exact Hp|exact Hfit|exact (sp_inv _ _ _ T2)|change (0 < room k2)%nat; lia|].
  intros i k3 T3 [Hids Hname [_ Haep] _]. change (ta_kern _) with k2 in T3. pose proof (sp_room _ _ _ T3).
  wp_step. apply wp_on_task. apply wp_log_initialize; [exact (sp_inv _ _ _ T3)|change (0 < room k3)%nat; lia|exact Hlog|]. intros lg k4 T4 Hn4 Hg4.
  change (ta_kern _) with k3 in T4, Hn4. pose proof (sp_room _ _ _ T4). cbn beta.
  wp_step. eapply wp_create_ipc_semaphores; [exact Hp|exact Hcl|exact (sp_inv _ _ _ T4)|change (2 <= room k4)%nat; lia|].
  intros rx tx k5 T5 Hne Hc5. change (ukern _) with k4 in T5. pose proof (sp_room _ _ _ T5).
  wp_step. eapply wp_create_udp_client; [apply env_of_set_env|by apply clients_usable_ipc|exact (sp_inv _ _ _ T5)|change (0 < room k5)%nat; lia|exact Has|].
  intros ud k6 ps T6 Hn6 Hg6 Hps. change (ukern _) with k5 in T6, Hn6. pose proof (sp_room _ _ _ T6).
  wp_step. eapply wp_create_serial_semaphore; [apply (env_of_set_env _ k6)|by apply clients_usable_ipc|exact (sp_inv _ _ _ T6)|change (0 < room k6)%nat; lia|].
  intros ser k7 T7 Hn7 Hc7. change (ukern _) with k6 in T7, Hn7.
  wp_step. split; [done|]. pose proof (spent_trans _ _ _ _ _ T6 T7) as T67. pose proof (spent_trans _ _ _ _ _ T5 T67) as T57.
  pose proof (spent_trans _ _ _ _ _ T4 T57) as T47. pose proof (spent_trans _ _ _ _ _ T3 T47) as T37.
  pose proof (spent_trans _ _ _ _ _ T4 T5) as T45. split.
  - change (uts k7 = blocks_from st (length ids) untyped_size_bits).
    by rewrite (spent_uts _ _ _ (spent_trans _ _ _ _ _ T2 T37)).
  - exists rx, tx, ser. split; [apply (env_of_set_env _ k7)|].
    assert (Hser : forall l, l = rx \/ l = tx -> l <> ser).
    { intros l Hl ->. apply Hc5 in Hl. apply (spent_count _ _ _ _ _ T6) in Hl. by rewrite Hn7 in Hl. }
    split.
    + apply NoDup_cons. split; [|apply NoDup_cons; split; [|apply NoDup_singleton]].
      * intros [->|[->|[]%elem_of_nil]%elem_of_cons]%elem_of_cons; [done|by apply (Hser ser); [left|]].
      * intros ->%list_elem_of_singleton. by apply (Hser ser); [right|].
    + repeat constructor; [apply (spent_count _ _ _ _ _ T67), Hc5; by left|apply (spent_count _ _ _ _ _ T67), Hc5; by right|exact Hc7].
  - exists g, lg, ud. split; [done|]. split; [done|]. split; [done|]. pose proof (spent_mutex _ _ _ _ T3 Hg2) as Hg3. split.
    + apply NoDup_cons. split; [|apply NoDup_cons; split; [|apply NoDup_singleton]].
      * intros [->|[->|[]%elem_of_nil]%elem_of_cons]%elem_of_cons; [done|]. by apply Hn6, (spent_mutex _ _ _ _ T45).
      * intros ->%list_elem_of_singleton. by apply Hn6, (spent_mutex _ _ _ _ T5).
    + repeat constructor; [by apply (spent_mutex _ _ _ _ T47)|by apply (spent_mutex _ _ _ _ T57)|by apply (spent_mutex _ _ _ _ T7)].
  - by exists pt.
  - by exists ps.
  - split; [exact Hids|]. split; [exact Hname|]. by apply T47.
Qed.
End user_spec.

Section compose.
Context {CFG : Config} {F K : Type} {OBJ : SyncObjects K} {OOK : SyncObjectsOk K} {THR : ThreadEnv K} {TOK : ThreadEnvOk K}.
Context {TASK : TaskLib K} {TAOK : TaskLibOk K} {EP : Endpoints K} {USER : UserLib K} {UOK : UserLibOk K}.
Implicit Types (s : user_system F K) (k : K) (e : sel4osapi_process_env_t) (ids : list nat) (st : Z).

(** What the child finds: the message of [sel4osapi_process_spawn] with the
    address [a] of its environment [e], and memory for its pools. *)
Record spawned a e (at_ : arena (sel4osapi_thread_t F)) (as_ : arena sel4osapi_udp_socket_t) k s : Prop := {
  sd_recv : exists ep, seL4_Recv (pe_fault_endpoint e) (ukern s) = (IpcMessage ep seL4_Fault_NullFault [a], k);
  sd_addr : a <> 0;
  sd_page : ta_pages (us_task s) !! a = Some e;
  sd_log : ta_logmutex (us_task s) = NULL;
  sd_name : fits (main_text (pe_pid e));
  sd_threads : arena_ok SEL4OSAPI_MAX_THREADS_PER_PROCESS (sizeof_thread (K := K)) at_;
  sd_sockets : arena_ok (MEMP_NUM_UDP_PCB (K := K)) sizeof_udp_socket as_
}.

Lemma wp_initialize_process a e st ids at_ as_ k s : spawned a e at_ as_ k s -> 0 <= pe_fault_endpoint e < 10 ^ 9 ->
  env_usable a e st ids (set_ukern k s) -> clients_usable e ->
  wp (sel4osapi_system_initialize_process true (spawn_argv e) at_ as_) (fun r s' => r = 0 /\ process_up e st (length ids) s') s.
Proof.
  intros [[ep Hrecv] Ha Hp Hlog Hfit Hat Has] Hep Henv Hcl. unfold sel4osapi_system_initialize_process.
  wp_step. apply wp_assert; [done|]. wp_step. eapply wp_deref; [reflexivity|].
  wp_step. eapply wp_deref; [by apply decimal_roundtrip|]. wp_step. apply wp_user_call. rewrite u32_small by (unfold is_u32; lia).
  rewrite Hrecv. cbn [fst snd im_label im_words]. wp_step. apply wp_assert; [done|]. wp_step. apply wp_assert; [done|].
  wp_step. eapply wp_deref; [reflexivity|]. wp_step. apply wp_assert; [by apply negb_true_iff, Z.eqb_neq|].
  wp_step. eapply wp_bootstrap_user; [exact Henv|]. intros s1 Hs1. eapply wp_after_bootstrap; [exact Henv|exact Hcl|exact Hlog|done..|exact Hs1].
Qed.

(** *** With the root task's side *)

Context {R P : Type} {ROOT : RootEnv R} {CSP : ProcessCSpace P} {COK : ProcessCSpaceOk P} {LIB : ProcessLib R P} {LOK : ProcessLibOk R P}.
Implicit Types (blocks : list vka_object_t) (p : P).

(** The CSpace of the child is [p]: in the slots its environment names, where [p]
    has the capability of a block, it finds untyped memory of its size. *)
Definition same_cspace (ue : untyped_env) p blocks k : Prop := forall (slot badge : Z) (b : vka_object_t),
  untypeds_start ue <= slot <= untypeds_end ue -> b ∈ blocks -> cap_at p slot = Some (cptr b, badge) -> ut_at k slot = Some (size_bits b).

Lemma blocks_untyped ue p pid st blocks ids k : env_rep ue st ids -> same_cspace ue p blocks k -> blocks_at p pid st blocks ids ->
  Forall (fun b => size_bits b = untyped_size_bits) blocks -> Forall (fun i => (i < length blocks)%nat) ids ->
  untypeds_in k st (length ids) untyped_size_bits.
Proof.
  intros (Hst & Hend & _) Hsame Hat Hsz Hids j Hj. destruct (lookup_lt_is_Some_2 ids j Hj) as [i Hi].
  pose proof (proj1 (Forall_lookup _ _) Hids _ _ Hi) as Hlt. destruct (lookup_lt_is_Some_2 blocks i Hlt) as [b Hb].
  rewrite <- (proj1 (Forall_lookup _ _) Hsz _ _ Hb). apply (Hsame _ pid b); [lia|by eapply list_elem_of_lookup_2|]. by eapply Hat.
Qed.

(** The allocator of the process [pid] was given just blocks among [ids]. *)
Definition own_blocks pid blocks (ids : list nat) p s : Prop := forall slot bits, (slot, bits) ∈ uts (ukern s) ->
  exists i b, i ∈ ids /\ blocks !! i = Some b /\ cap_at p slot = Some (cptr b, pid) /\ bits = size_bits b.

(** The allocator of the process that is up was given blocks of its own only. *)
Definition only_own_blocks pid blocks (owners : list Z) p s : Prop := forall slot bits, (slot, bits) ∈ uts (ukern s) ->
  exists i b, owners !! i = Some pid /\ blocks !! i = Some b /\ cap_at p slot = Some (cptr b, pid) /\ bits = size_bits b.

Lemma up_own e st ids pid blocks p s : process_up e st (length ids) s -> blocks_at p pid st blocks ids ->
  Forall (fun b => size_bits b = untyped_size_bits) blocks -> Forall (fun i => (i < length blocks)%nat) ids -> own_blocks pid blocks ids p s.
Proof.
  intros Hup Hat Hsz Hids slot bits Hin. rewrite (pu_blocks _ _ _ _ Hup) in Hin. unfold blocks_from in Hin.
  apply list_elem_of_fmap in Hin as (j & [= -> ->] & [_ Hj]%elem_of_seq). cbn in Hj.
  destruct (lookup_lt_is_Some_2 ids j Hj) as [i Hi]. pose proof (proj1 (Forall_lookup _ _) Hids _ _ Hi) as Hlt. cbn in Hlt.
  destruct (lookup_lt_is_Some_2 blocks i Hlt) as [b Hb]. exists i, b. split; [by eapply list_elem_of_lookup_2|]. split; [done|].
  split; [by eapply Hat|]. symmetry. exact (proj1 (Forall_lookup _ _) Hsz _ _ Hb).
Qed.

(** What the configurations of the two sides have to do with each other. *)
Record boot_config (n : nat) : Prop := {
  bc_buf : 0 < SEL4OSAPI_PROCESS_RX_BUF_SIZE /\ 0 < SEL4OSAPI_PROCESS_TX_BUF_SIZE;
  bc_room : (vspace_cost (K := K) + 8 <= n * ut_room (K := K) untyped_size_bits)%nat;
  bc_vmem : 0 <= SEL4OSAPI_USER_PROCESS_UNTYPED_MEM_SIZE <= user_vmem (K := K);
  bc_range : cspace_end (P := P) <= 10 ^ 9
}.

(** A process whose environment is true comes up. *)
Lemma wp_child_boots pid name priority given ipc ser sys stack aep rx e w p st blocks ids (ue : untyped_env) a at_ as_ k s :
  env_made pid name priority given ipc ser sys stack aep rx e w p -> blocks_at p pid st blocks ids -> env_after (pe_untypeds e) ue st ids ->
  ids <> [] -> Forall (fun b => size_bits b = untyped_size_bits) blocks -> Forall (fun i => (i < length blocks)%nat) ids ->
  0 < cslot_base (P := P) -> boot_config (length ids) -> spawned a e at_ as_ k s -> same_cspace (pe_untypeds e) p blocks k ->
  wp (sel4osapi_system_initialize_process true (spawn_argv e) at_ as_) (fun r t => r = 0 /\ process_up e st (length ids) t /\
    ti_priority (ta_main (us_task t)) = priority /\ own_blocks pid blocks ids p t) s.
Proof.
  intros [Hids _ Hcaps [Hfr Hfr2] _ _ _ (Hu1 & Hu2 & Hu3 & Hu4) (Hz1 & Hz2 & Hz3)] Hat Henv Hne Hsz Hcl Hbase [Hbuf Hroom Hv Hend] Hsp Hsame.
  assert (Hcap : cap_at p (pe_fault_endpoint e) = Some (given.2, pid)).
  { do 6 apply Forall_cons in Hcaps as [_ Hcaps]. by apply Forall_cons in Hcaps as [Hcaps _]. }
  apply cap_at_range in Hcap.
  assert (Hr : forall j, (j < length ids)%nat -> cslot_base <= st + Z.of_nat j < next_free p).
  { intros j Hj. destruct (lookup_lt_is_Some_2 ids j Hj) as [i Hi]. pose proof (proj1 (Forall_lookup _ _) Hcl _ _ Hi) as Hlt.
    destruct (lookup_lt_is_Some_2 blocks i Hlt) as [b Hb]. eapply cap_at_range. by eapply Hat. }
  assert (Hpos : (0 < length ids)%nat) by (destruct ids; [done|cbn; lia]).
  pose proof (Hr 0%nat Hpos). pose proof (Hr (length ids - 1)%nat ltac:(lia)).
  eapply wp_mono; [apply (wp_initialize_process a e st ids at_ as_ k s Hsp)|].
  - lia.
  - split; try done.
    + exact (sd_page _ _ _ _ _ _ Hsp).
    + by rewrite Hfr.
    + by apply Henv.
    + lia.
    + exact (blocks_untyped _ _ _ _ _ _ k (proj2 Henv Hne) Hsame Hat Hsz Hcl).
  - destruct Hbuf. split; [by rewrite Hz1|by rewrite Hz2|done|]. rewrite Hz3. by split; [|apply Z.ltb_lt].
  - intros r t [-> Hup]. split; [done|]. split; [exact Hup|]. split; [|by eapply up_own].
    destruct (pu_main _ _ _ _ Hup) as ((_ & _ & _ & _ & ->) & _). by destruct Hids as (_ & -> & _).
Qed.

(** C1: A process that was created comes up.  The environment the root task made
    is one [sel4osapi_system_initialize_process] can start from, when at least one
    block was free: if the child receives its address on the endpoint that is in
    its arguments, it returns 0 with an allocator, a global mutex, a log mutex, a
    main thread of the priority given, pools of threads and sockets, and binary
    semaphores for its clients; and every block its allocator was given is one
    the root task's table records as its own. *)
Theorem process_boots process env0 pid name priority ipc ser sysclock_ep stack_ep rx tx blocks owners (s0 : init_state R P) :
  env_ready pid ipc ser rx tx blocks owners s0 -> claimed owners <> [] ->
  Forall (fun b => size_bits b = untyped_size_bits) blocks -> boot_config (length (claimed owners)) ->
  wp (sel4osapi_process_init_env process env0 pid name priority ipc ser sysclock_ep stack_ep) (fun r (s' : init_state R P) => exists e aep owners',
    r = (0, e, aep) /\ table_rep (table (is_proc s')) blocks owners' /\ pe_pid e = pid /\
    env_rep (pe_untypeds e) (next_free (native (is_proc s0)) + 2) (claimed owners) /\
    forall a at_ as_ k s, spawned a e at_ as_ k s -> same_cspace (pe_untypeds e) (native (is_proc s')) blocks k ->
      wp (sel4osapi_system_initialize_process true (spawn_argv e) at_ as_) (fun r t => r = 0 /\
        process_up e (next_free (native (is_proc s0)) + 2) (length (claimed owners)) t /\
        ti_priority (ta_main (us_task t)) = priority /\ only_own_blocks pid blocks owners' (native (is_proc s')) t) s) s0.
Proof.
  intros Hready Hne Hsz Hcfg.
  assert (Hcl : Forall (fun i => (i < length blocks)%nat) (claimed owners) /\ length blocks = length owners).
  { destruct (cr_table _ _ _ _ (er_untypeds _ _ _ _ _ _ _ _ Hready)) as (_ & _ & -> & _). split; [apply claimed_lt|done]. }
  destruct Hcl as [Hcl Hlen].
  eapply wp_mono; [exact (wp_process_init_env process env0 pid name priority ipc ser sysclock_ep stack_ep rx tx blocks owners s0 Hready)|].
  intros r s' (e & aep & -> & Hmade & Htab & Hat & Henv & _). exists e, aep, (give pid (claimed owners) owners).
  split; [done|]. split; [done|]. split; [apply Hmade|]. split; [by apply Henv|]. intros a at_ as_ k s Hsp Hsame.
  eapply wp_mono.
  { eapply (wp_child_boots _ _ _ _ _ _ _ _ _ _ _ _ _ _ _ (claimed owners)); [exact Hmade|exact Hat|exact Henv|done..|apply Hready|done|exact Hsp|exact Hsame]. }
  intros r t (-> & Hup & Hprio & Hown). do 3 (split; [done|]). intros slot bits (i & b & Hi & Hb & H)%Hown. exists i, b. split; [|done].
  apply give_lookup_in; [done|]. by apply (proj1 (Forall_forall _ _) (claimed_lt owners)).
Qed.

(** A process that was given no block tells its allocator that the null
    capability is one: the range of slots in its environment is 0 to 0, and the
    loop that adds the blocks runs once.  If the allocator refuses, the process
    stops on an assertion. *)
Theorem process_without_blocks_adds_null pid blocks owners n (p0 : proc_state P) :
  creation_ok pid p0 blocks owners -> claimed owners = [] -> penv p0 = zero_env (S n) ->
  wp (init_untypeds pid) (fun _ (p : proc_state P) => forall s, let r := allocman_utspace_add_uts 0 0 (ukern s) in
    add_untypeds (penv p) s = if r.1 =? 0 then Done (tt, set_ukern r.2 s) else Assert_failed) p0.
Proof.
  intros Hcr Hno Hz. eapply wp_mono; [by apply wp_init_untypeds|]. intros _ p (_ & _ & _ & _ & [Henv _]) s.
  rewrite (Henv Hno), Hz. set (r := allocman_utspace_add_uts 0 0 (ukern s)). cbn zeta.
  assert (Hb : add_untyped (zero_env (S n)) (0, 0) s = if r.1 =? 0 then Done ((1, 1), set_ukern r.2 s) else Assert_failed).
  { unfold add_untyped. rewrite (bind_done _ _ s 0 s) by done. rewrite (bind_done _ _ s r.1 (set_ukern r.2 s)) by apply user_call_eq.
    unfold assert_, bind. by destruct (r.1 =? 0). }
  unfold add_untypeds. change (Z.to_nat _) with 1%nat. change (s32 _, 0) with (0, 0). cbn [while].
  change (u32 (0, 0).1 <=? untypeds_end (zero_env (S n))) with true. cbn iota. unfold bind at 1 2. rewrite Hb.
  by destruct (r.1 =? 0).
Qed.
(** *** Several processes *)

Context {ROBJ : SyncObjects R} {ROOK : SyncObjectsOk R} {RROK : RootEnvOk R} {SPAWN : SpawnLib R P} {SOK : SpawnLibOk R P}.

(** C6: Each of the processes that exist beside each other ([isolated], which
    [create_processes] establishes) comes up, if it was given a block: when it receives
    the address of its environment, its initialisation returns 0, with everything
    [process_up] says and the priority asked for.  Its allocator was given the blocks in
    its own CSpace, badged with its pid, and none of them is a block of another of the
    processes: they never allocate from the same memory. *)
Theorem isolated_process_boots rx old blocks chs (s : system_state R P) (j : nat) ch a at_ as_ k t :
  isolated rx old blocks chs s -> chs !! j = Some ch -> ch_blocks ch <> [] -> 0 < cslot_base (P := P) ->
  Forall (fun b => size_bits b = untyped_size_bits) blocks -> boot_config (length (ch_blocks ch)) ->
  spawned a (ch_env ch) at_ as_ k t -> same_cspace (pe_untypeds (ch_env ch)) (np_spaces (ch_native ch)) blocks k ->
  wp (sel4osapi_system_initialize_process true (spawn_argv (ch_env ch)) at_ as_) (fun r t' => r = 0 /\
    process_up (ch_env ch) (new_process_slot + 2) (length (ch_blocks ch)) t' /\ ti_priority (ta_main (us_task t')) = (ch_spec ch).2 /\
    forall slot bits, (slot, bits) ∈ uts (ukern t') -> exists i b,
      blocks !! i = Some b /\ cap_at (np_spaces (ch_native ch)) slot = Some (cptr b, Z.of_nat j + 1) /\ bits = size_bits b /\
      forall j' ch', chs !! j' = Some ch' -> i ∈ ch_blocks ch' <-> j' = j) t.
Proof.
  intros [Hch _ _ _ Hdis] Hj Hne Hbase Hsz Hcfg Hsp Hsame. destruct (Hch j ch Hj) as [_ Hmade Hreal Hat Henv].
  eapply wp_mono; [by eapply (wp_child_boots _ _ _ _ _ _ _ _ _ _ _ _ _ _ _ (ch_blocks ch))|].
  intros r t' (-> & Hup & Hprio & Hown). do 3 (split; [done|]). intros slot bits (i & b & Hi & Hb & Hcap & Hbits)%Hown.
  exists i, b. do 3 (split; [done|]). intros j' ch' Hj'. split; [intros Hi'; by eapply Hdis|].
  intros ->. by simplify_eq.
Qed.
End compose.

(** ** A process to run examples on

    Objects are numbered, each takes one of [dc_left]; every block given to the
    allocator is worth four. *)
Record demo_child := DemoChild {
  dc_mutexes : gset loc;
  dc_counts : gmap loc Z;
  dc_caps : gset Z;
  dc_left : nat;
  dc_data : Z;
  dc_space : gmap Z Z;
  dc_uts : list (Z * Z);
  dc_vmem : Z;
  dc_message : ipc_message
}.

Definition dc_fresh (k : demo_child) : loc := fresh (dc_mutexes k ∪ dom (dc_counts k)).

Lemma dc_fresh_new k : dc_fresh k ∉ dc_mutexes k /\ dc_counts k !! dc_fresh k = None.
Proof.
  unfold dc_fresh. pose proof (is_fresh (dc_mutexes k ∪ dom (dc_counts k))) as H. split; [|apply not_elem_of_dom]; set_solver.
Qed.

Definition dc_objects (m : gset loc) (c : gmap loc Z) (n : nat) (k : demo_child) : demo_child :=
  DemoChild m c (dc_caps k) n (dc_data k) (dc_space k) (dc_uts k) (dc_vmem k) (dc_message k).

#[export] Instance child_objects : SyncObjects demo_child := {|
  mutex_create k := match dc_left k with
    | O => Done (NULL, k)
    | S n => Done (Some (dc_fresh k), dc_objects ({[dc_fresh k]} ∪ dc_mutexes k) (dc_counts k) n k)
    end;
  semaphore_create c k := match dc_left k with
    | O => Done (NULL, k)
    | S n => Done (Some (dc_fresh k), dc_objects (dc_mutexes k) (<[dc_fresh k := c]> (dc_counts k)) n k)
    end
|}.

#[export] Instance child_objects_ok : SyncObjectsOk demo_child.
Proof.
  refine {| objects_inv k := True; objects_of k := Objects (dc_mutexes k) (dc_counts k) (dc_left k) |}; cbn.
  - intros k _ Hl. destruct (dc_left k) as [|n] eqn:Hn; [lia|]. destruct (dc_fresh_new k). eexists _, _. rewrite Hn. split; [reflexivity|].
    split; [done|]. eexists. split; [done|]. split_and!; cbn; try done; lia.
  - intros c k _ Hl. destruct (dc_left k) as [|n] eqn:Hn; [lia|]. destruct (dc_fresh_new k). eexists _, _. rewrite Hn. split; [reflexivity|].
    split; [done|]. eexists. split; [done|]. split_and!; cbn; try done; lia.
Defined.

Definition dc_alloc (k : demo_child) : (Z * Z) * demo_child :=
  match dc_left k with
  | O => ((1, 0), k)
  | S n => ((0, fresh (dc_caps k)), DemoChild (dc_mutexes k) (dc_counts k) ({[fresh (dc_caps k)]} ∪ dc_caps k) n (dc_data k)
      (dc_space k) (dc_uts k) (dc_vmem k) (dc_message k))
  end.

#[export] Instance child_threads : ThreadEnv demo_child := {|
  vka_alloc_endpoint := dc_alloc;
  vka_alloc_notification := dc_alloc;
  vka_free_object c k := k;
  CNode_CapData b := b;
  simple_get_tcb := 1;
  sel4utils_configure_thread_config c k := ((dc_alloc k).1.1, Native (dc_alloc k).1.2 4096, (dc_alloc k).2);
  sel4utils_start_thread n k := (0, k);
  sel4utils_clean_up_thread n k := k;
  api_tcb_set_space t e k := (0, k);
  sel4utils_start_fault_handler e := dc_alloc;
  seL4_TCB_SetPriority t a p k := (0, k);
  CONFIG_KERNEL_RT := false;
  ZF_LOGF_ABORTS := true;
  vka_alloc_sched_context := dc_alloc;
  api_sched_ctrl_configure c k := (0, k);
  api_sc_bind c t k := (0, k)
|}.

Lemma dc_alloc_ok k : (0 < dc_left k)%nat -> let r := dc_alloc k in
  r.1.1 = 0 /\ r.1.2 ∉ dc_caps k /\ r.1.2 ∈ dc_caps r.2 /\ dc_caps k ⊆ dc_caps r.2 /\ (dc_left k - 1 <= dc_left r.2)%nat.
Proof.
  intros H. unfold dc_alloc. destruct (dc_left k) as [|n]; [lia|]. cbn. split_and!; [done|apply is_fresh|set_solver|set_solver|lia].
Qed.

#[export] Instance child_threads_ok : ThreadEnvOk demo_child.
Proof.
  refine {| caps_of := dc_caps; objects := dc_left |}; try (intros; cbn; split_and!; done || lia).
  - apply dc_alloc_ok.
  - apply dc_alloc_ok.
  - intros c k Hk. destruct (dc_alloc_ok k Hk) as (H1 & _ & _ & H4 & H5). by split_and!.
  - intros e k Hk. destruct (dc_alloc_ok k Hk) as (H1 & _ & _ & H4 & H5). by split_and!.
  - intros k Hk. destruct (dc_alloc_ok k Hk) as (H1 & _ & _ & H4 & H5). by split_and!.
Defined.

#[export] Instance child_task : TaskLib demo_child := {|
  main_thread_addr := 8192;
  sizeof_thread := 256;
  seL4_GetUserData := dc_data;
  seL4_SetUserData w k :=
    DemoChild (dc_mutexes k) (dc_counts k) (dc_caps k) (dc_left k) w (dc_space k) (dc_uts k) (dc_vmem k) (dc_message k);
  seL4_Wait_idle _ k := k;
  syslog_warn _ k := k
|}.

(** What a step takes and leaves. *)
Lemma dc_op_shape (k k' : demo_child) : task_op k k' ->
  dc_caps k ⊆ dc_caps k' /\ (dc_left k - 1 <= dc_left k')%nat /\ dc_uts k' = dc_uts k.
Proof.
  intros Hop. destruct Hop as [r k' Hr|n r k' Hr| |w]; cbn in *.
  - destruct (dc_left k) eqn:Hn; injection Hr as <- <-; cbn; split_and!; done || lia.
  - destruct (dc_left k) eqn:Hn; injection Hr as <- <-; cbn; split_and!; done || lia.
  - unfold dc_alloc. destruct (dc_left k) eqn:Hn; cbn; [by split_and!; try lia|]. split_and!; [set_solver|lia|done].
  - split_and!; done || lia.
Qed.

#[export] Instance child_task_ok : TaskLibOk demo_child.
Proof.
  refine {| room := dc_left |}; try done.
  - intros k k' Hop. by destruct (dc_op_shape k k' Hop) as (H1 & H2 & _).
  - intros k _. cbn. unfold dc_alloc. destruct (dc_left k); done.
Defined.

#[export] Instance child_endpoints : Endpoints demo_child := {|
  seL4_Send _ k := k;
  seL4_Recv _ k := (dc_message k, k)
|}.

Definition dc_memory (u : list (Z * Z)) (n : nat) (v : Z) (k : demo_child) : demo_child :=
  DemoChild (dc_mutexes k) (dc_counts k) (dc_caps k) n (dc_data k) (dc_space k) u v (dc_message k).

#[export] Instance child_user : UserLib demo_child := {|
  bootstrap_use_current_1level _ _ _ _ _ k := dc_memory [] (dc_left k) (dc_vmem k) k;
  allocman_utspace_add_uts slot bits k :=
    if bool_decide (dc_space k !! slot = Some bits) then (0, dc_memory (dc_uts k ++ [(slot, bits)]) (dc_left k + 4) (dc_vmem k) k)
    else (1, k);
  seL4_GetIPCBuffer _ := 12288;
  sel4utils_bootstrap_vspace _ _ k := (0, dc_memory (dc_uts k) (dc_left k) 67108864 k);
  vspace_reserve_range n k := ((1, 65536), dc_memory (dc_uts k) (dc_left k) (dc_vmem k - n) k);
  bootstrap_configure_virtual_pool _ _ _ k := k;
  sel4utils_reserve_range_no_alloc n k := ((0, 131072), dc_memory (dc_uts k) (dc_left k) (dc_vmem k - n) k);
  MEMP_NUM_UDP_PCB := 4
|}.

#[export] Instance child_user_ok : UserLibOk demo_child.
Proof.
  refine {| ut_at k slot := dc_space k !! slot; uts := dc_uts; vmem_left := dc_vmem; ut_room _ := 4%nat; user_vmem := 67108864; vspace_cost := 0%nat |};
    try (intros; cbn; split_and!; done || lia).
  - done.
  - intros slot bits k _ Hat _. cbn. rewrite bool_decide_eq_true_2 by done. by split_and!.
  - intros k k' Hop. by destruct (dc_op_shape k k' Hop) as (_ & _ & H).
Defined.

Section samples.
#[local] Existing Instance default_config.

(** The process of [sample_init]: blocks of 8 MB in the slots 5 to 12 of its
    CSpace, its environment at address 4096. *)
Definition sample_child (e : sel4osapi_process_env_t) : user_system nat demo_child :=
  UserSystem (Task false {[4096 := e]} 0 blank_main NULL NULL None
    (DemoChild ∅ ∅ ∅ 0 7 (list_to_map ((fun i => (5 + Z.of_nat i, untyped_size_bits)) <$> seq 0 8)) [] 0
       (IpcMessage (pe_fault_endpoint e) 0 [4096]))) 0 0 0 NULL None.

Definition thread_arena : arena (sel4osapi_thread_t nat) := (Heap 1 65536 ∅ ∅ ∅, Thread 0 0 (Native 0 0) 0 0%nat blank_main).
Definition socket_arena : arena sel4osapi_udp_socket_t := (Heap 1 65536 ∅ ∅ ∅, UdpSocket 0 0 0 0 0 0).

Lemma sample_spawned e : pe_pid e = 1 -> spawned 4096 e thread_arena socket_arena (ta_kern (us_task (sample_child e))) (sample_child e).
Proof.
  intros Hp. split.
  - by eexists.
  - done.
  - apply lookup_singleton_eq.
  - done.
  - rewrite Hp. apply Nat.leb_le. reflexivity.
  - apply arena_empty_ok; [done|done|]. apply Z.leb_le. vm_compute. reflexivity.
  - apply arena_empty_ok; [done|done|]. apply Z.leb_le. vm_compute. reflexivity.
Qed.

Lemma sample_same_cspace e (p : demo_process) : env_rep (pe_untypeds e) 5 (claimed (replicate 10 0)) ->
  same_cspace (pe_untypeds e) p ten_blocks (ta_kern (us_task (sample_child e))).
Proof.
  intros (Hst & Hend & _) slot badge b Hslot Hb _. rewrite Hst, Hend in Hslot. change (Z.of_nat (length _)) with 8 in Hslot.
  assert (size_bits b = untyped_size_bits) as -> by by apply list_elem_of_fmap in Hb as (? & -> & _).
  assert (Hz : slot = 5 \/ slot = 6 \/ slot = 7 \/ slot = 8 \/ slot = 9 \/ slot = 10 \/ slot = 11 \/ slot = 12) by lia.
  clear -Hz. by repeat (destruct Hz as [->|Hz]); [..|subst slot].
Qed.

Lemma process_boots_witness :
  wp (sel4osapi_process_init_env sample_native zero_page 1 "shell"%string 100 sample_ipc sample_serial 30 31) (fun r (s' : init_state demo_root demo_process) =>
    exists e aep, r = (0, e, aep) /\
    wp (sel4osapi_system_initialize_process true (spawn_argv e) thread_arena socket_arena) (fun r t => r = 0 /\
      ti_priority (ta_main (us_task t)) = 100 /\ length (uts (ukern t)) = 8%nat) (sample_child e)) sample_init.
Proof.
  eapply wp_mono.
  - apply (process_boots (F := nat) (K := demo_child) sample_native zero_page 1 "shell"%string 100 sample_ipc sample_serial 30 31 4 4 ten_blocks
      (replicate 10 0) sample_init sample_env_ready).
    + by vm_compute.
    + by repeat constructor.
    + split; [done|apply Nat.leb_le; reflexivity|done|done].
  - intros r s' (e & aep & owners' & -> & _ & Hpid & Henv & Hboot). exists e, aep. split; [reflexivity|].
    eapply wp_mono; [exact (Hboot _ _ _ _ _ (sample_spawned e Hpid) (sample_same_cspace e (native (is_proc s')) Henv))|].
    intros r t (-> & Hup & Hprio & _). split; [done|]. split; [exact Hprio|]. rewrite (pu_blocks _ _ _ _ Hup). reflexivity.
Defined.

Lemma isolated_process_boots_witness :
  wp (create_processes [("shell", 100); ("logger", 90); ("late", 80)]%string) (fun ptrs s' => exists ch : child demo_process,
    pe_pid (ch_env ch) = 1 /\
    wp (sel4osapi_system_initialize_process true (spawn_argv (ch_env ch)) thread_arena socket_arena) (fun r t => r = 0 /\
      ti_priority (ta_main (us_task t)) = 100 /\ length (uts (ukern t)) = 8%nat) (sample_child (ch_env ch))) system_of_two.
Proof.
  destruct two_ready as (f & Hf & Hno). eapply wp_mono.
  - apply (wp_processes 4 4 f [] ten_blocks (replicate 10 0)); [exact Hno|exact two_sizes|rewrite Hf; reflexivity|rewrite Hf; exact two_room].
  - intros ptrs s' (chs & free' & Hspec & Hblk & _ & _ & _ & _ & His). rewrite Hf in Hspec.
    destruct chs as [|ch chs]; [discriminate Hspec|]. cbn [fmap list_fmap length shares] in Hblk. injection Hblk as Hblk _.
    injection Hspec as Hspec _. pose proof (is_children _ _ _ _ _ His 0%nat ch eq_refl) as [_ He _ _ Hu].
    destruct (em_ids _ _ _ _ _ _ _ _ _ _ _ _ _ He) as (Hpid & _). exists ch. split; [exact Hpid|].
    assert (Hne : ch_blocks ch <> []) by (rewrite Hblk; by vm_compute).
    eapply wp_mono.
    + eapply (isolated_process_boots (F := nat) (K := demo_child) 4 [] ten_blocks (ch :: chs) s' 0 ch);
        [exact His|reflexivity|exact Hne|reflexivity|by repeat constructor| |exact (sample_spawned _ Hpid)|].
      * rewrite Hblk. split; [done|apply Nat.leb_le; reflexivity|done|done].
      * apply sample_same_cspace. destruct Hu as [_ Hu]. rewrite Hblk in Hu. apply Hu. by vm_compute.
    + intros r t (-> & Hup & Hprio & _). split; [done|]. split; [by rewrite Hprio, Hspec|].
      rewrite (pu_blocks _ _ _ _ Hup), Hblk. reflexivity.
Defined.

Lemma process_without_blocks_adds_null_witness :
  wp (init_untypeds 3) (fun _ p => exists s : user_system nat demo_child, add_untypeds (penv p) s = Assert_failed)
    (new_process [1; 1; 1; 1; 1; 1; 1; 1; 2; 2]).
Proof.
  eapply wp_mono.
  - apply (process_without_blocks_adds_null (F := nat) (K := demo_child) 3 ten_blocks [1; 1; 1; 1; 1; 1; 1; 1; 2; 2] 15
      (new_process [1; 1; 1; 1; 1; 1; 1; 1; 2; 2])).
    + apply new_process_ok; [lia|done].
    + reflexivity.
    + reflexivity.
  - intros ? p H. exists (sample_child zero_page). rewrite H. reflexivity.
Defined.
End samples.
