(* ===== verification/RootBoot.v ===== *)
(** * RootBoot: the start of the root task (src/system.c, sel4osapi_system_initialize)

    The root task sets up its allocator, sets memory aside for the processes,
    makes its own environment and main thread, and starts the servers: the
    clock (src/clock.c, sel4osapi_sysclock_initialize and _start), IPC and the
    serial port (src/io.c, sel4osapi_io_serial_initialize).

    The libraries of seL4 are the environment ([RootLib]). *)

From Stdlib Require Import String.
From stdpp Require Import strings.
From S2P Require Import Prelude Config Memory LinkedList Pool PoolSearch Sync Kernel Clock Sysclock Ipc Untyped Thread Process Spawn System.

(** Error codes are 0 on success; handles and capabilities are numbers. *)
Class RootLib (K : Type) := {
  seL4_MaxPrio : Z;
  platsupport_get_bootinfo : K -> Z;
  simple_default_init_bootinfo : Z -> K -> K;
  simple_get_pd : K -> Z;
  simple_get_cnode : K -> Z;
  simple_get_cnode_size_bits : K -> Z;
  bootstrap_use_current_simple : Z -> K -> Z * K;                        (* bytes of the pool; the allocator *)
  sel4utils_bootstrap_vspace_with_bootinfo_leaky : Z -> Z -> K -> Z * K; (* page directory, boot info *)
  vspace_reserve_range : Z -> K -> (Z * Z) * K;                          (* bytes; reservation, address *)
  bootstrap_configure_virtual_pool : Z -> Z -> Z -> K -> K;              (* address, bytes, page directory *)
  sel4utils_reserve_range_no_alloc : Z -> K -> (Z * Z) * K;              (* bytes; error, address *)
  sel4platsupport_new_io_ops : K -> Z * K;
  sel4utils_new_page_dma_alloc : K -> Z * K;
  sel4platsupport_init_default_timer_ops : Z -> K -> Z * K;              (* notification *)
  root_cspace_alloc : K -> (Z * Z) * K;                                  (* vka_cspace_alloc *)
  root_cnode_mint : Z -> Z -> Z -> K -> Z * K;                           (* vka_cnode_mint: slot, capability, badge *)
  platsupport_serial_setup_simple : K -> Z * K;
  ps_cdev_init : Z -> K -> Z * K;                                        (* device; handle *)
  vka_alloc_endpoint_leaky : K -> Z * K;
  PS_SERIAL0 : Z;
  PS_SERIAL1 : Z;
  sysclock_addr : Z;                                                     (* &system->sysclock *)
  serial_addr : Z;                                                       (* &system->serial *)
  sizeof_process : Z
}.

(** The threads of the root task *)
Inductive root_routine :=
| sel4osapi_sysclock_timer_thread
| sel4osapi_sysclock_server_thread
| sel4osapi_serial_server_thread
| sel4osapi_udp_stack_thread (* src/udp.c *)
| sel4osapi_eth_irq1_thread (* src/network.c *).

Record sel4osapi_sysclock_t := Sysclock {
  sc_time : Z;
  sc_server_ep_obj : Z;
  sc_timer_aep : Z;
  sc_schedule : option (pool_state timeout_entry);
  sc_timeouts_mutex : ptr;
  sc_timer_thread : ptr;
  sc_server_thread : ptr
}.

Record sel4osapi_serialserver_t := SerialServer {
  sv_clients : option (pool_state Process.sel4osapi_serialclient_t);
  sv_mutex : ptr;
  sv_server_ep : Z;
  sv_thread : ptr
}.

Definition sizeof_serialclient : Z := 20.

(** The memory malloc takes the pools from, and what the page for the
    environment and the local array of untypeds hold at first. *)
Record root_memory (P : Type) := RootMemory {
  rm_processes : arena (sel4osapi_process_t P);
  rm_threads : arena (sel4osapi_thread_t root_routine);
  rm_schedule : arena timeout_entry;
  rm_ipc : arena sel4osapi_ipcclient_t;
  rm_serial : arena Process.sel4osapi_serialclient_t;
  rm_env : sel4osapi_process_env_t;
  rm_root_task_uts : list vka_object_t
}.
Arguments RootMemory {P} _ _ _ _ _ _ _.
Arguments rm_processes {P} _.
Arguments rm_threads {P} _.
Arguments rm_schedule {P} _.
Arguments rm_ipc {P} _.
Arguments rm_serial {P} _.
Arguments rm_env {P} _.
Arguments rm_root_task_uts {P} _.

Section root_c.
Context {CFG : Config} {K P : Type} {OBJ : SyncObjects K} {THR : ThreadEnv K} {TASK : TaskLib K}.
Context {UVKA : UntypedVka K} {ROOT : RootEnv K} {LIB : RootLib K}.

Record root_system := RootSystem {
  rs_task : task root_routine K;
  rs_vmem_addr : Z;
  rs_brk_start : Z;
  rs_morecore : Z;
  rs_idling_aep : Z;
  rs_table : untyped_table;
  rs_processes : option (pool_state (sel4osapi_process_t P));
  rs_sysclock : sel4osapi_sysclock_t;
  rs_ipc_mutex : ptr;
  rs_ipc_clients : option (pool_state sel4osapi_ipcclient_t);
  rs_serial : sel4osapi_serialserver_t
}.

Definition rs_set_task t (s : root_system) := RootSystem t (rs_vmem_addr s) (rs_brk_start s) (rs_morecore s) (rs_idling_aep s)
  (rs_table s) (rs_processes s) (rs_sysclock s) (rs_ipc_mutex s) (rs_ipc_clients s) (rs_serial s).
Definition rs_set_vmem a (s : root_system) := RootSystem (rs_task s) a (rs_brk_start s) (rs_morecore s) (rs_idling_aep s)
  (rs_table s) (rs_processes s) (rs_sysclock s) (rs_ipc_mutex s) (rs_ipc_clients s) (rs_serial s).
Definition rs_set_brk a (s : root_system) := RootSystem (rs_task s) (rs_vmem_addr s) a (rs_morecore s) (rs_idling_aep s)
  (rs_table s) (rs_processes s) (rs_sysclock s) (rs_ipc_mutex s) (rs_ipc_clients s) (rs_serial s).
Definition rs_set_morecore n (s : root_system) := RootSystem (rs_task s) (rs_vmem_addr s) (rs_brk_start s) n (rs_idling_aep s)
  (rs_table s) (rs_processes s) (rs_sysclock s) (rs_ipc_mutex s) (rs_ipc_clients s) (rs_serial s).
Definition rs_set_idling c (s : root_system) := RootSystem (rs_task s) (rs_vmem_addr s) (rs_brk_start s) (rs_morecore s) c
  (rs_table s) (rs_processes s) (rs_sysclock s) (rs_ipc_mutex s) (rs_ipc_clients s) (rs_serial s).
Definition rs_set_table t (s : root_system) := RootSystem (rs_task s) (rs_vmem_addr s) (rs_brk_start s) (rs_morecore s) (rs_idling_aep s)
  t (rs_processes s) (rs_sysclock s) (rs_ipc_mutex s) (rs_ipc_clients s) (rs_serial s).
Definition rs_set_processes p (s : root_system) := RootSystem (rs_task s) (rs_vmem_addr s) (rs_brk_start s) (rs_morecore s) (rs_idling_aep s)
  (rs_table s) p (rs_sysclock s) (rs_ipc_mutex s) (rs_ipc_clients s) (rs_serial s).
Definition rs_upd_sysclock (f : sel4osapi_sysclock_t -> sel4osapi_sysclock_t) (s : root_system) := RootSystem (rs_task s) (rs_vmem_addr s)
  (rs_brk_start s) (rs_morecore s) (rs_idling_aep s) (rs_table s) (rs_processes s) (f (rs_sysclock s)) (rs_ipc_mutex s) (rs_ipc_clients s) (rs_serial s).
Definition rs_set_ipc m c (s : root_system) := RootSystem (rs_task s) (rs_vmem_addr s) (rs_brk_start s) (rs_morecore s) (rs_idling_aep s)
  (rs_table s) (rs_processes s) (rs_sysclock s) m c (rs_serial s).
Definition rs_upd_serial (f : sel4osapi_serialserver_t -> sel4osapi_serialserver_t) (s : root_system) := RootSystem (rs_task s) (rs_vmem_addr s)
  (rs_brk_start s) (rs_morecore s) (rs_idling_aep s) (rs_table s) (rs_processes s) (rs_sysclock s) (rs_ipc_mutex s) (rs_ipc_clients s) (f (rs_serial s)).

Definition sc_set_time t (c : sel4osapi_sysclock_t) := Sysclock t (sc_server_ep_obj c) (sc_timer_aep c) (sc_schedule c)
  (sc_timeouts_mutex c) (sc_timer_thread c) (sc_server_thread c).
Definition sc_set_server_ep e (c : sel4osapi_sysclock_t) := Sysclock (sc_time c) e (sc_timer_aep c) (sc_schedule c)
  (sc_timeouts_mutex c) (sc_timer_thread c) (sc_server_thread c).
Definition sc_set_timer_aep a (c : sel4osapi_sysclock_t) := Sysclock (sc_time c) (sc_server_ep_obj c) a (sc_schedule c)
  (sc_timeouts_mutex c) (sc_timer_thread c) (sc_server_thread c).
Definition sc_set_schedule p (c : sel4osapi_sysclock_t) := Sysclock (sc_time c) (sc_server_ep_obj c) (sc_timer_aep c) p
  (sc_timeouts_mutex c) (sc_timer_thread c) (sc_server_thread c).
Definition sc_set_mutex m (c : sel4osapi_sysclock_t) := Sysclock (sc_time c) (sc_server_ep_obj c) (sc_timer_aep c) (sc_schedule c)
  m (sc_timer_thread c) (sc_server_thread c).
Definition sc_set_timer_thread t (c : sel4osapi_sysclock_t) := Sysclock (sc_time c) (sc_server_ep_obj c) (sc_timer_aep c) (sc_schedule c)
  (sc_timeouts_mutex c) t (sc_server_thread c).
Definition sc_set_server_thread t (c : sel4osapi_sysclock_t) := Sysclock (sc_time c) (sc_server_ep_obj c) (sc_timer_aep c) (sc_schedule c)
  (sc_timeouts_mutex c) (sc_timer_thread c) t.

Definition sv_set_clients p (c : sel4osapi_serialserver_t) := SerialServer p (sv_mutex c) (sv_server_ep c) (sv_thread c).
Definition sv_set_mutex m (c : sel4osapi_serialserver_t) := SerialServer (sv_clients c) m (sv_server_ep c) (sv_thread c).
Definition sv_set_ep e (c : sel4osapi_serialserver_t) := SerialServer (sv_clients c) (sv_mutex c) e (sv_thread c).
Definition sv_set_thread t (c : sel4osapi_serialserver_t) := SerialServer (sv_clients c) (sv_mutex c) (sv_server_ep c) t.

Definition on_root_task {A} (m : M (task root_routine K) A) : M root_system A := zoom rs_task rs_set_task m.
Definition root_call {A} (f : K -> A * K) : M root_system A := on_root_task (task_call f).
Definition root_do (f : K -> K) : M root_system unit := on_root_task (task_do f).

(** A call that must report success. *)
Definition root_try (f : K -> Z * K) : M root_system unit :=
  let! error := root_call f in assert_ (error =? 0).

Definition sel4osapi_system_bootstrap_root : M root_system unit :=
  let! s := get in
  let info := platsupport_get_bootinfo (ta_kern (rs_task s)) in
  on_root_task (modify (fun t => ta_set_env true (ta_env t) t)) ;;
  modify (rs_set_morecore SEL4OSAPI_BOOTSTRAP_MEM_POOL_SIZE) ;;
  root_do (simple_default_init_bootinfo info) ;;
  let! allocator := root_call (bootstrap_use_current_simple SEL4OSAPI_BOOTSTRAP_MEM_POOL_SIZE) in
  assert_ (negb (allocator =? 0)) ;;
  let! s := get in
  let pd := simple_get_pd (ta_kern (rs_task s)) in
  root_try (sel4utils_bootstrap_vspace_with_bootinfo_leaky pd info) ;;
  let! range := root_call (vspace_reserve_range SEL4OSAPI_VKA_VMEM_SIZE) in
  modify (rs_set_vmem range.2) ;;
  assert_ (negb (range.1 =? 0)) ;;
  let! s := get in
  root_do (bootstrap_configure_virtual_pool range.2 SEL4OSAPI_VKA_VMEM_SIZE (simple_get_pd (ta_kern (rs_task s)))) ;;
  let! brk := root_call (sel4utils_reserve_range_no_alloc SEL4OSAPI_SYSTEM_VMEM_SIZE) in
  modify (rs_set_brk brk.2) ;;
  assert_ (brk.1 =? 0) ;;
  modify (rs_set_morecore 0).

(** The fields of the environment of the root task; [name] is its buffer, the rest
    of [e] is what the page held. *)
Definition pe_root (pd cnode tcb bits idling priority : Z) (e : sel4osapi_process_env_t) : sel4osapi_process_env_t :=
  ProcessEnv (splice (pe_name e) 0 (snprintf_bytes SEL4OSAPI_USER_PROCESS_NAME_MAX_LEN "root_task")) 0 pd cnode bits tcb (pe_free_slots e)
    (pe_untypeds e) seL4_CapNull (pe_sysclock_server_ep e) idling (pe_threads e) priority (pe_ipcclient e) (pe_stack_op_ep e) (pe_serial e).

Definition sel4osapi_system_initialize_root_task_env (m : root_memory P) : M root_system unit :=
  let! page := root_call (vspace_new_pages 1) in
  on_root_task (modify (fun t => ta_set_env (ta_is_root t) page t)) ;;
  assert_ (negb (page =? 0)) ;;
  on_root_task (modify (fun t => ta_set_pages (<[page := rm_env m]> (ta_pages t)) t)) ;;
  let! s := get in
  let k := ta_kern (rs_task s) in
  on_root_task (upd_env (pe_root (simple_get_pd k) (simple_get_cnode k) simple_get_tcb (simple_get_cnode_size_bits k) (rs_idling_aep s)
    (seL4_MaxPrio - 1))) ;;
  on_root_task (new_threads (rm_threads m)).

Definition sel4osapi_io_initialize : M root_system unit :=
  root_try sel4platsupport_new_io_ops ;;
  root_try sel4utils_new_page_dma_alloc.

(** thread.c works on the pool of threads of the task and on the kernel. *)
Definition on_root_threads {A} (m : M (thread_state root_routine K) A) : M root_system A :=
  let! s := get in
  let! p := deref (ta_threads (rs_task s)) in
  let! r := peek (ThreadState p (ta_kern (rs_task s))) (let! a := m in let! t := get in ret (a, t)) in
  on_root_task (modify (ta_set_threads (Some (th_pool r.2)))) ;;
  on_root_task (modify (ta_set_kern (th_env r.2))) ;;
  ret r.1.

Definition caps_of_env (is_root : bool) (e : sel4osapi_process_env_t) : process_caps :=
  ProcessCaps (pe_pid e) (pe_fault_endpoint e) (pe_root_cnode e) (pe_cspace_size_bits e) (pe_tcb e) is_root.

Definition root_thread_create (name : string) (routine : root_routine) (arg priority : Z) : M root_system ptr :=
  let! e := on_root_task read_env in
  let! s := get in
  on_root_threads (sel4osapi_thread_create (caps_of_env (ta_is_root (rs_task s)) e) (Some name) routine arg priority).

Definition root_thread_start (thread : ptr) : M root_system unit :=
  let! error := on_root_threads (sel4osapi_thread_start thread) in
  assert_ (error =? 0).

Definition new_schedule (a : arena timeout_entry) : M root_system (pool_state timeout_entry) :=
  peek a.1 (
    let! p := simple_pool_new SEL4OSAPI_SYSCLOCK_MAX_ENTRIES sizeof_timeout_entry (Some timer_entry_init) NULL (Some timer_entry_compare) a.2 in
    let! h := get in
    ret (PoolState p h)).

Definition pe_set_sysclock_ep c (e : sel4osapi_process_env_t) : sel4osapi_process_env_t :=
  ProcessEnv (pe_name e) (pe_pid e) (pe_page_directory e) (pe_root_cnode e) (pe_cspace_size_bits e) (pe_tcb e) (pe_free_slots e)
    (pe_untypeds e) (pe_fault_endpoint e) c (pe_idling_aep e) (pe_threads e) (pe_priority e)
    (pe_ipcclient e) (pe_stack_op_ep e) (pe_serial e).

Definition sel4osapi_sysclock_initialize (m : root_memory P) : M root_system unit :=
  modify (rs_upd_sysclock (sc_set_time 0)) ;;
  let! ep := root_call vka_alloc_endpoint in
  modify (rs_upd_sysclock (sc_set_server_ep ep.2)) ;;
  assert_ (ep.1 =? 0) ;;
  let! aep := root_call vka_alloc_notification in
  modify (rs_upd_sysclock (sc_set_timer_aep aep.2)) ;;
  assert_ (aep.1 =? 0) ;;
  let! schedule := new_schedule (rm_schedule m) in
  modify (rs_upd_sysclock (sc_set_schedule (Some schedule))) ;;
  root_try (sel4platsupport_init_default_timer_ops aep.2) ;;
  let! mutex := on_root_task (on_task_kern mutex_create) in
  modify (rs_upd_sysclock (sc_set_mutex mutex)) ;;
  assert_ (non_null mutex) ;;
  let! timer_thread := root_thread_create "sysclock::timer" sel4osapi_sysclock_timer_thread sysclock_addr seL4_MaxPrio in
  modify (rs_upd_sysclock (sc_set_timer_thread timer_thread)) ;;
  assert_ (non_null timer_thread) ;;
  let! server_thread := root_thread_create "sysclock::server" sel4osapi_sysclock_server_thread sysclock_addr seL4_MaxPrio in
  modify (rs_upd_sysclock (sc_set_server_thread server_thread)) ;;
  assert_ (non_null server_thread) ;;
  let! slot := root_call root_cspace_alloc in
  on_root_task (upd_env (pe_set_sysclock_ep slot.2)) ;;
  assert_ (slot.1 =? 0) ;;
  let! s := get in
  root_try (root_cnode_mint slot.2 (sc_server_ep_obj (rs_sysclock s)) 666).

Definition sel4osapi_sysclock_start : M root_system unit :=
  let! s := get in
  root_thread_start (sc_timer_thread (rs_sysclock s)) ;;
  root_thread_start (sc_server_thread (rs_sysclock s)).

Definition sel4osapi_io_serial_initialize (m : root_memory P) (priority : Z) : M root_system unit :=
  root_try platsupport_serial_setup_simple ;;
  let! chardev := root_call (ps_cdev_init PS_SERIAL0) in
  assert_ (negb (chardev =? 0)) ;;
  let! chardev := root_call (ps_cdev_init PS_SERIAL1) in
  assert_ (negb (chardev =? 0)) ;;
  let! clients := new_pool SEL4OSAPI_USER_PROCESS_MAX sizeof_serialclient (rm_serial m) in
  modify (rs_upd_serial (sv_set_clients (Some clients))) ;;
  let! mutex := on_root_task (on_task_kern mutex_create) in
  modify (rs_upd_serial (sv_set_mutex mutex)) ;;
  assert_ (non_null mutex) ;;
  let! ep := root_call vka_alloc_endpoint_leaky in
  modify (rs_upd_serial (sv_set_ep ep)) ;;
  assert_ (negb (ep =? seL4_CapNull)) ;;
  let! thread := root_thread_create "serial" sel4osapi_serial_server_thread serial_addr priority in
  modify (rs_upd_serial (sv_set_thread thread)) ;;
  assert_ (non_null thread) ;;
  root_thread_start thread.

Definition root_untypeds (m : root_memory P) : M root_system unit :=
  let! s := get in
  let! r := peek (ta_kern (rs_task s), rs_table s) (initialize_untypeds (rm_root_task_uts m) ;; get) in
  on_root_task (modify (ta_set_kern r.1)) ;;
  modify (rs_set_table r.2).

(** [bootstrap_mem_pool]: is it a buffer *)
Definition sel4osapi_system_initialize (bootstrap_mem_pool : bool) (m : root_memory P) : M root_system Z :=
  assert_ bootstrap_mem_pool ;;
  sel4osapi_system_bootstrap_root ;;
  on_root_task sel4osapi_system_initialize_global_mutex ;;
  let! aep := root_call vka_alloc_notification in
  assert_ (aep.1 =? 0) ;;
  modify (rs_set_idling aep.2) ;;
  root_untypeds m ;;
  let! processes := new_pool SEL4OSAPI_USER_PROCESS_MAX sizeof_process (rm_processes m) in
  modify (rs_set_processes (Some processes)) ;;
  sel4osapi_system_initialize_root_task_env m ;;
  on_root_task sel4osapi_system_initialize_main_thread ;;
  let! _ := on_root_task sel4osapi_log_initialize in
  sel4osapi_io_initialize ;;
  sel4osapi_sysclock_initialize m ;;
  sel4osapi_sysclock_start ;;
  let! ipc := on_root_task (on_task_kern (sel4osapi_ipcserver_initialize (rm_ipc m).2 (rm_ipc m).1)) in
  modify (rs_set_ipc ipc.1.2 (Some ipc.2)) ;;
  let! e := on_root_task read_env in
  sel4osapi_io_serial_initialize m (pe_priority e) ;;
  ret 0.
End root_c.
Arguments root_system K P : clear implicits.

(** ** What is used of the libraries

    [task_op] of [System], and the calls below: each takes at most one unit of what
    is left ([room]) and at most one block of untyped memory, and keeps mutexes,
    semaphores, capabilities and the blocks handed out.
    - [boot_blocks]: blocks of 2^23 bytes the boot info gives the allocator;
      [blocks_worth]: room in a block that has not been handed out;
    - allocating and freeing blocks keeps mutexes, semaphores and capabilities;
    - the calls succeed while there is room; [vmem_left]: bytes of address space
      not reserved. *)
Inductive root_op {K : Type} `{SyncObjects K} `{ThreadEnv K} `{TaskLib K} `{RootEnv K} `{RootLib K} (k : K) : K -> Prop :=
| ro_task k' : task_op k k' -> root_op k k'
| ro_endpoint : root_op k (vka_alloc_endpoint k).2
| ro_configure c : root_op k (sel4utils_configure_thread_config c k).2
| ro_start n : root_op k (sel4utils_start_thread n k).2
| ro_set_space t e : root_op k (api_tcb_set_space t e k).2
| ro_handler e : root_op k (sel4utils_start_fault_handler e k).2
| ro_priority t a p : root_op k (seL4_TCB_SetPriority t a p k).2
| ro_sched_context : root_op k (vka_alloc_sched_context k).2
| ro_sched_ctrl c : root_op k (api_sched_ctrl_configure c k).2
| ro_sc_bind c t : root_op k (api_sc_bind c t k).2
| ro_vspace pd info : root_op k (sel4utils_bootstrap_vspace_with_bootinfo_leaky pd info k).2
| ro_reserve n : root_op k (vspace_reserve_range n k).2
| ro_virtual_pool a n pd : root_op k (bootstrap_configure_virtual_pool a n pd k)
| ro_reserve_no_alloc n : root_op k (sel4utils_reserve_range_no_alloc n k).2
| ro_pages n : root_op k (vspace_new_pages n k).2
| ro_io_ops : root_op k (sel4platsupport_new_io_ops k).2
| ro_dma : root_op k (sel4utils_new_page_dma_alloc k).2
| ro_timer a : root_op k (sel4platsupport_init_default_timer_ops a k).2
| ro_slot : root_op k (root_cspace_alloc k).2
| ro_mint d c b : root_op k (root_cnode_mint d c b k).2
| ro_serial : root_op k (platsupport_serial_setup_simple k).2
| ro_cdev d : root_op k (ps_cdev_init d k).2
| ro_leaky : root_op k (vka_alloc_endpoint_leaky k).2.

Inductive ut_op {K : Type} `{UntypedVka K} (k : K) : K -> Prop :=
| ut_alloc bits : ut_op k (vka_alloc_untyped bits k).2
| ut_free o : ut_op k (Untyped.vka_free_object o k).

Class RootLibOk (K : Type) `{TaskLibOk K} `{UntypedVkaOk K} `{!RootEnv K} `{!RootLib K} := {
  boot_blocks : K -> nat;
  blocks_worth : nat;
  vmem_left : K -> Z;
  root_vmem : Z;
  sizeof_process_pos : 0 < sizeof_process;
  root_op_keeps k k' : objects_inv k -> root_op k k' ->
    objects_inv k' /\ grows (objects_of k) (objects_of k') /\ caps_of k ⊆ caps_of k' /\ (room k - 1 <= room k')%nat /\
    live (vka_view_of k) ⊆ live (vka_view_of k') /\ (available (vka_view_of k) - 1 <= available (vka_view_of k'))%nat;
  ut_op_keeps k k' : objects_inv k -> ut_op k k' ->
    objects_inv k' /\ grows (objects_of k) (objects_of k') /\ caps_of k ⊆ caps_of k';
  blocks_room k : objects_inv k -> (available (vka_view_of k) * blocks_worth <= room k)%nat;
  bootinfo_ok info k : boot_blocks (simple_default_init_bootinfo info k) = boot_blocks k;
  use_current_ok n k : let r := bootstrap_use_current_simple n k in
    r.1 <> 0 /\ objects_inv r.2 /\ available (vka_view_of r.2) = boot_blocks k;
  root_vspace_ok pd info k : objects_inv k -> (0 < room k)%nat -> let r := sel4utils_bootstrap_vspace_with_bootinfo_leaky pd info k in
    r.1 = 0 /\ vmem_left r.2 = root_vmem;
  root_reserve_ok n k : objects_inv k -> 0 <= n <= vmem_left k -> let r := vspace_reserve_range n k in
    r.1.1 <> 0 /\ vmem_left r.2 = vmem_left k - n;
  root_virtual_pool_ok a n pd k : objects_inv k -> vmem_left (bootstrap_configure_virtual_pool a n pd k) = vmem_left k;
  root_reserve_no_alloc_ok n k : objects_inv k -> 0 <= n <= vmem_left k -> (sel4utils_reserve_range_no_alloc n k).1.1 = 0;
  root_page_ok k : objects_inv k -> (0 < room k)%nat -> (vspace_new_pages 1 k).1 <> 0;
  root_io_ops_ok k : objects_inv k -> (0 < room k)%nat -> (sel4platsupport_new_io_ops k).1 = 0;
  root_dma_ok k : objects_inv k -> (0 < room k)%nat -> (sel4utils_new_page_dma_alloc k).1 = 0;
  root_timer_ok a k : objects_inv k -> (0 < room k)%nat -> (sel4platsupport_init_default_timer_ops a k).1 = 0;
  root_slot_ok k : objects_inv k -> (0 < room k)%nat -> (root_cspace_alloc k).1.1 = 0;
  root_mint_ok c b k : objects_inv k -> (0 < room k)%nat -> let r := root_cspace_alloc k in (root_cnode_mint r.1.2 c b r.2).1 = 0;
  root_serial_ok k : objects_inv k -> (0 < room k)%nat -> (platsupport_serial_setup_simple k).1 = 0;
  root_cdev_ok d k : objects_inv k -> (0 < room k)%nat -> (ps_cdev_init d k).1 <> 0;
  root_leaky_ok k : objects_inv k -> (0 < room k)%nat -> (vka_alloc_endpoint_leaky k).1 <> 0
}.

(** ** How many calls a piece of code makes *)

(** *** Threads: every call of thread.c is counted *)

Section thread_moves.
Context {CFG : Config} {K : Type} {OBJ : SyncObjects K} {THR : ThreadEnv K} {TASK : TaskLib K} {ROOT : RootEnv K} {LIB : RootLib K}.
Context {F : Type}.

Local Abbreviation tmoves n m := (moves (S := thread_state F K) th_env (bsteps root_op) n m).

Lemma moves_tcall {A} (f : K -> A * K) : (forall k, root_op k (f k).2) -> tmoves 1 (tcall f).
Proof. intros H s a s' [= <- <-]. apply bsteps_once, H. Qed.

Lemma moves_on_threads {A} (m : M (pool_state (sel4osapi_thread_t F)) A) : tmoves 0 (on_threads m).
Proof. by apply (moves_zoom th_env (bsteps root_op)). Qed.

Lemma moves_zf_logf b : tmoves 0 (zf_logf_if b).
Proof. unfold zf_logf_if. destruct ZF_LOGF_ABORTS; [apply (moves_assert th_env (bsteps root_op))|apply (moves_ret th_env (bsteps root_op))]. Qed.

Lemma moves_weaken {A} n1 n2 (m : M (thread_state F K) A) : tmoves n1 m -> (n1 <= n2)%nat -> tmoves n2 m.
Proof. intros H Hle s. eapply wlp_mono; [apply H|]. intros a s' Hs. by eapply bsteps_weaken. Qed.

Ltac moves_step := first
  [ apply moves_on_threads | apply moves_zf_logf | apply (moves_assert th_env (bsteps root_op)) | apply (moves_ret th_env (bsteps root_op))
  | apply moves_tcall; intros; solve [apply ro_task, op_notification | apply ro_endpoint | apply ro_configure
      | apply ro_start | apply ro_set_space | apply ro_handler | apply ro_priority | apply ro_sched_context | apply ro_sched_ctrl | apply ro_sc_bind] | eapply (moves_bind th_env (bsteps root_op)); [|intros ?] ].

Lemma moves_setup_fault_handler t : tmoves 7 (setup_fault_handler t).
Proof.
  unfold setup_fault_handler, read_thread. destruct CONFIG_KERNEL_RT; (eapply moves_weaken; [repeat moves_step|lia]).
Qed.

Lemma moves_thread_create env name f arg priority : tmoves 10 (sel4osapi_thread_create env name f arg priority).
Proof.
  unfold sel4osapi_thread_create, upd_thread, read_thread.
  destruct (pc_is_root env); (eapply moves_weaken; [repeat first [apply moves_setup_fault_handler | moves_step]|lia]).
Qed.

Lemma moves_thread_start t : tmoves 1 (sel4osapi_thread_start t).
Proof. unfold sel4osapi_thread_start, read_thread. eapply moves_weaken; [repeat moves_step|lia]. Qed.
End thread_moves.

(** *** Untyped memory: the allocator allocates and frees blocks only *)

Section untyped_moves.
Context {CFG : Config} {K : Type} {UVKA : UntypedVka K}.

Local Abbreviation umoves m := (moves (S := K * untyped_table) fst (fun _ => rtc ut_op) 0 m).
Local Abbreviation vmoves m := (moves (S := K) id (fun _ => rtc ut_op) 0 m).

Lemma moves_on_vka {A} (m : M K A) : vmoves m -> umoves (on_vka m).
Proof. intros H [v t]. apply wlp_zoom. apply H. Qed.

Lemma moves_aset {S A} (view : S -> K) (l : list A) i v : moves view (fun _ => rtc ut_op) 0 (aset l i v).
Proof. apply (moves_deref view (fun _ => rtc ut_op)). Qed.

Lemma moves_allocate bytes max l : vmoves (sel4osapi_util_allocate_untypeds bytes max l).
Proof.
  apply (moves_bind id (fun _ => rtc ut_op) 0 0); [|intros r; apply (moves_ret id (fun _ => rtc ut_op))].
  apply (moves_while id (fun _ => rtc ut_op)). intros [[[n a] u] b]. unfold allocate_body.
  destruct (_ && _); [|apply (moves_ret id (fun _ => rtc ut_op))].
  apply (moves_bind id (fun _ => rtc ut_op) 0 0); [|intros r; apply (moves_bind id (fun _ => rtc ut_op) 0 0); [apply moves_aset|intros l']].
  - intros s a0 s' [= Hr]. cbn. replace s' with (vka_alloc_untyped untyped_size_bits s).2 by by rewrite Hr. apply rtc_once, ut_alloc.
  - destruct (r.1 =? 0); apply (moves_ret id (fun _ => rtc ut_op)).
Qed.

Lemma moves_initialize_untypeds l : umoves (initialize_untypeds l).
Proof.
  pose (B := fun A C (m : M (K * untyped_table) A) (f : A -> M _ C) => moves_bind fst (fun _ => rtc ut_op) 0 0 m f).
  pose (L := fun m : untyped_table -> untyped_table => (moves_modify fst (fun _ => rtc ut_op) 0 (fun s : K * untyped_table => (s.1, m s.2)))).
  unfold initialize_untypeds. apply B; [apply moves_on_vka, moves_allocate|intros root].
  apply B; [apply (moves_get fst (fun _ => rtc ut_op))|intros s]. apply B; [apply moves_on_vka, moves_allocate|intros user].
  apply B; [by apply L|intros _]. apply B; [apply (moves_while fst (fun _ => rtc ut_op)); intros i|intros _].
  { apply B; [apply (moves_get fst (fun _ => rtc ut_op))|intros s1]. apply B; [apply (moves_deref fst (fun _ => rtc ut_op))|intros o]. apply B; [apply moves_aset|intros l'].
    apply B; [by apply L|intros _]. apply (moves_ret fst (fun _ => rtc ut_op)). }
  apply B; [apply (moves_while fst (fun _ => rtc ut_op)); intros i|intros _].
  { apply B; [apply (moves_deref fst (fun _ => rtc ut_op))|intros o]. apply B; [|intros _; apply (moves_ret fst (fun _ => rtc ut_op))].
    apply moves_on_vka, (moves_modify id (fun _ => rtc ut_op)). intros k. apply rtc_once, ut_free. }
  apply B; [apply (moves_assert fst (fun _ => rtc ut_op))|intros _].
  apply B; [apply (moves_while fst (fun _ => rtc ut_op)); intros i|intros _; apply (moves_ret fst (fun _ => rtc ut_op))].
  apply B; [apply (moves_get fst (fun _ => rtc ut_op))|intros s1]. apply B; [apply moves_aset|intros l'].
  apply B; [by apply L|intros _]. apply (moves_ret fst (fun _ => rtc ut_op)).
Qed.
End untyped_moves.

(** ** Each phase *)

Section root_spec.
Context {CFG : Config} {K P : Type} {OBJ : SyncObjects K} {OOK : SyncObjectsOk K} {THR : ThreadEnv K} {TOK : ThreadEnvOk K}.
Context {TASK : TaskLib K} {TAOK : TaskLibOk K} {UVKA : UntypedVka K} {UVOK : UntypedVkaOk K}.
Context {ROOT : RootEnv K} {LIB : RootLib K} {LOK : RootLibOk K}.
Implicit Types (s : root_system K P) (k : K) (e : sel4osapi_process_env_t) (m : root_memory P).

Definition rkern s : K := ta_kern (rs_task s).
Definition set_rkern k s : root_system K P := rs_set_task (ta_set_kern k (rs_task s)) s.

(** What is there stays, and at most [n] units are taken. *)
Record safe (n : nat) k k' : Prop := {
  kp_inv : objects_inv k';
  kp_grows : grows (objects_of k) (objects_of k');
  kp_caps : caps_of k ⊆ caps_of k';
  kp_room : (room k - n <= room k')%nat;
  kp_live : live (vka_view_of k) ⊆ live (vka_view_of k');
  kp_available : (available (vka_view_of k) - n <= available (vka_view_of k'))%nat
}.

Lemma safe_refl n k : objects_inv k -> safe n k k.
Proof. intros H. split; [done|by split|done|lia|done|lia]. Qed.

Lemma safe_trans n1 n2 k1 k2 k3 : safe n1 k1 k2 -> safe n2 k2 k3 -> safe (n1 + n2) k1 k3.
Proof. intros [_ [H2 H2'] H3 H4 H5 H6] [G1 [G2 G2'] G3 G4 G5 G6]. split; [done|split; by etrans|by etrans|lia|by etrans|lia]. Qed.

Lemma safe_weaken n1 n2 k k' : safe n1 k k' -> (n1 <= n2)%nat -> safe n2 k k'.
Proof. intros [H1 H2 H3 H4 H5 H6] Hle. split; [done..|lia|done|lia]. Qed.

(** From [k] to [k'] in at most [n] of the calls [root_op]. *)
Record kept (n : nat) k k' : Prop := {
  kp_safe :> safe n k k';
  kp_steps : bsteps root_op n k k'
}.

Lemma kept_trans n1 n2 k1 k2 k3 : kept n1 k1 k2 -> kept n2 k2 k3 -> kept (n1 + n2) k1 k3.
Proof. intros [H1 H2] [G1 G2]. split; [by eapply safe_trans|by eapply bsteps_trans]. Qed.

Lemma kept_op k k' : objects_inv k -> root_op k k' -> kept 1 k k'.
Proof. intros Hi Hop. split; [|by apply bsteps_once]. destruct (root_op_keeps k k' Hi Hop) as (H1 & H2 & H3 & H4 & H5 & H6). by split. Qed.

Lemma kept_steps n k k' : objects_inv k -> bsteps root_op n k k' -> kept n k k'.
Proof.
  intros Hi H. split; [|exact H]. induction H as [n k|n k1 k2 k3 Hop _ IH]; [by apply safe_refl|].
  pose proof (kept_op _ _ Hi Hop) as H1. apply (safe_trans 1 n _ _ _ H1). apply IH, (kp_inv _ _ _ H1).
Qed.

Lemma kept_spent n k k' : objects_inv k -> spent n k k' -> kept n k k'.
Proof.
  intros Hi [H _ _ _ _]. apply kept_steps; [done|]. clear -H. induction H as [|n k1 k2 k3 Hop _ IH]; [apply bsteps_refl|]. eapply bsteps_l; [by apply ro_task|exact IH].
Qed.

(** Mutexes a task has made: distinct, and still there. *)
Definition owns (ls : list loc) k : Prop := NoDup ls /\ Forall (fun l => l ∈ live_mutexes (objects_of k)) ls.

Lemma owns_kept ls n k k' : owns ls k -> safe n k k' -> owns ls k'.
Proof. intros [H1 H2] T. split; [done|]. eapply Forall_impl; [exact H2|]. intros l. apply (kp_grows _ _ _ T). Qed.

Lemma owns_new ls l n k k' : owns ls k -> safe n k k' -> l ∉ live_mutexes (objects_of k) -> l ∈ live_mutexes (objects_of k') -> owns (l :: ls) k'.
Proof.
  intros [H1 H2] T Hn Hl. destruct (owns_kept ls n k k' (conj H1 H2) T) as [_ H3]. split; [|by constructor].
  apply NoDup_cons. split; [|done]. intros Hin. rewrite Forall_forall in H2. by apply Hn, H2.
Qed.

(** *** Calls *)

Lemma wp_on_root_task {A} (c : M (task root_routine K) A) (Q : A -> root_system K P -> Prop) s :
  wp c (fun a t => Q a (rs_set_task t s)) (rs_task s) -> wp (on_root_task c) Q s.
Proof. apply wp_zoom. Qed.

Lemma wp_root_task_call {A} (f : K -> A * K) (Q : A -> root_system K P -> Prop) s :
  Q (f (rkern s)).1 (set_rkern (f (rkern s)).2 s) -> wp (root_call f) Q s.
Proof. intros HQ. apply wp_on_root_task. by apply wp_task_call. Qed.

Lemma wp_root_do (f : K -> K) (Q : unit -> root_system K P -> Prop) s : Q tt (set_rkern (f (rkern s)) s) -> wp (root_do f) Q s.
Proof. intros HQ. apply wp_on_root_task, wp_on_task_kern. by wp_step. Qed.

Lemma wp_root_try_eq f (Q : unit -> root_system K P -> Prop) s : objects_inv (rkern s) -> root_op (rkern s) (f (rkern s)).2 ->
  (f (rkern s)).1 = 0 -> (kept 1 (rkern s) (f (rkern s)).2 -> Q tt (set_rkern (f (rkern s)).2 s)) -> wp (root_try f) Q s.
Proof.
  intros Hi Hop He HQ. unfold root_try. wp_step. apply wp_root_task_call. rewrite He. apply wp_assert; [done|].
  by apply HQ, kept_op.
Qed.

Lemma wp_root_try f (Q : unit -> root_system K P -> Prop) s : objects_inv (rkern s) -> root_op (rkern s) (f (rkern s)).2 ->
  (f (rkern s)).1 = 0 -> (forall k, kept 1 (rkern s) k -> Q tt (set_rkern k s)) -> wp (root_try f) Q s.
Proof. intros Hi Hop He HQ. apply wp_root_try_eq; [done..|]. apply HQ. Qed.

Lemma wp_root_mutex s ls (Q : ptr -> root_system K P -> Prop) : objects_inv (rkern s) -> (0 < room (rkern s))%nat -> owns ls (rkern s) ->
  (forall l k, kept 1 (rkern s) k -> owns (l :: ls) k -> Q (Some l) (set_rkern k s)) -> wp (on_root_task (on_task_kern mutex_create)) Q s.
Proof.
  intros Hi Hr Ho HQ. apply wp_on_root_task, wp_on_task_kern, wp_task_mutex; [done..|]. intros l k T Hn Hl.
  pose proof (kept_spent _ _ _ Hi T) as T'. apply HQ; [done|]. exact (owns_new _ _ _ _ _ Ho T' Hn Hl).
Qed.

Lemma wp_root_notification s (Q : Z * Z -> root_system K P -> Prop) : objects_inv (rkern s) -> (0 < room (rkern s))%nat ->
  (forall c k, kept 1 (rkern s) k -> c ∉ caps_of (rkern s) -> c ∈ caps_of k -> Q (0, c) (set_rkern k s)) -> wp (root_call vka_alloc_notification) Q s.
Proof.
  intros Hi Hr HQ. apply wp_root_task_call. pose proof (room_threads (rkern s)).
  destruct (th_notification_ok (rkern s)) as (He & Hn & Hin & _); [lia|].
  rewrite (surjective_pairing (vka_alloc_notification (rkern s)).1), He. apply HQ; [|done..].
  by apply kept_op, ro_task, op_notification.
Qed.

(** *** The allocator *)

Definition bootstrapped s s' : Prop := exists k vm brk,
  s' = RootSystem (ta_set_kern k (ta_set_env true (ta_env (rs_task s)) (rs_task s))) vm brk 0 (rs_idling_aep s) (rs_table s) (rs_processes s)
    (rs_sysclock s) (rs_ipc_mutex s) (rs_ipc_clients s) (rs_serial s) /\
  objects_inv k /\ (boot_blocks (rkern s) - 4 <= available (vka_view_of k))%nat.

Lemma wp_bootstrap_root s (Q : unit -> root_system K P -> Prop) :
  (0 < blocks_worth)%nat -> (4 < boot_blocks (rkern s))%nat -> 0 <= SEL4OSAPI_VKA_VMEM_SIZE -> 0 <= SEL4OSAPI_SYSTEM_VMEM_SIZE ->
  SEL4OSAPI_VKA_VMEM_SIZE + SEL4OSAPI_SYSTEM_VMEM_SIZE <= root_vmem ->
  (forall s', bootstrapped s s' -> Q tt s') -> wp sel4osapi_system_bootstrap_root Q s.
Proof.
  intros Hw Hb H1 H2 Hv HQ. unfold sel4osapi_system_bootstrap_root. wp_steps. apply wp_on_root_task. wp_steps.
  apply wp_root_do. match goal with |- context [simple_default_init_bootinfo ?i (rkern ?t)] => set (info := i); change (rkern t) with (rkern s) end.
  pose proof (bootinfo_ok info (rkern s)) as Hb1. set (k1 := simple_default_init_bootinfo info (rkern s)) in *. wp_steps. apply wp_root_task_call.
  match goal with |- context [bootstrap_use_current_simple ?n (rkern ?t)] => change (rkern t) with k1 end.
  destruct (use_current_ok SEL4OSAPI_BOOTSTRAP_MEM_POOL_SIZE k1) as (Ha & Hi2 & Hav2). rewrite Hb1 in Hav2.
  set (k2 := (bootstrap_use_current_simple _ k1).2) in *. pose proof (blocks_room k2 Hi2).
  wp_step. apply wp_assert; [by apply negb_true_iff, Z.eqb_neq|]. wp_steps.
  match goal with |- context [root_try (sel4utils_bootstrap_vspace_with_bootinfo_leaky ?p _)] => set (pd := p) end.
  destruct (root_vspace_ok pd info k2 Hi2) as [He3 Hv3]; [nia|].
  apply wp_root_try_eq; [exact Hi2|apply ro_vspace|exact He3|].
  match goal with |- context [sel4utils_bootstrap_vspace_with_bootinfo_leaky pd info (rkern ?t)] => change (rkern t) with k2 end.
  set (k3 := (sel4utils_bootstrap_vspace_with_bootinfo_leaky pd info k2).2) in *. intros T3.
  wp_step. apply wp_root_task_call. match goal with |- context [vspace_reserve_range ?n (rkern ?t)] => change (rkern t) with k3 end.
  destruct (root_reserve_ok SEL4OSAPI_VKA_VMEM_SIZE k3 (kp_inv _ _ _ T3)) as [Hr4 Hv4]; [lia|].
  pose proof (kept_op k3 _ (kp_inv _ _ _ T3) (ro_reserve k3 SEL4OSAPI_VKA_VMEM_SIZE)) as T4.
  set (r4 := vspace_reserve_range SEL4OSAPI_VKA_VMEM_SIZE k3) in *.
  wp_steps. { by apply negb_true_iff, Z.eqb_neq. } apply wp_root_do.
  match goal with |- context [bootstrap_configure_virtual_pool ?a ?n ?p (rkern ?t)] => change (rkern t) with r4.2; set (pd5 := p) end.
  pose proof (kept_op r4.2 _ (kp_inv _ _ _ T4) (ro_virtual_pool _ r4.1.2 SEL4OSAPI_VKA_VMEM_SIZE pd5)) as T5.
  pose proof (root_virtual_pool_ok r4.1.2 SEL4OSAPI_VKA_VMEM_SIZE pd5 r4.2 (kp_inv _ _ _ T4)) as Hv5.
  set (k5 := bootstrap_configure_virtual_pool _ _ _ r4.2) in *.
  wp_step. apply wp_root_task_call. match goal with |- context [sel4utils_reserve_range_no_alloc ?n (rkern ?t)] => change (rkern t) with k5 end.
  pose proof (root_reserve_no_alloc_ok SEL4OSAPI_SYSTEM_VMEM_SIZE k5 (kp_inv _ _ _ T5)) as He6.
  pose proof (kept_op k5 _ (kp_inv _ _ _ T5) (ro_reserve_no_alloc k5 SEL4OSAPI_SYSTEM_VMEM_SIZE)) as T6.
  set (r6 := sel4utils_reserve_range_no_alloc SEL4OSAPI_SYSTEM_VMEM_SIZE k5) in *. wp_steps. { apply Z.eqb_eq, He6. lia. }
  apply HQ. exists r6.2. eexists _, _. split; [reflexivity|]. split; [exact (kp_inv _ _ _ T6)|].
  pose proof (kp_available _ _ _ (kept_trans _ _ _ _ _ (kept_trans _ _ _ _ _ T3 T4) (kept_trans _ _ _ _ _ T5 T6))). lia.
Qed.

(** *** Untyped memory *)

(** Blocks held back for the root task while the others are taken. *)
Definition root_reserve : nat := Nat.min (Z.to_nat ROOT_TASK_NUM_UNTYPEDS) (Z.to_nat (SEL4OSAPI_ROOT_TASK_UNTYPED_MEM_SIZE / 2 ^ untyped_size_bits)).

Lemma ut_ops_keep k k' : objects_inv k -> rtc ut_op k k' -> objects_inv k' /\ grows (objects_of k) (objects_of k') /\ caps_of k ⊆ caps_of k'.
Proof.
  intros Hi H. induction H as [k|k1 k2 k3 Hop _ IH]; [split; [done|by split]|].
  destruct (ut_op_keeps k1 k2 Hi Hop) as (H1 & [H2 H2'] & H3). destruct (IH H1) as (G1 & [G2 G2'] & G3).
  split; [done|]. split; [split; by etrans|by etrans].
Qed.

Record table_ok (t : untyped_table) m : Prop := {
  to_size : is_u32 SEL4OSAPI_ROOT_TASK_UNTYPED_MEM_SIZE;
  to_uts : (16 <= length (rm_root_task_uts m))%nat;
  to_num : (length (user_untypeds t) <= 255)%nat;
  to_bits : (length (user_untypeds t) <= length (user_untypeds_size_bits t))%nat;
  to_allocation : (length (user_untypeds t) <= length (user_untypeds_allocation t))%nat;
  to_some : (0 < length (user_untypeds t))%nat
}.

(** The blocks [blocks] are set aside for processes, all of them free. *)
Definition blocks_free (t : untyped_table) (blocks : list vka_object_t) (n : nat) k : Prop :=
  length blocks = n /\ table_rep t blocks (replicate n 0) /\ NoDup (cptr <$> blocks) /\ Forall (fun c => c ∈ live (vka_view_of k)) (cptr <$> blocks).

Lemma wp_root_untypeds m s ls (Q : unit -> root_system K P -> Prop) : table_ok (rs_table s) m -> objects_inv (rkern s) -> owns ls (rkern s) ->
  (root_reserve < available (vka_view_of (rkern s)))%nat ->
  (forall k t blocks, let n := Nat.min (length (user_untypeds (rs_table s))) (available (vka_view_of (rkern s)) - root_reserve) in
     blocks_free t blocks n k -> objects_inv k -> owns ls k -> caps_of (rkern s) ⊆ caps_of k -> (root_reserve * blocks_worth <= room k)%nat ->
     Q tt (rs_set_table t (set_rkern k s))) -> wp (root_untypeds m) Q s.
Proof.
  intros [T1 T2 T3 T4 T5 T6] Hi Ho Hr HQ. unfold root_untypeds. do 2 wp_step. wp_step. apply wp_peek. wp_step.
  set (n := Nat.min _ _) in HQ.
  assert (Hres : blocks_for SEL4OSAPI_ROOT_TASK_UNTYPED_MEM_SIZE ROOT_TASK_NUM_UNTYPEDS (vka_view_of (rkern s)) = root_reserve).
  { unfold blocks_for. fold root_reserve. lia. }
  pose proof (wp_initialize_untypeds (rm_root_task_uts m) (rs_table s) (rkern s) T1 T2 T3 T4 T5) as H. cbv zeta in H. rewrite Hres in H. fold n in H.
  eapply wp_mono; [eapply wp_wlp; [apply H; unfold n; lia|apply moves_initialize_untypeds]|].
  intros _ [k t] [(blocks & Hl & Htab & Hout) Hmv]. cbn in Hmv, Htab, Hout. wp_steps. apply wp_on_root_task. wp_steps.
  destruct (ut_ops_keep _ _ Hi Hmv) as (Hi' & Hg & Hc). destruct Hout as (_ & Hnd & _ & Hle & Hview).
  apply (HQ k t blocks); [|done| |done|].
  - split; [done|]. split; [done|]. split; [done|]. rewrite Hview. apply Forall_forall. intros c Hc'. cbn. set_solver.
  - destruct Ho as [O1 O2]. split; [done|]. eapply Forall_impl; [exact O2|]. intros l. apply Hg.
  - etrans; [|apply blocks_room; done]. apply Nat.mul_le_mono_r. rewrite Hview. cbn [available]. unfold n in Hl. lia.
Qed.

(** *** Environment and threads of the root task *)

Definition task_env s : option sel4osapi_process_env_t := ta_pages (rs_task s) !! ta_env (rs_task s).

Lemma wp_root_env m s (Q : unit -> root_system K P -> Prop) : objects_inv (rkern s) -> (0 < room (rkern s))%nat ->
  arena_ok SEL4OSAPI_MAX_THREADS_PER_PROCESS (sizeof_thread (K := K)) (rm_threads m) ->
  (forall pages page e k p pd cnode tcb bits, kept 1 (rkern s) k -> pages !! page = Some e -> fresh_pool SEL4OSAPI_MAX_THREADS_PER_PROCESS p ->
     e = pe_root pd cnode tcb bits (rs_idling_aep s) (seL4_MaxPrio (K := K) - 1) (rm_env m) ->
     Q tt (rs_set_task (Task (ta_is_root (rs_task s)) pages page (ta_main (rs_task s)) (ta_global_mutex (rs_task s))
       (ta_logmutex (rs_task s)) (Some p) k) s)) -> wp (sel4osapi_system_initialize_root_task_env m) Q s.
Proof.
  intros Hi Hr Ha HQ. unfold sel4osapi_system_initialize_root_task_env. wp_step. apply wp_root_task_call.
  pose proof (kept_op _ _ Hi (ro_pages (rkern s) 1)) as T. set (r := vspace_new_pages 1 (rkern s)) in *.
  assert (Hp : r.1 <> 0) by (by apply root_page_ok).
  wp_step. apply wp_on_root_task. wp_steps. { by apply negb_true_iff, Z.eqb_neq. }
  apply wp_on_root_task. wp_steps. apply wp_on_root_task. eapply wp_upd_env; [apply lookup_insert_eq|].
  wp_steps. apply wp_on_root_task. eapply wp_new_threads; [exact Ha|]. intros p Hfp.
  match goal with |- Q tt ?s' => assert (s' = s') as _ by done end.
  eapply (HQ _ r.1); [exact T| |exact Hfp|reflexivity]. apply lookup_insert_eq.
Qed.

Lemma threads_rep_kept env n (p : pool_state (sel4osapi_thread_t root_routine)) k k' free busy ts qs :
  threads_rep env (ThreadState p k) free busy ts qs -> safe n k k' -> threads_rep env (ThreadState p k') free busy ts qs.
Proof.
  intros [H1 H2 H3 H4 H5] T. split; [exact H1|exact H2|exact H3|exact H4|]. eapply Forall_impl; [exact H5|]. intros t. cbn. apply (kp_caps _ _ _ T).
Qed.

Definition set_rthreads (p : pool_state (sel4osapi_thread_t root_routine)) k s : root_system K P :=
  rs_set_task (ta_set_kern k (ta_set_threads (Some p) (rs_task s))) s.

Lemma wp_on_root_threads {A} (c : M (thread_state root_routine K) A) n p s (R : A -> thread_state root_routine K -> Prop) (Q : A -> root_system K P -> Prop) :
  ta_threads (rs_task s) = Some p -> objects_inv (rkern s) -> wp c R (ThreadState p (rkern s)) -> moves th_env (bsteps root_op) n c ->
  (forall a p' k, kept n (rkern s) k -> R a (ThreadState p' k) -> Q a (set_rthreads p' k s)) -> wp (on_root_threads c) Q s.
Proof.
  intros Hp Hi Hc Hm HQ. unfold on_root_threads. do 2 wp_step. wp_step. eapply wp_deref; [exact Hp|]. wp_step. apply wp_peek. wp_step.
  eapply wp_mono; [apply (wp_wlp _ _ _ _ Hc (Hm _))|]. intros a [p' k] [HR Hmv]. cbn in Hmv. wp_steps.
  apply wp_on_root_task. wp_steps. apply wp_on_root_task. wp_steps. apply (HQ a p' k); [by apply kept_steps|exact HR].
Qed.

Lemma wp_root_thread_create name f arg priority e p x free busy ts qs s (Q : ptr -> root_system K P -> Prop) :
  task_env s = Some e -> ta_threads (rs_task s) = Some p -> objects_inv (rkern s) -> (thread_cost <= room (rkern s))%nat ->
  threads_rep (caps_of_env (ta_is_root (rs_task s)) e) (ThreadState p (rkern s)) (x :: free) busy ts qs ->
  (forall p' k t, kept 10 (rkern s) k -> threads_rep (caps_of_env (ta_is_root (rs_task s)) e) (ThreadState p' k) free (busy ++ [x]) (ts ++ [t])
     (qs ++ [Request (Some name) f arg priority]) -> Q (Some x.2) (set_rthreads p' k s)) ->
  wp (root_thread_create name f arg priority) Q s.
Proof.
  intros He Hp Hi Hr T HQ. unfold root_thread_create. wp_step. apply wp_on_root_task. eapply wp_read_env; [exact He|].
  replace (rs_set_task (rs_task s) s) with s by by destruct s. do 2 wp_step. pose proof (room_threads (rkern s)).
  eapply wp_on_root_threads; [exact Hp|exact Hi| |apply moves_thread_create|].
  - eapply (threads_rep_create _ (Request (Some name) f arg priority)); [exact T|cbn; lia].
  - intros r p' k Tk (-> & _ & t & T'). by eapply HQ.
Qed.

Lemma wp_root_start p free busy ts qs env j x s (Q : Z -> root_system K P -> Prop) :
  ta_threads (rs_task s) = Some p -> objects_inv (rkern s) -> threads_rep env (ThreadState p (rkern s)) free busy ts qs -> busy !! j = Some x ->
  (forall k, kept 1 (rkern s) k -> Q 0 (set_rthreads p k s)) -> wp (on_root_threads (sel4osapi_thread_start (Some x.2))) Q s.
Proof.
  intros Hp Hi T Hx HQ. destruct (holds_length _ _ _ _ (tr_pool _ _ _ _ _ _ T)) as (Hl & _).
  destruct (lookup_lt_is_Some_2 ts j) as [t Ht]; [apply lookup_lt_Some in Hx; lia|].
  eapply (wp_on_root_threads _ 1 p s (fun r (t' : thread_state root_routine K) => r = 0 /\ th_pool t' = p)); [done|done| |apply moves_thread_start|].
  - unfold sel4osapi_thread_start. wp_step. eapply wp_read_thread; [apply T|exact Hx|exact Ht|]. wp_step. apply wp_tcall. cbn.
    destruct (th_start_ok (th_native t) (rkern s)) as [-> _]. by wp_steps.
  - intros a p' k Tk [-> Hp']. cbn in Hp'. subst p'. by apply HQ.
Qed.

(** *** The clock and the serial server *)

Definition set_task_env e s : root_system K P :=
  rs_set_task (ta_set_pages (<[ta_env (rs_task s) := e]> (ta_pages (rs_task s))) (rs_task s)) s.

Lemma wp_upd_task_env f e s (Q : unit -> root_system K P -> Prop) : task_env s = Some e -> Q tt (set_task_env (f e) s) ->
  wp (on_root_task (upd_env f)) Q s.
Proof. intros He HQ. apply wp_on_root_task. by eapply wp_upd_env. Qed.

(** The pool [sysclock_boot] starts the clock with. *)
Definition schedule_ready (a : arena timeout_entry) (p : pool_state timeout_entry) : Prop :=
  simple_pool_new SEL4OSAPI_SYSCLOCK_MAX_ENTRIES sizeof_timeout_entry (Some timer_entry_init) NULL (Some timer_entry_compare) a.2 a.1 =
    Done (pool p, mem p).

Lemma wp_new_schedule a (Q : pool_state timeout_entry -> root_system K P -> Prop) s :
  arena_ok SEL4OSAPI_SYSCLOCK_MAX_ENTRIES sizeof_timeout_entry a -> (forall p, schedule_ready a p -> Q p s) -> wp (new_schedule a) Q s.
Proof.
  intros (Hwf & Hn & Hs & Hmem) HQ.
  destruct (wp_pool_new (init := Some timer_entry_init) (cmp := Some timer_entry_compare) SEL4OSAPI_SYSCLOCK_MAX_ENTRIES
    sizeof_timeout_entry NULL a.2 a.1 Hwf) as (p & h' & Hr & _); [done..|].
  unfold new_schedule. apply wp_peek. wp_step. eapply wp_eq; [exact Hr|]. wp_steps. by apply (HQ (PoolState p h')).
Qed.

(** What the servers' initialisation needs of the task. *)
Record task_ready e p free busy ts qs (owned : list loc) (t : task root_routine K) : Prop := {
  tk_env : ta_pages t !! ta_env t = Some e;
  tk_threads : ta_threads t = Some p;
  tk_rep : threads_rep (caps_of_env (ta_is_root t) e) (ThreadState p (ta_kern t)) free busy ts qs;
  tk_inv : objects_inv (ta_kern t);
  tk_owns : owns owned (ta_kern t)
}.

Lemma task_ready_kern n e p free busy ts qs owned k t : task_ready e p free busy ts qs owned t -> safe n (ta_kern t) k ->
  task_ready e p free busy ts qs owned (ta_set_kern k t).
Proof.
  intros [H1 H2 H3 H4 H5] T. split; [exact H1|exact H2|by eapply threads_rep_kept|apply T|by eapply owns_kept].
Qed.

Lemma task_ready_mutex e p free busy ts qs owned l k t : task_ready e p free busy ts qs owned t -> safe 1 (ta_kern t) k -> owns (l :: owned) k ->
  task_ready e p free busy ts qs (l :: owned) (ta_set_kern k t).
Proof. intros [H1 H2 H3 H4 H5] T Ho. split; [exact H1|exact H2|by eapply threads_rep_kept|apply T|exact Ho]. Qed.

(** Calls of a task that is ready. *)
Lemma wp_ready_try f e p free busy ts qs owned s (Q : unit -> root_system K P -> Prop) :
  task_ready e p free busy ts qs owned (rs_task s) -> root_op (rkern s) (f (rkern s)).2 -> (f (rkern s)).1 = 0 ->
  (forall k, kept 1 (rkern s) k -> task_ready e p free busy ts qs owned (ta_set_kern k (rs_task s)) -> Q tt (set_rkern k s)) -> wp (root_try f) Q s.
Proof.
  intros H Hop He HQ. apply wp_root_try; [apply (tk_inv _ _ _ _ _ _ _ _ H)|done..|]. intros k T. apply HQ; [done|]. exact (task_ready_kern _ _ _ _ _ _ _ _ _ _ H T).
Qed.

Lemma wp_ready_mutex e p free busy ts qs owned s (Q : ptr -> root_system K P -> Prop) :
  task_ready e p free busy ts qs owned (rs_task s) -> (0 < room (rkern s))%nat ->
  (forall l k, kept 1 (rkern s) k -> task_ready e p free busy ts qs (l :: owned) (ta_set_kern k (rs_task s)) -> Q (Some l) (set_rkern k s)) ->
  wp (on_root_task (on_task_kern mutex_create)) Q s.
Proof.
  intros H Hr HQ. eapply wp_root_mutex; [apply (tk_inv _ _ _ _ _ _ _ _ H)|done|apply (tk_owns _ _ _ _ _ _ _ _ H)|].
  intros l k T Ho. apply HQ; [done|]. exact (task_ready_mutex _ _ _ _ _ _ _ _ _ _ H T Ho).
Qed.

Lemma wp_ready_thread name f arg priority e p x free busy ts qs owned s (Q : ptr -> root_system K P -> Prop) :
  task_ready e p (x :: free) busy ts qs owned (rs_task s) -> (thread_cost <= room (rkern s))%nat ->
  (forall p' k t, kept 10 (rkern s) k -> task_ready e p' free (busy ++ [x]) (ts ++ [t]) (qs ++ [Request (Some name) f arg priority]) owned
     (ta_set_kern k (ta_set_threads (Some p') (rs_task s))) -> Q (Some x.2) (set_rthreads p' k s)) -> wp (root_thread_create name f arg priority) Q s.
Proof.
  intros [H1 H2 H3 H4 H5] Hr HQ. eapply wp_root_thread_create; [done..|]. intros p' k t T H3'. apply HQ with (t := t); [done|].
  split; [exact H1|done|exact H3'|exact (kp_inv _ _ _ T)|exact (owns_kept _ _ _ _ H5 T)].
Qed.

Lemma wp_ready_start e p free busy ts qs owned j x s (Q : Z -> root_system K P -> Prop) :
  task_ready e p free busy ts qs owned (rs_task s) -> busy !! j = Some x ->
  (forall k, kept 1 (rkern s) k -> task_ready e p free busy ts qs owned (ta_set_kern k (rs_task s)) -> Q 0 (set_rkern k s)) ->
  wp (on_root_threads (sel4osapi_thread_start (Some x.2))) Q s.
Proof.
  intros R Hx HQ. pose proof R as [_ H2 H3 H4 _]. eapply wp_root_start; [done..|]. intros k T.
  replace (set_rthreads p k s) with (set_rkern k s) by (unfold set_rthreads, set_rkern; f_equal; destruct s as [[]]; cbn in *; by subst).
  apply HQ; [done|]. exact (task_ready_kern _ _ _ _ _ _ _ _ _ _ R T).
Qed.

Lemma wp_ready_thread_start e p free busy ts qs owned j x s (Q : unit -> root_system K P -> Prop) :
  task_ready e p free busy ts qs owned (rs_task s) -> busy !! j = Some x ->
  (forall k, kept 1 (rkern s) k -> task_ready e p free busy ts qs owned (ta_set_kern k (rs_task s)) -> Q tt (set_rkern k s)) ->
  wp (root_thread_start (Some x.2)) Q s.
Proof.
  intros R Hx HQ. unfold root_thread_start. wp_step. eapply wp_ready_start; [exact R|exact Hx|]. intros k T R'. apply wp_assert; [done|]. by apply HQ.
Qed.

(** The environment of a task that is ready is changed in a field its threads do not use. *)
Lemma task_ready_env e e' p free busy ts qs owned t : task_ready e p free busy ts qs owned t ->
  caps_of_env (ta_is_root t) e' = caps_of_env (ta_is_root t) e ->
  task_ready e' p free busy ts qs owned (ta_set_pages (<[ta_env t := e']> (ta_pages t)) t).
Proof. intros [H1 H2 H3 H4 H5] Hc. split; [apply lookup_insert_eq|exact H2|cbn [ta_is_root ta_kern ta_set_pages]; by rewrite Hc|done..]. Qed.

Definition timer_request : request (F := root_routine) :=
  Request (Some "sysclock::timer"%string) sel4osapi_sysclock_timer_thread (sysclock_addr (K := K)) (seL4_MaxPrio (K := K)).
Definition server_request : request (F := root_routine) :=
  Request (Some "sysclock::server"%string) sel4osapi_sysclock_server_thread (sysclock_addr (K := K)) (seL4_MaxPrio (K := K)).

Lemma wp_sysclock_initialize m e p x1 x2 free busy ts qs owned s (Q : unit -> root_system K P -> Prop) :
  task_ready e p (x1 :: x2 :: free) busy ts qs owned (rs_task s) -> (26 <= room (rkern s))%nat ->
  arena_ok SEL4OSAPI_SYSCLOCK_MAX_ENTRIES sizeof_timeout_entry (rm_schedule m) ->
  (forall t ep aep sched l slot p' t1 t2, schedule_ready (rm_schedule m) sched -> kept 26 (rkern s) (ta_kern t) ->
     task_ready (pe_set_sysclock_ep slot e) p' free (busy ++ [x1; x2]) (ts ++ [t1; t2]) (qs ++ [timer_request; server_request]) (l :: owned) t ->
     ta_is_root t = ta_is_root (rs_task s) -> ta_main t = ta_main (rs_task s) -> ta_global_mutex t = ta_global_mutex (rs_task s) -> ta_logmutex t = ta_logmutex (rs_task s) ->
     Q tt (rs_upd_sysclock (fun _ => Sysclock 0 ep aep (Some sched) (Some l) (Some x1.2) (Some x2.2)) (rs_set_task t s))) ->
  wp (sel4osapi_sysclock_initialize m) Q s.
Proof.
  intros R0 Hr Ha HQ. unfold sel4osapi_sysclock_initialize. do 3 wp_step. apply wp_root_task_call.
  pose proof (room_threads (rkern s)). change (rkern (rs_upd_sysclock _ s)) with (rkern s).
  destruct (th_endpoint_ok (rkern s)) as (He & _); [lia|]. rewrite He.
  pose proof (kept_op (rkern s) _ (tk_inv _ _ _ _ _ _ _ _ R0) (ro_endpoint (rkern s))) as T1.
  pose proof (task_ready_kern _ _ _ _ _ _ _ _ _ _ R0 T1) as R1.
  set (ep := (vka_alloc_endpoint (rkern s)).1.2). set (k1 := (vka_alloc_endpoint (rkern s)).2) in *. pose proof (kp_room _ _ _ T1).
  wp_steps. apply wp_root_notification; [exact (kp_inv _ _ _ T1)|change (0 < room k1)%nat; lia|]. intros aep k2 T2 _ _.
  change (rkern _) with k1 in T2. pose proof (kp_room _ _ _ T2). pose proof (task_ready_kern _ _ _ _ _ _ _ _ _ _ R1 T2) as R2.
  wp_steps. apply wp_new_schedule; [exact Ha|]. intros sched Hs. wp_steps.
  eapply wp_ready_try; [exact R2|apply ro_timer|apply root_timer_ok; [exact (kp_inv _ _ _ T2)|change (0 < room k2)%nat; lia]|]. intros k3 T3 R3.
  change (rkern _) with k2 in T3. pose proof (kp_room _ _ _ T3).
  wp_step. eapply wp_ready_mutex; [exact R3|change (0 < room k3)%nat; lia|]. intros l k4 T4 R4. change (rkern _) with k3 in T4. pose proof (kp_room _ _ _ T4).
  wp_steps. eapply wp_ready_thread; [exact R4|change (thread_cost <= room k4)%nat; unfold thread_cost; lia|]. intros p1 k5 t1 T5 R5.
  change (rkern _) with k4 in T5. pose proof (kp_room _ _ _ T5).
  wp_steps. eapply wp_ready_thread; [exact R5|change (thread_cost <= room k5)%nat; unfold thread_cost; lia|]. intros p2 k6 t2 T6 R6.
  change (rkern _) with k5 in T6. pose proof (kp_room _ _ _ T6).
  wp_steps. apply wp_root_task_call. match goal with |- context [root_cspace_alloc (rkern ?t)] => change (rkern t) with k6 end.
  pose proof (kept_op k6 _ (kp_inv _ _ _ T6) (ro_slot k6)) as T7. pose proof (task_ready_kern _ _ _ _ _ _ _ _ _ _ R6 T7) as R7.
  assert (He7 : (root_cspace_alloc k6).1.1 = 0) by (apply root_slot_ok; [exact (kp_inv _ _ _ T6)|lia]).
  pose proof (root_mint_ok ep 666 k6 (kp_inv _ _ _ T6) ltac:(lia)) as He8. cbv zeta in He8.
  set (slot := (root_cspace_alloc k6).1.2) in *. set (k7 := (root_cspace_alloc k6).2) in *. rewrite He7.
  pose proof (task_ready_env _ (pe_set_sysclock_ep slot e) _ _ _ _ _ _ _ R7 eq_refl) as R8.
  wp_step. eapply wp_upd_task_env; [exact (tk_env _ _ _ _ _ _ _ _ R7)|]. wp_steps.
  eapply wp_ready_try; [exact R8|apply ro_mint|exact He8|]. intros k8 T8 R9. change (rkern _) with k7 in T8.
  rewrite <- !app_assoc in R9. cbn [app] in R9. match type of R9 with task_ready _ _ _ _ _ _ _ ?t => 
    apply (HQ t ep aep sched l slot p2 t1 t2 Hs); [|exact R9|reflexivity..] end.
  pose proof (kept_trans _ _ _ _ _ (kept_trans _ _ _ _ _ T1 T2) (kept_trans _ _ _ _ _ T3 T4)) as T14.
  pose proof (kept_trans _ _ _ _ _ (kept_trans _ _ _ _ _ T5 T6) (kept_trans _ _ _ _ _ T7 T8)) as T58. exact (kept_trans _ _ _ _ _ T14 T58).
Qed.

Lemma wp_sysclock_start e p free busy ts qs owned j1 j2 x1 x2 s (Q : unit -> root_system K P -> Prop) :
  task_ready e p free busy ts qs owned (rs_task s) -> busy !! j1 = Some x1 -> busy !! j2 = Some x2 ->
  sc_timer_thread (rs_sysclock s) = Some x1.2 -> sc_server_thread (rs_sysclock s) = Some x2.2 ->
  (forall k, kept 2 (rkern s) k -> task_ready e p free busy ts qs owned (ta_set_kern k (rs_task s)) -> Q tt (set_rkern k s)) ->
  wp sel4osapi_sysclock_start Q s.
Proof.
  intros R0 Hx1 Hx2 E1 E2 HQ. unfold sel4osapi_sysclock_start. do 3 wp_step. rewrite E1, E2.
  eapply wp_ready_thread_start; [exact R0|exact Hx1|]. intros k1 T1 R1. eapply wp_ready_thread_start; [exact R1|exact Hx2|]. intros k2 T2 R2.
  change (rkern _) with k1 in T2. exact (HQ k2 (kept_trans _ _ _ _ _ T1 T2) R2).
Qed.

Definition serial_request (priority : Z) : request (F := root_routine) :=
  Request (Some "serial"%string) sel4osapi_serial_server_thread (serial_addr (K := K)) priority.

Lemma wp_serial_initialize m priority e p x free busy ts qs owned s (Q : unit -> root_system K P -> Prop) :
  task_ready e p (x :: free) busy ts qs owned (rs_task s) -> (16 <= room (rkern s))%nat ->
  arena_ok SEL4OSAPI_USER_PROCESS_MAX sizeof_serialclient (rm_serial m) ->
  (forall t p' clients l ep t1, fresh_pool SEL4OSAPI_USER_PROCESS_MAX clients -> kept 16 (rkern s) (ta_kern t) ->
     task_ready e p' free (busy ++ [x]) (ts ++ [t1]) (qs ++ [serial_request priority]) (l :: owned) t ->
     ta_is_root t = ta_is_root (rs_task s) -> ta_main t = ta_main (rs_task s) -> ta_global_mutex t = ta_global_mutex (rs_task s) -> ta_logmutex t = ta_logmutex (rs_task s) ->
     Q tt (rs_upd_serial (fun _ => SerialServer (Some clients) (Some l) ep (Some x.2)) (rs_set_task t s))) ->
  wp (sel4osapi_io_serial_initialize m priority) Q s.
Proof.
  intros R0 Hr Ha HQ. unfold sel4osapi_io_serial_initialize. wp_step.
  eapply wp_ready_try; [exact R0|apply ro_serial|apply root_serial_ok; [exact (tk_inv _ _ _ _ _ _ _ _ R0)|change (0 < room (rkern s))%nat; lia]|].
  intros k1 T1 R1. pose proof (kp_room _ _ _ T1).
  wp_step. apply wp_root_task_call. match goal with |- context [ps_cdev_init PS_SERIAL0 (rkern ?t)] => change (rkern t) with k1 end.
  pose proof (kept_op k1 _ (kp_inv _ _ _ T1) (ro_cdev k1 PS_SERIAL0)) as T2. pose proof (task_ready_kern _ _ _ _ _ _ _ _ _ _ R1 T2) as R2.
  pose proof (root_cdev_ok PS_SERIAL0 k1 (kp_inv _ _ _ T1) ltac:(lia)) as He2. set (r2 := ps_cdev_init PS_SERIAL0 k1) in *. pose proof (kp_room _ _ _ T2).
  wp_step. apply wp_assert; [by apply negb_true_iff, Z.eqb_neq|].
  wp_step. apply wp_root_task_call. match goal with |- context [ps_cdev_init PS_SERIAL1 (rkern ?t)] => change (rkern t) with r2.2 end.
  pose proof (kept_op r2.2 _ (kp_inv _ _ _ T2) (ro_cdev r2.2 PS_SERIAL1)) as T3. pose proof (task_ready_kern _ _ _ _ _ _ _ _ _ _ R2 T3) as R3.
  pose proof (root_cdev_ok PS_SERIAL1 r2.2 (kp_inv _ _ _ T2) ltac:(lia)) as He3. set (r3 := ps_cdev_init PS_SERIAL1 r2.2) in *. pose proof (kp_room _ _ _ T3).
  wp_step. apply wp_assert; [by apply negb_true_iff, Z.eqb_neq|].
  wp_step. eapply wp_new_pool; [exact Ha|]. intros clients Hc. wp_steps.
  eapply wp_ready_mutex; [exact R3|change (0 < room r3.2)%nat; lia|]. intros l k4 T4 R4. change (rkern _) with r3.2 in T4. pose proof (kp_room _ _ _ T4).
  wp_steps. apply wp_root_task_call. match goal with |- context [vka_alloc_endpoint_leaky (rkern ?t)] => change (rkern t) with k4 end.
  pose proof (kept_op k4 _ (kp_inv _ _ _ T4) (ro_leaky k4)) as T5. pose proof (task_ready_kern _ _ _ _ _ _ _ _ _ _ R4 T5) as R5.
  pose proof (root_leaky_ok k4 (kp_inv _ _ _ T4) ltac:(lia)) as He5. set (r5 := vka_alloc_endpoint_leaky k4) in *. pose proof (kp_room _ _ _ T5).
  wp_steps. { by apply negb_true_iff, Z.eqb_neq. }
  eapply wp_ready_thread; [exact R5|change (thread_cost <= room r5.2)%nat; unfold thread_cost; lia|]. intros p1 k6 t1 T6 R6.
  change (rkern _) with r5.2 in T6. wp_steps.
  eapply wp_ready_thread_start; [exact R6|by apply list_lookup_middle|]. intros k7 T7 R7. change (rkern _) with k6 in T7.
  match type of R7 with task_ready _ _ _ _ _ _ _ ?t => apply (HQ t p1 clients l r5.1 t1 Hc); [|exact R7|reflexivity..] end.
  pose proof (kept_trans _ _ _ _ _ (kept_trans _ _ _ _ _ T1 T2) (kept_trans _ _ _ _ _ T3 T4)) as T14.
  exact (kept_trans _ _ _ _ _ T14 (kept_trans _ _ _ _ _ (kept_trans _ _ _ _ _ T5 T6) T7)).
Qed.

Lemma wp_io_initialize e p free busy ts qs owned s (Q : unit -> root_system K P -> Prop) :
  task_ready e p free busy ts qs owned (rs_task s) -> (2 <= room (rkern s))%nat ->
  (forall k, kept 2 (rkern s) k -> task_ready e p free busy ts qs owned (ta_set_kern k (rs_task s)) -> Q tt (set_rkern k s)) ->
  wp sel4osapi_io_initialize Q s.
Proof.
  intros R0 Hr HQ. unfold sel4osapi_io_initialize. wp_step.
  eapply wp_ready_try; [exact R0|apply ro_io_ops|apply root_io_ops_ok; [exact (tk_inv _ _ _ _ _ _ _ _ R0)|change (0 < room (rkern s))%nat; lia]|].
  intros k1 T1 R1. pose proof (kp_room _ _ _ T1).
  eapply wp_ready_try; [exact R1|apply ro_dma|apply root_dma_ok; [exact (kp_inv _ _ _ T1)|change (0 < room k1)%nat; lia]|].
  intros k2 T2 R2. change (rkern _) with k1 in T2. exact (HQ k2 (kept_trans _ _ _ _ _ T1 T2) R2).
Qed.

Lemma wp_ipc_initialize a e p free busy ts qs owned s (Q : Z * ptr * pool_state sel4osapi_ipcclient_t -> root_system K P -> Prop) :
  task_ready e p free busy ts qs owned (rs_task s) -> (0 < room (rkern s))%nat -> arena_ok SEL4OSAPI_USER_PROCESS_MAX sizeof_ipcclient a ->
  (forall l k c, kept 1 (rkern s) k -> task_ready e p free busy ts qs (l :: owned) (ta_set_kern k (rs_task s)) ->
     fresh_pool SEL4OSAPI_USER_PROCESS_MAX c -> Q (0, Some l, c) (set_rkern k s)) ->
  wp (on_root_task (on_task_kern (sel4osapi_ipcserver_initialize a.2 a.1))) Q s.
Proof.
  intros R0 Hr Ha HQ. apply wp_on_root_task, wp_on_task_kern. unfold sel4osapi_ipcserver_initialize. wp_step.
  pose proof (tk_inv _ _ _ _ _ _ _ _ R0) as Hi. apply wp_task_mutex; [exact Hi|exact Hr|]. intros l k T Hn Hl.
  pose proof (kept_spent _ _ _ Hi T) as T'. wp_step. apply wp_assert; [done|]. wp_step.
  apply (wp_new_pool SEL4OSAPI_USER_PROCESS_MAX sizeof_ipcclient a); [exact Ha|]. intros c Hc. wp_step. apply (HQ l k c); [exact T'| |exact Hc].
  apply task_ready_mutex; [exact R0|exact T'|]. exact (owns_new _ _ _ _ _ (tk_owns _ _ _ _ _ _ _ _ R0) T' Hn Hl).
Qed.

(** *** The root task comes up *)

(** The clock that [Sysclock] runs, whatever the kernel: it starts with this
    schedule and no timeouts. *)
Definition clock_starts (a : arena timeout_entry) (sched : pool_state timeout_entry) : Prop :=
  forall (K' : Type) (KER : Kernel K') (KOK : KernelOk K') (k : K'), (0 < Kernel.room (cspace_of k))%nat ->
    exists c, sysclock_boot a.2 a.1 k = Done c /\ schedule c = sched /\ time c = 0 /\ clock_rep c (AClock 0 []).

Lemma schedule_ready_starts a sched : arena_ok SEL4OSAPI_SYSCLOCK_MAX_ENTRIES sizeof_timeout_entry a -> schedule_ready a sched -> clock_starts a sched.
Proof.
  intros (Hwf & _ & _ & Hmem) Hs K' KER KOK k Hk. destruct (wp_boot a.2 a.1 k Hwf Hmem Hk) as (c & Hb & Hc & _).
  exists c. split; [exact Hb|]. unfold sysclock_boot in Hb. rewrite Hs in Hb. destruct (Kernel.vka_cspace_alloc k) as [[err ep] k'].
  destruct (err =? 0); [|done]. injection Hb as <-. by destruct sched.
Qed.

(** What is there at the start: memory, and a table with room for blocks. *)
Record root_ready m s : Prop := {
  rr_table : table_ok (rs_table s) m;
  rr_blocks : (root_reserve + 6 < boot_blocks (rkern s))%nat;
  rr_room : (60 <= root_reserve * blocks_worth)%nat;
  rr_vmem : 0 <= SEL4OSAPI_VKA_VMEM_SIZE /\ 0 <= SEL4OSAPI_SYSTEM_VMEM_SIZE /\ SEL4OSAPI_VKA_VMEM_SIZE + SEL4OSAPI_SYSTEM_VMEM_SIZE <= root_vmem;
  rr_processes : arena_ok SEL4OSAPI_USER_PROCESS_MAX (sizeof_process (K := K)) (rm_processes m);
  rr_threads : arena_ok SEL4OSAPI_MAX_THREADS_PER_PROCESS (sizeof_thread (K := K)) (rm_threads m) /\ 3 <= SEL4OSAPI_MAX_THREADS_PER_PROCESS;
  rr_schedule : arena_ok SEL4OSAPI_SYSCLOCK_MAX_ENTRIES sizeof_timeout_entry (rm_schedule m);
  rr_ipc : arena_ok SEL4OSAPI_USER_PROCESS_MAX sizeof_ipcclient (rm_ipc m);
  rr_serial : arena_ok SEL4OSAPI_USER_PROCESS_MAX sizeof_serialclient (rm_serial m);
  rr_log : ta_logmutex (rs_task s) = NULL;
  rr_name : fits (main_text 0)
}.

Definition server_requests : list (request (F := root_routine)) :=
  [timer_request; server_request; serial_request (seL4_MaxPrio (K := K) - 1)].

(** The root task with environment [e] and server threads [ts]. *)
Record root_up m s0 e (ts : list (sel4osapi_thread_t root_routine)) s : Prop := {
  up_env : task_env s = Some e;
  up_ids : ta_is_root (rs_task s) = true /\ pe_pid e = 0 /\ pe_priority e = seL4_MaxPrio (K := K) - 1 /\ pe_fault_endpoint e = seL4_CapNull /\
    pe_idling_aep e = rs_idling_aep s /\ exists rest, pe_name e = snprintf_bytes SEL4OSAPI_USER_PROCESS_NAME_MAX_LEN "root_task" ++ rest;
  up_blocks : exists blocks n, blocks_free (rs_table s) blocks n (rkern s) /\
    (Nat.min (length (user_untypeds (rs_table s0))) (boot_blocks (rkern s0) - root_reserve - 6) <= n <= length (user_untypeds (rs_table s0)))%nat;
  up_threads : exists p free busy, ta_threads (rs_task s) = Some p /\
    threads_rep (caps_of_env true e) (ThreadState p (rkern s)) free busy ts server_requests /\
    [sc_timer_thread (rs_sysclock s); sc_server_thread (rs_sysclock s); sv_thread (rs_serial s)] = Some <$> busy.*2 /\
    Z.of_nat (length free) = SEL4OSAPI_MAX_THREADS_PER_PROCESS - 3;
  up_mutexes : exists g lg tm ic sv, owns [sv; ic; tm; lg; g] (rkern s) /\ ta_global_mutex (rs_task s) = Some g /\ ta_logmutex (rs_task s) = Some lg /\
    sc_timeouts_mutex (rs_sysclock s) = Some tm /\ rs_ipc_mutex s = Some ic /\ sv_mutex (rs_serial s) = Some sv;
  up_pools : exists pr ip se, rs_processes s = Some pr /\ rs_ipc_clients s = Some ip /\ sv_clients (rs_serial s) = Some se /\
    fresh_pool SEL4OSAPI_USER_PROCESS_MAX pr /\ fresh_pool SEL4OSAPI_USER_PROCESS_MAX ip /\ fresh_pool SEL4OSAPI_USER_PROCESS_MAX se;
  up_clock : sc_time (rs_sysclock s) = 0 /\ exists sched, sc_schedule (rs_sysclock s) = Some sched /\ clock_starts (rm_schedule m) sched;
  up_main : let i := ta_main (rs_task s) in
    (ti_tid i = 0 /\ ti_arg i = 0 /\ ti_tls i = 0 /\ ti_active i = 1 /\ ti_priority i = seL4_MaxPrio (K := K) - 1) /\
    take (S (length (bytes_of (main_text 0)))) (ti_name i) = bytes_of (main_text 0) ++ [0] /\ ti_wait_aep i ∈ caps_of (rkern s);
  up_malloc : rs_morecore s = 0;
  up_room : objects_inv (rkern s) /\ (root_reserve * blocks_worth - 60 <= room (rkern s))%nat
}.

Lemma blocks_free_kept t blocks n c k k' : blocks_free t blocks n k -> safe c k k' -> blocks_free t blocks n k'.
Proof. intros (H1 & H2 & H3 & H4) T. split_and!; try done. eapply Forall_impl; [exact H4|]. intros x. apply (kp_live _ _ _ T). Qed.

(** Allocator and memory: the first part of the start. *)
Definition memory_up s0 s : Prop := exists k vm brk aep t blocks g n,
  s = RootSystem (Task true (ta_pages (rs_task s0)) (ta_env (rs_task s0)) (ta_main (rs_task s0)) (Some g) (ta_logmutex (rs_task s0))
    (ta_threads (rs_task s0)) k) vm brk 0 aep t (rs_processes s0) (rs_sysclock s0) (rs_ipc_mutex s0) (rs_ipc_clients s0) (rs_serial s0) /\
  objects_inv k /\ owns [g] k /\ (root_reserve * blocks_worth <= room k)%nat /\ blocks_free t blocks n k /\
  (Nat.min (length (user_untypeds (rs_table s0))) (boot_blocks (rkern s0) - root_reserve - 6) <= n <= length (user_untypeds (rs_table s0)))%nat.

Lemma wp_memory {A} m s (rest : M (root_system K P) A) (Q : A -> root_system K P -> Prop) : root_ready m s ->
  (forall s1, memory_up s s1 -> wp rest Q s1) ->
  wp (sel4osapi_system_bootstrap_root ;;
      on_root_task sel4osapi_system_initialize_global_mutex ;;
      let! aep := root_call vka_alloc_notification in
      assert_ (aep.1 =? 0) ;;
      modify (rs_set_idling aep.2) ;;
      root_untypeds m ;;
      rest) Q s.
Proof.
  intros [Ht Hb Hroom (Hv1 & Hv2 & Hv3) _ _ _ _ _ _ _] HQ.
  assert (Hw : (0 < blocks_worth)%nat) by lia. assert (Hres : (0 < root_reserve)%nat) by lia.
  wp_step. apply wp_bootstrap_root; [exact Hw|lia|exact Hv1|exact Hv2|exact Hv3|]. intros s1 (k1 & vm & brk & -> & Hi1 & Hav1).
  pose proof (blocks_room k1 Hi1). wp_step. apply wp_on_root_task. apply wp_global_mutex; [exact Hi1|cbn; nia|].
  intros g k2 T2 Hn Hl. cbn in T2, Hn. pose proof (kept_spent _ _ _ Hi1 T2) as T2'. pose proof (kp_available _ _ _ T2').
  assert (Ho : owns [g] k2) by (split; [apply NoDup_singleton|by repeat constructor]).
  pose proof (blocks_room k2 (kp_inv _ _ _ T2')). wp_step. apply wp_root_notification; [exact (kp_inv _ _ _ T2')|cbn; nia|].
  intros aep k3 T3 _ _. cbn in T3. pose proof (kp_available _ _ _ T3). wp_steps.
  apply (wp_root_untypeds m _ [g]); [exact Ht|exact (kp_inv _ _ _ T3)|exact (owns_kept _ _ _ _ Ho T3)|cbn; lia|].
  intros k4 t blocks n Hbf Hi4 Ho4 _ Hr4. apply HQ. exists k4, vm, brk, aep, t, blocks, g, n. split; [reflexivity|].
  split_and!; [exact Hi4|exact Ho4|lia|exact Hbf| |]; subst n; cbn; lia.
Qed.

(** Three threads at least fit into a fresh pool. *)
Lemma fresh_pool_three {E} n (p : pool_state E) : 3 <= n -> fresh_pool n p ->
  exists x1 x2 x3 fr, holds p (x1 :: x2 :: x3 :: fr) [] [] /\ Z.of_nat (length fr) = n - 3.
Proof. intros Hn (fr & Hl & Hp). destruct fr as [|x1 [|x2 [|x3 fr]]]; cbn in Hl; try lia. exists x1, x2, x3, fr. split; [done|lia]. Qed.

(** Environment, main thread, log and servers: the second part. *)
Lemma wp_servers m s0 s1 : root_ready m s0 -> memory_up s0 s1 ->
  wp (let! processes := new_pool SEL4OSAPI_USER_PROCESS_MAX sizeof_process (rm_processes m) in
      modify (rs_set_processes (Some processes)) ;;
      sel4osapi_system_initialize_root_task_env m ;;
      on_root_task sel4osapi_system_initialize_main_thread ;;
      let! _ := on_root_task sel4osapi_log_initialize in
      sel4osapi_io_initialize ;;
      sel4osapi_sysclock_initialize m ;;
      sel4osapi_sysclock_start ;;
      let! ipc := on_root_task (on_task_kern (sel4osapi_ipcserver_initialize (rm_ipc m).2 (rm_ipc m).1)) in
      modify (rs_set_ipc ipc.1.2 (Some ipc.2)) ;;
      let! e := on_root_task read_env in
      sel4osapi_io_serial_initialize m (pe_priority e) ;;
      ret 0) (fun r s => r = 0 /\ exists e ts, root_up m s0 e ts s) s1.
Proof.
  intros [_ _ Hr0 _ Hap [Hat H3] Hasc Hai Has Hlog Hname] (k1 & vm & brk & aep & t & blocks & g & n & -> & Hi1 & Ho1 & Hr1 & Hbf1 & Hn).
  wp_step. eapply wp_new_pool; [exact Hap|]. intros pr Hpr. wp_step. wp_step.
  wp_step. eapply wp_root_env; [exact Hi1|cbn; lia|exact Hat|]. intros pages page e k2 p pd cnode tcb bits T2 Hpage Hp He.
  cbn in T2. pose proof (kp_room _ _ _ T2). destruct (fresh_pool_three _ _ H3 Hp) as (x1 & x2 & x3 & fr & Hh & Hfr).
  assert (Hpid : pe_pid e = 0) by by rewrite He. assert (Hpri : pe_priority e = seL4_MaxPrio (K := K) - 1) by by rewrite He.
  wp_step. apply wp_on_root_task. eapply (wp_initialize_main_thread _ e); [exact Hpage|by rewrite Hpid|exact (kp_inv _ _ _ T2)|cbn; lia|].
  intros i k3 S3 [Hids Hnm [_ Haep] _]. cbn in S3. pose proof (kept_spent _ _ _ (kp_inv _ _ _ T2) S3) as T3. pose proof (kp_room _ _ _ T3).
  wp_step. apply wp_on_root_task. apply wp_log_initialize; [exact (kp_inv _ _ _ T3)|cbn; lia|exact Hlog|].
  intros lg k4 S4 Hnl Hll. cbn in S4, Hnl. pose proof (kept_spent _ _ _ (kp_inv _ _ _ T3) S4) as T4. pose proof (kp_room _ _ _ T4).
  pose proof (owns_new _ _ _ _ _ (owns_kept _ _ _ _ (owns_kept _ _ _ _ Ho1 T2) T3) T4 Hnl Hll) as Ho4. cbn beta.
  wp_step. eapply (wp_io_initialize e p (x1 :: x2 :: x3 :: fr) [] [] [] [lg; g]);
    [split; [exact Hpage|reflexivity|by apply threads_rep_empty|exact (kp_inv _ _ _ T4)|exact Ho4]|cbn; lia|].
  intros k5 T5 R5. cbn in T5. pose proof (kp_room _ _ _ T5).
  wp_step. eapply wp_sysclock_initialize; [exact R5|cbn; lia|exact Hasc|].
  intros t6 ep6 aep6 sched tm slot p6 th1 th2 Hsch T6 R6 Er6 Em6 Eg6 El6. cbn in T6, Er6, Em6, Eg6, El6. pose proof (kp_room _ _ _ T6).
  wp_step. eapply (wp_sysclock_start _ _ _ _ _ _ _ 0 1); [exact R6|reflexivity|reflexivity|reflexivity|reflexivity|].
  intros k7 T7 R7. cbn in T7, R7. change (rkern _) with (ta_kern t6) in T7. pose proof (kp_room _ _ _ T7).
  wp_step. eapply wp_ipc_initialize; [exact R7|cbn; lia|exact Hai|]. intros ic k8 ip T8 R8 Hip. cbn in T8, R8. pose proof (kp_room _ _ _ T8).
  wp_steps. apply wp_on_root_task. eapply wp_read_env; [exact (tk_env _ _ _ _ _ _ _ _ R8)|].
  wp_step. eapply wp_serial_initialize; [exact R8|cbn; lia|exact Has|].
  intros t9 p9 se sv ep9 th3 Hse T9 R9 Er9 Em9 Eg9 El9. cbn in T9, R9, Er9, Em9, Eg9, El9. wp_step. split; [done|].
  pose proof (kept_trans _ _ _ _ _ (kept_trans _ _ _ _ _ T4 T5) (kept_trans _ _ _ _ _ T6 T7)) as T47.
  pose proof (kept_trans _ _ _ _ _ T47 (kept_trans _ _ _ _ _ T8 T9)) as T49.
  destruct R9 as [Re Rt Rr Ri Ro]. rewrite Er9, Er6 in Rr. change (pe_priority (pe_set_sysclock_ep slot e)) with (pe_priority e) in Rr. rewrite Hpri in Rr. exists (pe_set_sysclock_ep slot e), [th1; th2; th3]. split.
  - exact Re.
  - rewrite He. split_and!; try done; [by cbn; rewrite Er9, Er6|]. by eexists.
  - exists blocks, n. split; [|exact Hn]. exact (blocks_free_kept _ _ _ _ _ _ Hbf1 (kept_trans _ _ _ _ _ (kept_trans _ _ _ _ _ T2 T3) T49)).
  - exists p9, fr, [x1; x2; x3]. split; [exact Rt|]. split; [exact Rr|]. by split.
  - exists g, lg, tm, ic, sv. split; [exact Ro|]. cbn. rewrite Eg9, Eg6, El9, El6. done.
  - by exists pr, ip, se.
  - split; [done|]. exists sched. split; [done|]. by apply schedule_ready_starts.
  - cbn. rewrite Em9, Em6. cbn. rewrite Hpri, Hpid in *. split; [exact Hids|]. split; [exact Hnm|]. apply (kp_caps _ _ _ T49), Haep.
  - done.
  - split; [exact (kp_inv _ _ _ T9)|]. change (rkern _) with (ta_kern t9). pose proof (kp_room _ _ _ T49). lia.
Qed.

Lemma wp_system_initialize m s : root_ready m s ->
  wp (sel4osapi_system_initialize true m) (fun r s' => r = 0 /\ exists e ts, root_up m s e ts s') s.
Proof.
  intros H. unfold sel4osapi_system_initialize. wp_step. apply wp_assert; [done|].
  apply (wp_memory m); [exact H|]. intros s1 H1. by apply wp_servers.
Qed.

(** C4: The root task comes up.  With memory for its pools and more blocks of
    untyped memory than it holds back for itself, [sel4osapi_system_initialize]
    returns 0 and no assertion in it fails: the blocks returned to the allocator
    suffice for everything made after them.  Then the blocks for processes are
    listed and all free; the clock's two threads and the serial thread exist, in
    this order, numbered 1 to 3, with their routines and priorities; the five
    mutexes are distinct; all pools are free; the clock stands at 0 with the schedule
    its server starts with; and the main thread has number 0 and the priority
    of the environment, whose pid is 0. *)
Theorem root_task_boots m s : root_ready m s ->
  wp (sel4osapi_system_initialize true m) (fun r s' => r = 0 /\ exists e ts, root_up m s e ts s') s.
Proof. apply wp_system_initialize. Qed.
End root_spec.

(** ** A machine to run examples on

    Objects cost nothing while there is a block; a block is worth a hundred. *)
Record demo_machine := DemoMachine {
  mc_mutexes : gset loc;
  mc_counts : gmap loc Z;
  mc_caps : gset Z;
  mc_data : Z;
  mc_boot : nat;
  mc_blocks : nat;
  mc_live : gset Z;
  mc_vmem : Z
}.

Definition mc_new (k : demo_machine) : loc := fresh (mc_mutexes k ∪ dom (mc_counts k)).

Lemma mc_new_fresh k : mc_new k ∉ mc_mutexes k /\ mc_counts k !! mc_new k = None.
Proof.
  unfold mc_new. pose proof (is_fresh (mc_mutexes k ∪ dom (mc_counts k))) as H. split; [|apply not_elem_of_dom]; set_solver.
Qed.

Definition mc_objects (m : gset loc) (c : gmap loc Z) (k : demo_machine) : demo_machine :=
  DemoMachine m c (mc_caps k) (mc_data k) (mc_boot k) (mc_blocks k) (mc_live k) (mc_vmem k).
Definition mc_untypeds (n : nat) (l : gset Z) (k : demo_machine) : demo_machine :=
  DemoMachine (mc_mutexes k) (mc_counts k) (mc_caps k) (mc_data k) (mc_boot k) n l (mc_vmem k).
Definition mc_set_vmem (v : Z) (k : demo_machine) : demo_machine :=
  DemoMachine (mc_mutexes k) (mc_counts k) (mc_caps k) (mc_data k) (mc_boot k) (mc_blocks k) (mc_live k) v.

#[export] Instance machine_objects : SyncObjects demo_machine := {|
  mutex_create k := Done (Some (mc_new k), mc_objects ({[mc_new k]} ∪ mc_mutexes k) (mc_counts k) k);
  semaphore_create c k := Done (Some (mc_new k), mc_objects (mc_mutexes k) (<[mc_new k := c]> (mc_counts k)) k)
|}.

#[export] Instance machine_objects_ok : SyncObjectsOk demo_machine.
Proof.
  refine {| objects_inv k := True; objects_of k := Objects (mc_mutexes k) (mc_counts k) (100 * mc_blocks k) |}; cbn.
  - intros k _ _. destruct (mc_new_fresh k). eexists _, _. split; [reflexivity|]. split; [done|]. eexists. split; [done|].
    split_and!; cbn; try done; lia.
  - intros c k _ _. destruct (mc_new_fresh k). eexists _, _. split; [reflexivity|]. split; [done|]. eexists. split; [done|].
    split_and!; cbn; try done; lia.
Defined.

Definition mc_put_cap (c : Z) (k : demo_machine) : demo_machine :=
  DemoMachine (mc_mutexes k) (mc_counts k) ({[c]} ∪ mc_caps k) (mc_data k) (mc_boot k) (mc_blocks k) (mc_live k) (mc_vmem k).

Definition mc_alloc (k : demo_machine) : (Z * Z) * demo_machine :=
  ((0, fresh (mc_caps k)), mc_put_cap (fresh (mc_caps k)) k).

#[export] Instance machine_threads : ThreadEnv demo_machine := {|
  vka_alloc_endpoint := mc_alloc;
  vka_alloc_notification := mc_alloc;
  Thread.vka_free_object c k := k;
  CNode_CapData b := b;
  simple_get_tcb := 1;
  sel4utils_configure_thread_config c k := ((0, Native (mc_alloc k).1.2 4096), (mc_alloc k).2);
  sel4utils_start_thread n k := (0, k);
  sel4utils_clean_up_thread n k := k;
  api_tcb_set_space t e k := (0, k);
  sel4utils_start_fault_handler e := mc_alloc;
  seL4_TCB_SetPriority t a p k := (0, k);
  CONFIG_KERNEL_RT := false;
  ZF_LOGF_ABORTS := true;
  vka_alloc_sched_context := mc_alloc;
  api_sched_ctrl_configure c k := (0, k);
  api_sc_bind c t k := (0, k)
|}.

Lemma mc_alloc_ok (k : demo_machine) : let r := mc_alloc k in
  r.1.1 = 0 /\ r.1.2 ∉ mc_caps k /\ r.1.2 ∈ mc_caps r.2 /\ mc_caps k ⊆ mc_caps r.2 /\ (100 * mc_blocks k - 1 <= 100 * mc_blocks r.2)%nat.
Proof. cbn. split_and!; [done|apply is_fresh|set_solver|set_solver|lia]. Qed.

#[export] Instance machine_threads_ok : ThreadEnvOk demo_machine.
Proof.
  refine {| caps_of := mc_caps; objects k := (100 * mc_blocks k)%nat |}; try (intros; cbn; split_and!; done || lia).
  - intros k _. apply mc_alloc_ok.
  - intros k _. apply mc_alloc_ok.
  - intros c k _. destruct (mc_alloc_ok k) as (_ & _ & _ & H & H'). by split_and!.
  - intros e k _. destruct (mc_alloc_ok k) as (_ & _ & _ & H & H'). by split_and!.
  - intros k _. destruct (mc_alloc_ok k) as (_ & _ & _ & H & H'). by split_and!.
Defined.

#[export] Instance machine_task : TaskLib demo_machine := {|
  main_thread_addr := 8192;
  sizeof_thread := 256;
  seL4_GetUserData := mc_data;
  seL4_SetUserData w k := DemoMachine (mc_mutexes k) (mc_counts k) (mc_caps k) w (mc_boot k) (mc_blocks k) (mc_live k) (mc_vmem k);
  seL4_Wait_idle _ k := k;
  syslog_warn _ k := k
|}.

(** What a call changes. *)
Definition mc_grew (k k' : demo_machine) : Prop :=
  mc_mutexes k ⊆ mc_mutexes k' /\ mc_counts k ⊆ mc_counts k' /\ mc_caps k ⊆ mc_caps k' /\ mc_blocks k' = mc_blocks k /\ mc_live k' = mc_live k.

Lemma mc_alloc_grew k : mc_grew k (mc_alloc k).2.
Proof. split_and!; cbn; try done; set_solver. Qed.

Lemma mc_task_grew (k k' : demo_machine) : task_op k k' -> mc_grew k k'.
Proof.
  intros [r k1 [= _ <-]|n r k1 [= _ <-]| |w]; [..|apply mc_alloc_grew|split_and!; cbn; done]; split_and!; cbn; try done; [set_solver|].
  apply insert_subseteq, mc_new_fresh.
Qed.

#[export] Instance machine_task_ok : TaskLibOk demo_machine.
Proof.
  refine {| room k := (100 * mc_blocks k)%nat |}; try done.
  intros k k' (_ & _ & Hc & Hb & _)%mc_task_grew. cbn. split; [exact Hc|lia].
Defined.

#[export] Instance machine_vka : UntypedVka demo_machine := {|
  vka_alloc_untyped bits k :=
    match mc_blocks k with
    | O => ((1, VkaObject 0 0), k)
    | S n => let c := fresh (mc_live k) in ((0, VkaObject c bits), mc_untypeds n ({[c]} ∪ mc_live k) k)
    end;
  Untyped.vka_free_object o k := mc_untypeds (S (mc_blocks k)) (mc_live k ∖ {[cptr o]}) k
|}.

#[export] Instance machine_vka_ok : UntypedVkaOk demo_machine.
Proof.
  refine {| vka_view_of := fun k => VkaView (mc_blocks k) (mc_live k) |}; [| |done].
  - intros k Hn. cbn in *. destruct (mc_blocks k) as [|n]; [lia|]. eexists _, _. split; [reflexivity|]. split; [apply is_fresh|done].
  - intros [? ? ? ? ? [|n] ? ?] Hn; cbn in *; [done|lia].
Defined.

#[export] Instance machine_pages : RootEnv demo_machine := {|
  vspace_new_pages n k := (4096, k);
  ROUND_UP_UNSAFE x n := (x + n - 1) / n * n
|}.

#[export] Instance machine_root : RootLib demo_machine := {|
  seL4_MaxPrio := 255;
  platsupport_get_bootinfo _ := 1;
  simple_default_init_bootinfo _ k := k;
  simple_get_pd _ := 2;
  simple_get_cnode _ := 3;
  simple_get_cnode_size_bits _ := 12;
  bootstrap_use_current_simple _ k := (1, mc_untypeds (mc_boot k) (mc_live k) k);
  sel4utils_bootstrap_vspace_with_bootinfo_leaky _ _ k := (0, mc_set_vmem 134217728 k);
  vspace_reserve_range n k := ((1, 65536), mc_set_vmem (mc_vmem k - n) k);
  bootstrap_configure_virtual_pool _ _ _ k := k;
  sel4utils_reserve_range_no_alloc n k := ((0, 131072), mc_set_vmem (mc_vmem k - n) k);
  sel4platsupport_new_io_ops k := (0, k);
  sel4utils_new_page_dma_alloc k := (0, k);
  sel4platsupport_init_default_timer_ops _ k := (0, k);
  root_cspace_alloc := mc_alloc;
  root_cnode_mint _ _ _ k := (0, k);
  platsupport_serial_setup_simple k := (0, k);
  ps_cdev_init _ k := (1, k);
  vka_alloc_endpoint_leaky k := (1, k);
  PS_SERIAL0 := 0;
  PS_SERIAL1 := 1;
  sysclock_addr := 16384;
  serial_addr := 16640;
  sizeof_process := 128
|}.

Lemma mc_root_grew (k k' : demo_machine) : root_op k k' -> mc_grew k k'.
Proof. intros []; try apply mc_alloc_grew; try (split_and!; cbn; done). by apply mc_task_grew. Qed.

#[export] Instance machine_root_ok : RootLibOk demo_machine.
Proof.
  refine {| boot_blocks := mc_boot; blocks_worth := 100; vmem_left := mc_vmem; root_vmem := 134217728 |}; try done.
  - intros k k' _ (Hm & Hn & Hc & Hb & Hl)%mc_root_grew. cbn. rewrite Hb, Hl. split_and!; try done; lia.
  - intros k k' _ [bits|o]; cbn; [destruct (mc_blocks k); [done|]|]; by split_and!.
  - intros k _. cbn. lia.
Defined.

Section samples.
#[local] Existing Instance default_config.

Definition blank_process : sel4osapi_process_t unit := MkProcess (NativeProcess 0 0 0 tt) 0 (blank_env 4) 0 0 NULL NULL.

Definition sample_memory : root_memory unit :=
  RootMemory (Heap 1 65536 ∅ ∅ ∅, blank_process) (Heap 1 65536 ∅ ∅ ∅, Thread 0 0 (Native 0 0) 0 sel4osapi_serial_server_thread blank_main)
    (Heap 1 65536 ∅ ∅ ∅, TimeoutEntry 0 0 0 0 0) (Heap 1 65536 ∅ ∅ ∅, IpcClient 0 NULL NULL 0 0 0 0)
    (Heap 1 65536 ∅ ∅ ∅, Process.SerialClient 0 NULL 0 0 0) (blank_env 4) (replicate 16 (VkaObject 0 0)).

(** Twenty blocks, and a table of four. *)
Definition sample_root : root_system demo_machine unit :=
  RootSystem (Task false ∅ 0 blank_main NULL NULL None (DemoMachine ∅ ∅ ∅ 7 20 0 ∅ 0)) 0 0 0 0
    empty_table None (Sysclock 0 0 0 None NULL NULL NULL) NULL None (SerialServer None NULL 0 NULL).

Lemma sample_root_ready : root_ready sample_memory sample_root.
Proof.
  assert (Har : forall {E} n size (u : E), 0 < n -> 0 < size -> (pool_bytes n size <=? 65536) = true -> arena_ok n size (Heap 1 65536 ∅ ∅ ∅, u)).
  { intros E n size u Hn Hs Hb. apply arena_empty_ok; [done|done|]. by apply Z.leb_le. }
  split.
  - split; cbn; try (apply Nat.leb_le; reflexivity); unfold is_u32; lia.
  - apply Nat.ltb_lt. reflexivity.
  - apply Nat.leb_le. reflexivity.
  - split_and!; apply Z.leb_le; reflexivity.
  - by apply Har.
  - split; [by apply Har|done].
  - by apply Har.
  - by apply Har.
  - by apply Har.
  - reflexivity.
  - apply Nat.ltb_lt. reflexivity.
Qed.

Lemma root_task_boots_witness :
  wp (sel4osapi_system_initialize true sample_memory) (fun r s' => r = 0 /\ exists e ts, root_up sample_memory sample_root e ts s') sample_root.
Proof. apply (root_task_boots sample_memory sample_root sample_root_ready). Defined.
End samples.
