(* ===== verification/RootUdp.v ===== *)
(** * RootUdp: the start of the network (src/system.c, sel4osapi_system_initialize_network)

    Once the root task is up ([RootBoot]) it starts the network interface and the
    UDP server (src/udp.c, sel4osapi_udp_initialize).  [Network] is proved against
    an interface of the rest of the system; here the root task implements it, so
    that both work on one state: mutexes, capabilities and threads, that of the
    interrupt included, are those of the root task. *)

From Stdlib Require Import String.
From stdpp Require Import strings relations.
From S2P Require Import Prelude Config Memory LinkedList Pool PoolSearch Sync Ipc Network UdpStack Untyped Thread Process Spawn System RootBoot.

(** [SEL4OSAPI_UDP_MAX_SOCKETS] is a constant of lwIP (MEMP_NUM_UDP_PCB). *)
Class UdpLib := {
  SEL4OSAPI_UDP_MAX_SOCKETS : Z;
  sizeof_socket_server : Z;
  udp_addr : Z                     (* &system->udp *)
}.

Record sel4osapi_udpstack_t := UdpServer {
  ud_mutex : ptr;
  ud_socket_servers : option (pool_state sel4osapi_udp_socket_server_t);
  ud_stack_op_ep : Z;
  ud_server_thread : ptr
}.

(** ** The root task as the system the network works in *)

Section root_net_c.
Context {CFG : Config} {K P : Type} {OBJ : SyncObjects K} {THR : ThreadEnv K} {TASK : TaskLib K} {ROOT : RootEnv K} {LIB : RootLib K}.
Context {NLIB : NetLib K}.

Definition lift_kern {A} (f : K -> A * K) (s : root_system K P) : A * root_system K P :=
  ((f (rkern s)).1, set_rkern (f (rkern s)).2 s).
Definition lift_do (f : K -> K) (s : root_system K P) : root_system K P := set_rkern (f (rkern s)) s.

Definition root_mutexes : SyncObjects (root_system K P) := {|
  mutex_create := on_root_task (on_task_kern mutex_create);
  semaphore_create n := on_root_task (on_task_kern (semaphore_create n))
|}.

Definition root_net_lib : NetLib (root_system K P) := {|
  simple_get_IRQ_handler irq slot := lift_kern (simple_get_IRQ_handler irq slot);
  seL4_IRQHandler_SetNotification slot n := lift_kern (seL4_IRQHandler_SetNotification slot n);
  lwip_init := lift_do lwip_init;
  netif_add p a m g d f := lift_kern (netif_add p a m g d f);
  netif_set_up p := lift_do (netif_set_up p);
  netif_set_default p := lift_do (netif_set_default p);
  ipaddr_aton := ipaddr_aton (K := K)
|}.

(** The address of an interface, which its thread gets as argument. *)
Definition addr_of (p : ptr) : Z := match p with Some l => Z.pos l | None => 0 end.

Definition root_net_env : NetEnv (root_system K P) := {|
  net_cspace_alloc := lift_kern root_cspace_alloc;
  net_alloc_notification := lift_kern vka_alloc_notification;
  irq_thread_create name iface priority := root_thread_create name sel4osapi_eth_irq1_thread (addr_of iface) priority;
  irq_thread_start thread := on_root_threads (sel4osapi_thread_start thread)
|}.
End root_net_c.

(** ** The network of the root task *)

Section udp_c.
Context {CFG : Config} {K P : Type} {OBJ : SyncObjects K} {THR : ThreadEnv K} {TASK : TaskLib K} {ROOT : RootEnv K} {LIB : RootLib K}.
Context {NLIB : NetLib K} {UDP : UdpLib}.
#[local] Existing Instance root_mutexes.
#[local] Existing Instance root_net_lib.
#[local] Existing Instance root_net_env.

(** [ns_net]: the netstack, in the root task. *)
Record net_system := NetSystem { ns_net : net_state (root_system K P); ns_udp : sel4osapi_udpstack_t }.

Definition ns_root (s : net_system) : root_system K P := net_env (ns_net s).
Definition ns_set_net n (s : net_system) : net_system := NetSystem n (ns_udp s).
Definition ns_set_root r (s : net_system) : net_system := ns_set_net (set_net_env r (ns_net s)) s.
Definition ns_set_udp u (s : net_system) : net_system := NetSystem (ns_net s) u.
Definition ud_set_mutex l (u : sel4osapi_udpstack_t) := UdpServer l (ud_socket_servers u) (ud_stack_op_ep u) (ud_server_thread u).
Definition ud_set_servers p (u : sel4osapi_udpstack_t) := UdpServer (ud_mutex u) p (ud_stack_op_ep u) (ud_server_thread u).
Definition ud_set_ep c (u : sel4osapi_udpstack_t) := UdpServer (ud_mutex u) (ud_socket_servers u) c (ud_server_thread u).
Definition ud_set_thread t (u : sel4osapi_udpstack_t) := UdpServer (ud_mutex u) (ud_socket_servers u) (ud_stack_op_ep u) t.
Definition upd_udp (f : sel4osapi_udpstack_t -> sel4osapi_udpstack_t) : M net_system unit := modify (fun s => ns_set_udp (f (ns_udp s)) s).
Definition on_ns_root {A} (m : M (root_system K P) A) : M net_system A := zoom ns_root ns_set_root m.
Definition on_ns_net {A} (m : M (net_state (root_system K P)) A) : M net_system A := zoom ns_net ns_set_net m.

Definition sel4osapi_udp_initialize (a : arena sel4osapi_udp_socket_server_t) (priority : Z) : M net_system Z :=
  let! mutex := on_ns_root (on_root_task (on_task_kern mutex_create)) in
  upd_udp (ud_set_mutex mutex) ;;
  assert_ (non_null mutex) ;;
  let! servers := new_pool SEL4OSAPI_UDP_MAX_SOCKETS sizeof_socket_server a in
  upd_udp (ud_set_servers (Some servers)) ;;
  let! ep := on_ns_root (root_call vka_alloc_endpoint) in
  assert_ (ep.1 =? 0) ;;
  upd_udp (ud_set_ep ep.2) ;;
  let! thread := on_ns_root (root_thread_create "udp::stack" sel4osapi_udp_stack_thread udp_addr priority) in
  upd_udp (ud_set_thread thread) ;;
  assert_ (non_null thread) ;;
  on_ns_root (root_thread_start thread) ;;
  ret 0.

(** Memory for the pools of the network. *)
Record network_memory := NetworkMemory {
  nm_ifaces : arena sel4osapi_netiface_t;
  nm_vfaces : arena sel4osapi_netvface_t;
  nm_sockets : arena sel4osapi_udp_socket_server_t
}.

Definition sel4osapi_system_initialize_network (m : network_memory) (iface_name : option string)
    (iface_driver : option sel4osapi_netiface_driver_t) : M net_system Z :=
  assert_ (bool_decide (is_Some iface_name)) ;;
  assert_ (bool_decide (is_Some iface_driver)) ;;
  let! e := on_ns_root (on_root_task read_env) in
  let! _ := on_ns_net (sel4osapi_network_initialize (pe_priority e) (nm_vfaces m).2 (nm_vfaces m).1 (nm_ifaces m).2 (nm_ifaces m).1
                         iface_name iface_driver) in
  let! e := on_ns_root (on_root_task read_env) in
  let! _ := sel4osapi_udp_initialize (nm_sockets m) (pe_priority e) in
  ret 0.
End udp_c.
Arguments net_system K P : clear implicits.

(** ** What is used of the libraries: calls of lwIP and of interrupts are [safe], those of
    the root task leave lwIP and the interrupts alone, and a new slot handles none. *)
Class RootNetOk (K : Type) `{RootLibOk K} `{NetLibOk K} := {
  net_op_safe k k' : objects_inv k -> net_op k k' -> safe 1 k k';
  net_root_frame k k' : root_op k k' -> stack_of k' = stack_of k;
  net_slot_new k : objects_inv k -> (0 < room k)%nat -> nv_irqs (stack_of k) !! (root_cspace_alloc k).1.2 = None
}.

Section root_net.
Context {CFG : Config} {K P : Type} {OBJ : SyncObjects K} {OOK : SyncObjectsOk K} {THR : ThreadEnv K} {TOK : ThreadEnvOk K}.
Context {TASK : TaskLib K} {TAOK : TaskLibOk K} {UVKA : UntypedVka K} {UVOK : UntypedVkaOk K}.
Context {ROOT : RootEnv K} {LIB : RootLib K} {LOK : RootLibOk K} {NLIB : NetLib K} {NLOK : NetLibOk K} {RNOK : RootNetOk K}.
#[local] Existing Instance root_mutexes.
#[local] Existing Instance root_net_lib.
#[local] Existing Instance root_net_env.
Implicit Types (s : root_system K P) (k : K) (w : net_view).

Definition root_net_lib_ok : NetLibOk (root_system K P).
Proof.
  refine {| stack_of s := stack_of (rkern s) |}.
  - intros irq slot s. exact (nl_handler_ok irq slot (rkern s)).
  - intros slot n s. exact (nl_bind_ok slot n (rkern s)).
  - intros s. exact (nl_init_ok (rkern s)).
  - intros l a m g d f s. exact (nl_add_ok l a m g d f (rkern s)).
  - intros l a m g u s. exact (nl_up_ok l a m g u (rkern s)).
  - intros l s. exact (nl_default_ok l (rkern s)).
Defined.
#[local] Existing Instance root_net_lib_ok.

Lemma kept_stack n k k' : kept n k k' -> stack_of k' = stack_of k.
Proof. intros [_ H]. induction H as [|n k1 k2 k3 Hop _ IH]; [done|]. by rewrite IH, (net_root_frame _ _ Hop). Qed.

Definition irq_request (th : net_thread) : request (F := root_routine) :=
  Request (Some (nt_name th)) sel4osapi_eth_irq1_thread (Z.pos (nt_iface th)) (nt_priority th).

(** Units a call of the network may cost the root task. *)
Definition call_cost : nat := 10.

(** *** The root task implements the interface of [Network]

    [s0] is the root task before, ready, with room for [n0] calls. *)
Section implementation.
Variables (n0 : nat) (s0 : root_system K P) (e : sel4osapi_process_env_t) (free0 busy0 : list (loc * loc)).
Variables (ts0 : list (sel4osapi_thread_t root_routine)) (qs0 : list (request (F := root_routine))) (owned0 : list loc).
Hypothesis Hroom : (n0 * call_cost <= room (rkern s0))%nat.

(** Only threads and kernel have changed; the threads of the network are the next
    ones of the root task. *)
Definition root_net w s : Prop := exists p k free xs ts owned,
  s = set_rthreads p k s0 /\ (nv_room w <= n0)%nat /\ safe ((n0 - nv_room w) * call_cost) (rkern s0) k /\
  free0 = xs ++ free /\ length free = nv_slots w /\ xs.*2 = (nv_threads w).*1 /\ length ts = length xs /\
  task_ready e p free (busy0 ++ xs) (ts0 ++ ts) (qs0 ++ (irq_request <$> (nv_threads w).*2)) (owned ++ owned0) (rs_task s).

Lemma root_net_room w s : root_net w s -> (nv_room w * call_cost <= room (rkern s))%nat.
Proof. intros (p & k & free & xs & ts & owned & -> & Hn & T & _). change (rkern _) with k. pose proof (kp_room _ _ _ T). nia. Qed.

Lemma safe_unit n w k1 k2 : (nv_room w <= n0)%nat -> (0 < nv_room w)%nat -> safe ((n0 - nv_room w) * call_cost) (rkern s0) k1 ->
  safe n k1 k2 -> (n <= call_cost)%nat -> safe ((n0 - (nv_room w - 1)) * call_cost) (rkern s0) k2.
Proof. intros Hn Hr T T' Hc. eapply safe_weaken; [exact (safe_trans _ _ _ _ _ T T')|]. nia. Qed.

Lemma root_net_kern n w s k : root_net w s -> (0 < nv_room w)%nat -> safe n (rkern s) k -> (n <= call_cost)%nat ->
  root_net (nv_take 1 w) (set_rkern k s).
Proof.
  intros (p & k0 & free & xs & ts & owned & -> & Hn & T & H1 & H2 & H3 & H4 & R) Hr T' Hc.
  exists p, k, free, xs, ts, owned. split; [done|]. split; [cbn; lia|]. split; [by eapply safe_unit|].
  split_and!; try done. exact (task_ready_kern _ _ _ _ _ _ _ _ _ _ R T').
Qed.

Lemma root_net_inv w s : root_net w s -> objects_inv (rkern s).
Proof. intros (p & k0 & free & xs & ts & owned & -> & Hn & T & _). apply (kp_inv _ _ _ T). Qed.

Lemma root_net_op w s s' : root_net w s -> (0 < nv_room w)%nat -> net_op s s' -> root_net (nv_take 1 w) s'.
Proof.
  intros H Hr Hop. assert (Hk : exists k', s' = set_rkern k' s /\ net_op (rkern s) k') by (destruct Hop; eexists; (split; [reflexivity|constructor])).
  destruct Hk as (k' & -> & Hk). eapply root_net_kern; [exact H|exact Hr| |]; [apply net_op_safe; [by eapply root_net_inv|exact Hk]|]. unfold call_cost. lia.
Qed.

Lemma root_net_mutex w s : root_net w s -> (0 < nv_room w)%nat ->
  wp mutex_create (fun r s' => exists l, r = Some l /\ root_net (nv_take 1 w) s' /\ stack_of s' = stack_of s) s.
Proof.
  intros H Hr. pose proof (root_net_room w s H). destruct H as (p & k0 & free & xs & ts & owned & -> & Hn & T & H1 & H2 & H3 & H4 & R).
  eapply wp_ready_mutex; [exact R|unfold call_cost in *; lia|]. intros l k T' R'. exists l. split; [done|]. split; [|exact (kept_stack _ _ _ T')].
  exists p, k, free, xs, ts, (l :: owned). split; [done|]. split; [cbn; lia|]. split; [eapply safe_unit; [done..|exact T'|unfold call_cost; lia]|].
  by split_and!.
Qed.

Lemma root_net_slot w s : root_net w s -> (0 < nv_room w)%nat -> let r := net_cspace_alloc s in
  r.1.1 = 0 /\ nv_irqs (stack_of s) !! r.1.2 = None /\ root_net (nv_take 1 w) r.2 /\ stack_of r.2 = stack_of s.
Proof.
  intros H Hr. pose proof (root_net_room w s H). pose proof (root_net_inv w s H) as Hi.
  assert (Hk : (0 < room (rkern s))%nat) by (unfold call_cost in *; lia). pose proof (kept_op _ _ Hi (ro_slot (rkern s))) as T.
  split; [exact (root_slot_ok (rkern s) Hi Hk)|]. split; [exact (net_slot_new (rkern s) Hi Hk)|]. split; [|exact (kept_stack _ _ _ T)].
  eapply root_net_kern; [exact H|exact Hr|exact T|unfold call_cost; lia].
Qed.

Lemma root_net_notification w s : root_net w s -> (0 < nv_room w)%nat -> let r := net_alloc_notification s in
  r.1.1 = 0 /\ root_net (nv_take 1 w) r.2 /\ stack_of r.2 = stack_of s.
Proof.
  intros H Hr. pose proof (root_net_room w s H). pose proof (root_net_inv w s H) as Hi. pose proof (room_threads (rkern s)).
  pose proof (kept_op _ _ Hi (ro_task (rkern s) _ (op_notification (rkern s)))) as T.
  destruct (th_notification_ok (rkern s)) as (He & _); [unfold call_cost in *; lia|].
  split; [exact He|]. split; [|exact (kept_stack _ _ _ T)]. eapply root_net_kern; [exact H|exact Hr|exact T|unfold call_cost; lia].
Qed.

Lemma root_net_create name l priority w s : root_net w s -> (0 < nv_room w)%nat -> (0 < nv_slots w)%nat ->
  wp (irq_thread_create name (Some l) priority) (fun r s' => exists t, r = Some t /\
    root_net (nv_create t (NetThread name l priority false) (nv_take 1 w)) s' /\ stack_of s' = stack_of s) s.
Proof.
  intros H Hr Hs. pose proof (root_net_room w s H). destruct H as (p & k0 & free & xs & ts & owned & -> & Hn & T & H1 & H2 & H3 & H4 & R).
  destruct free as [|x free]; [cbn in H2; lia|].
  unfold irq_thread_create, root_net_env. cbn [addr_of].
  eapply wp_ready_thread; [exact R|unfold call_cost, thread_cost in *; lia|]. intros p' k t T' R'.
  exists x.2. split; [done|]. split; [|exact (kept_stack _ _ _ T')].
  exists p', k, free, (xs ++ [x]), (ts ++ [t]), owned. split; [done|]. split; [cbn; lia|]. split; [eapply safe_unit; [done..|exact T'|unfold call_cost; lia]|].
  cbn [nv_create nv_take nv_threads nv_slots]. split; [by rewrite <- app_assoc|]. split; [cbn in H2; lia|]. split; [by rewrite !fmap_app, H3|].
  split; [rewrite !length_app; cbn; lia|]. rewrite !fmap_app. rewrite <- !app_assoc in R'. exact R'.
Qed.

Lemma root_net_start j t th w s : root_net w s -> (0 < nv_room w)%nat -> nv_threads w !! j = Some (t, th) -> nt_started th = false ->
  wp (irq_thread_start (Some t)) (fun r s' => r = 0 /\ root_net (nv_start j (nv_take 1 w)) s' /\ stack_of s' = stack_of s) s.
Proof.
  intros (p & k0 & free & xs & ts & owned & -> & Hn & T & H1 & H2 & H3 & H4 & R) Hr Hj _.
  assert (Hx : xs.*2 !! j = Some t) by by rewrite H3, list_lookup_fmap, Hj.
  apply list_lookup_fmap_Some in Hx as (x & -> & Hx).
  eapply (wp_ready_start _ _ _ _ _ _ _ (length busy0 + j)); [exact R|rewrite lookup_app_r, Nat.add_comm, Nat.add_sub by lia; exact Hx|].
  intros k T' R'. split; [done|]. split; [|exact (kept_stack _ _ _ T')].
  exists p, k, free, xs, ts, owned. split; [done|]. split; [cbn; lia|]. split; [eapply safe_unit; [done..|exact T'|unfold call_cost; lia]|].
  cbn [nv_start nv_take nv_threads nv_slots]. split_and!; try done.
  - rewrite (list_fmap_alter _ _ id) by by apply Forall_forall. by rewrite list_alter_id.
  - rewrite <- list_fmap_compose in R' |- *. rewrite (list_fmap_alter _ _ id) by by apply Forall_forall. rewrite list_alter_id by done. exact R'.
Qed.

Definition root_net_ok : NetEnvOk (root_system K P) := {|
  net_ok := root_net;
  nt_op_ok := root_net_op;
  nt_mutex_ok := root_net_mutex;
  nt_slot_ok := root_net_slot;
  nt_notification_ok := root_net_notification;
  nt_thread_ok := root_net_create;
  nt_start_ok := root_net_start
|}.
End implementation.
End root_net.

Section udp_spec.
Context {CFG : Config} {K P : Type} {OBJ : SyncObjects K} {OOK : SyncObjectsOk K} {THR : ThreadEnv K} {TOK : ThreadEnvOk K}.
Context {TASK : TaskLib K} {TAOK : TaskLibOk K} {UVKA : UntypedVka K} {UVOK : UntypedVkaOk K}.
Context {ROOT : RootEnv K} {LIB : RootLib K} {LOK : RootLibOk K} {NLIB : NetLib K} {NLOK : NetLibOk K} {RNOK : RootNetOk K} {UDP : UdpLib}.
#[local] Existing Instance root_mutexes.
#[local] Existing Instance root_net_lib.
#[local] Existing Instance root_net_env.
#[local] Existing Instance root_net_lib_ok.
Implicit Types (s : net_system K P).

Definition nkern s : K := rkern (ns_root s).

Lemma wp_on_ns_root {A} (c : M (root_system K P) A) (Q : A -> net_system K P -> Prop) s :
  wp c (fun a r => Q a (ns_set_root r s)) (ns_root s) -> wp (on_ns_root c) Q s.
Proof. apply wp_zoom. Qed.

Lemma wp_ns_env e p free busy ts qs owned (Q : sel4osapi_process_env_t -> net_system K P -> Prop) s :
  task_ready e p free busy ts qs owned (rs_task (ns_root s)) -> Q e s -> wp (on_ns_root (on_root_task read_env)) Q s.
Proof.
  intros R HQ. apply wp_on_ns_root, wp_on_root_task. eapply wp_read_env; [exact (tk_env _ _ _ _ _ _ _ _ R)|]. by destruct s as [[? ? []] ?].
Qed.

Definition stack_request (priority : Z) : request (F := root_routine) :=
  Request (Some "udp::stack"%string) sel4osapi_udp_stack_thread udp_addr priority.

(** The UDP server with the thread [x], its endpoint not in [caps]. *)
Record udp_server_up (caps : gset Z) (x : loc * loc) (owned : list loc) (u : sel4osapi_udpstack_t) : Prop := {
  us_mutex : exists l, ud_mutex u = Some l /\ l ∉ owned;
  us_servers : exists servers, ud_socket_servers u = Some servers /\ fresh_pool SEL4OSAPI_UDP_MAX_SOCKETS servers;
  us_ep : ud_stack_op_ep u ∉ caps;
  us_thread : ud_server_thread u = Some x.2
}.

Lemma udp_server_before caps caps' x ow owned u : udp_server_up caps' x (ow ++ owned) u -> caps ⊆ caps' -> udp_server_up caps x owned u.
Proof. intros [(l & H1 & H2) H3 H4 H5] Hc. split; [exists l; split; [done|set_solver]|done|set_solver|done]. Qed.

Definition udp_cost : nat := 13.

Lemma wp_udp_initialize a priority e p x free busy ts qs owned s (Q : Z -> net_system K P -> Prop) :
  task_ready e p (x :: free) busy ts qs owned (rs_task (ns_root s)) -> (udp_cost <= room (nkern s))%nat ->
  arena_ok SEL4OSAPI_UDP_MAX_SOCKETS sizeof_socket_server a ->
  (forall l p' k t u, udp_server_up (caps_of (nkern s)) x owned u -> kept udp_cost (nkern s) k ->
     task_ready e p' free (busy ++ [x]) (ts ++ [t]) (qs ++ [stack_request priority]) (l :: owned) (rs_task (set_rthreads p' k (ns_root s))) ->
     Q 0 (ns_set_udp u (ns_set_root (set_rthreads p' k (ns_root s)) s))) ->
  wp (sel4osapi_udp_initialize a priority) Q s.
Proof.
  intros R0 Hr Ha HQ. unfold udp_cost, nkern in *. unfold sel4osapi_udp_initialize, upd_udp. wp_step. apply wp_on_ns_root.
  eapply wp_ready_mutex; [exact R0|lia|]. intros l k1 T1 R1. pose proof (kp_room _ _ _ T1). wp_steps.
  eapply wp_new_pool; [exact Ha|]. intros servers Hs. wp_step. wp_step. wp_step. apply wp_on_ns_root. apply wp_root_task_call.
  match goal with |- context [vka_alloc_endpoint (rkern ?t)] => change (rkern t) with k1 end. pose proof (room_threads k1).
  destruct (th_endpoint_ok k1) as (He & Hn & _); [lia|]. rewrite He.
  pose proof (kept_op k1 _ (kp_inv _ _ _ T1) (ro_endpoint k1)) as T2. pose proof (task_ready_kern _ _ _ _ _ _ _ _ _ _ R1 T2) as R2.
  set (ep := (vka_alloc_endpoint k1).1.2) in *. set (k2 := (vka_alloc_endpoint k1).2) in *. pose proof (kp_room _ _ _ T2). wp_steps.
  apply wp_on_ns_root. eapply wp_ready_thread; [exact R2|change (thread_cost <= room k2)%nat; unfold thread_cost; lia|].
  intros p1 k3 t T3 R3. change (rkern _) with k2 in T3.
  wp_steps. apply wp_on_ns_root. eapply wp_ready_thread_start; [exact R3|by apply list_lookup_middle|].
  intros k4 T4 R4. change (rkern _) with k3 in T4. wp_step.
  pose proof (kept_trans _ _ _ _ _ (kept_trans _ _ _ _ _ T1 T2) (kept_trans _ _ _ _ _ T3 T4)) as T.
  refine (HQ l p1 k4 t (UdpServer (Some l) (Some servers) ep (Some x.2)) _ T R4). split; cbn; try done.
  - exists l. split; [done|]. destruct (tk_owns _ _ _ _ _ _ _ _ R1) as [Hnd _]. by apply NoDup_cons in Hnd as [Hnd _].
  - by exists servers.
  - intros Hin. apply Hn. by apply (kp_caps _ _ _ T1).
Qed.

(** What the network may take. *)
Definition net_cost : nat := network_cost * call_cost + udp_cost.

(** The threads of the network: that of the interrupt and the UDP server. *)
Definition network_requests (x : loc * loc) (priority : Z) : list (request (F := root_routine)) :=
  [irq_request (irq_thread_of x priority true); stack_request priority].

Record network_memory_ok (m : network_memory) (d : sel4osapi_netiface_driver_t) (v : stack_view) : Prop := {
  mo_network : network_ready (nm_vfaces m).1 (nm_ifaces m).1 d v;
  mo_sockets : arena_ok SEL4OSAPI_UDP_MAX_SOCKETS sizeof_socket_server (nm_sockets m)
}.

(** What the start of the network does to a root task that was ready: nothing else of it
    has changed. *)
Record network_started d e x1 x2 free busy ts qs owned s s' : Prop := {
  na_iface : exists x, network_up d x x1.2 (ns_net s') /\ exists p k ts' owned', ns_root s' = set_rthreads p k (ns_root s) /\
    safe net_cost (nkern s) k /\ length ts' = 2%nat /\
    task_ready e p free (busy ++ [x1; x2]) (ts ++ ts') (qs ++ network_requests x (pe_priority e)) (owned' ++ owned) (rs_task (ns_root s'));
  na_udp : udp_server_up (caps_of (nkern s)) x2 owned (ns_udp s')
}.

(** The network of the root task starts.  From a root task that is ready, with
    two more threads, [sel4osapi_system_initialize_network] returns 0 and no
    assertion in it fails: there is one interface, up, its interrupt bound to its
    notification, with one virtual interface with the configured addresses; its
    interrupt thread and then the UDP server's are the next threads of the root
    task, with the routines of src/network.c and src/udp.c, the priority of
    the task and the interface itself as argument of the first; the server's
    endpoint and mutex are new and its sockets free; apart from its threads and
    from what the kernel has made, nothing of the root task has changed. *)
Theorem network_starts m name d e p x1 x2 free busy ts qs owned s :
  task_ready e p (x1 :: x2 :: free) busy ts qs owned (rs_task (ns_root s)) -> (net_cost <= room (nkern s))%nat ->
  network_memory_ok m d (stack_of (nkern s)) ->
  wp (sel4osapi_system_initialize_network m (Some name) (Some d)) (fun r s' => r = 0 /\
    network_started d e x1 x2 free busy ts qs owned s s') s.
Proof.
  intros R Hr [Hnet Ha]. unfold net_cost, udp_cost in Hr. unfold sel4osapi_system_initialize_network. wp_steps.
  eapply wp_ns_env; [exact R|]. wp_step. apply wp_zoom. pose proof R as [_ Hp _ Hi _].
  assert (Hroom : (network_cost * call_cost <= room (rkern (ns_root s)))%nat) by (unfold nkern in Hr; lia).
  eapply wp_mono; [eapply (wp_network_initialize (NOK := root_net_ok network_cost (ns_root s) e (x1 :: x2 :: free) busy ts qs owned Hroom)
    (pe_priority e) _ _ _ _ name d (NetView network_cost (S (S (length free))) []))|].
  - exact Hnet.
  - exists p, (rkern (ns_root s)), (x1 :: x2 :: free), [], [], []. cbn. rewrite !app_nil_r. split; [clear -Hp; destruct s as [[? ? [[]]] ?]; cbn in *; by subst|].
    split_and!; try done. by apply safe_refl.
  - done.
  - cbn. lia.
  - intros r n1 (-> & x & t & n & Hup & Hn & p1 & k1 & fr1 & xs & ts1 & ow1 & E1 & _ & T1 & F1 & L1 & X1 & Y1 & R1).
    cbn in X1, R1, L1. destruct xs as [|x0 [|]]; try discriminate X1. cbn in X1, F1. injection X1 as <-. injection F1 as <- <-.
    assert (Hk1 : nkern (ns_set_net n1 s) = k1) by (unfold nkern, ns_root; cbn; by rewrite E1).
    assert (Hn1 : ns_root (ns_set_net n1 s) = set_rthreads p1 k1 (ns_root s)) by exact E1.
    assert (T1' : safe (network_cost * call_cost) (nkern s) k1) by (eapply safe_weaken; [exact T1|cbn [nv_room]; unfold network_cost, call_cost; lia]). pose proof (kp_room _ _ _ T1').
    wp_step. eapply wp_ns_env; [exact R1|].
    wp_step. eapply wp_udp_initialize; [exact R1|change (udp_cost <= room (nkern (ns_set_net n1 s)))%nat; rewrite Hk1; unfold udp_cost; lia|exact Ha|].
    intros l p2 k2 t2 u Hu T2 R2. rewrite Hk1 in Hu, T2. rewrite Hn1 in R2 |- *. wp_step. split; [done|]. split.
    + exists x. split; [apply network_up_env; [exact Hup|change (stack_of k2 = stack_of (rkern (net_env n1))); rewrite E1; exact (kept_stack _ _ _ T2)]|].
      exists p2, k2, (ts1 ++ [t2]), (l :: ow1). split; [done|]. split; [exact (safe_trans _ _ _ _ _ T1' T2)|].
      split; [rewrite length_app, Y1; done|]. rewrite <- !app_assoc in R2. exact R2.
    + eapply udp_server_before; [exact Hu|]. apply (kp_caps _ _ _ T1').
Qed.

End udp_spec.
