(* ===== verification/RootSpawn.v ===== *)
(** * RootSpawn: the first process after the start (src/system.c, src/process.c)

    [RootBoot] ends with the state of the root task; the operations of
    src/process.c in [Spawn] work on a part of it, the pools, the table of blocks
    and the kernel.  Here they work on the same state: what the start leaves is
    what creating a process needs. *)

From Stdlib Require Import String.
From stdpp Require Import strings.
From S2P Require Import Prelude Config Memory LinkedList Pool PoolSearch Sync Ipc Network Untyped Thread Process Spawn System Processes RootBoot.

Section root_spawn.
Context {CFG : Config} {K P : Type}.

(** The part of [sel4osapi_gv_system] that src/process.c uses; [stack_op_ep] is
    that of the UDP server. *)
Definition system_of_root (stack_op_ep : Z) (s : root_system K P) : option (system_state K P) :=
  match rs_processes s, rs_ipc_clients s, sv_clients (rs_serial s) with
  | Some processes, Some ipc, Some serial =>
      Some (SystemState processes (rs_table s) (IpcState (rs_ipc_mutex s) ipc (ta_kern (rs_task s))) serial
        (sv_server_ep (rs_serial s)) (sc_server_ep_obj (rs_sysclock s)) stack_op_ep)
  | _, _, _ => None
  end.

Definition with_system (y : system_state K P) (s : root_system K P) : root_system K P :=
  rs_set_task (ta_set_kern (ipc_env (sy_ipc y)) (rs_task s))
    (rs_upd_serial (sv_set_clients (Some (sy_serial_clients y)))
      (rs_set_ipc (ipc_mutex (sy_ipc y)) (Some (ipc_clients (sy_ipc y)))
        (rs_set_table (sy_table y) (rs_set_processes (Some (sy_processes y)) s)))).

Definition on_system {A} (stack_op_ep : Z) (m : M (system_state K P) A) : M (root_system K P) A :=
  let! s := get in
  let! y := deref (system_of_root stack_op_ep s) in
  let! r := peek y (let! a := m in let! y := get in ret (a, y)) in
  modify (with_system r.2) ;;
  ret r.1.
End root_spawn.

Section root_spawn_spec.
Context {CFG : Config} {K P : Type} {OBJ : SyncObjects K} {OOK : SyncObjectsOk K} {THR : ThreadEnv K} {TOK : ThreadEnvOk K}.
Context {TASK : TaskLib K} {TAOK : TaskLibOk K} {UVKA : UntypedVka K} {UVOK : UntypedVkaOk K}.
Context {ROOT : RootEnv K} {ROK : RootEnvOk K} {LIB : RootLib K} {LOK : RootLibOk K}.
Context {CSP : ProcessCSpace P} {COK : ProcessCSpaceOk P} {PLIB : ProcessLib K P} {PLOK : ProcessLibOk K P}.
Context {SPAWN : SpawnLib K P} {SOK : SpawnLibOk K P}.
Implicit Types (s : root_system K P) (y : system_state K P) (k : K).

Lemma wp_on_system {A} ep (m : M (system_state K P) A) (Q : A -> root_system K P -> Prop) s y : system_of_root ep s = Some y ->
  wp m (fun a y' => Q a (with_system y' s)) y -> wp (on_system ep m) Q s.
Proof.
  intros Hy (a & y' & Hm & HQ). unfold on_system. do 3 wp_step. eapply wp_deref; [exact Hy|].
  wp_step. apply wp_peek. wp_step. eapply wp_eq; [exact Hm|]. wp_steps. exact HQ.
Qed.

(** Constants under which the first process fits; [n]: blocks in the table. *)
Record spawn_config (rx tx n : nat) : Prop := {
  sc_sizes : spawn_sizes rx tx n;
  sc_processes : 0 < SEL4OSAPI_USER_PROCESS_MAX;
  sc_objects : (63 <= root_reserve * blocks_worth)%nat
}.

(** Address space and CSpace of the root task have room for one more process. *)
Definition spawn_room (rx tx : nat) k : Prop :=
  2 + buf_pages <= pages_left k /\ (create_slots rx tx <= slots_left (root_of k))%nat.

Lemma room_for_two rx tx k : 0 <= buf_pages -> (8 <= objects_left (objects_of k))%nat -> 2 * (2 + buf_pages) <= pages_left k ->
  (2 * create_slots rx tx <= slots_left (root_of k))%nat -> room_for rx tx 2 k /\ spawn_room rx tx k.
Proof. intros H1 H2 H3 H4. split; split; lia. Qed.

(** Every block is free: the first process gets the first ones. *)
Lemma first_share pid n : give pid (claimed (replicate n 0)) (replicate n 0) =
  replicate (Nat.min blocks_needed n) pid ++ replicate (n - Nat.min blocks_needed n) 0.
Proof. rewrite (claimed_prefix [] n) by done. apply (give_prefix pid []). lia. Qed.

(** What src/process.c needs of the root task: its pools and its blocks, at most [limit]
    of them, all free. *)
Record children_ready (limit : nat) s : Prop := {
  cr_pools : exists pr ip se, rs_processes s = Some pr /\ rs_ipc_clients s = Some ip /\ sv_clients (rs_serial s) = Some se /\
    fresh_pool SEL4OSAPI_USER_PROCESS_MAX pr /\ fresh_pool SEL4OSAPI_USER_PROCESS_MAX ip /\ fresh_pool SEL4OSAPI_USER_PROCESS_MAX se;
  cr_blocks : exists blocks n, blocks_free (rs_table s) blocks n (rkern s) /\ (n <= limit)%nat;
  cr_inv : objects_inv (rkern s)
}.

Lemma root_up_ready m s0 e ts s : root_up m s0 e ts s -> children_ready (length (user_untypeds (rs_table s0))) s.
Proof.
  intros U. split; [exact (up_pools _ _ _ _ _ U)| |apply (up_room _ _ _ _ _ U)].
  destruct (up_blocks _ _ _ _ _ U) as (blocks & n & Hb & _ & Hn). by exists blocks, n.
Qed.

(** Threads and kernel objects may be made before. *)
Lemma children_ready_later limit c p k s : children_ready limit s -> safe c (rkern s) k -> children_ready limit (set_rthreads p k s).
Proof.
  intros [H1 (blocks & n & Hb & Hn) _] T. split; [exact H1| |exact (kp_inv _ _ _ T)].
  exists blocks, n. split; [by eapply blocks_free_kept|done].
Qed.

Lemma children_start limit s ep : children_ready limit s ->
  exists y free blocks n, system_of_root ep s = Some y /\ sy_sysclock_ep y = sc_server_ep_obj (rs_sysclock s) /\ sy_stack_op_ep y = ep /\
    kern y = rkern s /\ length free = Z.to_nat SEL4OSAPI_USER_PROCESS_MAX /\ (0 < n <= limit)%nat /\
    no_children y free (mapped (rkern s)) blocks (replicate n 0).
Proof.
  intros [(pr & ip & se & Epr & Eip & Ese & (fp & Lp & Hp) & (fi & Li & Hi) & (fs & Ls & Hs)) (blocks & n & (Hbl & Htab & _ & _) & Hn) Hinv].
  eexists _, fp, blocks, n. unfold system_of_root. rewrite Epr, Eip, Ese. split; [reflexivity|].
  pose proof Htab as (_ & Hpos & _). rewrite length_replicate in Hpos. do 4 (split; [done|]). split; [lia|].
  split; try done; [by exists fi; split; [lia|]|by exists fs; split; [lia|]|by apply Forall_replicate].
Qed.

Lemma root_up_spawn m s0 e ts s rx tx ep : root_up m s0 e ts s -> spawn_config rx tx (length (user_untypeds (rs_table s0))) ->
  spawn_room rx tx (rkern s) -> exists y x free xi ifree xs sfree blocks n,
    system_of_root ep s = Some y /\ (0 < n)%nat /\
    create_ready y x free [] [] xi ifree [] [] xs sfree [] [] blocks (replicate n 0) rx tx.
Proof.
  intros U [Hsz Hproc Hobj] [Hpg Hsl].
  destruct (children_start _ s ep (root_up_ready _ _ _ _ _ U)) as (y & fp & blocks & n & Hy & _ & _ & Hk & Lp & Hn & [Rp (fi & Li & Hi) (fs & Ls & Hs) Ht _ _ Hinv]).
  destruct (up_room _ _ _ _ _ U) as [_ Hroom].
  destruct fp as [|x fp]; [cbn in Lp; lia|]. destruct fi as [|xi fi]; [done|]. destruct fs as [|xs fs]; [done|].
  exists y, x, fp, xi, fi, xs, fs, blocks, n. split; [done|]. split; [lia|]. pose proof (room_objects _ Hinv) as Hro. rewrite Hk in *.
  unfold rkern in *. split; rewrite ?Hk; try done; [|lia].
  rewrite length_replicate. eapply spawn_sizes_le; [exact Hsz|lia].
Qed.

(** From the start to the first process.  After [sel4osapi_system_initialize],
    if the address space and the CSpace of the root task have room for it,
    [sel4osapi_process_create] succeeds: the process has pid 1, an IPC client of
    its own and a true environment, in which the clock's endpoint is the one its
    server thread was started for; it owns the first blocks of the table, as
    many as a process needs, and the others are still free; clock and threads of
    the root task are left as they are. *)
Theorem root_creates_process name priority m s rx tx : root_ready m s -> spawn_config rx tx (length (user_untypeds (rs_table s))) ->
  wp (sel4osapi_system_initialize true m) (fun r s1 => r = 0 /\ forall ep, spawn_room rx tx (rkern s1) ->
    wp (on_system ep (sel4osapi_process_create name priority)) (fun p s2 => exists y x free xi ifree v c ser blocks n,
      p = Some x.2 /\ system_of_root ep s2 = Some y /\
      holds (sy_processes y) free [x] [v] /\ holds (ipc_clients (sy_ipc y)) ifree [xi] [c] /\ ic_id c = 1 /\ pr_ipcclient v = Some xi.2 /\
      env_made 1 name priority (given_caps (pr_native v)) c ser (sc_server_ep_obj (rs_sysclock s1)) ep (pr_parent_idling_aep v) rx
        (pr_env v) (root_of (rkern s2)) (np_spaces (pr_native v)) /\
      (0 < n)%nat /\ table_rep (rs_table s2) blocks (replicate (Nat.min blocks_needed n) 1 ++ replicate (n - blocks_needed) 0) /\
      rs_sysclock s2 = rs_sysclock s1 /\ ta_threads (rs_task s2) = ta_threads (rs_task s1)) s1) s.
Proof.
  intros Hm C. eapply wp_mono; [by apply wp_system_initialize|]. intros r s1 (-> & e & ts & U). split; [done|]. intros ep Hroom.
  destruct (root_up_spawn _ _ _ _ _ _ _ ep U C Hroom) as (y & x & free & xi & ifree & xs & sfree & blocks & n & Hy & Hn & Hready).
  eapply wp_on_system; [exact Hy|]. eapply wp_mono; [exact (wp_process_create name priority y _ _ _ _ _ _ _ _ _ _ _ _ _ _ _ _ Hready)|].
  intros p y' (-> & v & c & ser & Hp & Hi & Hic & _ & _ & [_ _ _ Hid Hmade Htab _ _ _]). cbn in Hp, Hi, Hid, Hmade, Htab.
  rewrite first_share in Htab.
  unfold system_of_root in Hy. destruct (rs_processes s1), (rs_ipc_clients s1), (sv_clients (rs_serial s1)); try done. injection Hy as <-.
  exists (SystemState (sy_processes y') (sy_table y') (sy_ipc y') (sy_serial_clients y') (sv_server_ep (rs_serial s1)) (sc_server_ep_obj (rs_sysclock s1)) ep).
  exists x, free, xi, ifree, v, c, ser, blocks, n. replace (n - blocks_needed)%nat with (n - Nat.min blocks_needed n)%nat by lia.
  split; [done|]. split; [by destruct y' as [? ? [] ? ? ? ?]|]. by split_and!.
Qed.

(** What a list of requests to create processes makes of a root task that has none:
    [ptrs] are the results. *)
Definition children_made rx (specs : list (string * Z)) ep s1 (ptrs : list ptr) s2 : Prop :=
  let max := Z.to_nat SEL4OSAPI_USER_PROCESS_MAX in exists y chs free blocks,
    ch_spec <$> chs = take max specs /\ (exists n, (0 < n)%nat /\ ch_blocks <$> chs = fair_shares n (length chs)) /\
    ptrs = ((fun ch => Some (ch_entry ch).2) <$> chs) ++ replicate (length specs - max) NULL /\ NoDup (ch_entry <$> chs).*2 /\
    system_of_root ep s2 = Some y /\ holds (sy_processes y) free (ch_entry <$> chs) (ch_process <$> chs) /\
    isolated rx (mapped (rkern s1)) blocks chs y /\
    sy_sysclock_ep y = sc_server_ep_obj (rs_sysclock s1) /\ sy_stack_op_ep y = ep /\
    rs_sysclock s2 = rs_sysclock s1 /\ ta_threads (rs_task s2) = ta_threads (rs_task s1).

Lemma wp_root_children rx tx limit specs ep s1 : children_ready limit s1 -> spawn_config rx tx limit -> SEL4OSAPI_USER_PROCESS_MAX < 256 ->
  room_for rx tx (Nat.min (length specs) (Z.to_nat SEL4OSAPI_USER_PROCESS_MAX)) (rkern s1) ->
  wp (on_system ep (create_processes specs)) (children_made rx specs ep s1) s1.
Proof.
  intros Hr [Hsz Hproc Hobj] Hmax Hroom. destruct (children_start limit s1 ep Hr) as (y & free & blocks & n & Hy & Hep & Hst & Hk & Hl & Hn & Hno).
  eapply wp_on_system; [exact Hy|]. eapply wp_mono.
  { eapply (wp_processes rx tx free (mapped (rkern s1)) blocks (replicate n 0) specs y Hno); [|lia|by rewrite Hl, Hk].
    rewrite length_replicate. eapply spawn_sizes_le; [exact Hsz|lia]. }
  intros ptrs y' (chs & free' & Hspec & Hblk & -> & Hnd & Hp & [= E1 E2 E3] & His). rewrite Hl in *.
  exists y', chs, free', blocks. split_and!; try done; [exists n; split; [lia|]; rewrite Hblk; by apply (shares_prefix 1 [])| |by rewrite ?E1|by rewrite ?E1, ?E2, ?E3].
  unfold system_of_root in *. destruct (rs_processes s1), (rs_ipc_clients s1), (sv_clients (rs_serial s1)); try done. injection Hy as <-.
  cbn in *. rewrite <- E1, <- E2, <- E3. by destruct y' as [? ? [] ? ? ? ?].
Qed.

(** The whole way from power-on to several processes.  After
    [sel4osapi_system_initialize] in the root task, with room in its address space
    and CSpace, any list of requests to create processes is served: as many as
    SEL4OSAPI_USER_PROCESS_MAX exist then, [isolated] from each other and from
    what the root task has mapped, in the order of the requests, each with the next
    blocks of untyped memory (of a number [n] of them), and the other requests return NULL.  The clock's endpoint in all their environments is the
    one its server thread was started for; the clock and the threads of the root task are
    left as they are. *)
Theorem root_creates_processes specs m s rx tx : root_ready m s -> spawn_config rx tx (length (user_untypeds (rs_table s))) ->
  SEL4OSAPI_USER_PROCESS_MAX < 256 ->
  wp (sel4osapi_system_initialize true m) (fun r s1 => r = 0 /\ forall ep,
    room_for rx tx (Nat.min (length specs) (Z.to_nat SEL4OSAPI_USER_PROCESS_MAX)) (rkern s1) ->
    wp (on_system ep (create_processes specs)) (children_made rx specs ep s1) s1) s.
Proof.
  intros Hm C Hmax. eapply wp_mono; [by apply wp_system_initialize|]. intros r s1 (-> & e & ts & U). split; [done|].
  intros ep Hroom. eapply wp_root_children; [by eapply root_up_ready|exact C|exact Hmax|exact Hroom].
Qed.
End root_spawn_spec.

(** ** A root task to run examples on: the machine of [RootBoot], with the address
    space and capabilities of the board of [Spawn], and lwIP and the interrupts as
    [Network] sees them *)

Record root_demo := RootDemo { rd_machine : demo_machine; rd_board : board; rd_stack : stack_view }.

Lemma machine_inv (k : demo_machine) : objects_inv k.
Proof. exact I. Qed.

(** Calls that concern one of the two; the start makes the second anew. *)
Definition on_machine {A} (f : demo_machine -> A * demo_machine) (k : root_demo) : A * root_demo :=
  ((f (rd_machine k)).1, RootDemo (f (rd_machine k)).2 (rd_board k) (rd_stack k)).
Definition do_machine (f : demo_machine -> demo_machine) (k : root_demo) : root_demo := RootDemo (f (rd_machine k)) (rd_board k) (rd_stack k).
Definition on_board {A} (f : board -> A * board) (k : root_demo) : A * root_demo :=
  ((f (rd_board k)).1, RootDemo (rd_machine k) (f (rd_board k)).2 (rd_stack k)).
Definition set_machine (m : demo_machine) (k : root_demo) : root_demo := RootDemo m (rd_board k) (rd_stack k).

#[export] Instance rd_objects : SyncObjects root_demo := {|
  mutex_create := zoom rd_machine set_machine mutex_create;
  semaphore_create n := zoom rd_machine set_machine (semaphore_create n)
|}.

(** The slots of interrupts are capabilities. *)
Definition slots_handled (k : root_demo) : Prop := dom (nv_irqs (rd_stack k)) ⊆ mc_caps (rd_machine k).

#[export] Instance rd_objects_ok : SyncObjectsOk root_demo.
Proof.
  refine {| objects_inv k := (board_fits (rd_board k) /\ objects_inv (rd_board k)) /\ slots_handled k; objects_of k := objects_of (rd_machine k) |}.
  - intros k [Hi Hs] _. destruct (mc_new_fresh (rd_machine k)). eexists _, _. split; [reflexivity|]. split; [done|]. eexists. split; [done|].
    split_and!; cbn; try done; lia.
  - intros c k [Hi Hs] _. destruct (mc_new_fresh (rd_machine k)). eexists _, _. split; [reflexivity|]. split; [done|]. eexists. split; [done|].
    split_and!; cbn; try done; lia.
Defined.

Lemma rd_inv_same (k k' : root_demo) : objects_inv k -> rd_board k' = rd_board k -> rd_stack k' = rd_stack k ->
  mc_caps (rd_machine k) ⊆ mc_caps (rd_machine k') -> objects_inv k'.
Proof. intros [Hi Hs] Hb Hst Hc. split; [by rewrite Hb|]. unfold slots_handled. rewrite Hst. by etrans. Qed.

#[export] Instance rd_threads : ThreadEnv root_demo := {|
  vka_alloc_endpoint := on_machine vka_alloc_endpoint;
  vka_alloc_notification := on_machine vka_alloc_notification;
  Thread.vka_free_object c := do_machine (Thread.vka_free_object c);
  CNode_CapData := CNode_CapData (K := demo_machine);
  simple_get_tcb := simple_get_tcb (K := demo_machine);
  sel4utils_configure_thread_config c := on_machine (sel4utils_configure_thread_config c);
  sel4utils_start_thread n := on_machine (sel4utils_start_thread n);
  sel4utils_clean_up_thread n := do_machine (sel4utils_clean_up_thread n);
  api_tcb_set_space t e := on_machine (api_tcb_set_space t e);
  sel4utils_start_fault_handler e := on_machine (sel4utils_start_fault_handler e);
  seL4_TCB_SetPriority t a p := on_machine (seL4_TCB_SetPriority t a p);
  CONFIG_KERNEL_RT := CONFIG_KERNEL_RT (K := demo_machine);
  ZF_LOGF_ABORTS := ZF_LOGF_ABORTS (K := demo_machine);
  vka_alloc_sched_context := on_machine vka_alloc_sched_context;
  api_sched_ctrl_configure c := on_machine (api_sched_ctrl_configure c);
  api_sc_bind c t := on_machine (api_sc_bind c t)
|}.

#[export] Instance rd_threads_ok : ThreadEnvOk root_demo.
Proof.
  refine {| caps_of k := caps_of (rd_machine k); objects k := objects (rd_machine k) |}.
  - intros k. exact (th_endpoint_ok (rd_machine k)).
  - intros k. exact (th_notification_ok (rd_machine k)).
  - intros c k. exact (th_configure_ok c (rd_machine k)).
  - intros n k. exact (th_start_ok n (rd_machine k)).
  - intros t e k. exact (th_set_space_ok t e (rd_machine k)).
  - intros e k. exact (th_handler_ok e (rd_machine k)).
  - intros t a p k. exact (th_priority_ok t a p (rd_machine k)).
  - intros k. exact (th_sc_ok (rd_machine k)).
  - intros c k. exact (th_sched_ok c (rd_machine k)).
  - intros c t k. exact (th_bind_ok c t (rd_machine k)).
Defined.

#[export] Instance rd_task : TaskLib root_demo := {|
  main_thread_addr := main_thread_addr (K := demo_machine);
  sizeof_thread := sizeof_thread (K := demo_machine);
  seL4_GetUserData k := seL4_GetUserData (rd_machine k);
  seL4_SetUserData w := do_machine (seL4_SetUserData w);
  seL4_Wait_idle c := do_machine (seL4_Wait_idle c);
  syslog_warn t := do_machine (syslog_warn t)
|}.

Lemma zoom_machine {A} (m : M demo_machine A) k r k' : zoom rd_machine set_machine m k = Done (r, k') ->
  m (rd_machine k) = Done (r, rd_machine k') /\ rd_board k' = rd_board k /\ rd_stack k' = rd_stack k.
Proof. unfold zoom. case_match; [|done..]. case_match. by intros [= <- <-]. Qed.

Lemma rd_task_op (k k' : root_demo) : task_op k k' -> task_op (rd_machine k) (rd_machine k') /\ rd_board k' = rd_board k /\ rd_stack k' = rd_stack k.
Proof.
  intros [r k1 [Hm Hb]%zoom_machine|n r k1 [Hm Hb]%zoom_machine| |w].
  - split; [by eapply op_mutex|done].
  - split; [by eapply op_semaphore|done].
  - split; [apply op_notification|done].
  - split; [apply op_user_data|done].
Qed.

#[export] Instance rd_task_ok : TaskLibOk root_demo.
Proof.
  refine {| room k := room (rd_machine k) |}; try done.
  - intros k k' [H _]%rd_task_op. exact (op_keeps _ _ H).
  - intros k Hi. split; [|by split]. eapply rd_inv_same; [exact Hi|done|done|apply mc_alloc_grew].
Defined.

#[export] Instance rd_vka : UntypedVka root_demo := {|
  vka_alloc_untyped bits := on_machine (vka_alloc_untyped bits);
  Untyped.vka_free_object o := do_machine (Untyped.vka_free_object o)
|}.

#[export] Instance rd_vka_ok : UntypedVkaOk root_demo.
Proof.
  refine {| vka_view_of k := vka_view_of (rd_machine k) |}.
  - intros k Hk. destruct (alloc_untyped_ok (rd_machine k) Hk) as (c & m & Hm & H). exists c, (set_machine m k).
    split; [|exact H]. unfold vka_alloc_untyped at 1. cbn -[vka_alloc_untyped]. unfold on_machine. by rewrite Hm.
  - intros k. exact (alloc_untyped_none (rd_machine k)).
  - intros o k. exact (free_untyped_ok o (rd_machine k)).
Defined.

Lemma board_fits_pages n (k : board) : 0 < n -> board_fits k -> board_fits (vspace_new_pages n k).2.
Proof.
  intros Hn [Hp Hall]. split; cbn; unfold PAGE_SIZE_4K; [lia|]. constructor; [cbn; unfold PAGE_SIZE_4K; lia|].
  eapply Forall_impl; [exact Hall|]. cbn. intros r Hr. lia.
Qed.

#[export] Instance rd_pages : RootEnv root_demo := {|
  vspace_new_pages n k := if (0 <? n) && (n <=? pages_left (rd_board k)) then on_board (vspace_new_pages n) k else (1, k);
  ROUND_UP_UNSAFE := ROUND_UP_UNSAFE (K := board)
|}.

#[export] Instance rd_pages_ok : RootEnvOk root_demo.
Proof.
  refine {| mapped k := mapped (rd_board k); pages_left k := pages_left (rd_board k) |}.
  - intros k r k' (_ & Hb & _)%zoom_machine. by rewrite Hb.
  - intros n k r k' (_ & Hb & _)%zoom_machine. by rewrite Hb.
  - intros n k Hn. cbn [vspace_new_pages rd_pages]. rewrite (proj2 (Z.ltb_lt _ _)), (proj2 (Z.leb_le _ _)) by (cbn in *; lia). cbn [andb].
    destruct (new_pages_ok n (rd_board k) Hn) as (H1 & H2 & H3 & H4 & H5 & H6). split_and!; try done.
    intros [[Hf Hi] Hs]. split; [|exact Hs]. split; [|by apply H6]. apply board_fits_pages; [lia|done].
  - intros x n. exact (round_up_ok (K := board) x n).
Defined.

#[export] Instance rd_root : RootLib root_demo := {|
  seL4_MaxPrio := seL4_MaxPrio (K := demo_machine);
  platsupport_get_bootinfo k := platsupport_get_bootinfo (rd_machine k);
  simple_default_init_bootinfo i := do_machine (simple_default_init_bootinfo i);
  simple_get_pd k := simple_get_pd (rd_machine k);
  simple_get_cnode k := simple_get_cnode (rd_machine k);
  simple_get_cnode_size_bits k := simple_get_cnode_size_bits (rd_machine k);
  bootstrap_use_current_simple n k := ((bootstrap_use_current_simple n (rd_machine k)).1, RootDemo (bootstrap_use_current_simple n (rd_machine k)).2 board_of_two empty_stack);
  sel4utils_bootstrap_vspace_with_bootinfo_leaky pd i := on_machine (sel4utils_bootstrap_vspace_with_bootinfo_leaky pd i);
  vspace_reserve_range n := on_machine (vspace_reserve_range n);
  bootstrap_configure_virtual_pool a n pd := do_machine (bootstrap_configure_virtual_pool a n pd);
  sel4utils_reserve_range_no_alloc n := on_machine (sel4utils_reserve_range_no_alloc n);
  sel4platsupport_new_io_ops := on_machine sel4platsupport_new_io_ops;
  sel4utils_new_page_dma_alloc := on_machine sel4utils_new_page_dma_alloc;
  sel4platsupport_init_default_timer_ops a := on_machine (sel4platsupport_init_default_timer_ops a);
  root_cspace_alloc := on_machine root_cspace_alloc;
  root_cnode_mint d c b := on_machine (root_cnode_mint d c b);
  platsupport_serial_setup_simple := on_machine platsupport_serial_setup_simple;
  ps_cdev_init d := on_machine (ps_cdev_init d);
  vka_alloc_endpoint_leaky := on_machine vka_alloc_endpoint_leaky;
  PS_SERIAL0 := PS_SERIAL0 (K := demo_machine);
  PS_SERIAL1 := PS_SERIAL1 (K := demo_machine);
  sysclock_addr := sysclock_addr (K := demo_machine);
  serial_addr := serial_addr (K := demo_machine);
  sizeof_process := sizeof_process (K := demo_machine)
|}.

(** A call changes the machine, or only the address space. *)
Lemma rd_root_op (k k' : root_demo) : root_op k k' ->
  root_op (rd_machine k) (rd_machine k') /\ rd_board k' = rd_board k /\ rd_stack k' = rd_stack k \/ exists n, k' = (vspace_new_pages n k).2.
Proof.
  intros Hop. destruct Hop as [k' [Ht Hb]%rd_task_op| | | | | | | | | | | | | |n| | | | | | | |];
    [left; split; [by apply ro_task|done]|..]; try by (left; split; [constructor|]).
  right. by exists n.
Qed.

Lemma rd_pages_keep n (k : root_demo) : objects_inv k ->
  objects_inv (vspace_new_pages n k).2 /\ rd_machine (vspace_new_pages n k).2 = rd_machine k.
Proof.
  cbn [vspace_new_pages rd_pages]. destruct (Z.ltb_spec 0 n) as [Hn|Hn], (Z.leb_spec n (pages_left (rd_board k))) as [Hl|Hl]; try done.
  intros [[Hf Hi] Hs]. split; [|done]. split; [|exact Hs]. split; [by apply board_fits_pages|]. by apply (new_pages_ok n (rd_board k)).
Qed.

#[export] Instance rd_root_ok : RootLibOk root_demo.
Proof.
  refine {| boot_blocks k := boot_blocks (rd_machine k); blocks_worth := blocks_worth (K := demo_machine);
            vmem_left k := vmem_left (rd_machine k); root_vmem := root_vmem (K := demo_machine) |}; try done.
  - intros k k' Hi [(Hop & Hb & Hst)|[n ->]]%rd_root_op.
    + destruct (root_op_keeps (rd_machine k) _ (machine_inv (rd_machine k)) Hop) as [_ H]. split; [|exact H].
      eapply rd_inv_same; [exact Hi|exact Hb|exact Hst|apply H].
    + destruct (rd_pages_keep n k Hi) as [H1 H2]. split; [exact H1|]. cbn -[vspace_new_pages]. rewrite H2. split_and!; try done; lia.
  - intros k k' Hi Hop. assert (H : ut_op (rd_machine k) (rd_machine k') /\ rd_board k' = rd_board k /\ rd_stack k' = rd_stack k)
      by (destruct Hop; split_and!; constructor || done).
    destruct H as (H & Hb & Hst). destruct (ut_op_keeps (rd_machine k) _ (machine_inv (rd_machine k)) H) as [_ H']. split; [|exact H'].
    eapply rd_inv_same; [exact Hi|exact Hb|exact Hst|apply H'].
  - intros k _. exact (blocks_room (rd_machine k) (machine_inv _)).
  - intros n k. destruct (use_current_ok n (rd_machine k)) as (H1 & _ & H3). split; [exact H1|]. split; [|exact H3].
    split; [split; [by split; [|constructor]|by apply empty_board_inv]|]. apply empty_subseteq.
  - intros k [[[Hp _] _] _] _. cbn [vspace_new_pages rd_pages]. case_match; [|done]. cbn. lia.
Defined.

#[export] Instance rd_process_lib : ProcessLib root_demo demo_process := {|
  SEL4UTILS_CNODE_SLOT := SEL4UTILS_CNODE_SLOT (K := board) (P := demo_process);
  CONFIG_SEL4UTILS_CSPACE_SIZE_BITS := CONFIG_SEL4UTILS_CSPACE_SIZE_BITS (K := board) (P := demo_process);
  vspace_get_cap a k := vspace_get_cap (P := demo_process) a (rd_board k);
  vka_cspace_alloc := on_board (vka_cspace_alloc (P := demo_process));
  vka_cnode_copy dest src := on_board (vka_cnode_copy (P := demo_process) dest src);
  vka_new_notification := on_board (vka_new_notification (P := demo_process));
  vspace_map_pages caps s :=
    let r := vspace_map_pages caps (s.1, rd_board s.2) in (r.1, (r.2.1, RootDemo (rd_machine s.2) r.2.2 (rd_stack s.2)))
|}.

#[export] Instance rd_process_lib_ok : ProcessLibOk root_demo demo_process.
Proof.
  refine {| root_of k := root_of (rd_board k); pmap := pmap (K := board); map_cost := map_cost (K := board) (P := demo_process);
            pages_free := pages_free (K := board) |}.
  - exact (cspace_bits_ok (K := board) (P := demo_process)).
  - intros a c k. exact (get_cap_ok a c (rd_board k)).
  - intros k. exact (slot_alloc_ok (rd_board k)).
  - intros dest src o k. exact (cnode_copy_ok dest src o (rd_board k)).
  - intros k. exact (notification_ok (rd_board k)).
  - intros caps p k. exact (map_pages_ok caps p (rd_board k)).
  - exact (mint_frame (K := board) (P := demo_process)).
Defined.

#[export] Instance rd_spawn : SpawnLib root_demo demo_process := {|
  CONFIG_MAX_NUM_BOOTINFO_UNTYPED_CAPS := CONFIG_MAX_NUM_BOOTINFO_UNTYPED_CAPS (K := board) (P := demo_process);
  sel4utils_configure_process_custom name prio := on_board (sel4utils_configure_process_custom name prio);
  sel4utils_spawn_process_v p args := on_board (sel4utils_spawn_process_v p args);
  sel4utils_destroy_process p k := RootDemo (rd_machine k) (sel4utils_destroy_process p (rd_board k)) (rd_stack k);
  vspace_unmap_page a s := let r := vspace_unmap_page a (s.1, rd_board s.2) in (r.1, RootDemo (rd_machine s.2) r.2 (rd_stack s.2))
|}.

Lemma rd_op_untouched n (k k' : root_demo) : process_op (P := demo_process) k n k' -> untouched n k k'.
Proof.
  intros Hop. assert (H : process_op (P := demo_process) (rd_board k) n (rd_board k') /\ rd_machine k' = rd_machine k /\ rd_stack k' = rd_stack k)
    by (destruct Hop; split_and!; constructor || done).
  destruct H as (Hb & Hm & Hst). destruct (board_op_untouched _ _ _ Hb) as [Hi _ Hmap Hpg].
  split; [|cbn; rewrite Hm; lia|exact Hmap|exact Hpg]. intros [[Hf Hinv] Hs]. split; [|unfold slots_handled; by rewrite Hst, Hm]. split; [|by apply Hi].
  destruct Hb as [|dest src| |caps p]; exact Hf.
Qed.

#[export] Instance rd_spawn_ok : SpawnLibOk root_demo demo_process.
Proof.
  refine {| object_cost := 0; page_cost := 0; configure_cost := 0; new_process_slot := 3; new_process_pages := 64 |}.
  - intros n k r k' (_ & Hb & _)%zoom_machine. cbn -[root_of]. unfold root_of at 2. cbn -[root_of]. rewrite Hb. apply extends_refl.
  - intros n k. cbn [vspace_new_pages rd_pages]. case_match; [|rewrite Nat.mul_0_r; apply extends_refl].
    exact (sp_pages_root n (rd_board k)).
  - intros k r i [[_ Hi] _]. exact (sp_mapped_pages (rd_board k) r i Hi).
  - intros name prio k _. split_and!; try done. apply extends_refl.
  - intros k n k'. apply rd_op_untouched.
  - intros a1 a2 c1 c2 o k [[_ Hi] _]. exact (sp_frames a1 a2 c1 c2 o (rd_board k) Hi).
  - intros k [[_ Hi] _]. exact (sp_apart (rd_board k) Hi).
Defined.

Section samples.
#[local] Existing Instance default_config.

Definition sample_spawn_memory : root_memory demo_process :=
  RootMemory (Heap 1 65536 ∅ ∅ ∅, Spawn.blank_process) (rm_threads sample_memory) (rm_schedule sample_memory) (rm_ipc sample_memory)
    (rm_serial sample_memory) (rm_env sample_memory) (rm_root_task_uts sample_memory).

Definition sample_spawn_root : root_system root_demo demo_process :=
  RootSystem (Task false ∅ 0 blank_main NULL NULL None (RootDemo (ta_kern (rs_task sample_root)) sample_board empty_stack)) 0 0 0 0
    empty_table None (Sysclock 0 0 0 None NULL NULL NULL) NULL None (SerialServer None NULL 0 NULL).

Lemma sample_spawn_ready : root_ready sample_spawn_memory sample_spawn_root.
Proof.
  destruct sample_root_ready as [H1 H2 H3 H4 H5 H6 H7 H8 H9 H10 H11]. split; try done; [by destruct H1|].
  apply arena_empty_ok; [done|done|]. apply Z.leb_le. reflexivity.
Qed.

Lemma sample_spawn_config : spawn_config (K := root_demo) (P := demo_process) 4 4 (length (user_untypeds (rs_table sample_spawn_root))).
Proof. split; [split; try done; try (apply Nat.leb_le; reflexivity); lia|done|apply Nat.leb_le; reflexivity]. Qed.

Definition spawn_room_b (o : outcome (Z * root_system root_demo demo_process)) : bool :=
  match o with
  | Done (_, s) => (8 <=? objects_left (objects_of (rkern s)))%nat && (2 * (2 + buf_pages) <=? pages_left (rkern s)) &&
      (2 * create_slots (K := root_demo) (P := demo_process) 4 4 <=? slots_left (root_of (P := demo_process) (rkern s)))%nat
  | _ => false
  end.

Lemma sample_spawn_room : spawn_room_b (sel4osapi_system_initialize true sample_spawn_memory sample_spawn_root) = true.
Proof. by vm_compute. Qed.

(** Room for two. *)
Lemma sample_spawn_room_for s1 : sel4osapi_system_initialize true sample_spawn_memory sample_spawn_root = Done (0, s1) ->
  room_for (P := demo_process) 4 4 2 (rkern s1) /\ spawn_room (P := demo_process) 4 4 (rkern s1).
Proof.
  intros Hrun. pose proof sample_spawn_room as Hr. rewrite Hrun in Hr. apply andb_prop in Hr as [[Ho%Nat.leb_le Hp%Z.leb_le]%andb_prop Hs%Nat.leb_le].
  apply room_for_two; [apply Z.leb_le; reflexivity|exact Ho|exact Hp|exact Hs].
Qed.

Lemma root_creates_process_witness : exists s1,
  sel4osapi_system_initialize true sample_spawn_memory sample_spawn_root = Done (0, s1) /\
  wp (on_system 31 (sel4osapi_process_create "shell"%string 100)) (fun p s2 => exists y x free v,
    p = Some x.2 /\ system_of_root 31 s2 = Some y /\ holds (sy_processes y) free [x] [v] /\ pe_pid (pr_env v) = 1 /\
    rs_sysclock s2 = rs_sysclock s1) s1.
Proof.
  destruct (root_creates_process "shell"%string 100 sample_spawn_memory sample_spawn_root 4 4 sample_spawn_ready sample_spawn_config)
    as (r & s1 & Hrun & -> & H). exists s1. split; [exact Hrun|].
  eapply wp_mono; [apply (H 31)|].
  - by apply sample_spawn_room_for.
  - intros p s2 (y & x & free & xi & ifree & v & c & ser & blocks & n & H1 & H2 & H3 & _ & _ & _ & H4 & _ & _ & H5 & _).
    exists y, x, free, v. split; [exact H1|]. split; [exact H2|]. split; [exact H3|]. split; [apply H4|exact H5].
Defined.

Lemma root_creates_processes_witness : exists s1,
  sel4osapi_system_initialize true sample_spawn_memory sample_spawn_root = Done (0, s1) /\
  wp (on_system 31 (create_processes [("shell", 100); ("logger", 90)]%string)) (fun ptrs s2 => exists y ch1 ch2,
    ptrs = [Some (ch_entry ch1).2; Some (ch_entry ch2).2] /\ system_of_root 31 s2 = Some y /\
    pe_pid (ch_env ch1) = 1 /\ pe_pid (ch_env ch2) = 2 /\ length (buffer_frames 4 (kern y) ch1) = 9%nat /\
    forall f, f ∈ buffer_frames 4 (kern y) ch1 -> f ∈ buffer_frames 4 (kern y) ch2 -> False) s1.
Proof.
  destruct (root_creates_processes [("shell", 100); ("logger", 90)]%string sample_spawn_memory sample_spawn_root 4 4
    sample_spawn_ready sample_spawn_config) as (r & s1 & Hrun & -> & H); [reflexivity|]. exists s1. split; [exact Hrun|].
  eapply wp_mono; [apply (H 31), (sample_spawn_room_for s1 Hrun)|].
  intros ptrs s2 (y & chs & free & blocks & Hspec & _ & -> & _ & Hy & _ & [Hch _ Hfr Hlen _] & _).
  apply (f_equal length) in Hspec. rewrite length_fmap in Hspec. change (length chs = 2%nat) in Hspec.
  destruct chs as [|ch1 [|ch2 [|ch3 chs]]]; try discriminate Hspec. exists y, ch1, ch2. split; [reflexivity|]. split; [exact Hy|].
  split; [apply (co_env _ _ _ _ _ (Hch 0%nat ch1 eq_refl))|]. split; [apply (co_env _ _ _ _ _ (Hch 1%nat ch2 eq_refl))|].
  split; [by apply Forall_cons in Hlen as [Hlen _]|]. intros o H1 H2. cbn in Hfr. apply NoDup_app in Hfr as (_ & Hd & _).
  apply (Hd o H1). rewrite app_nil_r. exact H2.
Defined.
End samples.
