(* ===== verification/RootSystem.v ===== *)
(** * RootSystem: the whole start of the root task

    [RootBoot] starts the root task, [RootUdp] its network, [RootSpawn] its processes.
    Here they follow each other on one state: the UDP server that the network starts
    is the one the processes talk to. *)

From Stdlib Require Import String.
From stdpp Require Import strings.
From S2P Require Import Prelude Config Memory LinkedList Pool PoolSearch Sync Ipc Network UdpStack Untyped Thread Process Spawn System Processes RootBoot RootUdp RootSpawn.

Section root_serves.
Context {CFG : Config} {K P : Type} {OBJ : SyncObjects K} {OOK : SyncObjectsOk K} {THR : ThreadEnv K} {TOK : ThreadEnvOk K}.
Context {TASK : TaskLib K} {TAOK : TaskLibOk K} {UVKA : UntypedVka K} {UVOK : UntypedVkaOk K}.
Context {ROOT : RootEnv K} {ROK : RootEnvOk K} {LIB : RootLib K} {LOK : RootLibOk K}.
Context {NLIB : NetLib K} {NLOK : NetLibOk K} {RNOK : RootNetOk K} {UDP : UdpLib}.
Context {CSP : ProcessCSpace P} {COK : ProcessCSpaceOk P} {PLIB : ProcessLib K P} {PLOK : ProcessLibOk K P}.
Context {SPAWN : SpawnLib K P} {SOK : SpawnLibOk K P}.
Implicit Types (s : net_system K P).

(** A root task that is up is ready for two more threads. *)
Lemma root_up_task m (r0 : root_system K P) e ts r : root_up m r0 e ts r -> 5 <= SEL4OSAPI_MAX_THREADS_PER_PROCESS ->
  exists p x1 x2 free busy owned, task_ready e p (x1 :: x2 :: free) busy ts server_requests owned (rs_task r) /\ length owned = 5%nat /\
    [sc_timer_thread (rs_sysclock r); sc_server_thread (rs_sysclock r); sv_thread (rs_serial r)] = Some <$> busy.*2.
Proof.
  intros U Hmax. destruct (up_threads _ _ _ _ _ U) as (p & free & busy & Hp & Hrep & Hb & Hl).
  destruct (up_mutexes _ _ _ _ _ U) as (g & lg & tm & ic & sv & Ho & _). destruct (up_ids _ _ _ _ _ U) as [Hroot _].
  destruct free as [|x1 [|x2 free]]; [cbn in Hl; lia|cbn in Hl; lia|].
  exists p, x1, x2, free, busy, [sv; ic; tm; lg; g]. split; [|done].
  split; [exact (up_env _ _ _ _ _ U)|exact Hp|by rewrite Hroot|apply (up_room _ _ _ _ _ U)|exact Ho].
Qed.

(** The root task after both: what its start made is there, and the network beside it. *)
Definition root_serves m d s0 s1 s2 : Prop := exists e ts x1 x2 free busy owned,
  root_up m (ns_root s0) e ts (ns_root s1) /\ length owned = 5%nat /\
  [sc_timer_thread (rs_sysclock (ns_root s2)); sc_server_thread (rs_sysclock (ns_root s2)); sv_thread (rs_serial (ns_root s2))] = Some <$> busy.*2 /\
  network_started d e x1 x2 free busy ts server_requests owned s1 s2.

Lemma root_serves_children m d s0 s1 s2 : root_serves m d s0 s1 s2 -> children_ready (length (user_untypeds (rs_table (ns_root s0)))) (ns_root s2).
Proof.
  intros (e & ts & x1 & x2 & free & busy & owned & U & _ & _ & [(x & _ & p & k & ts' & ow & E & T & _) _]). rewrite E.
  eapply children_ready_later; [by eapply root_up_ready|exact T].
Qed.

Lemma wp_root_network m nm name d s0 e ts s1 : root_up m (ns_root s0) e ts (ns_root s1) -> 5 <= SEL4OSAPI_MAX_THREADS_PER_PROCESS ->
  (60 + net_cost <= root_reserve * blocks_worth)%nat -> network_memory_ok nm d (stack_of (nkern s1)) ->
  wp (sel4osapi_system_initialize_network nm (Some name) (Some d)) (fun r s2 => r = 0 /\ root_serves m d s0 s1 s2) s1.
Proof.
  intros U Hmax Hroom Hnm. destruct (root_up_task _ _ _ _ _ U Hmax) as (p & x1 & x2 & free & busy & owned & R & Ho & Hb).
  destruct (up_room _ _ _ _ _ U) as [_ Hr].
  eapply wp_mono; [eapply (network_starts nm name d); [exact R|unfold nkern; lia|exact Hnm]|].
  intros r s2 [-> H]. split; [done|]. exists e, ts, x1, x2, free, busy, owned. split; [exact U|]. split; [exact Ho|]. split; [|exact H].
  destruct (na_iface _ _ _ _ _ _ _ _ _ _ _ H) as (x & _ & p2 & k2 & ts' & ow & E & _). rewrite E. exact Hb.
Qed.

(** C5: From power-on to processes that use the network.  In the root task
    [sel4osapi_system_initialize] and then [sel4osapi_system_initialize_network]
    return 0, and no assertion fails in them: the clock's two threads, the serial
    thread, the interrupt thread and the UDP server are threads 1 to 5, in this
    order; the network is up, and the UDP server has a mutex of its own.  With room for
    them, any list of requests to create processes is served then: as many as
    SEL4OSAPI_USER_PROCESS_MAX exist, [isolated] from each other and from what the
    root task has mapped, and in each environment the endpoints of the clock and
    of the UDP server are those of the servers that were started.  The network and the UDP
    server are left as they are. *)
Theorem root_task_serves specs m nm name d s rx tx : root_ready m (ns_root s) ->
  spawn_config rx tx (length (user_untypeds (rs_table (ns_root s)))) -> SEL4OSAPI_USER_PROCESS_MAX < 256 ->
  5 <= SEL4OSAPI_MAX_THREADS_PER_PROCESS -> (60 + net_cost <= root_reserve * blocks_worth)%nat ->
  wp (on_ns_root (sel4osapi_system_initialize true m)) (fun r s1 => r = 0 /\ (network_memory_ok nm d (stack_of (nkern s1)) ->
    wp (sel4osapi_system_initialize_network nm (Some name) (Some d)) (fun r s2 => r = 0 /\ root_serves m d s s1 s2 /\
      let ep := ud_stack_op_ep (ns_udp s2) in
      (room_for rx tx (Nat.min (length specs) (Z.to_nat SEL4OSAPI_USER_PROCESS_MAX)) (nkern s2) ->
       wp (on_ns_root (on_system ep (create_processes specs))) (fun ptrs s3 =>
         children_made rx specs ep (ns_root s2) ptrs (ns_root s3) /\ s3 = ns_set_root (ns_root s3) s2) s2)) s1)) s.
Proof.
  intros Hm C Hmax Hthr Hroom. apply wp_on_ns_root. eapply wp_mono; [by apply wp_system_initialize|].
  intros r r1 (-> & e & ts & U). split; [done|]. intros Hnm.
  eapply wp_mono; [by eapply (wp_root_network m nm name d s e ts (ns_set_root r1 s))|].
  intros r s2 [-> Hs]. split; [done|]. split; [exact Hs|]. intros ep Hrf. apply wp_on_ns_root.
  eapply wp_mono; [eapply wp_root_children; [by eapply root_serves_children|exact C|exact Hmax|exact Hrf]|].
  intros ptrs r3 Hc. split; [exact Hc|done].
Qed.
End root_serves.

(** ** The root task of [RootSpawn], with a network *)

Definition set_stack (v : stack_view) (k : root_demo) : root_demo := RootDemo (rd_machine k) (rd_board k) v.

(** A slot that handles an interrupt is a capability. *)
Definition slot_in_use (slot : Z) (k : root_demo) : root_demo :=
  set_machine (mc_put_cap slot (rd_machine k)) k.

#[export] Instance rd_net : NetLib root_demo := {|
  simple_get_IRQ_handler irq slot k := lift_stack rd_stack set_stack (simple_get_IRQ_handler irq slot) (slot_in_use slot k);
  seL4_IRQHandler_SetNotification slot n := lift_stack rd_stack set_stack (seL4_IRQHandler_SetNotification slot n);
  lwip_init k := set_stack (lwip_init (rd_stack k)) k;
  netif_add p a m g d f := lift_stack rd_stack set_stack (netif_add p a m g d f);
  netif_set_up p k := set_stack (netif_set_up p (rd_stack k)) k;
  netif_set_default p k := set_stack (netif_set_default p (rd_stack k)) k;
  ipaddr_aton := ipaddr_aton (K := stack_view)
|}.

#[export] Instance rd_net_ok : NetLibOk root_demo.
Proof.
  refine {| stack_of := rd_stack |}.
  - intros irq slot k. exact (nl_handler_ok irq slot (rd_stack k)).
  - intros slot n k. exact (nl_bind_ok slot n (rd_stack k)).
  - intros k. exact (nl_init_ok (rd_stack k)).
  - intros l a m g d f k. exact (nl_add_ok l a m g d f (rd_stack k)).
  - intros l a m g u k. exact (nl_up_ok l a m g u (rd_stack k)).
  - intros l k. exact (nl_default_ok l (rd_stack k)).
Defined.

Lemma rd_net_op (k k' : root_demo) : objects_inv k -> net_op k k' ->
  objects_inv k' /\ rd_board k' = rd_board k /\ mc_grew (rd_machine k) (rd_machine k').
Proof.
  intros [Hi Hs] Hop. unfold slots_handled in Hs. destruct Hop as [irq slot| | | | |]; (split; [split; [exact Hi|]|split; [done|]]);
    try exact Hs; try by split_and!.
  - unfold slots_handled. cbn. set_solver.
  - split_and!; cbn; try done. set_solver.
Qed.

#[export] Instance rd_root_net : RootNetOk root_demo.
Proof.
  split.
  - intros k k' Hi Hop. destruct (rd_net_op k k' Hi Hop) as (H1 & _ & Hm & Hc & Hcaps & Hb & Hl).
    split; [exact H1|by split|exact Hcaps|cbn; rewrite Hb; lia|cbn; by rewrite Hl|cbn; rewrite Hb; lia].
  - intros k k' [(_ & _ & H)|[n ->]]%rd_root_op; [exact H|]. cbn [vspace_new_pages rd_pages]. by case_match.
  - intros k [_ Hs] _. apply not_elem_of_dom. intros H%Hs. exact (is_fresh (mc_caps (rd_machine k)) H).
Qed.

#[export] Instance demo_udp : UdpLib := {| SEL4OSAPI_UDP_MAX_SOCKETS := 4; sizeof_socket_server := 64; udp_addr := 16896 |}.

Section samples.
#[local] Existing Instance default_config.

Definition sample_network_memory : network_memory :=
  NetworkMemory (Heap 1 4096 ∅ ∅ ∅, zero_iface) (Heap 1 4096 ∅ ∅ ∅, zero_vface)
    (Heap 1 65536 ∅ ∅ ∅, UdpSocketServer NULL (UdpSocket 0 0 0 0 0 0) 0 NULL 0 0 NULL None).

Definition sample_system : net_system root_demo demo_process :=
  NetSystem (NetState NULL no_pool sample_spawn_root) (UdpServer NULL None 0 NULL).

Definition sample_boot : M (net_system root_demo demo_process) Z := on_ns_root (sel4osapi_system_initialize true sample_spawn_memory).
Definition sample_network : M (net_system root_demo demo_process) Z :=
  sel4osapi_system_initialize_network sample_network_memory (Some "eth0"%string) (Some sample_driver).

Definition after {A} (o : outcome (A * net_system root_demo demo_process)) (f : net_system root_demo demo_process -> bool) : bool :=
  match o with Done (_, s) => f s | _ => false end.

Lemma after_done {A} (m : M (net_system root_demo demo_process) A) f s a s' : after (m s) f = true -> m s = Done (a, s') -> f s' = true.
Proof. intros H Hm. by rewrite Hm in H. Qed.

Lemma after_both {A B} (m1 : M (net_system root_demo demo_process) A) (m2 : M (net_system root_demo demo_process) B) f s a s1 b s2 :
  after ((m1 ;; m2) s) f = true -> m1 s = Done (a, s1) -> m2 s1 = Done (b, s2) -> f s2 = true.
Proof. intros H H1 H2. eapply after_done; [exact H|]. by rewrite (bind_done _ _ _ _ _ H1). Qed.

Lemma sample_no_interrupts : after (sample_boot sample_system) (fun s => bool_decide (nv_irqs (stack_of (nkern s)) = ∅)) = true.
Proof. by vm_compute. Qed.

Lemma sample_serves_room : after ((sample_boot ;; sample_network) sample_system) (fun s =>
  (8 <=? objects_left (objects_of (nkern s)))%nat && (2 * (2 + buf_pages) <=? pages_left (nkern s)) &&
  (2 * create_slots (K := root_demo) (P := demo_process) 4 4 <=? slots_left (root_of (P := demo_process) (nkern s)))%nat) = true.
Proof. by vm_compute. Qed.

Lemma sample_network_memory_ok s1 : sample_boot sample_system = Done (0, s1) -> network_memory_ok sample_network_memory sample_driver (stack_of (nkern s1)).
Proof.
  intros Hrun. pose proof (after_done _ _ _ _ _ sample_no_interrupts Hrun) as H. apply bool_decide_eq_true in H.
  destruct sample_network_ready as [H1 H2 H3 _]. split; [split; [exact H1|exact H2|exact H3|by rewrite H]|].
  eapply (arena_empty_ok (E := sel4osapi_udp_socket_server_t)); [done|done|]. apply Z.leb_le. reflexivity.
Qed.

Lemma sample_serves_two s1 s2 : sample_boot sample_system = Done (0, s1) -> sample_network s1 = Done (0, s2) ->
  room_for (P := demo_process) 4 4 2 (nkern s2).
Proof.
  intros Hrun1 Hrun2. pose proof (after_both _ _ _ _ _ _ _ _ sample_serves_room Hrun1 Hrun2) as H. cbv beta in H.
  apply andb_prop in H as [[Ho%Nat.leb_le Hp%Z.leb_le]%andb_prop Hs%Nat.leb_le].
  apply room_for_two; [apply Z.leb_le; reflexivity|exact Ho|exact Hp|exact Hs].
Qed.

(** The capability in the environment of the first process is that of the UDP server. *)
Lemma root_task_serves_witness : exists s1 s2,
  sample_boot sample_system = Done (0, s1) /\ sample_network s1 = Done (0, s2) /\
  root_serves sample_spawn_memory sample_driver sample_system s1 s2 /\
  wp (on_ns_root (on_system (ud_stack_op_ep (ns_udp s2)) (create_processes [("shell", 100); ("logger", 90)]%string))) (fun ptrs s3 =>
    exists ch1 ch2 : child demo_process, ptrs = [Some (ch_entry ch1).2; Some (ch_entry ch2).2] /\
      cap_at (np_spaces (ch_native ch1)) (pe_stack_op_ep (ch_env ch1)) = Some (ud_stack_op_ep (ns_udp s3), 1)) s2.
Proof.
  destruct (root_task_serves [("shell", 100); ("logger", 90)]%string sample_spawn_memory sample_network_memory "eth0"%string sample_driver
    sample_system 4 4 sample_spawn_ready sample_spawn_config) as (r & s1 & Hrun1 & -> & H); [reflexivity|done|apply Nat.leb_le; reflexivity|].
  destruct (H (sample_network_memory_ok s1 Hrun1)) as (r & s2 & Hrun2 & -> & Hs & H2). exists s1, s2.
  split; [exact Hrun1|]. split; [exact Hrun2|]. split; [exact Hs|].
  eapply wp_mono; [apply H2, (sample_serves_two s1 s2 Hrun1 Hrun2)|].
  intros ptrs s3 [(y & chs & free & blocks & Hspec & _ & -> & _ & Hy & _ & [Hch _ _ _ _] & _ & Hst & _) ->].
  apply (f_equal length) in Hspec. rewrite length_fmap in Hspec. change (length chs = 2%nat) in Hspec.
  destruct chs as [|ch1 [|ch2 [|ch3 chs]]]; try discriminate Hspec. exists ch1, ch2. split; [reflexivity|].
  pose proof (em_caps _ _ _ _ _ _ _ _ _ _ _ _ _ (co_env _ _ _ _ _ (Hch 0%nat ch1 eq_refl))) as Hc.
  apply (Forall_lookup_1 _ _ 4%nat _) with (2 := eq_refl) in Hc. cbn [fst snd] in Hc. rewrite Hst in Hc. exact Hc.
Defined.
End samples.
