(* ===== verification/Log.v ===== *)
(** * Log: the syslog of a task (src/log.c, log.h)

    A message is formatted into a static buffer of 4096 bytes, under the mutex of
    the log once that exists, and then written to the serial console of the task
    or with [puts].  The console is the client side of [Serial], the mutex that of
    [Sync]; [msg] is the text [vsnprintf] makes of the message and its arguments.

    snprintf returns the length of the whole text, also when it is cut. *)

From Stdlib Require Import String.
From stdpp Require Import strings pretty.
From S2P Require Import Prelude Config Memory LinkedList Pool PoolSearch Sync Thread Spawn Serial.

Definition SEL4OSAPI_MONITOR_THREAD_NAME_PREFIX : string := "syslog::".
Definition SYSLOG_BUFFER_MAX_SIZE : Z := 4096.

Inductive sel4osapi_loglevel_t := LOG_LEVEL_ERROR | LOG_LEVEL_WARN | LOG_LEVEL_INFO | LOG_LEVEL_TRACE.
Definition level_num (l : sel4osapi_loglevel_t) : Z :=
  match l with LOG_LEVEL_ERROR => 0 | LOG_LEVEL_WARN => 1 | LOG_LEVEL_INFO => 2 | LOG_LEVEL_TRACE => 3 end.
Definition level_text (l : sel4osapi_loglevel_t) : string :=
  match l with LOG_LEVEL_ERROR => "ERROR" | LOG_LEVEL_WARN => "WARN" | LOG_LEVEL_INFO => "INFO" | LOG_LEVEL_TRACE => "TRACE" end.

(** "%5s" and "%03d" *)
Definition pad_left (n : nat) (c : Z) (bs : list Z) : list Z := replicate (n - length bs) c ++ bs.
Definition pad3 (z : Z) : list Z :=
  if z <? 0 then bytes_of "-" ++ pad_left 2 48 (bytes_of (pretty (- z))) else pad_left 3 48 (bytes_of (pretty z)).

(** The end of a path of more than 30 characters. *)
Definition file_text (file : list Z) : list Z :=
  if 30 <? Z.of_nat (length file) then drop (length file - 30) file else file.

(** Where a message comes from: __FILE__, __FUNCTION__, __LINE__. *)
Record log_place := LogPlace { lp_file : list Z; lp_function : list Z; lp_line : Z }.

Definition place_text (level : sel4osapi_loglevel_t) (p : log_place) : list Z :=
  bytes_of "[" ++ file_text (lp_file p) ++ bytes_of ":" ++ bytes_of (pretty (lp_line p)) ++ bytes_of "][" ++
  lp_function p ++ bytes_of "][" ++ pad_left 5 32 (bytes_of (level_text level)) ++ bytes_of "] ".

(** [me]: the current thread *)
Definition header_text (locked : bool) (me : sel4osapi_thread_info_t) (level : sel4osapi_loglevel_t) (p : log_place) : list Z :=
  (if locked then bytes_of "[" ++ c_string (ti_name me) ++ bytes_of "][" ++ pad3 (ti_priority me) ++ bytes_of "]"
   else bytes_of "[N/A][0]") ++ place_text level p.

(** snprintf(buffer + off, size, ...): the buffer afterwards and the length. *)
Definition snprintf_at (off size : Z) (text buffer : list Z) : option (list Z) :=
  if size =? 0 then Some buffer
  else
    let bs := take (Z.to_nat (size - 1)) text ++ [0] in
    if (Z.to_nat off + length bs <=? length buffer)%nat then Some (splice buffer (Z.to_nat off) bs) else None.

Section log_c.
Context {CFG : Config} {D K : Type} {SENV : SerialEnv D} {SYNC : SyncLib K}.

(** The variables of log.c, the console's client, and what [puts] wrote. *)
Record log_state := LogState {
  lg_level : sel4osapi_loglevel_t;
  lg_mutex : ptr;
  lg_console : Z;
  lg_buffer : list Z;
  lg_sync : sync_state K;
  lg_serial : serial_state D;
  lg_out : list (list Z)
}.

Definition lg_set_level l (s : log_state) := LogState l (lg_mutex s) (lg_console s) (lg_buffer s) (lg_sync s) (lg_serial s) (lg_out s).
Definition lg_set_console c (s : log_state) := LogState (lg_level s) (lg_mutex s) c (lg_buffer s) (lg_sync s) (lg_serial s) (lg_out s).
Definition lg_set_buffer b (s : log_state) := LogState (lg_level s) (lg_mutex s) (lg_console s) b (lg_sync s) (lg_serial s) (lg_out s).
Definition lg_set_sync k (s : log_state) := LogState (lg_level s) (lg_mutex s) (lg_console s) (lg_buffer s) k (lg_serial s) (lg_out s).
Definition lg_set_serial r (s : log_state) := LogState (lg_level s) (lg_mutex s) (lg_console s) (lg_buffer s) (lg_sync s) r (lg_out s).
Definition lg_put line (s : log_state) :=
  LogState (lg_level s) (lg_mutex s) (lg_console s) (lg_buffer s) (lg_sync s) (lg_serial s) (lg_out s ++ [line]).

Definition on_lg_sync {A} (m : M (sync_state K) A) : M log_state A := zoom lg_sync lg_set_sync m.
Definition on_lg_serial {A} (m : M (serial_state D) A) : M log_state A := zoom lg_serial lg_set_serial m.

Definition sel4osapi_log_set_level (level : Z) : M log_state unit :=
  assert_ ((0 <=? level) && (level <=? 3)) ;;
  modify (lg_set_level (if level =? 0 then LOG_LEVEL_ERROR else if level =? 1 then LOG_LEVEL_WARN
                        else if level =? 2 then LOG_LEVEL_INFO else LOG_LEVEL_TRACE)).

Definition sel4osapi_log_lock : M log_state unit :=
  let! s := get in
  if non_null (lg_mutex s) then
    let! error := on_lg_sync (sel4osapi_mutex_lock (lg_mutex s)) in
    assert_ (error =? 0)
  else ret tt.

Definition sel4osapi_log_unlock : M log_state unit :=
  let! s := get in
  if non_null (lg_mutex s) then
    let! _ := on_lg_sync (sel4osapi_mutex_unlock (lg_mutex s)) in ret tt
  else ret tt.

(** [fuel]: as in [Serial]; [client]: the serial client of the task *)
Definition syslog_outMessage (fuel : nat) (client : ptr) (len : Z) : M log_state unit :=
  let! s := get in
  if negb (lg_console s =? 0) then
    let! _ := on_lg_serial (sel4osapi_io_serial_write fuel client (lg_console s) (lg_buffer s) len) in
    let! _ := on_lg_serial (sel4osapi_io_serial_write fuel client (lg_console s) [10; 0] 1) in
    ret tt
  else modify (lg_put (c_string (lg_buffer s))).

Definition format_at (off size : Z) (text : list Z) : M log_state Z :=
  let! s := get in
  let! b := deref (snprintf_at off size text (lg_buffer s)) in
  modify (lg_set_buffer b) ;;
  ret (u32 (Z.of_nat (length text))).

Definition syslog_logMessage (fuel : nat) (client : ptr) (me : sel4osapi_thread_info_t) (level : sel4osapi_loglevel_t)
    (place : log_place) (msg : list Z) : M log_state unit :=
  let! s := get in
  if level_num level <=? level_num (lg_level s) then
    (if non_null (lg_mutex s) then sel4osapi_log_lock else ret tt) ;;
    let! len := format_at 0 SYSLOG_BUFFER_MAX_SIZE (header_text (non_null (lg_mutex s)) me level place) in
    let! n := format_at len (u32 (SYSLOG_BUFFER_MAX_SIZE - len)) msg in
    syslog_outMessage fuel client (u32 (len + n)) ;;
    (if non_null (lg_mutex s) then sel4osapi_log_unlock else ret tt)
  else ret tt.

(** Inline in log.h, which [file] is the path of; the lines are those of its
    messages. *)
Definition sel4osapi_log_set_console (fuel : nat) (client : ptr) (me : sel4osapi_thread_info_t) (file : list Z) (logConsole : Z) : M log_state unit :=
  let syslog_info (line : Z) (msg : string) :=
    syslog_logMessage fuel client me LOG_LEVEL_INFO (LogPlace file (bytes_of "sel4osapi_log_set_console") line) (bytes_of msg) in
  syslog_info 166 "================================" ;;
  syslog_info 167 "Switching logging console..." ;;
  syslog_info 168 "================================" ;;
  modify (lg_set_console logConsole) ;;
  syslog_info 170 "Logging continue on secondary console...".
End log_c.
Arguments log_state D K : clear implicits.

(** ** Monitoring a thread *)

Section monitor.
Context {CFG : Config} {F K : Type} {ENV : ThreadEnv K}.

(** [routine]: [sel4osapi_syslog_monitoring_thread]; [addr]: the address of the
    thread, its argument.  The name of the thread is in an array of
    SEL4OSAPI_THREAD_NAME_MAX_LEN bytes first. *)
Definition sel4osapi_syslog_monitor_thread (env : process_caps) (routine : F) (thread : ptr) (addr : Z) : M (thread_state F K) Z :=
  let! t := read_thread thread in
  let name := String.substring 0 (Z.to_nat (SEL4OSAPI_THREAD_NAME_MAX_LEN - 1))
    (SEL4OSAPI_MONITOR_THREAD_NAME_PREFIX ++ string_of_bytes (c_string (ti_name (th_info t))))%string in
  let! monitoring := sel4osapi_thread_create env (Some name) routine addr (ti_priority (th_info t)) in
  assert_ (non_null monitoring) ;;
  let! error := sel4osapi_thread_start monitoring in
  assert_ (error =? 0) ;;
  ret 0.

(** The thread that monitors prints before and after each fault it receives.
    [active]: [thread->active] once so many faults were received. *)
Inductive monitor_line := Monitoring (name : list Z) | Fault (name : list Z).
Record monitor_state := MonitorState { mo_faults : nat; mo_output : list monitor_line }.

Definition monitor_print (x : monitor_line) : M monitor_state unit :=
  modify (fun s => MonitorState (mo_faults s) (mo_output s ++ [x])).
Definition seL4_Wait_fault : M monitor_state unit := modify (fun s => MonitorState (S (mo_faults s)) (mo_output s)).

Definition monitoring_body (active : nat -> bool) (name : list Z) (_ : bool) : M monitor_state bool :=
  monitor_print (Monitoring name) ;;
  seL4_Wait_fault ;;
  monitor_print (Fault name) ;;
  gets (fun s => active (mo_faults s)).

Definition sel4osapi_syslog_monitoring_thread (fuel : nat) (active : nat -> bool) (monitored : sel4osapi_thread_t F) : M monitor_state unit :=
  let! a := gets (fun s => active (mo_faults s)) in
  let! _ := while fuel (fun b : bool => b) (monitoring_body active (c_string (ti_name (th_info monitored)))) a in
  ret tt.

(** It reports each fault until it is stopped, and ends then. *)
Lemma monitoring_reports n fuel active t s : (n <= fuel)%nat ->
  (forall i, (i < n)%nat -> active (mo_faults s + i)%nat = true) -> active (mo_faults s + n)%nat = false ->
  let name := c_string (ti_name (th_info t)) in
  sel4osapi_syslog_monitoring_thread fuel active t s =
    Done (tt, MonitorState (mo_faults s + n) (mo_output s ++ concat (replicate n [Monitoring name; Fault name]))).
Proof.
  intros Hle Hon Hoff name. unfold sel4osapi_syslog_monitoring_thread, bind at 1, gets. fold name.
  assert (H : while fuel (fun b : bool => b) (monitoring_body active name) (active (mo_faults s)) s =
    Done (false, MonitorState (mo_faults s + n) (mo_output s ++ concat (replicate n [Monitoring name; Fault name])))).
  { revert fuel s Hle Hon Hoff. induction n as [|n IH]; intros fuel s Hle Hon Hoff.
    - rewrite Nat.add_0_r in *. rewrite Hoff, app_nil_r. destruct s. by destruct fuel.
    - destruct fuel as [|fuel]; [lia|]. pose proof (Hon 0%nat ltac:(lia)) as H0. rewrite Nat.add_0_r in H0. rewrite H0. cbn.
      etrans; [apply (IH fuel (MonitorState (S (mo_faults s)) ((mo_output s ++ [Monitoring name]) ++ [Fault name])))|]; cbn; [lia| | |].
      + intros i Hi. replace (S (mo_faults s + i)) with (mo_faults s + S i)%nat by lia. apply Hon. lia.
      + by replace (S (mo_faults s + n)) with (mo_faults s + S n)%nat by lia.
      + f_equal. f_equal. f_equal; [lia|]. by rewrite <- !app_assoc. }
  unfold bind. by rewrite H.
Qed.
End monitor.

Section log_spec.
Context {CFG : Config} {D K : Type} {SENV : SerialEnv D} {SYNC : SyncLib K}.
Implicit Types (s : log_state D K) (bs text h m buf : list Z) (cs : list sel4osapi_serialclient_t).

(** *** The buffer *)

Lemma snprintf_at_spec (off : nat) text buf : (off < 4096)%nat -> length buf = 4096%nat ->
  snprintf_at (Z.of_nat off) (4096 - Z.of_nat off) text buf = Some (splice buf off (take (4095 - off) text ++ [0])).
Proof.
  intros Ho Hl. unfold snprintf_at. rewrite (proj2 (Z.eqb_neq _ _)) by lia.
  replace (Z.to_nat (4096 - Z.of_nat off - 1)) with (4095 - off)%nat by lia. rewrite Nat2Z.id, (proj2 (Nat.leb_le _ _)); [done|].
  rewrite length_app, length_take. cbn [length]. lia.
Qed.

(** The second text starts at the end of the first. *)
Lemma splice_after h t buf : (length h < length buf)%nat ->
  take (length h + length t) (splice (splice buf 0 (h ++ [0])) (length h) (t ++ [0])) = h ++ t.
Proof.
  intros Hl. unfold splice at 1. assert (Hh : take (length h) (splice buf 0 (h ++ [0])) = h).
  { unfold splice. rewrite take_0. cbn [app]. by rewrite <- app_assoc, take_app_length. }
  rewrite Hh, <- !app_assoc, app_assoc, <- length_app. apply take_app_length.
Qed.

(** The buffer with a header and what fits of the message. *)
Definition formatted h m buf : list Z := splice (splice buf 0 (h ++ [0])) (length h) (take (4095 - length h) m ++ [0]).

Lemma formatted_length h m buf : (length h < 4096)%nat -> length buf = 4096%nat -> length (formatted h m buf) = 4096%nat.
Proof.
  intros Hh Hb. assert (H1 : length (splice buf 0 (h ++ [0])) = 4096%nat)
    by (rewrite splice_length; [done|rewrite length_app; cbn [length]; lia]).
  unfold formatted. rewrite splice_length; [done|]. rewrite H1, length_app, length_take. cbn [length]. lia.
Qed.

Lemma formatted_take h m buf : (length h + length m < 4096)%nat -> length buf = 4096%nat ->
  take (length h + length m) (formatted h m buf) = h ++ m.
Proof. intros Hl Hb. unfold formatted. rewrite (take_ge m) by lia. apply splice_after. lia. Qed.

Lemma c_string_app bs rest : Forall (fun b => b <> 0) bs -> c_string (bs ++ 0 :: rest) = bs.
Proof. induction 1 as [|b bs Hb _ IH]; [done|]. cbn. rewrite (proj2 (Z.eqb_neq b 0)) by done. by rewrite IH. Qed.

Lemma formatted_string h m buf : (length h < 4096)%nat -> length buf = 4096%nat -> Forall (fun b => b <> 0) (h ++ m) ->
  c_string (formatted h m buf) = take 4095 (h ++ m).
Proof.
  intros Hh Hb Hnz. apply Forall_app in Hnz as [Hz1 Hz2]. unfold formatted, splice at 1.
  assert (Ht : take (length h) (splice buf 0 (h ++ [0])) = h).
  { unfold splice. rewrite take_0. cbn [app]. by rewrite <- app_assoc, take_app_length. }
  rewrite Ht, <- (app_assoc (take _ m)). cbn [app]. rewrite app_assoc, c_string_app.
  - rewrite take_app, (take_ge h) by lia. done.
  - apply Forall_app. split; [done|by apply Forall_take].
Qed.

(** *** The lock *)

(** The log can be locked; [locked], [unlocked]: what libsel4sync has then. *)
Definition lockable s : Prop := match lg_mutex s with
  | Some l => (sync_recursive_mutex_lock (Some l) (sync_kern (lg_sync s))).1 = 0
  | None => True
  end.
Definition locked (l : ptr) (k : sync_state K) : sync_state K :=
  match l with Some _ => SyncState (sync_mem k) (sync_recursive_mutex_lock l (sync_kern k)).2 | None => k end.
Definition unlocked (l : ptr) (k : sync_state K) : sync_state K :=
  match l with Some _ => SyncState (sync_mem k) (sync_recursive_mutex_unlock l (sync_kern k)).2 | None => k end.

Lemma wp_log_lock s (Q : unit -> log_state D K -> Prop) : lockable s -> Q tt (lg_set_sync (locked (lg_mutex s) (lg_sync s)) s) ->
  wp (if non_null (lg_mutex s) then sel4osapi_log_lock else ret tt) Q s.
Proof.
  unfold lockable, locked. intros Hl HQ. destruct (lg_mutex s) as [l|] eqn:Hm.
  - change (non_null (Some l)) with true. cbn iota. unfold sel4osapi_log_lock. wp_step. wp_step. rewrite Hm.
    change (non_null (Some l)) with true. cbn iota. wp_step. apply wp_zoom. eexists _, _. split; [reflexivity|]. by apply wp_assert; [apply Z.eqb_eq|].
  - change (non_null None) with false. cbn iota. wp_step. by destruct s.
Qed.

Lemma wp_log_unlock s (Q : unit -> log_state D K -> Prop) : Q tt (lg_set_sync (unlocked (lg_mutex s) (lg_sync s)) s) ->
  wp (if non_null (lg_mutex s) then sel4osapi_log_unlock else ret tt) Q s.
Proof.
  unfold unlocked. intros HQ. destruct (lg_mutex s) as [l|] eqn:Hm.
  - change (non_null (Some l)) with true. cbn iota. unfold sel4osapi_log_unlock. wp_step. wp_step. rewrite Hm.
    change (non_null (Some l)) with true. cbn iota. wp_step. apply wp_zoom. eexists _, _. split; [reflexivity|]. by wp_step.
  - change (non_null None) with false. cbn iota. wp_step. by destruct s.
Qed.

(** *** Messages *)

Definition enabled level s : Prop := level_num level <= level_num (lg_level s).
Definition header s me level place : list Z := header_text (non_null (lg_mutex s)) me level place.

(** The state when the text of a message is in the buffer. *)
Definition at_output s me level place m : log_state D K :=
  lg_set_buffer (formatted (header s me level place) m (lg_buffer s)) (lg_set_sync (locked (lg_mutex s) (lg_sync s)) s).

Lemma log_message_eq fuel client me level place m s : enabled level s -> lockable s -> length (lg_buffer s) = 4096%nat ->
  (length (header s me level place) < 4096)%nat -> Z.of_nat (length (header s me level place) + length m) < 2 ^ 32 ->
  syslog_logMessage fuel client me level place m s =
    (syslog_outMessage fuel client (Z.of_nat (length (header s me level place) + length m)) ;;
     (if non_null (lg_mutex s) then sel4osapi_log_unlock else ret tt)) (at_output s me level place m).
Proof.
  intros Hen Hlock Hb Hh Hlt. unfold syslog_logMessage. rewrite (bind_done _ _ s s s eq_refl). rewrite (proj2 (Z.leb_le _ _) Hen).
  destruct (wp_log_lock s (fun _ s' => s' = lg_set_sync (locked (lg_mutex s) (lg_sync s)) s) Hlock eq_refl) as ([] & s1 & Hl & ->).
  rewrite (bind_done _ _ _ _ _ Hl). set (h := header s me level place) in *. fold (header s me level place) h.
  set (s1 := lg_set_sync _ s) in *.
  assert (H1 : format_at 0 SYSLOG_BUFFER_MAX_SIZE h s1 = Done (Z.of_nat (length h), lg_set_buffer (splice (lg_buffer s) 0 (h ++ [0])) s1)).
  { unfold format_at. rewrite (bind_done _ _ s1 s1 s1 eq_refl). pose proof (snprintf_at_spec 0 h (lg_buffer s) ltac:(lia) Hb) as Hs.
    rewrite take_ge in Hs by lia. change (Z.of_nat 0) with 0 in Hs. rewrite Z.sub_0_r in Hs.
    change (lg_buffer s1) with (lg_buffer s). unfold SYSLOG_BUFFER_MAX_SIZE. rewrite Hs.
    rewrite (bind_done _ _ s1 _ s1 eq_refl). rewrite u32_small by (unfold is_u32; lia). done. }
  rewrite (bind_done _ _ _ _ _ H1). set (s2 := lg_set_buffer _ s1) in *.
  assert (H2 : format_at (Z.of_nat (length h)) (u32 (SYSLOG_BUFFER_MAX_SIZE - Z.of_nat (length h))) m s2 =
    Done (Z.of_nat (length m), at_output s me level place m)).
  { unfold format_at. rewrite (bind_done _ _ s2 s2 s2 eq_refl). unfold SYSLOG_BUFFER_MAX_SIZE.
    rewrite (u32_small (4096 - _)) by (unfold is_u32; lia).
    rewrite (snprintf_at_spec (length h) m (lg_buffer s2)) by
      (done || (cbn; rewrite splice_length; [done|rewrite length_app; cbn [length]; lia])).
    rewrite (bind_done _ _ s2 _ s2 eq_refl). rewrite u32_small by (unfold is_u32; lia). done. }
  rewrite (bind_done _ _ _ _ _ H2). rewrite u32_small by (unfold is_u32; lia). by rewrite <- Nat2Z.inj_add.
Qed.

(** The console: client [i] of the serial server, with device [dev]. *)
Record console_ok s a cs (i : nat) (x : loc * loc) (c : sel4osapi_serialclient_t) (dev : uart) : Prop := {
  cn_clients : clients_rep (clients (lg_serial s)) a cs;
  cn_client : client_at a cs i x c;
  cn_size : srv_op_size (lg_serial s) <= SEL4OSAPI_SERIAL_BUF_SIZE;
  cn_device : 0 < lg_console s < 2 ^ 32 /\ device_of (lg_console s) = Some dev
}.

(** What one write of [bs] to the console does to the board. *)
Definition console_write (c : sel4osapi_serialclient_t) (dev : uart) bs (d : D) : D :=
  sel4osapi_semaphore_give (buf_avail c) (put_all dev bs (sel4osapi_semaphore_take (buf_avail c) 0 d)).

Lemma wp_console s a cs i x c dev fuel (len : nat) : console_ok s a cs i x c dev -> (len <= 4096)%nat -> length (lg_buffer s) = 4096%nat ->
  wp (syslog_outMessage fuel (Some x.2) (Z.of_nat len)) (fun _ s' => exists r, s' = lg_set_serial r s /\
    env r = console_write c dev [10] (console_write c dev (take len (lg_buffer s)) (env (lg_serial s)))) s.
Proof.
  intros [R Hx Hop [Hcon Hdev]] Hlen Hb. unfold syslog_outMessage. wp_step. wp_step.
  rewrite (proj2 (Z.eqb_neq _ _)) by lia. cbn [negb].
  wp_step. unfold on_lg_serial at 1. apply wp_zoom. eapply wp_mono.
  { eapply (wp_client_write (lg_serial s) a cs i x c _ dev); [exact R|exact Hx|exact Hop|unfold is_u32; lia|exact Hdev
      |rewrite serial_buf_4096; lia|rewrite Hb; lia]. }
  intros r s1 (_ & p' & a' & b' & R1 & Hbusy & _ & ->). wp_step. unfold on_lg_serial. apply wp_zoom. eapply wp_mono.
  { eapply (wp_client_write _ a' (<[i := set_buf b' c]> cs) i x (set_buf b' c) _ dev); [exact R1| | |unfold is_u32; lia|exact Hdev
      |rewrite serial_buf_4096; lia|cbn [length]; lia].
    - destruct Hx as [Hx1 Hx2]. split; [by rewrite Hbusy|]. apply list_lookup_insert_eq. by eapply lookup_lt_Some.
    - cbn. rewrite serial_buf_4096. lia. }
  intros r2 s2 (_ & p2 & a2 & b2 & _ & _ & _ & ->). wp_step. eexists. split; [reflexivity|]. cbn. unfold console_write.
  by rewrite Nat2Z.id.
Qed.

(** C37: A message whose level is enabled and that fits the buffer is written to the
    console, prefixed with its header and followed by a newline, with the mutex of
    the log held, and released afterwards. *)
Theorem log_message_written s a cs i x c dev fuel me level place m :
  console_ok s a cs i x c dev -> enabled level s -> lockable s -> length (lg_buffer s) = 4096%nat ->
  (length (header s me level place) + length m < 4096)%nat ->
  exists s', syslog_logMessage fuel (Some x.2) me level place m s = Done (tt, s') /\
    env (lg_serial s') = console_write c dev [10] (console_write c dev (header s me level place ++ m) (env (lg_serial s))) /\
    lg_sync s' = unlocked (lg_mutex s) (locked (lg_mutex s) (lg_sync s)) /\ lg_out s' = lg_out s /\ length (lg_buffer s') = 4096%nat.
Proof.
  intros Hcon Hen Hlock Hb Hlen. rewrite log_message_eq by (done || lia). set (s1 := at_output s me level place m).
  assert (Hb1 : length (lg_buffer s1) = 4096%nat) by (apply formatted_length; [lia|done]).
  assert (Hcon1 : console_ok s1 a cs i x c dev) by (destruct Hcon; by split).
  assert (Hw : wp (syslog_outMessage fuel (Some x.2) (Z.of_nat (length (header s me level place) + length m)) ;;
    (if non_null (lg_mutex s) then sel4osapi_log_unlock else ret tt)) (fun _ s' => exists r,
      s' = lg_set_sync (unlocked (lg_mutex s) (lg_sync s1)) (lg_set_serial r s1) /\
      env r = console_write c dev [10] (console_write c dev (header s me level place ++ m) (env (lg_serial s)))) s1).
  { wp_step. eapply wp_mono; [eapply wp_console; [exact Hcon1|lia|exact Hb1]|]. intros ? s2 (r & -> & Hr).
    apply (wp_log_unlock (lg_set_serial r s1)). exists r. split; [done|].
    rewrite Hr. do 2 f_equal. change (lg_buffer s1) with (formatted (header s me level place) m (lg_buffer s)). by apply formatted_take. }
  destruct Hw as ([] & s' & Hrun & r & -> & Hr). eexists. split; [exact Hrun|]. split; [exact Hr|]. split; [done|]. split; [done|]. exact Hb1.
Qed.

(** When messages of this level are not enabled, changing the console is all
    that happens. *)
Lemma set_console_quiet s fuel client me file c : ~ enabled LOG_LEVEL_INFO s ->
  sel4osapi_log_set_console fuel client me file c s = Done (tt, lg_set_console c s).
Proof.
  intros Hno. assert (Hq : forall s' place m, lg_level s' = lg_level s -> syslog_logMessage fuel client me LOG_LEVEL_INFO place m s' = Done (tt, s')).
  { intros s' place m Hl. unfold syslog_logMessage. rewrite (bind_done _ _ s' s' s' eq_refl), (proj2 (Z.leb_gt _ _)); [done|].
    unfold enabled in Hno. rewrite Hl. lia. }
  unfold sel4osapi_log_set_console. rewrite !(bind_done _ _ _ _ _ (Hq s _ _ eq_refl)).
  rewrite (bind_done _ _ s tt (lg_set_console c s) eq_refl). by apply Hq.
Qed.

(** Without a console the text goes to [puts], cut after 4095 characters; a
    message whose level is not enabled does nothing at all. *)
Theorem log_message_filtered s fuel client me level place m :
  (~ enabled level s -> syslog_logMessage fuel client me level place m s = Done (tt, s)) /\
  (enabled level s -> lockable s -> length (lg_buffer s) = 4096%nat -> lg_console s = 0 ->
   (length (header s me level place) < 4096)%nat -> Z.of_nat (length (header s me level place) + length m) < 2 ^ 32 ->
   Forall (fun b => b <> 0) (header s me level place ++ m) ->
   exists s', syslog_logMessage fuel client me level place m s = Done (tt, s') /\
     lg_out s' = lg_out s ++ [take 4095 (header s me level place ++ m)] /\ lg_serial s' = lg_serial s).
Proof.
  split.
  - intros Hno. unfold syslog_logMessage. rewrite (bind_done _ _ s s s eq_refl), (proj2 (Z.leb_gt _ _)); [done|].
    unfold enabled in Hno. lia.
  - intros Hen Hlock Hb Hcon Hh Hlt Hnz. rewrite log_message_eq by done. set (s1 := at_output s me level place m).
    assert (Ho : syslog_outMessage fuel client (Z.of_nat (length (header s me level place) + length m)) s1 =
      Done (tt, lg_put (take 4095 (header s me level place ++ m)) s1)).
    { unfold syslog_outMessage. rewrite (bind_done _ _ s1 s1 s1 eq_refl). change (lg_console s1) with (lg_console s). rewrite Hcon.
      change (lg_buffer s1) with (formatted (header s me level place) m (lg_buffer s)). by rewrite formatted_string. }
    rewrite (bind_done _ _ _ _ _ Ho).
    destruct (wp_log_unlock (lg_put (take 4095 (header s me level place ++ m)) s1) (fun _ s' =>
      lg_out s' = lg_out s ++ [take 4095 (header s me level place ++ m)] /\ lg_serial s' = lg_serial s)) as ([] & s' & Hr & H1); [done|].
    by exists s'.
Qed.

(** C38: A message that does not fit the buffer stops the task when the log goes to
    a console: snprintf returns the length of the whole text, and the write to
    the console asserts that no more than 4096 bytes are written.  The mutex of
    the log is held then. *)
Theorem log_long_message_asserts s a cs i x c dev fuel me level place m :
  console_ok s a cs i x c dev -> enabled level s -> lockable s -> length (lg_buffer s) = 4096%nat ->
  (length (header s me level place) < 4096)%nat -> 4096 < Z.of_nat (length (header s me level place) + length m) < 2 ^ 32 ->
  syslog_logMessage fuel (Some x.2) me level place m s = Assert_failed.
Proof.
  intros [R Hx Hop [Hcon Hdev]] Hen Hlock Hb Hh [Hgt Hlt]. rewrite log_message_eq by done. set (s1 := at_output s me level place m).
  apply bind_assert_failed. unfold syslog_outMessage. rewrite (bind_done _ _ s1 s1 s1 eq_refl).
  change (lg_console s1) with (lg_console s). rewrite (proj2 (Z.eqb_neq _ _)) by lia. cbn [negb].
  apply bind_assert_failed. unfold on_lg_serial, zoom, sel4osapi_io_serial_write. change (lg_serial s1) with (lg_serial s).
  destruct (wp_read_client (lg_serial s) a cs i x c (fun c' (s' : serial_state D) => c' = c /\ s' = lg_serial s) R Hx) as (c' & s' & Hr & -> & ->); [done|].
  rewrite (bind_done _ _ _ _ _ Hr). destruct (client_at_ok _ _ _ _ _ _ R Hx) as [-> _].
  rewrite bind_assert_failed; [done|]. unfold assert_. rewrite serial_buf_4096, (proj2 (Z.leb_gt _ _)) by lia. done.
Qed.
End log_spec.

Section samples.
#[local] Existing Instance default_config.

Definition sample_main : sel4osapi_thread_info_t := ThreadInfo 0 (bytes_of "p-01-main" ++ [0; 0]) 0 0 1 0 100 0 0.
Definition sample_place : log_place := LogPlace (bytes_of "src/main.c") (bytes_of "main") 42.
Definition sample_log (console : Z) : log_state Serial.board sync_view :=
  LogState LOG_LEVEL_INFO (Some 1%positive) console (replicate 4096 0)
    (SyncState (Heap 1 4096 ∅ ∅ ∅) (SyncView {[1%positive]} ∅ 8)) Serial.sample_serial.2 [].

Lemma sample_console_ok : exists x a c, Serial.sample_serial.1 = Some x.2 /\ console_ok (sample_log 1) a [c] 0 x c uart1.
Proof.
  destruct sample_serial_ok as (x & a & c & b & Hr & R & Hx & _ & _ & Hop). exists x, a, c. split; [exact Hr|].
  split; unfold sample_log; cbn [lg_serial lg_console]; [exact R|exact Hx|exact Hop|].
  split; [split; [apply Z.ltb_lt; reflexivity|apply Z.ltb_lt; reflexivity]|reflexivity].
Qed.

Lemma sample_header_length console : length (header (sample_log console) sample_main LOG_LEVEL_WARN sample_place) = 45%nat.
Proof. reflexivity. Qed.

Lemma log_message_written_witness : exists s',
  syslog_logMessage 0 Serial.sample_serial.1 sample_main LOG_LEVEL_WARN sample_place (bytes_of "hello") (sample_log 1) = Done (tt, s') /\
  outgoing (env (lg_serial s')) = pair uart1 <$> (bytes_of "[p-01-main][100][src/main.c:42][main][ WARN] hello" ++ [10]).
Proof.
  destruct sample_console_ok as (x & a & c & Hr & Hcon). rewrite Hr.
  destruct (log_message_written (sample_log 1) a [c] 0 x c uart1 0 sample_main LOG_LEVEL_WARN sample_place (bytes_of "hello") Hcon)
    as (s' & H1 & H2 & _).
  - by apply Z.leb_le.
  - reflexivity.
  - apply length_replicate.
  - rewrite sample_header_length. apply Nat.ltb_lt. reflexivity.
  - exists s'. split; [exact H1|]. rewrite H2. cbn [lg_serial sample_log]. rewrite sample_board_env. vm_compute. reflexivity.
Defined.

Lemma log_message_filtered_witness : exists s',
  syslog_logMessage 0 NULL sample_main LOG_LEVEL_WARN sample_place (bytes_of "hello") (sample_log 0) = Done (tt, s') /\
  lg_out s' = [bytes_of "[p-01-main][100][src/main.c:42][main][ WARN] hello"] /\
  syslog_logMessage 0 NULL sample_main LOG_LEVEL_TRACE sample_place (bytes_of "hello") (sample_log 0) = Done (tt, sample_log 0).
Proof.
  destruct (log_message_filtered (sample_log 0) 0 NULL sample_main LOG_LEVEL_WARN sample_place (bytes_of "hello")) as [_ H].
  destruct (log_message_filtered (sample_log 0) 0 NULL sample_main LOG_LEVEL_TRACE sample_place (bytes_of "hello")) as [Hn _].
  destruct H as (s' & H1 & H2 & _).
  - by apply Z.leb_le.
  - reflexivity.
  - apply length_replicate.
  - reflexivity.
  - rewrite sample_header_length. apply Nat.ltb_lt. reflexivity.
  - rewrite sample_header_length. apply Z.ltb_lt. reflexivity.
  - vm_compute. repeat constructor; discriminate.
  - exists s'. split; [exact H1|]. split; [rewrite H2; vm_compute; reflexivity|]. apply Hn. intros Hen%Z.leb_le. discriminate Hen.
Defined.

Lemma log_long_message_asserts_witness :
  syslog_logMessage 0 Serial.sample_serial.1 sample_main LOG_LEVEL_WARN sample_place (replicate 4096 65) (sample_log 1) = Assert_failed.
Proof.
  destruct sample_console_ok as (x & a & c & Hr & Hcon). rewrite Hr.
  apply (log_long_message_asserts (sample_log 1) a [c] 0 x c uart1 0 sample_main LOG_LEVEL_WARN sample_place (replicate 4096 65) Hcon).
  - by apply Z.leb_le.
  - reflexivity.
  - apply length_replicate.
  - rewrite sample_header_length. apply Nat.ltb_lt. reflexivity.
  - rewrite sample_header_length, length_replicate. split; [apply Z.ltb_lt|apply Z.ltb_lt]; reflexivity.
Defined.
End samples.
